(* ===== verification/_CoqProject ===== *)
-Q . S2P
Prelude.v
Double.v
Header.v
Context.v
World.v
Crypt.v
ContextTable.v
Pools.v
RetransQueue.v
Select.v
Congestion.v
Lifecycle.v
Send.v
Scenario.v
Services.v
Intervals.v
Reassembly.v
Receiver.v
Transmit.v
Ack.v
Acknowledge.v
Challenge.v
Teardown.v
Migration.v
Closing.v
Handshake.v
Wire.v
Timeout.v
Recovery.v
EventLoop.v
Batch.v
Socket.v
Delivery.v
Opening.v
Establish.v
Arrival.v
Options.v
Log.v
Poll.v
Route.v
Mobile.v
Deadline.v
Writing.v
EndToEnd.v
Completion.v
Session.v
