(* ===== verification/Prelude.v ===== *)
(** * D2TP (libdtp): verification library

    D2TP is the transport protocol of CEDOS: a reliable byte stream over UDP whose
    connections survive a change of the address of a host.  It is implemented in C by
    the library under src/libdtp/src.  This development models the host build of the
    library (IN_MOBILE, ANDROID, HAVE_SCHEDULER and EXPERIMENTAL undefined) and proves
    what its connections, queues and socket calls promise.  Mobile.v and Deadline.v are
    about what the build for a phone (IN_MOBILE) adds to it.

    ** How the program is modelled

    A function of the library is a Definition of the same name in the monad [M] of
    World.v: state passing over [world], the static variables of the files of the
    library, its heaps of packets and interval nodes and what it has handed to the
    system, stopping at a [fault] (this file) where the C program would access memory
    it must not, unlink what is not linked, use what is not initialised, or loop for
    ever.  Loops and long functions are split where the code has blocks; the comments
    name the block.  Integers are [Z]; the width is written out ([u32], [i32], and
    [+u], [-u] for unsigned arithmetic).  Buffers are lists of bytes with the bounds
    of the allocated block checked on every access; [double]s are the IEEE-754
    operations of the Standard Library.  Everything evaluates: the Examples are
    computed runs on the host of Scenario.v.

    What the library calls but does not define is the class [Env] of World.v: the
    clock, the outcome of [sendto], random numbers, SHA-1, HMAC, RSA, what other
    threads do while a call waits.  The theorems assume of it, where they need to:
    [NetUp] (Send.v), the kernel takes a datagram after finitely many EAGAIN;
    [Oracles] (Migration.v), digests have their length; [select_ok] (Poll.v), the
    documented behaviour of [select], failures included; [RandUp] (Crypt.v), that of the random devices;
    [KeyPair] (Establish.v), what one host encrypts the other decrypts.  Scenario.v,
    Migration.v, Poll.v and Establish.v have an instance of each.

    ** The parts and their files

    - dtp.h, dtp.c (header, options): Header.v.  [struct dtp_hdr] as 20 bytes.
    - dtp_transport.h (contexts, packets, constants): Context.v; Double.v for
      [double] and [struct timeval].
    - context.c (context table, flow-ID map, packet pool): ContextTable.v, Pools.v.
    - dtp_retrans_queue.c: RetransQueue.v.  dtp_select.c: Select.v.
    - dtp_transport.c: Congestion.v (windows, RTT), Lifecycle.v (creating and closing
      contexts), Send.v (sending), Reassembly.v (data), Ack.v (acknowledgements),
      Challenge.v (address change), Teardown.v (FIN, RST), Handshake.v (SYN, key),
      Timeout.v (timers), EventLoop.v (the thread of the library).
    - dtp_socket.c: Socket.v (the calls on a connection), Options.v (options, fcntl,
      ioctl), Poll.v (select, poll), Route.v (interface of a route, lock time).
    - crypt.c (session keys): Crypt.v.  dtp_log.c (statistics): Log.v.
    - dtp_mobile.c, scheduler.c (interfaces, deadlines, upload scheduler): Mobile.v.

    The application calls the functions of dtp_socket.c; they share the contexts with
    the thread of the library, which reads datagrams ([OnReadEvent]), runs the timer
    ([HandleTimeout]) and is told about new sockets over a socket pair
    ([DTPMainThreadEvent]).  The timer serves the connections on the retransmission
    queue; the readiness sets of dtp_select.c connect both sides.

    ** What is proved

    - Reliability (EndToEnd.v): two hosts over a network that loses, duplicates,
      delays and reorders datagrams, with applications that write and read and a timer
      that fires at any time.  No handler fails, what is read is exactly what was
      written, no byte that has not arrived is dropped by the sender, and a timeout
      repairs a loss.  It is composed from the two halves below.  The hosts never get
      stuck: after any run a further one delivers the rest (Completion.v).
    - A connection (Session.v): the handshake of two hosts ends in the invariant of
      EndToEnd.v, so that what is proved there holds of every connection a client opens
      at a server whose other connections are at rest.
    - Opening (Opening.v, Establish.v, Crypt.v): client and server agree on key, flow ID,
      host IDs and positions when the three packets of the handshake are delivered; a
      key takes exactly its bytes from the random devices.
    - The event loop (Batch.v, Arrival.v): packets that arrive together are processed as
      one aggregate, and a batch of segments is delivered with one acknowledgement.
    - The receive side (Intervals.v, Receiver.v, Delivery.v): [rcv_ok] relates the read
      buffer and its linked list of intervals to the set of positions that have
      arrived; [HandleNormalPacket] refines the arrival of a segment, [dtp_recv]
      delivers the stream in order.
    - The send side (Transmit.v, Acknowledge.v, Recovery.v, Writing.v): [snd_ok] relates
      the write buffer and the packet queue to the stream; kept by [dtp_send],
      [DTPWriteAvail], [HandleACKPacket] and [HandleTimeout]; windows are respected,
      a cumulative acknowledgement retires exactly what it covers, a timeout goes back
      to the first missing byte.
    - Mobility (Migration.v): a wrong HMAC changes nothing; between two hosts with the
      same key the challenge moves the connection.
    - Teardown (Closing.v, Recovery.v): the transitions of FIN, RST with its host ID,
      the release of what a connection holds, the end of TIME_WAIT.
    - Data formats (Header.v, Wire.v): headers and options are read back as written;
      whatever arrives, what is read from it has its type.
    - Deadlines (Mobile.v, Deadline.v): each round of the timer closes the first expired
      connection of the queue, and the scheduler lets only the earliest of the others send.
    - Services (Services.v): flow-ID map, packet pool, retransmission queue, congestion
      window.
    - Socket calls (Options.v, Poll.v, Route.v): an option is read back, a deadline keeps
      the queue sorted, [dtp_select] reports only and at once what is ready and is woken
      when it sleeps, [dtp_poll] answers for every entry, the longest prefix of a routing table in the
      format of /proc/net/route is found.

    Some theorems and Examples state what the code does where it does not do what it
    means to: an option of size 0 is an endless loop, a window that shrinks is not
    enforced, a segment far ahead is copied outside the buffer, a wake-up of
    [dtp_select] can be lost, the acknowledgement of a FIN does not cover it, an AUTH
    packet can be without effect, [HandleTimeout] can deadlock, a second SYN replaces the
    session key, a failing random device moves the write before the buffer, a timer that
    closes a connection does not reach the ones queued behind it ([queue_each] of
    Timeout.v), a failing system call makes [dtp_select] miscount.

    ** Bounds and fuel

    A loop whose number of rounds the code does not bound by a counter has fuel, and the
    theorems show that it is enough: [send_fuel] (a segment carries at least a byte),
    the length of the list for the intervals and packets, the length of the file for
    the routes, the results of the reads for the random devices.  The option loop, which can be endless, has as fuel the length of the
    header plus one; running out of it is the fault [Spin].  [wakes] of a call that
    blocks is how often it may be woken, with [Spin] when it waits for ever; the
    theorems about what a call returns are about calls that do not block, hold for every
    [wakes] ([select_sound]), or say how many it takes ([select_wakes]).  Stream
    positions are 32-bit numbers; the theorems about a stream hold while it is shorter
    than 2^32 bytes, those about two hosts up to 2^30.

    ** What is not modelled

    - A network that keeps copies of the packets of a handshake until data flows: Session.v
      starts with the datagrams sent after it ([forget]).  The two hosts of EndToEnd.v and
      Session.v have one connection that sends, in one direction, beside connections that
      the timer has nothing to do for.
    - Mutexes: the code between a lock and its unlock is a step.  [g_timerLock] is kept,
      because the timer takes it twice.
    - Failing [malloc], pthread and [gettimeofday] calls.
    - debug.c (output), dtp_sockwrapper.c (glue to Java), ifaddrs.c (third-party code whose
      only call is disabled).  Of the code under IN_MOBILE in dtp_transport.c and
      dtp_socket.c only [DTPSendACKPacket] is in Mobile.v; the registration of the handlers
      with libevent and the decoding of netlink messages are not modelled.
    - src/ReadyCast (an application; its jni directory is a copy of the library) and
      src/dprox-nginx (a patched nginx). *)

From stdpp Require Export base tactics numbers list gmap sets.
From Stdlib Require Export ZArith Lia.
#[global] Open Scope Z_scope.

(** Every file of the library works on [Z]; the scope below carries the
    notations of the C operators that have no counterpart in [Z_scope]. *)
Declare Scope c_scope.
Delimit Scope c_scope with c.

(** ** Machine integers

    A C integer is a [Z]; [u8], [u16] and [u32] are the conversions to the
    unsigned types (reduction modulo the width), [i32] the conversion to
    [int] (two's complement, as gcc defines it). *)

Definition u8 (x : Z) : Z := x mod 2 ^ 8.
Definition u16 (x : Z) : Z := x mod 2 ^ 16.
Definition u32 (x : Z) : Z := x mod 2 ^ 32.
Definition i32 (x : Z) : Z := (x + 2 ^ 31) mod 2 ^ 32 - 2 ^ 31.

Definition is_u8 (x : Z) : Prop := 0 ≤ x < 2 ^ 8.
Definition is_u16 (x : Z) : Prop := 0 ≤ x < 2 ^ 16.
Definition is_u32 (x : Z) : Prop := 0 ≤ x < 2 ^ 32.
Definition is_i32 (x : Z) : Prop := - 2 ^ 31 ≤ x < 2 ^ 31.

Notation "x +u y" := (u32 (x + y)) (at level 50, left associativity) : c_scope.
Notation "x -u y" := (u32 (x - y)) (at level 50, left associativity) : c_scope.
#[global] Open Scope c_scope.

(** The macros [MIN]/[MAX]/[__min] of dtp_transport.h and dtp.h, on operands
    whose C comparison is the comparison of their values. *)
Definition c_min (a b : Z) : Z := if a <? b then a else b.
Definition c_max (a b : Z) : Z := if b <? a then a else b.
Definition c__min (x y : Z) : Z := if y <? x then y else x.

Create HintDb dtp.
Create Rewrite HintDb dtp_rw.
Create Rewrite HintDb mem.

Ltac unfold_ints :=
  unfold is_u8, is_u16, is_u32, is_i32, u8, u16, u32, i32,
    c_min, c_max, c__min in *.

Lemma u32_small x : is_u32 x → u32 x = x.
Proof. unfold_ints. intros. by apply Z.mod_small. Qed.

Lemma u16_small x : is_u16 x → u16 x = x.
Proof. unfold_ints. intros. by apply Z.mod_small. Qed.

Lemma u8_small x : is_u8 x → u8 x = x.
Proof. unfold_ints. intros. by apply Z.mod_small. Qed.

Lemma i32_small x : is_i32 x → i32 x = x.
Proof. unfold_ints. intros. rewrite Z.mod_small; lia. Qed.

Lemma u32_range x : is_u32 (u32 x).
Proof. unfold_ints. apply Z.mod_pos_bound. lia. Qed.

Lemma u16_range x : is_u16 (u16 x).
Proof. unfold_ints. apply Z.mod_pos_bound. lia. Qed.

Lemma u8_range x : is_u8 (u8 x).
Proof. unfold_ints. apply Z.mod_pos_bound. lia. Qed.

Lemma i32_range x : is_i32 (i32 x).
Proof. unfold_ints. pose proof (Z.mod_pos_bound (x + 2 ^ 31) (2 ^ 32)). lia. Qed.

(** Subtraction of unsigned values read back as an [int]: the idiom
    [int len = a - b] of the source is exact while the difference fits. *)
Lemma i32_u32 x : i32 (u32 x) = i32 x.
Proof.
  unfold_ints. f_equal. rewrite Zplus_mod_idemp_l. done.
Qed.

Lemma i32_sub_u32 a b : is_i32 (a - b) → i32 (a -u b) = a - b.
Proof. intros. rewrite i32_u32. by apply i32_small. Qed.

Lemma u32_neg x : - 2 ^ 32 ≤ x < 0 → u32 x = x + 2 ^ 32.
Proof.
  intros. unfold u32. symmetry. apply Z.mod_unique with (q := -1); lia.
Qed.

Lemma u32_big x : 2 ^ 32 ≤ x < 2 * 2 ^ 32 → u32 x = x - 2 ^ 32.
Proof.
  intros. unfold u32. symmetry. apply Z.mod_unique with (q := 1); lia.
Qed.

#[export] Hint Resolve u32_range u16_range u8_range i32_range : dtp.
#[export] Hint Rewrite i32_u32 : dtp_rw.

(** [ints]: discharge a goal on machine integers whose operations stay in
    range, by rewriting the conversions away. *)
Ltac ints_rw :=
  repeat match goal with
  | |- context [u32 ?e] => rewrite (u32_small e) by (unfold_ints; lia)
  | |- context [i32 ?e] => rewrite (i32_small e) by (unfold_ints; lia)
  | |- context [u16 ?e] => rewrite (u16_small e) by (unfold_ints; lia)
  | |- context [u8 ?e] => rewrite (u8_small e) by (unfold_ints; lia)
  end.

Ltac ints_rw_in H :=
  repeat match type of H with
  | context [u32 ?e] => rewrite (u32_small e) in H by (unfold_ints; lia)
  | context [i32 ?e] => rewrite (i32_small e) in H by (unfold_ints; lia)
  | context [u16 ?e] => rewrite (u16_small e) in H by (unfold_ints; lia)
  end.

(** Case analysis on the boolean comparisons of the goal. *)
Ltac case_cmp :=
  repeat match goal with
  | |- context [Z.ltb ?a ?b] => destruct (Z.ltb_spec a b)
  | |- context [Z.leb ?a ?b] => destruct (Z.leb_spec a b)
  | |- context [Z.eqb ?a ?b] => destruct (Z.eqb_spec a b)
  end.

Ltac ints := ints_rw; unfold_ints; case_cmp; try lia.

(** ** Memory blocks

    A C object of bytes is a list of [Z] (each in [0, 256)); offsets and
    lengths are [Z] as in the source. *)

Abbreviation bytes := (list Z) (only parsing).

Definition zlen {A} (l : list A) : Z := Z.of_nat (length l).

(** [zslice off n l]: the [n] bytes of [l] from offset [off]. *)
Definition zslice {A} (off n : Z) (l : list A) : list A :=
  take (Z.to_nat n) (drop (Z.to_nat off) l).

(** [zsplice off src dst]: [dst] with [src] copied at [off] ([memcpy]). *)
Definition zsplice {A} (off : Z) (src dst : list A) : list A :=
  take (Z.to_nat off) dst ++ src ++ drop (Z.to_nat off + length src) dst.

Definition zget (l : bytes) (i : Z) : Z := nth (Z.to_nat i) l 0.
Definition zset (i : Z) (v : Z) (l : bytes) : bytes := <[Z.to_nat i := v]> l.
Definition zeros (n : Z) : bytes := replicate (Z.to_nat n) 0.

Definition in_block {A} (off n : Z) (l : list A) : bool :=
  (0 <=? off) && (0 <=? n) && (off + n <=? zlen l).

Section memory.
Context {A : Type}.
Implicit Types (l src dst : list A).

Lemma in_block_spec off n l :
  in_block off n l = true ↔ 0 ≤ off ∧ 0 ≤ n ∧ off + n ≤ zlen l.
Proof.
  unfold in_block. rewrite !andb_true_iff, !Z.leb_le. tauto.
Qed.

Lemma zlen_app l l' : zlen (l ++ l') = zlen l + zlen l'.
Proof. unfold zlen. rewrite length_app. lia. Qed.

Lemma zlen_nonneg l : 0 ≤ zlen l.
Proof. unfold zlen. lia. Qed.

Lemma zlen_slice off n l : 0 ≤ off → 0 ≤ n → off + n ≤ zlen l → zlen (zslice off n l) = n.
Proof. unfold zlen, zslice. intros. rewrite length_take, length_drop. lia. Qed.

Lemma zlen_splice off src dst :
  0 ≤ off → off + zlen src ≤ zlen dst → zlen (zsplice off src dst) = zlen dst.
Proof.
  unfold zlen, zsplice. intros.
  rewrite !length_app, length_take, length_drop. lia.
Qed.

Lemma lookup_zslice off n l (i : nat) :
  0 ≤ off → zslice off n l !! i
            = if decide (Z.of_nat i < n) then l !! (Z.to_nat off + i)%nat else None.
Proof.
  intros. unfold zslice. case_decide.
  - rewrite lookup_take_lt by lia. apply lookup_drop.
  - apply lookup_take_ge. lia.
Qed.

Lemma lookup_zsplice off src dst (i : nat) :
  0 ≤ off → off + zlen src ≤ zlen dst →
  zsplice off src dst !! i =
    if decide (off ≤ Z.of_nat i < off + zlen src)
    then src !! (i - Z.to_nat off)%nat else dst !! i.
Proof.
  unfold zlen, zsplice. intros Hoff Hlen. case_decide.
  - rewrite lookup_app_r by (rewrite length_take; lia).
    rewrite lookup_app_l by (rewrite length_take; lia).
    rewrite length_take. f_equal. lia.
  - destruct (decide (Z.of_nat i < off)).
    + rewrite lookup_app_l by (rewrite length_take; lia).
      apply lookup_take_lt. lia.
    + rewrite lookup_app_r by (rewrite length_take; lia).
      rewrite lookup_app_r by (rewrite length_take; lia).
      rewrite lookup_drop, length_take. f_equal. lia.
Qed.

Lemma zslice_splice_same off src dst :
  0 ≤ off → off + zlen src ≤ zlen dst → zslice off (zlen src) (zsplice off src dst) = src.
Proof.
  intros. apply list_eq. intros i.
  rewrite lookup_zslice by done. case_decide.
  - rewrite lookup_zsplice by done. rewrite decide_True by lia. f_equal. lia.
  - symmetry. apply lookup_ge_None_2. unfold zlen in *. lia.
Qed.

Lemma zslice_splice_disjoint off n off' src dst :
  0 ≤ off → 0 ≤ off' → off' + zlen src ≤ zlen dst →
  off + n ≤ off' ∨ off' + zlen src ≤ off →
  zslice off n (zsplice off' src dst) = zslice off n dst.
Proof.
  intros. apply list_eq. intros i.
  rewrite !lookup_zslice by done. case_decide; [|done].
  rewrite lookup_zsplice by done. by rewrite decide_False by lia.
Qed.

Lemma zslice_slice off n off' n' l :
  0 ≤ off → 0 ≤ off' → off' + n' ≤ n →
  zslice off' n' (zslice off n l) = zslice (off + off') n' l.
Proof.
  intros. apply list_eq. intros i.
  rewrite (lookup_zslice off') by done. rewrite (lookup_zslice (off + off')) by lia.
  case_decide; [|done]. rewrite lookup_zslice by done.
  rewrite decide_True by lia. f_equal. lia.
Qed.

Lemma zslice_app_l off n l l' : 0 ≤ off → off + n ≤ zlen l → zslice off n (l ++ l') = zslice off n l.
Proof.
  intros. apply list_eq. intros i. rewrite !lookup_zslice by done.
  case_decide; [|done]. apply lookup_app_l. unfold zlen in *. lia.
Qed.

Lemma zslice_app_r off n l l' :
  zlen l ≤ off → zslice off n (l ++ l') = zslice (off - zlen l) n l'.
Proof.
  intros. pose proof (zlen_nonneg l). apply list_eq. intros i.
  rewrite !lookup_zslice by lia. case_decide; [|done].
  rewrite lookup_app_r by (unfold zlen in *; lia). f_equal. unfold zlen in *. lia.
Qed.

Lemma zslice_all l : zslice 0 (zlen l) l = l.
Proof. unfold zslice, zlen. rewrite Nat2Z.id. simpl. by rewrite firstn_all. Qed.

Lemma zslice_nonpos off n l : n ≤ 0 → zslice off n l = [].
Proof. intros. unfold zslice. by replace (Z.to_nat n) with 0%nat by lia. Qed.

Lemma zslice_split off n m l :
  0 ≤ off → 0 ≤ n → 0 ≤ m → zslice off (n + m) l = zslice off n l ++ zslice (off + n) m l.
Proof.
  intros. unfold zslice.
  replace (Z.to_nat (n + m)) with (Z.to_nat n + Z.to_nat m)%nat by lia.
  rewrite <- take_take_drop, drop_drop. do 3 f_equal. lia.
Qed.
End memory.

Lemma zlen_zeros n : 0 ≤ n → zlen (zeros n) = n.
Proof. intros. unfold zlen, zeros. rewrite length_replicate. lia. Qed.

Lemma zlen_zset i v l : zlen (zset i v l) = zlen l.
Proof. unfold zlen, zset. by rewrite length_insert. Qed.

Lemma zget_lookup l i : 0 ≤ i < zlen l → l !! Z.to_nat i = Some (zget l i).
Proof.
  unfold zlen, zget. intros. destruct (l !! Z.to_nat i) as [x|] eqn:E.
  - f_equal. symmetry. by apply nth_lookup_Some.
  - apply lookup_ge_None_1 in E. lia.
Qed.

Lemma zget_zset_eq l i v : 0 ≤ i < zlen l → zget (zset i v l) i = v.
Proof.
  unfold zlen, zget, zset. intros. apply nth_lookup_Some.
  apply list_lookup_insert_eq. lia.
Qed.

Lemma zget_zset_ne l i j v : 0 ≤ i → 0 ≤ j → i ≠ j → zget (zset i v l) j = zget l j.
Proof.
  unfold zget, zset. intros. rewrite !nth_lookup.
  by rewrite list_lookup_insert_ne by lia.
Qed.

Lemma zget_splice_out off src dst i :
  0 ≤ off → off + zlen src ≤ zlen dst → 0 ≤ i →
  i < off ∨ off + zlen src ≤ i → zget (zsplice off src dst) i = zget dst i.
Proof.
  intros. unfold zget. rewrite !nth_lookup, lookup_zsplice by done.
  by rewrite decide_False by lia.
Qed.

Lemma zget_splice_in off src dst i :
  0 ≤ off → off + zlen src ≤ zlen dst → off ≤ i < off + zlen src →
  zget (zsplice off src dst) i = zget src (i - off).
Proof.
  intros. unfold zget. rewrite !nth_lookup, lookup_zsplice by lia.
  rewrite decide_True by lia. do 3 f_equal; lia.
Qed.

Lemma zget_slice off n l i :
  0 ≤ off → 0 ≤ i < n → zget (zslice off n l) i = zget l (off + i).
Proof.
  intros. unfold zget. rewrite !nth_lookup, lookup_zslice by done.
  rewrite decide_True by lia. do 2 f_equal. lia.
Qed.

#[export] Hint Rewrite @zlen_app @zlen_splice @zlen_slice zlen_zset zlen_zeros
  using (rewrite ?zlen_app, ?zlen_zset; lia) : mem.

(** ** Byte orders *)

(** The bytes of a 32-bit value as [htonl] stores it (big endian). *)
Definition be32 (x : Z) : bytes :=
  [u8 (x / 2 ^ 24); u8 (x / 2 ^ 16); u8 (x / 2 ^ 8); u8 x].
Definition be16 (x : Z) : bytes := [u8 (x / 2 ^ 8); u8 x].

(** The bytes of a 32-bit object in a little-endian memory ([memcpy] of an
    [int]). *)
Definition le32 (x : Z) : bytes :=
  [u8 x; u8 (x / 2 ^ 8); u8 (x / 2 ^ 16); u8 (x / 2 ^ 24)].
Definition le16 (x : Z) : bytes := [u8 x; u8 (x / 2 ^ 8)].

Definition of_be (l : bytes) : Z := fold_left (λ a b, a * 2 ^ 8 + b) l 0.
Definition of_le (l : bytes) : Z := of_be (rev l).

Lemma of_be32 x : is_u32 x → of_be (be32 x) = x.
Proof. unfold of_be, be32. unfold_ints. simpl fold_left. intros. Z.div_mod_to_equations. lia. Qed.

Lemma of_be16 x : is_u16 x → of_be (be16 x) = x.
Proof. unfold of_be, be16. unfold_ints. simpl fold_left. intros. Z.div_mod_to_equations. lia. Qed.

Lemma of_le32 x : is_u32 x → of_le (le32 x) = x.
Proof. intros. apply (of_be32 x). done. Qed.

Lemma of_le16 x : is_u16 x → of_le (le16 x) = x.
Proof. intros. apply (of_be16 x). done. Qed.

(** ** Queues

    A [TAILQ] is the list of the elements on it; [list_remove] unlinks the first
    occurrence of an element. *)

Section list_remove.
Context {A : Type} `{!EqDecision A}.

Fixpoint list_remove (x : A) (l : list A) : option (list A) :=
  match l with
  | [] => None
  | y :: l => if decide (x = y) then Some l else cons y <$> list_remove x l
  end.

Lemma list_remove_Some x l l' :
  list_remove x l = Some l' → ∃ l1 l2, l = l1 ++ x :: l2 ∧ l' = l1 ++ l2 ∧ x ∉ l1.
Proof.
  revert l'. induction l as [|y l IH]; intros l'; simpl; [done|].
  case_decide as E.
  - intros [= ->]. subst. exists [], l'. split_and!; [done..|]. by intros ?%elem_of_nil.
  - intros (l0 & H0 & ->)%fmap_Some. destruct (IH l0 H0) as (l1 & l2 & -> & -> & Hn).
    exists (y :: l1), l2. split_and!; [done..|]. by intros [->|?]%elem_of_cons.
Qed.

Lemma list_remove_in x l : x ∈ l → ∃ l', list_remove x l = Some l'.
Proof.
  induction l as [|y l IH]; [by intros ?%elem_of_nil|]. simpl. intros Hx.
  case_decide; [eauto|]. apply elem_of_cons in Hx as [?|Hx]; [done|].
  destruct (IH Hx) as (l' & ->). eauto.
Qed.

Lemma list_remove_perm x l l' : list_remove x l = Some l' → l ≡ₚ x :: l'.
Proof.
  intros (l1 & l2 & -> & -> & _)%list_remove_Some. by rewrite Permutation_middle.
Qed.

Lemma list_remove_split x l1 l2 : x ∉ l1 → list_remove x (l1 ++ x :: l2) = Some (l1 ++ l2).
Proof.
  induction l1 as [|y l1 IH]; intros Hn; cbn; [by rewrite decide_True|].
  apply not_elem_of_cons in Hn as [Hxy Hn]. by rewrite decide_False, IH by done.
Qed.

Lemma list_remove_head x l : list_remove x (x :: l) = Some l.
Proof. simpl. by rewrite decide_True. Qed.
End list_remove.

(** ** Faults

    What the C program does outside its defined behaviour (or never stops
    doing) is a value of [fault]; a fallible definition returns a [res]. *)

Inductive fault :=
  | NullDeref    (* a NULL or unallocated pointer is dereferenced *)
  | OutOfBounds  (* an access outside an allocated object *)
  | NotLinked    (* TAILQ_REMOVE of an element that is on no list *)
  | Undefined    (* an uninitialised variable is used, or memory is freed twice *)
  | Spin.        (* a loop that never leaves *)

Inductive res (A : Type) :=
  | Ok (a : A)
  | Err (f : fault).
Arguments Ok {A} a.
Arguments Err {A} f.

#[export] Instance res_ret : MRet res := @Ok.
#[export] Instance res_bind : MBind res :=
  λ A B k m, match m with Ok a => k a | Err f => Err f end.

#[export] Instance fault_eq_dec : EqDecision fault.
Proof. solve_decision. Defined.

(** ** Record updates

    [r <| f := v |>] is the C assignment [r->f = v]. A record type declares
    its eta expansion once ([Eta]) and one [Setter] per field, built from it
    by [mk_setter]. *)

Class Setter {R T : Type} (proj : R → T) := set_with : (T → T) → R → R.
#[global] Hint Mode Setter - - ! : typeclass_instances.

Definition set {R T : Type} (proj : R → T) {S : Setter proj} : (T → T) → R → R :=
  @set_with R T proj S.

Notation "r <| f := v |>" := (set f (λ _, v) r)
  (at level 1, f at level 0, v at level 200, left associativity,
   format "r  <|  f  :=  v  |>") : c_scope.
Notation "r <| f ::= g |>" := (set f g r)
  (at level 1, f at level 0, g at level 200, left associativity,
   format "r  <|  f  ::=  g  |>") : c_scope.

(** [mk_setter eta]: replace the projection by its updated version in the
    eta expansion [eta := λ r, Build (f1 r) ... (fn r)] of the record. *)
Ltac mk_setter eta :=
  lazymatch goal with
  | |- @Setter ?R ?T ?proj =>
    let e := eval unfold eta in eta in
    lazymatch eval pattern proj in e with
    | ?upd _ => exact (λ (f : T → T), upd (λ r, f (proj r)))
    end
  end.

(** Read a field of an updated record. *)
Ltac simpl_rec := unfold set, set_with in *; cbn beta delta iota in *.
