(* ===== verification/Double.v ===== *)
(** * C [double]s and [struct timeval]

    The timers of dtp_transport.c compute in [double]: [tv_sec + tv_usec / 1e6],
    the RTT estimators and the retransmission timeout.  They are modelled by the
    bit-exact IEEE-754 binary64 operations of [SpecFloat] (round to nearest
    even), which evaluate, so the timeouts of the witnesses are the ones the
    program computes. *)

From S2P Require Import Prelude.
From Stdlib Require Import Floats.SpecFloat.

Definition double : Type := spec_float.

Definition prec64 : Z := 53.
Definition emax64 : Z := 1024.

Definition d_of_Z (z : Z) : double := binary_normalize prec64 emax64 z 0 false.
Definition d_add : double → double → double := SFadd prec64 emax64.
Definition d_sub : double → double → double := SFsub prec64 emax64.
Definition d_mul : double → double → double := SFmul prec64 emax64.
Definition d_div : double → double → double := SFdiv prec64 emax64.
Definition d_fabs : double → double := SFabs.
Definition d_lt : double → double → bool := SFltb.
Definition d_le : double → double → bool := SFleb.

(** [__min(x, y)] on doubles: [((x) > (y)) ? (y) : (x)]. *)
Definition d__min (x y : double) : double := if d_lt y x then y else x.

(** [struct timeval] as [gettimeofday] fills it. *)
Record timeval := mk_timeval { tv_sec : Z; tv_usec : Z }.

#[export] Instance timeval_eq_dec : EqDecision timeval.
Proof. solve_decision. Defined.

Definition tv_zero : timeval := mk_timeval 0 0.

(** [tv.tv_sec + (tv.tv_usec / 1e6)] *)
Definition d_of_tv (tv : timeval) : double :=
  d_add (d_of_Z (tv_sec tv)) (d_div (d_of_Z (tv_usec tv)) (d_of_Z 1000000)).

(** [now - tv.tv_sec - (tv.tv_usec / 1e6)] *)
Definition d_since (now : double) (tv : timeval) : double :=
  d_sub (d_sub now (d_of_Z (tv_sec tv))) (d_div (d_of_Z (tv_usec tv)) (d_of_Z 1000000)).

(** The comparison of a double with itself never holds strictly (NaN
    included), so [__min] never exceeds its second argument. *)
Lemma d_lt_irrefl x : d_lt x x = false.
Proof.
  unfold d_lt, SFltb. destruct x as [s|s| |s m e]; simpl; try done.
  - by destruct s.
  - destruct s; rewrite ?Z.compare_refl, ?Pos.compare_refl; simpl; try done;
      unfold CompOpp; by rewrite Pos.compare_cont_refl.
Qed.

Lemma d__min_le x y : d_lt y (d__min x y) = false.
Proof. unfold d__min. destruct (d_lt y x) eqn:E; [apply d_lt_irrefl | done]. Qed.

(** A value raised to a minimum is not below it. *)
Lemma d_clamp_ge r m : d_lt (if d_lt r m then m else r) m = false.
Proof. destruct (d_lt r m) eqn:E; [apply d_lt_irrefl|exact E]. Qed.

Example d_half : d_lt (d_of_Z 1) (d_div (d_of_Z 3) (d_of_Z 2)) = true.
Proof. reflexivity. Qed.
