(* ===== verification/Header.v ===== *)
(** * The D2TP header (dtp.h, dtp.c)

    [struct dtp_hdr] as 20 bytes of memory on a little-endian machine: the
    32-bit fields are stored by [htonl], the flags are bit fields of the bytes
    12 and 13.  [DTPGenerateHeader] and [DTPAddOptionToHeader] write a header in
    place, the [Get]/[Is] functions and [DTPGetOption] read one. *)

From S2P Require Import Prelude.

(** ** Layout (dtp.h) *)

Definition DTPHDRSIZE : Z := 20.  (* sizeof(struct dtp_hdr) *)

Definition DTPOPT_EOL : Z := 0.
Definition DTPOPT_NOP : Z := 1.
Definition DTPOPT_MSS : Z := 2.
Definition DTPOPT_WIN_SCALE : Z := 3.
Definition DTPOPT_SACK_PERM : Z := 4.
Definition DTPOPT_SACK : Z := 5.
Definition DTPOPT_HOST_ID : Z := 7.
Definition DTPOPT_PORT : Z := 8.
Definition DTPOPT_DEADLINE : Z := 9.

Definition DTPOLEN_MSS : Z := 4.
Definition DTPOLEN_WIN_SCALE : Z := 3.
Definition DTPOLEN_SACK_PERM : Z := 2.
Definition DTPOLEN_HOST_ID : Z := 22.
Definition DTPOLEN_PORT : Z := 4.
Definition DTPOLEN_DEADLINE : Z := 6.

Definition DTP_FLAG_MOBILE : Z := 0x80.
Definition DTP_FLAG_CHG : Z := 0x40.
Definition DTP_FLAG_RSP : Z := 0x20.
Definition DTP_FLAG_AUTH : Z := 0x10.
Definition DTP_FLAG_ACK : Z := 0x08.
Definition DTP_FLAG_RST : Z := 0x04.
Definition DTP_FLAG_SYN : Z := 0x02.
Definition DTP_FLAG_FIN : Z := 0x01.

Definition SHA1_DIGEST_LENGTH : Z := 20.

(** Offsets of the fields. *)
Definition OFF_fid : Z := 0.
Definition OFF_seq : Z := 4.
Definition OFF_ack_seq : Z := 8.
Definition OFF_window_size : Z := 14.

(** A one-bit field: its byte and its bit. *)
Inductive hdr_bit := bit_mobile | bit_chg | bit_rsp | bit_auth | bit_urg
  | bit_ack | bit_psh | bit_rst | bit_syn | bit_fin.

Definition bit_byte (b : hdr_bit) : Z :=
  match b with bit_mobile | bit_chg => 12 | _ => 13 end.

Definition bit_pos (b : hdr_bit) : Z :=
  match b with
  | bit_mobile => 4 | bit_chg => 7
  | bit_rsp => 0 | bit_auth => 1 | bit_urg => 2 | bit_ack => 3
  | bit_psh => 4 | bit_rst => 5 | bit_syn => 6 | bit_fin => 7
  end.

#[export] Instance hdr_bit_eq_dec : EqDecision hdr_bit.
Proof. solve_decision. Defined.

Definition get_bit (b : hdr_bit) (p : bytes) : bool :=
  Z.testbit (zget p (bit_byte b)) (bit_pos b).

Definition put_bit (b : hdr_bit) (v : bool) (p : bytes) : bytes :=
  let x := zget p (bit_byte b) in
  zset (bit_byte b) (if v then Z.setbit x (bit_pos b) else Z.clearbit x (bit_pos b)) p.

(** [doff] is the low nibble of byte 12; the assignment keeps 4 bits. *)
Definition get_doff (p : bytes) : Z := Z.land (zget p 12) 15.
Definition put_doff (d : Z) (p : bytes) : bytes :=
  zset 12 (Z.lor (Z.land (zget p 12) 0xF0) (Z.land d 15)) p.

Definition flag_set (flag bit : Z) : bool := negb (Z.land flag bit =? 0).

(** ** Writing a header (dtp.c) *)

Definition DTPGenerateHeader (p : bytes) (seq_num ack_seq_num flowid flag win_size : Z)
  : bytes * Z :=
  let hdr_size := DTPHDRSIZE in
  (* flow ID, SEQ, ACK *)
  let p := zsplice OFF_fid (be32 flowid) p in
  let p := zsplice OFF_seq (be32 seq_num) p in
  let p := zsplice OFF_ack_seq (be32 ack_seq_num) p in
  (* flag *)
  let p := put_bit bit_chg (flag_set flag DTP_FLAG_CHG) p in
  let p := put_bit bit_rsp (flag_set flag DTP_FLAG_RSP) p in
  let p := put_bit bit_auth (flag_set flag DTP_FLAG_AUTH) p in
  let p := put_bit bit_ack (flag_set flag DTP_FLAG_ACK) p in
  let p := put_bit bit_rst (flag_set flag DTP_FLAG_RST) p in
  let p := put_bit bit_syn (flag_set flag DTP_FLAG_SYN) p in
  let p := put_bit bit_fin (flag_set flag DTP_FLAG_FIN) p in
  let p := zsplice OFF_window_size
             (be16 (if 0x7FFF <? win_size then 0x7FFF else win_size)) p in
  let p := put_doff (Z.shiftr (hdr_size + 3) 2) p in
  (p, hdr_size).

(** The [switch] of [DTPAddOptionToHeader]: the opcodes of the other branches
    leave [opsize] uninitialised. *)
Definition option_size (opcode : Z) : option Z :=
  if opcode =? DTPOPT_MSS then Some DTPOLEN_MSS
  else if opcode =? DTPOPT_WIN_SCALE then Some DTPOLEN_WIN_SCALE
  else if opcode =? DTPOPT_SACK_PERM then Some DTPOLEN_SACK_PERM
  else if opcode =? DTPOPT_HOST_ID then Some DTPOLEN_HOST_ID
  else if opcode =? DTPOPT_PORT then Some DTPOLEN_PORT
  else if opcode =? DTPOPT_DEADLINE then Some DTPOLEN_DEADLINE
  else None.

(** [op_ptr] is the memory the option value is copied from. *)
Definition DTPAddOptionToHeader (p : bytes) (offset opcode : Z) (op_ptr : bytes)
  : res (bytes * Z) :=
  match option_size opcode with
  | None => Err Undefined
  | Some opsize =>
    let p := zset offset (u8 opcode) p in
    let p := zset (offset + 1) (u8 opsize) p in
    if (2 <? opsize) && negb (in_block 0 (opsize - 2) op_ptr) then Err OutOfBounds
    else
      let p := if 2 <? opsize
               then zsplice (offset + 2) (zslice 0 (opsize - 2) op_ptr) p else p in
      let hdr_size := offset + opsize in
      let pad := 4 - Z.land hdr_size 3 in
      if negb (in_block offset (opsize + pad) p) then Err OutOfBounds
      else
        let p := zsplice hdr_size (zeros pad) p in
        let p := put_doff (Z.shiftr (hdr_size + 3) 2) p in
        Ok (p, hdr_size)
  end.

(** [hdr_size = ((hdr_size + 3) & ~0x3)] *)
Definition align4 (hdr_size : Z) : Z := Z.land (hdr_size + 3) (Z.lnot 3).

(** ** Reading a header (dtp_transport.c)

    The [uint32_t] getters return the field in network byte order; the model
    returns what [ntohl]/[ntohs] makes of it, which is how the source always
    uses them. *)

Definition GetFlowID (p : bytes) : Z := of_be (zslice OFF_fid 4 p).
Definition GetSeqNum (p : bytes) : Z := of_be (zslice OFF_seq 4 p).
Definition GetAckNum (p : bytes) : Z := of_be (zslice OFF_ack_seq 4 p).
Definition GetRcvdWindow (p : bytes) : Z := of_be (zslice OFF_window_size 2 p).
Definition IsRSTPacket (p : bytes) : bool := get_bit bit_rst p.
Definition IsSYNPacket (p : bytes) : bool := get_bit bit_syn p.
Definition IsFINPacket (p : bytes) : bool := get_bit bit_fin p.
Definition IsCHGPacket (p : bytes) : bool := get_bit bit_chg p.
Definition IsRSPPacket (p : bytes) : bool := get_bit bit_rsp p.
Definition IsAUTHPacket (p : bytes) : bool := get_bit bit_auth p.
Definition IsACKPacket (p : bytes) : bool := get_bit bit_ack p.
Definition IsMobilePacket (p : bytes) : bool := get_bit bit_mobile p.
Definition GetHeaderLen (p : bytes) : Z := Z.shiftl (get_doff p) 2.
Definition GetPayloadLen (p : bytes) (total : Z) : Z := total - GetHeaderLen p.

(** ** The option loop (dtp.c)

    [DTPGetOption] and [DTPParseOption] share the same walk over the options,
    [while (len > 0)] with [ptr] and [len] as the loop state; they differ in
    the [switch] on the opcode, the parameter [case].  [ptr] is an offset in the
    receive buffer, of which [buf] is the part from the packet on. *)

Definition read8 (buf : bytes) (ptr : Z) : res Z :=
  if in_block ptr 1 buf then Ok (zget buf ptr) else Err OutOfBounds.

Fixpoint opt_loop {S : Type} (case : Z → Z → Z → S → res S) (buf : bytes)
    (fuel : nat) (ptr len : Z) (s : S) : res S :=
  if len <=? 0 then Ok s else
  match fuel with
  | O => Err Spin
  | Datatypes.S fuel =>
    opcode ← read8 buf ptr;
    if opcode =? DTPOPT_EOL then Ok s
    else if opcode =? DTPOPT_NOP then opt_loop case buf fuel (ptr + 1) (len - 1) s
    else
      opsize ← read8 buf (ptr + 1);
      s ← case opcode opsize (ptr + 2) s;
      opt_loop case buf fuel (ptr + 2 + (opsize - 2)) (len - opsize) s
  end.

(** [len = (doff << 2) - sizeof(struct dtp_hdr)]; an iteration either shortens
    [len] or leaves the loop state as it is, so [len + 1] iterations decide. *)
Definition options_len (buf : bytes) : Z := GetHeaderLen buf - DTPHDRSIZE.
Definition options_fuel (buf : bytes) : nat := S (Z.to_nat (options_len buf)).

(** The out parameters of [DTPGetOption]: what [host_id] points to and what
    [deadline] points to, [None] for a NULL pointer. *)
Definition get_option_case (buf : bytes) (opcode opsize ptr : Z)
    (s : option bytes * option Z) : res (option bytes * option Z) :=
  let '(host_id, deadline) := s in
  if opcode =? DTPOPT_HOST_ID then
    if opsize =? DTPOLEN_HOST_ID then
      match host_id with
      | Some _ =>
        if in_block ptr SHA1_DIGEST_LENGTH buf
        then Ok (Some (zslice ptr SHA1_DIGEST_LENGTH buf), deadline)
        else Err OutOfBounds
      | None => Ok s
      end
    else Ok s
  else if opcode =? DTPOPT_DEADLINE then
    if opsize =? DTPOLEN_DEADLINE then
      match deadline with
      | Some _ =>
        if in_block ptr 4 buf then Ok (host_id, Some (of_le (zslice ptr 4 buf)))
        else Err OutOfBounds
      | None => Err NullDeref
      end
    else Ok s
  else Ok s.

(** The result is the return value and the out parameters. *)
Definition DTPGetOption (buf : bytes) (host_id : option bytes) (deadline : option Z)
  : res (bool * (option bytes * option Z)) :=
  s ← opt_loop (get_option_case buf) buf (options_fuel buf) DTPHDRSIZE
        (options_len buf) (host_id, deadline);
  match s.1 with
  | None => Ok (false, s)
  | Some _ => Ok (true, s)
  end.

(** ** Field algebra *)

Lemma zslice_zset_out off n i v l :
  0 ≤ off → 0 ≤ i → i < off ∨ off + n ≤ i → zslice off n (zset i v l) = zslice off n l.
Proof.
  intros. apply list_eq. intros j. rewrite !lookup_zslice by done.
  case_decide; [|done]. unfold zset. apply list_lookup_insert_ne. lia.
Qed.

Lemma bit_byte_range b : 12 ≤ bit_byte b ≤ 13.
Proof. destruct b; simpl; lia. Qed.

Lemma zlen_put_bit b v p : zlen (put_bit b v p) = zlen p.
Proof. apply zlen_zset. Qed.

Lemma zlen_put_doff d p : zlen (put_doff d p) = zlen p.
Proof. apply zlen_zset. Qed.

Lemma get_put_bit b b' v p :
  DTPHDRSIZE ≤ zlen p →
  get_bit b (put_bit b' v p) = if decide (b = b') then v else get_bit b p.
Proof.
  unfold DTPHDRSIZE, get_bit, put_bit. intros Hlen.
  pose proof (bit_byte_range b). pose proof (bit_byte_range b').
  destruct (Z.eq_dec (bit_byte b) (bit_byte b')) as [E|E].
  - rewrite E, zget_zset_eq by lia.
    destruct v; [rewrite Z.setbit_eqb by (destruct b'; simpl; lia)
                |rewrite Z.clearbit_eqb]; rewrite <- ?E;
      destruct b, b'; simpl in E; try lia; simpl; rewrite ?andb_true_r, ?andb_false_r; done.
  - rewrite zget_zset_ne by lia. case_decide; [congruence|done].
Qed.

Lemma testbit_nibble x d k :
  4 ≤ k < 8 → Z.testbit (Z.lor (Z.land x 0xF0) (Z.land d 15)) k = Z.testbit x k.
Proof.
  intros. rewrite Z.lor_spec, !Z.land_spec.
  assert (k = 4 ∨ k = 5 ∨ k = 6 ∨ k = 7) as [->|[->|[->| ->]]] by lia; simpl;
    by rewrite andb_true_r, andb_false_r, orb_false_r.
Qed.

Lemma get_bit_put_doff b d p :
  DTPHDRSIZE ≤ zlen p → get_bit b (put_doff d p) = get_bit b p.
Proof.
  unfold DTPHDRSIZE, get_bit, put_doff. intros Hlen.
  destruct (Z.eq_dec (bit_byte b) 12) as [E|E].
  - rewrite E, zget_zset_eq by lia. apply testbit_nibble.
    destruct b; simpl in *; lia.
  - rewrite zget_zset_ne by (pose proof (bit_byte_range b); lia). done.
Qed.

Lemma land_15_eq a b : (∀ i, 0 ≤ i < 4 → Z.testbit a i = Z.testbit b i) → Z.land a 15 = Z.land b 15.
Proof.
  intros Hb. apply Z.bits_inj'. intros i Hi. rewrite !Z.land_spec.
  destruct (decide (i < 4)); [by rewrite Hb by lia|].
  replace (Z.testbit 15 i) with false; [by rewrite !andb_false_r|].
  symmetry. apply Z.bits_above_log2; simpl; lia.
Qed.

Lemma get_doff_put_doff d p : DTPHDRSIZE ≤ zlen p → get_doff (put_doff d p) = Z.land d 15.
Proof.
  unfold DTPHDRSIZE, get_doff, put_doff. intros.
  rewrite zget_zset_eq by lia. apply land_15_eq. intros i Hi.
  rewrite Z.lor_spec, !Z.land_spec.
  assert (i = 0 ∨ i = 1 ∨ i = 2 ∨ i = 3) as [->|[->|[->| ->]]] by lia; simpl;
    by rewrite andb_true_r, andb_false_r.
Qed.

Lemma get_doff_put_bit b v p : DTPHDRSIZE ≤ zlen p → get_doff (put_bit b v p) = get_doff p.
Proof.
  unfold DTPHDRSIZE, get_doff, put_bit. intros.
  destruct (Z.eq_dec (bit_byte b) 12) as [E|E].
  - rewrite E, zget_zset_eq by lia. apply land_15_eq. intros i Hi.
    assert (4 ≤ bit_pos b) by (destruct b; simpl in *; lia).
    destruct v; [rewrite Z.setbit_eqb by lia | rewrite Z.clearbit_eqb];
      rewrite (proj2 (Z.eqb_neq _ _)) by lia; by rewrite ?andb_true_r.
  - rewrite zget_zset_ne by (pose proof (bit_byte_range b); lia). done.
Qed.

Lemma get_bit_splice b off src p :
  0 ≤ off → off + zlen src ≤ zlen p → off + zlen src ≤ 12 ∨ 14 ≤ off →
  get_bit b (zsplice off src p) = get_bit b p.
Proof.
  intros. unfold get_bit. pose proof (bit_byte_range b).
  by rewrite zget_splice_out by lia.
Qed.

Lemma get_doff_splice off src p :
  0 ≤ off → off + zlen src ≤ zlen p → off + zlen src ≤ 12 ∨ 13 ≤ off →
  get_doff (zsplice off src p) = get_doff p.
Proof. intros. unfold get_doff. by rewrite zget_splice_out by lia. Qed.

Lemma zslice_put_bit b v off n p :
  0 ≤ off → off + n ≤ 12 ∨ 14 ≤ off → zslice off n (put_bit b v p) = zslice off n p.
Proof.
  intros. pose proof (bit_byte_range b). apply zslice_zset_out; lia.
Qed.

Lemma zslice_put_doff d off n p :
  0 ≤ off → off + n ≤ 12 ∨ 13 ≤ off → zslice off n (put_doff d p) = zslice off n p.
Proof. intros. apply zslice_zset_out; lia. Qed.

Lemma zlen_be32 x : zlen (be32 x) = 4.
Proof. done. Qed.
Lemma zlen_be16 x : zlen (be16 x) = 2.
Proof. done. Qed.

Create Rewrite HintDb hdr.
#[export] Hint Rewrite zlen_put_bit zlen_put_doff zlen_be32 zlen_be16 : hdr.

(** [hdr_simpl]: evaluate a read of a header built by field updates. *)
Ltac hdr_side :=
  repeat first
  [ rewrite zlen_put_doff | rewrite zlen_put_bit
  | rewrite zlen_be32 | rewrite zlen_be16
  | rewrite zlen_splice by hdr_side ];
  unfold DTPHDRSIZE, OFF_fid, OFF_seq, OFF_ack_seq, OFF_window_size in *; lia.

Ltac hdr_simpl :=
  repeat first
  [ rewrite get_put_bit by hdr_side
  | rewrite get_bit_put_doff by hdr_side
  | rewrite get_doff_put_doff by hdr_side
  | rewrite get_doff_put_bit by hdr_side
  | rewrite get_bit_splice by hdr_side
  | rewrite get_doff_splice by hdr_side
  | rewrite zslice_put_bit by hdr_side
  | rewrite zslice_put_doff by hdr_side
  | rewrite zslice_splice_disjoint by hdr_side
  | rewrite decide_True by done
  | rewrite decide_False by done ].

(** ** The header round trip *)

(** What the receiver reads back from a generated header. *)
Record hdr_fields := mk_hdr_fields {
  hf_fid : Z; hf_seq : Z; hf_ack_seq : Z; hf_window : Z; hf_hlen : Z;
  hf_chg : bool; hf_rsp : bool; hf_auth : bool; hf_ack : bool;
  hf_rst : bool; hf_syn : bool; hf_fin : bool }.

Definition read_header (p : bytes) : hdr_fields :=
  mk_hdr_fields (GetFlowID p) (GetSeqNum p) (GetAckNum p) (GetRcvdWindow p)
    (GetHeaderLen p) (IsCHGPacket p) (IsRSPPacket p) (IsAUTHPacket p)
    (IsACKPacket p) (IsRSTPacket p) (IsSYNPacket p) (IsFINPacket p).

Definition sent_header (seq ack fid flag win hlen : Z) : hdr_fields :=
  mk_hdr_fields fid seq ack (Z.min win 0x7FFF) hlen
    (flag_set flag DTP_FLAG_CHG) (flag_set flag DTP_FLAG_RSP)
    (flag_set flag DTP_FLAG_AUTH) (flag_set flag DTP_FLAG_ACK)
    (flag_set flag DTP_FLAG_RST) (flag_set flag DTP_FLAG_SYN)
    (flag_set flag DTP_FLAG_FIN).

Lemma zlen_GenerateHeader p seq ack fid flag win :
  DTPHDRSIZE ≤ zlen p →
  zlen (DTPGenerateHeader p seq ack fid flag win).1 = zlen p.
Proof.
  intros. unfold DTPGenerateHeader. simpl fst.
  rewrite zlen_put_doff. repeat (rewrite ?zlen_put_bit, zlen_splice by hdr_side). done.
Qed.

Lemma window_clamp win :
  0 ≤ win → (if 0x7FFF <? win then 0x7FFF else win) = Z.min win 0x7FFF.
Proof. intros. case_cmp; lia. Qed.

Lemma zslice_splice_same_4 off x p :
  0 ≤ off → off + 4 ≤ zlen p → zslice off 4 (zsplice off (be32 x) p) = be32 x.
Proof. intros. by apply (zslice_splice_same off (be32 x)). Qed.

Lemma zslice_splice_same_2 off x p :
  0 ≤ off → off + 2 ≤ zlen p → zslice off 2 (zsplice off (be16 x) p) = be16 x.
Proof. intros. by apply (zslice_splice_same off (be16 x)). Qed.

Lemma header_roundtrip p seq ack fid flag win :
  DTPHDRSIZE ≤ zlen p → is_u32 seq → is_u32 ack → is_u32 fid → 0 ≤ win →
  read_header (DTPGenerateHeader p seq ack fid flag win).1
  = sent_header seq ack fid flag win DTPHDRSIZE.
Proof.
  intros Hlen Hs Ha Hf Hw. unfold DTPGenerateHeader. cbn [fst].
  rewrite window_clamp by done.
  unfold read_header, sent_header, GetFlowID, GetSeqNum, GetAckNum, GetRcvdWindow,
    GetHeaderLen, IsCHGPacket, IsRSPPacket, IsAUTHPacket, IsACKPacket, IsRSTPacket,
    IsSYNPacket, IsFINPacket.
  f_equal; hdr_simpl; rewrite ?zslice_splice_same_4, ?zslice_splice_same_2 by hdr_side;
    rewrite ?of_be32, ?of_be16 by (unfold_ints; lia); done.
Qed.

(** ** The option loop: termination *)

Section opt_loop.
Context {S : Type} (case : Z → Z → Z → S → res S) (buf : bytes).
(** The [switch] ignores an option of size 0, as both readers do. *)
Hypothesis case_zero : ∀ opcode ptr s, case opcode 0 ptr s = Ok s.
Hypothesis buf_u8 : Forall is_u8 buf.

Lemma read8_u8 ptr v : read8 buf ptr = Ok v → is_u8 v.
Proof.
  unfold read8. destruct (in_block ptr 1 buf) eqn:E; [|done].
  apply in_block_spec in E. intros [= <-].
  apply (Forall_lookup_1 _ _ (Z.to_nat ptr) _ buf_u8). apply zget_lookup. lia.
Qed.

(** An option of size 0 never lets the loop advance. *)
Lemma opt_loop_stuck opcode ptr len s fuel :
  0 < len → read8 buf ptr = Ok opcode → opcode ≠ DTPOPT_EOL → opcode ≠ DTPOPT_NOP →
  read8 buf (ptr + 1) = Ok 0 → opt_loop case buf fuel ptr len s = Err Spin.
Proof.
  intros Hlen Hop He Hn Hsz. induction fuel as [|fuel IH]; simpl;
    destruct (Z.leb_spec len 0); try lia; [done|].
  rewrite Hop. simpl. unfold mbind, res_bind.
  rewrite (proj2 (Z.eqb_neq _ _) He), (proj2 (Z.eqb_neq _ _) Hn), Hsz, case_zero.
  replace (ptr + 2 + (0 - 2)) with ptr by lia.
  replace (len - 0) with len by lia. apply IH.
Qed.

Lemma opt_loop_more fuel1 fuel2 ptr len s :
  (Z.to_nat len < fuel1)%nat → (Z.to_nat len < fuel2)%nat →
  opt_loop case buf fuel1 ptr len s = opt_loop case buf fuel2 ptr len s.
Proof.
  revert fuel2 ptr len s. induction fuel1 as [|fuel1 IH]; intros fuel2 ptr len s H1 H2; [lia|].
  destruct fuel2 as [|fuel2]; [lia|].
  destruct (Z.leb_spec len 0) as [Hle|Hlt]; [simpl; by destruct (Z.leb_spec len 0); try lia|].
  destruct (read8 buf ptr) as [opcode|f] eqn:Hop;
    [|simpl; destruct (Z.leb_spec len 0); [lia|by rewrite Hop]].
  destruct (Z.eqb_spec opcode DTPOPT_EOL) as [->|He];
    [simpl; destruct (Z.leb_spec len 0); [lia|by rewrite Hop]|].
  destruct (Z.eqb_spec opcode DTPOPT_NOP) as [->|Hn].
  { simpl; destruct (Z.leb_spec len 0); [lia|]. rewrite Hop. simpl. apply IH; lia. }
  destruct (read8 buf (ptr + 1)) as [opsize|f] eqn:Hsz.
  2:{ simpl; destruct (Z.leb_spec len 0); [lia|]. rewrite Hop; simpl.
      unfold mbind, res_bind. rewrite Hsz.
      by rewrite (proj2 (Z.eqb_neq _ _) He), (proj2 (Z.eqb_neq _ _) Hn). }
  pose proof (read8_u8 _ _ Hsz) as Hr. destruct (decide (opsize = 0)) as [->|Hnz].
  { by rewrite !(opt_loop_stuck opcode). }
  simpl; destruct (Z.leb_spec len 0); [lia|]. rewrite Hop. simpl.
  unfold mbind, res_bind. rewrite (proj2 (Z.eqb_neq _ _) He), (proj2 (Z.eqb_neq _ _) Hn), Hsz.
  destruct (case opcode opsize (ptr + 2) s) as [s'|f]; [|done].
  unfold_ints. apply IH; lia.
Qed.
End opt_loop.

Lemma get_option_case_zero buf opcode ptr s : get_option_case buf opcode 0 ptr s = Ok s.
Proof. destruct s. unfold get_option_case. by repeat case_match. Qed.

(** The fuel of [DTPGetOption] is exact: more iterations never change what the
    loop does, so [Err Spin] means that the C loop runs for ever. *)
Lemma DTPGetOption_fuel_exact buf h d fuel :
  Forall is_u8 buf → (options_fuel buf ≤ fuel)%nat →
  opt_loop (get_option_case buf) buf fuel DTPHDRSIZE (options_len buf) (h, d)
  = opt_loop (get_option_case buf) buf (options_fuel buf) DTPHDRSIZE (options_len buf) (h, d).
Proof.
  unfold options_fuel. intros. apply opt_loop_more; [apply get_option_case_zero|done|lia|lia].
Qed.

(** An option of size 0 makes the option loop spin.  Whatever the bound on the
    iterations, [DTPGetOption] does not get past a first option whose size byte is
    0: the C loop does not terminate. *)
Lemma DTPGetOption_zero_size_spins buf h d fuel opcode :
  DTPHDRSIZE < GetHeaderLen buf → zget buf 20 = opcode → 1 < opcode →
  zget buf 21 = 0 → 22 ≤ zlen buf →
  opt_loop (get_option_case buf) buf fuel DTPHDRSIZE (options_len buf) (h, d) = Err Spin.
Proof.
  intros Hlen Hop Hgt Hsz Hz. apply opt_loop_stuck with (opcode := opcode).
  - apply get_option_case_zero.
  - unfold options_len. lia.
  - unfold read8. rewrite (proj2 (in_block_spec _ _ _)) by (unfold DTPHDRSIZE; lia).
    by rewrite <- Hop.
  - unfold DTPOPT_EOL. lia.
  - unfold DTPOPT_NOP. lia.
  - unfold read8. rewrite (proj2 (in_block_spec _ _ _)) by (unfold DTPHDRSIZE; lia).
    by f_equal.
Qed.

(** ** The option loop: reading back what was written *)

Definition opt_enc (o : Z * bytes) : bytes := o.1 :: (zlen o.2 + 2) :: o.2.
Definition opts_enc (os : list (Z * bytes)) : bytes := concat (opt_enc <$> os).

Lemma zlen_opt_enc o : zlen (opt_enc o) = zlen o.2 + 2.
Proof. unfold opt_enc, zlen. simpl. lia. Qed.

Lemma opts_enc_snoc os o : opts_enc (os ++ [o]) = opts_enc os ++ opt_enc o.
Proof. unfold opts_enc. rewrite fmap_app, concat_app. simpl. by rewrite app_nil_r. Qed.

(** [hdr_with os p n]: [p] is a header of unaligned size [n] whose options are
    [os]; the byte after them is the end-of-list mark unless they end aligned. *)
Record hdr_with (os : list (Z * bytes)) (p : bytes) (n : Z) : Prop := {
  hw_size : n = DTPHDRSIZE + zlen (opts_enc os);
  hw_opts : zslice DTPHDRSIZE (zlen (opts_enc os)) p = opts_enc os;
  hw_doff : get_doff p = (n + 3) / 4;
  hw_eol : n mod 4 ≠ 0 → zget p n = 0;
  hw_room : (n + 3) / 4 * 4 ≤ zlen p;
  hw_ops : Forall (λ o, 1 < o.1) os }.

Lemma read8_slice_head buf ptr n x l :
  0 ≤ ptr → ptr + n ≤ zlen buf → zslice ptr n buf = x :: l → read8 buf ptr = Ok x.
Proof.
  intros Hp Hn Hs. assert (zslice ptr n buf !! 0%nat = Some x) as H0 by (by rewrite Hs).
  rewrite lookup_zslice in H0 by done. case_decide; [|done].
  rewrite Nat.add_0_r in H0. unfold read8.
  rewrite (proj2 (in_block_spec _ _ _)) by lia. f_equal.
  unfold zget. by apply nth_lookup_Some.
Qed.

Lemma zslice_tail {A} ptr n (buf : list A) x l :
  0 ≤ ptr → 0 < n → zslice ptr n buf = x :: l → zslice (ptr + 1) (n - 1) buf = l.
Proof.
  unfold zslice. intros Hp Hn Hs.
  replace (Z.to_nat n) with (S (Z.to_nat (n - 1))) in Hs by lia.
  replace (Z.to_nat (ptr + 1)) with (Z.to_nat ptr + 1)%nat by lia.
  rewrite <- drop_drop. destruct (drop (Z.to_nat ptr) buf); [done|].
  simpl in Hs |- *. by injection Hs.
Qed.

Lemma opt_loop_read {S} (case : Z → Z → Z → S → res S) (f : Z → bytes → S → S)
    (P : S → Prop) buf os ptr len s fuel :
  (∀ op d p s, (op, d) ∈ os → 0 ≤ p → p + zlen d ≤ zlen buf → zslice p (zlen d) buf = d → P s →
     case op (zlen d + 2) p s = Ok (f op d s) ∧ P (f op d s)) → P s →
  Forall (λ o, 1 < o.1) os → 0 ≤ ptr → ptr + zlen (opts_enc os) ≤ zlen buf →
  zslice ptr (zlen (opts_enc os)) buf = opts_enc os →
  zlen (opts_enc os) ≤ len →
  (zlen (opts_enc os) < len → read8 buf (ptr + zlen (opts_enc os)) = Ok DTPOPT_EOL) →
  (length os < fuel)%nat →
  opt_loop case buf fuel ptr len s = Ok (fold_left (λ s o, f o.1 o.2 s) os s).
Proof.
  intros Hcase HP Hops. revert ptr len s fuel HP.
  induction os as [|[op d] os IH]; intros ptr len s fuel HP Hp Hb Hs Hl Heol Hf.
  - destruct fuel as [|fuel]; [simpl in Hf; lia|]. unfold opts_enc, zlen in *. simpl in *.
    destruct (Z.leb_spec len 0); [done|]. rewrite Z.add_0_r in Heol. by rewrite Heol by lia.
  - apply Forall_cons in Hops as [Hop Hops]. simpl in Hop.
    destruct fuel as [|fuel]; [simpl in Hf; lia|].
    assert (Henc : opts_enc ((op, d) :: os) = op :: (zlen d + 2) :: (d ++ opts_enc os)) by done.
    assert (Hzl : zlen (opts_enc ((op, d) :: os)) = zlen d + 2 + zlen (opts_enc os)).
    { rewrite Henc. unfold zlen. simpl. rewrite length_app. lia. }
    pose proof (zlen_nonneg d). pose proof (zlen_nonneg (opts_enc os)).
    rewrite Hzl, Henc in Hs. rewrite Hzl in Hb, Hl, Heol.
    pose proof (read8_slice_head buf ptr
      (zlen d + 2 + zlen (opts_enc os)) _ _ Hp ltac:(lia) Hs) as R1.
    pose proof (zslice_tail ptr
      (zlen d + 2 + zlen (opts_enc os)) _ _ _ Hp ltac:(lia) Hs) as Hs1.
    pose proof (read8_slice_head buf (ptr + 1)
      (zlen d + 2 + zlen (opts_enc os) - 1) _ _ ltac:(lia) ltac:(lia) Hs1) as R2.
    pose proof (zslice_tail (ptr + 1)
      (zlen d + 2 + zlen (opts_enc os) - 1) _ _ _ ltac:(lia) ltac:(lia) Hs1) as Hs2.
    replace (ptr + 1 + 1) with (ptr + 2) in Hs2 by lia.
    replace (zlen d + 2 + zlen (opts_enc os) - 1 - 1)
      with (zlen d + zlen (opts_enc os)) in Hs2 by lia.
    rewrite zslice_split in Hs2 by lia. apply app_inj_1 in Hs2 as [Hd Ho].
    2:{ pose proof (zlen_slice (ptr + 2) (zlen d) buf ltac:(lia) ltac:(lia) ltac:(lia)).
        unfold zlen in *. lia. }
    simpl. destruct (Z.leb_spec len 0); [lia|]. rewrite R1. simpl.
    unfold mbind, res_bind. unfold DTPOPT_EOL, DTPOPT_NOP.
    rewrite (proj2 (Z.eqb_neq op 0)), (proj2 (Z.eqb_neq op 1)), R2 by lia.
    destruct (Hcase op d (ptr + 2) s) as [-> HP']; [by left|done || lia..|].
    apply IH; try done; try lia. intros. apply Hcase; [by right|done..].
    + replace (ptr + 2 + (zlen d + 2 - 2)) with (ptr + 2 + zlen d) by lia. done.
    + intros Hlt. rewrite <- Heol by lia. f_equal. lia.
    + simpl in Hf. lia.
Qed.

Lemma zslice_one l i : 0 ≤ i < zlen l → zslice i 1 l = [zget l i].
Proof.
  intros. pose proof (zget_lookup l i H) as E. unfold zslice.
  change (Z.to_nat 1) with 1%nat. apply list_eq. intros [|j]; simpl.
  - rewrite lookup_take_lt by lia. rewrite lookup_drop, Nat.add_0_r. done.
  - rewrite lookup_take_ge by lia. done.
Qed.

Lemma zsplice_nil {A} off (l : list A) : zsplice off [] l = l.
Proof. unfold zsplice. simpl. rewrite Nat.add_0_r. apply take_drop. Qed.

Lemma zget_put_doff d p i : 0 ≤ i → i ≠ 12 → zget (put_doff d p) i = zget p i.
Proof. intros. unfold put_doff. by rewrite zget_zset_ne by lia. Qed.

(** The part of the header that an option does not touch. *)
Record same_fixed (p p' : bytes) : Prop := {
  sf_len : zlen p' = zlen p;
  sf_bits : ∀ b, get_bit b p' = get_bit b p;
  sf_front : zslice 0 12 p' = zslice 0 12 p;
  sf_window : zslice 14 2 p' = zslice 14 2 p }.

Lemma option_size_range op size : option_size op = Some size → 1 < op < 256 ∧ 2 ≤ size ≤ 22.
Proof.
  unfold option_size, DTPOPT_MSS, DTPOLEN_MSS, DTPOPT_WIN_SCALE, DTPOLEN_WIN_SCALE,
    DTPOPT_SACK_PERM, DTPOLEN_SACK_PERM, DTPOPT_HOST_ID, DTPOLEN_HOST_ID, DTPOPT_PORT,
    DTPOLEN_PORT, DTPOPT_DEADLINE, DTPOLEN_DEADLINE.
  repeat case_match; intros [= <-]; rewrite ?Z.eqb_eq in *; lia.
Qed.

(** The body of [DTPAddOptionToHeader] once the size is known. *)
Definition put_option (p : bytes) (offset opcode opsize : Z) (d : bytes) : bytes :=
  put_doff (Z.shiftr (offset + opsize + 3) 2)
    (zsplice (offset + opsize) (zeros (4 - Z.land (offset + opsize) 3))
      (zsplice (offset + 2) d (zset (offset + 1) opsize (zset offset opcode p)))).

Lemma add_option_put p offset opcode size data :
  option_size opcode = Some size → size - 2 ≤ zlen data → DTPHDRSIZE ≤ offset →
  offset + size + 4 ≤ zlen p →
  DTPAddOptionToHeader p offset opcode data
  = Ok (put_option p offset opcode size (zslice 0 (size - 2) data), offset + size).
Proof.
  intros Hs Hd Ho Hr. pose proof (option_size_range _ _ Hs) as [H1 H2].
  pose proof (Z.land_nonneg (offset + size) 3).
  assert (0 ≤ Z.land (offset + size) 3 < 4).
  { replace 3 with (Z.ones 2) by done. rewrite Z.land_ones by lia.
    apply Z.mod_pos_bound. lia. }
  unfold DTPAddOptionToHeader, put_option. rewrite Hs.
  rewrite (u8_small opcode), (u8_small size) by (unfold_ints; lia).
  rewrite (proj2 (in_block_spec 0 (size - 2) data)) by lia. rewrite andb_false_r.
  assert ((if 2 <? size then zsplice (offset + 2) (zslice 0 (size - 2) data)
             (zset (offset + 1) size (zset offset opcode p))
           else zset (offset + 1) size (zset offset opcode p))
          = zsplice (offset + 2) (zslice 0 (size - 2) data)
              (zset (offset + 1) size (zset offset opcode p))) as ->.
  { destruct (Z.ltb_spec 2 size); [done|]. rewrite (zslice_nonpos 0 (size - 2)) by lia.
    by rewrite zsplice_nil. }
  rewrite (proj2 (in_block_spec _ _ _)); [done|].
  unfold DTPHDRSIZE in *.
  rewrite zlen_splice; rewrite ?zlen_zset, ?zlen_slice by lia; lia.
Qed.

Section put_option.
Context (p : bytes) (n op size : Z) (d : bytes).
Hypothesis (Hd : zlen d = size - 2) (Hs : 2 ≤ size ≤ 22).
Hypothesis (Hn : DTPHDRSIZE ≤ n) (Hr : n + size + 4 ≤ zlen p).

Lemma pad_range : 1 ≤ 4 - Z.land (n + size) 3 ≤ 4.
Proof.
  replace 3 with (Z.ones 2) by done. rewrite Z.land_ones by lia.
  pose proof (Z.mod_pos_bound (n + size) (2 ^ 2)). lia.
Qed.

Lemma zlen_pad : zlen (zeros (4 - Z.land (n + size) 3)) = 4 - Z.land (n + size) 3.
Proof. apply zlen_zeros. pose proof pad_range. lia. Qed.

Ltac side :=
  repeat first [rewrite zlen_pad | rewrite zlen_zset | rewrite zlen_splice by side];
  unfold DTPHDRSIZE in *; pose proof pad_range; lia.

Lemma zlen_put_option : zlen (put_option p n op size d) = zlen p.
Proof.
  unfold put_option. rewrite zlen_put_doff.
  rewrite !zlen_splice, !zlen_zset by side. done.
Qed.

Lemma zslice_put_option off k :
  0 ≤ off → off + k ≤ n → off + k ≤ 12 ∨ 13 ≤ off →
  zslice off k (put_option p n op size d) = zslice off k p.
Proof.
  intros. unfold put_option. rewrite zslice_put_doff by lia.
  rewrite !zslice_splice_disjoint by side. by rewrite !zslice_zset_out by side.
Qed.

Lemma zslice_put_option_new :
  zslice n size (put_option p n op size d) = opt_enc (op, d).
Proof.
  unfold DTPHDRSIZE in *. unfold put_option. rewrite zslice_put_doff by lia.
  rewrite zslice_splice_disjoint by side.
  replace size with (1 + (1 + zlen d)) at 1 by lia.
  rewrite !zslice_split by (pose proof (zlen_nonneg d); lia).
  replace (n + 1 + 1) with (n + 2) by lia.
  rewrite zslice_splice_same by side.
  rewrite !zslice_one by side.
  rewrite !zget_splice_out by side.
  rewrite zget_zset_ne, !zget_zset_eq by side.
  unfold opt_enc. simpl. do 2 f_equal. lia.
Qed.

Lemma same_fixed_put_option : same_fixed p (put_option p n op size d).
Proof.
  unfold DTPHDRSIZE in *. constructor; [apply zlen_put_option| |
    apply zslice_put_option; lia|apply zslice_put_option; lia].
  intros b. unfold put_option. rewrite get_bit_put_doff by side.
  rewrite !get_bit_splice by side. unfold get_bit. pose proof (bit_byte_range b).
  by rewrite !zget_zset_ne by lia.
Qed.

Lemma zget_put_option_eol : zget (put_option p n op size d) (n + size) = 0.
Proof.
  unfold DTPHDRSIZE in *. unfold put_option. rewrite zget_put_doff by lia.
  rewrite zget_splice_in by side. replace (n + size - (n + size)) with 0 by lia.
  unfold zeros, zget. pose proof pad_range.
  destruct (Z.to_nat (4 - Z.land (n + size) 3)); done.
Qed.

Lemma hdr_with_put_option os :
  hdr_with os p n → 1 < op → n + size ≤ 60 →
  hdr_with (os ++ [(op, d)]) (put_option p n op size d) (n + size).
Proof.
  intros [Hsz Hopts _ _ _ Hops] Hop H60. pose proof (zlen_nonneg (opts_enc os)).
  assert (Hl : zlen (opts_enc (os ++ [(op, d)])) = zlen (opts_enc os) + size).
  { rewrite opts_enc_snoc, zlen_app, zlen_opt_enc. simpl. lia. }
  constructor.
  - rewrite Hl. lia.
  - rewrite Hl, opts_enc_snoc. unfold DTPHDRSIZE in *. rewrite zslice_split by lia.
    rewrite zslice_put_option by lia. rewrite Hopts. f_equal.
    replace (20 + zlen (opts_enc os)) with n by lia. apply zslice_put_option_new.
  - unfold put_option. rewrite get_doff_put_doff by side.
    rewrite Z.shiftr_div_pow2 by lia. change (2 ^ 2) with 4.
    replace 15 with (Z.ones 4) by done. rewrite Z.land_ones by lia.
    unfold DTPHDRSIZE in *. apply Z.mod_small. Z.div_mod_to_equations. lia.
  - intros _. apply zget_put_option_eol.
  - rewrite zlen_put_option. Z.div_mod_to_equations. lia.
  - apply Forall_app. split; [done|]. by repeat constructor.
Qed.
End put_option.

Lemma add_option_spec os p n op size data :
  hdr_with os p n → option_size op = Some size → size - 2 ≤ zlen data →
  n + size + 4 ≤ zlen p → n + size ≤ 60 →
  ∃ p', DTPAddOptionToHeader p n op data = Ok (p', n + size) ∧
        hdr_with (os ++ [(op, zslice 0 (size - 2) data)]) p' (n + size) ∧ same_fixed p p'.
Proof.
  intros Hw Hs Hd Hr H60. pose proof (option_size_range _ _ Hs) as [H1 H2].
  assert (DTPHDRSIZE ≤ n).
  { rewrite (hw_size _ _ _ Hw). pose proof (zlen_nonneg (opts_enc os)). lia. }
  assert (zlen (zslice 0 (size - 2) data) = size - 2) by (apply zlen_slice; lia).
  eexists. split; [by apply add_option_put|]. split.
  - apply hdr_with_put_option; try done; lia.
  - by apply same_fixed_put_option.
Qed.

Lemma hdr_with_generate p seq ack fid flag win :
  DTPHDRSIZE ≤ zlen p → is_u32 seq → is_u32 ack → is_u32 fid → 0 ≤ win →
  hdr_with [] (DTPGenerateHeader p seq ack fid flag win).1 DTPHDRSIZE.
Proof.
  intros Hl Hs Ha Hf Hw. pose proof (header_roundtrip p seq ack fid flag win Hl Hs Ha Hf Hw) as E.
  pose proof (zlen_GenerateHeader p seq ack fid flag win Hl) as L.
  apply (f_equal hf_hlen) in E. cbn [hf_hlen read_header sent_header] in E. unfold GetHeaderLen in E.
  rewrite Z.shiftl_mul_pow2 in E by lia.
  unfold DTPHDRSIZE in *. constructor; try done.
  - change ((20 + 3) / 4) with 5. lia.
  - rewrite L. change ((20 + 3) / 4 * 4) with 20. lia.
Qed.

(** *** What [DTPGetOption] extracts *)

Definition get_option_upd (op : Z) (d : bytes) (s : option bytes * option Z)
  : option bytes * option Z :=
  if op =? DTPOPT_HOST_ID then (if zlen d =? 20 then (Some d, s.2) else s)
  else if op =? DTPOPT_DEADLINE then (if zlen d =? 4 then (s.1, Some (of_le d)) else s)
  else s.

Lemma get_option_case_upd buf op d p h dl :
  0 ≤ p → p + zlen d ≤ zlen buf → zslice p (zlen d) buf = d →
  get_option_case buf op (zlen d + 2) p (Some h, Some dl)
  = Ok (get_option_upd op d (Some h, Some dl)).
Proof.
  intros Hp Hb Hd. unfold get_option_case, get_option_upd, DTPOPT_HOST_ID, DTPOLEN_HOST_ID,
    DTPOPT_DEADLINE, DTPOLEN_DEADLINE, SHA1_DIGEST_LENGTH.
  destruct (Z.eqb_spec op 7).
  - destruct (Z.eqb_spec (zlen d + 2) 22), (Z.eqb_spec (zlen d) 20); try lia; [|done].
    rewrite (proj2 (in_block_spec _ _ _)) by lia. simpl. by replace 20 with (zlen d); rewrite Hd.
  - destruct (Z.eqb_spec op 9); [|done].
    destruct (Z.eqb_spec (zlen d + 2) 6), (Z.eqb_spec (zlen d) 4); try lia; [|done].
    rewrite (proj2 (in_block_spec _ _ _)) by lia. simpl. by replace 4 with (zlen d); rewrite Hd.
Qed.

Lemma get_option_upd_some op d h dl :
  ∃ h' dl', get_option_upd op d (Some h, Some dl) = (Some h', Some dl').
Proof. unfold get_option_upd. repeat case_match; eauto. Qed.

Lemma get_option_fold_some os h dl :
  ∃ h' dl', fold_left (λ s o, get_option_upd o.1 o.2 s) os (Some h, Some dl) = (Some h', Some dl').
Proof.
  revert h dl. induction os as [|o os IH]; intros h dl; simpl; [eauto|].
  destruct (get_option_upd_some o.1 o.2 h dl) as (h' & dl' & ->). apply IH.
Qed.

Lemma hdr_with_bytes os p n : hdr_with os p n → DTPHDRSIZE ≤ n ≤ zlen p.
Proof.
  intros [Hsz _ _ _ Hr _]. pose proof (zlen_nonneg (opts_enc os)).
  Z.div_mod_to_equations. lia.
Qed.

Lemma length_opts_enc os : Z.of_nat (length os) ≤ zlen (opts_enc os).
Proof.
  induction os as [|o os IH]; [done|].
  change (opts_enc (o :: os)) with (opt_enc o ++ opts_enc os).
  rewrite zlen_app, zlen_opt_enc. pose proof (zlen_nonneg o.2). simpl. lia.
Qed.

Lemma opt_loop_hdr_with {S} (case : Z → Z → Z → S → res S) (f : Z → bytes → S → S)
    (P : S → Prop) buf os n s :
  (∀ op d p s, (op, d) ∈ os → 0 ≤ p → p + zlen d ≤ zlen buf → zslice p (zlen d) buf = d → P s →
     case op (zlen d + 2) p s = Ok (f op d s) ∧ P (f op d s)) → P s →
  hdr_with os buf n →
  opt_loop case buf (options_fuel buf) DTPHDRSIZE (options_len buf) s
  = Ok (fold_left (λ s o, f o.1 o.2 s) os s).
Proof.
  intros Hcase HP Hw. pose proof (hdr_with_bytes _ _ _ Hw). pose proof (length_opts_enc os).
  destruct Hw as [Hsz Ho Hd He Hr Hop].
  assert (Hlen : options_len buf = (n + 3) / 4 * 4 - DTPHDRSIZE).
  { unfold options_len, GetHeaderLen. rewrite Hd, Z.shiftl_mul_pow2 by lia. done. }
  unfold options_fuel. rewrite Hlen. unfold DTPHDRSIZE in *.
  apply (opt_loop_read _ _ P); try done; try lia.
  - Z.div_mod_to_equations. lia.
  - intros Hlt. unfold read8. rewrite (proj2 (in_block_spec _ _ _)) by (Z.div_mod_to_equations; lia).
    rewrite <- Hsz. f_equal. apply He. Z.div_mod_to_equations. lia.
  - Z.div_mod_to_equations. lia.
Qed.

(** [DTPGetOption] on any header built by [DTPGenerateHeader] and
    [DTPAddOptionToHeader] returns, reads no byte outside the packet, and leaves in
    its out parameters the last host ID and the last deadline that were added. *)
Lemma DTPGetOption_hdr_with buf os n h dl :
  hdr_with os buf n →
  DTPGetOption buf (Some h) (Some dl)
  = Ok (true, fold_left (λ s o, get_option_upd o.1 o.2 s) os (Some h, Some dl)).
Proof.
  intros Hw. unfold DTPGetOption.
  rewrite (opt_loop_hdr_with _ get_option_upd
             (λ s, ∃ h dl, s = (Some h, Some dl)) buf os n); [|eauto..|done].
  - unfold mbind, res_bind.
    destruct (get_option_fold_some os h dl) as (h' & dl' & ->). done.
  - intros op d p s _ Hp Hb Hs (h' & dl' & ->). split; [by apply get_option_case_upd|].
    destruct (get_option_upd_some op d h' dl') as (? & ? & ->). eauto.
Qed.

(** Without a deadline pointer, on a header without a deadline option. *)
Lemma DTPGetOption_no_deadline buf os n h :
  hdr_with os buf n → Forall (λ o, o.1 ≠ DTPOPT_DEADLINE) os →
  ∃ h', DTPGetOption buf (Some h) None = Ok (true, (Some h', None)) ∧
    (Some h', None) = fold_left (λ s o, get_option_upd o.1 o.2 s) os (Some h, None).
Proof.
  intros Hw Hd. unfold DTPGetOption.
  assert (Hfold : ∃ h', fold_left (λ s o, get_option_upd o.1 o.2 s) os (Some h, None) = (Some h', None)).
  { clear Hw. revert h. induction Hd as [|[op d] os Hop Hd IH]; intros h; [by eexists|]. simpl in *.
    unfold get_option_upd at 2. rewrite (proj2 (Z.eqb_neq op DTPOPT_DEADLINE)) by done.
    repeat case_match; apply IH. }
  destruct Hfold as [h' Hf]. exists h'. split; [|done].
  rewrite (opt_loop_hdr_with _ get_option_upd (λ s, ∃ h, s = (Some h, None)) buf os n); [|eauto..|done].
  - unfold mbind, res_bind. by rewrite Hf.
  - intros op d p s Hin Hp Hb Hs (h1 & ->). apply (proj1 (Forall_forall _ _) Hd) in Hin. simpl in Hin.
    unfold get_option_case, get_option_upd, DTPOLEN_HOST_ID, SHA1_DIGEST_LENGTH.
    rewrite (proj2 (Z.eqb_neq op DTPOPT_DEADLINE)) by done.
    destruct (op =? DTPOPT_HOST_ID); [|by eauto].
    destruct (Z.eqb_spec (zlen d + 2) 22), (Z.eqb_spec (zlen d) 20); try lia; [|by eauto].
    rewrite (proj2 (in_block_spec _ _ _)) by lia. split; [by replace 20 with (zlen d); rewrite Hs|by eauto].
Qed.

(** *** Headers with options, in packets *)

Lemma align4_eq n : 0 ≤ n → align4 n = (n + 3) / 4 * 4.
Proof.
  intros. unfold align4. replace (Z.lnot 3) with (Z.lnot (Z.ones 2)) by done.
  rewrite <- Z.ldiff_land, Z.ldiff_ones_r by lia.
  rewrite Z.shiftl_mul_pow2, Z.shiftr_div_pow2 by lia. done.
Qed.

Lemma GetHeaderLen_hdr_with os p n : hdr_with os p n → GetHeaderLen p = align4 n.
Proof.
  intros Hw. pose proof (hdr_with_bytes _ _ _ Hw). destruct Hw as [_ _ Hd _ _ _].
  unfold DTPHDRSIZE in *. rewrite align4_eq by lia.
  unfold GetHeaderLen. rewrite Hd, Z.shiftl_mul_pow2 by lia. done.
Qed.

(** The options leave the other fields as they were. *)
Lemma read_header_options os p p' n seq ack fid flag win hlen :
  same_fixed p p' → hdr_with os p' n → read_header p = sent_header seq ack fid flag win hlen →
  read_header p' = sent_header seq ack fid flag win (align4 n).
Proof.
  intros [_ Hb Hf Hw] Hh E. pose proof (GetHeaderLen_hdr_with _ _ _ Hh) as Hl.
  assert (Hsl : ∀ off k, 0 ≤ off → off + k ≤ 12 → zslice off k p' = zslice off k p).
  { intros off k H0 Hk. transitivity (zslice off k (zslice 0 12 p')); [symmetry; by apply zslice_slice|].
    rewrite Hf. by apply zslice_slice. }
  unfold read_header, sent_header in *. injection E as E1 E2 E3 E4 _ E6 E7 E8 E9 E10 E11 E12.
  unfold GetFlowID, GetSeqNum, GetAckNum, GetRcvdWindow, IsCHGPacket, IsRSPPacket, IsAUTHPacket,
    IsACKPacket, IsRSTPacket, IsSYNPacket, IsFINPacket, OFF_fid, OFF_seq, OFF_ack_seq,
    OFF_window_size in *.
  rewrite Hl, !Hb, Hw, !Hsl by lia. congruence.
Qed.

(** A packet that starts with (the first [k] bytes of) a header. *)
Lemma read_header_prefix k h r :
  DTPHDRSIZE ≤ k ≤ zlen h → read_header (zslice 0 k h ++ r) = read_header h.
Proof.
  unfold DTPHDRSIZE. intros Hk.
  assert (Hl : zlen (zslice 0 k h) = k) by (apply zlen_slice; lia).
  assert (Hsl : ∀ off n, 0 ≤ off → off + n ≤ 20 → zslice off n (zslice 0 k h ++ r) = zslice off n h).
  { intros. rewrite zslice_app_l by lia. by rewrite zslice_slice by lia. }
  assert (Hg : ∀ i, 0 ≤ i < 20 → zget (zslice 0 k h ++ r) i = zget h i).
  { intros. unfold zget. rewrite app_nth1 by (unfold zlen in *; lia). by apply (zget_slice 0 k h i); lia. }
  unfold read_header, GetFlowID, GetSeqNum, GetAckNum, GetRcvdWindow, GetHeaderLen, IsCHGPacket,
    IsRSPPacket, IsAUTHPacket, IsACKPacket, IsRSTPacket, IsSYNPacket, IsFINPacket, get_bit, get_doff,
    OFF_fid, OFF_seq, OFF_ack_seq, OFF_window_size.
  rewrite !Hsl by lia. rewrite !Hg; [done|simpl; lia..].
Qed.

Lemma hdr_with_weaken os p n : hdr_with os p n → 20 ≤ align4 n ≤ zlen p.
Proof.
  intros Hw. pose proof (hdr_with_bytes _ _ _ Hw). destruct Hw as [_ _ _ _ Hr _].
  unfold DTPHDRSIZE in *. rewrite align4_eq by lia. Z.div_mod_to_equations. lia.
Qed.

Lemma read_header_app h r : DTPHDRSIZE ≤ zlen h → read_header (h ++ r) = read_header h.
Proof. intros Hl. rewrite <- (zslice_all h) at 1. by apply read_header_prefix. Qed.

(** The options are read the same behind a copy of the header. *)
Lemma hdr_with_prefix os p n r : hdr_with os p n → hdr_with os (zslice 0 (align4 n) p ++ r) n.
Proof.
  intros Hw. pose proof (hdr_with_weaken _ _ _ Hw) as Hk. pose proof (hdr_with_bytes _ _ _ Hw) as Hb.
  pose proof (read_header_prefix (align4 n) p r ltac:(unfold DTPHDRSIZE; lia)) as Hr.
  destruct Hw as [Hsz Ho Hd He Hro Hop]. pose proof (zlen_nonneg (opts_enc os)). unfold DTPHDRSIZE in *.
  assert (Ha : n ≤ align4 n < n + 4) by (rewrite align4_eq by lia; Z.div_mod_to_equations; lia).
  assert (Hlt : n mod 4 ≠ 0 → n < align4 n) by (rewrite align4_eq by lia; Z.div_mod_to_equations; lia).
  assert (Hl : zlen (zslice 0 (align4 n) p) = align4 n) by (apply zlen_slice; lia).
  constructor; try done.
  - rewrite zslice_app_l by (unfold DTPHDRSIZE; lia). rewrite zslice_slice by (unfold DTPHDRSIZE; lia). exact Ho.
  - apply (f_equal hf_hlen) in Hr. cbn in Hr. unfold GetHeaderLen in Hr. rewrite !Z.shiftl_mul_pow2 in Hr by lia. lia.
  - intros Hn. specialize (Hlt Hn). etrans; [|exact (He Hn)].
    assert (Hnat : (Z.to_nat n < length (zslice 0 (align4 n) p))%nat).
    { apply Nat2Z.inj_lt. rewrite Z2Nat.id by lia. unfold zlen in Hl. rewrite Hl. lia. }
    unfold zget. rewrite app_nth1 by exact Hnat. apply (zget_slice 0 (align4 n) p n); lia.
  - rewrite zlen_app, Hl, <- align4_eq by lia. pose proof (zlen_nonneg r). lia.
Qed.

(** ** What a receiver reads back *)

(** Every header field survives the wire format.  For 32-bit numbers, any flags
    and any window, the accessors read from the generated header the flow ID, the
    sequence and acknowledgement numbers, the seven flags and the header length it
    was made with, and the window cut to 15 bits, whatever follows the header in the
    receive buffer. *)
Lemma header_read_back p seq ack fid flag win rest :
  DTPHDRSIZE ≤ zlen p → is_u32 seq → is_u32 ack → is_u32 fid → 0 ≤ win →
  read_header ((DTPGenerateHeader p seq ack fid flag win).1 ++ rest)
  = sent_header seq ack fid flag win DTPHDRSIZE.
Proof.
  intros Hl Hs Ha Hf Hw. rewrite read_header_app by (by rewrite zlen_GenerateHeader). by apply header_roundtrip.
Qed.

Example header_read_back_witness :
  read_header ((DTPGenerateHeader (zeros 20) 7 4294967295 99 (Z.lor DTP_FLAG_SYN DTP_FLAG_ACK) 70000).1 ++ [1; 2])
  = sent_header 7 4294967295 99 (Z.lor DTP_FLAG_SYN DTP_FLAG_ACK) 70000 DTPHDRSIZE.
Proof. apply header_read_back; try done; unfold is_u32; lia. Defined.

(** A header of 24 bytes whose first option is a window scale of size 0. *)
Example DTPGetOption_zero_size_spins_witness :
  let buf := put_doff 6 (zeros 20) ++ [DTPOPT_WIN_SCALE; 0; 0; 0] in
  opt_loop (get_option_case buf) buf 1000 DTPHDRSIZE (options_len buf) (Some [], Some 0) = Err Spin.
Proof. intros buf. by apply (DTPGetOption_zero_size_spins buf _ _ _ DTPOPT_WIN_SCALE). Defined.

(** C31: The options of a SYN survive the wire format.  The host ID, the deadline
    and the window scale added to a header one after the other are accepted, and
    [DTPGetOption] finds the host ID and the deadline again; the fixed fields are
    as generated and the header length is the padded size. *)
Theorem syn_options_read_back p seq ack fid flag win hid dl ws h0 d0 :
  55 ≤ zlen p → is_u32 seq → is_u32 ack → is_u32 fid → 0 ≤ win →
  zlen hid = SHA1_DIGEST_LENGTH → is_u32 dl →
  ∃ p1 p2 p3,
    DTPAddOptionToHeader (DTPGenerateHeader p seq ack fid flag win).1 DTPHDRSIZE DTPOPT_HOST_ID hid = Ok (p1, 42) ∧
    DTPAddOptionToHeader p1 42 DTPOPT_DEADLINE (le32 dl) = Ok (p2, 48) ∧
    DTPAddOptionToHeader p2 48 DTPOPT_WIN_SCALE [ws] = Ok (p3, 51) ∧
    DTPGetOption p3 (Some h0) (Some d0) = Ok (true, (Some hid, Some dl)) ∧
    read_header p3 = sent_header seq ack fid flag win 52.
Proof.
  intros Hl Hs Ha Hf Hw Hhid Hdl. assert (H20 : DTPHDRSIZE ≤ zlen p) by (unfold DTPHDRSIZE; lia).
  pose proof (header_roundtrip p seq ack fid flag win H20 Hs Ha Hf Hw) as E.
  pose proof (hdr_with_generate p seq ack fid flag win H20 Hs Ha Hf Hw) as W0.
  pose proof (zlen_GenerateHeader p seq ack fid flag win H20) as L0.
  set (h := (DTPGenerateHeader p seq ack fid flag win).1) in *. clearbody h.
  destruct (add_option_spec [] h DTPHDRSIZE DTPOPT_HOST_ID DTPOLEN_HOST_ID hid W0) as (p1 & E1 & W1 & S1);
    [done|rewrite Hhid; done|rewrite L0; unfold DTPHDRSIZE, DTPOLEN_HOST_ID; lia|done|].
  destruct (add_option_spec _ p1 42 DTPOPT_DEADLINE DTPOLEN_DEADLINE (le32 dl) W1) as (p2 & E2 & W2 & S2);
    [done|done|rewrite (sf_len _ _ S1), L0; unfold DTPOLEN_DEADLINE; lia|done|].
  destruct (add_option_spec _ p2 48 DTPOPT_WIN_SCALE DTPOLEN_WIN_SCALE [ws] W2) as (p3 & E3 & W3 & S3);
    [done|done|rewrite (sf_len _ _ S2), (sf_len _ _ S1), L0; unfold DTPOLEN_WIN_SCALE; lia|done|].
  exists p1, p2, p3. split_and!; [done..| |].
  - rewrite (DTPGetOption_hdr_with _ _ _ _ _ W3). simpl app. change (DTPOLEN_HOST_ID - 2) with 20.
    change (DTPOLEN_DEADLINE - 2) with 4. change SHA1_DIGEST_LENGTH with 20 in Hhid.
    rewrite <- Hhid at 1. rewrite zslice_all. simpl fold_left. unfold get_option_upd. simpl fst. simpl snd.
    rewrite Hhid. change (zslice 0 4 (le32 dl)) with (le32 dl). simpl. by rewrite of_le32.
  - pose proof (read_header_options _ _ _ _ _ _ _ _ _ _ S1 W1 E) as R1.
    pose proof (read_header_options _ _ _ _ _ _ _ _ _ _ S2 W2 R1) as R2.
    exact (read_header_options _ _ _ _ _ _ _ _ _ _ S3 W3 R2).
Qed.

Example syn_options_read_back_witness :
  ∃ p1 p2 p3,
    DTPAddOptionToHeader (DTPGenerateHeader (zeros 60) 1 0 99 DTP_FLAG_SYN 4096).1 DTPHDRSIZE DTPOPT_HOST_ID
      (zeros 20) = Ok (p1, 42) ∧
    DTPAddOptionToHeader p1 42 DTPOPT_DEADLINE (le32 86400) = Ok (p2, 48) ∧
    DTPAddOptionToHeader p2 48 DTPOPT_WIN_SCALE [4] = Ok (p3, 51) ∧
    DTPGetOption p3 (Some []) (Some 0) = Ok (true, (Some (zeros 20), Some 86400)) ∧
    read_header p3 = sent_header 1 0 99 DTP_FLAG_SYN 4096 52.
Proof. apply syn_options_read_back; try done; unfold is_u32; lia. Defined.
