(* ===== verification/Context.v ===== *)
(** * Connection contexts and packets (dtp_transport.h, dtp.h)

    [struct dtp_context], [struct dtp_pkt] and [struct buffer] with all their
    data fields (the pthread objects and the queue links are not data of the
    model: a queue is the list of the pointers on it), the protocol constants and
    the inline accessors of dtp_transport.h. *)

From S2P Require Import Prelude Double Header.

(** A pointer to a heap object is its address; address 0 is NULL. *)
Abbreviation ptr := Z (only parsing).
Definition NULL : ptr := 0.

(** ** Constants *)

Definition RTO : double := d_div (d_of_Z 3) (d_of_Z 2).
Definition RTO_MIN : double := d_of_Z 1.
Definition RTO_MAX : double := d_of_Z 64.
Definition DTP_KEEPALIVE_TIME : Z := 7200.
Definition DTP_KEEPALIVE_PROBES : Z := 9.
Definition DTP_KEEPALIVE_INTVL : Z := 75.
Definition DTP_PERSIST_MIN : Z := 5.
Definition DTP_PERSIST_MAX : Z := 60.
Definition DTP_MTU : Z := 1472.
Definition DTP_MAX_WINSCALE_SHIFT : Z := 14.
Definition LAST_TIMEOUT : Z := 30.
Definition RSA_LEN : Z := 256.
Definition MAX_INT : Z := 2147483647.
Definition DEF_READ_BUFLEN : Z := 32 * 1024.
Definition DEF_WRITE_BUFLEN : Z := 32 * 1024.
Definition MAX_BATCH : Z := 8.
Definition MAX_PAYLOAD : Z := DTP_MTU - DTPHDRSIZE.

(** The states of a D2TP socket. *)
Inductive sock_state :=
  | SOCK_CLOSED | SOCK_LISTEN | SOCK_SYN_RCVD | SOCK_SYN_SENT | SOCK_ESTABLISHED
  | SOCK_FIN_WAIT_1 | SOCK_FIN_WAIT_2 | SOCK_TIME_WAIT | SOCK_CLOSE_WAIT | SOCK_LAST_ACK.

#[export] Instance sock_state_eq_dec : EqDecision sock_state.
Proof. solve_decision. Defined.

Definition is_state (s s' : sock_state) : bool := bool_decide (s = s').

(** [struct sockaddr_in]; [sin_port] is kept in host order. *)
Record sockaddr_in := mk_addr {
  sin_family : Z; sin_port : Z; sin_addr : Z; sin_zero : Z }.

#[export] Instance sockaddr_in_eq_dec : EqDecision sockaddr_in.
Proof. solve_decision. Defined.

Definition addr_zero : sockaddr_in := mk_addr 0 0 0 0.

(** [memcmp(&a, &b, sizeof(a)) == 0] *)
Definition addr_eqb (a b : sockaddr_in) : bool := bool_decide (a = b).

Definition set_sin_port (a : sockaddr_in) (port : Z) : sockaddr_in :=
  mk_addr (sin_family a) port (sin_addr a) (sin_zero a).

(** [dtp_event] and its commands. *)
Definition DTP_ADD_READ_EVENT : Z := 0.
Definition DTP_REMOVE_EVENT : Z := 1.
Definition DTP_ADD_LISTEN_EVENT : Z := 2.
Definition DTP_FD_READ : Z := 0.
Definition DTP_FD_WRITE : Z := 1.

Record dtp_event := mk_event { te_fd : Z; te_command : Z }.

(** ** [struct dtp_context] *)

Record dtp_context := mk_ctx {
  (* state, descriptors, peer *)
  tc_state : sock_state; tc_fstatus : Z; tc_sock : Z; tc_isock : Z;
  tc_readEvent : bool; tc_key : bytes; tc_keyLen : Z; tc_waitTime : timeval;
  tc_peerAddr : sockaddr_in; tc_nonce : Z;
  (* write socket buffer *)
  tc_writeBuf : option bytes; tc_writeBufLen : Z; tc_lastByteAcked : Z;
  tc_lastByteWritten : Z; tc_lastByteSent : Z;
  (* read socket buffer *)
  tc_readBuf : option bytes; tc_readBufHead : ptr; tc_readBufLen : Z;
  tc_lastByteRead : Z; tc_nextByteExpected : Z; tc_lastByteRcvd : Z; tc_rcvLoBufHB : Z;
  tc_rcvLoBufLB : Z;
  (* timeout timer *)
  tc_estRTT : double; tc_devRTT : double; tc_RTO : double;
  (* keep-alive *)
  tc_keepAliveTime : Z; tc_keepAliveIntvl : Z; tc_keepAliveProbes : Z;
  tc_keepAliveStart : timeval; tc_sentProbes : Z;
  (* connection queue *)
  tc_backlog : Z; tc_qidx : Z; tc_listenQ : option (list Z);
  (* bit flags *)
  tc_isBound : bool; tc_isReadBlocked : bool; tc_isWriteBlocked : bool;
  tc_isQueueBlocked : bool; tc_isActive : bool; tc_closeCalled : bool;
  tc_isFirstPacketSent : bool; tc_isFirstDataSent : bool; tc_isSYNSent : bool;
  tc_isFINSent : bool; tc_isFINRcvd : bool; tc_sendSYN : bool; tc_recvAnyData : bool;
  tc_waitACK : bool; tc_sendACK : bool; tc_isCongested : bool;
  tc_useWindowScale : bool; tc_usePAWS : bool; tc_useLinger : bool;
  tc_isNetConnected : bool; tc_isMyWindowZero : bool; tc_isHerWindowZero : bool;
  tc_isTransportWaiting : bool; tc_onFlowIDMap : bool; tc_isKeepAliveEnabled : bool;
  tc_connTimedOut : bool; tc_connReset : bool; tc_beingMonitored : bool;
  tc_isACKInserted : bool; tc_isAUTHSent : bool; tc_isDeadlineSet : bool;
  tc_isDeadlineChanged : bool; tc_useMobile : bool; tc_isWifiOnly : bool;
  tc_isClientMobile : bool; tc_scheduleSend : bool; tc_schedSendFail : bool;
  tc_isMobileBWMeasuring : bool; tc_limitRcvBuf : bool; tc_mobileAvailable : bool;
  tc_wifiAvailable : bool; tc_doingCHGRSP : bool;
  (* D2TP semantics, acknowledgements, flow and congestion control *)
  tc_flowID : Z; tc_hostID : bytes; tc_seqNum : Z; tc_ackNum : Z; tc_numPacketRcvd : Z;
  tc_numACKRcvd : Z; tc_rcvWindow : Z; tc_cwnd : Z; tc_ssthresh : Z; tc_segSent : Z;
  tc_recvWindowScale : Z; tc_sendWindowScale : Z; tc_persistTimer : timeval;
  tc_persistIntvl : Z;
  (* packet queue *)
  tc_packetQ : list ptr;
  (* deadline, mobile bandwidth, accounting *)
  tc_blockSize : Z; tc_blockRemain : Z; tc_deadline : Z; tc_deadlineTime : timeval;
  tc_mobileSpeed : double; tc_mobileCounter : Z; tc_lastBlockRemain : Z;
  tc_blockRemainLast : Z; tc_networkTimeLast : double; tc_schedAllowTime : Z;
  tc_startTime : timeval; tc_mobileTime : Z; tc_wifiTime : Z; tc_upByte : Z;
  tc_downByte : Z }.

Definition eta_ctx (c : dtp_context) : dtp_context := mk_ctx
  (tc_state c) (tc_fstatus c) (tc_sock c) (tc_isock c) (tc_readEvent c) (tc_key c)
  (tc_keyLen c) (tc_waitTime c) (tc_peerAddr c) (tc_nonce c) (tc_writeBuf c)
  (tc_writeBufLen c) (tc_lastByteAcked c) (tc_lastByteWritten c) (tc_lastByteSent c)
  (tc_readBuf c) (tc_readBufHead c) (tc_readBufLen c) (tc_lastByteRead c)
  (tc_nextByteExpected c) (tc_lastByteRcvd c) (tc_rcvLoBufHB c) (tc_rcvLoBufLB c)
  (tc_estRTT c) (tc_devRTT c) (tc_RTO c) (tc_keepAliveTime c) (tc_keepAliveIntvl c)
  (tc_keepAliveProbes c) (tc_keepAliveStart c) (tc_sentProbes c) (tc_backlog c)
  (tc_qidx c) (tc_listenQ c) (tc_isBound c) (tc_isReadBlocked c) (tc_isWriteBlocked c)
  (tc_isQueueBlocked c) (tc_isActive c) (tc_closeCalled c) (tc_isFirstPacketSent c)
  (tc_isFirstDataSent c) (tc_isSYNSent c) (tc_isFINSent c) (tc_isFINRcvd c)
  (tc_sendSYN c) (tc_recvAnyData c) (tc_waitACK c) (tc_sendACK c) (tc_isCongested c)
  (tc_useWindowScale c) (tc_usePAWS c) (tc_useLinger c) (tc_isNetConnected c)
  (tc_isMyWindowZero c) (tc_isHerWindowZero c) (tc_isTransportWaiting c)
  (tc_onFlowIDMap c) (tc_isKeepAliveEnabled c) (tc_connTimedOut c) (tc_connReset c)
  (tc_beingMonitored c) (tc_isACKInserted c) (tc_isAUTHSent c) (tc_isDeadlineSet c)
  (tc_isDeadlineChanged c) (tc_useMobile c) (tc_isWifiOnly c) (tc_isClientMobile c)
  (tc_scheduleSend c) (tc_schedSendFail c) (tc_isMobileBWMeasuring c)
  (tc_limitRcvBuf c) (tc_mobileAvailable c) (tc_wifiAvailable c) (tc_doingCHGRSP c)
  (tc_flowID c) (tc_hostID c) (tc_seqNum c) (tc_ackNum c) (tc_numPacketRcvd c)
  (tc_numACKRcvd c) (tc_rcvWindow c) (tc_cwnd c) (tc_ssthresh c) (tc_segSent c)
  (tc_recvWindowScale c) (tc_sendWindowScale c) (tc_persistTimer c) (tc_persistIntvl c)
  (tc_packetQ c) (tc_blockSize c) (tc_blockRemain c) (tc_deadline c)
  (tc_deadlineTime c) (tc_mobileSpeed c) (tc_mobileCounter c) (tc_lastBlockRemain c)
  (tc_blockRemainLast c) (tc_networkTimeLast c) (tc_schedAllowTime c) (tc_startTime c)
  (tc_mobileTime c) (tc_wifiTime c) (tc_upByte c) (tc_downByte c).

(** [memset(ctx, 0, sizeof( *ctx))], also what [calloc] returns. *)
Definition zero_ctx : dtp_context := {|
  tc_state := SOCK_CLOSED; tc_fstatus := 0; tc_sock := 0; tc_isock := 0;
  tc_readEvent := false; tc_key := zeros RSA_LEN; tc_keyLen := 0;
  tc_waitTime := tv_zero; tc_peerAddr := addr_zero; tc_nonce := 0; tc_writeBuf := None;
  tc_writeBufLen := 0; tc_lastByteAcked := 0; tc_lastByteWritten := 0;
  tc_lastByteSent := 0; tc_readBuf := None; tc_readBufHead := NULL; tc_readBufLen := 0;
  tc_lastByteRead := 0; tc_nextByteExpected := 0; tc_lastByteRcvd := 0;
  tc_rcvLoBufHB := 0; tc_rcvLoBufLB := 0; tc_estRTT := d_of_Z 0; tc_devRTT := d_of_Z 0;
  tc_RTO := d_of_Z 0; tc_keepAliveTime := 0; tc_keepAliveIntvl := 0;
  tc_keepAliveProbes := 0; tc_keepAliveStart := tv_zero; tc_sentProbes := 0;
  tc_backlog := 0; tc_qidx := 0; tc_listenQ := None; tc_isBound := false;
  tc_isReadBlocked := false; tc_isWriteBlocked := false; tc_isQueueBlocked := false;
  tc_isActive := false; tc_closeCalled := false; tc_isFirstPacketSent := false;
  tc_isFirstDataSent := false; tc_isSYNSent := false; tc_isFINSent := false;
  tc_isFINRcvd := false; tc_sendSYN := false; tc_recvAnyData := false;
  tc_waitACK := false; tc_sendACK := false; tc_isCongested := false;
  tc_useWindowScale := false; tc_usePAWS := false; tc_useLinger := false;
  tc_isNetConnected := false; tc_isMyWindowZero := false; tc_isHerWindowZero := false;
  tc_isTransportWaiting := false; tc_onFlowIDMap := false;
  tc_isKeepAliveEnabled := false; tc_connTimedOut := false; tc_connReset := false;
  tc_beingMonitored := false; tc_isACKInserted := false; tc_isAUTHSent := false;
  tc_isDeadlineSet := false; tc_isDeadlineChanged := false; tc_useMobile := false;
  tc_isWifiOnly := false; tc_isClientMobile := false; tc_scheduleSend := false;
  tc_schedSendFail := false; tc_isMobileBWMeasuring := false; tc_limitRcvBuf := false;
  tc_mobileAvailable := false; tc_wifiAvailable := false; tc_doingCHGRSP := false;
  tc_flowID := 0; tc_hostID := zeros SHA1_DIGEST_LENGTH; tc_seqNum := 0;
  tc_ackNum := 0; tc_numPacketRcvd := 0; tc_numACKRcvd := 0; tc_rcvWindow := 0;
  tc_cwnd := 0; tc_ssthresh := 0; tc_segSent := 0; tc_recvWindowScale := 0;
  tc_sendWindowScale := 0; tc_persistTimer := tv_zero; tc_persistIntvl := 0;
  tc_packetQ := []; tc_blockSize := 0; tc_blockRemain := 0; tc_deadline := 0;
  tc_deadlineTime := tv_zero; tc_mobileSpeed := d_of_Z 0; tc_mobileCounter := 0;
  tc_lastBlockRemain := 0; tc_blockRemainLast := 0; tc_networkTimeLast := d_of_Z 0;
  tc_schedAllowTime := 0; tc_startTime := tv_zero; tc_mobileTime := 0;
  tc_wifiTime := 0; tc_upByte := 0; tc_downByte := 0 |}.

#[export] Instance set_tc_state : Setter tc_state := ltac:(mk_setter eta_ctx).
#[export] Instance set_tc_fstatus : Setter tc_fstatus := ltac:(mk_setter eta_ctx).
#[export] Instance set_tc_sock : Setter tc_sock := ltac:(mk_setter eta_ctx).
#[export] Instance set_tc_isock : Setter tc_isock := ltac:(mk_setter eta_ctx).
#[export] Instance set_tc_readEvent : Setter tc_readEvent := ltac:(mk_setter eta_ctx).
#[export] Instance set_tc_key : Setter tc_key := ltac:(mk_setter eta_ctx).
#[export] Instance set_tc_keyLen : Setter tc_keyLen := ltac:(mk_setter eta_ctx).
#[export] Instance set_tc_waitTime : Setter tc_waitTime := ltac:(mk_setter eta_ctx).
#[export] Instance set_tc_peerAddr : Setter tc_peerAddr := ltac:(mk_setter eta_ctx).
#[export] Instance set_tc_nonce : Setter tc_nonce := ltac:(mk_setter eta_ctx).
#[export] Instance set_tc_writeBuf : Setter tc_writeBuf := ltac:(mk_setter eta_ctx).
#[export] Instance set_tc_writeBufLen : Setter tc_writeBufLen := ltac:(mk_setter eta_ctx).
#[export] Instance set_tc_lastByteAcked : Setter tc_lastByteAcked := ltac:(mk_setter eta_ctx).
#[export] Instance set_tc_lastByteWritten : Setter tc_lastByteWritten := ltac:(mk_setter eta_ctx).
#[export] Instance set_tc_lastByteSent : Setter tc_lastByteSent := ltac:(mk_setter eta_ctx).
#[export] Instance set_tc_readBuf : Setter tc_readBuf := ltac:(mk_setter eta_ctx).
#[export] Instance set_tc_readBufHead : Setter tc_readBufHead := ltac:(mk_setter eta_ctx).
#[export] Instance set_tc_readBufLen : Setter tc_readBufLen := ltac:(mk_setter eta_ctx).
#[export] Instance set_tc_lastByteRead : Setter tc_lastByteRead := ltac:(mk_setter eta_ctx).
#[export] Instance set_tc_nextByteExpected : Setter tc_nextByteExpected := ltac:(mk_setter eta_ctx).
#[export] Instance set_tc_lastByteRcvd : Setter tc_lastByteRcvd := ltac:(mk_setter eta_ctx).
#[export] Instance set_tc_rcvLoBufHB : Setter tc_rcvLoBufHB := ltac:(mk_setter eta_ctx).
#[export] Instance set_tc_rcvLoBufLB : Setter tc_rcvLoBufLB := ltac:(mk_setter eta_ctx).
#[export] Instance set_tc_estRTT : Setter tc_estRTT := ltac:(mk_setter eta_ctx).
#[export] Instance set_tc_devRTT : Setter tc_devRTT := ltac:(mk_setter eta_ctx).
#[export] Instance set_tc_RTO : Setter tc_RTO := ltac:(mk_setter eta_ctx).
#[export] Instance set_tc_keepAliveTime : Setter tc_keepAliveTime := ltac:(mk_setter eta_ctx).
#[export] Instance set_tc_keepAliveIntvl : Setter tc_keepAliveIntvl := ltac:(mk_setter eta_ctx).
#[export] Instance set_tc_keepAliveProbes : Setter tc_keepAliveProbes := ltac:(mk_setter eta_ctx).
#[export] Instance set_tc_keepAliveStart : Setter tc_keepAliveStart := ltac:(mk_setter eta_ctx).
#[export] Instance set_tc_sentProbes : Setter tc_sentProbes := ltac:(mk_setter eta_ctx).
#[export] Instance set_tc_backlog : Setter tc_backlog := ltac:(mk_setter eta_ctx).
#[export] Instance set_tc_qidx : Setter tc_qidx := ltac:(mk_setter eta_ctx).
#[export] Instance set_tc_listenQ : Setter tc_listenQ := ltac:(mk_setter eta_ctx).
#[export] Instance set_tc_isBound : Setter tc_isBound := ltac:(mk_setter eta_ctx).
#[export] Instance set_tc_isReadBlocked : Setter tc_isReadBlocked := ltac:(mk_setter eta_ctx).
#[export] Instance set_tc_isWriteBlocked : Setter tc_isWriteBlocked := ltac:(mk_setter eta_ctx).
#[export] Instance set_tc_isQueueBlocked : Setter tc_isQueueBlocked := ltac:(mk_setter eta_ctx).
#[export] Instance set_tc_isActive : Setter tc_isActive := ltac:(mk_setter eta_ctx).
#[export] Instance set_tc_closeCalled : Setter tc_closeCalled := ltac:(mk_setter eta_ctx).
#[export] Instance set_tc_isFirstPacketSent : Setter tc_isFirstPacketSent := ltac:(mk_setter eta_ctx).
#[export] Instance set_tc_isFirstDataSent : Setter tc_isFirstDataSent := ltac:(mk_setter eta_ctx).
#[export] Instance set_tc_isSYNSent : Setter tc_isSYNSent := ltac:(mk_setter eta_ctx).
#[export] Instance set_tc_isFINSent : Setter tc_isFINSent := ltac:(mk_setter eta_ctx).
#[export] Instance set_tc_isFINRcvd : Setter tc_isFINRcvd := ltac:(mk_setter eta_ctx).
#[export] Instance set_tc_sendSYN : Setter tc_sendSYN := ltac:(mk_setter eta_ctx).
#[export] Instance set_tc_recvAnyData : Setter tc_recvAnyData := ltac:(mk_setter eta_ctx).
#[export] Instance set_tc_waitACK : Setter tc_waitACK := ltac:(mk_setter eta_ctx).
#[export] Instance set_tc_sendACK : Setter tc_sendACK := ltac:(mk_setter eta_ctx).
#[export] Instance set_tc_isCongested : Setter tc_isCongested := ltac:(mk_setter eta_ctx).
#[export] Instance set_tc_useWindowScale : Setter tc_useWindowScale := ltac:(mk_setter eta_ctx).
#[export] Instance set_tc_usePAWS : Setter tc_usePAWS := ltac:(mk_setter eta_ctx).
#[export] Instance set_tc_useLinger : Setter tc_useLinger := ltac:(mk_setter eta_ctx).
#[export] Instance set_tc_isNetConnected : Setter tc_isNetConnected := ltac:(mk_setter eta_ctx).
#[export] Instance set_tc_isMyWindowZero : Setter tc_isMyWindowZero := ltac:(mk_setter eta_ctx).
#[export] Instance set_tc_isHerWindowZero : Setter tc_isHerWindowZero := ltac:(mk_setter eta_ctx).
#[export] Instance set_tc_isTransportWaiting : Setter tc_isTransportWaiting := ltac:(mk_setter eta_ctx).
#[export] Instance set_tc_onFlowIDMap : Setter tc_onFlowIDMap := ltac:(mk_setter eta_ctx).
#[export] Instance set_tc_isKeepAliveEnabled : Setter tc_isKeepAliveEnabled := ltac:(mk_setter eta_ctx).
#[export] Instance set_tc_connTimedOut : Setter tc_connTimedOut := ltac:(mk_setter eta_ctx).
#[export] Instance set_tc_connReset : Setter tc_connReset := ltac:(mk_setter eta_ctx).
#[export] Instance set_tc_beingMonitored : Setter tc_beingMonitored := ltac:(mk_setter eta_ctx).
#[export] Instance set_tc_isACKInserted : Setter tc_isACKInserted := ltac:(mk_setter eta_ctx).
#[export] Instance set_tc_isAUTHSent : Setter tc_isAUTHSent := ltac:(mk_setter eta_ctx).
#[export] Instance set_tc_isDeadlineSet : Setter tc_isDeadlineSet := ltac:(mk_setter eta_ctx).
#[export] Instance set_tc_isDeadlineChanged : Setter tc_isDeadlineChanged := ltac:(mk_setter eta_ctx).
#[export] Instance set_tc_useMobile : Setter tc_useMobile := ltac:(mk_setter eta_ctx).
#[export] Instance set_tc_isWifiOnly : Setter tc_isWifiOnly := ltac:(mk_setter eta_ctx).
#[export] Instance set_tc_isClientMobile : Setter tc_isClientMobile := ltac:(mk_setter eta_ctx).
#[export] Instance set_tc_scheduleSend : Setter tc_scheduleSend := ltac:(mk_setter eta_ctx).
#[export] Instance set_tc_schedSendFail : Setter tc_schedSendFail := ltac:(mk_setter eta_ctx).
#[export] Instance set_tc_isMobileBWMeasuring : Setter tc_isMobileBWMeasuring := ltac:(mk_setter eta_ctx).
#[export] Instance set_tc_limitRcvBuf : Setter tc_limitRcvBuf := ltac:(mk_setter eta_ctx).
#[export] Instance set_tc_mobileAvailable : Setter tc_mobileAvailable := ltac:(mk_setter eta_ctx).
#[export] Instance set_tc_wifiAvailable : Setter tc_wifiAvailable := ltac:(mk_setter eta_ctx).
#[export] Instance set_tc_doingCHGRSP : Setter tc_doingCHGRSP := ltac:(mk_setter eta_ctx).
#[export] Instance set_tc_flowID : Setter tc_flowID := ltac:(mk_setter eta_ctx).
#[export] Instance set_tc_hostID : Setter tc_hostID := ltac:(mk_setter eta_ctx).
#[export] Instance set_tc_seqNum : Setter tc_seqNum := ltac:(mk_setter eta_ctx).
#[export] Instance set_tc_ackNum : Setter tc_ackNum := ltac:(mk_setter eta_ctx).
#[export] Instance set_tc_numPacketRcvd : Setter tc_numPacketRcvd := ltac:(mk_setter eta_ctx).
#[export] Instance set_tc_numACKRcvd : Setter tc_numACKRcvd := ltac:(mk_setter eta_ctx).
#[export] Instance set_tc_rcvWindow : Setter tc_rcvWindow := ltac:(mk_setter eta_ctx).
#[export] Instance set_tc_cwnd : Setter tc_cwnd := ltac:(mk_setter eta_ctx).
#[export] Instance set_tc_ssthresh : Setter tc_ssthresh := ltac:(mk_setter eta_ctx).
#[export] Instance set_tc_segSent : Setter tc_segSent := ltac:(mk_setter eta_ctx).
#[export] Instance set_tc_recvWindowScale : Setter tc_recvWindowScale := ltac:(mk_setter eta_ctx).
#[export] Instance set_tc_sendWindowScale : Setter tc_sendWindowScale := ltac:(mk_setter eta_ctx).
#[export] Instance set_tc_persistTimer : Setter tc_persistTimer := ltac:(mk_setter eta_ctx).
#[export] Instance set_tc_persistIntvl : Setter tc_persistIntvl := ltac:(mk_setter eta_ctx).
#[export] Instance set_tc_packetQ : Setter tc_packetQ := ltac:(mk_setter eta_ctx).
#[export] Instance set_tc_blockSize : Setter tc_blockSize := ltac:(mk_setter eta_ctx).
#[export] Instance set_tc_blockRemain : Setter tc_blockRemain := ltac:(mk_setter eta_ctx).
#[export] Instance set_tc_deadline : Setter tc_deadline := ltac:(mk_setter eta_ctx).
#[export] Instance set_tc_deadlineTime : Setter tc_deadlineTime := ltac:(mk_setter eta_ctx).
#[export] Instance set_tc_mobileSpeed : Setter tc_mobileSpeed := ltac:(mk_setter eta_ctx).
#[export] Instance set_tc_mobileCounter : Setter tc_mobileCounter := ltac:(mk_setter eta_ctx).
#[export] Instance set_tc_lastBlockRemain : Setter tc_lastBlockRemain := ltac:(mk_setter eta_ctx).
#[export] Instance set_tc_blockRemainLast : Setter tc_blockRemainLast := ltac:(mk_setter eta_ctx).
#[export] Instance set_tc_networkTimeLast : Setter tc_networkTimeLast := ltac:(mk_setter eta_ctx).
#[export] Instance set_tc_schedAllowTime : Setter tc_schedAllowTime := ltac:(mk_setter eta_ctx).
#[export] Instance set_tc_startTime : Setter tc_startTime := ltac:(mk_setter eta_ctx).
#[export] Instance set_tc_mobileTime : Setter tc_mobileTime := ltac:(mk_setter eta_ctx).
#[export] Instance set_tc_wifiTime : Setter tc_wifiTime := ltac:(mk_setter eta_ctx).
#[export] Instance set_tc_upByte : Setter tc_upByte := ltac:(mk_setter eta_ctx).
#[export] Instance set_tc_downByte : Setter tc_downByte := ltac:(mk_setter eta_ctx).

(** ** [struct dtp_pkt] and [struct buffer] *)

Definition TP_HEADER_SIZE : Z := 2048.

Record dtp_pkt := mk_pkt {
  tp_ctx : Z; tp_seqNum : Z; tp_len : Z; tp_header : bytes; tp_headerLen : Z;
  tp_time : timeval; tp_isRetrans : bool }.

Definition eta_pkt (p : dtp_pkt) : dtp_pkt := mk_pkt
  (tp_ctx p) (tp_seqNum p) (tp_len p) (tp_header p) (tp_headerLen p) (tp_time p)
  (tp_isRetrans p).

Definition zero_pkt : dtp_pkt := {|
  tp_ctx := 0; tp_seqNum := 0; tp_len := 0; tp_header := zeros TP_HEADER_SIZE;
  tp_headerLen := 0; tp_time := tv_zero; tp_isRetrans := false |}.

#[export] Instance set_tp_ctx : Setter tp_ctx := ltac:(mk_setter eta_pkt).
#[export] Instance set_tp_seqNum : Setter tp_seqNum := ltac:(mk_setter eta_pkt).
#[export] Instance set_tp_len : Setter tp_len := ltac:(mk_setter eta_pkt).
#[export] Instance set_tp_header : Setter tp_header := ltac:(mk_setter eta_pkt).
#[export] Instance set_tp_headerLen : Setter tp_headerLen := ltac:(mk_setter eta_pkt).
#[export] Instance set_tp_time : Setter tp_time := ltac:(mk_setter eta_pkt).
#[export] Instance set_tp_isRetrans : Setter tp_isRetrans := ltac:(mk_setter eta_pkt).

(** A node of the list of received intervals. *)
Record buffer := mk_buffer { b_seq : Z; b_len : Z; b_next : ptr }.

(** ** Inline functions (dtp_transport.h) *)

Definition GetWriteBufOff (ctx : dtp_context) : Z :=
  i32 (tc_lastByteWritten ctx -u tc_lastByteAcked ctx).

Definition GetAvailWriteBufSize (ctx : dtp_context) : Z :=
  tc_writeBufLen ctx - GetWriteBufOff ctx.

Definition GetReadBufDataSize (ctx : dtp_context) : Z :=
  i32 (tc_nextByteExpected ctx -u tc_lastByteRead ctx).

Definition GetAvailReadBufSize (ctx : dtp_context) : Z :=
  u32 (tc_readBufLen ctx - GetReadBufDataSize ctx).

Definition GetAckNumber (ctx : dtp_context) : Z :=
  tc_nextByteExpected ctx +u (if tc_isFINRcvd ctx then 1 else 0).

(** The window field of an outgoing header. *)
Definition AdvertisedWindow (ctx : dtp_context) : Z :=
  Z.shiftr (GetAvailReadBufSize ctx) (tc_recvWindowScale ctx).

(** Offset in [tc_writeBuf] of the byte [tc_lastByteSent]. *)
Definition GetWriteBufLastByteSentOff (ctx : dtp_context) : Z :=
  tc_lastByteSent ctx -u tc_lastByteAcked ctx.

(** Offset in [tc_writeBuf] of the first byte of a packet of [ctx]. *)
Definition GetWriteBufPacketSentOff (ctx : dtp_context) (packet : dtp_pkt) : Z :=
  tp_seqNum packet -u tc_lastByteAcked ctx.

Definition UseWindowScale (ctx : dtp_context) (recvWindowScale : Z) : dtp_context :=
  let ctx := ctx <| tc_useWindowScale := true |> <| tc_recvWindowScale := recvWindowScale |> in
  if DTP_MAX_WINSCALE_SHIFT <? tc_recvWindowScale ctx
  then ctx <| tc_recvWindowScale := DTP_MAX_WINSCALE_SHIFT |> else ctx.

(** The states in which both directions are closing, as the guards of the
    socket calls list them. *)
Definition closing_state (s : sock_state) : bool :=
  match s with
  | SOCK_CLOSE_WAIT | SOCK_LAST_ACK | SOCK_FIN_WAIT_1 | SOCK_FIN_WAIT_2 | SOCK_TIME_WAIT => true
  | _ => false
  end.
