(* ===== verification/World.v ===== *)
(** * The state of the library and the monad of its functions

    [world] is the global state of the D2TP library: the static variables of
    its files, the heaps of packets and interval nodes, and a log of what it
    hands to the operating system.  A C function is a value of [M], a state
    passing function that returns a value or stops at a [fault].

    [Env] is what the library calls but does not define: the clock, the UDP
    socket layer, the random sources and OpenSSL.  The mutexes of a
    context are not modelled (a function between a lock and its unlock is one
    step of the model); [g_timerLock] is, because the timer handler calls
    functions that take it again.  The pthread and [malloc] calls succeed. *)

From S2P Require Import Prelude Double Header Context.

(** The condition variables of a context. *)
Inductive cond := readBufCond | writeBufCond | closeCond.

(** A UDP datagram handed to the operating system. *)
Record datagram := mk_datagram { dg_sock : Z; dg_addr : sockaddr_in; dg_data : bytes }.

Record world := mk_world {
  w_ctxs : gmap Z dtp_context;  (* g_pcontext: the contexts, by socket number *)
  w_batches : gset Z;  (* the batches of g_pcontext that are allocated *)
  w_FlowIDMapBins : gmap Z (list Z);  (* g_FlowIDMapBins (context.c) *)
  w_pkts : gmap Z dtp_pkt;  (* the heap of packets *)
  w_freePacketList : list ptr;  (* g_freePacketList (context.c) *)
  w_freePktCount : Z;  (* g_freePktCount *)
  w_bufs : gmap Z buffer;  (* the heap of interval nodes *)
  w_freeBufferList : list ptr;  (* g_freeBufferList (dtp.c) *)
  w_freeBufferCount : Z;  (* g_freeBufferCount *)
  w_brk : Z;  (* the next address calloc returns *)
  w_retTimerQ : list Z;  (* g_retTimerQHead (dtp_retrans_queue.c) *)
  w_delayedAckQ : list Z;  (* g_delayedAckQHead (dtp_transport.c) *)
  w_nfds : Z;  (* g_nfds (dtp_select.c) *)
  w_select_rfds : gset Z;  (* what g_select_rfds points to *)
  w_select_wfds : gset Z;  (* what g_select_wfds points to *)
  w_isselectWaiting : bool;  (* g_isselectWaiting *)
  w_fds : gset Z;  (* g_fds *)
  w_rfds : gset Z;  (* g_rfds *)
  w_wfds : gset Z;  (* g_wfds *)
  w_select_sock : Z;  (* inner_sock of dtp_select.c (the library end) *)
  w_inner_sock : Z;  (* inner_sock of dtp_socket.c (the application end) *)
  w_isLibThreadRunning : bool;  (* isLibThreadRunning (dtp_socket.c) *)
  w_events : gmap Z (list dtp_event);  (* unread events, by the end they were written to *)
  w_sent : list datagram;  (* the datagrams sent so far, oldest first *)
  w_signals : list (Z * cond);  (* the condition variables signalled so far *)
  w_closed : list Z;  (* the UDP sockets closed so far *)
  w_errno : Z;  (* errno *)
  w_nclock : nat;  (* how many times gettimeofday was called *)
  w_nsend : nat;  (* how many datagrams were handed to the network *)
  w_nrand : nat;  (* how many random values were drawn *)
  w_nsock : nat;  (* how many UDP sockets were created *)
  w_ports : gmap Z Z;  (* the port each UDP socket is bound to *)
  w_timerLock : bool }.  (* whether g_timerLock is held *)

Definition eta_world (w : world) : world := mk_world
  (w_ctxs w) (w_batches w) (w_FlowIDMapBins w) (w_pkts w) (w_freePacketList w)
  (w_freePktCount w) (w_bufs w) (w_freeBufferList w) (w_freeBufferCount w) (w_brk w)
  (w_retTimerQ w) (w_delayedAckQ w) (w_nfds w) (w_select_rfds w) (w_select_wfds w)
  (w_isselectWaiting w) (w_fds w) (w_rfds w) (w_wfds w) (w_select_sock w)
  (w_inner_sock w) (w_isLibThreadRunning w) (w_events w) (w_sent w) (w_signals w)
  (w_closed w) (w_errno w) (w_nclock w) (w_nsend w) (w_nrand w) (w_nsock w)
  (w_ports w) (w_timerLock w).

(** The world before the library is used. *)
Definition zero_world : world := {|
  w_ctxs := ∅; w_batches := ∅; w_FlowIDMapBins := ∅; w_pkts := ∅;
  w_freePacketList := []; w_freePktCount := 0; w_bufs := ∅; w_freeBufferList := [];
  w_freeBufferCount := 0; w_brk := 1; w_retTimerQ := []; w_delayedAckQ := [];
  w_nfds := 0; w_select_rfds := ∅; w_select_wfds := ∅; w_isselectWaiting := false;
  w_fds := ∅; w_rfds := ∅; w_wfds := ∅; w_select_sock := 0; w_inner_sock := 0;
  w_isLibThreadRunning := false; w_events := ∅; w_sent := []; w_signals := [];
  w_closed := []; w_errno := 0; w_nclock := 0%nat; w_nsend := 0%nat; w_nrand := 0%nat;
  w_nsock := 0%nat; w_ports := ∅;
  w_timerLock := false |}.

#[export] Instance set_w_ctxs : Setter w_ctxs := ltac:(mk_setter eta_world).
#[export] Instance set_w_batches : Setter w_batches := ltac:(mk_setter eta_world).
#[export] Instance set_w_FlowIDMapBins : Setter w_FlowIDMapBins := ltac:(mk_setter eta_world).
#[export] Instance set_w_pkts : Setter w_pkts := ltac:(mk_setter eta_world).
#[export] Instance set_w_freePacketList : Setter w_freePacketList := ltac:(mk_setter eta_world).
#[export] Instance set_w_freePktCount : Setter w_freePktCount := ltac:(mk_setter eta_world).
#[export] Instance set_w_bufs : Setter w_bufs := ltac:(mk_setter eta_world).
#[export] Instance set_w_freeBufferList : Setter w_freeBufferList := ltac:(mk_setter eta_world).
#[export] Instance set_w_freeBufferCount : Setter w_freeBufferCount := ltac:(mk_setter eta_world).
#[export] Instance set_w_brk : Setter w_brk := ltac:(mk_setter eta_world).
#[export] Instance set_w_retTimerQ : Setter w_retTimerQ := ltac:(mk_setter eta_world).
#[export] Instance set_w_delayedAckQ : Setter w_delayedAckQ := ltac:(mk_setter eta_world).
#[export] Instance set_w_nfds : Setter w_nfds := ltac:(mk_setter eta_world).
#[export] Instance set_w_select_rfds : Setter w_select_rfds := ltac:(mk_setter eta_world).
#[export] Instance set_w_select_wfds : Setter w_select_wfds := ltac:(mk_setter eta_world).
#[export] Instance set_w_isselectWaiting : Setter w_isselectWaiting := ltac:(mk_setter eta_world).
#[export] Instance set_w_fds : Setter w_fds := ltac:(mk_setter eta_world).
#[export] Instance set_w_rfds : Setter w_rfds := ltac:(mk_setter eta_world).
#[export] Instance set_w_wfds : Setter w_wfds := ltac:(mk_setter eta_world).
#[export] Instance set_w_select_sock : Setter w_select_sock := ltac:(mk_setter eta_world).
#[export] Instance set_w_inner_sock : Setter w_inner_sock := ltac:(mk_setter eta_world).
#[export] Instance set_w_isLibThreadRunning : Setter w_isLibThreadRunning := ltac:(mk_setter eta_world).
#[export] Instance set_w_events : Setter w_events := ltac:(mk_setter eta_world).
#[export] Instance set_w_sent : Setter w_sent := ltac:(mk_setter eta_world).
#[export] Instance set_w_signals : Setter w_signals := ltac:(mk_setter eta_world).
#[export] Instance set_w_closed : Setter w_closed := ltac:(mk_setter eta_world).
#[export] Instance set_w_errno : Setter w_errno := ltac:(mk_setter eta_world).
#[export] Instance set_w_nclock : Setter w_nclock := ltac:(mk_setter eta_world).
#[export] Instance set_w_nsend : Setter w_nsend := ltac:(mk_setter eta_world).
#[export] Instance set_w_nrand : Setter w_nrand := ltac:(mk_setter eta_world).
#[export] Instance set_w_nsock : Setter w_nsock := ltac:(mk_setter eta_world).
#[export] Instance set_w_ports : Setter w_ports := ltac:(mk_setter eta_world).
#[export] Instance set_w_timerLock : Setter w_timerLock := ltac:(mk_setter eta_world).

(** ** The environment *)

(** [errno] values the source tests. *)
Definition EBADF : Z := 9.
Definition EINTR : Z := 4.
Definition EAGAIN : Z := 11.
Definition ENOMEM : Z := 12.
Definition EINVAL : Z := 22.
Definition EPIPE : Z := 32.
Definition ENOTSOCK : Z := 88.
Definition ENOPROTOOPT : Z := 92.
Definition ENETUNREACH : Z := 101.
Definition ECONNRESET : Z := 104.
Definition ETIMEDOUT : Z := 110.

(** What one [sendto]/[sendmsg] call returns. *)
Inductive send_result :=
  | SendOK              (* all bytes were sent *)
  | SendShort (n : Z)   (* fewer bytes were sent *)
  | SendErr (e : Z).    (* -1, with [errno] *)

(** What [read] of a device returns, for a buffer that is long enough. *)
Inductive read_result :=
  | RdData (d : bytes)  (* these bytes *)
  | RdErr (e : Z).      (* -1, with [errno] *)

(** The random devices while one key is drawn: the descriptors of the three [open]s (-1 when
    one fails), and what the [read]s of /dev/random and of /dev/urandom return. *)
Record rand_devices := mk_rand { rd_open : Z * Z * Z; rd_random : list read_result; rd_urandom : list read_result }.

Class Env := {
  (** the [k]-th reading of the clock *)
  env_clock : nat → timeval;
  (** what the successive attempts of the [k]-th [DTPSendPacket] return *)
  env_send : nat → list send_result;
  (** the [k]-th value of [rand()] *)
  env_rand : nat → Z;
  (** the random devices when the [k]-th random value is drawn *)
  env_random : nat → rand_devices;
  (** the [k]-th descriptor [socket()] returns *)
  env_socket : nat → Z;
  (** whether the successive [bind] calls on a socket succeed *)
  env_bind : Z → list bool;
  (** whether [dtp_setiface] could move the route to the proxy to the mobile
      ([true]) or the Wi-Fi interface: the outcome of the shell commands it runs *)
  env_setiface : world → bool → bool;
  (** SHA-1 of a byte string (OpenSSL) *)
  env_sha1 : bytes → bytes;
  (** HMAC-SHA1 of a byte string under a key (OpenSSL) *)
  env_hmac_sha1 : bytes → bytes → bytes;
  (** RSA-OAEP encryption under the public key (n, e), decryption (OpenSSL) *)
  env_rsa_public_encrypt : bytes → bytes → bytes → nat → option bytes;
  env_rsa_private_decrypt : bytes → option bytes;
  (** the public key [DTPInitializeRSAKey] generates *)
  env_rsa_n : bytes;
  env_rsa_e : bytes;
  (** the hardware address of the first interface, the process id *)
  env_mac : bytes;
  env_pid : Z;
  (** what uninitialised stack memory holds *)
  env_junk : bytes;
  (** what the other threads do while the caller waits on a condition variable *)
  env_wait : Z → cond → world → world }.

(** ** The monad *)

Definition M (A : Type) : Type := world → res (A * world).

#[export] Instance M_ret : MRet M := λ A a w, Ok (a, w).
#[export] Instance M_bind : MBind M := λ A B k m w,
  match m w with Ok (a, w') => k a w' | Err f => Err f end.

Definition mfault {A} (f : fault) : M A := λ _, Err f.
Definition gets {A} (f : world → A) : M A := λ w, Ok (f w, w).
Definition modify (f : world → world) : M unit := λ w, Ok (tt, f w).
Definition lift_res {A} (r : res A) : M A := λ w,
  match r with Ok a => Ok (a, w) | Err f => Err f end.

(** [if (b) m;] *)
Definition mwhen (b : bool) (m : M unit) : M unit := if b then m else mret tt.

Fixpoint mfor {A} (l : list A) (f : A → M unit) : M unit :=
  match l with [] => mret tt | x :: l => f x;; mfor l f end.

(** *** Contexts, packets, nodes *)

Definition BATCH_SIZE_BITS : Z := 12.
Definition BATCH_SIZE : Z := Z.shiftl 1 BATCH_SIZE_BITS.
Definition NUM_BATCH : Z := 1024.

Definition batch_of (sock : Z) : Z := Z.shiftr sock BATCH_SIZE_BITS.

(** A slot of an allocated batch, zero until it is first written. *)
Definition ctx_at (w : world) (c : Z) : option dtp_context :=
  if bool_decide (batch_of c ∈ w_batches w)
  then Some (default zero_ctx (w_ctxs w !! c)) else None.

Definition getctx (c : Z) : M dtp_context := λ w,
  match ctx_at w c with Some x => Ok (x, w) | None => Err NullDeref end.

Definition putctx (c : Z) (x : dtp_context) : M unit := λ w,
  match ctx_at w c with
  | Some _ => Ok (tt, w <| w_ctxs ::= <[c := x]> |>)
  | None => Err NullDeref
  end.

Definition modctx (c : Z) (f : dtp_context → dtp_context) : M unit :=
  x ← getctx c; putctx c (f x).

Definition getpkt (p : ptr) : M dtp_pkt := λ w,
  match w_pkts w !! p with Some x => Ok (x, w) | None => Err NullDeref end.

Definition modpkt (p : ptr) (f : dtp_pkt → dtp_pkt) : M unit := λ w,
  match w_pkts w !! p with
  | Some x => Ok (tt, w <| w_pkts ::= <[p := f x]> |>)
  | None => Err NullDeref
  end.

Definition getbuf (p : ptr) : M buffer := λ w,
  match w_bufs w !! p with Some x => Ok (x, w) | None => Err NullDeref end.

Definition modbuf (p : ptr) (f : buffer → buffer) : M unit := λ w,
  match w_bufs w !! p with
  | Some x => Ok (tt, w <| w_bufs ::= <[p := f x]> |>)
  | None => Err NullDeref
  end.

(** [memcpy] into and out of a block. *)
Definition block_read (b : option bytes) (off n : Z) : M bytes :=
  match b with
  | None => mfault NullDeref
  | Some l => if in_block off n l then mret (zslice off n l) else mfault OutOfBounds
  end.

Definition block_write (b : option bytes) (off : Z) (src : bytes) : M (option bytes) :=
  match b with
  | None => mfault NullDeref
  | Some l =>
    if in_block off (zlen src) l then mret (Some (zsplice off src l)) else mfault OutOfBounds
  end.

(** [TAILQ_REMOVE]: unlink an element; one that is on no list corrupts memory. *)
Definition tailq_remove (x : Z) (l : list Z) : M (list Z) :=
  match list_remove x l with
  | Some l' => mret l'
  | None => mfault NotLinked
  end.

(** *** System calls *)

Section env.
Context {env : Env}.

Definition gettimeofday : M timeval := λ w,
  Ok (env_clock (w_nclock w), w <| w_nclock ::= S |>).

Definition c_rand : M Z := λ w, Ok (env_rand (w_nrand w), w <| w_nrand ::= S |>).

Definition set_errno (e : Z) : M unit := modify (λ w, w <| w_errno := e |>).

Definition cond_signal (c : Z) (v : cond) : M unit :=
  modify (λ w, w <| w_signals ::= λ l, l ++ [(c, v)] |>).

Definition cond_wait (c : Z) (v : cond) : M unit := modify (env_wait c v).

(** [malloc]: the contents are what the memory held before. *)
Definition malloc_bytes (n : Z) : bytes := resize (Z.to_nat n) 0 env_junk.
End env.

(** [c ->> f := v] is the assignment [c->f = v] to a context. *)
Notation "c ->> f := v" := (modctx c (set f (λ _, v)))
  (at level 60, f at level 9, v at level 60) : c_scope.

(** [getsockname]: the port a UDP socket is bound to, 0 when it is not. *)
Definition sock_port (sock : Z) : M Z := gets (λ w, default 0 (w_ports w !! sock)).

(** ** Reasoning: weakest preconditions

    [wp m Q w]: started in [w], [m] returns, without a fault, a value and a world
    that satisfy [Q]. *)

Definition wp {A} (m : M A) (Q : A → world → Prop) (w : world) : Prop :=
  match m w with Ok (a, w') => Q a w' | Err _ => False end.

Section wp.
Context {A B : Type}.
Implicit Types (w : world).

Lemma wp_ret (a : A) Q w : Q a w → wp (mret a) Q w.
Proof. done. Qed.

Lemma wp_bind (m : M A) (k : A → M B) Q w :
  wp m (λ a, wp (k a) Q) w → wp (m ≫= k) Q w.
Proof. unfold wp, mbind, M_bind. by destruct (m w) as [[a w']|]. Qed.

Lemma wp_mono (m : M A) (Q Q' : A → world → Prop) w :
  wp m Q w → (∀ a w', Q a w' → Q' a w') → wp m Q' w.
Proof. unfold wp. destruct (m w) as [[a w']|]; [|done]. eauto. Qed.

Lemma wp_gets (f : world → A) Q w : Q (f w) w → wp (gets f) Q w.
Proof. done. Qed.

Lemma wp_modify f (Q : unit → world → Prop) w : Q tt (f w) → wp (modify f) Q w.
Proof. done. Qed.

Lemma wp_lift (r : res A) a Q w : r = Ok a → Q a w → wp (lift_res r) Q w.
Proof. unfold wp, lift_res. by intros ->. Qed.

Lemma wp_when b (m : M unit) (Q : unit → world → Prop) w :
  (b = true → wp m Q w) → (b = false → Q tt w) → wp (mwhen b m) Q w.
Proof. destruct b; simpl; intros H1 H2; [by apply H1|by apply H2]. Qed.

Lemma wp_assoc {C} (m : M C) (f : C → M A) (k : A → M B) Q w :
  wp (m ≫= f) (λ a, wp (k a) Q) w → wp (m ≫= λ c, f c ≫= k) Q w.
Proof. unfold wp, mbind, M_bind. destruct (m w) as [[c w']|]; [|done]. by destruct (f c w') as [[]|]. Qed.

(** What a run returns, from a [wp]. *)
Lemma wp_eq (m m' : M A) Q w w' : m w = m' w' → wp m' Q w' → wp m Q w.
Proof. unfold wp. by intros ->. Qed.

Lemma wp_run (m : M A) Q w : wp m Q w → ∃ a w', m w = Ok (a, w') ∧ Q a w'.
Proof. unfold wp. destruct (m w) as [[a w']|]; [eauto|done]. Qed.

Lemma run_wp (m : M A) Q w a w' : m w = Ok (a, w') → Q a w' → wp m Q w.
Proof. unfold wp. by intros ->. Qed.
End wp.

Lemma ctx_at_put w c x x' :
  ctx_at w c = Some x → ctx_at (w <| w_ctxs ::= <[c := x']> |>) c = Some x'.
Proof.
  unfold ctx_at. cbn. case_bool_decide; [|done].
  intros _. by rewrite lookup_insert_eq.
Qed.

Lemma ctx_at_put_ne w c c' x :
  c ≠ c' → ctx_at (w <| w_ctxs ::= <[c := x]> |>) c' = ctx_at w c'.
Proof. intros. unfold ctx_at. cbn. by rewrite lookup_insert_ne. Qed.

Lemma wp_getctx c x (Q : dtp_context → world → Prop) w :
  ctx_at w c = Some x → Q x w → wp (getctx c) Q w.
Proof. unfold wp, getctx. by intros ->. Qed.

Lemma wp_putctx c x x' (Q : unit → world → Prop) w :
  ctx_at w c = Some x → Q tt (w <| w_ctxs ::= <[c := x']> |>) → wp (putctx c x') Q w.
Proof. unfold wp, putctx. by intros ->. Qed.

Lemma wp_modctx c f x (Q : unit → world → Prop) w :
  ctx_at w c = Some x → Q tt (w <| w_ctxs ::= <[c := f x]> |>) → wp (modctx c f) Q w.
Proof.
  intros Hx HQ. unfold modctx. apply wp_bind. eapply wp_getctx; [done|].
  by eapply wp_putctx.
Qed.

Lemma wp_getpkt p x (Q : dtp_pkt → world → Prop) w :
  w_pkts w !! p = Some x → Q x w → wp (getpkt p) Q w.
Proof. unfold wp, getpkt. by intros ->. Qed.

Lemma wp_modpkt p f x (Q : unit → world → Prop) w :
  w_pkts w !! p = Some x → Q tt (w <| w_pkts ::= <[p := f x]> |>) → wp (modpkt p f) Q w.
Proof. unfold wp, modpkt. by intros ->. Qed.

Lemma wp_getbuf p x (Q : buffer → world → Prop) w :
  w_bufs w !! p = Some x → Q x w → wp (getbuf p) Q w.
Proof. unfold wp, getbuf. by intros ->. Qed.

Lemma wp_modbuf p f x (Q : unit → world → Prop) w :
  w_bufs w !! p = Some x → Q tt (w <| w_bufs ::= <[p := f x]> |>) → wp (modbuf p f) Q w.
Proof. unfold wp, modbuf. by intros ->. Qed.

Lemma wp_block_read l off n (Q : bytes → world → Prop) w :
  0 ≤ off → 0 ≤ n → off + n ≤ zlen l → Q (zslice off n l) w →
  wp (block_read (Some l) off n) Q w.
Proof. intros. unfold wp, block_read. by rewrite (proj2 (in_block_spec _ _ _)). Qed.

Lemma wp_block_write l off src (Q : option bytes → world → Prop) w :
  0 ≤ off → off + zlen src ≤ zlen l → Q (Some (zsplice off src l)) w →
  wp (block_write (Some l) off src) Q w.
Proof.
  intros. unfold wp, block_write. pose proof (zlen_nonneg src).
  by rewrite (proj2 (in_block_spec _ _ _)).
Qed.

Lemma wp_tailq_remove x l l' (Q : list Z → world → Prop) w :
  list_remove x l = Some l' → Q l' w → wp (tailq_remove x l) Q w.
Proof. unfold wp, tailq_remove. by intros ->. Qed.

(** ** Input and output

    [io_frame w w']: what the library hands to the operating system and to the
    other threads may differ (readiness, events, datagrams, signals, [errno]), and
    the position in the streams of outside values; the contexts, the heaps and
    the queues are the same. *)
Record io_frame (w w' : world) : Prop := {
  io_eq : w' = w <| w_rfds := w_rfds w' |> <| w_wfds := w_wfds w' |>
         <| w_isselectWaiting := w_isselectWaiting w' |> <| w_events := w_events w' |>
         <| w_sent := w_sent w' |> <| w_signals := w_signals w' |> <| w_errno := w_errno w' |>
         <| w_nclock := w_nclock w' |> <| w_nsend := w_nsend w' |> <| w_nrand := w_nrand w' |> }.

#[export] Instance io_frame_preorder : PreOrder io_frame.
Proof.
  split.
  - intros w. constructor. by destruct w.
  - intros w1 w2 w3 [H1] [H2]. constructor. rewrite H2, H1. by destruct w1.
Qed.

Lemma io_ctx w w' c : io_frame w w' → ctx_at w' c = ctx_at w c.
Proof. by intros [->]. Qed.

(** An update of input and output fields. *)
Ltac solve_io := lazymatch goal with |- io_frame ?w _ => constructor; destruct w; reflexivity end.

Lemma io_gettimeofday {env : Env} (Q : timeval → world → Prop) w :
  (∀ w', io_frame w w' → w_sent w' = w_sent w → Q (env_clock (w_nclock w)) w') →
  wp gettimeofday Q w.
Proof. intros HQ. apply HQ; [solve_io|done]. Qed.

Lemma io_cond_signal c v (Q : unit → world → Prop) w :
  (∀ w', io_frame w w' → w_sent w' = w_sent w → Q tt w') → wp (cond_signal c v) Q w.
Proof. intros HQ. apply HQ; [solve_io|done]. Qed.

Lemma io_set_errno e (Q : unit → world → Prop) w :
  (∀ w', io_frame w w' → w_sent w' = w_sent w → w_errno w' = e → Q tt w') → wp (set_errno e) Q w.
Proof. intros HQ. apply HQ; [solve_io|done|done]. Qed.
