(* ===== verification/Crypt.v ===== *)
(** * Random bytes for the session keys (crypt.c)

    [spc_keygen] fills a buffer from /dev/random as long as that device has bytes, takes the
    rest from /dev/urandom, and closes the devices.  The devices are [rand_devices]: what their
    [open]s and [read]s return is outside the library.  A loop that reads from a device that
    never delivers does not return ([Spin]). *)

From S2P Require Import Prelude Header Context World.

(** The static descriptors, -1 when closed. *)
Record spc_fds := mk_spc { spc_devrand_fd : Z; spc_devrand_fd_noblock : Z; spc_devurand_fd : Z }.
Definition spc_closed : spc_fds := mk_spc (-1) (-1) (-1).

(** The failures are printed only: the descriptor stays -1. *)
Definition spc_rand_init (d : rand_devices) : spc_fds := let '(a, b, c) := rd_open d in mk_spc a b c.

Definition spc_ready (d : rand_devices) (s : spc_fds) : spc_fds :=
  if (spc_devrand_fd s =? -1) && (spc_devrand_fd_noblock s =? -1) && (spc_devurand_fd s =? -1)
  then spc_rand_init d else s.

(** [read] of descriptor -1 fails every time, and the loops go on. *)
Definition reads (fd : Z) (l : list read_result) : list read_result := if fd =? -1 then [] else l.

(** [read(fd, buf + where, nbytes)] when the device has the bytes [d]. *)
Definition put_random (d buf : bytes) (where_ nbytes : Z) : res (bytes * Z) :=
  let d := take (Z.to_nat nbytes) d in
  if in_block where_ (zlen d) buf then Ok (zsplice where_ d buf, zlen d) else Err OutOfBounds.

(** [where += r; nbytes -= r;] also runs with [r] = -1: EXIT does not leave the function. *)
Fixpoint urandom_loop (rs : list read_result) (buf : bytes) (where_ nbytes : Z) : res bytes :=
  if nbytes =? 0 then Ok buf
  else match rs with
  | [] => Err Spin
  | RdErr e :: rs => if e =? EINTR then urandom_loop rs buf where_ nbytes
                     else urandom_loop rs buf (where_ - 1) (nbytes + 1)
  | RdData d :: rs => '(buf, r) ← put_random d buf where_ nbytes; urandom_loop rs buf (where_ + r) (nbytes - r)
  end.

Definition spc_rand (d : rand_devices) (s : spc_fds) (buf : bytes) (where_ nbytes : Z) : res (bytes * spc_fds) :=
  let s := spc_ready d s in
  buf ← urandom_loop (reads (spc_devurand_fd s) (rd_urandom d)) buf where_ nbytes;
  mret (buf, s).

(** [break] on EAGAIN: /dev/random has no more bytes now. *)
Fixpoint random_loop (rs : list read_result) (buf : bytes) (where_ nbytes : Z) : res (bytes * Z * Z) :=
  if nbytes =? 0 then Ok (buf, where_, nbytes)
  else match rs with
  | [] => Err Spin
  | RdErr e :: rs => if e =? EINTR then random_loop rs buf where_ nbytes
                     else if e =? EAGAIN then Ok (buf, where_, nbytes)
                     else random_loop rs buf (where_ - 1) (nbytes + 1)
  | RdData d :: rs => '(buf, r) ← put_random d buf where_ nbytes; random_loop rs buf (where_ + r) (nbytes - r)
  end.

Definition spc_keygen (d : rand_devices) (s : spc_fds) (buf : bytes) (nbytes : Z) : res (bytes * spc_fds) :=
  let s := spc_ready d s in
  '(buf, where_, nbytes) ← random_loop (reads (spc_devrand_fd_noblock s) (rd_random d)) buf 0 nbytes;
  '(buf, _) ← spc_rand d s buf where_ nbytes;
  mret (buf, spc_closed).

(** ** What the buffer holds *)

(** The bytes a device delivers before it has no more. *)
Fixpoint supply (rs : list read_result) : bytes :=
  match rs with
  | [] => []
  | RdData d :: rs => d ++ supply rs
  | RdErr e :: rs => if e =? EAGAIN then [] else supply rs
  end.

(** What random(4) says of a read of at most 256 bytes: it returns bytes or is interrupted; a
    non-blocking read of /dev/random may say EAGAIN.  Enough bytes come. *)
Definition good_random (r : read_result) : Prop := match r with RdData _ => True | RdErr e => e = EINTR ∨ e = EAGAIN end.
Definition good_urandom (r : read_result) : Prop := match r with RdData _ => True | RdErr e => e = EINTR end.

Record good_devices (n : Z) (d : rand_devices) : Prop := {
  gd_open : (rd_open d).1.1 ≠ -1 ∧ (rd_open d).1.2 ≠ -1 ∧ (rd_open d).2 ≠ -1;
  gd_random : Forall good_random (rd_random d);
  gd_urandom : Forall good_urandom (rd_urandom d);
  gd_ends : RdErr EAGAIN ∈ rd_random d ∨ n ≤ zlen (supply (rd_random d));
  gd_enough : n ≤ zlen (supply (rd_urandom d)) }.

Lemma zsplice_app off a b (buf : bytes) : 0 ≤ off → off + zlen a + zlen b ≤ zlen buf →
  zsplice (off + zlen a) b (zsplice off a buf) = zsplice off (a ++ b) buf.
Proof.
  intros Ho Hl. pose proof (zlen_nonneg a). pose proof (zlen_nonneg b).
  apply list_eq. intros i. rewrite !lookup_zsplice by (rewrite ?zlen_splice, ?zlen_app; lia). rewrite zlen_app.
  unfold zlen in *. repeat case_decide; try lia; try done.
  - rewrite lookup_app_r by lia. f_equal. lia.
  - rewrite lookup_app_l by lia. done.
Qed.

Lemma zsplice_none off l (buf : bytes) : zsplice off (take (Z.to_nat 0) l) buf = buf.
Proof. unfold zsplice. rewrite take_0. cbn [length app]. by rewrite Nat.add_0_r, take_drop. Qed.

(** One read of a device. *)
Lemma put_random_Ok d buf wh n : 0 ≤ wh → 0 ≤ n → wh + n ≤ zlen buf →
  put_random d buf wh n = Ok (zsplice wh (take (Z.to_nat n) d) buf, zlen (take (Z.to_nat n) d)) ∧
  0 ≤ zlen (take (Z.to_nat n) d) ≤ n.
Proof.
  intros Hw Hn Hl. assert (Hd : 0 ≤ zlen (take (Z.to_nat n) d) ≤ n) by (unfold zlen; rewrite length_take; lia).
  split; [|done]. unfold put_random. by rewrite (proj2 (in_block_spec _ _ _)) by lia.
Qed.

Lemma take_supply n d (l : bytes) : 0 ≤ n → take (Z.to_nat n) d ++ take (Z.to_nat (n - zlen (take (Z.to_nat n) d))) l = take (Z.to_nat n) (d ++ l).
Proof. intros Hn. rewrite take_app. f_equal. unfold zlen. rewrite length_take. f_equal. lia. Qed.

Lemma zlen_take_app n d (l : bytes) : 0 ≤ n → n ≤ zlen (d ++ l) → n - zlen (take (Z.to_nat n) d) ≤ zlen l.
Proof. intros Hn. unfold zlen. rewrite length_app, length_take. lia. Qed.

Lemma urandom_loop_Ok rs : ∀ buf wh n, Forall good_urandom rs → 0 ≤ n ≤ zlen (supply rs) → 0 ≤ wh → wh + n ≤ zlen buf →
  urandom_loop rs buf wh n = Ok (zsplice wh (take (Z.to_nat n) (supply rs)) buf).
Proof.
  induction rs as [|[d|e] rs IH]; intros buf wh n Hg Hn Hw Hl.
  - change (zlen (supply [])) with 0 in Hn. assert (n = 0) as -> by lia. by rewrite zsplice_none.
  - apply Forall_cons in Hg as [_ Hg]. cbn [urandom_loop supply] in *. destruct (Z.eqb_spec n 0) as [->|Hz].
    + by rewrite zsplice_none.
    + destruct (put_random_Ok d buf wh n) as [-> Hd]; [lia..|]. cbn [mbind res_bind].
      rewrite IH; [|done|split; [lia|by apply zlen_take_app; lia]|lia|rewrite zlen_splice; lia].
      rewrite zsplice_app by (try (unfold zlen in *; rewrite ?length_take in *); lia). by rewrite take_supply by lia.
  - apply Forall_cons in Hg as [-> Hg]. cbn [urandom_loop supply] in *. destruct (Z.eqb_spec n 0) as [->|Hz].
    + by rewrite zsplice_none.
    + by apply IH.
Qed.

Lemma random_loop_Ok rs : ∀ buf wh n, Forall good_random rs → RdErr EAGAIN ∈ rs ∨ n ≤ zlen (supply rs) →
  0 ≤ n → 0 ≤ wh → wh + n ≤ zlen buf →
  let k := take (Z.to_nat n) (supply rs) in random_loop rs buf wh n = Ok (zsplice wh k buf, wh + zlen k, n - zlen k).
Proof.
  induction rs as [|r rs IH]; intros buf wh n Hg He Hn Hw Hl k; subst k; [|apply Forall_cons in Hg as [Hr Hg]];
    cbn [random_loop]; (destruct (Z.eqb_spec n 0) as [->|Hz];
      [rewrite zsplice_none, take_0; change (zlen (@nil Z)) with 0; by rewrite Z.add_0_r, Z.sub_0_r|]).
  - change (zlen (supply [])) with 0 in He. destruct He as [?%elem_of_nil|]; [done|lia].
  - destruct r as [d|e]; cbn [supply] in *.
    + destruct (put_random_Ok d buf wh n) as [-> Hd]; [lia..|]. cbn [mbind res_bind].
      rewrite IH; [|done| |lia|lia|rewrite zlen_splice; lia].
      * rewrite zsplice_app by (try (unfold zlen in *; rewrite ?length_take in *); lia). rewrite <- take_supply, zlen_app by lia.
        f_equal. f_equal; [f_equal; lia|lia].
      * destruct He as [He|He]; [left|right; apply zlen_take_app; lia]. by apply elem_of_cons in He as [?|?].
    + destruct (Z.eqb_spec e EINTR) as [->|Hi].
      * apply IH; try done. destruct He as [He|He]; [left|by right]. by apply elem_of_cons in He as [?|?].
      * assert (e = EAGAIN) as -> by (destruct Hr; done). rewrite Z.eqb_refl, take_nil.
        pose proof (zsplice_none wh [] buf) as E. rewrite take_nil in E. rewrite E.
        change (zlen (@nil Z)) with 0. by rewrite Z.add_0_r, Z.sub_0_r.
Qed.

Lemma spc_ready_good n d : good_devices n d →
  spc_devrand_fd_noblock (spc_ready d spc_closed) ≠ -1 ∧ spc_devurand_fd (spc_ready d spc_closed) ≠ -1 ∧
  spc_ready d (spc_ready d spc_closed) = spc_ready d spc_closed.
Proof.
  intros [(H1 & H2 & H3) _ _ _ _]. destruct d as [[[a b] c] l1 l2]. cbn in *. split_and!; [done..|].
  unfold spc_ready. cbn. by rewrite (proj2 (Z.eqb_neq a (-1)) H1).
Qed.

Lemma reads_open fd l : fd ≠ -1 → reads fd l = l.
Proof. intros H. unfold reads. by rewrite (proj2 (Z.eqb_neq fd (-1)) H). Qed.

(** The key: what /dev/random has, then what /dev/urandom has. *)
Definition key_of (n : Z) (d : rand_devices) : bytes :=
  let a := take (Z.to_nat n) (supply (rd_random d)) in a ++ take (Z.to_nat (n - zlen a)) (supply (rd_urandom d)).

Lemma zlen_key_of n d : 0 ≤ n → good_devices n d → zlen (key_of n d) = n.
Proof. intros Hn [_ _ _ _ He]. unfold key_of, zlen in *. rewrite length_app, !length_take. lia. Qed.

Lemma spc_keygen_Ok n d buf : 0 ≤ n ≤ zlen buf → good_devices n d →
  spc_keygen d spc_closed buf n = Ok (zsplice 0 (key_of n d) buf, spc_closed).
Proof.
  intros Hn Hd. pose proof (zlen_key_of n d (proj1 Hn) Hd) as Hk. unfold key_of in *.
  destruct (spc_ready_good n d Hd) as (F1 & F2 & E3). destruct Hd as [_ Hr Hu Hend He].
  unfold spc_keygen. cbv zeta. rewrite reads_open, random_loop_Ok by (done || lia). cbn [mbind res_bind].
  set (a := take _ (supply (rd_random d))) in *. pose proof (zlen_nonneg a). rewrite zlen_app in Hk.
  assert (Ha : zlen a ≤ n) by (unfold a, zlen; rewrite length_take; lia).
  unfold spc_rand. rewrite E3, reads_open by done. rewrite urandom_loop_Ok; [|done|lia|lia|rewrite zlen_splice; lia].
  cbn [mbind res_bind mret res_ret]. rewrite zsplice_app by lia. done.
Qed.

(** The devices deliver a session key. *)
Class RandUp (env : Env) : Prop := rand_up : ∀ k, good_devices 20 (env_random k).

(** C22: drawing a key: when the devices behave as documented and deliver enough, [spc_keygen]
    returns, whatever interrupts it and wherever /dev/random runs dry; the first [n] bytes of
    the buffer are then exactly the bytes of /dev/random, in order and none twice, completed by
    those of /dev/urandom; the rest of the buffer is untouched and the devices are closed. *)
Theorem keygen_fills n d buf : 0 ≤ n ≤ zlen buf → good_devices n d →
  ∃ a b rest1 rest2, spc_keygen d spc_closed buf n = Ok (zsplice 0 (a ++ b) buf, spc_closed) ∧ zlen (a ++ b) = n ∧
    supply (rd_random d) = a ++ rest1 ∧ supply (rd_urandom d) = b ++ rest2 ∧ (b ≠ [] → rest1 = []).
Proof.
  intros Hn Hd. set (a := take (Z.to_nat n) (supply (rd_random d))). set (b := take (Z.to_nat (n - zlen a)) (supply (rd_urandom d))).
  exists a, b, (drop (Z.to_nat n) (supply (rd_random d))), (drop (Z.to_nat (n - zlen a)) (supply (rd_urandom d))).
  split_and!; [by apply spc_keygen_Ok|apply (zlen_key_of n d); [lia|done]|symmetry; apply take_drop..|].
  intros Hb. apply drop_ge. destruct (decide (length (supply (rd_random d)) ≤ Z.to_nat n)%nat); [done|].
  exfalso. apply Hb. unfold b, a, zlen. rewrite length_take. replace (Z.to_nat _) with 0%nat by lia. done.
Qed.

(** Twenty bytes, an interrupted read and eight bytes of /dev/random. *)
Definition busy_devices : rand_devices :=
  mk_rand (3, 4, 5) [RdData [1; 2; 3]; RdErr EINTR; RdData [4; 5; 6; 7; 8]; RdErr EAGAIN] [RdErr EINTR; RdData (replicate 256 9)].

Example keygen_fills_witness : ∃ a b rest1 rest2,
  spc_keygen busy_devices spc_closed (zeros 32) 20 = Ok (zsplice 0 (a ++ b) (zeros 32), spc_closed) ∧ zlen (a ++ b) = 20 ∧
    supply (rd_random busy_devices) = a ++ rest1 ∧ supply (rd_urandom busy_devices) = b ++ rest2 ∧ (b ≠ [] → rest1 = []).
Proof.
  apply keygen_fills; [vm_compute; by split|]. constructor.
  - by split_and!.
  - repeat constructor; by (left || right).
  - by repeat constructor.
  - left. cbn. set_solver.
  - vm_compute. discriminate.
Defined.

(** After another failure of a read the next bytes go before the buffer. *)
Example failed_read_underruns :
  spc_keygen (mk_rand (3, 4, 5) [RdErr 5; RdData [1; 2; 3]] []) spc_closed (zeros 32) 20 = Err OutOfBounds.
Proof. reflexivity. Qed.
