(* ===== verification/ContextTable.v ===== *)
(** * Context table and flow-ID map (context.c)

    Contexts live in batches of 4096 slots indexed by socket number; the flow-ID
    map is a hash table of 65536 bins, each a list of contexts.  The map is shown
    to implement a finite map from flow IDs to contexts. *)

From S2P Require Import Prelude Double Header Context World.

(** [None] is the NULL pointer the function returns. *)
Definition DTPAllocateContext (sock : Z) : M (option Z) :=
  let bat := batch_of sock in
  if NUM_BATCH <=? bat then mret None
  else
    modify (λ w, if bool_decide (bat ∈ w_batches w) then w
                 else w <| w_batches ::= λ s, {[bat]} ∪ s |>);;
    mret (Some sock).

Definition DTPGetContextBySocket (sock : Z) : M (option Z) :=
  let bat := batch_of sock in
  if (sock <? 0) || (NUM_BATCH <=? bat) then mret None else mret (Some sock).

Definition NUM_FID_MAP_BINS : Z := 65536.
Definition HASH_TO_FIDMAP_BIN (x : Z) : Z := Z.land x (NUM_FID_MAP_BINS - 1).

Definition fid_bin (w : world) (idx : Z) : list Z := default [] (w_FlowIDMapBins w !! idx).

Definition InitializeFlowIDMap : M unit := modify (λ w, w <| w_FlowIDMapBins := ∅ |>).

Definition DTPAddContextToFlowIDMap (fid : Z) (pctx : Z) : M unit :=
  let idx := HASH_TO_FIDMAP_BIN fid in
  modify (λ w, w <| w_FlowIDMapBins ::= <[idx := pctx :: fid_bin w idx]> |>);;
  modctx pctx (set tc_onFlowIDMap (λ _, true)).

Definition DTPRemoveContextFromFlowIDMap (pctx : Z) : M unit :=
  x ← getctx pctx;
  if tc_onFlowIDMap x then
    let idx := HASH_TO_FIDMAP_BIN (tc_flowID x) in
    l ← gets (λ w, fid_bin w idx);
    l' ← tailq_remove pctx l;
    modify (λ w, w <| w_FlowIDMapBins ::= <[idx := l']> |>);;
    modctx pctx (set tc_onFlowIDMap (λ _, false))
  else mret tt.

(** [TAILQ_FOREACH] over a bin. *)
Fixpoint find_flow (fid : Z) (l : list Z) : M (option Z) :=
  match l with
  | [] => mret None
  | pctx :: l =>
    x ← getctx pctx;
    if tc_flowID x =? fid then mret (Some pctx) else find_flow fid l
  end.

Definition DTPGetContextByFlowID (fid : Z) : M (option Z) :=
  let idx := HASH_TO_FIDMAP_BIN fid in
  l ← gets (λ w, fid_bin w idx);
  find_flow fid l.

(** ** The map as a finite map *)

(** [on_map w c fid]: the context [c] is registered with flow ID [fid]. *)
Definition on_map (w : world) (c fid : Z) : Prop :=
  ∃ x, ctx_at w c = Some x ∧ tc_flowID x = fid ∧ c ∈ fid_bin w (HASH_TO_FIDMAP_BIN fid).

(** The invariant of the table: a bin holds live contexts that hash to it and are
    flagged, no context twice; a flagged context is in the bin of its flow ID; no
    two contexts share a flow ID. *)
Record flowmap_ok (w : world) : Prop := {
  fm_bin : ∀ idx c, c ∈ fid_bin w idx →
    ∃ x, ctx_at w c = Some x ∧ tc_onFlowIDMap x = true ∧ HASH_TO_FIDMAP_BIN (tc_flowID x) = idx;
  fm_nodup : ∀ idx, NoDup (fid_bin w idx);
  fm_flag : ∀ c x, ctx_at w c = Some x → tc_onFlowIDMap x = true →
    c ∈ fid_bin w (HASH_TO_FIDMAP_BIN (tc_flowID x));
  fm_inj : ∀ c c' fid, on_map w c fid → on_map w c' fid → c = c' }.

Lemma fid_bin_insert w idx idx' l :
  fid_bin (w <| w_FlowIDMapBins ::= <[idx := l]> |>) idx'
  = if decide (idx = idx') then l else fid_bin w idx'.
Proof. unfold fid_bin. cbn. rewrite lookup_insert. by case_decide. Qed.

Lemma ctx_at_bins w m c : ctx_at (w <| w_FlowIDMapBins ::= m |>) c = ctx_at w c.
Proof. done. Qed.

Lemma fid_bin_ctxs w f idx : fid_bin (w <| w_ctxs ::= f |>) idx = fid_bin w idx.
Proof. done. Qed.

Section lookup.
Context (w : world) (fid : Z) (l : list Z).
Hypothesis live : ∀ c, c ∈ l → ∃ x, ctx_at w c = Some x.

Lemma wp_find_flow (Q : option Z → world → Prop) :
  (∀ c x, c ∈ l → ctx_at w c = Some x → tc_flowID x = fid → Q (Some c) w) →
  ((∀ c x, c ∈ l → ctx_at w c = Some x → tc_flowID x ≠ fid) → Q None w) →
  wp (find_flow fid l) Q w.
Proof.
  clear -live. induction l as [|c l' IH]; intros HS HN.
  - apply wp_ret, HN. by intros c x ?%elem_of_nil.
  - destruct (live c) as [x Hx]; [left|]. simpl. apply wp_bind.
    eapply wp_getctx; [done|]. destruct (Z.eqb_spec (tc_flowID x) fid) as [E|E].
    + apply wp_ret. eapply HS; [left|done|done].
    + apply IH.
      * intros c' ?. apply live. by right.
      * intros c' x' ?. apply HS. by right.
      * intros Hall. apply HN. intros c' x' [->|Hin]%elem_of_cons Hx';
          [by simplify_eq|by eapply Hall].
Qed.
End lookup.

(** [DTPGetContextByFlowID] is the lookup of the finite map: it returns the one
    context registered with the flow ID, NULL when there is none, and changes
    nothing. *)
Lemma DTPGetContextByFlowID_spec w fid :
  flowmap_ok w →
  wp (DTPGetContextByFlowID fid)
     (λ r w', w' = w ∧ ∀ c, r = Some c ↔ on_map w c fid) w.
Proof.
  intros Hok. unfold DTPGetContextByFlowID. apply wp_bind, wp_gets. apply wp_find_flow.
  - intros c Hc. destruct (fm_bin _ Hok _ _ Hc) as (x & ? & _). eauto.
  - intros c x Hc Hx Hf. split; [done|]. intros c'. split.
    + intros [= <-]. exists x. by subst.
    + intros Hc'. f_equal. apply (fm_inj _ Hok _ _ fid); [|done]. exists x. by subst.
  - intros Hno. split; [done|]. intros c. split; [done|].
    intros (x & Hx & Hf & Hc). by destruct (Hno c x).
Qed.

(** Adding a context whose flow ID is free registers it and no other. *)
Lemma DTPAddContextToFlowIDMap_spec w fid c x :
  flowmap_ok w → ctx_at w c = Some x → tc_flowID x = fid → tc_onFlowIDMap x = false →
  (∀ c', ¬ on_map w c' fid) →
  wp (DTPAddContextToFlowIDMap fid c)
     (λ _ w', flowmap_ok w' ∧ ∀ c' fid', on_map w' c' fid' ↔
                on_map w c' fid' ∨ (c' = c ∧ fid' = fid)) w.
Proof.
  intros [Hbin Hnd Hflag Hinj] Hx Hf Hoff Hfree. unfold DTPAddContextToFlowIDMap.
  apply wp_bind, wp_modify. eapply wp_modctx; [done|].
  set (idx := HASH_TO_FIDMAP_BIN fid).
  set (w' := set w_ctxs _ _).
  assert (Hnew : ∀ i, fid_bin w' i = if decide (idx = i) then c :: fid_bin w idx else fid_bin w i).
  { intros i. subst w'. by rewrite fid_bin_ctxs, fid_bin_insert. }
  assert (Hctx : ctx_at w' c = Some (x <| tc_onFlowIDMap := true |>)) by (by eapply ctx_at_put).
  assert (Hne : ∀ c', c' ≠ c → ctx_at w' c' = ctx_at w c').
  { intros c' ?. subst w'. by rewrite ctx_at_put_ne. }
  assert (Hc : ∀ i, c ∉ fid_bin w i).
  { intros i Hi. destruct (Hbin i c Hi) as (x' & ? & ? & _). congruence. }
  assert (Hon : ∀ c' fid', on_map w' c' fid' ↔ on_map w c' fid' ∨ (c' = c ∧ fid' = fid)).
  { intros c' fid'. unfold on_map. rewrite Hnew. split.
    - intros (x' & Hx' & Hf' & Hin). destruct (decide (c' = c)) as [->|].
      + right. rewrite Hctx in Hx'. simplify_eq. by cbn.
      + left. rewrite Hne in Hx' by done. exists x'. split_and!; [done..|].
        case_decide as E; [|done]. apply elem_of_cons in Hin as [?|?]; [done|]. by rewrite <- E.
    - intros [(x' & Hx' & Hf' & Hin)|[-> ->]].
      + assert (c' ≠ c) by (intros ->; by apply (Hc _ Hin)).
        exists x'. rewrite Hne by done. split_and!; [done..|].
        case_decide as E; [right; by rewrite E|done].
      + eexists. split; [done|]. split; [by cbn|]. rewrite decide_True by done. left. }
  split; [|done]. constructor.
  - intros i c'. rewrite Hnew. case_decide as E.
    + intros [->|Hin]%elem_of_cons.
      * eexists. split; [done|]. cbn. by subst.
      * destruct (Hbin _ _ Hin) as (x' & ? & ? & ?). exists x'. subst i.
        rewrite Hne by (intros ->; by apply (Hc _ Hin)). done.
    + intros Hin. destruct (Hbin _ _ Hin) as (x' & ? & ? & ?). exists x'.
      rewrite Hne by (intros ->; by apply (Hc _ Hin)). done.
  - intros i. rewrite Hnew. case_decide; [|done]. constructor; [apply Hc|apply Hnd].
  - intros c' x' Hx' Hfl. destruct (decide (c' = c)) as [->|].
    + rewrite Hctx in Hx'. simplify_eq. cbn. rewrite Hnew, decide_True by done. left.
    + rewrite Hne in Hx' by done. rewrite Hnew. specialize (Hflag _ _ Hx' Hfl).
      case_decide as E; [right; by rewrite E|done].
  - intros c1 c2 f0 [H1|[-> ->]]%Hon [H2|[-> E]]%Hon; [by eapply Hinj| | |done];
      exfalso; subst; by eapply Hfree.
Qed.

(** Only the bins and connection [c], now [x'], differ. *)
Record flow_frame (c : Z) (x' : dtp_context) (w w' : world) : Prop := {
  ff_rest : w' = w <| w_FlowIDMapBins := w_FlowIDMapBins w' |> <| w_ctxs := w_ctxs w' |>;
  ff_ctx : ctx_at w' c = Some x';
  ff_other : ∀ c', c' ≠ c → ctx_at w' c' = ctx_at w c' }.

(** Removing a context unregisters it and no other. *)
Lemma DTPRemoveContextFromFlowIDMap_spec w c x :
  flowmap_ok w → ctx_at w c = Some x →
  wp (DTPRemoveContextFromFlowIDMap c)
     (λ _ w', flowmap_ok w' ∧ (∀ c' fid', on_map w' c' fid' ↔ on_map w c' fid' ∧ c' ≠ c) ∧
        flow_frame c (x <| tc_onFlowIDMap := false |>) w w') w.
Proof.
  intros [Hbin Hnd Hflag Hinj] Hx. unfold DTPRemoveContextFromFlowIDMap.
  apply wp_bind. eapply wp_getctx; [done|].
  destruct (tc_onFlowIDMap x) eqn:Hon.
  2:{ apply wp_ret. split_and!; [done| |].
      - intros c' fid'. split; [|tauto]. intros Hm. split; [done|]. intros ->.
        destruct Hm as (x' & ? & ? & Hin). destruct (Hbin _ _ Hin) as (x'' & ? & ? & _). congruence.
      - constructor; [by destruct w| |done]. rewrite Hx, <- Hon. by destruct x. }
  apply wp_bind, wp_gets. set (idx := HASH_TO_FIDMAP_BIN (tc_flowID x)).
  destruct (list_remove_in c (fid_bin w idx)) as [l' Hl']; [by apply Hflag|].
  apply wp_bind. eapply wp_tailq_remove; [done|].
  apply wp_bind, wp_modify. eapply wp_modctx; [done|].
  set (w' := set w_ctxs _ _).
  pose proof (list_remove_perm _ _ _ Hl') as Hp.
  pose proof (Hnd idx) as Hndi. rewrite Hp in Hndi. apply NoDup_cons in Hndi as [Hcl Hndl].
  assert (Hnew : ∀ i, fid_bin w' i = if decide (idx = i) then l' else fid_bin w i).
  { intros i. subst w'. by rewrite fid_bin_ctxs, fid_bin_insert. }
  assert (Hctx : ctx_at w' c = Some (x <| tc_onFlowIDMap := false |>)) by (by eapply ctx_at_put).
  assert (Hne : ∀ c', c' ≠ c → ctx_at w' c' = ctx_at w c').
  { intros c' ?. subst w'. by rewrite ctx_at_put_ne. }
  assert (Hmem : ∀ i c', c' ∈ fid_bin w' i ↔ c' ∈ fid_bin w i ∧ c' ≠ c).
  { intros i c'. rewrite Hnew. case_decide as E; [subst i; rewrite Hp|].
    - rewrite elem_of_cons. split; [|naive_solver]. intros Hi. split; [by right|].
      intros ->. by apply Hcl.
    - split; [|naive_solver]. intros Hi. split; [done|]. intros ->.
      destruct (Hbin _ _ Hi) as (x' & ? & _ & ?). by simplify_eq. }
  assert (Honm : ∀ c' fid', on_map w' c' fid' ↔ on_map w c' fid' ∧ c' ≠ c).
  { intros c' fid'. unfold on_map. split.
    - intros (x' & Hx' & Hf' & [Hin Hn]%Hmem). rewrite Hne in Hx' by done. eauto.
    - intros ((x' & Hx' & Hf' & Hin) & Hn). exists x'. rewrite Hne, Hmem by done. done. }
  split_and!; [|done|constructor; [by destruct w|done|done]]. constructor.
  - intros i c' [Hi Hn]%Hmem. rewrite Hne by done. by apply Hbin.
  - intros i. rewrite Hnew. by case_decide.
  - intros c' x' Hx' Hfl. destruct (decide (c' = c)) as [->|].
    + rewrite Hctx in Hx'. by simplify_eq.
    + rewrite Hne in Hx' by done. apply Hmem. split; [by apply Hflag|done].
  - intros c1 c2 f0 [H1 _]%Honm [H2 _]%Honm. by eapply Hinj.
Qed.
