(* ===== verification/Pools.v ===== *)
(** * Object pools (context.c, dtp.c)

    Packets and interval nodes are recycled through two free lists; an empty list
    is refilled by a batch of 4096 zeroed objects.  The pools never hand out an
    object twice: what [DTPGetIdlePacket] and [GetBuffer] return is allocated and
    no longer on the free list. *)

From S2P Require Import Prelude Double Header Context World.

(** ** Packets (context.c) *)

Definition DoAddToFreePacketList (p : ptr) : M unit :=
  modify (λ w, w <| w_freePacketList ::= cons p |> <| w_freePktCount ::= Z.add 1 |>).

(** [calloc(1, sizeof(dtp_pkt))] *)
Definition calloc_pkt : M ptr := λ w,
  Ok (w_brk w, w <| w_pkts ::= <[w_brk w := zero_pkt]> |> <| w_brk ::= Z.add 1 |>).

(** [for (i = 0; i < n; i++)] *)
Fixpoint alloc_packets (n : nat) : M unit :=
  match n with
  | O => mret tt
  | S n => p ← calloc_pkt; DoAddToFreePacketList p;; alloc_packets n
  end.

Definition AllocateMorePackets : M unit := alloc_packets (Z.to_nat BATCH_SIZE).

Definition AddToFreePacketList (p : ptr) : M unit := DoAddToFreePacketList p.

Definition RemoveFromFreePacketList : M ptr :=
  l ← gets w_freePacketList;
  (match l with [] => AllocateMorePackets | _ :: _ => mret tt end);;
  l ← gets w_freePacketList;
  match l with
  | [] => mfault NullDeref
  | p :: l =>
    modify (λ w, w <| w_freePacketList := l |> <| w_freePktCount ::= λ n, n - 1 |>);;
    mret p
  end.

Definition DTPInitializeIdlePacket : M unit :=
  p ← RemoveFromFreePacketList; AddToFreePacketList p.

Definition DTPGetIdlePacket : M ptr := RemoveFromFreePacketList.

(** ** Interval nodes (dtp.c) *)

Definition AddToFreeBufferList (b : ptr) : M unit :=
  modbuf b (λ _, mk_buffer 0 0 NULL);;
  modify (λ w, w <| w_freeBufferList ::= cons b |> <| w_freeBufferCount ::= Z.add 1 |>).

Definition calloc_buffer : M ptr := λ w,
  Ok (w_brk w, w <| w_bufs ::= <[w_brk w := mk_buffer 0 0 NULL]> |> <| w_brk ::= Z.add 1 |>).

Fixpoint alloc_buffers (n : nat) : M unit :=
  match n with
  | O => mret tt
  | S n =>
    b ← calloc_buffer;
    modify (λ w, w <| w_freeBufferList ::= cons b |> <| w_freeBufferCount ::= Z.add 1 |>);;
    alloc_buffers n
  end.

Definition AllocateMoreBuffer : M unit := alloc_buffers (Z.to_nat BATCH_SIZE).

Definition RemoveFromFreeBufferList : M ptr :=
  l ← gets w_freeBufferList;
  (match l with [] => AllocateMoreBuffer | _ :: _ => mret tt end);;
  l ← gets w_freeBufferList;
  match l with
  | [] => mfault NullDeref
  | b :: l =>
    modify (λ w, w <| w_freeBufferList := l |> <| w_freeBufferCount ::= λ n, n - 1 |>);;
    mret b
  end.

Definition GetBuffer : M ptr := RemoveFromFreeBufferList.

(** ** Invariant of the packet pool *)

Record pkt_pool_ok (w : world) : Prop := {
  pp_nodup : NoDup (w_freePacketList w);
  pp_alloc : ∀ p, p ∈ w_freePacketList w → is_Some (w_pkts w !! p);
  pp_count : w_freePktCount w = zlen (w_freePacketList w);
  pp_brk : ∀ p, is_Some (w_pkts w !! p) → 0 < p < w_brk w;
  pp_pos : 0 < w_brk w;
  pp_hdr : ∀ p x, w_pkts w !! p = Some x → zlen (tp_header x) = TP_HEADER_SIZE }.

Record buf_pool_ok (w : world) : Prop := {
  bp_nodup : NoDup (w_freeBufferList w);
  bp_alloc : ∀ p, p ∈ w_freeBufferList w → is_Some (w_bufs w !! p);
  bp_count : w_freeBufferCount w = zlen (w_freeBufferList w);
  bp_brk : ∀ p, is_Some (w_bufs w !! p) → 0 < p < w_brk w;
  bp_pos : 0 < w_brk w }.

(** [pool_frame w w']: the pools may grow, nothing else changed: an object that
    was allocated keeps its contents. *)
Record pkt_pool_frame (w w' : world) : Prop := {
  pf_rest : w' = w <| w_pkts := w_pkts w' |> <| w_freePacketList := w_freePacketList w' |>
                   <| w_freePktCount := w_freePktCount w' |> <| w_brk := w_brk w' |>;
  pf_pkts : w_pkts w ⊆ w_pkts w';
  pf_brk : w_brk w ≤ w_brk w' }.

Record buf_pool_frame (w w' : world) : Prop := {
  bf_rest : w' = w <| w_bufs := w_bufs w' |> <| w_freeBufferList := w_freeBufferList w' |>
                   <| w_freeBufferCount := w_freeBufferCount w' |> <| w_brk := w_brk w' |>;
  bf_bufs : w_bufs w ⊆ w_bufs w';
  bf_brk : w_brk w ≤ w_brk w' }.

#[export] Instance pkt_pool_frame_preorder : PreOrder pkt_pool_frame.
Proof.
  split.
  - intros w. constructor; [by destruct w|done|done].
  - intros w1 w2 w3 [R1 P1 B1] [R2 P2 B2]. constructor; [|by etrans|lia].
    rewrite R2, R1. by destruct w1.
Qed.

#[export] Instance buf_pool_frame_preorder : PreOrder buf_pool_frame.
Proof.
  split.
  - intros w. constructor; [by destruct w|done|done].
  - intros w1 w2 w3 [R1 P1 B1] [R2 P2 B2]. constructor; [|by etrans|lia].
    rewrite R2, R1. by destruct w1.
Qed.

(** An invariant of [m]: proved for one allocation, it holds for the batch. *)
Lemma alloc_packets_spec n w :
  pkt_pool_ok w →
  wp (alloc_packets n) (λ _ w', pkt_pool_ok w' ∧ pkt_pool_frame w w' ∧
    zlen (w_freePacketList w') = zlen (w_freePacketList w) + Z.of_nat n ∧
    (∀ p, p ∈ w_freePacketList w' → p ∈ w_freePacketList w ∨ w_pkts w !! p = None)) w.
Proof.
  revert w. induction n as [|n IH]; intros w Hok.
  - apply wp_ret. split_and!; [done|reflexivity|lia|by left].
  - simpl. apply wp_bind. unfold wp at 1, calloc_pkt. apply wp_bind, wp_modify.
    set (w1 := set w_freePktCount _ _).
    assert (Hfresh : w_pkts w !! w_brk w = None).
    { destruct (w_pkts w !! w_brk w) eqn:E; [|done].
      destruct (pp_brk w Hok (w_brk w)); [by eexists|lia]. }
    assert (Hok1 : pkt_pool_ok w1).
    { destruct Hok as [Hnd Ha Hc Hb Hp0 Hh]. constructor; cbn [w1 set set_with set_w_freePktCount
        set_w_freePacketList set_w_brk set_w_pkts w_freePacketList w_pkts w_brk w_freePktCount].
      - constructor; [|done]. intros Hin. destruct (Ha _ Hin) as [? ?]. congruence.
      - intros p [->|Hp]%elem_of_cons; [rewrite lookup_insert_eq; by eexists|].
        destruct (decide (p = w_brk w)) as [->|]; [rewrite lookup_insert_eq; by eexists|].
        rewrite lookup_insert_ne by done. by apply Ha.
      - rewrite Hc. unfold zlen. simpl length. lia.
      - intros p. destruct (decide (p = w_brk w)) as [->|]; [lia|].
        rewrite lookup_insert_ne by done. intros Hp. specialize (Hb p Hp). lia.
      - lia.
      - intros p x. destruct (decide (p = w_brk w)) as [->|].
        + rewrite lookup_insert_eq. intros [= <-]. cbn [tp_header zero_pkt]. by apply zlen_zeros.
        + rewrite lookup_insert_ne by done. apply Hh. }
    assert (Hf1 : pkt_pool_frame w w1).
    { constructor; cbn; [by destruct w|by apply insert_subseteq|lia]. }
    eapply wp_mono; [by apply IH|]. intros _ w' (? & ? & Hl & Hold).
    split_and!; [done|by etrans|rewrite Hl; cbn; unfold zlen; simpl length; lia|].
    intros p Hp. destruct (Hold p Hp) as [Hin|Hnone].
    + cbn in Hin. apply elem_of_cons in Hin as [->|?]; auto.
    + right. cbn in Hnone. by apply lookup_insert_None in Hnone as [? _].
Qed.

Lemma alloc_buffers_spec n w :
  buf_pool_ok w →
  wp (alloc_buffers n) (λ _ w', buf_pool_ok w' ∧ buf_pool_frame w w' ∧
    zlen (w_freeBufferList w') = zlen (w_freeBufferList w) + Z.of_nat n ∧
    (∀ p, p ∈ w_freeBufferList w' → p ∈ w_freeBufferList w ∨ w_bufs w !! p = None)) w.
Proof.
  revert w. induction n as [|n IH]; intros w Hok.
  - apply wp_ret. split_and!; [done|reflexivity|lia|by left].
  - simpl. apply wp_bind. unfold wp at 1, calloc_buffer. apply wp_bind, wp_modify.
    set (w1 := set w_freeBufferCount _ _).
    assert (Hfresh : w_bufs w !! w_brk w = None).
    { destruct (w_bufs w !! w_brk w) eqn:E; [|done].
      destruct (bp_brk w Hok (w_brk w)); [by eexists|lia]. }
    assert (Hok1 : buf_pool_ok w1).
    { destruct Hok as [Hnd Ha Hc Hb Hp0]. constructor; cbn.
      - constructor; [|done]. intros Hin. destruct (Ha _ Hin) as [? ?]. congruence.
      - intros p [->|Hp]%elem_of_cons; [rewrite lookup_insert_eq; by eexists|].
        destruct (decide (p = w_brk w)) as [->|]; [rewrite lookup_insert_eq; by eexists|].
        rewrite lookup_insert_ne by done. by apply Ha.
      - rewrite Hc. unfold zlen. simpl length. lia.
      - intros p. destruct (decide (p = w_brk w)) as [->|]; [lia|].
        rewrite lookup_insert_ne by done. intros Hp. specialize (Hb p Hp). lia.
      - lia. }
    assert (Hf1 : buf_pool_frame w w1).
    { constructor; cbn; [by destruct w|by apply insert_subseteq|lia]. }
    eapply wp_mono; [by apply IH|]. intros _ w' (? & ? & Hl & Hold).
    split_and!; [done|by etrans|rewrite Hl; cbn; unfold zlen; simpl length; lia|].
    intros p Hp. destruct (Hold p Hp) as [Hin|Hnone].
    + cbn in Hin. apply elem_of_cons in Hin as [->|?]; auto.
    + right. cbn in Hnone. by apply lookup_insert_None in Hnone as [? _].
Qed.

(** The pools refill themselves: after the test for an empty list there is an
    object on it. *)
Lemma pkt_refill_spec w :
  pkt_pool_ok w →
  wp (match w_freePacketList w with [] => AllocateMorePackets | _ :: _ => mret tt end)
    (λ _ w1, pkt_pool_ok w1 ∧ pkt_pool_frame w w1 ∧ w_freePacketList w1 ≠ [] ∧
       (∀ p, p ∈ w_freePacketList w1 → p ∈ w_freePacketList w ∨ w_pkts w !! p = None)) w.
Proof.
  intros Hok. destruct (w_freePacketList w) as [|p0 l0] eqn:E.
  - eapply wp_mono; [by apply alloc_packets_spec|]. intros _ w1 (Hok1 & Hf1 & Hl & Hold).
    rewrite E in *. split_and!; [done..| |done]. intros E1. rewrite E1 in Hl. done.
  - apply wp_ret. split_and!; [done|reflexivity|by rewrite E|]. rewrite E. auto.
Qed.

Lemma buf_refill_spec w :
  buf_pool_ok w →
  wp (match w_freeBufferList w with [] => AllocateMoreBuffer | _ :: _ => mret tt end)
    (λ _ w1, buf_pool_ok w1 ∧ buf_pool_frame w w1 ∧ w_freeBufferList w1 ≠ [] ∧
       (∀ p, p ∈ w_freeBufferList w1 → p ∈ w_freeBufferList w ∨ w_bufs w !! p = None)) w.
Proof.
  intros Hok. destruct (w_freeBufferList w) as [|p0 l0] eqn:E.
  - eapply wp_mono; [by apply alloc_buffers_spec|]. intros _ w1 (Hok1 & Hf1 & Hl & Hold).
    rewrite E in *. split_and!; [done..| |done]. intros E1. rewrite E1 in Hl. done.
  - apply wp_ret. split_and!; [done|reflexivity|by rewrite E|]. rewrite E. auto.
Qed.

(** [DTPGetIdlePacket] returns a packet that was free, or is fresh, and is no
    longer on the free list: a packet in use is never handed out again. *)
Lemma DTPGetIdlePacket_spec w :
  pkt_pool_ok w →
  wp DTPGetIdlePacket (λ p w', pkt_pool_ok w' ∧ pkt_pool_frame w w' ∧
    is_Some (w_pkts w' !! p) ∧ p ∉ w_freePacketList w' ∧
    (p ∈ w_freePacketList w ∨ w_pkts w !! p = None) ∧
    (∀ q, q ∈ w_freePacketList w' → q ∈ w_freePacketList w ∨ w_pkts w !! q = None)) w.
Proof.
  intros Hok. unfold DTPGetIdlePacket, RemoveFromFreePacketList.
  apply wp_bind, wp_gets. apply wp_bind.
  eapply wp_mono; [by apply pkt_refill_spec|]. intros _ w1 (Hok1 & Hf1 & Hne & Hnew).
  apply wp_bind, wp_gets. destruct (w_freePacketList w1) as [|p l] eqn:E; [done|].
  apply wp_bind, wp_modify, wp_ret.
  destruct Hok1 as [Hnd Ha Hc Hb Hp0 Hh]. rewrite E in *. apply NoDup_cons in Hnd as [Hnp Hnd].
  split_and!.
  - constructor; cbn; [done|intros; apply Ha; by right| |done..].
    rewrite Hc. unfold zlen. simpl length. lia.
  - destruct Hf1 as [R P B]. constructor; [|done|done]. rewrite R. by destruct w.
  - cbn. apply Ha. left.
  - done.
  - apply Hnew. left.
  - intros q Hq. apply Hnew. by right.
Qed.

(** The same for [GetBuffer]. *)
Lemma GetBuffer_spec w :
  buf_pool_ok w →
  wp GetBuffer (λ b w', buf_pool_ok w' ∧ buf_pool_frame w w' ∧
    is_Some (w_bufs w' !! b) ∧ b ∉ w_freeBufferList w' ∧
    (b ∈ w_freeBufferList w ∨ w_bufs w !! b = None) ∧
    (∀ p, p ∈ w_freeBufferList w' → p ∈ w_freeBufferList w ∨ w_bufs w !! p = None)) w.
Proof.
  intros Hok. unfold GetBuffer, RemoveFromFreeBufferList.
  apply wp_bind, wp_gets. apply wp_bind.
  eapply wp_mono; [by apply buf_refill_spec|]. intros _ w1 (Hok1 & Hf1 & Hne & Hnew).
  apply wp_bind, wp_gets. destruct (w_freeBufferList w1) as [|p l] eqn:E; [done|].
  apply wp_bind, wp_modify, wp_ret.
  destruct Hok1 as [Hnd Ha Hc Hb Hp0]. rewrite E in *. apply NoDup_cons in Hnd as [Hnp Hnd].
  split_and!.
  - constructor; cbn; [done|intros; apply Ha; by right| |done..].
    rewrite Hc. unfold zlen. simpl length. lia.
  - destruct Hf1 as [R P B]. constructor; [|done|done]. rewrite R. by destruct w.
  - cbn. apply Ha. left.
  - done.
  - apply Hnew. left.
  - intros q Hq. apply Hnew. by right.
Qed.

(** Returning an object that is in use keeps the pool well formed. *)
Lemma AddToFreePacketList_spec w p :
  pkt_pool_ok w → is_Some (w_pkts w !! p) → p ∉ w_freePacketList w →
  wp (AddToFreePacketList p) (λ _ w', pkt_pool_ok w' ∧
    w_freePacketList w' = p :: w_freePacketList w ∧ w_pkts w' = w_pkts w ∧
    pkt_pool_frame w w') w.
Proof.
  intros [Hnd Ha Hc Hb Hp0 Hh] Hp Hn. apply wp_modify. split_and!; [|done|done|].
  - constructor; cbn; [by constructor|intros q [->|?]%elem_of_cons; auto| |done..].
    rewrite Hc. unfold zlen. simpl length. lia.
  - constructor; cbn; [by destruct w|done|done].
Qed.

Lemma AddToFreeBufferList_spec w b :
  buf_pool_ok w → is_Some (w_bufs w !! b) → b ∉ w_freeBufferList w →
  wp (AddToFreeBufferList b) (λ _ w', buf_pool_ok w' ∧
    w' = w <| w_bufs ::= <[b := mk_buffer 0 0 NULL]> |>
           <| w_freeBufferList := b :: w_freeBufferList w |>
           <| w_freeBufferCount := 1 + w_freeBufferCount w |>) w.
Proof.
  intros [Hnd Ha Hc Hb Hp0] [x Hx] Hn. unfold AddToFreeBufferList.
  apply wp_bind. eapply wp_modbuf; [done|]. apply wp_modify. split; [|by destruct w].
  constructor; cbn.
  - by constructor.
  - intros q Hq. destruct (decide (q = b)) as [->|]; [rewrite lookup_insert_eq; by eexists|].
    rewrite lookup_insert_ne by done. apply elem_of_cons in Hq as [?|?]; [done|]. by apply Ha.
  - rewrite Hc. unfold zlen. simpl length. lia.
  - intros q Hq. apply Hb. destruct (decide (q = b)) as [->|]; [by eexists|].
    by rewrite lookup_insert_ne in Hq.
  - done.
Qed.
