(* ===== verification/RetransQueue.v ===== *)
(** * The retransmission queue (dtp_retrans_queue.c)

    [g_retTimerQHead] holds the connections the timer serves, earliest deadline
    first.  [InsertToRetransQueue] is an ordered insertion: the queue stays sorted
    by the second of the deadline, and connections with the same deadline keep
    the order they were inserted in. *)

From S2P Require Import Prelude Double Header Context World.
From Stdlib Require Import Sorting.Sorted.

(** [pthread_mutex_lock(&g_timerLock)]: the lock is not recursive; a thread that
    holds it waits for itself. *)
Definition timer_lock : M unit := λ w,
  if w_timerLock w then Err Spin else Ok (tt, w <| w_timerLock := true |>).
Definition timer_unlock : M unit := modify (λ w, w <| w_timerLock := false |>).

(** [TAILQ_FOREACH] with [TAILQ_INSERT_BEFORE] at the first later deadline,
    [TAILQ_INSERT_TAIL] when there is none. *)
Fixpoint insert_by_deadline (new_ctx : Z) (sec : Z) (l : list Z) : M (list Z) :=
  match l with
  | [] => mret [new_ctx]
  | item :: l' =>
    x ← getctx item;
    if sec <? tv_sec (tc_deadlineTime x) then mret (new_ctx :: item :: l')
    else (l'' ← insert_by_deadline new_ctx sec l'; mret (item :: l''))
  end.

Definition InsertToRetransQueue (new_ctx : Z) : M unit :=
  timer_lock;;
  x ← getctx new_ctx;
  l ← gets w_retTimerQ;
  l' ← insert_by_deadline new_ctx (tv_sec (tc_deadlineTime x)) l;
  modify (λ w, w <| w_retTimerQ := l' |>);;
  timer_unlock.

Definition RemoveFromRetransQueue (ctx : Z) : M unit :=
  timer_lock;;
  l ← gets w_retTimerQ;
  l' ← tailq_remove ctx l;
  modify (λ w, w <| w_retTimerQ := l' |>);;
  timer_unlock.

(** ** Correctness *)

(** The deadline of a connection, in seconds. *)
Definition deadline_of (w : world) (c : Z) : Z :=
  match ctx_at w c with Some x => tv_sec (tc_deadlineTime x) | None => 0 end.

Definition earlier (w : world) (c c' : Z) : Prop := deadline_of w c ≤ deadline_of w c'.

(** The queue is sorted, holds live contexts, none twice; the lock is free. *)
Record retq_ok (w : world) : Prop := {
  rq_lock : w_timerLock w = false;
  rq_sorted : StronglySorted (earlier w) (w_retTimerQ w);
  rq_live : ∀ c, c ∈ w_retTimerQ w → is_Some (ctx_at w c);
  rq_nodup : NoDup (w_retTimerQ w) }.

Lemma wp_timer_lock (Q : unit → world → Prop) w :
  w_timerLock w = false → Q tt (w <| w_timerLock := true |>) → wp timer_lock Q w.
Proof. unfold wp, timer_lock. by intros ->. Qed.

(** Taking and releasing the lock around an update of the queue. *)
Lemma lock_round w l :
  w_timerLock w = false →
  w <| w_timerLock := true |> <| w_retTimerQ := l |> <| w_timerLock := false |>
  = w <| w_retTimerQ := l |>.
Proof. destruct w. cbn. intros ->. done. Qed.

Lemma insert_by_deadline_spec w c sec l :
  (∀ c', c' ∈ l → is_Some (ctx_at w c')) →
  wp (insert_by_deadline c sec l)
     (λ l' w', w' = w ∧ ∃ l1 l2, l = l1 ++ l2 ∧ l' = l1 ++ c :: l2 ∧
        (∀ c', c' ∈ l1 → deadline_of w c' ≤ sec) ∧
        (∀ c', head l2 = Some c' → sec < deadline_of w c')) w.
Proof.
  induction l as [|a l IH]; intros Hlive.
  - apply wp_ret. split; [done|]. exists [], []. split_and!; [done..| |done].
    by intros ? ?%elem_of_nil.
  - simpl. destruct (Hlive a) as [x Hx]; [left|]. apply wp_bind. eapply wp_getctx; [done|].
    assert (Ha : deadline_of w a = tv_sec (tc_deadlineTime x)) by (unfold deadline_of; by rewrite Hx).
    destruct (Z.ltb_spec sec (tv_sec (tc_deadlineTime x))) as [E|E].
    + apply wp_ret. split; [done|]. exists [], (a :: l). split_and!; [done..| |].
      * by intros ? ?%elem_of_nil.
      * intros c' [= <-]. lia.
    + apply wp_bind. eapply wp_mono; [apply IH; intros; apply Hlive; by right|].
      intros l' w' (-> & l1 & l2 & -> & -> & H1 & H2). apply wp_ret. split; [done|].
      exists (a :: l1), l2. split_and!; [done..| |done].
      intros c' [->|?]%elem_of_cons; [lia|by apply H1].
Qed.

Lemma StronglySorted_app_iff {A} (R : A → A → Prop) l1 l2 :
  StronglySorted R (l1 ++ l2) ↔
  StronglySorted R l1 ∧ StronglySorted R l2 ∧ ∀ x y, x ∈ l1 → y ∈ l2 → R x y.
Proof.
  induction l1 as [|a l1 IH]; simpl.
  - split; [|tauto]. intros ?. split_and!; [constructor|done|]. by intros ? ? ?%elem_of_nil.
  - split.
    + intros [H1 H2]%StronglySorted_inv. apply IH in H1 as (? & ? & H3).
      rewrite Forall_app, !Forall_forall in H2. destruct H2 as [H2 H2'].
      split_and!; [by constructor; [|apply Forall_forall]|done|].
      intros x y [->|?]%elem_of_cons ?; auto.
    + intros ([H1 H2]%StronglySorted_inv & H3 & H4). constructor.
      * apply IH. split_and!; [done..|]. intros. apply H4; [by right|done].
      * rewrite Forall_app. split; [done|]. apply Forall_forall. intros. apply H4; [left|done].
Qed.

(** Insertion into a sorted queue, as a function on lists. *)
Lemma sorted_insert w c l1 l2 :
  StronglySorted (earlier w) (l1 ++ l2) →
  (∀ c', c' ∈ l1 → deadline_of w c' ≤ deadline_of w c) →
  (∀ c', head l2 = Some c' → deadline_of w c < deadline_of w c') →
  StronglySorted (earlier w) (l1 ++ c :: l2) ∧
  ∀ c', c' ∈ l2 → deadline_of w c < deadline_of w c'.
Proof.
  intros (S1 & S2 & S12)%StronglySorted_app_iff H1 H2.
  assert (Hall : ∀ c', c' ∈ l2 → deadline_of w c < deadline_of w c').
  { destruct l2 as [|b l2]; [by intros ? ?%elem_of_nil|].
    specialize (H2 b eq_refl). apply StronglySorted_inv in S2 as [_ S2].
    rewrite Forall_forall in S2. unfold earlier in S2.
    intros c' [->|Hc]%elem_of_cons; [done|]. specialize (S2 _ Hc). lia. }
  split; [|done]. apply StronglySorted_app_iff. split_and!; [done| |].
  - constructor; [done|]. apply Forall_forall. intros c' Hc'. unfold earlier.
    specialize (Hall _ Hc'). lia.
  - intros x y Hx [->|Hy]%elem_of_cons; [by apply H1|by apply S12].
Qed.

(** [InsertToRetransQueue] keeps the queue ordered by deadline and places the
    new connection behind those with the same deadline and before all later
    ones. *)
Lemma InsertToRetransQueue_spec w c x :
  retq_ok w → ctx_at w c = Some x → c ∉ w_retTimerQ w →
  wp (InsertToRetransQueue c)
     (λ _ w', retq_ok w' ∧ ∃ l1 l2, w_retTimerQ w = l1 ++ l2 ∧
        w' = w <| w_retTimerQ := l1 ++ c :: l2 |> ∧
        (∀ c', c' ∈ l1 → deadline_of w c' ≤ deadline_of w c) ∧
        (∀ c', c' ∈ l2 → deadline_of w c < deadline_of w c')) w.
Proof.
  intros [Hk Hs Hl Hn] Hx Hc. unfold InsertToRetransQueue.
  apply wp_bind, wp_timer_lock; [done|]. apply wp_bind. eapply wp_getctx; [done|].
  apply wp_bind, wp_gets, wp_bind. eapply wp_mono; [by apply insert_by_deadline_spec|].
  intros l' w' (-> & l1 & l2 & E & -> & H1 & H2). apply wp_bind, wp_modify, wp_modify.
  cbn in E. rewrite lock_round by done.
  assert (Hd : tv_sec (tc_deadlineTime x) = deadline_of w c) by (unfold deadline_of; by rewrite Hx).
  rewrite Hd in H1, H2. rewrite E in Hs, Hn, Hc, Hl.
  destruct (sorted_insert w c l1 l2 Hs H1 H2) as [Hs' Hall].
  split; [|by exists l1, l2]. constructor; cbn.
  - done.
  - done.
  - intros c'. rewrite elem_of_app, elem_of_cons. intros [?|[->|?]];
      [apply Hl; set_solver|by exists x|apply Hl; set_solver].
  - rewrite <- Permutation_middle. by constructor.
Qed.

Lemma RemoveFromRetransQueue_spec w c :
  retq_ok w → c ∈ w_retTimerQ w →
  wp (RemoveFromRetransQueue c)
     (λ _ w', retq_ok w' ∧ ∃ l1 l2, w_retTimerQ w = l1 ++ c :: l2 ∧
        w' = w <| w_retTimerQ := l1 ++ l2 |>) w.
Proof.
  intros [Hk Hs Hl Hn] Hc. unfold RemoveFromRetransQueue.
  apply wp_bind, wp_timer_lock; [done|]. apply wp_bind, wp_gets.
  destruct (list_remove_in _ _ Hc) as [l' Hl']. apply wp_bind.
  eapply wp_tailq_remove; [done|]. apply wp_bind, wp_modify, wp_modify. rewrite lock_round by done.
  apply list_remove_Some in Hl' as (l1 & l2 & E & -> & _). rewrite E in Hs, Hl, Hn.
  split; [|by exists l1, l2]. constructor; cbn.
  - done.
  - apply StronglySorted_app_iff in Hs as (S1 & [S2 S3]%StronglySorted_inv & S12).
    apply StronglySorted_app_iff. split_and!; [done..|]. intros. apply S12; [done|by right].
  - intros c' Hc'. apply Hl. set_solver.
  - rewrite <- Permutation_middle in Hn. by apply NoDup_cons in Hn as [_ ?].
Qed.
