(* ===== verification/Select.v ===== *)
(** * Readiness sets (dtp_select.c, dtp_select.h)

    The library records which D2TP sockets are readable and writable in two
    bit sets of 65536 bits; [dtp_select] waits on them.  A bit set is the set of
    the descriptors whose bit is on; the macros access memory outside the set for
    a descriptor outside [0, 65536). *)

From S2P Require Import Prelude Double Header Context World.

Definition FD_SETSIZE : Z := 1024.
Definition FD_SETSIZE_S : Z := 64 * FD_SETSIZE.

Definition fd_in_range (fd : Z) : bool := (0 <=? fd) && (fd <? FD_SETSIZE_S).

Definition FD_SET_S (fd : Z) (s : gset Z) : M (gset Z) :=
  if fd_in_range fd then mret ({[fd]} ∪ s) else mfault OutOfBounds.
Definition FD_CLR_S (fd : Z) (s : gset Z) : M (gset Z) :=
  if fd_in_range fd then mret (s ∖ {[fd]}) else mfault OutOfBounds.
Definition FD_ISSET_S (fd : Z) (s : gset Z) : M bool :=
  if fd_in_range fd then mret (bool_decide (fd ∈ s)) else mfault OutOfBounds.

Definition DTPSetInnerSock (sock : Z) : M unit :=
  modify (λ w, w <| w_select_sock := sock |> <| w_rfds := ∅ |> <| w_wfds := ∅ |>).

Definition DTPGetFdSet : M (gset Z) := gets w_fds.
Definition DTPGetFdRSet : M (gset Z) := gets w_rfds.

Definition DTPIsDTPSocket (sock : Z) : M bool := s ← gets w_fds; FD_ISSET_S sock s.

Definition DTPRegisterSockToGlobalFdSet (sock : Z) : M unit :=
  s ← gets w_fds; s ← FD_SET_S sock s; modify (λ w, w <| w_fds := s |>).

Definition DTPClearSockFromGlobalFdSet (sock : Z) : M unit :=
  s ← gets w_fds; s ← FD_CLR_S sock s; modify (λ w, w <| w_fds := s |>).

(** [for (i = 0; i < nfds; i++)]: [k] iterations are left. *)
Fixpoint check_pending (k : nat) (i : Z) (pending fds : gset Z) (count : Z)
  : M (gset Z * Z) :=
  match k with
  | O => mret (fds, count)
  | S k =>
    b ← FD_ISSET_S i fds;
    if (b : bool) then
      p ← FD_ISSET_S i pending;
      if (p : bool) then check_pending k (i + 1) pending fds (count + 1)
      else (fds ← FD_CLR_S i fds; check_pending k (i + 1) pending fds count)
    else check_pending k (i + 1) pending fds count
  end.

(** The sets are the ones the pointers refer to ([None] for NULL), returned
    updated. *)
Definition DTPSelectCheckAnyPendingEvent (nfds : Z) (readfds writefds : option (gset Z))
  : M (Z * option (gset Z) * option (gset Z)) :=
  g_rfds ← gets w_rfds;
  g_wfds ← gets w_wfds;
  r ← match readfds with
      | Some s => '(s, n) ← check_pending (Z.to_nat nfds) 0 g_rfds s 0; mret (n, Some s)
      | None => mret (0, None)
      end;
  let '(count, readfds) := r in
  match writefds with
  | Some s =>
    '(s, n) ← check_pending (Z.to_nat nfds) 0 g_wfds s count; mret (n, readfds, Some s)
  | None => mret (count, readfds, None)
  end.

Definition DTPSelectInit (nfds : Z) (readfds writefds : gset Z) : M unit :=
  modify (λ w, w <| w_nfds := nfds |> <| w_select_rfds := readfds |>
                 <| w_select_wfds := writefds |> <| w_isselectWaiting := true |>).

Definition DTPSelectClear : M unit := modify (λ w, w <| w_isselectWaiting := false |>).

(** [DTPSendEventToLibThread] (dtp_transport.c): write the event to a socket; the
    model appends it to what the other end has not read. *)
Definition DTPSendEventToLibThread (sock : Z) (ev : dtp_event) : M unit :=
  modify (λ w, w <| w_events ::= <[sock := default [] (w_events w !! sock) ++ [ev]]> |>).

(** The branch of [DTPSelectEventSet] after the bit is set. *)
Definition notify_select (sock cmd : Z) (select_fds : world → gset Z) : M unit :=
  nfds ← gets w_nfds;
  if sock <? nfds then
    waiting ← gets w_isselectWaiting;
    if (waiting : bool) then
      s ← gets select_fds;
      b ← FD_ISSET_S sock s;
      if (b : bool) then
        modify (λ w, w <| w_isselectWaiting := false |>);;
        inner_sock ← gets w_select_sock;
        DTPSendEventToLibThread inner_sock (mk_event sock cmd)
      else mret tt
    else mret tt
  else mret tt.

Definition DTPSelectEventSet (sock rw : Z) : M unit :=
  if rw =? DTP_FD_READ then
    s ← gets w_rfds; s ← FD_SET_S sock s; modify (λ w, w <| w_rfds := s |>);;
    notify_select sock DTP_FD_READ w_select_rfds
  else
    s ← gets w_wfds; s ← FD_SET_S sock s; modify (λ w, w <| w_wfds := s |>);;
    notify_select sock DTP_FD_WRITE w_select_wfds.

Definition DTPSelectEventClr (sock rw : Z) : M unit :=
  if rw =? DTP_FD_READ then
    s ← gets w_rfds; s ← FD_CLR_S sock s; modify (λ w, w <| w_rfds := s |>)
  else
    s ← gets w_wfds; s ← FD_CLR_S sock s; modify (λ w, w <| w_wfds := s |>).

(** ** Correctness *)

Lemma fd_in_range_true fd : 0 ≤ fd < FD_SETSIZE_S → fd_in_range fd = true.
Proof. unfold fd_in_range. rewrite andb_true_iff, Z.leb_le, Z.ltb_lt. done. Qed.

(** What the scan of [[lo, hi)] leaves of the set [s]: a descriptor in the range
    only if it is pending. *)
Definition kept (lo hi : Z) (pending s : gset Z) : gset Z :=
  filter (λ j, lo ≤ j < hi → j ∈ pending) s.

(** The descriptors it counts. *)
Definition ready (lo hi : Z) (pending s : gset Z) : gset Z :=
  filter (λ j, lo ≤ j < hi ∧ j ∈ pending) s.

Section scan.
Context (pending s : gset Z) (i hi : Z).
Hypothesis Hi : i < hi.

Lemma range_step j : j ≠ i → i ≤ j < hi ↔ i + 1 ≤ j < hi.
Proof. lia. Qed.

Lemma kept_pending : i ∈ pending ∨ i ∉ s → kept (i + 1) hi pending s = kept i hi pending s.
Proof.
  intros Hp. apply set_eq. intros j. unfold kept. rewrite !elem_of_filter.
  destruct (decide (j = i)) as [->|]; [|by rewrite range_step].
  split; intros [H ?]; (split; [|done]); [tauto|lia].
Qed.

Lemma kept_clear : i ∉ pending → kept (i + 1) hi pending (s ∖ {[i]}) = kept i hi pending s.
Proof.
  intros Hp. apply set_eq. intros j. unfold kept.
  rewrite !elem_of_filter, elem_of_difference, elem_of_singleton.
  destruct (decide (j = i)) as [->|]; [|rewrite range_step; tauto].
  split; [tauto|]. intros [H _]. destruct Hp. apply H. lia.
Qed.

Lemma ready_skip : i ∉ pending ∨ i ∉ s → ready (i + 1) hi pending s = ready i hi pending s.
Proof.
  intros Hp. apply set_eq. intros j. unfold ready. rewrite !elem_of_filter.
  destruct (decide (j = i)) as [->|]; [tauto|by rewrite range_step].
Qed.

Lemma ready_clear : ready (i + 1) hi pending (s ∖ {[i]}) = ready (i + 1) hi pending s.
Proof.
  apply set_eq. intros j. unfold ready.
  rewrite !elem_of_filter, elem_of_difference, elem_of_singleton.
  destruct (decide (j = i)) as [->|]; [lia|tauto].
Qed.

Lemma ready_count :
  i ∈ pending → i ∈ s → size (ready i hi pending s) = S (size (ready (i + 1) hi pending s)).
Proof.
  intros Hp Hs. replace (ready i hi pending s) with ({[i]} ∪ ready (i + 1) hi pending s).
  - rewrite size_union, size_singleton; [done|].
    apply disjoint_singleton_l. unfold ready. rewrite elem_of_filter. lia.
  - apply set_eq. intros j. unfold ready. rewrite elem_of_union, !elem_of_filter, elem_of_singleton.
    destruct (decide (j = i)) as [->|]; [|rewrite range_step; tauto].
    split; [intros _; split_and!; (done || lia)|auto].
Qed.
End scan.

Lemma scan_empty i pending s : kept i i pending s = s ∧ ready i i pending s = ∅.
Proof.
  split; apply set_eq; intros j; unfold kept, ready; rewrite elem_of_filter.
  - split; [tauto|]. intros. split; [lia|done].
  - split; [lia|]. by intros ?%elem_of_empty.
Qed.

Lemma check_pending_spec k i pending fds count w :
  0 ≤ i → i + Z.of_nat k ≤ FD_SETSIZE_S →
  wp (check_pending k i pending fds count) (λ r w', w' = w ∧
    r.1 = kept i (i + Z.of_nat k) pending fds ∧
    r.2 = count + Z.of_nat (size (ready i (i + Z.of_nat k) pending fds))) w.
Proof.
  revert i fds count. induction k as [|k IH]; intros i fds count Hi Hk.
  - apply wp_ret. simpl. rewrite Z.add_0_r. destruct (scan_empty i pending fds) as [-> ->].
    rewrite size_empty. split_and!; [done..|lia].
  - simpl check_pending. unfold FD_ISSET_S, FD_CLR_S. rewrite fd_in_range_true by lia.
    replace (i + Z.of_nat (S k)) with (i + 1 + Z.of_nat k) by lia.
    apply wp_bind, wp_ret. case_bool_decide as Hin; [apply wp_bind, wp_ret; case_bool_decide as Hp|].
    + eapply wp_mono; [apply IH; lia|]. intros r w' (-> & -> & ->).
      rewrite kept_pending, (ready_count _ _ i) by (auto || lia). split_and!; [done..|lia].
    + apply wp_bind, wp_ret. eapply wp_mono; [apply IH; lia|]. intros r w' (-> & -> & ->).
      by rewrite kept_clear, ready_clear, ready_skip by (auto || lia).
    + eapply wp_mono; [apply IH; lia|]. intros r w' (-> & -> & ->).
      by rewrite kept_pending, ready_skip by (auto || lia).
Qed.

(** [DTPSelectCheckAnyPendingEvent] leaves in each set the descriptors that are
    pending (those not below [nfds] are not looked at) and returns how many
    there are. *)
Lemma DTPSelectCheckAnyPendingEvent_spec w nfds rd wr :
  0 ≤ nfds ≤ FD_SETSIZE_S →
  wp (DTPSelectCheckAnyPendingEvent nfds (Some rd) (Some wr)) (λ r w', w' = w ∧
    r = (Z.of_nat (size (ready 0 nfds (w_rfds w) rd)) + Z.of_nat (size (ready 0 nfds (w_wfds w) wr)),
         Some (kept 0 nfds (w_rfds w) rd), Some (kept 0 nfds (w_wfds w) wr))) w.
Proof.
  intros Hn. unfold DTPSelectCheckAnyPendingEvent. do 2 apply wp_bind, wp_gets.
  apply wp_bind, wp_bind. eapply wp_mono; [apply check_pending_spec; lia|].
  intros [s n] w1 (-> & Hs & Hc). apply wp_ret. cbn in Hs, Hc. apply wp_bind.
  eapply wp_mono; [apply check_pending_spec; lia|]. intros [s' n'] w1 (-> & Hs' & Hc').
  apply wp_ret. cbn in Hs', Hc'. subst. rewrite Z2Nat.id by lia. done.
Qed.

(** ** Waking up a sleeping select *)

(** The events a descriptor's other end has not read. *)
Definition events_at (w : world) (sock : Z) : list dtp_event := default [] (w_events w !! sock).

(** The readiness set and the watched set of a direction. *)
Definition pending_set (rw : Z) (w : world) : gset Z :=
  if rw =? DTP_FD_READ then w_rfds w else w_wfds w.
Definition watched_set (rw : Z) (w : world) : gset Z :=
  if rw =? DTP_FD_READ then w_select_rfds w else w_select_wfds w.

(** Whether [DTPSelectEventSet] has a sleeping [dtp_select] to wake up. *)
Definition must_wake (sock rw : Z) (w : world) : bool :=
  (sock <? w_nfds w) && w_isselectWaiting w && bool_decide (sock ∈ watched_set rw w).

Lemma notify_select_spec sock cmd sel w :
  0 ≤ sock < FD_SETSIZE_S →
  wp (notify_select sock cmd sel) (λ _ w',
    w' = if (sock <? w_nfds w) && w_isselectWaiting w && bool_decide (sock ∈ sel w)
         then w <| w_isselectWaiting := false |>
                <| w_events ::= <[w_select_sock w := events_at w (w_select_sock w) ++ [mk_event sock cmd]]> |>
         else w) w.
Proof.
  intros Hs. unfold notify_select. apply wp_bind, wp_gets.
  destruct (sock <? w_nfds w); [|by apply wp_ret]. apply wp_bind, wp_gets.
  destruct (w_isselectWaiting w); [|by apply wp_ret]. apply wp_bind, wp_gets.
  unfold FD_ISSET_S. rewrite fd_in_range_true by done. apply wp_bind, wp_ret.
  case_bool_decide; [|by apply wp_ret]. apply wp_bind, wp_modify. apply wp_bind, wp_gets.
  by apply wp_modify.
Qed.

(** [DTPSelectEventSet] marks the socket and, when a [dtp_select] that watches it
    sleeps, sends one event to it and marks it awake. *)
Lemma DTPSelectEventSet_spec sock rw w :
  0 ≤ sock < FD_SETSIZE_S → rw = DTP_FD_READ ∨ rw = DTP_FD_WRITE →
  wp (DTPSelectEventSet sock rw) (λ _ w',
    pending_set rw w' = {[sock]} ∪ pending_set rw w ∧
    w_isselectWaiting w' = (if must_wake sock rw w then false else w_isselectWaiting w) ∧
    ∀ k, events_at w' k = events_at w k ++
      (if must_wake sock rw w then if decide (k = w_select_sock w) then [mk_event sock rw] else []
       else [])) w.
Proof.
  intros Hs Hrw. unfold DTPSelectEventSet, FD_SET_S. rewrite fd_in_range_true by done.
  destruct Hrw as [-> | ->]; cbn [Z.eqb DTP_FD_READ DTP_FD_WRITE];
    apply wp_bind, wp_gets, wp_bind, wp_ret, wp_bind, wp_modify;
    (eapply wp_mono; [by apply notify_select_spec|]); intros _ w' ->;
    unfold must_wake, events_at; cbn; destruct (_ && _); cbn.
  all: split_and!; [done..|]; intros k; rewrite ?app_nil_r; try done.
  all: destruct (decide (k = w_select_sock w)) as [->|];
    [by rewrite lookup_insert_eq|rewrite lookup_insert_ne by done; by rewrite app_nil_r].
Qed.

Lemma io_select_set sock rw (Q : unit → world → Prop) w :
  0 ≤ sock < FD_SETSIZE_S →
  (∀ w', io_frame w w' → w_sent w' = w_sent w → Q tt w') → wp (DTPSelectEventSet sock rw) Q w.
Proof.
  intros Hs HQ. unfold DTPSelectEventSet, FD_SET_S. rewrite fd_in_range_true by done.
  destruct (rw =? DTP_FD_READ);
    apply wp_bind, wp_gets, wp_bind, wp_ret, wp_bind, wp_modify;
    (eapply wp_mono; [by apply notify_select_spec|]); intros [] w' ->; cbn;
    destruct (_ && _); (apply HQ; [solve_io|done]).
Qed.

Lemma io_select_clr sock rw (Q : unit → world → Prop) w :
  0 ≤ sock < FD_SETSIZE_S →
  (∀ w', io_frame w w' → w_sent w' = w_sent w → Q tt w') → wp (DTPSelectEventClr sock rw) Q w.
Proof.
  intros Hs HQ. unfold DTPSelectEventClr, FD_CLR_S. rewrite fd_in_range_true by done.
  destruct (rw =? DTP_FD_READ);
    apply wp_bind, wp_gets, wp_bind, wp_ret, wp_modify; (apply HQ; [solve_io|done]).
Qed.
