(* ===== verification/Congestion.v ===== *)
(** * Congestion control and the retransmission timeout (dtp_transport.c)

    The congestion window, the slow-start threshold and the RTT estimators, as
    functions on the context.  The theorems bound the window and the timeout. *)

From S2P Require Import Prelude Double Header Context World.

Definition ALPHA : double := d_div (d_of_Z 1) (d_of_Z 8).
Definition BETA : double := d_div (d_of_Z 1) (d_of_Z 4).

Definition DTPSlowStart (ctx : dtp_context) : dtp_context :=
  ctx (* timeout timer *)
    <| tc_estRTT := RTO |> <| tc_devRTT := d_of_Z 0 |> <| tc_RTO := RTO |>
    (* delayed ACK *)
    <| tc_numPacketRcvd := 0 |>
    (* flow control *)
    <| tc_rcvWindow := u32 (tc_readBufLen ctx) |>
    (* congestion control *)
    <| tc_isCongested := false |> <| tc_cwnd := MAX_PAYLOAD |>
    <| tc_ssthresh := tc_readBufLen ctx |> <| tc_segSent := 0 |>.

(** The arithmetic is on [int]; the division is by [tc_cwnd]. *)
Definition MoveCongestionWindow (ctx : dtp_context) (acked : Z) : res dtp_context :=
  let '(ctx, acked) :=
    if tc_cwnd ctx <? tc_ssthresh ctx
    then (ctx <| tc_cwnd := i32 (tc_cwnd ctx + acked) |>, i32 (acked - tc_ssthresh ctx))
    else (ctx, acked) in
  ctx ← (if 0 <? acked then
           if tc_cwnd ctx =? 0 then Err Undefined
           else Ok (ctx <| tc_cwnd := i32 (tc_cwnd ctx + Z.quot (i32 (acked * DTP_MTU)) (tc_cwnd ctx)) |>)
         else Ok ctx);
  Ok (if tc_writeBufLen ctx <? tc_cwnd ctx
      then ctx <| tc_cwnd := tc_writeBufLen ctx |> else ctx).

Definition CongestionAvoidance (ctx : dtp_context) : dtp_context :=
  let ctx := ctx <| tc_ssthresh := Z.quot (tc_cwnd ctx) 2 |> in
  let ctx := if tc_ssthresh ctx <? MAX_PAYLOAD then ctx <| tc_ssthresh := MAX_PAYLOAD |> else ctx in
  ctx <| tc_cwnd := i32 (tc_ssthresh ctx + 3 * MAX_PAYLOAD) |>.

Definition TimeoutSlowStart (ctx : dtp_context) : dtp_context :=
  let ctx := ctx <| tc_ssthresh := Z.quot (tc_cwnd ctx) 2 |> in
  let ctx := if tc_ssthresh ctx <? MAX_PAYLOAD then ctx <| tc_ssthresh := MAX_PAYLOAD |> else ctx in
  ctx <| tc_cwnd := MAX_PAYLOAD |>.

Section env.
Context {env : Env}.

Definition CalculateRTO (packet : ptr) : M double :=
  p ← getpkt packet;
  tv ← gettimeofday;
  let now := d_of_tv tv in
  let rtt := d_since now (tp_time p) in
  x ← getctx (tp_ctx p);
  let estRTT := d_add (d_mul (d_sub (d_of_Z 1) ALPHA) (tc_estRTT x)) (d_mul ALPHA rtt) in
  let devRTT := d_add (d_mul (d_sub (d_of_Z 1) BETA) (tc_devRTT x))
                      (d_mul BETA (d_fabs (d_sub rtt estRTT))) in
  modctx (tp_ctx p) (λ x, x <| tc_estRTT := estRTT |> <| tc_devRTT := devRTT |>);;
  mret (d_add estRTT (d_mul (d_of_Z 4) devRTT)).
End env.

(** ** Bounds *)

(** Arithmetic with the size of a segment. *)
Ltac seg_lia := unfold is_i32, MAX_PAYLOAD, DTP_MTU, DTPHDRSIZE in *; lia.

(** The congestion-control variables of a connection whose write buffer holds at
    least one segment. *)
Record cc_ok (ctx : dtp_context) : Prop := {
  cc_wbuf : MAX_PAYLOAD ≤ tc_writeBufLen ctx < 2 ^ 20;
  cc_rbuf : 0 ≤ tc_readBufLen ctx < 2 ^ 20;
  cc_cwnd : MAX_PAYLOAD ≤ tc_cwnd ctx ≤ 2 * tc_writeBufLen ctx + 4 * MAX_PAYLOAD;
  cc_ssthresh : 0 ≤ tc_ssthresh ctx < 2 ^ 21 }.

Lemma cc_ok_slow_start ctx :
  MAX_PAYLOAD ≤ tc_writeBufLen ctx < 2 ^ 20 → 0 ≤ tc_readBufLen ctx < 2 ^ 20 →
  cc_ok (DTPSlowStart ctx).
Proof.
  intros. unfold DTPSlowStart.
  constructor; simpl_rec; cbn [tc_writeBufLen tc_readBufLen tc_cwnd tc_ssthresh];
    seg_lia.
Qed.

(** The additive increase: no overflow, and at most about the acknowledged size. *)
Lemma cc_increase a c :
  0 ≤ a < 2 ^ 20 → MAX_PAYLOAD ≤ c →
  i32 (a * DTP_MTU) = a * DTP_MTU ∧ 0 ≤ Z.quot (a * DTP_MTU) c ≤ 2 * a.
Proof.
  unfold MAX_PAYLOAD, DTP_MTU, DTPHDRSIZE. intros Ha Hc.
  split; [apply i32_small; unfold is_i32; lia|].
  rewrite Z.quot_div_nonneg by lia. split; [apply Z.div_pos; lia|].
  apply Z.div_le_upper_bound; nia.
Qed.

(** The last two statements of [MoveCongestionWindow]. *)
Lemma cc_clamp ctx a :
  MAX_PAYLOAD ≤ tc_writeBufLen ctx < 2 ^ 20 → MAX_PAYLOAD ≤ tc_cwnd ctx < 2 ^ 23 → a < 2 ^ 20 →
  ∃ c, (ctx ← (if 0 <? a then
           if tc_cwnd ctx =? 0 then Err Undefined
           else Ok (ctx <| tc_cwnd := i32 (tc_cwnd ctx + Z.quot (i32 (a * DTP_MTU)) (tc_cwnd ctx)) |>)
         else Ok ctx);
        Ok (if tc_writeBufLen ctx <? tc_cwnd ctx
            then ctx <| tc_cwnd := tc_writeBufLen ctx |> else ctx)) = Ok (ctx <| tc_cwnd := c |>) ∧
    MAX_PAYLOAD ≤ c ≤ tc_writeBufLen ctx ∧ tc_cwnd ctx `min` tc_writeBufLen ctx ≤ c.
Proof.
  intros Hw Hc Ha.
  assert (Hid : ctx = ctx <| tc_cwnd := tc_cwnd ctx |>) by (by destruct ctx).
  destruct (Z.ltb_spec 0 a) as [Hpos|Hneg].
  - destruct (cc_increase a (tc_cwnd ctx)) as [E Hq]; [lia|lia|].
    destruct (Z.eqb_spec (tc_cwnd ctx) 0) as [?|_];
      [seg_lia|].
    rewrite E, i32_small by seg_lia.
    cbn [mbind res_bind]. cbn [tc_writeBufLen tc_cwnd set set_with set_tc_cwnd].
    destruct (Z.ltb_spec (tc_writeBufLen ctx) (tc_cwnd ctx + Z.quot (a * DTP_MTU) (tc_cwnd ctx)));
      [exists (tc_writeBufLen ctx)|eexists]; (split; [done|lia]).
  - cbn [mbind res_bind]. destruct (Z.ltb_spec (tc_writeBufLen ctx) (tc_cwnd ctx)).
    + eexists. split; [done|]. lia.
    + eexists. rewrite Hid at 1. split; [done|]. lia.
Qed.

(** Moving the window: on an acknowledgement of data that was in the write
    buffer there is no fault and no overflow, the window never exceeds the write
    buffer, never falls below one segment and only the write buffer can make it
    shrink. *)
Lemma MoveCongestionWindow_spec ctx acked :
  cc_ok ctx → 0 ≤ acked ≤ tc_writeBufLen ctx →
  ∃ c, MoveCongestionWindow ctx acked = Ok (ctx <| tc_cwnd := c |>) ∧
    MAX_PAYLOAD ≤ c ≤ tc_writeBufLen ctx ∧ tc_cwnd ctx `min` tc_writeBufLen ctx ≤ c.
Proof.
  intros [Hw Hr Hc Hs] Ha. unfold MoveCongestionWindow.
  destruct (Z.ltb_spec (tc_cwnd ctx) (tc_ssthresh ctx)) as [Hss|Hss].
  - rewrite !i32_small by seg_lia.
    destruct (cc_clamp (ctx <| tc_cwnd := tc_cwnd ctx + acked |>) (acked - tc_ssthresh ctx))
      as (c & Hrun & Hb & Hmin); cbn [tc_writeBufLen tc_cwnd set set_with set_tc_cwnd] in *;
      [done|seg_lia|lia|].
    exists c. rewrite Hrun. split_and!; [by destruct ctx|lia|lia|lia].
  - apply cc_clamp; seg_lia.
Qed.

(** Both reactions to a loss keep the variables in bounds and leave at least one
    segment in the window; a timeout leaves exactly one. *)
Lemma halve_range c : 0 ≤ c → 0 ≤ Z.quot c 2 ≤ c.
Proof. intros. rewrite Z.quot_div_nonneg by lia. Z.div_mod_to_equations. lia. Qed.

Lemma loss_spec ctx :
  cc_ok ctx →
  cc_ok (CongestionAvoidance ctx) ∧ cc_ok (TimeoutSlowStart ctx) ∧
  tc_cwnd (TimeoutSlowStart ctx) = MAX_PAYLOAD ∧
  tc_cwnd (CongestionAvoidance ctx) = tc_ssthresh (CongestionAvoidance ctx) + 3 * MAX_PAYLOAD.
Proof.
  intros [Hw Hr Hc Hs]. unfold CongestionAvoidance, TimeoutSlowStart, MAX_PAYLOAD, DTP_MTU, DTPHDRSIZE in *.
  cbn [tc_ssthresh set set_with set_tc_ssthresh]. pose proof (halve_range (tc_cwnd ctx)).
  assert (2 * Z.quot (tc_cwnd ctx) 2 ≤ tc_cwnd ctx).
  { rewrite Z.quot_div_nonneg by lia. Z.div_mod_to_equations. lia. }
  destruct (Z.ltb_spec (Z.quot (tc_cwnd ctx) 2) (1472 - 20));
    cbn [tc_ssthresh tc_cwnd set set_with set_tc_cwnd set_tc_ssthresh];
    rewrite i32_small by (unfold is_i32; lia);
    (split_and!; [constructor; simpl_rec; cbn [tc_writeBufLen tc_readBufLen tc_cwnd tc_ssthresh]; seg_lia..|done|done]).
Qed.
