(* ===== verification/Lifecycle.v ===== *)
(** * Creating, waking up and closing a context (dtp_transport.c, dtp.c)

    Host and flow identifiers, [DTPCreateContext], the wake-up of blocked socket
    calls and [DTPCloseContext]. *)

From S2P Require Import Prelude Double Header Context World ContextTable Pools RetransQueue.
From S2P Require Import Select Congestion.

Section env.
Context {env : Env}.

(** Host ID = SHA-1 of the hardware address of the first interface. *)
Definition DTPGenerateHostID : bytes := env_sha1 env_mac.

(** The bytes of a [long] (64 bits, little endian). *)
Definition le64 (x : Z) : bytes := le32 x ++ le32 (x / 2 ^ 32).

(** Flow ID = the last four bytes of SHA-1(pid | host ID | time). *)
Definition DTPGenerateFlowID (hostID : bytes) : M Z :=
  curtime ← gettimeofday;
  let digest := env_sha1 (le32 env_pid ++ zslice 0 SHA1_DIGEST_LENGTH hostID
                          ++ le64 (tv_sec curtime) ++ le64 (tv_usec curtime)) in
  mret (of_le (zslice (SHA1_DIGEST_LENGTH - 4) 4 digest)).

Definition DTPReadBufWakeup (ctx : Z) : M unit :=
  x ← getctx ctx;
  mwhen (tc_isReadBlocked x) (cond_signal ctx readBufCond);;
  DTPSelectEventSet (tc_sock x) DTP_FD_READ.

Definition DTPWriteBufWakeup (ctx : Z) : M unit :=
  x ← getctx ctx;
  mwhen (tc_isWriteBlocked x) (cond_signal ctx writeBufCond);;
  DTPSelectEventSet (tc_sock x) DTP_FD_WRITE.

(** [socket()] and [close()] of the UDP socket below a D2TP socket. *)
Definition udp_socket : M Z := λ w, Ok (env_socket (w_nsock w), w <| w_nsock ::= S |>).
Definition udp_close (sock : Z) : M unit :=
  modify (λ w, w <| w_closed ::= λ l, l ++ [sock] |> <| w_ports ::= delete sock |>).

(** The fields [DTPCreateContext] sets before the context is queued. *)
Definition init_ctx (new_sock : Z) (tv1 tv2 : timeval) : dtp_context :=
  let x := zero_ctx <| tc_sock := new_sock |> <| tc_state := SOCK_CLOSED |>
    <| tc_isActive := true |> <| tc_isNetConnected := true |>
    <| tc_keepAliveStart := tv1 |> <| tc_keepAliveTime := DTP_KEEPALIVE_TIME |>
    <| tc_keepAliveIntvl := DTP_KEEPALIVE_PROBES |>
    <| tc_keepAliveProbes := DTP_KEEPALIVE_INTVL |>
    <| tc_keyLen := 0 |> <| tc_numACKRcvd := 0 |> <| tc_useWindowScale := false |>
    <| tc_recvWindowScale := 0 |> <| tc_sendWindowScale := 0 |> <| tc_blockRemain := 0 |>
    <| tc_upByte := 0 |> <| tc_downByte := 0 |> <| tc_nonce := 0 |>
    <| tc_deadlineTime := tv2 |> <| tc_deadline := 0 |> in
  (UseWindowScale x 4) <| tc_packetQ := [] |>.

(** [None] is the NULL pointer. *)
Definition DTPCreateContext : M (option Z) :=
  new_sock ← udp_socket;
  if new_sock <? 0 then mret None
  else
    r ← DTPAllocateContext new_sock;
    match r with
    | None => set_errno ENOMEM;; udp_close new_sock;; mret None
    | Some new_ctx =>
      putctx new_ctx (zero_ctx <| tc_sock := new_sock |>);;
      DTPRegisterSockToGlobalFdSet new_sock;;
      tv1 ← gettimeofday;
      tv2 ← gettimeofday;
      putctx new_ctx (init_ctx new_sock tv1 tv2);;
      InsertToRetransQueue new_ctx;;
      modctx new_ctx (λ x, x <| tc_readBufLen := DEF_READ_BUFLEN |>
                             <| tc_readBuf := Some (malloc_bytes DEF_READ_BUFLEN) |>
                             <| tc_writeBufLen := DEF_WRITE_BUFLEN |>
                             <| tc_writeBuf := Some (malloc_bytes DEF_WRITE_BUFLEN) |>);;
      modctx new_ctx DTPSlowStart;;
      mret (Some new_ctx)
    end.

(** [while (buf != NULL)]: return the interval nodes to their pool.  A node is
    cleared when it is returned, so the loop visits a node at most once more
    than there are nodes. *)
Fixpoint free_buffers (fuel : nat) (buf : ptr) : M unit :=
  if buf =? NULL then mret tt
  else match fuel with
  | O => mfault Spin
  | S fuel =>
    b ← getbuf buf;
    AddToFreeBufferList buf;;
    free_buffers fuel (b_next b)
  end.

Definition DTPCloseContext (ctx : Z) : M unit :=
  x ← getctx ctx;
  if negb (tc_isActive x) then mret tt
  else if tc_waitACK x then cond_signal ctx closeCond
  else if is_state (tc_state x) SOCK_TIME_WAIT then mret tt
  else
    fuel ← gets (λ w, (2 + size (w_bufs w))%nat);
    free_buffers fuel (tc_readBufHead x);;
    modctx ctx (λ x, x <| tc_readBufHead := NULL |> <| tc_readBuf := None |>
                       <| tc_writeBuf := None |> <| tc_isActive := false |>
                       <| tc_closeCalled := false |>);;
    DTPRemoveContextFromFlowIDMap ctx;;
    DTPSelectEventClr (tc_sock x) DTP_FD_READ;;
    DTPSelectEventClr (tc_sock x) DTP_FD_WRITE;;
    (* event_del *)
    ctx ->> tc_readEvent := false;;
    DTPClearSockFromGlobalFdSet (tc_sock x);;
    udp_close (tc_sock x).
End env.
