(* ===== verification/Send.v ===== *)
(** * Sending packets (dtp_transport.c)

    [DTPSendPacket] and the functions that build packets: data segments
    ([DTPWriteAvail]), acknowledgements, FINs, probes, RSTs, the packets of the
    challenge-response exchange, and retransmission. *)

From S2P Require Import Prelude Double Header Context World ContextTable Pools RetransQueue.
From S2P Require Import Select Congestion Lifecycle.

Section env.
Context {env : Env}.

(** ** One datagram *)

(** [while (1)] around [sendto]/[sendmsg]: [attempts] is what the successive
    calls return.  The bytes are gathered when a call takes them ([data]).  The
    loop leaves on success, on an error it does not retry, or never. *)
Fixpoint send_loop (attempts : list send_result) (sock : Z) (data : M bytes) (len : Z)
    (addr : sockaddr_in) (ctx : option Z) : M Z :=
  match attempts with
  | [] => mfault Spin
  | SendErr e :: attempts =>
    set_errno e;;
    if e =? ENETUNREACH then
      connected ← match ctx with
                  | Some c => x ← getctx c; mret (tc_isNetConnected x)
                  | None => mret false
                  end;
      if (connected : bool) then mret (-1) else send_loop attempts sock data len addr ctx
    else if e =? EAGAIN then send_loop attempts sock data len addr ctx
    else if e =? EBADF then
      match ctx with
      | Some c =>
        x ← getctx c;
        mwhen (tc_isActive x) (RemoveFromRetransQueue c;; DTPCloseContext c)
      | None => mret tt
      end;;
      mret (-1)
    else mret (-1)
  | SendShort n :: _ =>
    d ← data;
    modify (λ w, w <| w_sent ::= λ l, l ++ [mk_datagram sock addr (zslice 0 n d)] |>);;
    mret (if n =? len then n else -1)
  | SendOK :: _ =>
    d ← data;
    modify (λ w, w <| w_sent ::= λ l, l ++ [mk_datagram sock addr d] |>);;
    mret (if zlen d =? len then zlen d else -1)
  end.

Definition DTPSendPacket (sock : Z) (data : M bytes) (len : Z) (addr : sockaddr_in)
    (ctx : option Z) : M Z :=
  attempts ← gets (λ w, env_send (w_nsend w));
  modify (λ w, w <| w_nsend ::= S |>);;
  send_loop attempts sock data len addr ctx.

(** ** Packets *)

(** [TAILQ_INSERT_TAIL(&ctx->tc_packetQHead, packet, tp_link)] *)
Definition packetQ_insert (ctx : Z) (packet : ptr) : M unit :=
  modctx ctx (set tc_packetQ (λ q, q ++ [packet])).

(** [TAILQ_REMOVE(&ctx->tc_packetQHead, packet, tp_link)] *)
Definition packetQ_remove (ctx : Z) (packet : ptr) : M unit :=
  x ← getctx ctx;
  q ← tailq_remove packet (tc_packetQ x);
  ctx ->> tc_packetQ := q.

Definition DTPInsertPacket (packet : ptr) (temp_len hdr_size : Z) : M unit :=
  p ← getpkt packet;
  x ← getctx (tp_ctx p);
  tv ← gettimeofday;
  modpkt packet (λ p, p <| tp_seqNum := tc_lastByteSent x |> <| tp_len := temp_len |>
                        <| tp_headerLen := hdr_size |> <| tp_time := tv |>
                        <| tp_isRetrans := false |>).

(** The bytes of the message [DTPGeneratePacket] describes: the header of the
    packet, then [tp_len - tp_headerLen] bytes from [payload]. *)
Definition DTPGeneratePacket (packet : ptr) (payload : Z → M bytes) : M bytes :=
  p ← getpkt packet;
  h ← block_read (Some (tp_header p)) 0 (tp_headerLen p);
  d ← payload (tp_len p - tp_headerLen p);
  mret (h ++ d).

(** The [n] bytes of the write buffer from offset [off]. *)
Definition from_write_buf (ctx : Z) (off n : Z) : M bytes :=
  x ← getctx ctx; block_read (tc_writeBuf x) off n.

(** The first [n] bytes of a local object. *)
Definition from_local (b : bytes) (n : Z) : M bytes := block_read (Some b) 0 n.

Definition add_option (packet : ptr) (hdr_size opcode : Z) (value : bytes) : M Z :=
  p ← getpkt packet;
  '(h, n) ← lift_res (DTPAddOptionToHeader (tp_header p) hdr_size opcode value);
  modpkt packet (set tp_header (λ _, h));;
  mret n.

Definition generate_header (packet : ptr) (seq ack fid flags win : Z) : M Z :=
  p ← getpkt packet;
  let '(h, n) := DTPGenerateHeader (tp_header p) seq ack fid flags win in
  modpkt packet (set tp_header (λ _, h));;
  mret n.

(** ** Control packets *)

(** A header of its own in zeroed memory, sent at once. *)
Definition send_header (ctx : Z) (h0 : bytes) (flags : Z) : M Z :=
  x ← getctx ctx;
  let '(hdr, hdr_size) := DTPGenerateHeader h0 (tc_lastByteSent x) (GetAckNumber x)
                            (tc_flowID x) flags (AdvertisedWindow x) in
  let hdr_size := align4 hdr_size in
  DTPSendPacket (tc_sock x) (from_local hdr hdr_size) hdr_size (tc_peerAddr x) None.

Definition DTPSendACKPacket (ctx : Z) : M Z :=
  send_header ctx (zeros DTPHDRSIZE) DTP_FLAG_ACK.

Definition DTPSendProbePacket (ctx : Z) : M unit :=
  send_header ctx (zeros DTPHDRSIZE) 0;; mret tt.

(** [hdr] is not initialised before the fields are written. *)
Definition SendAUTHPacket (ctx : Z) : M unit :=
  send_header ctx (malloc_bytes DTPHDRSIZE) (Z.lor DTP_FLAG_AUTH DTP_FLAG_ACK);;
  ctx ->> tc_isAUTHSent := true.

Definition DTPSendFINPacket (ctx : Z) : M unit :=
  x ← getctx ctx;
  let '(hdr, hdr_size) := DTPGenerateHeader (zeros DTPHDRSIZE) (tc_lastByteSent x)
        (GetAckNumber x) (tc_flowID x) (Z.lor DTP_FLAG_FIN DTP_FLAG_ACK)
        (GetAvailReadBufSize x) in
  packet ← DTPGetIdlePacket;
  modpkt packet (λ p, p <| tp_header ::= zsplice 0 (zslice 0 hdr_size hdr) |> <| tp_ctx := ctx |>);;
  DTPInsertPacket packet hdr_size hdr_size;;
  packetQ_insert ctx packet;;
  DTPSendPacket (tc_sock x) (p ← getpkt packet; from_local (tp_header p) hdr_size) hdr_size
    (tc_peerAddr x) (Some ctx);;
  (* FIN packet has data size 1 *)
  modctx ctx (λ x, x <| tc_lastByteSent := tc_lastByteSent x +u 1 |>
                     <| tc_lastByteWritten := tc_lastByteWritten x +u 1 |>);;
  (* change context state *)
  modctx ctx (λ x,
    if is_state (tc_state x) SOCK_ESTABLISHED || is_state (tc_state x) SOCK_SYN_SENT
    then x <| tc_state := SOCK_FIN_WAIT_1 |>
    else if is_state (tc_state x) SOCK_CLOSE_WAIT then x <| tc_state := SOCK_LAST_ACK |>
    else x);;
  ctx ->> tc_isFINSent := true.

Definition SendRSTPacket (sock : Z) (buf : bytes) (addr : sockaddr_in) : M unit :=
  let hdr := zeros (DTPHDRSIZE + (DTPOLEN_HOST_ID + 4)) in
  let '(hdr, hdr_size) := DTPGenerateHeader hdr 0 0 (GetFlowID buf) DTP_FLAG_RST DEF_READ_BUFLEN in
  '(hdr, hdr_size) ← lift_res (DTPAddOptionToHeader hdr hdr_size DTPOPT_HOST_ID DTPGenerateHostID);
  let hdr_size := align4 hdr_size in
  DTPSendPacket sock (from_local hdr hdr_size) hdr_size addr None;;
  mret tt.

(** ** Data segments *)

(** The loop condition of [DTPWriteAvail]. *)
Definition may_send (x : dtp_context) (len : Z) : bool :=
  (MAX_PAYLOAD <=? len) ||
  ((0 <? len) &&
   ((tc_lastByteWritten x -u tc_lastByteSent x <? MAX_PAYLOAD)
    || tc_closeCalled x || (tc_rcvWindow x <? MAX_PAYLOAD))).

(** The options of a segment: host ID and deadline on a SYN, the window scale
    on the first packet. *)
Definition segment_options (ctx : Z) (packet : ptr) (flags hdr_size : Z) : M Z :=
  x ← getctx ctx;
  hdr_size ←
    (if flag_set flags DTP_FLAG_SYN then
       hdr_size ← add_option packet hdr_size DTPOPT_HOST_ID DTPGenerateHostID;
       hdr_size ← (if 0 <? tc_deadline x
                   then add_option packet hdr_size DTPOPT_DEADLINE (le32 (tc_deadline x))
                   else mret hdr_size);
       ctx ->> tc_isSYNSent := true;;
       mret hdr_size
     else mret hdr_size);
  hdr_size ←
    (if negb (tc_isFirstPacketSent x) then
       hdr_size ← (if 0 <? tc_recvWindowScale x
                   then add_option packet hdr_size DTPOPT_WIN_SCALE [tc_recvWindowScale x]
                   else mret hdr_size);
       ctx ->> tc_isFirstPacketSent := true;;
       mret hdr_size
     else mret hdr_size);
  mret (align4 hdr_size).

(** One iteration: build a packet with at most [len] bytes, queue it and send
    it.  [None]: the network is unreachable, the function returns; otherwise
    the number of data bytes of the packet. *)
Definition send_segment (ctx : Z) (flags len : Z) : M (option Z) :=
  packet ← DTPGetIdlePacket;
  x ← getctx ctx;
  hdr_size ← generate_header packet (tc_lastByteSent x) (tc_nextByteExpected x) (tc_flowID x)
               flags (AdvertisedWindow x);
  hdr_size ← segment_options ctx packet flags hdr_size;
  let temp_len :=
    if is_state (tc_state x) SOCK_SYN_SENT then hdr_size + tc_keyLen x
    else hdr_size + (if len <=? DTP_MTU - hdr_size then len else DTP_MTU - hdr_size) in
  modpkt packet (set tp_ctx (λ _, ctx));;
  DTPInsertPacket packet temp_len hdr_size;;
  packetQ_insert ctx packet;;
  res ← DTPSendPacket (tc_sock x)
          (DTPGeneratePacket packet (from_write_buf ctx (GetWriteBufLastByteSentOff x)))
          temp_len (tc_peerAddr x) (Some ctx);
  errno ← gets w_errno;
  if (res =? -1) && (errno =? ENETUNREACH) then mret None
  else
    let n := temp_len - hdr_size in
    modctx ctx (λ x, x <| tc_recvAnyData := false |> <| tc_segSent := tc_segSent x + n |>
                       <| tc_lastByteSent := tc_lastByteSent x +u n |>);;
    mret (Some n).

(** [while (...)]: the boolean tells whether the code after the loop runs. *)
Fixpoint send_segments (fuel : nat) (ctx : Z) (flags len : Z) : M bool :=
  x ← getctx ctx;
  if may_send x len then
    match fuel with
    | O => mfault Spin
    | S fuel =>
      r ← send_segment ctx flags len;
      match r with
      | None => mret false
      | Some n =>
        let flags := Z.ldiff flags (Z.lor DTP_FLAG_SYN (Z.lor DTP_FLAG_ACK DTP_FLAG_AUTH)) in
        x ← getctx ctx;
        if is_state (tc_state x) SOCK_SYN_SENT then mret true
        else send_segments fuel ctx flags (len - n)
      end
    end
  else mret true.

(** The flags of the first segment; [None] when nothing may be sent. *)
Definition first_flags (ctx : Z) : M (option Z) :=
  x ← getctx ctx;
  if negb (tc_isNetConnected x) || tc_isCongested x then mret None
  else
    r ← (if tc_sendSYN x && negb (is_state (tc_state x) SOCK_ESTABLISHED) then
           if tc_isSYNSent x then mret None else mret (Some DTP_FLAG_SYN)
         else if negb (tc_isFirstDataSent x) then
           (ctx ->> tc_isFirstDataSent := true;; mret (Some DTP_FLAG_ACK))
         else mret (Some 0));
    match r with
    | None => mret None
    | Some flags =>
      let flags := if tc_recvAnyData x then Z.lor flags DTP_FLAG_ACK else flags in
      if tc_isAUTHSent x then
        ctx ->> tc_isAUTHSent := false;;
        mret (Some (Z.lor flags DTP_FLAG_AUTH))
      else mret (Some flags)
    end.

(** The number of bytes flow and congestion control allow.  [tc_rcvWindow -
    (tc_lastByteSent - tc_lastByteAcked)] is unsigned, and so is the first
    comparison. *)
Definition send_allowance (x : dtp_context) : Z :=
  let len := i32 (tc_lastByteWritten x -u tc_lastByteSent x) in
  let len := i32 (c__min (u32 len)
                    (tc_rcvWindow x -u (tc_lastByteSent x -u tc_lastByteAcked x))) in
  c__min len (i32 (tc_cwnd x - tc_segSent x)).

(** A segment other than a SYN carries at least one byte. *)
Definition send_fuel (len : Z) : nat := S (Z.to_nat len).

Definition DTPWriteAvail (sock : Z) (ctx : Z) : M unit :=
  flags ← first_flags ctx;
  match flags with
  | None => mret tt
  | Some flags =>
    x ← getctx ctx;
    let len := send_allowance x in
    go ← send_segments (send_fuel len) ctx flags len;
    if (go : bool) then
      x ← getctx ctx;
      mwhen (tc_closeCalled x && negb (tc_isFINSent x) &&
             (tc_isFINRcvd x || (tc_lastByteSent x =? tc_lastByteWritten x)))
            (DTPSendFINPacket ctx)
    else mret tt
  end.

(** ** Retransmission *)

Definition DTPReconnect (ctx : Z) : M unit :=
  ctx ->> tc_isNetConnected := true;;
  x ← getctx ctx;
  match tc_packetQ x with
  | [] => DTPSendACKPacket ctx;; mret tt
  | packet :: _ =>
    tv ← gettimeofday;
    modpkt packet (set tp_time (λ _, tv));;
    modctx ctx DTPSlowStart;;
    p ← getpkt packet;
    ctx ->> tc_segSent := tp_len p
  end.

Definition DTPRetransmit (sock : Z) (packet : ptr) : M unit :=
  p ← getpkt packet;
  x ← getctx (tp_ctx p);
  res ← DTPSendPacket sock
          (DTPGeneratePacket packet (from_write_buf (tp_ctx p) (GetWriteBufPacketSentOff x p)))
          (tp_len p) (tc_peerAddr x) (Some (tp_ctx p));
  errno ← gets w_errno;
  if (res =? -1) && (errno =? ENETUNREACH) then mret tt
  else
    x ← getctx (tp_ctx p);
    if negb (tc_isNetConnected x) then DTPReconnect (tp_ctx p)
    else modpkt packet (set tp_isRetrans (λ _, true)).

(** ** Challenge and response *)

Definition NONCE_SIZE : Z := 4.  (* sizeof(ctx->tc_nonce) *)

Definition SendCHGPacket (ctx : Z) (addr : sockaddr_in) : M unit :=
  packet ← DTPGetIdlePacket;
  x ← getctx ctx;
  hdr_size ← generate_header packet 0 0 (tc_flowID x) DTP_FLAG_CHG (AdvertisedWindow x);
  let hdr_size := align4 hdr_size in
  mwhen (tc_nonce x =? 0)
    (r ← c_rand; ctx ->> tc_nonce := Z.rem r MAX_INT + 1);;
  modpkt packet (set tp_ctx (λ _, ctx));;
  DTPInsertPacket packet (hdr_size + NONCE_SIZE) hdr_size;;
  DTPSendPacket (tc_sock x)
    (DTPGeneratePacket packet (λ n, x ← getctx ctx; from_local (le32 (u32 (tc_nonce x))) n))
    (hdr_size + NONCE_SIZE) addr (Some ctx);;
  AddToFreePacketList packet.

(** HMAC_key(nonce); the key object is the whole array [tc_key]. *)
Definition nonce_hmac (x : dtp_context) : bytes :=
  env_hmac_sha1 (tc_key x) (le32 (u32 (tc_nonce x))).

Definition SendRSPPacket (ctx : Z) : M unit :=
  x ← getctx ctx;
  let hmac := nonce_hmac x in
  packet ← DTPGetIdlePacket;
  hdr_size ← generate_header packet 0 0 (tc_flowID x) DTP_FLAG_RSP (AdvertisedWindow x);
  let hdr_size := align4 hdr_size in
  modpkt packet (set tp_ctx (λ _, ctx));;
  DTPInsertPacket packet (hdr_size + SHA1_DIGEST_LENGTH) hdr_size;;
  DTPSendPacket (tc_sock x) (DTPGeneratePacket packet (from_local hmac))
    (hdr_size + SHA1_DIGEST_LENGTH) (tc_peerAddr x) (Some ctx);;
  AddToFreePacketList packet.
End env.

(** ** What a send does on a working network

    [NetUp]: the kernel takes every datagram, possibly after some EAGAIN.  What
    the network does with it afterwards (loss, duplication, reordering) is not
    restricted. *)

Class NetUp (env : Env) : Prop :=
  net_up : ∀ k, ∃ n l, env_send k = replicate n (SendErr EAGAIN) ++ SendOK :: l.

Section net.
Context {env : Env} {up : NetUp env}.

Lemma io_send_loop n l sock (data : M bytes) d len addr ctx (Q : Z → world → Prop) w :
  (∀ w', io_frame w w' → data w' = Ok (d, w')) → zlen d = len →
  (∀ w', io_frame w w' → w_sent w' = w_sent w ++ [mk_datagram sock addr d] → Q len w') →
  wp (send_loop (replicate n (SendErr EAGAIN) ++ SendOK :: l) sock data len addr ctx) Q w.
Proof.
  revert w. induction n as [|n IH]; intros w Hd Hl HQ; simpl.
  - apply wp_bind. eapply run_wp; [by apply Hd|]. apply wp_bind, wp_modify.
    rewrite Hl, Z.eqb_refl. apply wp_ret, HQ; [solve_io|done].
  - apply wp_bind, io_set_errno. intros w1 H1 S1 _. apply IH; [|done|].
    + intros w2 H2. apply Hd. by etrans.
    + intros w2 H2 S2. apply HQ; [by etrans|]. by rewrite S2, S1.
Qed.

Lemma io_send sock (data : M bytes) d len addr ctx (Q : Z → world → Prop) w :
  (∀ w', io_frame w w' → data w' = Ok (d, w')) → zlen d = len →
  (∀ w', io_frame w w' → w_sent w' = w_sent w ++ [mk_datagram sock addr d] → Q len w') →
  wp (DTPSendPacket sock data len addr ctx) Q w.
Proof.
  intros Hd Hl HQ. apply wp_bind, wp_gets. apply wp_bind, wp_modify.
  destruct (net_up (w_nsend w)) as (n & l & ->).
  assert (H0 : io_frame w (w <| w_nsend ::= S |>)) by (solve_io).
  eapply io_send_loop; [|done|].
  - intros w1 H1. apply Hd. by etrans.
  - intros w1 H1 S1. apply HQ; [by etrans|done].
Qed.

(** The header a control packet of a connection carries. *)
Definition control_header (x : dtp_context) (h0 : bytes) (flags : Z) : bytes :=
  zslice 0 DTPHDRSIZE (DTPGenerateHeader h0 (tc_lastByteSent x) (GetAckNumber x) (tc_flowID x)
                         flags (AdvertisedWindow x)).1.

Lemma io_send_header c x h0 flags (Q : Z → world → Prop) w :
  ctx_at w c = Some x → zlen h0 = DTPHDRSIZE →
  (∀ w', io_frame w w' →
     w_sent w' = w_sent w ++ [mk_datagram (tc_sock x) (tc_peerAddr x) (control_header x h0 flags)] →
     Q DTPHDRSIZE w') →
  wp (send_header c h0 flags) Q w.
Proof.
  intros Hx Hl HQ. apply wp_bind. eapply wp_getctx; [done|].
  unfold control_header in HQ.
  pose proof (zlen_GenerateHeader h0 (tc_lastByteSent x) (GetAckNumber x) (tc_flowID x) flags
                (AdvertisedWindow x)) as Hz.
  assert (Hsz : (DTPGenerateHeader h0 (tc_lastByteSent x) (GetAckNumber x) (tc_flowID x) flags
                (AdvertisedWindow x)).2 = DTPHDRSIZE) by done.
  destruct (DTPGenerateHeader _ _ _ _ _ _) as [h n]. cbn [fst snd] in *. subst n.
  change (align4 DTPHDRSIZE) with DTPHDRSIZE.
  assert (Hb : DTPHDRSIZE ≤ zlen h) by (rewrite Hz; lia).
  eapply io_send; [| |done].
  - intros w' _. unfold from_local, block_read.
    by rewrite (proj2 (in_block_spec _ _ _)) by (unfold DTPHDRSIZE in *; lia).
  - apply zlen_slice; unfold DTPHDRSIZE in *; lia.
Qed.

Lemma io_send_ack c x (Q : Z → world → Prop) w :
  ctx_at w c = Some x →
  (∀ w', io_frame w w' →
     w_sent w' = w_sent w ++ [mk_datagram (tc_sock x) (tc_peerAddr x)
                                (control_header x (zeros DTPHDRSIZE) DTP_FLAG_ACK)] →
     Q DTPHDRSIZE w') →
  wp (DTPSendACKPacket c) Q w.
Proof.
  intros Hx HQ. unfold DTPSendACKPacket.
  apply (io_send_header c x (zeros DTPHDRSIZE) DTP_FLAG_ACK); [exact Hx|reflexivity|exact HQ].
Qed.
End net.

Lemma window_nonneg x : 0 ≤ AdvertisedWindow x.
Proof. unfold AdvertisedWindow. apply Z.shiftr_nonneg. unfold GetAvailReadBufSize. apply u32_range. Qed.

(** What a control packet acknowledges. *)
Lemma control_header_read x flags :
  is_u32 (tc_lastByteSent x) → is_u32 (tc_flowID x) →
  let h := control_header x (zeros DTPHDRSIZE) flags in
  zlen h = DTPHDRSIZE ∧
  read_header h = sent_header (tc_lastByteSent x) (GetAckNumber x) (tc_flowID x) flags (AdvertisedWindow x) DTPHDRSIZE.
Proof.
  intros Hs Hf h. pose proof (window_nonneg x) as Hwin.
  pose proof (header_roundtrip (zeros DTPHDRSIZE) (tc_lastByteSent x) (GetAckNumber x) (tc_flowID x) flags
    (AdvertisedWindow x) ltac:(done) Hs (u32_range _) Hf Hwin) as E.
  pose proof (zlen_GenerateHeader (zeros DTPHDRSIZE) (tc_lastByteSent x) (GetAckNumber x) (tc_flowID x) flags
    (AdvertisedWindow x) ltac:(done)) as Hl.
  split; [unfold h, control_header; apply zlen_slice; [done..|by rewrite Hl]|]. rewrite <- E.
  unfold h, control_header. rewrite <- (app_nil_r (zslice _ _ _)). apply read_header_prefix. by rewrite Hl.
Qed.

Lemma control_header_ack x flags :
  is_u32 (tc_lastByteSent x) → is_u32 (tc_flowID x) →
  let h := control_header x (zeros DTPHDRSIZE) flags in
  GetAckNum h = GetAckNumber x ∧ is_u16 (GetRcvdWindow h).
Proof.
  intros Hs Hf h. destruct (control_header_read x flags Hs Hf) as [_ Eh]. fold h in Eh.
  unfold read_header, sent_header in Eh. injection Eh as _ _ E3 E4 _ _ _ _ _ _ _ _.
  pose proof (window_nonneg x). split; [exact E3|]. rewrite E4. unfold is_u16. lia.
Qed.
