(* ===== verification/Scenario.v ===== *)
(** * A concrete host

    A host whose clock ticks once per reading, whose network takes every datagram
    at once and whose cryptographic functions are simple stand-ins, with one
    established connection that has not transferred any data yet.  The theorems
    of the library are applied to it, and its runs are computed. *)

From S2P Require Import Prelude Double Header Context World ContextTable Pools RetransQueue.
From S2P Require Import Select Congestion Lifecycle Send.

(** Digests: 20 bytes that depend on the input. *)
Definition toy_digest (b : bytes) : bytes :=
  le32 (foldr (λ x s, u32 (31 * s + x + 7)) 17 b) ++ zslice 0 16 (b ++ zeros 16).

#[export] Instance quiet_env : Env := {|
  env_clock := λ k, mk_timeval (1000 + Z.of_nat k) 0;
  env_send := λ _, [SendOK];
  env_rand := λ k, (17 * (Z.of_nat k + 3)) mod 2 ^ 31;
  env_random := λ k, mk_rand (20, 21, 22) [RdData (zeros 8); RdErr 11] [RdData (zeros 256)];
  env_socket := λ k, 5 + Z.of_nat k;
  env_bind := λ _, [true];
  env_setiface := λ _ _, false;
  env_sha1 := toy_digest;
  env_hmac_sha1 := λ key d, toy_digest (key ++ d);
  env_rsa_public_encrypt := λ _ _ d _, Some d;
  env_rsa_private_decrypt := λ d, Some d;
  env_rsa_n := zeros 256; env_rsa_e := [1; 0; 1];
  env_mac := [2; 0; 0; 0; 0; 1]; env_pid := 4242;
  env_junk := [];
  env_wait := λ _ _ w, w |}.

#[export] Instance quiet_up : NetUp quiet_env.
Proof. intros k. by exists 0%nat, []. Qed.

Definition peer_addr : sockaddr_in := mk_addr 2 80 3232235777 0.
Definition other_addr : sockaddr_in := mk_addr 2 81 3232235778 0.

(** Socket 5, established and non-blocking (O_NONBLOCK is 2048). *)
Definition conn : dtp_context :=
  (DTPSlowStart ((init_ctx 5 (mk_timeval 990 0) (mk_timeval 991 0))
    <| tc_readBufLen := DEF_READ_BUFLEN |> <| tc_readBuf := Some (zeros DEF_READ_BUFLEN) |>
    <| tc_writeBufLen := DEF_WRITE_BUFLEN |> <| tc_writeBuf := Some (zeros DEF_WRITE_BUFLEN) |>))
  <| tc_state := SOCK_ESTABLISHED |> <| tc_peerAddr := peer_addr |> <| tc_flowID := 77 |>
  <| tc_onFlowIDMap := true |> <| tc_fstatus := 2048 |>
  <| tc_hostID := toy_digest [9] |> <| tc_key := zeros RSA_LEN |> <| tc_keyLen := 16 |>.

(** The host when its connection is [x]. *)
Definition host (x : dtp_context) : world := zero_world
  <| w_batches := {[0]} |> <| w_ctxs := {[5 := x]} |> <| w_FlowIDMapBins := {[77 := [5]]} |>
  <| w_retTimerQ := [5] |> <| w_fds := {[5]} |>.

Lemma host_ctx x : ctx_at (host x) 5 = Some x.
Proof. done. Qed.

Lemma host_other x c y : c ≠ 5 → ctx_at (host x) c = Some y → y = zero_ctx.
Proof.
  intros Hc. unfold ctx_at, host. cbn. case_bool_decide; [|done].
  rewrite lookup_singleton_ne by done. by intros [= <-].
Qed.

Lemma host_pools x : pkt_pool_ok (host x) ∧ buf_pool_ok (host x).
Proof.
  split; constructor; cbn; try done; try set_solver; try apply NoDup_nil_2;
    intros p; rewrite lookup_empty; by intros [? ?].
Qed.

(** Closed facts about the numbers of the scenario. *)
Ltac eval_facts := vm_compute; repeat split; (reflexivity || discriminate).

Lemma conn_cc : cc_ok conn.
Proof. constructor; eval_facts. Qed.

Lemma conn_positions :
  tc_lastByteAcked conn = 0 ∧ tc_lastByteSent conn = 0 ∧ tc_lastByteWritten conn = 0 ∧
  tc_lastByteRead conn = 0 ∧ tc_nextByteExpected conn = 0 ∧ tc_readBufLen conn = 32768 ∧
  tc_writeBufLen conn = 32768.
Proof. eval_facts. Qed.
