(* ===== verification/Services.v ===== *)
(** * What the tables, pools and queues promise

    The flow-ID map, the packet pool, the retransmission queue, the readiness sets
    and congestion control, each as a sequence of its operations: what was put in
    is found again, nothing is handed out twice, a sleeping [dtp_select] is woken. *)

From S2P Require Import Prelude Double Header Context World ContextTable Pools RetransQueue.
From S2P Require Import Select Congestion Lifecycle Send Scenario.
From Stdlib Require Import Sorting.Sorted.

(** ** The flow-ID map *)

(** C33: Insertion into the flow-ID map.  After a context is registered under a flow
    ID that no context has, looking up that ID gives it, and every other lookup
    gives what it gave before; the hash table stays well formed. *)
Theorem flow_map_insert_lookup w fid c x fid' :
  flowmap_ok w → ctx_at w c = Some x → tc_flowID x = fid → tc_onFlowIDMap x = false →
  (∀ c', ¬ on_map w c' fid) →
  wp (DTPAddContextToFlowIDMap fid c;; DTPGetContextByFlowID fid') (λ r w', flowmap_ok w' ∧
    if decide (fid' = fid) then r = Some c else ∀ c', r = Some c' ↔ on_map w c' fid') w.
Proof.
  intros Hm Hx Hf Hn Hno. apply wp_bind. eapply wp_mono; [by eapply DTPAddContextToFlowIDMap_spec|].
  intros _ w1 [Hm1 Hon]. eapply wp_mono; [by apply DTPGetContextByFlowID_spec|].
  intros r w2 [-> Hr]. split; [done|]. case_decide as E.
  - apply Hr, Hon. auto.
  - intros c'. rewrite Hr, Hon. naive_solver.
Qed.

(** Removal from the flow-ID map.  After a context is removed its flow ID is not
    found, and every lookup that gave another context gives it still. *)
Lemma flow_map_remove_lookup w c x fid' :
  flowmap_ok w → ctx_at w c = Some x →
  wp (DTPRemoveContextFromFlowIDMap c;; DTPGetContextByFlowID fid') (λ r w', flowmap_ok w' ∧
    ∀ c', r = Some c' ↔ on_map w c' fid' ∧ c' ≠ c) w.
Proof.
  intros Hm Hx. apply wp_bind. eapply wp_mono; [by eapply DTPRemoveContextFromFlowIDMap_spec|].
  intros _ w1 (Hm1 & Hon & _). eapply wp_mono; [by apply DTPGetContextByFlowID_spec|].
  intros r w2 [-> Hr]. split; [done|]. intros c'. by rewrite Hr, Hon.
Qed.

(** ** The packet pool *)

(** The packet pool never hands out a packet twice.  Two packets taken in a row
    are different, were not in use before and are in use afterwards; packets in use
    keep their contents, also when the pool has to grow. *)
Lemma idle_packets_distinct w :
  pkt_pool_ok w →
  wp (p ← DTPGetIdlePacket; q ← DTPGetIdlePacket; mret (p, q)) (λ r w', pkt_pool_ok w' ∧ r.1 ≠ r.2 ∧
    (∀ p, p = r.1 ∨ p = r.2 → is_Some (w_pkts w' !! p) ∧ p ∉ w_freePacketList w' ∧
                              (p ∈ w_freePacketList w ∨ w_pkts w !! p = None)) ∧
    w_pkts w ⊆ w_pkts w') w.
Proof.
  intros Hp. apply wp_bind. eapply wp_mono; [by apply DTPGetIdlePacket_spec|].
  intros p w1 (P1 & [_ S1 _] & [k Hk] & Hf1 & Hn1 & Hl1).
  apply wp_bind. eapply wp_mono; [by apply DTPGetIdlePacket_spec|].
  intros q w2 (P2 & [_ S2 _] & Hq & Hf2 & Hn2 & Hl2). apply wp_ret. cbn.
  assert (Hpq : p ≠ q) by (intros ->; destruct Hn2; [done|congruence]).
  split_and!; [done|done| |by etrans]. intros r [-> | ->].
  - split_and!; [exists k; by eapply lookup_weaken| |done]. intros Hin.
    destruct (Hl2 _ Hin); [done|congruence].
  - split_and!; [done|done|]. destruct Hn2 as [Hin|Hno]; [by apply Hl1|right].
    destruct (w_pkts w !! q) eqn:E; [|done]. rewrite (lookup_weaken _ _ _ _ E S1) in Hno. done.
Qed.

(** ** The retransmission queue *)

Lemma NoDup_middle_eq {A} (c : A) l1 l2 m1 m2 :
  NoDup (l1 ++ c :: l2) → l1 ++ c :: l2 = m1 ++ c :: m2 → m1 = l1 ∧ m2 = l2.
Proof.
  revert m1. induction l1 as [|a l1 IH]; intros [|b m1]; simpl; intros [Hn Hnd]%NoDup_cons E; simplify_eq.
  - done.
  - exfalso. apply Hn. set_solver.
  - exfalso. apply Hn. set_solver.
  - by destruct (IH m1) as [-> ->].
Qed.

(** C34: The retransmission queue is ordered, and removal undoes insertion.  After a
    connection is inserted the queue is sorted by deadline and holds exactly it and
    the others; removing it again gives the queue of before. *)
Theorem queue_insert_remove w c x :
  retq_ok w → ctx_at w c = Some x → c ∉ w_retTimerQ w →
  wp (InsertToRetransQueue c) (λ _ w1,
    StronglySorted (earlier w1) (w_retTimerQ w1) ∧ (∀ c', c' ∈ w_retTimerQ w1 ↔ c' = c ∨ c' ∈ w_retTimerQ w) ∧
    wp (RemoveFromRetransQueue c) (λ _ w2, w_retTimerQ w2 = w_retTimerQ w ∧ retq_ok w2) w1) w.
Proof.
  intros Hq Hx Hn. eapply wp_mono; [by eapply InsertToRetransQueue_spec|].
  intros _ w1 (Hq1 & l1 & l2 & E & -> & _ & _). split_and!.
  - apply Hq1.
  - intros c'. cbn. rewrite E. set_solver.
  - eapply wp_mono; [apply RemoveFromRetransQueue_spec; [done|cbn; set_solver]|].
    intros _ w2 (Hq2 & m1 & m2 & Em & ->). split; [|done]. cbn in Em |- *. rewrite E.
    pose proof (rq_nodup _ Hq1) as Hnd. cbn in Hnd.
    by destruct (NoDup_middle_eq c _ _ _ _ Hnd Em) as [-> ->].
Qed.

(** ** Readiness *)

(** The scan of [dtp_select] reports exactly the ready descriptors.  Below
    [nfds] the returned sets hold the descriptors that were asked for and are
    pending, from [nfds] on they are untouched; the count is the number of ready
    descriptors of both sets. *)
Lemma select_scan_exact w nfds rd wr :
  0 ≤ nfds ≤ FD_SETSIZE_S →
  wp (DTPSelectCheckAnyPendingEvent nfds (Some rd) (Some wr)) (λ r w', w' = w ∧
    ∃ rd' wr', r.1.2 = Some rd' ∧ r.2 = Some wr' ∧
      (∀ fd, fd ∈ rd' ↔ fd ∈ rd ∧ (0 ≤ fd < nfds → fd ∈ w_rfds w)) ∧
      (∀ fd, fd ∈ wr' ↔ fd ∈ wr ∧ (0 ≤ fd < nfds → fd ∈ w_wfds w)) ∧
      r.1.1 = Z.of_nat (size (ready 0 nfds (w_rfds w) rd)) + Z.of_nat (size (ready 0 nfds (w_wfds w) wr))) w.
Proof.
  intros Hn. eapply wp_mono; [by apply DTPSelectCheckAnyPendingEvent_spec|]. intros r w' [-> ->]. split; [done|].
  eexists _, _. split_and!; [done|done| | |done]; intros fd; unfold kept; rewrite elem_of_filter; tauto.
Qed.

(** No wake-up is lost while [dtp_select] sleeps.  After it registered its sets,
    an event on one of its descriptors marks the descriptor pending and writes one
    event to the socket [dtp_select] blocks on; it is woken once. *)
Lemma sleeping_select_woken w nfds rd wr sock rw :
  0 ≤ sock < FD_SETSIZE_S → sock < nfds → rw = DTP_FD_READ ∨ rw = DTP_FD_WRITE →
  sock ∈ (if rw =? DTP_FD_READ then rd else wr) →
  wp (DTPSelectInit nfds rd wr;; DTPSelectEventSet sock rw) (λ _ w', sock ∈ pending_set rw w' ∧
    w_isselectWaiting w' = false ∧
    events_at w' (w_select_sock w) = events_at w (w_select_sock w) ++ [mk_event sock rw]) w.
Proof.
  intros Hs Hn Hrw Hin. apply wp_bind, wp_modify. set (w1 := set w_isselectWaiting _ _).
  assert (Hwake : must_wake sock rw w1 = true).
  { unfold must_wake, watched_set, w1. cbn. rewrite (proj2 (Z.ltb_lt _ _)) by done.
    destruct (rw =? DTP_FD_READ); by apply bool_decide_eq_true_2. }
  eapply wp_mono; [by apply DTPSelectEventSet_spec|]. intros _ w2 (Hp & Hw & He). rewrite Hwake in *.
  split_and!; [rewrite Hp; set_solver|done|]. rewrite He. by rewrite decide_True.
Qed.

(** A wake-up is lost in the window before [dtp_select] sleeps.  When an event
    comes after the scan found nothing and before the sets are registered, no event
    is written: [dtp_select] goes to sleep although the descriptor is pending. *)
Lemma wakeup_lost_before_sleep w nfds rd wr sock rw :
  0 ≤ sock < FD_SETSIZE_S → rw = DTP_FD_READ ∨ rw = DTP_FD_WRITE → w_isselectWaiting w = false →
  wp (DTPSelectEventSet sock rw;; DTPSelectInit nfds rd wr) (λ _ w', sock ∈ pending_set rw w' ∧
    w_isselectWaiting w' = true ∧ ∀ k, events_at w' k = events_at w k) w.
Proof.
  intros Hs Hrw Hnw. apply wp_bind. eapply wp_mono; [by apply DTPSelectEventSet_spec|].
  intros _ w1 (Hp & Hw & He). apply wp_modify. unfold must_wake in He. rewrite Hnw, andb_false_r in He.
  split_and!; [|done|].
  - unfold pending_set in *. cbn. rewrite Hp. set_solver.
  - intros k. change (events_at w1 k = events_at w k). by rewrite He, app_nil_r.
Qed.

(** ** Congestion control *)

(** What happens to the window of a connection. *)
Inductive cc_event := CAcked (n : Z) | CDuplicate | CTimeout.

Definition cc_step (ev : cc_event) (x : dtp_context) : res dtp_context :=
  match ev with
  | CAcked n => MoveCongestionWindow x n
  | CDuplicate => Ok (CongestionAvoidance x)
  | CTimeout => Ok (TimeoutSlowStart x)
  end.

Fixpoint cc_run (evs : list cc_event) (x : dtp_context) : res dtp_context :=
  match evs with
  | [] => Ok x
  | ev :: evs => x ← cc_step ev x; cc_run evs x
  end.

Definition cc_valid (buflen : Z) (ev : cc_event) : Prop :=
  match ev with CAcked n => 0 ≤ n ≤ buflen | _ => True end.

Lemma cc_step_spec ev x :
  cc_ok x → cc_valid (tc_writeBufLen x) ev →
  ∃ x', cc_step ev x = Ok x' ∧ cc_ok x' ∧ tc_writeBufLen x' = tc_writeBufLen x.
Proof.
  intros Hok Hv. destruct (loss_spec x Hok) as (H1 & H2 & _ & _). destruct ev as [n| |]; simpl.
  - destruct (MoveCongestionWindow_spec x n Hok Hv) as (c & -> & Hc & _). eexists. split_and!; [done| |done].
    destruct Hok. constructor; cbn; try done. seg_lia.
  - eexists. split_and!; [done|done|]. unfold CongestionAvoidance. by case_match.
  - eexists. split_and!; [done|done|]. unfold TimeoutSlowStart. by case_match.
Qed.

(** C36: The congestion window stays in bounds.  Over any sequence of
    acknowledgements, duplicate acknowledgements and timeouts the update functions
    never divide by zero or overflow an [int]; the window stays between one segment
    and twice the write buffer plus four segments.  The state one starts from
    ([cc_ok]) is within these bounds, with a write buffer whose length is bounded too. *)
Theorem cwnd_in_bounds x evs :
  cc_ok x → Forall (cc_valid (tc_writeBufLen x)) evs →
  ∃ x', cc_run evs x = Ok x' ∧ cc_ok x' ∧
    MAX_PAYLOAD ≤ tc_cwnd x' ≤ 2 * tc_writeBufLen x + 4 * MAX_PAYLOAD.
Proof.
  revert x. induction evs as [|ev evs IH]; intros x Hok Hv.
  - exists x. split_and!; [done|done|apply Hok..].
  - apply Forall_cons in Hv as [He Hv]. destruct (cc_step_spec ev x Hok He) as (x1 & E1 & Hok1 & Hl).
    rewrite <- Hl in Hv |- *. destruct (IH x1 Hok1 Hv) as (x2 & E2 & H2). exists x2. split; [|done].
    simpl. by rewrite E1.
Qed.

(** ** The scenario *)

Lemma host_flowmap_of x : tc_flowID x = 77 → tc_onFlowIDMap x = true → flowmap_ok (host x).
Proof.
  intros Hf Ho. assert (H77 : HASH_TO_FIDMAP_BIN 77 = 77) by (vm_compute; reflexivity).
  assert (Hbin : ∀ idx c, c ∈ fid_bin (host x) idx → idx = 77 ∧ c = 5).
  { intros idx c. unfold fid_bin. cbn. destruct (decide (idx = 77)) as [->|Hne].
    - rewrite lookup_singleton_eq. cbn. intros ->%list_elem_of_singleton. done.
    - rewrite lookup_singleton_ne by done. by intros ?%elem_of_nil. }
  constructor.
  - intros idx c [-> ->]%Hbin. exists x. split_and!; [apply host_ctx|done|by rewrite Hf].
  - intros idx. unfold fid_bin. cbn. destruct (decide (idx = 77)) as [->|Hne].
    + rewrite lookup_singleton_eq. apply NoDup_singleton.
    + rewrite lookup_singleton_ne by done. constructor.
  - intros c y Hy Hfl. destruct (decide (c = 5)) as [->|Hc].
    + rewrite host_ctx in Hy. injection Hy as <-. rewrite Hf, H77. by left.
    + by rewrite (host_other x c y Hc Hy) in Hfl.
  - intros c c' fid (_ & _ & _ & H1%Hbin) (_ & _ & _ & H2%Hbin). destruct H1 as [_ ->], H2 as [_ ->]. done.
Qed.

Lemma host_flowmap : flowmap_ok (host conn).
Proof. apply host_flowmap_of; vm_compute; reflexivity. Qed.

Example flow_map_remove_lookup_witness :
  wp (DTPRemoveContextFromFlowIDMap 5;; DTPGetContextByFlowID 77) (λ r w', flowmap_ok w' ∧
    ∀ c', r = Some c' ↔ on_map (host conn) c' 77 ∧ c' ≠ 5) (host conn).
Proof. apply (flow_map_remove_lookup (host conn) 5 conn); [apply host_flowmap|reflexivity]. Defined.

Example flow_map_insert_lookup_witness :
  wp (DTPAddContextToFlowIDMap 0 6;; DTPGetContextByFlowID 77) (λ r w', flowmap_ok w' ∧
    if decide (77 = 0) then r = Some 6 else ∀ c', r = Some c' ↔ on_map (host conn) c' 77) (host conn).
Proof.
  apply (flow_map_insert_lookup (host conn) 0 6 zero_ctx); [apply host_flowmap|reflexivity..|].
  intros c' (_ & _ & _ & Hin). cbn in Hin. by apply elem_of_nil in Hin.
Defined.

Example idle_packets_distinct_witness :
  wp (p ← DTPGetIdlePacket; q ← DTPGetIdlePacket; mret (p, q)) (λ r w', pkt_pool_ok w' ∧ r.1 ≠ r.2 ∧
    (∀ p, p = r.1 ∨ p = r.2 → is_Some (w_pkts w' !! p) ∧ p ∉ w_freePacketList w' ∧
       (p ∈ w_freePacketList (host conn) ∨ w_pkts (host conn) !! p = None)) ∧
    w_pkts (host conn) ⊆ w_pkts w') (host conn).
Proof. apply idle_packets_distinct, host_pools. Defined.

Lemma host_queue x : retq_ok (host x).
Proof.
  constructor; [done| | |apply NoDup_singleton].
  - constructor; constructor.
  - intros c ->%list_elem_of_singleton. by exists x.
Qed.

Example queue_insert_remove_witness :
  wp (InsertToRetransQueue 6) (λ _ w1,
    StronglySorted (earlier w1) (w_retTimerQ w1) ∧
    (∀ c', c' ∈ w_retTimerQ w1 ↔ c' = 6 ∨ c' ∈ w_retTimerQ (host conn)) ∧
    wp (RemoveFromRetransQueue 6) (λ _ w2, w_retTimerQ w2 = w_retTimerQ (host conn) ∧ retq_ok w2) w1) (host conn).
Proof.
  apply (queue_insert_remove (host conn) 6 zero_ctx); [apply host_queue|reflexivity|].
  by intros ?%list_elem_of_singleton.
Defined.

Example select_scan_exact_witness :
  wp (DTPSelectCheckAnyPendingEvent 10 (Some {[5; 6]}) (Some ∅)) (λ r w', w' = host conn ∧
    ∃ rd' wr', r.1.2 = Some rd' ∧ r.2 = Some wr' ∧
      (∀ fd, fd ∈ rd' ↔ fd ∈ ({[5; 6]} : gset Z) ∧ (0 ≤ fd < 10 → fd ∈ w_rfds (host conn))) ∧
      (∀ fd, fd ∈ wr' ↔ fd ∈ (∅ : gset Z) ∧ (0 ≤ fd < 10 → fd ∈ w_wfds (host conn))) ∧
      r.1.1 = Z.of_nat (size (ready 0 10 (w_rfds (host conn)) {[5; 6]}))
              + Z.of_nat (size (ready 0 10 (w_wfds (host conn)) ∅))) (host conn).
Proof. apply select_scan_exact. vm_compute. by split. Defined.

Example sleeping_select_woken_witness :
  wp (DTPSelectInit 10 {[5]} ∅;; DTPSelectEventSet 5 DTP_FD_READ) (λ _ w', 5 ∈ pending_set DTP_FD_READ w' ∧
    w_isselectWaiting w' = false ∧ events_at w' (w_select_sock (host conn))
      = events_at (host conn) (w_select_sock (host conn)) ++ [mk_event 5 DTP_FD_READ]) (host conn).
Proof. apply sleeping_select_woken; [by vm_compute|lia|by left|]. set_solver. Defined.

Example wakeup_lost_before_sleep_witness :
  wp (DTPSelectEventSet 5 DTP_FD_READ;; DTPSelectInit 10 {[5]} ∅) (λ _ w', 5 ∈ pending_set DTP_FD_READ w' ∧
    w_isselectWaiting w' = true ∧ ∀ k, events_at w' k = events_at (host conn) k) (host conn).
Proof. apply wakeup_lost_before_sleep; [by vm_compute|by left|done]. Defined.

Example cwnd_in_bounds_witness :
  ∃ x', cc_run [CAcked 1452; CDuplicate; CAcked 2904; CTimeout; CAcked 0] conn = Ok x' ∧ cc_ok x' ∧
    MAX_PAYLOAD ≤ tc_cwnd x' ≤ 2 * tc_writeBufLen conn + 4 * MAX_PAYLOAD.
Proof. apply cwnd_in_bounds; [apply conn_cc|]. repeat constructor; eval_facts. Defined.
