(* ===== verification/Intervals.v ===== *)
(** * Interval lists

    The abstract view of the receive side: an increasing list of disjoint,
    non-touching half-open intervals [(s, e)] of stream positions.  [ins]
    records one more interval, merging it with those it touches; it is the
    specification of the pointer code of [HandleNormalPacket]. *)

From S2P Require Import Prelude.

Abbreviation interval := (Z * Z)%type (only parsing).

(** [gapped lo l]: the intervals of [l] are not empty, start at [lo] or later, and
    leave a gap between each other. *)
Fixpoint gapped (lo : Z) (l : list interval) : Prop :=
  match l with
  | [] => True
  | (s, e) :: l => lo ≤ s ∧ s < e ∧ gapped (e + 1) l
  end.

Definition covered (l : list interval) (p : Z) : Prop := ∃ s e, (s, e) ∈ l ∧ s ≤ p < e.

(** The number of positions a list covers. *)
Fixpoint total (l : list interval) : Z :=
  match l with [] => 0 | (s, e) :: l => (e - s) + total l end.

(** The end of the last interval, [d] for an empty list. *)
Fixpoint last_end (d : Z) (l : list interval) : Z :=
  match l with [] => d | (_, e) :: l => last_end e l end.

Fixpoint ins (a b : Z) (l : list interval) : list interval :=
  match l with
  | [] => [(a, b)]
  | (s, e) :: l =>
    if b <? s then (a, b) :: (s, e) :: l
    else if e <? a then (s, e) :: ins a b l
    else ins (a `min` s) (b `max` e) l
  end.

(** How much of the new interval was already recorded. *)
Fixpoint ins_overlap (a b : Z) (l : list interval) : Z :=
  match l with
  | [] => 0
  | (s, e) :: l =>
    if b <? s then 0
    else if e <? a then ins_overlap a b l
    else (b `min` e - a `max` s) + ins_overlap (a `min` s) (b `max` e) l
  end.

Lemma gapped_weaken lo lo' l : lo' ≤ lo → gapped lo l → gapped lo' l.
Proof. destruct l as [|[s e] l]; simpl; [done|]. intros ? (? & ? & ?). split_and!; [lia|done..]. Qed.

Lemma covered_nil p : ¬ covered [] p.
Proof. by intros (? & ? & ?%elem_of_nil & _). Qed.

Lemma covered_cons s e l p : covered ((s, e) :: l) p ↔ s ≤ p < e ∨ covered l p.
Proof.
  unfold covered. split.
  - intros (s' & e' & [[= -> ->]|?]%elem_of_cons & ?); [by left|right; eauto].
  - intros [?|(s' & e' & ? & ?)]; [exists s, e|exists s', e']; (split; [|done]); [left|by right].
Qed.

Lemma gapped_covered lo l p : gapped lo l → covered l p → lo ≤ p.
Proof.
  revert lo. induction l as [|[s e] l IH]; intros lo; [by intros _ ?%covered_nil|].
  simpl. intros (? & ? & Hg) [?|Hc]%covered_cons; [lia|]. specialize (IH _ Hg Hc). lia.
Qed.

Lemma ins_gapped lo a b l : gapped lo l → lo ≤ a → a < b → gapped lo (ins a b l).
Proof.
  revert lo a b. induction l as [|[s e] l IH]; intros lo a b; simpl; [lia|].
  intros (? & ? & Hg) ? ?. case_cmp; simpl.
  - split_and!; (done || lia).
  - split_and!; [lia|lia|]. apply IH; [done|lia|lia].
  - apply IH; [by eapply gapped_weaken; [|done]; lia|lia|lia].
Qed.

Lemma ins_covered lo a b l p :
  gapped lo l → a < b → covered (ins a b l) p ↔ covered l p ∨ a ≤ p < b.
Proof.
  revert lo a b. induction l as [|[s e] l IH]; intros lo a b; simpl.
  - intros _ ?. rewrite covered_cons. pose proof (covered_nil p). tauto.
  - intros (? & ? & Hg) ?. case_cmp; rewrite ?covered_cons.
    + tauto.
    + rewrite (IH (e + 1)) by (done || lia). tauto.
    + rewrite (IH (e + 1)) by (done || lia).
      assert (a `min` s ≤ p < b `max` e ↔ s ≤ p < e ∨ a ≤ p < b) by lia. tauto.
Qed.

Lemma ins_total a b l : total (ins a b l) = total l + (b - a) - ins_overlap a b l.
Proof.
  revert a b. induction l as [|[s e] l IH]; intros a b; simpl; [lia|].
  case_cmp; simpl; [lia|rewrite IH; lia|rewrite IH; lia].
Qed.

Lemma ins_overlap_nonneg lo a b l : gapped lo l → a < b → 0 ≤ ins_overlap a b l.
Proof.
  revert lo a b. induction l as [|[s e] l IH]; intros lo a b; simpl; [lia|].
  intros (? & ? & Hg) ?. case_cmp; [lia|by eapply IH|].
  assert (0 ≤ ins_overlap (a `min` s) (b `max` e) l) by (eapply IH; [done|lia]). lia.
Qed.

Lemma last_end_gapped lo d l : gapped lo l → d < lo → d ≤ last_end d l.
Proof.
  revert lo d. induction l as [|[s e] l IH]; intros lo d; simpl; [lia|].
  intros (? & ? & Hg) ?. assert (e ≤ last_end e l) by (eapply IH; [done|lia]). lia.
Qed.

Lemma covered_last_end lo d l p : gapped lo l → covered l p → p < last_end d l.
Proof.
  revert lo d. induction l as [|[s e] l IH]; intros lo d; [by intros _ ?%covered_nil|].
  simpl. intros (? & ? & Hg) [?|Hc]%covered_cons; [|by eapply IH].
  assert (e ≤ last_end e l) by (eapply last_end_gapped; [done|lia]). lia.
Qed.

(** The new last end. *)
Lemma last_end_ins lo d a b l :
  gapped lo l → a < b → last_end d (ins a b l) = b `max` last_end b l.
Proof.
  revert lo d a b. induction l as [|[s e] l IH]; intros lo d a b; simpl; [lia|].
  intros (? & ? & Hg) ?. assert (e ≤ last_end e l) by (eapply last_end_gapped; [done|lia]).
  case_cmp; simpl.
  - lia.
  - rewrite (IH (e + 1)) by (done || lia). destruct l as [|[s' e'] l]; simpl in *; lia.
  - rewrite (IH (e + 1)) by (done || lia). destruct l as [|[s' e'] l]; simpl in *; lia.
Qed.

(** The first interval of [ins]. *)
Lemma ins_head lo a b l :
  gapped lo l → a < b → ∃ e l', ins a b l = (a `min` (match l with [] => a | (s, _) :: _ => s end), e) :: l'.
Proof.
  revert lo a b. induction l as [|[s e] l IH]; intros lo a b; simpl.
  - intros _ ?. rewrite Z.min_id. eauto.
  - intros (? & ? & Hg) ?. case_cmp.
    + rewrite Z.min_l by lia. eauto.
    + rewrite Z.min_r by lia. eauto.
    + destruct (IH (e + 1) (a `min` s) (b `max` e)) as (e' & l' & ->); [done|lia|].
      do 2 eexists. f_equal. f_equal. destruct l as [|[s' e''] l]; simpl in Hg; lia.
Qed.

(** The list is determined by what it covers. *)
Lemma covered_head lo s e l : gapped lo ((s, e) :: l) → covered ((s, e) :: l) s ∧ ¬ covered ((s, e) :: l) e.
Proof.
  simpl. intros (? & ? & Hg). rewrite !covered_cons. split; [lia|].
  intros [?|Hc]; [lia|]. pose proof (gapped_covered _ _ _ Hg Hc). lia.
Qed.

Lemma ins_bounds lo hi a b l :
  (∀ s e, (s, e) ∈ l → lo ≤ s ∧ s < e ∧ e ≤ hi) → lo ≤ a → a < b → b ≤ hi →
  ∀ s e, (s, e) ∈ ins a b l → lo ≤ s ∧ s < e ∧ e ≤ hi.
Proof.
  revert a b. induction l as [|[s0 e0] l IH]; intros a b Hl ? ? ? s e; simpl.
  - intros [= -> ->]%list_elem_of_singleton. lia.
  - assert (lo ≤ s0 ∧ s0 < e0 ∧ e0 ≤ hi) by (apply Hl; left).
    assert (Hl' : ∀ s e, (s, e) ∈ l → lo ≤ s ∧ s < e ∧ e ≤ hi) by (intros; apply Hl; by right).
    case_cmp.
    + intros [[= -> ->]|Hin]%elem_of_cons; [lia|by apply Hl].
    + intros [[= -> ->]|Hin]%elem_of_cons; [lia|]. by apply (IH a b).
    + apply IH; [done|lia..].
Qed.

(** ** The contiguous prefix

    [next_ok R N l]: [N] is the first position from [R] on that is not covered. *)
Definition next_ok (R N : Z) (l : list interval) : Prop :=
  R ≤ N ∧ (∀ p, R ≤ p < N → covered l p) ∧ ¬ covered l N.

(** An interval list whose first interval is [(s, e)]: the next position is the
    end of that interval when it contains the old one. *)
Lemma next_ok_advance R N s e l :
  gapped R ((s, e) :: l) → R ≤ N → (∀ p, R ≤ p < N → covered ((s, e) :: l) p) →
  next_ok R (if bool_decide (s ≤ N < e) then e else N) ((s, e) :: l).
Proof.
  intros Hg HRN Hc. pose proof (covered_head _ _ _ _ Hg) as [_ He]. simpl in Hg. destruct Hg as (? & ? & Hg).
  case_bool_decide as Hin.
  - split_and!; [lia| |done]. intros p Hp. apply covered_cons.
    destruct (decide (p < N)); [by apply covered_cons, Hc; lia|left; lia].
  - split_and!; [done..|]. intros HN. apply Hin. apply covered_cons in HN as [?|HN]; [done|].
    pose proof (gapped_covered _ _ _ Hg HN).
    assert (HR : covered ((s, e) :: l) R).
    { destruct (decide (R < N)); [by apply Hc; lia|]. replace R with N by lia. apply covered_cons. by right. }
    apply covered_cons in HR as [?|HR]; [|pose proof (gapped_covered _ _ _ Hg HR); lia].
    destruct He. destruct (decide (e < N)); [apply Hc; lia|].
    replace e with N by lia. apply covered_cons. by right.
Qed.

(** The first interval is the contiguous prefix. *)
Lemma next_ok_head R N l :
  gapped R l → next_ok R N l → R < N → ∃ l', l = (R, N) :: l'.
Proof.
  intros Hg (_ & Hc & HN) HRN. destruct l as [|[s e] l]; [by destruct (covered_nil R); apply Hc; lia|].
  pose proof (covered_head _ _ _ _ Hg) as [_ He]. simpl in Hg. destruct Hg as (? & ? & Hg).
  assert (s = R) as ->.
  { assert (HR : covered ((s, e) :: l) R) by (apply Hc; lia).
    apply covered_cons in HR as [?|HR]; [lia|]. pose proof (gapped_covered _ _ _ Hg HR). lia. }
  exists l. do 2 f_equal. destruct (Z.lt_trichotomy e N) as [?|[?|?]]; [|done|].
  - destruct He. apply Hc. lia.
  - destruct HN. apply covered_cons. left. lia.
Qed.

Lemma next_ok_mono R N N' l l' :
  next_ok R N l → next_ok R N' l' → (∀ p, covered l p → covered l' p) → N ≤ N'.
Proof.
  intros (HRN & Hc & _) (? & _ & Hn) Hsub. destruct (decide (N ≤ N')); [done|].
  exfalso. apply Hn, Hsub, Hc. lia.
Qed.

Lemma next_ok_weaken R N l l' :
  (∀ p, covered l p → covered l' p) → next_ok R N l → ∀ p, R ≤ p < N → covered l' p.
Proof. intros Hs (_ & Hc & _) p Hp. by apply Hs, Hc. Qed.

(** The end of an interval of the list: it is the last one or another one ends
    later. *)
Lemma last_end_split lo d l1 s e l2 :
  gapped lo (l1 ++ (s, e) :: l2) →
  (l2 = [] → last_end d (l1 ++ (s, e) :: l2) = e) ∧
  (l2 ≠ [] → e < last_end d (l1 ++ (s, e) :: l2)).
Proof.
  revert lo d. induction l1 as [|[s0 e0] l1 IH]; intros lo d; simpl.
  - intros (? & ? & Hg). destruct l2 as [|[s1 e1] l2]; [by split|]. split; [done|]. intros _.
    simpl in *. destruct Hg as (? & ? & Hg).
    assert (e1 ≤ last_end e1 l2) by (eapply last_end_gapped; [done|lia]). lia.
  - intros (? & ? & Hg). by eapply IH.
Qed.

Lemma last_end_cons d d' i l : last_end d (i :: l) = last_end d' (i :: l).
Proof. by destruct i. Qed.

Lemma ins_not_nil a b l : ins a b l ≠ [].
Proof. revert a b. induction l as [|[s e] l IH]; intros a b; simpl; case_cmp; naive_solver. Qed.

(** ** Reading from the front *)

Lemma gapped_in lo l s e : gapped lo l → (s, e) ∈ l → s < e.
Proof.
  revert lo. induction l as [|[s' e'] l IH]; intros lo; simpl; [by intros _ ?%elem_of_nil|].
  intros (? & ? & Hg) [[= -> ->]|?]%elem_of_cons; [done|by eapply IH].
Qed.

(** [trim n l]: the first [n] positions of the first interval are consumed. *)
Definition trim (n : Z) (l : list interval) : list interval :=
  match l with
  | [] => []
  | (s, e) :: l => if e - s =? n then l else (s + n, e) :: l
  end.

Section trim.
Context (R N n : Z) (l : list interval).
Hypothesis (Hg : gapped R ((R, N) :: l)) (Hn : 0 < n ≤ N - R).

Lemma trim_gapped : gapped (R + n) (trim n ((R, N) :: l)).
Proof using Hg Hn.
  simpl in *. destruct Hg as (_ & ? & Hl). destruct (Z.eqb_spec (N - R) n).
  - eapply gapped_weaken; [|done]. lia.
  - split_and!; [lia|lia|done].
Qed.

Lemma trim_covered p : covered (trim n ((R, N) :: l)) p ↔ covered ((R, N) :: l) p ∧ R + n ≤ p.
Proof using Hg Hn.
  simpl in *. destruct Hg as (_ & ? & Hl).
  pose proof (gapped_covered (N + 1) l p Hl) as Hc. rewrite (covered_cons R N).
  destruct (Z.eqb_spec (N - R) n); [|rewrite covered_cons].
  - split; [intros Hp; specialize (Hc Hp); split; [by right|lia]|].
    intros [[?|?] ?]; [lia|done].
  - split.
    + intros [?|Hp]; [split; [left|]; lia|specialize (Hc Hp); split; [by right|lia]].
    + intros [[?|?] ?]; [left; lia|by right].
Qed.

Lemma trim_next : next_ok R N ((R, N) :: l) → next_ok (R + n) N (trim n ((R, N) :: l)).
Proof using Hg Hn.
  intros (? & Hc & HN). split_and!; [lia| |].
  - intros p Hp. apply trim_covered. split; [apply Hc; lia|lia].
  - rewrite trim_covered. tauto.
Qed.

Lemma trim_last : last_end N (trim n ((R, N) :: l)) = last_end N ((R, N) :: l).
Proof using. simpl. by destruct (_ =? _). Qed.

Lemma trim_bounds s e :
  (s, e) ∈ trim n ((R, N) :: l) → R + n ≤ s ∧ s < e ∧ ∃ s', (s', e) ∈ (R, N) :: l.
Proof using Hg Hn.
  intros Hin. assert (Hlt : s < e ∧ ∃ s', (s', e) ∈ (R, N) :: l).
  { simpl in Hin, Hg. destruct Hg as (_ & ? & Hl). destruct (Z.eqb_spec (N - R) n).
    - split; [by eapply gapped_in|exists s; by right].
    - apply elem_of_cons in Hin as [[= -> ->]|?];
        [split; [lia|exists R; left]|split; [by eapply gapped_in|exists s; by right]]. }
  split; [|done]. apply (trim_covered s). exists s, e. split; [done|lia].
Qed.
End trim.

Lemma last_end_in d l : l ≠ [] → ∃ s, (s, last_end d l) ∈ l.
Proof.
  revert d. induction l as [|[s e] l IH]; intros d Hl; [done|]. simpl.
  destruct l as [|i l]; [exists s; left|]. destruct (IH e) as [s' Hs']; [done|].
  exists s'. by right.
Qed.
