(* ===== verification/Reassembly.v ===== *)
(** * Reassembly of the received stream (dtp_transport.c)

    [HandleNormalPacket] copies the payload of a data packet into the read
    buffer and records the interval of sequence numbers it covers in a linked
    list of intervals ([tc_readBufHead]), merging it with the intervals it
    touches. *)

From S2P Require Import Prelude Double Header Context World ContextTable Pools RetransQueue.
From S2P Require Import Select Congestion Lifecycle Send Intervals.

(** ** The code *)

Definition buf_end (b : buffer) : Z := b_seq b +u b_len b.

(** Returns whether the intervals touch and the length of the overlap; extends
    [buf] to the union when they do. *)
Definition CalculateOverlap (seq len : Z) (buf : ptr) : M (bool * Z) :=
  b ← getbuf buf;
  let start := c_max seq (b_seq b) in
  let end_ := c_min (seq +u len) (buf_end b) in
  let overlap_len := i32 (end_ -u start) in
  if 0 <=? overlap_len then
    modbuf buf (λ b, mk_buffer (c_min (b_seq b) seq)
                       (c_max (buf_end b) (seq +u len) -u c_min (b_seq b) seq) (b_next b));;
    mret (true, overlap_len)
  else mret (false, overlap_len).

(** What the [for] loop over the interval list leaves: [cur_buf], [temp_buf],
    [prev_buf], [writeLen] and [merged]. *)
Record merge_state := mk_merge {
  ms_cur : ptr; ms_temp : ptr; ms_prev : ptr; ms_pprev : ptr; ms_writeLen : Z; ms_merged : bool }.

(** The body of the loop after the interval [temp_buf] was extended. *)
Definition absorb (ctx : Z) (s : merge_state) (overlap_len : Z) : M merge_state :=
  let writeLen := if 0 <? overlap_len then ms_writeLen s - overlap_len else ms_writeLen s in
  (* remove buffer from buffer list if it's previous buffer *)
  prev ← (if ms_prev s =? ms_cur s then
            (if negb (ms_pprev s =? NULL)
             then modbuf (ms_pprev s) (λ b, mk_buffer (b_seq b) (b_len b) (ms_temp s))
             else ctx ->> tc_readBufHead := ms_temp s);;
            mret (ms_pprev s)
          else mret (ms_prev s));
  AddToFreeBufferList (ms_cur s);;
  mret (mk_merge (ms_temp s) (ms_temp s) prev (ms_pprev s) writeLen true).

Fixpoint merge_loop (fuel : nat) (ctx : Z) (s : merge_state) : M merge_state :=
  if ms_temp s =? NULL then mret s
  else match fuel with
  | O => mfault Spin
  | S fuel =>
    cur ← getbuf (ms_cur s);
    temp ← getbuf (ms_temp s);
    if buf_end cur <? b_seq temp then mret s
    else
      '(touch, overlap_len) ← CalculateOverlap (b_seq cur) (b_len cur) (ms_temp s);
      s ← (if (touch : bool) then absorb ctx s overlap_len else mret s);
      (* pprev_buf = prev_buf, prev_buf = temp_buf, temp_buf = temp_buf->next_buf *)
      temp ← getbuf (ms_temp s);
      merge_loop fuel ctx
        (mk_merge (ms_cur s) (b_next temp) (ms_temp s) (ms_prev s) (ms_writeLen s) (ms_merged s))
  end.

(** The [if (!merged)] after the loop: link the new node. *)
Definition link_new (ctx : Z) (start : Z) (s : merge_state) : M unit :=
  x ← getctx ctx;
  if tc_readBufHead x =? NULL then ctx ->> tc_readBufHead := ms_cur s
  else
    h ← getbuf (tc_readBufHead x);
    if start <? buf_end h then
      modbuf (ms_cur s) (λ b, mk_buffer (b_seq b) (b_len b) (tc_readBufHead x));;
      ctx ->> tc_readBufHead := ms_cur s
    else
      modbuf (ms_prev s) (λ b, mk_buffer (b_seq b) (b_len b) (ms_cur s));;
      modbuf (ms_cur s) (λ b, mk_buffer (b_seq b) (b_len b) (ms_temp s)).

(** [cur_buf = GetBuffer(); cur_buf->seq = start; ...] *)
Definition new_node (start len : Z) : M ptr :=
  cur_buf ← GetBuffer;
  modbuf cur_buf (λ _, mk_buffer start len NULL);;
  mret cur_buf.

(** Record the interval [[start, start + writeLen)]: the new node, the loop and
    the linking.  Returns the node that holds the interval and [writeLen]. *)
Definition record_interval (ctx : Z) (start writeLen : Z) : M (ptr * Z) :=
  cur_buf ← new_node start writeLen;
  x ← getctx ctx;
  fuel ← gets (λ w, (2 + size (w_bufs w))%nat);
  s ← merge_loop fuel ctx (mk_merge cur_buf (tc_readBufHead x) NULL NULL writeLen false);
  mwhen (negb (ms_merged s)) (link_new ctx start s);;
  mret (ms_cur s, ms_writeLen s).

(** The updates of [tc_nextByteExpected], [tc_lastByteRcvd] and
    [tc_isMyWindowZero]. *)
Definition advance_window (ctx : Z) (cur_buf : ptr) : M unit :=
  x ← getctx ctx;
  mwhen (negb (tc_readBufHead x =? NULL))
    (h ← getbuf (tc_readBufHead x);
     mwhen ((b_seq h <=? tc_nextByteExpected x) && (tc_nextByteExpected x <? buf_end h))
       (ctx ->> tc_nextByteExpected := buf_end h));;
  cur ← getbuf cur_buf;
  mwhen (b_next cur =? NULL) (ctx ->> tc_lastByteRcvd := buf_end cur);;
  x ← getctx ctx;
  mwhen (AdvertisedWindow x =? 0) (ctx ->> tc_isMyWindowZero := true);;
  (* if (GetReadBufDataSize(ctx) > 0 && ctx->tc_lastByteRead != ctx->tc_readBufHead->seq) *)
  mwhen (0 <? GetReadBufDataSize x) (h ← getbuf (tc_readBufHead x); mret tt).

(** The removal of the ACK queued by [HandleDisconnect]. *)
Definition drop_inserted_ack (ctx : Z) : M unit :=
  x ← getctx ctx;
  match tc_packetQ x with
  | packet :: _ =>
    mwhen (tc_isACKInserted x)
      (p ← getpkt packet;
       mwhen (IsACKPacket (tp_header p))
         (packetQ_remove ctx packet;; AddToFreePacketList packet;;
          ctx ->> tc_isACKInserted := false))
  | [] => mret tt
  end.

(** The statements up to [ctx->tc_recvAnyData = TRUE]. *)
Definition note_segment (ctx : Z) (buf : bytes) : M unit :=
  drop_inserted_ack ctx;;
  modctx ctx (λ x, x <| tc_seqNum := GetSeqNum buf |>
                     <| tc_rcvWindow := u32 (Z.shiftl (GetRcvdWindow buf) (tc_sendWindowScale x)) |>);;
  modctx ctx (λ x, if tc_rcvWindow x =? 0 then x <| tc_isHerWindowZero := true |> else x);;
  ctx ->> tc_recvAnyData := true.

(** The [if (writeLen > 0)] block: [d] is what [memcpy] copies to [buf_off]. *)
Definition store_segment (ctx : Z) (buf_off start writeLen : Z) (d : bytes) : M Z :=
  x ← getctx ctx;
  rb ← block_write (tc_readBuf x) buf_off d;
  ctx ->> tc_readBuf := rb;;
  '(cur_buf, writeLen) ← record_interval ctx start writeLen;
  advance_window ctx cur_buf;;
  mret writeLen.

(** [buf] is the receive buffer from the packet on. *)
Definition HandleNormalPacket (ctx : Z) (buf : bytes) (bodyLen : Z) : M Z :=
  x ← getctx ctx;
  if is_state (tc_state x) SOCK_SYN_RCVD || is_state (tc_state x) SOCK_SYN_SENT || IsSYNPacket buf
  then mret 0
  else
    note_segment ctx buf;;
    x ← getctx ctx;
    let seqnum := GetSeqNum buf in
    let start := c_max (tc_nextByteExpected x) seqnum in
    let end_ := c__min (tc_lastByteRead x +u tc_readBufLen x) (seqnum +u bodyLen) in
    (* MAX(0, end - start) compares unsigned values *)
    let writeLen := i32 (end_ -u start) in
    writeLen ←
      (if 0 <? writeLen then
         let buf_off := i32 (start -u tc_lastByteRead x) in
         let pkt_off := i32 (start -u seqnum) in
         d ← block_read (Some buf) (GetHeaderLen buf + pkt_off) writeLen;
         store_segment ctx buf_off start writeLen d
       else mret writeLen);
    modctx ctx (λ x, x <| tc_numPacketRcvd := tc_numPacketRcvd x + 1 |>);;
    mret writeLen.

(** ** The interval list in memory *)

(** A node: its address and the interval it holds. *)
Abbreviation node := (Z * (Z * Z))%type (only parsing).

(** [lseg m p l q]: in the heap [m], the nodes [l] are linked from [p] to [q]. *)
Fixpoint lseg (m : gmap Z buffer) (p : ptr) (l : list node) (q : ptr) : Prop :=
  match l with
  | [] => p = q
  | (n, (s, e)) :: l =>
    p = n ∧ n ≠ NULL ∧ ∃ nx, m !! n = Some (mk_buffer s (e - s) nx) ∧ lseg m nx l q
  end.

Definition ptrs (l : list node) : list Z := l.*1.
Definition ivs (l : list node) : list (Z * Z) := l.*2.

Lemma lseg_app m p l1 l2 q : lseg m p (l1 ++ l2) q ↔ ∃ r, lseg m p l1 r ∧ lseg m r l2 q.
Proof.
  revert p. induction l1 as [|[n [s e]] l1 IH]; intros p; simpl.
  - split; [eauto|]. by intros (r & -> & ?).
  - setoid_rewrite IH. naive_solver.
Qed.

Lemma lseg_insert m p l q n b : n ∉ ptrs l → lseg m p l q → lseg (<[n := b]> m) p l q.
Proof.
  revert p. induction l as [|[k [s e]] l IH]; intros p; simpl; [done|].
  intros [Hne Hn]%not_elem_of_cons (-> & ? & nx & Hm & Hl).
  split_and!; [done..|]. exists nx. rewrite lookup_insert_ne by done. auto.
Qed.

(** Inclusions between sets of nodes. *)
Ltac sub_solver := clear; unfold ptrs; rewrite ?fmap_app; simpl; set_solver.

(** Change the interval of a node. *)
Lemma lseg_update m p l1 n s e l2 q s' e' nx :
  NoDup (ptrs (l1 ++ (n, (s, e)) :: l2)) →
  lseg m p (l1 ++ (n, (s, e)) :: l2) q → m !! n = Some (mk_buffer s (e - s) nx) →
  lseg (<[n := mk_buffer s' (e' - s') nx]> m) p (l1 ++ (n, (s', e')) :: l2) q.
Proof.
  unfold ptrs. rewrite fmap_app. simpl. intros Hnd Hl Hm.
  apply NoDup_app in Hnd as (_ & Hn1 & [Hn2 _]%NoDup_cons).
  apply lseg_app in Hl as (r & H1 & Hr). simpl in Hr. destruct Hr as (-> & ? & nx' & Hm' & H2).
  apply lseg_app. exists n. split.
  - apply lseg_insert; [|done]. intros Hin. apply (Hn1 n Hin). left.
  - simpl. split_and!; [done..|]. exists nx. rewrite lookup_insert_eq.
    simplify_eq. split; [done|]. by apply lseg_insert.
Qed.

(** Redirect the end of a segment to another node. *)
Lemma lseg_redirect m p l n s e q q' :
  NoDup (ptrs (l ++ [(n, (s, e))])) → lseg m p (l ++ [(n, (s, e))]) q →
  lseg (<[n := mk_buffer s (e - s) q']> m) p (l ++ [(n, (s, e))]) q'.
Proof.
  unfold ptrs. rewrite fmap_app. simpl. intros Hnd Hl.
  apply NoDup_app in Hnd as (_ & Hn1 & _).
  apply lseg_app in Hl as (r & H1 & Hr). simpl in Hr. destruct Hr as (-> & ? & nx & Hm & _).
  apply lseg_app. exists n. split.
  - apply lseg_insert; [|done]. intros Hin. apply (Hn1 n Hin). left.
  - simpl. split_and!; [done..|]. exists q'. by rewrite lookup_insert_eq.
Qed.

Definition head_ptr (l : list node) : ptr := match l with [] => NULL | (n, _) :: _ => n end.
Definition last_ptr (l : list node) : ptr := match last l with None => NULL | Some (n, _) => n end.

Lemma lseg_head m p l : lseg m p l NULL → p = head_ptr l.
Proof. destruct l as [|[n [s e]] l]; simpl; [done|]. by intros (-> & _). Qed.

Lemma last_ptr_snoc l n iv : last_ptr (l ++ [(n, iv)]) = n.
Proof. unfold last_ptr. by rewrite last_snoc. Qed.

Lemma last_ptr_in l : l = [] ∨ last_ptr l ∈ ptrs l.
Proof.
  destruct l as [|[n iv] l] using rev_ind; [by left|right].
  rewrite last_ptr_snoc. unfold ptrs. rewrite fmap_app. apply elem_of_app. right. left.
Qed.

(** The intervals of a connection lie in a range that the signed 32-bit
    differences of the code can represent. *)
Record in_range (lo hi : Z) : Prop := {
  ir_lo : 0 ≤ lo; ir_hi : hi < 2 ^ 32; ir_diff : hi - lo < 2 ^ 31 }.

Definition bounded (lo hi : Z) (l : list (Z * Z)) : Prop :=
  ∀ s e, (s, e) ∈ l → lo ≤ s ∧ s < e ∧ e ≤ hi.

Lemma buf_end_interval s e nx : 0 ≤ e < 2 ^ 32 → buf_end (mk_buffer s (e - s) nx) = e.
Proof. intros. unfold buf_end. cbn. rewrite u32_small; unfold is_u32; lia. Qed.

(** [CalculateOverlap] on a node, on intervals without wrap-around. *)
Lemma CalculateOverlap_spec lo hi w t s e nx a b (Q : bool * Z → world → Prop) :
  in_range lo hi → lo ≤ s → s < e → e ≤ hi → lo ≤ a → a < b → b ≤ hi →
  w_bufs w !! t = Some (mk_buffer s (e - s) nx) →
  (if bool_decide (a `max` s ≤ b `min` e)
   then Q (true, b `min` e - a `max` s)
          (w <| w_bufs ::= <[t := mk_buffer (a `min` s) (b `max` e - a `min` s) nx]> |>)
   else Q (false, b `min` e - a `max` s) w) →
  wp (CalculateOverlap a (b - a) t) Q w.
Proof.
  intros [Hlo Hhi Hd] ? ? ? ? ? ? Ht HQ. unfold CalculateOverlap.
  apply wp_bind. eapply wp_getbuf; [done|]. rewrite buf_end_interval by lia. cbn [b_seq].
  rewrite (u32_small (a + (b - a))) by (unfold is_u32; lia).
  replace (a + (b - a)) with b by lia.
  replace (c_max a s) with (a `max` s) by (unfold c_max; case_cmp; lia).
  replace (c_min b e) with (b `min` e) by (unfold c_min; case_cmp; lia).
  rewrite i32_sub_u32 by (unfold is_i32; lia).
  case_bool_decide.
  - rewrite (proj2 (Z.leb_le _ _)) by lia. apply wp_bind. eapply wp_modbuf; [done|]. apply wp_ret.
    rewrite buf_end_interval by lia. cbn [b_seq b_next].
    replace (c_max e b) with (b `max` e) by (unfold c_max; case_cmp; lia).
    replace (c_min s a) with (a `min` s) by (unfold c_min; case_cmp; lia).
    rewrite u32_small by (unfold is_u32; lia). done.
  - rewrite (proj2 (Z.leb_gt _ _)) by lia. by apply wp_ret.
Qed.

(** ** The loop refines [ins] *)

(** The list of intervals [L] of connection [c] in memory. *)
Record rlist (w : world) (c : Z) (x : dtp_context) (L : list node) : Prop := {
  rl_ctx : ctx_at w c = Some x;
  rl_seg : lseg (w_bufs w) (tc_readBufHead x) L NULL;
  rl_nodup : NoDup (ptrs L);
  rl_free : ∀ p, p ∈ ptrs L → p ∉ w_freeBufferList w;
  rl_pool : buf_pool_ok w }.

(** [rframe c own w w']: only the nodes [own], the pool and connection [c] may
    differ. *)
Record rframe (c : Z) (own : list Z) (w w' : world) : Prop := {
  rf_rest : w' = w <| w_bufs := w_bufs w' |> <| w_freeBufferList := w_freeBufferList w' |>
                   <| w_freeBufferCount := w_freeBufferCount w' |> <| w_brk := w_brk w' |>
                   <| w_ctxs := w_ctxs w' |>;
  rf_heap : ∀ p, p ∉ own → w_bufs w' !! p = w_bufs w !! p ∧
                 (p ∈ w_freeBufferList w' ↔ p ∈ w_freeBufferList w);
  rf_other : ∀ c', c' ≠ c → ctx_at w' c' = ctx_at w c' }.

Lemma rframe_refl c own w : rframe c own w w.
Proof. constructor; [by destruct w|done|done]. Qed.

Lemma rframe_trans c own w1 w2 w3 :
  rframe c own w1 w2 → rframe c own w2 w3 → rframe c own w1 w3.
Proof.
  intros [R1 H1 O1] [R2 H2 O2]. constructor.
  - rewrite R2, R1. by destruct w1.
  - intros p Hp. destruct (H1 p Hp) as [E1 F1], (H2 p Hp) as [E2 F2].
    rewrite E2, F2. done.
  - intros c' ?. by rewrite O2, O1.
Qed.

Lemma rframe_weaken c own own' w w' : own ⊆ own' → rframe c own w w' → rframe c own' w w'.
Proof. intros Hs [R H O]. constructor; [done|intros p Hp; apply H; set_solver|done]. Qed.

(** Freeing a node that is not (or no longer) on the list. *)
Lemma rlist_free w c x L cur :
  rlist w c x L → cur ∉ ptrs L → is_Some (w_bufs w !! cur) → cur ∉ w_freeBufferList w →
  wp (AddToFreeBufferList cur) (λ _ w', rlist w' c x L ∧ rframe c [cur] w w') w.
Proof.
  intros [Hc Hs Hn Hf Hp] Hcur Hal Hfr. eapply wp_mono; [by apply AddToFreeBufferList_spec|].
  intros _ w' [Hp' ->]. split; constructor; cbn.
  - done.
  - by apply lseg_insert.
  - done.
  - intros p Hin [->|?]%elem_of_cons; [by apply Hcur|by eapply Hf].
  - done.
  - by destruct w.
  - intros p Hin. rewrite list_elem_of_singleton in Hin. rewrite lookup_insert_ne by done.
    rewrite elem_of_cons. naive_solver.
  - done.
Qed.

Lemma rlist_alloc w c x l1 n s e l2 :
  rlist w c x (l1 ++ (n, (s, e)) :: l2) →
  n ≠ NULL ∧ w_bufs w !! n = Some (mk_buffer s (e - s) (head_ptr l2)) ∧
  n ∉ ptrs l1 ∧ n ∉ ptrs l2 ∧ n ∉ w_freeBufferList w.
Proof.
  intros [Hc Hs Hn Hf Hp]. unfold ptrs in *. rewrite fmap_app in *. simpl in *.
  apply NoDup_app in Hn as (_ & Hn1 & [Hn2 _]%NoDup_cons).
  apply lseg_app in Hs as (r & H1 & Hr). simpl in Hr. destruct Hr as (-> & ? & nx & Hm & H2).
  apply lseg_head in H2 as ->. split_and!; [done..| |done|].
  - intros Hin. apply (Hn1 n Hin). left.
  - apply Hf, elem_of_app. right. left.
Qed.

Lemma pool_ok_ext w w' :
  w_freeBufferList w' = w_freeBufferList w → w_freeBufferCount w' = w_freeBufferCount w →
  w_brk w' = w_brk w → (∀ p, is_Some (w_bufs w' !! p) ↔ is_Some (w_bufs w !! p)) →
  buf_pool_ok w → buf_pool_ok w'.
Proof.
  intros E1 E2 E3 E4 [P1 P2 P3 P4 P5]. constructor; rewrite ?E1, ?E2, ?E3; try done.
  - intros p Hp. by apply E4, P2.
  - intros p Hp. by apply P4, E4.
Qed.

Lemma pool_ok_insert w n b :
  buf_pool_ok w → is_Some (w_bufs w !! n) → buf_pool_ok (w <| w_bufs ::= <[n := b]> |>).
Proof.
  intros Hp [y Hy]. eapply pool_ok_ext; [..|exact Hp]; try done. intros p. cbn.
  destruct (decide (p = n)) as [->|]; [rewrite lookup_insert_eq, Hy; split; by eexists|].
  by rewrite lookup_insert_ne.
Qed.

(** Extending the interval of a node. *)
Lemma rlist_update w c x l1 n s e l2 s' e' :
  rlist w c x (l1 ++ (n, (s, e)) :: l2) →
  rlist (w <| w_bufs ::= <[n := mk_buffer s' (e' - s') (head_ptr l2)]> |>) c x (l1 ++ (n, (s', e')) :: l2).
Proof.
  intros Hr. destruct (rlist_alloc _ _ _ _ _ _ _ _ Hr) as (_ & Hm & _).
  destruct Hr as [Hc Hs Hn Hf Hp]. constructor; cbn.
  - done.
  - by eapply lseg_update.
  - unfold ptrs in *. by rewrite fmap_app in *.
  - unfold ptrs in *. by rewrite fmap_app in *.
  - by apply pool_ok_insert; [|rewrite Hm; eexists].
Qed.

Lemma rframe_bufs c w n b : rframe c [n] w (w <| w_bufs ::= <[n := b]> |>).
Proof.
  constructor; cbn; [by destruct w| |done]. intros p Hp. rewrite list_elem_of_singleton in Hp.
  by rewrite lookup_insert_ne.
Qed.

Lemma set_head_id (x : dtp_context) : x <| tc_readBufHead := tc_readBufHead x |> = x.
Proof. by destruct x. Qed.

Lemma ptrs_app l1 l2 : ptrs (l1 ++ l2) = ptrs l1 ++ ptrs l2.
Proof. apply fmap_app. Qed.

(** The predecessor of a node is made to skip it. *)
Lemma rlist_unlink w c x P cur iv t iv' T :
  rlist w c x (P ++ (cur, iv) :: (t, iv') :: T) →
  wp (if negb (last_ptr P =? NULL)
      then modbuf (last_ptr P) (λ b, mk_buffer (b_seq b) (b_len b) t)
      else c ->> tc_readBufHead := t)
     (λ _ w', (∃ h, rlist w' c (x <| tc_readBufHead := h |>) (P ++ (t, iv') :: T)) ∧
        rframe c (ptrs P) w w' ∧ w_bufs w' !! cur = w_bufs w !! cur ∧
        w_freeBufferList w' = w_freeBufferList w) w.
Proof.
  destruct iv as [a b]. intros Hr. destruct (rlist_alloc _ _ _ _ _ _ _ _ Hr) as (Hcn & Hcm & HcP & _ & _).
  destruct Hr as [Hc Hs Hn Hf Hp].
  assert (Hn' : NoDup (ptrs (P ++ (t, iv') :: T))).
  { rewrite ptrs_app in *. apply NoDup_app in Hn as (? & Hd & [_ ?]%NoDup_cons).
    apply NoDup_app. split_and!; [done| |done]. intros p ? ?. apply (Hd p); [done|]. by right. }
  assert (Hf' : ∀ p, p ∈ ptrs (P ++ (t, iv') :: T) → p ∉ w_freeBufferList w).
  { intros p Hin. apply Hf. rewrite ptrs_app in *. apply elem_of_app in Hin as [?|?];
      apply elem_of_app; [by left|right; by right]. }
  apply lseg_app in Hs as (r & Hs1 & -> & _ & nx & Hm & Hs2).
  pose proof (lseg_head _ _ _ Hs2) as Hnx. simpl in Hnx. subst nx.
  destruct P as [|[n [s e]] P _] using rev_ind; simpl.
  - eapply wp_modctx; [done|]. simpl in Hs1. split_and!.
    + exists t. constructor; cbn; try done.
      * by eapply ctx_at_put.
      * by eapply pool_ok_ext; [..|exact Hp].
    + constructor; cbn; [by destruct w|done|]. intros c' ?. by rewrite ctx_at_put_ne.
    + done.
    + done.
  - rewrite last_ptr_snoc. apply lseg_app in Hs1 as (r' & Hs0 & Hs1). simpl in Hs1.
    destruct Hs1 as (-> & Hn0 & nx & Hnm & ->).
    rewrite (proj2 (Z.eqb_neq n NULL)) by done. cbn [negb]. eapply wp_modbuf; [done|]. cbn [b_seq b_len].
    assert (HnT : n ∉ ptrs ((t, iv') :: T)).
    { rewrite ptrs_app in Hn'. apply NoDup_app in Hn' as (_ & Hd & _). apply Hd.
      rewrite ptrs_app. apply elem_of_app. right. left. }
    assert (Hnc : n ≠ cur). { intros ->. apply HcP. rewrite ptrs_app. set_solver. }
    split_and!; [|eapply rframe_weaken; [|apply rframe_bufs]; rewrite ptrs_app; set_solver
                 |cbn; by rewrite lookup_insert_ne|done].
    exists (tc_readBufHead x). rewrite set_head_id. constructor; cbn; try done.
    + apply lseg_app. exists t. split; [|by apply lseg_insert].
      eapply lseg_redirect; [|apply lseg_app; exists n; split; [done|]; simpl; eauto].
      rewrite ptrs_app in Hn'. by apply NoDup_app in Hn' as (? & _).
    + by apply pool_ok_insert; [|rewrite Hnm; eexists].
Qed.

Lemma bounded_cons lo hi s e l : bounded lo hi ((s, e) :: l) ↔ (lo ≤ s ∧ s < e ∧ e ≤ hi) ∧ bounded lo hi l.
Proof.
  unfold bounded. split.
  - intros H. split; [apply H; left|]. intros. apply H. by right.
  - intros [? H] s' e' [[= -> ->]|?]%elem_of_cons; [done|by apply H].
Qed.

Lemma bounded_app lo hi l1 l2 : bounded lo hi (l1 ++ l2) ↔ bounded lo hi l1 ∧ bounded lo hi l2.
Proof. unfold bounded. setoid_rewrite elem_of_app. naive_solver. Qed.

Section loop.
Context (c : Z) (lo hi : Z) (Hrange : in_range lo hi).

(** An iteration that merges the node [t] into a [cur_buf] on the list. *)
Lemma merged_step w x P cur a b t s e T fuel wl (Q : merge_state → world → Prop) :
  rlist w c x (P ++ (cur, (a, b)) :: (t, (s, e)) :: T) →
  lo ≤ a → a < b → b ≤ hi → s < e → e ≤ hi → a < s → s ≤ b →
  (∀ w' h, rlist w' c (x <| tc_readBufHead := h |>) (P ++ (t, (a `min` s, b `max` e)) :: T) →
     rframe c (cur :: t :: ptrs P) w w' →
     wp (merge_loop fuel c (mk_merge t (head_ptr T) t (last_ptr P)
           (wl - (b `min` e - a `max` s)) true)) Q w') →
  wp (merge_loop (S fuel) c (mk_merge cur t cur (last_ptr P) wl true)) Q w.
Proof.
  intros Hr ? ? ? ? ? ? ? HQ.
  destruct (rlist_alloc _ _ _ _ _ _ _ _ Hr) as (Hc0 & Hcm & HcP & HcT & Hcf).
  pose proof Hr as Hr'. rewrite cons_middle, app_assoc in Hr'.
  destruct (rlist_alloc _ _ _ _ _ _ _ _ Hr') as (Ht0 & Htm & HtP & HtT & Htf).
  assert (Htc : t ≠ cur). { intros ->. rewrite ptrs_app in HtP. apply HtP. set_solver. }
  cbn [merge_loop ms_temp ms_cur]. rewrite (proj2 (Z.eqb_neq t NULL)) by done.
  apply wp_bind. eapply wp_getbuf; [done|]. apply wp_bind. eapply wp_getbuf; [done|].
  pose proof Hrange as [? ? ?]. rewrite buf_end_interval by lia. cbn [b_seq b_len].
  rewrite (proj2 (Z.ltb_ge b s)) by lia. apply wp_bind.
  eapply (CalculateOverlap_spec lo hi _ _ s e); [done|lia..|done|].
  rewrite bool_decide_eq_true_2 by lia.
  apply (rlist_update _ _ _ _ _ _ _ _ (a `min` s) (b `max` e)) in Hr'.
  rewrite <- app_assoc in Hr'. set (w1 := set w_bufs _ w) in *.
  unfold absorb. cbn [ms_prev ms_cur ms_pprev ms_temp ms_writeLen].
  rewrite Z.eqb_refl. do 3 apply wp_bind.
  eapply wp_mono; [eapply rlist_unlink, Hr'|].
  intros _ w2 ((h & Hr2) & Hf2 & Hc2 & Hl2). apply wp_ret.
  assert (Hw1 : w_bufs w1 !! cur = w_bufs w !! cur) by (subst w1; cbn; by rewrite lookup_insert_ne).
  set (ov := b `min` e - a `max` s) in *.
  replace (if 0 <? ov then wl - ov else wl) with (wl - ov) by (case_cmp; lia).
  apply wp_bind. eapply wp_mono; [apply (rlist_free _ _ _ _ cur Hr2)|].
  { rewrite ptrs_app. set_solver. }
  { rewrite Hc2, Hw1, Hcm. by eexists. }
  { by rewrite Hl2. }
  intros _ w3 [Hr3 Hf3]. apply wp_ret. cbn [ms_temp ms_cur ms_prev ms_writeLen ms_merged].
  destruct (rlist_alloc _ _ _ _ _ _ _ _ Hr3) as (_ & Hm & _).
  apply wp_bind. eapply wp_getbuf; [done|]. cbn [b_next]. apply (HQ w3 h Hr3).
  eapply rframe_trans; [eapply rframe_weaken; [|apply (rframe_bufs c w t)]; set_solver|].
  eapply rframe_trans; [eapply rframe_weaken; [|exact Hf2]; set_solver|].
  eapply rframe_weaken; [|exact Hf3]. set_solver.
Qed.

(** A new node that is not linked yet. *)
Definition detached (w : world) (cur a b : Z) (L : list node) : Prop :=
  w_bufs w !! cur = Some (mk_buffer a (b - a) NULL) ∧ cur ≠ NULL ∧ cur ∉ ptrs L ∧
  cur ∉ w_freeBufferList w.

(** An iteration that merges the node [t] and the new node. *)
Lemma first_step w x P cur a b t s e T fuel pp wl (Q : merge_state → world → Prop) :
  rlist w c x (P ++ (t, (s, e)) :: T) → detached w cur a b (P ++ (t, (s, e)) :: T) →
  lo ≤ a → a < b → b ≤ hi → lo ≤ s → s < e → e ≤ hi → s ≤ b → a ≤ e →
  (∀ w', rlist w' c x (P ++ (t, (a `min` s, b `max` e)) :: T) →
     rframe c [cur; t] w w' →
     wp (merge_loop fuel c (mk_merge t (head_ptr T) t (last_ptr P)
           (wl - (b `min` e - a `max` s)) true)) Q w') →
  wp (merge_loop (S fuel) c (mk_merge cur t (last_ptr P) pp wl false)) Q w.
Proof.
  intros Hr (Hcm & Hc0 & Hcl & Hcf) ? ? ? ? ? ? ? ? HQ.
  destruct (rlist_alloc _ _ _ _ _ _ _ _ Hr) as (Ht0 & Htm & HtP & HtT & Htf).
  assert (Htc : t ≠ cur). { intros ->. rewrite ptrs_app in Hcl. apply Hcl. set_solver. }
  assert (Hlp : last_ptr P ≠ cur).
  { intros E. destruct (last_ptr_in P) as [->|Hin]; [by cbn in E|].
    apply Hcl. rewrite ptrs_app, <- E. set_solver. }
  cbn [merge_loop ms_temp ms_cur]. rewrite (proj2 (Z.eqb_neq t NULL)) by done.
  apply wp_bind. eapply wp_getbuf; [done|]. apply wp_bind. eapply wp_getbuf; [done|].
  pose proof Hrange as [? ? ?]. rewrite buf_end_interval by lia. cbn [b_seq b_len].
  rewrite (proj2 (Z.ltb_ge b s)) by lia. apply wp_bind.
  eapply (CalculateOverlap_spec lo hi _ _ s e); [done|lia..|done|].
  rewrite bool_decide_eq_true_2 by lia.
  apply (rlist_update _ _ _ _ _ _ _ _ (a `min` s) (b `max` e)) in Hr.
  set (w1 := set w_bufs _ w) in *.
  unfold absorb. cbn [ms_prev ms_cur ms_pprev ms_temp ms_writeLen].
  rewrite (proj2 (Z.eqb_neq _ _) Hlp). do 2 apply wp_bind. apply wp_ret.
  assert (Hw1 : w_bufs w1 !! cur = w_bufs w !! cur) by (subst w1; cbn; by rewrite lookup_insert_ne).
  set (ov := b `min` e - a `max` s) in *.
  replace (if 0 <? ov then wl - ov else wl) with (wl - ov) by (case_cmp; lia).
  apply wp_bind. eapply wp_mono; [apply (rlist_free _ _ _ _ cur Hr)|].
  { rewrite ptrs_app in *. set_solver. }
  { rewrite Hw1, Hcm. by eexists. }
  { done. }
  intros _ w2 [Hr2 Hf2]. apply wp_ret. cbn [ms_temp ms_cur ms_prev ms_writeLen ms_merged].
  destruct (rlist_alloc _ _ _ _ _ _ _ _ Hr2) as (_ & Hm & _).
  apply wp_bind. eapply wp_getbuf; [done|]. cbn [b_next]. apply (HQ w2 Hr2).
  eapply rframe_trans; [eapply rframe_weaken; [|apply (rframe_bufs c w t)]; set_solver|].
  eapply rframe_weaken; [|exact Hf2]. set_solver.
Qed.

(** An iteration over a node that lies before the new interval. *)
Lemma skip_step w x P cur a b t s e T fuel pp wl (Q : merge_state → world → Prop) :
  rlist w c x (P ++ (t, (s, e)) :: T) → detached w cur a b (P ++ (t, (s, e)) :: T) →
  lo ≤ a → a < b → b ≤ hi → lo ≤ s → s < e → e ≤ hi → e < a →
  wp (merge_loop fuel c (mk_merge cur (head_ptr T) t (last_ptr P) wl false)) Q w →
  wp (merge_loop (S fuel) c (mk_merge cur t (last_ptr P) pp wl false)) Q w.
Proof.
  intros Hr (Hcm & Hc0 & Hcl & Hcf) ? ? ? ? ? ? ? HQ.
  destruct (rlist_alloc _ _ _ _ _ _ _ _ Hr) as (Ht0 & Htm & _).
  cbn [merge_loop ms_temp ms_cur]. rewrite (proj2 (Z.eqb_neq t NULL)) by done.
  apply wp_bind. eapply wp_getbuf; [done|]. apply wp_bind. eapply wp_getbuf; [done|].
  pose proof Hrange as [? ? ?]. rewrite buf_end_interval by lia. cbn [b_seq b_len].
  rewrite (proj2 (Z.ltb_ge b s)) by lia. apply wp_bind.
  eapply (CalculateOverlap_spec lo hi _ _ s e); [done|lia..|done|].
  rewrite bool_decide_eq_false_2 by lia. apply wp_bind, wp_ret.
  cbn [ms_temp]. apply wp_bind. by eapply wp_getbuf.
Qed.

(** The loop in the merged state records [(a, b)] in the rest of the list. *)
Lemma merged_loop T : ∀ w x P cur a b fuel wl,
  rlist w c x (P ++ (cur, (a, b)) :: T) → (length T ≤ fuel)%nat →
  lo ≤ a → a < b → b ≤ hi → gapped (a + 1) (ivs T) → bounded lo hi (ivs T) →
  wp (merge_loop fuel c (mk_merge cur (head_ptr T) cur (last_ptr P) wl true))
     (λ s w', ∃ h L, rlist w' c (x <| tc_readBufHead := h |>) L ∧
        ivs L = ivs P ++ ins a b (ivs T) ∧
        (∃ a' b', (ms_cur s, (a', b')) ∈ L ∧ a' ≤ a ∧ b ≤ b') ∧
        ptrs L ⊆ ptrs (P ++ (cur, (a, b)) :: T) ∧
        rframe c (ptrs (P ++ (cur, (a, b)) :: T)) w w' ∧
        ms_merged s = true ∧ ms_writeLen s = wl - ins_overlap a b (ivs T)) w.
Proof.
  induction T as [|[t [s e]] T IH]; intros w x P cur a b fuel wl Hr Hfuel ? ? ? Hg Hb.
  - destruct fuel; apply wp_ret; exists (tc_readBufHead x), (P ++ [(cur, (a, b))]);
      rewrite set_head_id; (split_and!; [done|unfold ivs; by rewrite fmap_app| |done| |done|simpl; lia];
      [exists a, b; split_and!; [set_solver|lia|lia]|apply rframe_refl]).
  - simpl in Hfuel. destruct fuel as [|fuel]; [lia|]. simpl in Hg. destruct Hg as (? & ? & Hg).
    apply bounded_cons in Hb as [(? & _ & ?) Hb]. change (ivs ((t, (s, e)) :: T)) with ((s, e) :: ivs T). cbn [ins ins_overlap].
    destruct (Z.ltb_spec b s) as [Hlt|Hge].
    + destruct (rlist_alloc _ _ _ _ _ _ _ _ Hr) as (_ & Hcm & _).
      pose proof Hr as Hr'. rewrite cons_middle, app_assoc in Hr'.
      destruct (rlist_alloc _ _ _ _ _ _ _ _ Hr') as (Ht0 & Htm & _).
      cbn [merge_loop ms_temp ms_cur head_ptr]. rewrite (proj2 (Z.eqb_neq t NULL)) by done.
      apply wp_bind. eapply wp_getbuf; [done|]. apply wp_bind. eapply wp_getbuf; [done|].
      pose proof Hrange as [? ? ?]. rewrite buf_end_interval by lia. cbn [b_seq].
      rewrite (proj2 (Z.ltb_lt b s)) by lia. apply wp_ret.
      exists (tc_readBufHead x), (P ++ (cur, (a, b)) :: (t, (s, e)) :: T). rewrite set_head_id.
      split_and!; [done|unfold ivs; by rewrite fmap_app| |done|apply rframe_refl|done|cbn; lia].
      exists a, b. split_and!; [set_solver|lia|lia].
    + rewrite (proj2 (Z.ltb_ge e a)) by lia. cbn [head_ptr].
      eapply merged_step; [done|lia..|]. intros w' h Hr' Hf.
      eapply wp_mono; [eapply IH; [done|lia|lia|lia|lia| |done]|].
      { by eapply gapped_weaken; [|done]; lia. }
      intros s' w'' (h' & L & Hr'' & Hi & (a' & b' & Hin & ? & ?) & Hsub & Hf' & Hm & Hw).
      exists h', L. split_and!; [done|done| | | |done|rewrite Hw; lia].
      * exists a', b'. split_and!; [done|lia|lia].
      * etrans; [done|]. sub_solver.
      * eapply rframe_trans; [eapply rframe_weaken; [|exact Hf]; sub_solver|].
        eapply rframe_weaken; [|exact Hf']. sub_solver.
Qed.

(** The loop before the first merge: it merges, or stops between the nodes that
    lie before the new interval and those behind it. *)
Lemma unmerged_loop T : ∀ w x P cur a b fuel pp wl,
  rlist w c x (P ++ T) → detached w cur a b (P ++ T) → (length T ≤ fuel)%nat →
  lo ≤ a → a < b → b ≤ hi → (∃ lo', gapped lo' (ivs T)) → bounded lo hi (ivs T) →
  (∀ s e, (s, e) ∈ ivs P → e < a) →
  wp (merge_loop fuel c (mk_merge cur (head_ptr T) (last_ptr P) pp wl false))
     (λ s w',
       (∃ h L, rlist w' c (x <| tc_readBufHead := h |>) L ∧
          ivs L = ivs P ++ ins a b (ivs T) ∧
          (∃ a' b', (ms_cur s, (a', b')) ∈ L ∧ a' ≤ a ∧ b ≤ b') ∧
          ptrs L ⊆ cur :: ptrs (P ++ T) ∧
          rframe c (cur :: ptrs (P ++ T)) w w' ∧
          ms_merged s = true ∧ ms_writeLen s = wl - ins_overlap a b (ivs T))
       ∨ (w' = w ∧ ms_merged s = false ∧ ms_cur s = cur ∧
          ms_writeLen s = wl - ins_overlap a b (ivs T) ∧
          ∃ P' T', P ++ T = P' ++ T' ∧ ms_prev s = last_ptr P' ∧ ms_temp s = head_ptr T' ∧
            ivs P ++ ins a b (ivs T) = ivs P' ++ (a, b) :: ivs T' ∧
            (∀ s e, (s, e) ∈ ivs P' → e < a) ∧
            (∀ s e, head (ivs T') = Some (s, e) → b < s ∧ s < e))) w.
Proof.
  induction T as [|[t [s e]] T IH]; intros w x P cur a b fuel pp wl Hr Hd Hfuel ? ? ? [lo' Hg] Hb HP.
  - destruct fuel; apply wp_ret; right; (split_and!; [done..|simpl; lia|]; exists P, [];
      split_and!; [done|done|done|done|done|done]).
  - simpl in Hfuel. destruct fuel as [|fuel]; [lia|]. simpl in Hg. destruct Hg as (? & ? & Hg).
    apply bounded_cons in Hb as [(? & _ & ?) Hb].
    change (ivs ((t, (s, e)) :: T)) with ((s, e) :: ivs T). cbn [ins ins_overlap head_ptr].
    destruct (Z.ltb_spec b s) as [Hlt|Hge]; [|destruct (Z.ltb_spec e a) as [Hskip|Htouch]].
    + destruct Hd as (Hcm & Hc0 & Hcl & Hcf).
      destruct (rlist_alloc _ _ _ _ _ _ _ _ Hr) as (Ht0 & Htm & _).
      cbn [merge_loop ms_temp ms_cur]. rewrite (proj2 (Z.eqb_neq t NULL)) by done.
      apply wp_bind. eapply wp_getbuf; [done|]. apply wp_bind. eapply wp_getbuf; [done|].
      pose proof Hrange as [? ? ?]. rewrite buf_end_interval by lia. cbn [b_seq].
      rewrite (proj2 (Z.ltb_lt b s)) by lia. apply wp_ret. right.
      split_and!; [done..|cbn; lia|]. exists P, ((t, (s, e)) :: T).
      split_and!; [done..|]. intros s' e' [= <- <-]. lia.
    + eapply skip_step; [done|done|lia..|].
      rewrite (cons_middle (t, (s, e)) P T), app_assoc in *.
      rewrite <- (last_ptr_snoc P t (s, e)).
      eapply wp_mono; [eapply IH; [done|done|lia..|by eexists|done|]|].
      { intros s' e'. unfold ivs. rewrite fmap_app, elem_of_app. intros [Hin|Hin]; [exact (HP _ _ Hin)|].
        simpl in Hin. apply list_elem_of_singleton in Hin. simplify_eq. done. }
      intros s' w'. unfold ivs. rewrite fmap_app, <- (app_assoc (snd <$> P)), ?last_ptr_snoc. done.
    + eapply first_step; [done|done|lia..|]. intros w' Hr' Hf.
      eapply wp_mono; [eapply merged_loop; [done|lia|lia|lia|lia| |done]|].
      { by eapply gapped_weaken; [|done]; lia. }
      intros s' w'' (h' & L & Hr'' & Hi & (a' & b' & Hin & ? & ?) & Hsub & Hf' & Hm & Hw).
      left. exists h', L. split_and!; [done|done| | | |done|rewrite Hw; lia].
      * exists a', b'. split_and!; [done|lia|lia].
      * etrans; [done|]. sub_solver.
      * eapply rframe_trans; [eapply rframe_weaken; [|exact Hf]; sub_solver|].
        eapply rframe_weaken; [|exact Hf']. sub_solver.
Qed.

(** Linking the new node between the nodes before and behind it. *)
Lemma link_new_spec w x P T cur a b s :
  rlist w c x (P ++ T) → detached w cur a b (P ++ T) → lo ≤ a → a < b → b ≤ hi →
  bounded lo hi (ivs (P ++ T)) →
  ms_cur s = cur → ms_prev s = last_ptr P → ms_temp s = head_ptr T →
  (∀ s e, (s, e) ∈ ivs P → e < a) → (∀ s e, head (ivs T) = Some (s, e) → b < s ∧ s < e) →
  wp (link_new c a s)
     (λ _ w', (∃ h, rlist w' c (x <| tc_readBufHead := h |>) (P ++ (cur, (a, b)) :: T)) ∧
        rframe c (cur :: ptrs P) w w') w.
Proof.
  intros Hr (Hcm & Hc0 & Hcl & Hcf) ? ? ? Hb Ecur Eprev Etemp HP HT. unfold link_new.
  pose proof Hr as [Hc Hs Hn Hf Hp]. apply wp_bind. eapply wp_getctx; [done|].
  rewrite Ecur, Eprev, Etemp. pose proof Hrange as [? ? ?].
  assert (Hnd : NoDup (ptrs (P ++ (cur, (a, b)) :: T))).
  { rewrite ptrs_app in *. simpl. rewrite <- Permutation_middle. by constructor. }
  assert (Hfr : ∀ p, p ∈ ptrs (P ++ (cur, (a, b)) :: T) → p ∉ w_freeBufferList w).
  { intros p. rewrite ptrs_app. simpl. rewrite elem_of_app, elem_of_cons.
    intros [?|[->|?]]; [apply Hf|done|apply Hf]; rewrite ptrs_app; set_solver. }
  assert (Hpool : buf_pool_ok (w <| w_bufs ::= <[cur := mk_buffer a (b - a) (head_ptr T)]> |>))
    by (by apply pool_ok_insert; [|rewrite Hcm; eexists]).
  destruct P as [|[n [s0 e0]] P _] using rev_ind.
  - (* at the head of the list *)
    pose proof (lseg_head _ _ _ Hs) as Hh. rewrite Hh. simpl app in *.
    assert (Hmain : wp (c ->> tc_readBufHead := cur)
      (λ _ w', (∃ h, rlist w' c (x <| tc_readBufHead := h |>) ((cur, (a, b)) :: T)) ∧
               rframe c [cur] w w') (w <| w_bufs ::= <[cur := mk_buffer a (b - a) (head_ptr T)]> |>)).
    { eapply wp_modctx; [done|]. split.
      - exists cur. constructor; cbn; [by eapply ctx_at_put| |done|done|].
        + split_and!; [done..|]. eexists. rewrite lookup_insert_eq. split; [done|].
          apply lseg_insert; [done|]. by rewrite <- Hh.
        + by eapply pool_ok_ext; [..|exact Hpool].
      - eapply rframe_trans; [apply (rframe_bufs c w cur)|].
        constructor; cbn; [by destruct w|done|]. intros c' ?. by rewrite ctx_at_put_ne. }
    destruct T as [|[t [s1 e1]] T]; cbn [head_ptr] in *.
    + assert (Hid : w <| w_bufs ::= <[cur := mk_buffer a (b - a) NULL]> |> = w).
      { destruct w. cbn in Hcm |- *. unfold set, set_with, set_w_bufs. cbn. by rewrite insert_id. }
      by rewrite Hid in Hmain.
    + destruct (rlist_alloc w c x [] t s1 e1 T Hr) as (Ht0 & Htm & _).
      rewrite (proj2 (Z.eqb_neq t NULL)) by done. apply wp_bind. eapply wp_getbuf; [done|].
      apply bounded_cons in Hb as [(? & ? & ?) _]. destruct (HT s1 e1 eq_refl).
      rewrite buf_end_interval, (proj2 (Z.ltb_lt a e1)) by lia.
      apply wp_bind. by eapply wp_modbuf.
  - (* behind the node n *)
    rewrite last_ptr_snoc.
    assert (∃ h sh eh R, P ++ [(n, (s0, e0))] = (h, (sh, eh)) :: R) as (h & sh & eh & R & EP).
    { destruct P as [|[? [? ?]] ?]; simpl; eauto. }
    pose proof (lseg_head _ _ _ Hs) as Hh. rewrite EP in Hh. simpl in Hh. rewrite Hh.
    rewrite EP in Hr. destruct (rlist_alloc w c x [] h sh eh _ Hr) as (Hh0 & Hhm & _).
    rewrite (proj2 (Z.eqb_neq h NULL)) by done. apply wp_bind. eapply wp_getbuf; [done|].
    assert (Hin : (sh, eh) ∈ ivs (P ++ [(n, (s0, e0))])) by (rewrite EP; left).
    assert (lo ≤ sh ∧ sh < eh ∧ eh ≤ hi) as (? & ? & ?).
    { apply Hb. unfold ivs in *. rewrite fmap_app. apply elem_of_app. by left. }
    specialize (HP _ _ Hin). rewrite buf_end_interval, (proj2 (Z.ltb_ge a eh)) by lia.
    apply lseg_app in Hs as (r & Hs1 & Hs2). pose proof (lseg_head _ _ _ Hs2). subst r.
    assert (∃ nx, w_bufs w !! n = Some (mk_buffer s0 (e0 - s0) nx)) as [nx Hnm].
    { apply lseg_app in Hs1 as (r & _ & Hr1). simpl in Hr1. destruct Hr1 as (_ & _ & nx & ? & _). eauto. }
    rewrite ptrs_app in Hn, Hcl. apply NoDup_app in Hn as (HnP & Hdis & HnT).
    apply not_elem_of_app in Hcl as [HcP HcT].
    assert (Hnc : n ≠ cur). { intros ->. apply HcP. sub_solver. }
    assert (HnT' : n ∉ ptrs T). { apply Hdis. sub_solver. }
    apply wp_bind. eapply wp_modbuf; [done|].
    eapply wp_modbuf; [cbn; rewrite lookup_insert_ne by done; exact Hcm|]. cbn [b_seq b_len]. split.
    + exists (tc_readBufHead x). rewrite set_head_id. constructor; cbn; [done| |done|done|].
      * apply lseg_app. exists cur. split.
        -- apply lseg_insert; [done|]. by eapply lseg_redirect.
        -- simpl. split_and!; [done..|]. eexists. rewrite lookup_insert_eq. split; [done|].
           by apply lseg_insert, lseg_insert.
      * apply (pool_ok_insert (w <| w_bufs ::= <[n := mk_buffer s0 (e0 - s0) cur]> |>)).
        -- apply pool_ok_insert; [done|]. rewrite Hnm. by eexists.
        -- cbn. rewrite lookup_insert_ne, Hcm by done. by eexists.
    + eapply rframe_trans; [eapply rframe_weaken; [|apply (rframe_bufs c w n)]; sub_solver|].
      eapply rframe_weaken; [|apply (rframe_bufs c _ cur)]. sub_solver.
Qed.
End loop.

(** ** Recording an interval *)

(** What other connections see: the nodes in use elsewhere and the other
    contexts are as before. *)
Record rkeep (c : Z) (L : list node) (w w' : world) : Prop := {
  rk_rest : w' = w <| w_bufs := w_bufs w' |> <| w_freeBufferList := w_freeBufferList w' |>
                   <| w_freeBufferCount := w_freeBufferCount w' |> <| w_brk := w_brk w' |>
                   <| w_ctxs := w_ctxs w' |>;
  rk_heap : ∀ p b, w_bufs w !! p = Some b → p ∉ ptrs L → p ∉ w_freeBufferList w →
                   w_bufs w' !! p = Some b ∧ p ∉ w_freeBufferList w';
  rk_other : ∀ c', c' ≠ c → ctx_at w' c' = ctx_at w c' }.

Lemma lseg_mono m m' p l q : m ⊆ m' → lseg m p l q → lseg m' p l q.
Proof.
  intros Hm. revert p. induction l as [|[n [s e]] l IH]; intros p; simpl; [done|].
  intros (-> & ? & nx & ? & ?). split_and!; [done..|]. exists nx.
  split; [by eapply lookup_weaken|auto].
Qed.

Lemma lseg_in m p l q n : lseg m p l q → n ∈ ptrs l → is_Some (m !! n).
Proof.
  revert p. induction l as [|[k [s e]] l IH]; intros p; simpl; [by intros _ ?%elem_of_nil|].
  intros (-> & ? & nx & ? & ?) [->|?]%elem_of_cons; eauto.
Qed.

Lemma rlist_length w c x L : rlist w c x L → (length L ≤ size (w_bufs w))%nat.
Proof.
  intros [Hc Hs Hn Hf Hp]. rewrite <- size_dom.
  replace (length L) with (size (list_to_set (ptrs L) : gset Z))
    by (rewrite size_list_to_set by done; unfold ptrs; by rewrite length_fmap).
  apply subseteq_size. intros p Hin%elem_of_list_to_set. apply elem_of_dom.
  by eapply lseg_in.
Qed.

(** A new node, detached from the list. *)
Lemma new_node_spec w c x L a b :
  rlist w c x L →
  wp (new_node a (b - a))
     (λ cur w', rlist w' c x L ∧ detached w' cur a b L ∧
        (cur ∈ w_freeBufferList w ∨ w_bufs w !! cur = None) ∧ rkeep c L w w') w.
Proof.
  intros [Hc Hs Hn Hf Hp]. apply wp_bind. eapply wp_mono; [by apply GetBuffer_spec|].
  intros cur w1 (Hp1 & [R1 B1 K1] & [y Hy] & Hnf & Hor & Hfree).
  apply wp_bind. eapply wp_modbuf; [done|]. apply wp_ret.
  assert (HcL : cur ∉ ptrs L).
  { intros Hin. destruct Hor as [?|Hno]; [by eapply Hf|].
    destruct (lseg_in _ _ _ _ _ Hs Hin) as [? ?]. congruence. }
  assert (Hctx : ∀ c', ctx_at w1 c' = ctx_at w c') by (intros; by rewrite R1).
  split_and!; [|split_and!|done|].
  - constructor; cbn.
    + by rewrite <- Hc, <- Hctx.
    + apply lseg_insert; [done|]. by eapply lseg_mono.
    + done.
    + intros p Hin Hpf. destruct (Hfree p Hpf) as [?|Hno]; [by eapply Hf|].
      destruct (lseg_in _ _ _ _ _ Hs Hin) as [? ?]. congruence.
    + by apply pool_ok_insert; [|rewrite Hy; eexists].
  - cbn. by rewrite lookup_insert_eq.
  - destruct (bp_brk _ Hp1 cur); [by eexists|]. unfold NULL. lia.
  - done.
  - done.
  - constructor; cbn.
    + rewrite R1. by destruct w.
    + intros p b' Hb HpL Hpf. assert (p ≠ cur) by (intros ->; destruct Hor; congruence).
      rewrite lookup_insert_ne by done. split; [by eapply lookup_weaken|].
      intros Hin. destruct (Hfree p Hin); congruence.
    + intros c' ?. by rewrite <- Hctx.
Qed.

Lemma rkeep_frame c L cur w w1 w2 :
  rkeep c L w w1 → rframe c (cur :: ptrs L) w1 w2 →
  (cur ∈ w_freeBufferList w ∨ w_bufs w !! cur = None) → rkeep c L w w2.
Proof.
  intros [R1 H1 O1] [R2 H2 O2] Hor. constructor.
  - rewrite R2, R1. by destruct w.
  - intros p b Hb HpL Hpf. destruct (H1 p b Hb HpL Hpf) as [E1 F1].
    destruct (H2 p) as [E2 F2].
    { intros [->|?]%elem_of_cons; [destruct Hor; congruence|done]. }
    rewrite E2, F2. done.
  - intros c' ?. by rewrite O2, O1.
Qed.

(** [record_interval] implements [ins]: the list in memory holds the intervals
    [ins a b] of the old list, the result is what was not covered before, and
    nothing else is disturbed. *)
Lemma record_interval_spec lo hi w c x L a b :
  in_range lo hi → rlist w c x L → gapped lo (ivs L) → bounded lo hi (ivs L) →
  lo ≤ a → a < b → b ≤ hi →
  wp (record_interval c a (b - a))
     (λ r w', ∃ h L', rlist w' c (x <| tc_readBufHead := h |>) L' ∧
        ivs L' = ins a b (ivs L) ∧
        (∃ a' b', (r.1, (a', b')) ∈ L' ∧ a' ≤ a ∧ b ≤ b') ∧
        r.2 = (b - a) - ins_overlap a b (ivs L) ∧ rkeep c L w w') w.
Proof.
  intros Hrange Hr Hg Hb ? ? ?. unfold record_interval.
  apply wp_bind. eapply wp_mono; [by apply new_node_spec|].
  intros cur w1 (Hr1 & Hd & Hor & Hk1). apply wp_bind. eapply wp_getctx; [apply Hr1|].
  apply wp_bind, wp_gets, wp_bind.
  rewrite (lseg_head _ _ _ (rl_seg _ _ _ _ Hr1)).
  eapply wp_mono.
  { eapply (unmerged_loop c lo hi Hrange L w1 x []); try done.
    - pose proof (rlist_length _ _ _ _ Hr1). lia.
    - by eexists.
    - by intros ? ? ?%elem_of_nil. }
  simpl app. intros s w2 [(h & L' & Hr2 & Hi & Hin & _ & Hf & Hm & Hw)|(-> & Hm & Hcur & Hw & P & T & EL & Hprev & Htemp & Hins & HP & HT)].
  - rewrite Hm. apply wp_bind, wp_ret, wp_ret. exists h, L'. split_and!; [done..|].
    by eapply rkeep_frame.
  - rewrite Hm. apply wp_bind. cbn in EL. subst L.
    eapply wp_mono; [by eapply (link_new_spec c lo hi Hrange)|].
    intros _ w2 ((h & Hr2) & Hf). apply wp_ret. exists h, (P ++ (cur, (a, b)) :: T).
    split_and!; [done| | |done|].
    + etrans; [|exact (eq_sym Hins)]. unfold ivs. by rewrite fmap_app.
    + exists a, b. cbn. rewrite Hcur. split_and!; [apply elem_of_app; right; left|lia|lia].
    + eapply rkeep_frame; [done| |done]. eapply rframe_weaken; [|done]. sub_solver.
Qed.
