(* ===== verification/Receiver.v ===== *)
(** * The receive side of a connection

    The abstract state of the receive side is a set of stream positions and the
    bytes at them; [rcv_ok] relates a context to it.  [HandleNormalPacket]
    implements the arrival of a segment: for every segment of the stream, in any
    order, it keeps the invariant, adds exactly the positions of the segment that
    fit in the window and advances the acknowledgement to the first position
    that is missing. *)

From S2P Require Import Prelude Double Header Context World ContextTable Pools RetransQueue.
From S2P Require Import Select Congestion Lifecycle Send Scenario Intervals Reassembly.

(** A stream: the byte at each position. *)
Definition stream := Z → Z.

(** [L] are the nodes of the interval list of the connection. *)
Record rcv_ok (w : world) (c : Z) (x : dtp_context) (S : stream) (L : list node) : Prop := {
  rc_buf : ∃ rb, tc_readBuf x = Some rb ∧ zlen rb = tc_readBufLen x ∧
             ∀ p, covered (ivs L) p → zget rb (p - tc_lastByteRead x) = S p;
  rc_list : rlist w c x L;
  rc_range : in_range (tc_lastByteRead x) (tc_lastByteRead x + tc_readBufLen x);
  rc_len : 0 < tc_readBufLen x;
  rc_gapped : gapped (tc_lastByteRead x) (ivs L);
  rc_bounded : bounded (tc_lastByteRead x) (tc_lastByteRead x + tc_readBufLen x) (ivs L);
  rc_next : next_ok (tc_lastByteRead x) (tc_nextByteExpected x) (ivs L);
  rc_last : tc_lastByteRcvd x = last_end (tc_nextByteExpected x) (ivs L) }.

Lemma rcv_next_le w c x S L :
  rcv_ok w c x S L → tc_lastByteRead x ≤ tc_nextByteExpected x ≤ tc_lastByteRead x + tc_readBufLen x.
Proof.
  intros [_ _ _ Hl _ Hb (HRN & Hc & _) _]. split; [done|].
  destruct (decide (tc_lastByteRead x < tc_nextByteExpected x)); [|lia].
  destruct (Hc (tc_nextByteExpected x - 1)) as (s & e & Hin & ?); [lia|].
  destruct (Hb _ _ Hin) as (_ & _ & ?). lia.
Qed.

(** ** Steps that only touch the context *)

Lemma rlist_ctx w c x x' L :
  rlist w c x L → tc_readBufHead x' = tc_readBufHead x →
  rlist (w <| w_ctxs ::= <[c := x']> |>) c x' L.
Proof.
  intros [Hc Hs Hn Hf Hp] E. constructor; cbn; [by eapply ctx_at_put|by rewrite E|done|done|].
  by eapply pool_ok_ext; [..|exact Hp].
Qed.

Lemma rkeep_refl c L w : rkeep c L w w.
Proof. constructor; [by destruct w|done|done]. Qed.

Lemma rkeep_ctx c L w w1 x : rkeep c L w w1 → rkeep c L w (w1 <| w_ctxs ::= <[c := x]> |>).
Proof.
  intros [R H O]. constructor; cbn; [rewrite R; by destruct w|done|].
  intros c' ?. rewrite ctx_at_put_ne by done. by apply O.
Qed.

Lemma rkeep_trans c L w1 w2 w3 : rkeep c L w1 w2 → rkeep c L w2 w3 → rkeep c L w1 w3.
Proof.
  intros [R1 H1 O1] [R2 H2 O2]. constructor.
  - rewrite R2, R1. by destruct w1.
  - intros p b Hb HpL Hpf. destruct (H1 p b Hb HpL Hpf) as [E1 F1]. by apply H2.
  - intros c' ?. by rewrite O2, O1.
Qed.

(** The node [cur] of a list: it is the last one iff its link is NULL. *)
Lemma rlist_node w c x L cur a b :
  rlist w c x L → (cur, (a, b)) ∈ L →
  ∃ nx l1 l2, w_bufs w !! cur = Some (mk_buffer a (b - a) nx) ∧
        ivs L = l1 ++ (a, b) :: l2 ∧ (nx = NULL ↔ l2 = []).
Proof.
  intros Hr (l1 & l2 & ->)%list_elem_of_split.
  destruct (rlist_alloc _ _ _ _ _ _ _ _ Hr) as (H0 & Hm & H1 & H2 & _).
  exists (head_ptr l2), (ivs l1), (ivs l2). split; [done|]. split; [unfold ivs; by rewrite fmap_app|].
  destruct l2 as [|[n [s e]] l2]; [done|]. split; [|done]. cbn. intros ->.
  rewrite cons_middle, app_assoc in Hr. by destruct (rlist_alloc _ _ _ _ _ _ _ _ Hr) as (? & _).
Qed.

Lemma ivs_in n iv L : (n, iv) ∈ L → iv ∈ ivs L.
Proof. intros Hin. unfold ivs. apply list_elem_of_fmap. by exists (n, iv). Qed.

(** [x] after [advance_window]: the next position moves to the end of the first
    interval [(s, e)] when that contains it, [b] is the end of the node the
    segment was recorded in. *)
Definition advanced (x : dtp_context) (s e : Z) (isLast : bool) (b : Z) : dtp_context :=
  let x := if (s <=? tc_nextByteExpected x) && (tc_nextByteExpected x <? e)
           then x <| tc_nextByteExpected := e |> else x in
  let x := if isLast then x <| tc_lastByteRcvd := b |> else x in
  if AdvertisedWindow x =? 0 then x <| tc_isMyWindowZero := true |> else x.

Lemma rlist_if w c x (f : dtp_context → dtp_context) (g : bool) L Q :
  rlist w c x L → tc_readBufHead (f x) = tc_readBufHead x →
  (∀ w', rlist w' c (if g then f x else x) L → (∀ L0, rkeep c L0 w w') → Q tt w') →
  wp (mwhen g (modctx c f)) Q w.
Proof.
  intros Hr Hh HQ. apply wp_when; intros ->.
  - eapply wp_modctx; [apply Hr|]. apply HQ; [by apply rlist_ctx with x|intros; apply rkeep_ctx, rkeep_refl].
  - apply HQ; [done|intros; apply rkeep_refl].
Qed.

Lemma advance_window_spec w c x L s e l cur a b hi :
  rlist w c x L → ivs L = (s, e) :: l → (cur, (a, b)) ∈ L →
  in_range s hi → bounded s hi (ivs L) →
  wp (advance_window c cur)
     (λ _ w', (∀ L0, rkeep c L0 w w') ∧
        ∃ isLast l1 l2, rlist w' c (advanced x s e isLast b) L ∧
          ivs L = l1 ++ (a, b) :: l2 ∧ (isLast = true ↔ l2 = [])) w.
Proof.
  intros Hr HL Hcur Hrange Hb. unfold advance_window.
  destruct L as [|[h iv] L]; [done|]. injection HL as -> HL.
  destruct (rlist_node _ _ _ _ h s e Hr) as (nxh & _ & _ & Hhm & _); [left|].
  assert (Hse : ∀ s' e', (s', e') ∈ ivs ((h, (s, e)) :: L) → 0 ≤ e' < 2 ^ 32).
  { intros s' e' Hin. destruct (Hb _ _ Hin) as (? & ? & ?). destruct Hrange. lia. }
  assert (Hhead : tc_readBufHead x = h) by (by destruct (rl_seg _ _ _ _ Hr)).
  assert (Hh0 : h ≠ NULL) by (by destruct (rl_seg _ _ _ _ Hr) as (_ & ? & _)).
  apply wp_bind. eapply wp_getctx; [apply Hr|]. rewrite Hhead, (proj2 (Z.eqb_neq _ _) Hh0).
  apply wp_bind. simpl mwhen at 1. apply wp_bind. eapply wp_getbuf; [done|].
  rewrite (buf_end_interval s e) by (eapply Hse; left). cbn [b_seq].
  eapply rlist_if; [done|done|]. intros w1 Hr1 Hk1.
  destruct (rlist_node _ _ _ _ cur a b Hr1) as (nx & l1 & l2 & Hcm & Hl & Hlast); [done|].
  apply wp_bind. eapply wp_getbuf; [done|].
  rewrite (buf_end_interval a b) by (by eapply Hse, ivs_in).
  cbn [b_next]. apply wp_bind. eapply rlist_if; [done|by case_match|]. intros w2 Hr2 Hk2.
  apply wp_bind. eapply wp_getctx; [apply Hr2|].
  apply wp_bind. eapply rlist_if; [done|by repeat case_match|]. intros w3 Hr3 Hk3.
  assert (Hfin : (∀ L0, rkeep c L0 w w3) ∧
    ∃ isLast l1 l2, rlist w3 c (advanced x s e isLast b) ((h, (s, e)) :: L) ∧
      ivs ((h, (s, e)) :: L) = l1 ++ (a, b) :: l2 ∧ (isLast = true ↔ l2 = [])).
  { split; [intros; eapply rkeep_trans; [done|]; by eapply rkeep_trans|].
    exists (nx =? NULL), l1, l2. split_and!; [done..|]. by rewrite Z.eqb_eq. }
  apply wp_when; intros _; [|done]. apply wp_bind.
  destruct (rlist_node _ _ _ _ h s e Hr3) as (nx3 & _ & _ & Hm3 & _); [left|].
  eapply wp_getbuf; [|by apply wp_ret]. rewrite <- Hm3. f_equal. rewrite <- Hhead. by repeat case_match.
Qed.

(** Only the receive side of the context differs. *)
Definition rcv_frame (x x' : dtp_context) : Prop :=
  x' = x <| tc_readBuf := tc_readBuf x' |> <| tc_readBufHead := tc_readBufHead x' |>
         <| tc_nextByteExpected := tc_nextByteExpected x' |>
         <| tc_lastByteRcvd := tc_lastByteRcvd x' |>
         <| tc_isMyWindowZero := tc_isMyWindowZero x' |>.

Lemma rcv_frame_advanced x rb h s e isLast b :
  rcv_frame x (advanced (x <| tc_readBuf := rb |> <| tc_readBufHead := h |>) s e isLast b).
Proof. unfold rcv_frame, advanced. destruct x. by repeat case_match. Qed.

Lemma advanced_fields x s e isLast b :
  let x' := advanced x s e isLast b in
  tc_readBuf x' = tc_readBuf x ∧ tc_readBufLen x' = tc_readBufLen x ∧
  tc_lastByteRead x' = tc_lastByteRead x ∧
  tc_nextByteExpected x' = (if bool_decide (s ≤ tc_nextByteExpected x < e) then e
                            else tc_nextByteExpected x) ∧
  tc_lastByteRcvd x' = (if isLast then b else tc_lastByteRcvd x).
Proof.
  assert (Hb : (s <=? tc_nextByteExpected x) && (tc_nextByteExpected x <? e)
          = bool_decide (s ≤ tc_nextByteExpected x < e)).
  { apply eq_true_iff_eq. rewrite andb_true_iff, Z.leb_le, Z.ltb_lt, bool_decide_eq_true. done. }
  unfold advanced. rewrite Hb. simpl. by destruct (bool_decide _), isLast; case_match.
Qed.

(** The end of the received data after a segment recorded in [(a', b')]. *)
Lemma last_end_record R d d' a b a' b' l l1 l2 (isLast : bool) :
  gapped R l → R ≤ a → a < b → ins a b l = l1 ++ (a', b') :: l2 → b ≤ b' →
  (isLast = true ↔ l2 = []) →
  (if isLast then b' else last_end d l) = last_end d' (ins a b l).
Proof.
  intros Hg Ha Hab E Hb' Hlast.
  assert (Hgi : gapped R (ins a b l)) by (by apply ins_gapped).
  pose proof (last_end_ins R d' a b l Hg Hab) as Hle. rewrite E in Hgi, Hle |- *.
  destruct (last_end_split _ d' _ _ _ _ Hgi) as [Hnil Hcons]. destruct isLast.
  - rewrite Hnil; [done|]. by apply Hlast.
  - assert (b' < last_end d' (l1 ++ (a', b') :: l2)).
    { apply Hcons. intros E2. by apply Hlast in E2. }
    destruct l as [|i l]; [|rewrite (last_end_cons b d) in Hle; lia]. simpl in Hle. lia.
Qed.

(** Storing the bytes of [[a, b)]: the invariant is kept, exactly these positions
    are added, the result is the number of those that were missing. *)
Lemma store_segment_spec w c x S L a b d :
  rcv_ok w c x S L →
  tc_lastByteRead x ≤ a → a < b → b ≤ tc_lastByteRead x + tc_readBufLen x →
  zlen d = b - a → (∀ i, 0 ≤ i < b - a → zget d i = S (a + i)) →
  wp (store_segment c (a - tc_lastByteRead x) a (b - a) d)
     (λ r w', ∃ x' L', rcv_ok w' c x' S L' ∧ ivs L' = ins a b (ivs L) ∧ rcv_frame x x' ∧
        r = total (ins a b (ivs L)) - total (ivs L) ∧ rkeep c L w w') w.
Proof.
  intros [(rb & Hrb & Hlen & Hdata) Hr Hrange Hpos Hg Hb Hnext Hlast] ? ? ? Hd HS.
  unfold store_segment. apply wp_bind. eapply wp_getctx; [apply Hr|]. rewrite Hrb.
  apply wp_bind. apply wp_block_write; [lia|lia|].
  apply wp_bind. eapply wp_modctx; [apply Hr|].
  set (rb' := zsplice (a - tc_lastByteRead x) d rb).
  set (x1 := set tc_readBuf (λ _, Some rb') x).
  assert (Hr1 : rlist (w <| w_ctxs ::= <[c := x1]> |>) c x1 L) by (by eapply rlist_ctx).
  apply wp_bind. eapply wp_mono.
  { eapply record_interval_spec; [exact Hrange|exact Hr1|done..]. }
  intros [cur wl] w2 (h & L' & Hr2 & HL' & (a' & b' & Hcur & Ha' & Hb') & Hwl & Hk). cbn [fst snd] in *.
  assert (Hgi : gapped (tc_lastByteRead x) (ins a b (ivs L))) by (by apply ins_gapped).
  assert (Hbi : bounded (tc_lastByteRead x) (tc_lastByteRead x + tc_readBufLen x) (ins a b (ivs L)))
    by (intros s e; by apply ins_bounds).
  destruct (ins a b (ivs L)) as [|[s e] l'] eqn:Ei; [by apply ins_not_nil in Ei|].
  apply wp_bind. eapply wp_mono.
  { eapply (advance_window_spec _ _ _ L' s e l' cur a' b' (tc_lastByteRead x + tc_readBufLen x));
      [done|done|done| |].
    - destruct (Hbi s e) as (? & ? & ?); [left|]. destruct Hrange. constructor; lia.
    - rewrite HL'. intros s' e' Hin. destruct (Hbi _ _ Hin) as (_ & ? & ?).
      pose proof (gapped_covered s ((s, e) :: l') s') as Hcov. split_and!; [|done..].
      apply Hcov; [simpl in *; split_and!; [lia|tauto..]|]. exists s', e'. split; [done|lia]. }
  intros _ w3 (Hk3 & isLast & l1 & l2 & Hr3 & Hsplit & Hisl). apply wp_ret.
  set (x3 := advanced _ _ _ _ _) in *.
  destruct (advanced_fields (set tc_readBufHead (λ _, h) x1) s e isLast b') as (F1 & F2 & F3 & F4 & F5).
  fold x3 in F1, F2, F3, F4, F5. subst x1. cbn in F1, F2, F3, F4, F5.
  exists x3, L'. split_and!; [|done|apply rcv_frame_advanced|rewrite <- Ei, ins_total; lia|].
  2:{ eapply rkeep_trans; [apply rkeep_ctx, rkeep_refl|]. by eapply rkeep_trans. }
  constructor; rewrite ?HL', ?F1, ?F2, ?F3, ?F5; [|done..| |].
  - exists rb'. split_and!; [done|subst rb'; rewrite zlen_splice; lia|]. intros p Hp.
    rewrite <- Ei in Hp. erewrite ins_covered in Hp by done. unfold rb'.
    destruct (decide (a ≤ p < b)) as [Hin|Hout].
    + rewrite zget_splice_in by lia. replace (S p) with (S (a + (p - a))) by (f_equal; lia).
      rewrite <- HS by lia. f_equal. lia.
    + destruct Hp as [Hp|?]; [|done]. rewrite zget_splice_out; [by apply Hdata|lia|lia| |lia].
      pose proof (gapped_covered _ _ _ Hg Hp). lia.
  - rewrite F4. apply next_ok_advance; [done|apply Hnext|]. intros p Hp. rewrite <- Ei.
    eapply ins_covered; [done..|]. left. by apply Hnext.
  - rewrite Hlast, <- Ei. eapply last_end_record; [done..| |done|done].
    rewrite Ei, <- HL'. done.
Qed.

(** ** A segment arrives *)

(** The receive side of two contexts agrees. *)
Definition same_rcv (x x' : dtp_context) : Prop :=
  tc_readBuf x' = tc_readBuf x ∧ tc_readBufHead x' = tc_readBufHead x ∧
  tc_readBufLen x' = tc_readBufLen x ∧ tc_lastByteRead x' = tc_lastByteRead x ∧
  tc_nextByteExpected x' = tc_nextByteExpected x ∧ tc_lastByteRcvd x' = tc_lastByteRcvd x.

Lemma rcv_ok_ctx w c x x' S L :
  rcv_ok w c x S L → same_rcv x x' → rcv_ok (w <| w_ctxs ::= <[c := x']> |>) c x' S L.
Proof.
  intros [Hb Hr H1 H2 H3 H4 H5 H6] (E1 & E2 & E3 & E4 & E5 & E6).
  constructor; rewrite ?E1, ?E3, ?E4, ?E5, ?E6; try done. by eapply rlist_ctx.
Qed.

Lemma wp_mod_rcv w c x f S L (Q : unit → world → Prop) :
  rcv_ok w c x S L → same_rcv x (f x) →
  (∀ w', rcv_ok w' c (f x) S L → ctx_at w' c = Some (f x) → (∀ L', rkeep c L' w w') → Q tt w') →
  wp (modctx c f) Q w.
Proof.
  intros Hok Hs HQ. pose proof (rc_list _ _ _ _ _ Hok) as Hr. eapply wp_modctx; [apply Hr|].
  apply HQ; [by eapply rcv_ok_ctx|by eapply ctx_at_put, Hr|].
  intros. apply rkeep_ctx, rkeep_refl.
Qed.

Lemma rcv_ok_at w c x S L : rcv_ok w c x S L → ctx_at w c = Some x.
Proof. intros Hok. apply (rc_list _ _ _ _ _ Hok). Qed.

(** The segment in [buf] carries the bytes of the stream at its positions. *)
Record carries (S : stream) (buf : bytes) (bodyLen : Z) : Prop := {
  ca_len : 0 < bodyLen < 2 ^ 31;
  ca_hdr : 0 ≤ GetHeaderLen buf;
  ca_block : GetHeaderLen buf + bodyLen ≤ zlen buf;
  ca_seq : 0 ≤ GetSeqNum buf;
  ca_end : GetSeqNum buf + bodyLen < 2 ^ 32;
  ca_bytes : ∀ i, 0 ≤ i < bodyLen → zget buf (GetHeaderLen buf + i) = S (GetSeqNum buf + i) }.

(** It lies within 2^31 positions of the receive window. *)
Record near (x : dtp_context) (buf : bytes) (bodyLen : Z) : Prop := {
  near_old : tc_nextByteExpected x - (GetSeqNum buf + bodyLen) < 2 ^ 31;
  near_new : GetSeqNum buf - (tc_lastByteRead x + tc_readBufLen x) < 2 ^ 31 }.

(** The part of the segment the window accepts. *)
Definition seg_start (x : dtp_context) (buf : bytes) : Z :=
  tc_nextByteExpected x `max` GetSeqNum buf.
Definition seg_end (x : dtp_context) (buf : bytes) (bodyLen : Z) : Z :=
  (tc_lastByteRead x + tc_readBufLen x) `min` (GetSeqNum buf + bodyLen).

Definition accept (x : dtp_context) (buf : bytes) (bodyLen : Z) (l : list (Z * Z)) : list (Z * Z) :=
  if bool_decide (seg_start x buf < seg_end x buf bodyLen)
  then ins (seg_start x buf) (seg_end x buf bodyLen) l else l.

(** What the header of the segment changes. *)
Definition note_header (x : dtp_context) (buf : bytes) : dtp_context :=
  let x := x <| tc_seqNum := GetSeqNum buf |>
             <| tc_rcvWindow := u32 (Z.shiftl (GetRcvdWindow buf) (tc_sendWindowScale x)) |> in
  (if tc_rcvWindow x =? 0 then x <| tc_isHerWindowZero := true |> else x)
    <| tc_recvAnyData := true |>.

Lemma note_header_rcv x buf : same_rcv x (note_header x buf).
Proof. unfold note_header, same_rcv. by case_match. Qed.

(** A state in which data is accepted. *)
Definition accepts_data (x : dtp_context) (buf : bytes) : Prop :=
  tc_state x ≠ SOCK_SYN_RCVD ∧ tc_state x ≠ SOCK_SYN_SENT ∧ IsSYNPacket buf = false ∧
  tc_isACKInserted x = false.

Lemma is_state_false s s' : s ≠ s' → is_state s s' = false.
Proof. intros. unfold is_state. by apply bool_decide_eq_false. Qed.

(** The computation of [start], [end] and [writeLen] is exact. *)
Lemma write_len_exact w c x S L buf bodyLen :
  rcv_ok w c x S L → carries S buf bodyLen → near x buf bodyLen →
  c_max (tc_nextByteExpected x) (GetSeqNum buf) = seg_start x buf ∧
  c__min (tc_lastByteRead x +u tc_readBufLen x) (GetSeqNum buf +u bodyLen) = seg_end x buf bodyLen ∧
  i32 (seg_end x buf bodyLen -u seg_start x buf) = seg_end x buf bodyLen - seg_start x buf ∧
  is_u32 (seg_start x buf) ∧
  (seg_start x buf < seg_end x buf bodyLen →
   i32 (seg_start x buf -u tc_lastByteRead x) = seg_start x buf - tc_lastByteRead x ∧
   i32 (seg_start x buf -u GetSeqNum buf) = seg_start x buf - GetSeqNum buf).
Proof.
  intros Hok [Hl Hh Hblk Hs He _] [Ho Hn]. pose proof (rcv_next_le _ _ _ _ _ Hok).
  destruct Hok as [_ _ [H1 H2 H3] H4 _ _ _ _]. unfold seg_start, seg_end.
  rewrite (u32_small (_ + tc_readBufLen x)), (u32_small (GetSeqNum buf + bodyLen)) by (unfold is_u32; lia).
  split_and!; [unfold c_max; case_cmp; lia|unfold c__min; case_cmp; lia| |unfold is_u32; lia|].
  - rewrite i32_sub_u32; [done|unfold is_i32; lia].
  - intros. split; (rewrite i32_sub_u32; [done|unfold is_i32; lia]).
Qed.

Lemma drop_ack_none w c x :
  ctx_at w c = Some x → tc_isACKInserted x = false →
  wp (drop_inserted_ack c) (λ _ w', w' = w) w.
Proof.
  intros Hx Hi. unfold drop_inserted_ack. apply wp_bind. eapply wp_getctx; [done|].
  rewrite Hi. by destruct (tc_packetQ x).
Qed.

Ltac seg_bounds :=
  repeat match goal with
  | v := seg_start _ _ |- _ => subst v
  | v := seg_end _ _ _ |- _ => subst v
  end; unfold seg_start, seg_end in *; lia.

(** The header of the segment is noted. *)
Lemma note_segment_spec w c x S L buf :
  rcv_ok w c x S L → accepts_data x buf →
  wp (note_segment c buf)
     (λ _ w', rcv_ok w' c (note_header x buf) S L ∧ ∀ L', rkeep c L' w w') w.
Proof.
  intros Hok (_ & _ & _ & Hack). apply wp_bind.
  eapply wp_mono; [by eapply drop_ack_none; [eapply rcv_ok_at|]|]. intros _ ? ->.
  apply wp_bind. eapply wp_mod_rcv; [done|done|]. intros w1 Hok1 _ Hk1.
  apply wp_bind. eapply wp_mod_rcv; [done|by unfold same_rcv; case_match|]. intros w2 Hok2 _ Hk2.
  eapply wp_mod_rcv; [done|done|]. intros w3 Hok3 _ Hk3. split; [done|].
  intros L'. eapply rkeep_trans; [apply Hk1|]. by eapply rkeep_trans.
Qed.

(** [HandleNormalPacket] on a segment of the stream: it returns, the invariant
    holds for the positions that were covered before and those of the segment
    that the window accepts, other connections are not touched, and the result
    is the number of new bytes when the segment reaches into the window. *)
Lemma HandleNormalPacket_spec w c x S L buf bodyLen :
  rcv_ok w c x S L → carries S buf bodyLen → near x buf bodyLen → accepts_data x buf →
  wp (HandleNormalPacket c buf bodyLen)
     (λ r w', ∃ x1 L', let x' := x1 <| tc_numPacketRcvd := tc_numPacketRcvd x + 1 |> in
        rcv_ok w' c x' S L' ∧ ivs L' = accept x buf bodyLen (ivs L) ∧
        rcv_frame (note_header x buf) x1 ∧
        (seg_start x buf < seg_end x buf bodyLen → r = total (ivs L') - total (ivs L)) ∧
        (seg_end x buf bodyLen ≤ seg_start x buf → r ≤ 0) ∧ rkeep c L w w') w.
Proof.
  intros Hok Hca Hnear Hacc. pose proof Hacc as (Hs1 & Hs2 & Hsyn & Hack).
  unfold HandleNormalPacket. apply wp_bind. eapply wp_getctx; [by eapply rcv_ok_at|].
  rewrite !is_state_false, Hsyn by done. cbn [orb].
  apply wp_bind. eapply wp_mono; [by eapply note_segment_spec|]. intros _ w3 [Hok3 Hk].
  set (x3 := note_header x buf) in *. apply wp_bind. eapply wp_getctx; [by eapply rcv_ok_at|].
  destruct (note_header_rcv x buf) as (E1 & E2 & E3 & E4 & E5 & E6). fold x3 in E1, E2, E3, E4, E5, E6.
  rewrite E3, E4, E5.
  destruct (write_len_exact _ _ _ _ _ _ _ Hok Hca Hnear) as (-> & -> & -> & _ & Hex).
  set (a := seg_start x buf) in *. set (b := seg_end x buf bodyLen) in *.
  unfold accept. fold a b. apply wp_bind. eapply wp_mono with (Q := λ r w', ∃ x1 L',
    rcv_ok w' c x1 S L' ∧ rcv_frame x3 x1 ∧ rkeep c L w w' ∧
    ivs L' = (if bool_decide (a < b) then ins a b (ivs L) else ivs L) ∧
    (a < b → r = total (ivs L') - total (ivs L)) ∧ (b ≤ a → r ≤ 0)).
  - destruct (Z.ltb_spec 0 (b - a)) as [Hpos|Hneg].
    + destruct (Hex ltac:(lia)) as [-> ->]. rewrite bool_decide_eq_true_2 by lia.
      destruct Hca as [? ? ? ? ? Hbytes]. pose proof (rcv_next_le _ _ _ _ _ Hok).
      apply wp_bind, wp_block_read; [seg_bounds..|]. rewrite <- E4. eapply wp_mono.
      { eapply store_segment_spec; [done|rewrite ?E3, ?E4; seg_bounds..| |].
        - rewrite zlen_slice; seg_bounds.
        - intros i Hi. rewrite zget_slice by seg_bounds.
          rewrite <- Z.add_assoc, Hbytes by seg_bounds. f_equal. lia. }
      intros r w4 (x4 & L' & Hok4 & HL' & Hfr & Hr & Hk4). exists x4, L'.
      split_and!; [done|done|by eapply rkeep_trans|done|by rewrite HL'|lia].
    + rewrite bool_decide_eq_false_2 by lia. apply wp_ret. exists x3, L.
      split_and!; [done| |done|done|lia|lia]. unfold rcv_frame. by destruct x3.
  - intros r w4 (x4 & L' & Hok4 & Hfr & Hk4 & HL' & Hr1 & Hr2). apply wp_bind.
    assert (En : tc_numPacketRcvd x4 = tc_numPacketRcvd x).
    { rewrite Hfr. transitivity (tc_numPacketRcvd x3); [done|]. subst x3. unfold note_header. by destruct (_ =? 0). }
    eapply wp_mod_rcv; [done|done|]. intros w5 Hok5 _ Hk5. apply wp_ret. rewrite En in Hok5.
    exists x4, L'. split_and!; [done..|]. by eapply rkeep_trans.
Qed.

(** The connection of the scenario. *)
Lemma conn_receiving S : rcv_ok (host conn) 5 conn S [].
Proof.
  pose proof conn_positions. constructor; [| |constructor; eval_facts|eval_facts|exact I| | |reflexivity].
  - exists (zeros DEF_READ_BUFLEN). split_and!; [reflexivity|eval_facts|]. by intros p ?%covered_nil.
  - constructor; [reflexivity|reflexivity|constructor|by intros ? ?%elem_of_nil|apply host_pools].
  - by intros ? ? ?%elem_of_nil.
  - split_and!; [eval_facts|intros; lia|apply covered_nil].
Qed.

(** C8: Receiving a segment implements the arrival of its bytes.  For a segment
    of the stream that lies within 2^31 of the window, in whatever order it comes:
    the receive side stays consistent (the buffer holds the stream at every
    position it covers, the intervals are ordered and apart, the acknowledgement
    is the first missing position); the positions gained are exactly those of the
    segment between the next expected one and the end of the window; and the
    result counts the gained bytes. *)
Theorem receive_refines w c x S L buf bodyLen :
  rcv_ok w c x S L → carries S buf bodyLen → near x buf bodyLen → accepts_data x buf →
  wp (HandleNormalPacket c buf bodyLen) (λ r w', ∃ x' L',
    rcv_ok w' c x' S L' ∧ tc_lastByteRead x' = tc_lastByteRead x ∧
    (∀ p, covered (ivs L') p ↔ covered (ivs L) p ∨ seg_start x buf ≤ p < seg_end x buf bodyLen) ∧
    (seg_start x buf < seg_end x buf bodyLen → r = total (ivs L') - total (ivs L))) w.
Proof.
  intros Hok Hca Hnear Hacc. eapply wp_mono; [by eapply HandleNormalPacket_spec|].
  intros r w' (x1 & L' & Hok' & HL' & Hfr & Hr & _ & _). eexists _, L'. split_and!; [exact Hok'| | |done].
  - rewrite Hfr. unfold note_header. by case_match.
  - intros p. rewrite HL'. unfold accept. case_bool_decide as Hlt; [|intuition lia].
    erewrite ins_covered; [tauto|apply (rc_gapped _ _ _ _ _ Hok)|done].
Qed.

(** A segment of 8 bytes at position 100. *)
Definition demo_segment : bytes :=
  (DTPGenerateHeader (zeros DTPHDRSIZE) 100 0 77 0 4096).1 ++ [1; 2; 3; 4; 5; 6; 7; 8].
Definition demo_stream : stream := λ p, p - 99.

Example receive_refines_witness :
  wp (HandleNormalPacket 5 demo_segment 8) (λ r w', ∃ x' L',
    rcv_ok w' 5 x' demo_stream L' ∧ tc_lastByteRead x' = tc_lastByteRead conn ∧
    (∀ p, covered (ivs L') p ↔
          covered (ivs []) p ∨ seg_start conn demo_segment ≤ p < seg_end conn demo_segment 8) ∧
    (seg_start conn demo_segment < seg_end conn demo_segment 8 → r = total (ivs L') - total (ivs []))) (host conn).
Proof.
  apply receive_refines.
  - apply conn_receiving.
  - constructor; try eval_facts. intros i Hi.
    assert (Hc : i = 0 ∨ i = 1 ∨ i = 2 ∨ i = 3 ∨ i = 4 ∨ i = 5 ∨ i = 6 ∨ i = 7) by lia.
    destruct_or! Hc; subst; reflexivity.
  - constructor; eval_facts.
  - unfold accepts_data. eval_facts.
Defined.

(** ** A segment far ahead *)

(** A difference that leaves the range of [int] comes back with the other sign. *)
Lemma i32_under x : - 2 ^ 32 ≤ x < - 2 ^ 31 → i32 x = x + 2 ^ 32.
Proof. intros. unfold i32. rewrite <- (Z.mod_unique (x + 2 ^ 31) (2 ^ 32) (-1) (x + 2 ^ 31 + 2 ^ 32)); lia. Qed.

Lemma i32_over x : 2 ^ 31 ≤ x < 2 ^ 32 → i32 x = x - 2 ^ 32.
Proof. intros. unfold i32. rewrite <- (Z.mod_unique (x + 2 ^ 31) (2 ^ 32) 1 (x + 2 ^ 31 - 2 ^ 32)); lia. Qed.

Lemma run_fails {A B} (m : M A) (k : A → M B) (Q : A → world → Prop) e w :
  wp m Q w → (∀ a w', Q a w' → k a w' = Err e) → (m ≫= k) w = Err e.
Proof. intros (a & w' & E & HQ)%wp_run Hk. unfold mbind, M_bind. rewrite E. by apply Hk. Qed.

Lemma block_write_before rb off d w : off < 0 → block_write (Some rb) off d w = Err OutOfBounds.
Proof.
  intros Hoff. unfold block_write. destruct (in_block off (zlen d) rb) eqn:E; [|done]. apply in_block_spec in E. lia.
Qed.

(** C26: A segment far ahead is not rejected.  Whatever the connection has received, for every
    segment that begins more than 2^31 positions behind the end of the receive window (and does
    not wrap around itself) the length computed in 32 bits is positive, and
    [HandleNormalPacket] copies from outside the packet or to outside the read buffer. *)
Theorem far_segment_overflows w c x S L buf bodyLen :
  rcv_ok w c x S L → accepts_data x buf → 0 ≤ bodyLen → GetSeqNum buf + bodyLen < 2 ^ 32 →
  tc_lastByteRead x + tc_readBufLen x + 2 ^ 31 < GetSeqNum buf →
  HandleNormalPacket c buf bodyLen w = Err OutOfBounds.
Proof.
  intros Hok Hacc Hb Hw Hfar. pose proof Hacc as (Hs1 & Hs2 & Hsyn & _). pose proof (rcv_next_le _ _ _ _ _ Hok).
  pose proof (rc_range _ _ _ _ _ Hok) as [? ? ?]. pose proof (rc_buf _ _ _ _ _ Hok) as (rb & Hrb & _ & _).
  unfold HandleNormalPacket. eapply run_fails; [eapply (wp_getctx c x (λ a w', a = x ∧ w' = w)); [by eapply rcv_ok_at|done]|].
  intros ? ? [-> ->]. rewrite !is_state_false, Hsyn by done. cbn [orb].
  eapply run_fails; [by eapply note_segment_spec|]. intros [] w3 [Hok3 _].
  pose proof (rcv_ok_at _ _ _ _ _ Hok3) as Hx3. destruct (note_header_rcv x buf) as (E1 & E2 & E3 & E4 & E5 & E6). set (x3 := note_header x buf) in *.
  eapply run_fails; [eapply (wp_getctx c x3 (λ a w', a = x3 ∧ w' = w3)); [exact Hx3|done]|].
  intros ? ? [-> ->]. rewrite E3, E4, E5. set (a := GetSeqNum buf) in *.
  assert (c_max (tc_nextByteExpected x) a = a) as -> by (unfold c_max; case_cmp; lia).
  assert (c__min (tc_lastByteRead x +u tc_readBufLen x) (a +u bodyLen) = tc_lastByteRead x + tc_readBufLen x) as ->
    by (rewrite !u32_small by (unfold is_u32; lia); unfold c__min; case_cmp; lia).
  rewrite !i32_u32, (i32_under (_ - a)), (i32_over (a - tc_lastByteRead x)), (proj2 (Z.ltb_lt 0 _)) by lia.
  unfold mbind at 1, M_bind at 1. unfold mbind at 1, M_bind at 1. unfold block_read at 1.
  destruct (in_block _ _ buf); [|done]. cbn [mret M_ret]. unfold store_segment, mbind, M_bind, getctx.
  rewrite Hx3, E1, Hrb, block_write_before by lia. done.
Qed.

(** The packet of the next position but 2^31 + 40000. *)
Definition far_packet : bytes := (DTPGenerateHeader (zeros DTPHDRSIZE) (2 ^ 31 + 40000) 0 77 0 4096).1 ++ [1; 2; 3; 4].

Example far_segment_overflows_witness : HandleNormalPacket 5 far_packet 4 (host conn) = Err OutOfBounds.
Proof.
  apply (far_segment_overflows (host conn) 5 conn (λ _, 0) []); [apply conn_receiving|unfold accepts_data; eval_facts|eval_facts..].
Defined.
