(* ===== verification/Transmit.v ===== *)
(** * The send side of a connection

    The abstract state of the send side is a stream and the positions that are
    acknowledged, sent and written; [snd_ok] relates a context to it.
    [DTPWriteAvail] implements the transmission of a range of the stream: every
    datagram it sends carries the bytes of the stream at its positions, the
    ranges follow each other, and neither the window of the peer nor the
    congestion window is exceeded. *)

From S2P Require Import Prelude Double Header Context World ContextTable Pools RetransQueue.
From S2P Require Import Select Congestion Lifecycle Send Scenario Intervals Reassembly Receiver.

(** A queued packet with the [n] bytes of the stream from [a]. *)
Record data_pkt (c : Z) (k : dtp_pkt) (a n : Z) : Prop := {
  dp_ctx : tp_ctx k = c;
  dp_seq : tp_seqNum k = a;
  dp_len : tp_len k = tp_headerLen k + n;
  dp_pos : 0 < n;
  dp_mtu : tp_len k ≤ DTP_MTU;
  dp_hlen : DTPHDRSIZE ≤ tp_headerLen k;
  dp_hdr : GetSeqNum (tp_header k) = a ∧ GetHeaderLen (tp_header k) = tp_headerLen k;
  dp_plain : IsSYNPacket (tp_header k) = false ∧ IsFINPacket (tp_header k) = false }.

(** The packets [q] carry the positions from [a] to [b]. *)
Fixpoint chain (m : gmap Z dtp_pkt) (c : Z) (q : list ptr) (a b : Z) : Prop :=
  match q with
  | [] => a = b
  | p :: q => ∃ k n, m !! p = Some k ∧ data_pkt c k a n ∧ chain m c q (a + n) b
  end.

(** The write buffer of a context holds the bytes of the stream from the first
    that is not acknowledged to the last that was written. *)
Record wr_ok (x : dtp_context) (S : stream) : Prop := {
  wr_buf : ∃ wb, tc_writeBuf x = Some wb ∧ zlen wb = tc_writeBufLen x ∧
             ∀ p, tc_lastByteAcked x ≤ p < tc_lastByteWritten x →
                  zget wb (p - tc_lastByteAcked x) = S p;
  wr_acked : 0 ≤ tc_lastByteAcked x ≤ tc_lastByteSent x;
  wr_sent : tc_lastByteSent x ≤ tc_lastByteWritten x;
  wr_room : tc_lastByteWritten x - tc_lastByteAcked x ≤ tc_writeBufLen x < 2 ^ 31;
  wr_wrap : tc_lastByteWritten x < 2 ^ 32 }.

(** The discipline of retransmission: only the first packet of a queue was ever
    sent again, and on a congested connection it was. *)
Definition fresh_pkt (m : gmap Z dtp_pkt) (p : ptr) : Prop :=
  ∃ k, m !! p = Some k ∧ tp_isRetrans k = false.

Definition retrans_ok (m : gmap Z dtp_pkt) (q : list ptr) (congested : bool) : Prop :=
  match q with
  | [] => congested = false
  | p :: l => (congested = true → ∃ k, m !! p = Some k ∧ tp_isRetrans k = true) ∧ Forall (fresh_pkt m) l
  end.

Record snd_ok (w : world) (c : Z) (x : dtp_context) (S : stream) : Prop := {
  sn_ctx : ctx_at w c = Some x;
  sn_wr : wr_ok x S;
  sn_chain : chain (w_pkts w) c (tc_packetQ x) (tc_lastByteAcked x) (tc_lastByteSent x);
  sn_nodup : NoDup (tc_packetQ x);
  sn_free : ∀ p, p ∈ tc_packetQ x → p ∉ w_freePacketList w;
  sn_pool : pkt_pool_ok w;
  sn_hdr : is_u32 (tc_nextByteExpected x) ∧ is_u32 (tc_flowID x);
  sn_retrans : retrans_ok (w_pkts w) (tc_packetQ x) (tc_isCongested x) }.

(** The datagram [d] is a segment with the [n] bytes of the stream from [a]. *)
Record is_segment (S : stream) (x : dtp_context) (d : datagram) (a n : Z) : Prop := {
  sg_size : 0 < n ≤ MAX_PAYLOAD;
  sg_seq : GetSeqNum (dg_data d) = a;
  sg_carries : carries S (dg_data d) n;
  sg_hdr : DTPHDRSIZE ≤ GetHeaderLen (dg_data d);
  sg_len : zlen (dg_data d) = GetHeaderLen (dg_data d) + n;
  sg_mtu : zlen (dg_data d) ≤ DTP_MTU;
  sg_plain : IsSYNPacket (dg_data d) = false ∧ IsFINPacket (dg_data d) = false;
  sg_dest : dg_addr d = tc_peerAddr x ∧ dg_sock d = tc_sock x }.

(** The datagrams [ds] carry the positions from [a] to [b], one after the
    other. *)
Fixpoint segments (S : stream) (x : dtp_context) (ds : list datagram) (a b : Z) : Prop :=
  match ds with
  | [] => a = b
  | d :: ds => ∃ n, is_segment S x d a n ∧ segments S x ds (a + n) b
  end.

Lemma segments_app S x ds1 ds2 a b c :
  segments S x ds1 a b → segments S x ds2 b c → segments S x (ds1 ++ ds2) a c.
Proof.
  revert a. induction ds1 as [|d ds1 IH]; intros a; simpl; [by intros ->|].
  intros (n & Hd & H1) H2. exists n. split; [done|]. by apply IH.
Qed.

Lemma chain_app m c q1 q2 a b :
  chain m c (q1 ++ q2) a b ↔ ∃ e, chain m c q1 a e ∧ chain m c q2 e b.
Proof.
  revert a. induction q1 as [|p q1 IH]; intros a; simpl.
  - split; [eauto|]. by intros (e & -> & ?).
  - setoid_rewrite IH. naive_solver.
Qed.

Lemma chain_le m c q a b : chain m c q a b → a ≤ b.
Proof.
  revert a. induction q as [|p q IH]; intros a; simpl; [lia|].
  intros (k & n & _ & [] & H). specialize (IH _ H). lia.
Qed.

Lemma chain_in m c q a b p :
  chain m c q a b → p ∈ q → ∃ k a' n, m !! p = Some k ∧ data_pkt c k a' n ∧ a ≤ a' ∧ a' + n ≤ b.
Proof.
  revert a. induction q as [|p' q IH]; intros a; [by intros _ ?%elem_of_nil|].
  intros (k & n & Hk & Hd & Hc) [->|Hp]%elem_of_cons.
  - exists k, a, n. pose proof (chain_le _ _ _ _ _ Hc). split_and!; [done..|lia|lia].
  - destruct (IH _ Hc Hp) as (k' & a' & n' & ? & ? & ? & ?). exists k', a', n'.
    destruct Hd. split_and!; [done..|lia|lia].
Qed.

(** A heap that keeps the packets of the queue. *)
Lemma chain_ext m m' c q a b :
  (∀ p k, p ∈ q → m !! p = Some k → m' !! p = Some k) → chain m c q a b → chain m' c q a b.
Proof.
  revert a. induction q as [|p q IH]; intros a Hm; simpl; [done|].
  intros (k & n & Hk & Hd & H). exists k, n. split_and!; [apply Hm; [left|done]|done|].
  apply IH; [|done]. intros. apply Hm; [by right|done].
Qed.

Lemma retrans_ext m m' q b :
  (∀ p k, p ∈ q → m !! p = Some k → m' !! p = Some k) → retrans_ok m q b → retrans_ok m' q b.
Proof.
  destruct q as [|p q]; simpl; [done|]. intros Hm [Hb Hq]. split.
  - intros (k & Hk & ?)%Hb. exists k. split; [apply Hm; [left|done]|done].
  - rewrite Forall_forall in Hq |- *. intros p' Hp'. destruct (Hq p' Hp') as (k & Hk & ?).
    exists k. split; [apply Hm; [by right|done]|done].
Qed.

Lemma retrans_weaken m q b b' : (b' = true → b = true) → retrans_ok m q b → retrans_ok m q b'.
Proof. destruct q as [|p q]; simpl; [destruct b'; naive_solver|]. naive_solver. Qed.

(** A new packet at the end, the first packet gone. *)
Lemma retrans_snoc m q p b : retrans_ok m q b → fresh_pkt m p → retrans_ok m (q ++ [p]) b.
Proof.
  destruct q as [|p' q]; simpl; [intros ->; by split|]. intros [Hb Hq] Hp. split; [done|].
  apply Forall_app. by split; [|apply Forall_singleton].
Qed.

Lemma retrans_tail m p q b : retrans_ok m (p :: q) b → retrans_ok m q false.
Proof. intros [_ Hq]. destruct q as [|p' q]; simpl; [done|]. apply Forall_cons in Hq as [_ Hq]. by split. Qed.

(** ** Frames *)

(** Only the heap of packets and its pool, connection [c] and input and output
    differ. *)
Record tx_frame (c : Z) (w w' : world) : Prop := {
  tx_rest : w' = w <| w_ctxs := w_ctxs w' |> <| w_pkts := w_pkts w' |>
         <| w_freePacketList := w_freePacketList w' |> <| w_freePktCount := w_freePktCount w' |>
         <| w_brk := w_brk w' |> <| w_rfds := w_rfds w' |> <| w_wfds := w_wfds w' |>
         <| w_isselectWaiting := w_isselectWaiting w' |> <| w_events := w_events w' |>
         <| w_sent := w_sent w' |> <| w_signals := w_signals w' |> <| w_errno := w_errno w' |>
         <| w_nclock := w_nclock w' |> <| w_nsend := w_nsend w' |> <| w_nrand := w_nrand w' |>;
  tx_other : ∀ c', c' ≠ c → ctx_at w' c' = ctx_at w c';
  tx_brk : w_brk w ≤ w_brk w' }.

#[export] Instance tx_frame_preorder c : PreOrder (tx_frame c).
Proof.
  split.
  - intros w. constructor; [by destruct w|done|done].
  - intros w1 w2 w3 [R1 O1 B1] [R2 O2 B2]. constructor; [|intros; by rewrite O2, O1|lia].
    rewrite R2, R1. by destruct w1.
Qed.

Lemma tx_io c w w' : io_frame w w' → tx_frame c w w'.
Proof. intros [E]. constructor; rewrite E; [by destruct w|done|done]. Qed.

Lemma tx_pool c w w' : pkt_pool_frame w w' → tx_frame c w w'.
Proof. intros [E H B]. constructor; [|intros; by rewrite E|done]. rewrite E. by destruct w. Qed.

(** Only packet [p], connection [c] and the clock differ. *)
Record local_to (c : Z) (p : ptr) (w w' : world) : Prop := {
  lo_rest : w' = w <| w_ctxs := w_ctxs w' |> <| w_pkts := w_pkts w' |> <| w_nclock := w_nclock w' |>;
  lo_other : ∀ c', c' ≠ c → ctx_at w' c' = ctx_at w c';
  lo_pkts : ∀ q, q ≠ p → w_pkts w' !! q = w_pkts w !! q }.

#[export] Instance local_to_preorder c p : PreOrder (local_to c p).
Proof.
  split.
  - intros w. constructor; [by destruct w|done|done].
  - intros w1 w2 w3 [R1 O1 B1] [R2 O2 B2].
    constructor; [|intros; by rewrite O2, O1|intros; by rewrite B2, B1].
    rewrite R2, R1. by destruct w1.
Qed.

Lemma tx_local c p w w' : local_to c p w w' → tx_frame c w w'.
Proof. intros [E H B]. constructor; [|done|by rewrite E]. rewrite E. by destruct w. Qed.

Lemma local_same c p w w' :
  local_to c p w w' → w_freePacketList w' = w_freePacketList w ∧ w_sent w' = w_sent w.
Proof. intros [E _ _]. rewrite E. done. Qed.

Lemma local_ctx c p w x : local_to c p w (w <| w_ctxs ::= <[c := x]> |>).
Proof. constructor; [by destruct w|intros; by apply ctx_at_put_ne|done]. Qed.

Lemma local_pkt c p w k : local_to c p w (w <| w_pkts ::= <[p := k]> |>).
Proof. constructor; [by destruct w|done|]. intros. cbn. by rewrite lookup_insert_ne. Qed.

Lemma pool_local c p w w' k k' :
  local_to c p w w' → w_pkts w !! p = Some k → w_pkts w' !! p = Some k' →
  zlen (tp_header k') = TP_HEADER_SIZE → pkt_pool_ok w → pkt_pool_ok w'.
Proof.
  intros [E _ Hp] Hk Hk' Hl [P1 P2 P3 P4 P5 P6].
  assert (Hsome : ∀ q, is_Some (w_pkts w' !! q) ↔ is_Some (w_pkts w !! q)).
  { intros q. destruct (decide (q = p)) as [->|]; [|by rewrite Hp].
    rewrite Hk, Hk'. split; by eexists. }
  assert (E1 : w_freePacketList w' = w_freePacketList w) by (by rewrite E).
  assert (E2 : w_freePktCount w' = w_freePktCount w) by (by rewrite E).
  assert (E3 : w_brk w' = w_brk w) by (by rewrite E).
  constructor; rewrite ?E1, ?E2, ?E3; try done.
  - intros q Hq. by apply Hsome, P2.
  - intros q Hq. by apply P4, Hsome.
  - intros q y Hy. destruct (decide (q = p)) as [->|]; [by simplify_eq|].
    rewrite Hp in Hy by done. by eapply P6.
Qed.

(** ** Building a segment *)

Section env.
Context {env : Env} {up : NetUp env}.

(** The flags of a data segment. *)
Definition data_flags (flags : Z) : Prop :=
  flags = 0 ∨ flags = DTP_FLAG_ACK ∨ flags = DTP_FLAG_AUTH ∨ flags = Z.lor DTP_FLAG_ACK DTP_FLAG_AUTH.

Lemma data_flags_clear flags :
  data_flags flags →
  flag_set flags DTP_FLAG_SYN = false ∧ flag_set flags DTP_FLAG_FIN = false ∧
  data_flags (Z.ldiff flags (Z.lor DTP_FLAG_SYN (Z.lor DTP_FLAG_ACK DTP_FLAG_AUTH))).
Proof using. intros [->|[->|[->| ->]]]; (split_and!; [done|done|by left]). Qed.

(** What the header of a new segment says. *)
Record seg_header (h : bytes) (seq n : Z) : Prop := {
  sh_len : zlen h = TP_HEADER_SIZE;
  sh_seq : GetSeqNum h = seq;
  sh_hlen : GetHeaderLen h = n;
  sh_plain : IsSYNPacket h = false ∧ IsFINPacket h = false;
  sh_range : DTPHDRSIZE ≤ n ≤ DTPHDRSIZE + 4 }.

Lemma seg_header_of h seq ack fid flags win n :
  data_flags flags → zlen h = TP_HEADER_SIZE → DTPHDRSIZE ≤ n ≤ DTPHDRSIZE + 4 →
  read_header h = sent_header seq ack fid flags win n → seg_header h seq n.
Proof using.
  intros Hf Hl Hr E. destruct (data_flags_clear _ Hf) as (Hs & Hfi & _).
  unfold read_header, sent_header in E. injection E as _ E2 _ _ E5 _ _ _ _ _ E11 E12.
  constructor; [done..| |done]. by rewrite E11, E12.
Qed.

Lemma add_option_wp w p k os n op size data (Q : Z → world → Prop) :
  w_pkts w !! p = Some k → zlen (tp_header k) = TP_HEADER_SIZE → hdr_with os (tp_header k) n →
  option_size op = Some size → size - 2 ≤ zlen data → n + size ≤ 60 →
  (∀ h, hdr_with (os ++ [(op, zslice 0 (size - 2) data)]) h (n + size) → same_fixed (tp_header k) h →
     Q (n + size) (w <| w_pkts ::= <[p := k <| tp_header := h |>]> |>)) →
  wp (add_option p n op data) Q w.
Proof using.
  intros Hk Hl Hw Hs Hd H60 HQ.
  destruct (add_option_spec os (tp_header k) n op size data Hw Hs Hd) as (h & E & Hw' & Hsf);
    [rewrite Hl; unfold TP_HEADER_SIZE; lia|done|].
  apply wp_bind. eapply wp_getpkt; [done|]. apply wp_bind. eapply wp_lift; [exact E|].
  apply wp_bind. eapply wp_modpkt; [done|]. apply wp_ret. by apply HQ.
Qed.

Lemma build_header w c x p k flags (Q : Z → world → Prop) :
  ctx_at w c = Some x → w_pkts w !! p = Some k → zlen (tp_header k) = TP_HEADER_SIZE →
  data_flags flags → is_u32 (tc_lastByteSent x) → is_u32 (tc_nextByteExpected x) → is_u32 (tc_flowID x) →
  (∀ w' h n, local_to c p w w' → ctx_at w' c = Some (x <| tc_isFirstPacketSent := true |>) →
     w_pkts w' !! p = Some (k <| tp_header := h |>) → seg_header h (tc_lastByteSent x) n → Q n w') →
  wp (n ← generate_header p (tc_lastByteSent x) (tc_nextByteExpected x) (tc_flowID x) flags
            (AdvertisedWindow x);
      segment_options c p flags n) Q w.
Proof using.
  intros Hx Hk Hl Hf Hs Hn Hi HQ. destruct (data_flags_clear _ Hf) as (Hsyn & _ & _).
  pose proof (window_nonneg x) as Hwin.
  assert (H20 : DTPHDRSIZE ≤ zlen (tp_header k)) by (rewrite Hl; done).
  pose proof (header_roundtrip _ _ _ _ flags _ H20 Hs Hn Hi Hwin) as Hrt.
  pose proof (hdr_with_generate _ _ _ _ flags _ H20 Hs Hn Hi Hwin) as Hw0.
  pose proof (zlen_GenerateHeader _ (tc_lastByteSent x) (tc_nextByteExpected x) (tc_flowID x) flags
                (AdvertisedWindow x) H20) as Hl0.
  unfold generate_header. apply wp_bind, wp_bind. eapply wp_getpkt; [done|].
  destruct (DTPGenerateHeader _ _ _ _ _ _) as [h sz] eqn:Eh. cbn [fst] in *.
  assert (sz = DTPHDRSIZE) as -> by (by injection Eh). rewrite Hl in Hl0.
  apply wp_bind. eapply wp_modpkt; [done|]. apply wp_ret.
  set (k1 := set tp_header _ k). set (w1 := set w_pkts _ w).
  assert (L1 : local_to c p w w1) by apply local_pkt.
  assert (Hk1 : w_pkts w1 !! p = Some k1) by (cbn; apply lookup_insert_eq).
  unfold segment_options. apply wp_bind. eapply wp_getctx; [exact Hx|]. rewrite Hsyn.
  apply wp_bind, wp_ret. destruct (tc_isFirstPacketSent x) eqn:Hfst; simpl negb.
  - apply wp_bind, wp_ret, wp_ret. change (align4 DTPHDRSIZE) with DTPHDRSIZE.
    apply (HQ w1 h); [done| |done|by eapply seg_header_of].
    replace (x <| tc_isFirstPacketSent := true |>) with x; [done|]. rewrite <- Hfst. by destruct x.
  - apply wp_bind, wp_bind. destruct (0 <? tc_recvWindowScale x).
    + eapply (add_option_wp _ _ k1 [] DTPHDRSIZE DTPOPT_WIN_SCALE 3); [done|done|done|done|done|done|].
      intros h' Hw' Hsf. set (w2 := set w_pkts _ w1).
      assert (L2 : local_to c p w1 w2) by apply local_pkt.
      apply wp_bind. eapply wp_modctx; [exact Hx|]. apply wp_ret, wp_ret.
      pose proof (read_header_options _ _ _ _ _ _ _ _ _ _ Hsf Hw' Hrt) as Hrt'.
      change (align4 (DTPHDRSIZE + 3)) with 24 in *.
      eapply (HQ _ h'); [|by eapply ctx_at_put|cbn; by rewrite lookup_insert_eq|
        eapply seg_header_of; [done| |done|done]].
      * etrans; [exact L1|]. etrans; [exact L2|]. apply local_ctx.
      * by rewrite (sf_len _ _ Hsf).
    + apply wp_ret. apply wp_bind. eapply wp_modctx; [exact Hx|]. apply wp_ret, wp_ret.
      change (align4 DTPHDRSIZE) with DTPHDRSIZE.
      eapply (HQ _ h); [|by eapply ctx_at_put|exact Hk1|by eapply seg_header_of].
      etrans; [exact L1|]. apply local_ctx.
Qed.

(** ** One segment *)

Lemma DTPInsertPacket_wp w c x p k len hlen (Q : unit → world → Prop) :
  ctx_at w c = Some x → w_pkts w !! p = Some k → tp_ctx k = c →
  (∀ w' tv, local_to c p w w' → ctx_at w' c = Some x →
     w_pkts w' !! p = Some (k <| tp_seqNum := tc_lastByteSent x |> <| tp_len := len |>
                              <| tp_headerLen := hlen |> <| tp_time := tv |> <| tp_isRetrans := false |>) →
     Q tt w') →
  wp (DTPInsertPacket p len hlen) Q w.
Proof using.
  intros Hx Hk Hc HQ. apply wp_bind. eapply wp_getpkt; [done|]. rewrite Hc.
  apply wp_bind. eapply wp_getctx; [done|]. apply wp_bind. unfold wp at 1, gettimeofday.
  eapply wp_modpkt; [exact Hk|]. eapply HQ; [|exact Hx|cbn; apply lookup_insert_eq].
  constructor; [by destruct w|done|]. intros q ?. cbn. by rewrite lookup_insert_ne.
Qed.

(** The bytes of a data packet of the queue: its header and the bytes of the
    write buffer at its positions. *)
Lemma packet_bytes w c x S p k a n :
  ctx_at w c = Some x → wr_ok x S → w_pkts w !! p = Some k → data_pkt c k a n → zlen (tp_header k) = TP_HEADER_SIZE →
  tc_lastByteAcked x ≤ a → a + n ≤ tc_lastByteWritten x →
  ∃ d, (∀ w', io_frame w w' →
          DTPGeneratePacket p (from_write_buf c (a - tc_lastByteAcked x)) w' = Ok (d, w')) ∧
       zlen d = tp_len k ∧ is_segment S x (mk_datagram (tc_sock x) (tc_peerAddr x) d) a n.
Proof using.
  intros Hx [(wb & Hwb & Hwl & Hdata) ? ? ? ?] Hk [Hc Hs Hl Hn Hm Hh [Hs' Hh'] Hpl] Hz Ha Hb.
  set (d := zslice 0 (tp_headerLen k) (tp_header k) ++ zslice (a - tc_lastByteAcked x) n wb).
  assert (Hzh : tp_headerLen k ≤ zlen (tp_header k)).
  { rewrite Hz. unfold TP_HEADER_SIZE, DTP_MTU in *. lia. }
  assert (Hzd : zlen d = tp_len k).
  { unfold d. unfold DTPHDRSIZE in *. rewrite zlen_app, !zlen_slice by lia. lia. }
  pose proof (read_header_prefix (tp_headerLen k) (tp_header k) (zslice (a - tc_lastByteAcked x) n wb))
    as Hrh. fold d in Hrh. specialize (Hrh ltac:(unfold DTPHDRSIZE in *; lia)).
  unfold read_header in Hrh. injection Hrh as _ E2 _ _ E5 _ _ _ _ _ E11 E12.
  exists d. split_and!; [|done|].
  - intros w' Hio.
    assert (Hrun : wp (DTPGeneratePacket p (from_write_buf c (a - tc_lastByteAcked x)))
                     (λ r w'', r = d ∧ w'' = w') w').
    { apply wp_bind. eapply wp_getpkt; [destruct Hio as [->]; exact Hk|].
      apply wp_bind, wp_block_read; [unfold DTPHDRSIZE in *; lia..|]. apply wp_bind, wp_bind.
      eapply wp_getctx; [by rewrite (io_ctx _ _ c Hio)|]. rewrite Hwb.
      replace (tp_len k - tp_headerLen k) with n by lia. apply wp_block_read; [lia..|]. by apply wp_ret. }
    apply wp_run in Hrun as (? & ? & -> & -> & ->). done.
  - constructor; cbn [dg_data dg_addr dg_sock]; rewrite ?E2, ?E5, ?E11, ?E12, ?Hzd, ?Hs', ?Hh';
      try done; try (unfold MAX_PAYLOAD, DTPHDRSIZE, DTP_MTU in *; lia).
    constructor; rewrite ?E2, ?E5, ?Hs', ?Hh'; unfold DTPHDRSIZE, DTP_MTU in *; try lia.
    intros i Hi. unfold d. unfold zget at 1. rewrite app_nth2;
      [|pose proof (zlen_slice 0 (tp_headerLen k) (tp_header k) ltac:(lia) ltac:(lia) ltac:(lia)); unfold zlen in *; lia].
    pose proof (zlen_slice 0 (tp_headerLen k) (tp_header k) ltac:(lia) ltac:(lia) ltac:(lia)) as Hsl.
    replace (Z.to_nat (tp_headerLen k + i) - length (zslice 0 (tp_headerLen k) (tp_header k)))%nat
      with (Z.to_nat i) by (unfold zlen in Hsl; lia).
    fold (zget (zslice (a - tc_lastByteAcked x) n wb) i). rewrite zget_slice by lia.
    rewrite <- Hdata by lia. f_equal. lia.
Qed.

End env.

(** A packet in use stays as it is and stays in use. *)
Definition pkeep (w w' : world) : Prop :=
  ∀ q k, w_pkts w !! q = Some k → q ∉ w_freePacketList w →
         w_pkts w' !! q = Some k ∧ q ∉ w_freePacketList w'.

Lemma pkeep_trans w1 w2 w3 : pkeep w1 w2 → pkeep w2 w3 → pkeep w1 w3.
Proof. intros H1 H2 q k Hk Hq. destruct (H1 q k Hk Hq). by apply H2. Qed.

Lemma pkeep_io w w' : io_frame w w' → pkeep w w'.
Proof. intros [->] q k Hk Hq. done. Qed.

(** [w2] is [w] with a packet taken from the pool, after which only that packet
    was changed. *)
Lemma pkeep_local c p w w1 w2 :
  pkt_pool_frame w w1 → (p ∈ w_freePacketList w ∨ w_pkts w !! p = None) →
  (∀ q, q ∈ w_freePacketList w1 → q ∈ w_freePacketList w ∨ w_pkts w !! q = None) →
  local_to c p w1 w2 → pkeep w w2.
Proof.
  intros [_ Hsub _] Hp Hfree [E _ Hl] q k Hk Hq.
  assert (Hqp : q ≠ p) by (intros ->; naive_solver).
  rewrite Hl by done. split; [by eapply lookup_weaken|].
  replace (w_freePacketList w2) with (w_freePacketList w1) by (by rewrite E).
  intros [?|?]%Hfree; congruence.
Qed.

(** The context after a segment of [n] bytes was sent as packet [p]. *)
Definition sent_one (x : dtp_context) (p : ptr) (n : Z) : dtp_context :=
  x <| tc_isFirstPacketSent := true |> <| tc_packetQ := tc_packetQ x ++ [p] |>
    <| tc_recvAnyData := false |> <| tc_segSent := tc_segSent x + n |>
    <| tc_lastByteSent := tc_lastByteSent x + n |>.

Lemma snd_ok_sent w c x S w' p k n :
  snd_ok w c x S → pkeep w w' → pkt_pool_ok w' → ctx_at w' c = Some (sent_one x p n) →
  w_pkts w' !! p = Some k → tp_isRetrans k = false → p ∉ w_freePacketList w' → p ∉ tc_packetQ x →
  data_pkt c k (tc_lastByteSent x) n → tc_lastByteSent x + n ≤ tc_lastByteWritten x →
  snd_ok w' c (sent_one x p n) S.
Proof.
  intros [_ [H1 H2 H3 H4 H5] Hch Hnd Hfr Hpo Hh Hre] Hk Hp Hx Hpk Hpr Hpf Hpq Hd Hn. constructor; try done.
  - destruct Hd. constructor; cbn; done || lia.
  - cbn. apply chain_app. exists (tc_lastByteSent x). split; [|exists k, n; done].
    eapply chain_ext; [|done]. intros q k' Hq Hk'. by apply (Hk q k'); [|apply Hfr].
  - cbn. apply NoDup_app. split_and!; [done| |apply NoDup_singleton]. set_solver.
  - cbn. intros q [Hq|Hq%list_elem_of_singleton]%elem_of_app; [|by subst].
    destruct (chain_in _ _ _ _ _ _ Hch Hq) as (k' & a & n' & Hk' & _).
    apply (Hk q k' Hk'). by apply Hfr.
  - cbn. apply retrans_snoc; [|by exists k]. eapply retrans_ext; [|exact Hre].
    intros q k' Hq Hk'. by apply (Hk q k'); [|apply Hfr].
Qed.

Section transmit.
Context {env : Env} {up : NetUp env}.

(** One segment is built, queued and sent. *)
Lemma send_segment_spec w c x S flags len :
  snd_ok w c x S → tc_state x ≠ SOCK_SYN_SENT → data_flags flags →
  0 < len ≤ tc_lastByteWritten x - tc_lastByteSent x →
  wp (send_segment c flags len) (λ r w', ∃ n p d, r = Some n ∧ 0 < n ≤ len ∧
    snd_ok w' c (sent_one x p n) S ∧ w_sent w' = w_sent w ++ [d] ∧
    is_segment S x d (tc_lastByteSent x) n ∧ tx_frame c w w' ∧ pkeep w w') w.
Proof using up.
  intros Hok Hst Hfl Hlen.
  pose proof Hok as [Hx Hwr Hch Hnd Hfr Hpo [Hnx Hid]]. pose proof Hwr as [_ Hac Hse Hro Hwp].
  unfold send_segment. apply wp_bind. eapply wp_mono; [by apply DTPGetIdlePacket_spec|].
  intros p w1 (Hpo1 & Hf1 & [k Hk] & Hpf & Hpn & Hfree).
  assert (Hx1 : ctx_at w1 c = Some x) by (destruct Hf1 as [-> _ _]; exact Hx).
  assert (Hpq : p ∉ tc_packetQ x).
  { intros Hin. destruct (chain_in _ _ _ _ _ _ Hch Hin) as (k' & _ & _ & Hk' & _).
    destruct Hpn as [?|?]; [by eapply Hfr|congruence]. }
  assert (Hs1 : w_sent w1 = w_sent w) by (destruct Hf1 as [-> _ _]; done).
  pose proof (pp_hdr _ Hpo1 _ _ Hk) as Hhl.
  apply wp_bind. eapply wp_getctx; [done|].
  apply wp_assoc. eapply build_header; [done|done|done|done|unfold is_u32; lia|done|done|].
  intros w2 h hn L2 Hx2 Hk2 [Hh1 Hh2 Hh3 Hh4 Hh5]. rewrite (is_state_false _ _ Hst).
  set (n := if len <=? DTP_MTU - hn then len else DTP_MTU - hn).
  assert (Hn : 0 < n ≤ len ∧ hn + n ≤ DTP_MTU).
  { unfold n. destruct (Z.leb_spec len (DTP_MTU - hn)); unfold DTPHDRSIZE, DTP_MTU in *; lia. }
  destruct Hn as [Hn Hmtu]. apply wp_bind. eapply wp_modpkt; [done|].
  set (k3 := set tp_ctx _ _). set (w3 := set w_pkts _ w2).
  assert (L3 : local_to c p w2 w3) by apply local_pkt.
  apply wp_bind. eapply (DTPInsertPacket_wp w3 c _ p k3);
    [exact Hx2|cbn; apply lookup_insert_eq|done|]. intros w4 tv L4 Hx4 Hk4.
  set (k4 := set tp_isRetrans _ _) in Hk4.
  apply wp_bind. eapply wp_modctx; [exact Hx4|]. set (x5 := set tc_packetQ _ _). set (w5 := set w_ctxs _ w4).
  assert (L5 : local_to c p w1 w5).
  { etrans; [exact L2|]. etrans; [exact L3|]. etrans; [exact L4|]. apply local_ctx. }
  assert (Hdp : data_pkt c k4 (tc_lastByteSent x) n).
  { constructor; try done; cbn; try lia. }
  assert (Hk5 : w_pkts w5 !! p = Some k4) by exact Hk4.
  assert (Hx5 : ctx_at w5 c = Some x5) by (by eapply ctx_at_put).
  destruct (packet_bytes w5 c x5 S p k4 (tc_lastByteSent x) n) as (d & Hd & Hdl & Hseg);
    [done|by destruct Hwr|done|done|done|unfold x5; cbn; lia|unfold x5; cbn; lia|].
  assert (Eoff : GetWriteBufLastByteSentOff x = tc_lastByteSent x - tc_lastByteAcked x).
  { unfold GetWriteBufLastByteSentOff. apply u32_small. unfold is_u32. lia. }
  apply wp_bind. rewrite Eoff. eapply io_send; [exact Hd|exact Hdl|]. intros w6 Hio Hs6.
  apply wp_bind, wp_gets. rewrite (proj2 (Z.eqb_neq (hn + n) (-1))) by (unfold DTPHDRSIZE in *; lia).
  cbn [andb]. replace (hn + n - hn) with n by lia.
  apply wp_bind. eapply wp_modctx; [by rewrite (io_ctx _ _ c Hio)|]. apply wp_ret.
  rewrite u32_small by (cbn; unfold is_u32; lia). set (w7 := set w_ctxs _ w6).
  destruct (local_same _ _ _ _ L5) as [Hfl5 Hst5]. exists n, p, (mk_datagram (tc_sock x) (tc_peerAddr x) d).
  assert (Hk7 : pkeep w w7).
  { eapply pkeep_trans; [exact (pkeep_local c p w w1 w5 Hf1 Hpn Hfree L5)|exact (pkeep_io _ _ Hio)]. }
  assert (Hp7 : w_pkts w7 !! p = Some k4) by (cbn; destruct Hio as [->]; exact Hk5).
  split_and!; [done|lia|lia| | |by destruct Hseg| |done].
  - eapply snd_ok_sent; [done|done| | |exact Hp7|done| |done|done|lia].
    + assert (Hpo5 : pkt_pool_ok w5) by (eapply pool_local; [exact L5|exact Hk|exact Hk5|done|done]).
      destruct Hpo5 as [P1 P2 P3 P4 P5 P6]. destruct Hio as [Eio]. unfold w7.
      constructor; cbn; rewrite Eio; done.
    + by eapply ctx_at_put; rewrite (io_ctx _ _ c Hio).
    + replace (w_freePacketList w7) with (w_freePacketList w5); [by rewrite Hfl5|]. cbn.
      by destruct Hio as [->].
  - change (w_sent w7) with (w_sent w6). by rewrite Hs6, Hst5, Hs1.
  - etrans; [by apply tx_pool|]. etrans; [by eapply tx_local|]. etrans; [by apply tx_io|].
    apply (tx_local _ p), local_ctx.
Qed.

(** [x'] is [x] after segments with [n] bytes in all were sent. *)
Definition sent_many (x x' : dtp_context) (n : Z) : Prop :=
  x' = x <| tc_isFirstPacketSent := tc_isFirstPacketSent x' |> <| tc_packetQ := tc_packetQ x' |>
         <| tc_recvAnyData := tc_recvAnyData x' |> <| tc_segSent := tc_segSent x + n |>
         <| tc_lastByteSent := tc_lastByteSent x + n |>.

Lemma segments_dest S x x' ds a b :
  tc_peerAddr x' = tc_peerAddr x → tc_sock x' = tc_sock x → segments S x' ds a b → segments S x ds a b.
Proof using.
  intros Ea Es. revert a. induction ds as [|d ds IH]; intros a; simpl; [done|].
  intros (n & [] & H). exists n. split; [|by apply IH]. rewrite Ea, Es in *. done.
Qed.

(** The loop sends what may be sent, in order, and stops. *)
Lemma send_segments_spec fuel w c x S flags len :
  snd_ok w c x S → tc_state x ≠ SOCK_SYN_SENT → data_flags flags →
  len ≤ tc_lastByteWritten x - tc_lastByteSent x → (Z.to_nat len < fuel)%nat →
  wp (send_segments fuel c flags len) (λ r w', r = true ∧ ∃ x' ds n, 0 ≤ n ≤ len `max` 0 ∧
    snd_ok w' c x' S ∧ sent_many x x' n ∧ w_sent w' = w_sent w ++ ds ∧
    segments S x ds (tc_lastByteSent x) (tc_lastByteSent x + n) ∧
    may_send x' (len - n) = false ∧ tx_frame c w w' ∧ pkeep w w') w.
Proof using up.
  revert w x flags len. induction fuel as [|fuel IH]; intros w x flags len Hok Hst Hfl Hlen Hfu; [lia|].
  simpl. apply wp_bind. eapply wp_getctx; [apply Hok|]. destruct (may_send x len) eqn:Hms.
  - assert (Hpos : 0 < len).
    { unfold may_send, MAX_PAYLOAD, DTP_MTU, DTPHDRSIZE in Hms.
      apply orb_true_iff in Hms as [?%Z.leb_le|[?%Z.ltb_lt _]%andb_true_iff]; lia. }
    apply wp_bind. eapply wp_mono; [by eapply send_segment_spec|].
    intros r w1 (n & p & d & -> & Hn & Hok1 & Hs1 & Hseg & Ht1 & Hk1).
    apply wp_bind. eapply wp_getctx; [apply Hok1|]. rewrite (is_state_false _ _ Hst : is_state (tc_state (sent_one x p n)) SOCK_SYN_SENT = false).
    eapply wp_mono; [eapply (IH w1 (sent_one x p n)); [done|done|by apply data_flags_clear|cbn; lia|lia]|].
    intros r w2 (-> & x2 & ds & m & Hm & Hok2 & Hsm & Hs2 & Hds & Hms2 & Ht2 & Hk2). split; [done|].
    exists x2, (d :: ds), (n + m). split_and!; [lia|lia|done| | | | |by etrans|by eapply pkeep_trans].
    + unfold sent_many in *. rewrite Hsm. cbn. rewrite <- !Z.add_assoc. by destruct x.
    + rewrite Hs2, Hs1, <- app_assoc. done.
    + simpl. exists n. split; [done|]. rewrite Z.add_assoc. by eapply segments_dest; [..|exact Hds].
    + by rewrite Z.sub_add_distr.
  - apply wp_ret. split; [done|]. exists x, [], 0.
    split_and!; [lia|lia|done| |by rewrite app_nil_r|simpl; lia|by rewrite Z.sub_0_r|reflexivity|by intros ?].
    unfold sent_many. rewrite !Z.add_0_r. by destruct x.
Qed.

(** ** [DTPWriteAvail] *)

(** Flow and congestion control: never more than is written and not sent, than
    the congestion window leaves, and than the window of the peer leaves, unless
    more is in flight than that window allows. *)
Lemma send_allowance_bounds x S :
  wr_ok x S → is_u32 (tc_rcvWindow x) →
  let inflight := tc_lastByteSent x - tc_lastByteAcked x in
  send_allowance x ≤ tc_lastByteWritten x - tc_lastByteSent x ∧
  send_allowance x ≤ i32 (tc_cwnd x - tc_segSent x) ∧
  (inflight ≤ tc_rcvWindow x → send_allowance x ≤ tc_rcvWindow x - inflight) ∧
  (tc_rcvWindow x < inflight → send_allowance x =
     c__min (tc_lastByteWritten x - tc_lastByteSent x) (i32 (tc_cwnd x - tc_segSent x))).
Proof using.
  intros [_ Ha Hs Hr Hw] Hwin inflight. unfold send_allowance. subst inflight.
  rewrite i32_sub_u32 by (unfold is_i32; lia).
  rewrite (u32_small (tc_lastByteWritten x - tc_lastByteSent x)) by (unfold is_u32; lia).
  rewrite (u32_small (tc_lastByteSent x - tc_lastByteAcked x)) by (unfold is_u32; lia).
  unfold is_u32 in Hwin.
  destruct (Z.le_gt_cases (tc_lastByteSent x - tc_lastByteAcked x) (tc_rcvWindow x)) as [Hle|Hgt].
  - rewrite (u32_small (tc_rcvWindow x - _)) by (unfold is_u32; lia).
    unfold c__min at 2 4 6 8.
    destruct (Z.ltb_spec (tc_rcvWindow x - (tc_lastByteSent x - tc_lastByteAcked x))
                (tc_lastByteWritten x - tc_lastByteSent x));
      rewrite i32_small by (unfold is_i32; lia); unfold c__min;
      case_match eqn:E; rewrite ?Z.ltb_lt, ?Z.ltb_ge in E; split_and!; lia.
  - rewrite (u32_neg (tc_rcvWindow x - _)) by lia.
    assert (Em : c__min (tc_lastByteWritten x - tc_lastByteSent x)
        (tc_rcvWindow x - (tc_lastByteSent x - tc_lastByteAcked x) + 2 ^ 32)
        = tc_lastByteWritten x - tc_lastByteSent x).
    { unfold c__min. destruct (Z.ltb_spec (tc_rcvWindow x - (tc_lastByteSent x - tc_lastByteAcked x) + 2 ^ 32)
        (tc_lastByteWritten x - tc_lastByteSent x)); lia. }
    rewrite Em, i32_small by (unfold is_i32; lia). unfold c__min.
    case_match eqn:E; rewrite ?Z.ltb_lt, ?Z.ltb_ge in E; split_and!; lia.
Qed.

(** A connection on which data may be sent: established, not being closed. *)
Record sending (x : dtp_context) : Prop := {
  sd_state : tc_state x = SOCK_ESTABLISHED;
  sd_open : tc_closeCalled x = false;
  sd_window : is_u32 (tc_rcvWindow x) }.

(** [x'] is [x] after [DTPWriteAvail] sent [n] bytes. *)
Definition written_avail (x x' : dtp_context) (n : Z) : Prop :=
  x' = x <| tc_isFirstDataSent := tc_isFirstDataSent x' |> <| tc_isAUTHSent := tc_isAUTHSent x' |>
         <| tc_isFirstPacketSent := tc_isFirstPacketSent x' |> <| tc_packetQ := tc_packetQ x' |>
         <| tc_recvAnyData := tc_recvAnyData x' |> <| tc_segSent := tc_segSent x + n |>
         <| tc_lastByteSent := tc_lastByteSent x + n |>.

Lemma snd_ok_ctx w c x x' S :
  snd_ok w c x S → wr_ok x' S → tc_packetQ x' = tc_packetQ x → tc_lastByteAcked x' = tc_lastByteAcked x →
  tc_lastByteSent x' = tc_lastByteSent x → (tc_isCongested x' = true → tc_isCongested x = true) →
  is_u32 (tc_nextByteExpected x') → is_u32 (tc_flowID x') →
  snd_ok (w <| w_ctxs ::= <[c := x']> |>) c x' S.
Proof using.
  intros [H1 _ H3 H4 H5 H6 _ H8] Hwr E1 E2 E3 E4 ? ?. constructor; rewrite ?E1, ?E2, ?E3; try done.
  - by eapply ctx_at_put.
  - by destruct H6; constructor.
  - by eapply retrans_weaken.
Qed.

(** The flags of the first segment; they are taken from the context. *)
Lemma first_flags_spec w c x S (Q : option Z → world → Prop) :
  snd_ok w c x S → tc_state x = SOCK_ESTABLISHED → tc_isNetConnected x = true → tc_isCongested x = false →
  (∀ flags fd au w', let x' := x <| tc_isFirstDataSent := fd |> <| tc_isAUTHSent := au |> in
     data_flags flags → snd_ok w' c x' S → tx_frame c w w' → w_sent w' = w_sent w → pkeep w w' →
     Q (Some flags) w') →
  wp (first_flags c) Q w.
Proof using.
  intros Hok Hst Hnc Hcg HQ. unfold first_flags. apply wp_bind. eapply wp_getctx; [apply Hok|].
  rewrite Hnc, Hcg, Hst. simpl orb. rewrite andb_false_r. cbn iota. apply wp_bind.
  eapply wp_mono with (Q := λ r w1, ∃ fd, data_flags (default 0 r) ∧ default 0 r ≠ DTP_FLAG_AUTH ∧
    is_Some r ∧ snd_ok w1 c (x <| tc_isFirstDataSent := fd |>) S ∧ tx_frame c w w1 ∧
    w_sent w1 = w_sent w ∧ pkeep w w1).
  - destruct (tc_isFirstDataSent x) eqn:Hfd; simpl negb; cbn iota.
    + apply wp_ret. exists true. split_and!; [by left|done|done| |reflexivity|done|by intros ?].
      replace (x <| tc_isFirstDataSent := true |>) with x; [done|]. rewrite <- Hfd. by destruct x.
    + apply wp_bind. eapply wp_modctx; [apply Hok|]. apply wp_ret. exists true.
      split_and!; [right; by left|done|done| |apply (tx_local _ 0), local_ctx|done|by intros ?].
      eapply snd_ok_ctx; [done|by destruct (sn_wr _ _ _ _ Hok)|done..|apply Hok|apply Hok].
  - intros [fl|] w1 (fd & Hfl & Hna & [? Hs] & Hok1 & Ht1 & Hs1 & Hk1); [|done]. unfold default, id in Hfl, Hna.
    set (fl' := if tc_recvAnyData x then Z.lor fl DTP_FLAG_ACK else fl).
    assert (Hfl' : data_flags fl' ∧ data_flags (Z.lor fl' DTP_FLAG_AUTH)).
    { unfold fl', data_flags in *. destruct Hfl as [->|[->|[->| ->]]], (tc_recvAnyData x); try done;
        split; vm_compute; tauto. }
    destruct (tc_isAUTHSent x) eqn:Hau.
    + apply wp_bind. eapply wp_modctx; [apply Hok1|]. apply wp_ret.
      apply (HQ _ fd false); [tauto| |etrans; [done|apply (tx_local _ 0), local_ctx]|done|done].
      eapply snd_ok_ctx; [done|by destruct (sn_wr _ _ _ _ Hok1)|done..|apply Hok1|apply Hok1].
    + apply wp_ret. apply (HQ _ fd false); [tauto| |done..].
      replace (_ <| tc_isAUTHSent := false |>) with (x <| tc_isFirstDataSent := fd |>); [done|].
      rewrite <- Hau. by destruct x.
Qed.

Lemma first_flags_blocked w c x (Q : option Z → world → Prop) :
  ctx_at w c = Some x → tc_isNetConnected x = false ∨ tc_isCongested x = true → Q None w →
  wp (first_flags c) Q w.
Proof using.
  intros Hx Hb HQ. apply wp_bind. eapply wp_getctx; [done|].
  replace (negb (tc_isNetConnected x) || tc_isCongested x) with true; [by apply wp_ret|].
  destruct Hb as [-> | ->]; [done|by rewrite orb_true_r].
Qed.

(** The bytes [DTPWriteAvail] sends. *)
Lemma DTPWriteAvail_spec sock w c x S :
  snd_ok w c x S → sending x →
  wp (DTPWriteAvail sock c) (λ _ w', ∃ x' ds n, snd_ok w' c x' S ∧ written_avail x x' n ∧
    w_sent w' = w_sent w ++ ds ∧ segments S x ds (tc_lastByteSent x) (tc_lastByteSent x + n) ∧
    (n = 0 ∨ 0 < n ≤ send_allowance x ∧ tc_isNetConnected x = true ∧ tc_isCongested x = false) ∧
    (tc_isNetConnected x = true → tc_isCongested x = false → may_send x' (send_allowance x - n) = false) ∧
    tx_frame c w w' ∧ pkeep w w') w.
Proof using up.
  intros Hok [Hst Hop Hwi]. unfold DTPWriteAvail. apply wp_bind.
  destruct (tc_isNetConnected x) eqn:Hnc; [destruct (tc_isCongested x) eqn:Hcg|].
  2:{ eapply first_flags_spec; [done..|]. intros fl fd au w1 x1 Hfl Hok1 Ht1 Hs1 Hk1.
      apply wp_bind. eapply wp_getctx; [apply Hok1|]. fold x1.
      change (send_allowance x1) with (send_allowance x).
      destruct (send_allowance_bounds x S (sn_wr _ _ _ _ Hok) Hwi) as (Hle & _).
      apply wp_bind. eapply wp_mono.
      { eapply (send_segments_spec _ _ _ x1); [done|change (tc_state x1) with (tc_state x); by rewrite Hst|done|exact Hle|unfold send_fuel; lia]. }
      intros r w2 (-> & x2 & ds & n & Hn & Hok2 & Hsm & Hs2 & Hds & Hms & Ht2 & Hk2).
      assert (Hcc : tc_closeCalled x2 = false) by (by rewrite Hsm).
      apply wp_bind. eapply wp_getctx; [apply Hok2|]. rewrite Hcc. simpl mwhen. apply wp_ret.
      exists x2, ds, n. split_and!; [done| |by rewrite Hs2, Hs1|by eapply segments_dest; [..|exact Hds]
        | |done|by etrans|by eapply pkeep_trans].
      - unfold written_avail, sent_many in *. rewrite Hsm. by destruct x.
      - destruct (decide (n = 0)); [by left|right]. split_and!; [lia|lia|done|done]. }
  all: eapply first_flags_blocked; [apply Hok|by auto|]; apply wp_ret; exists x, [], 0;
    (split_and!; [done| |by rewrite app_nil_r|simpl; lia|by left|done|reflexivity|by intros ?]);
    unfold written_avail; rewrite !Z.add_0_r; by destruct x.
Qed.

(** C11: Transmission sends the stream.  On an established connection
    [DTPWriteAvail] returns; the datagrams it sends are well-formed segments for
    the peer, no longer than the MTU, that carry the next unsent bytes of the
    stream without gap or overlap; each is kept for retransmission. *)
Theorem write_avail_sends_stream sock w c x S :
  snd_ok w c x S → sending x →
  wp (DTPWriteAvail sock c) (λ _ w', ∃ x' ds,
    snd_ok w' c x' S ∧ w_sent w' = w_sent w ++ ds ∧
    segments S x ds (tc_lastByteSent x) (tc_lastByteSent x') ∧
    tc_lastByteSent x ≤ tc_lastByteSent x' ≤ tc_lastByteWritten x) w.
Proof using up.
  intros Hok Hsd. eapply wp_mono; [by apply DTPWriteAvail_spec|].
  intros _ w' (x' & ds & n & Hok' & Hwa & Hs & Hds & Hn & _). exists x', ds.
  assert (E : tc_lastByteSent x' = tc_lastByteSent x + n ∧ tc_lastByteWritten x' = tc_lastByteWritten x)
    by (by rewrite Hwa). destruct E as [E1 E2].
  pose proof (wr_sent _ _ (sn_wr _ _ _ _ Hok')). rewrite E1 in *. split_and!; [done..|lia|lia].
Qed.

(** C12: Flow and congestion control.  If the bytes in flight fit in the window
    of the peer and in the congestion window, they still do after
    [DTPWriteAvail]; and on a connected, uncongested network it stops only when
    less than a full segment may be sent. *)
Theorem write_avail_respects_windows sock w c x S :
  snd_ok w c x S → sending x →
  tc_lastByteSent x - tc_lastByteAcked x ≤ tc_rcvWindow x → 0 ≤ tc_segSent x ≤ tc_cwnd x → tc_cwnd x < 2 ^ 31 →
  wp (DTPWriteAvail sock c) (λ _ w', ∃ x', ctx_at w' c = Some x' ∧
    tc_lastByteSent x' - tc_lastByteAcked x' ≤ tc_rcvWindow x' ∧ tc_segSent x' ≤ tc_cwnd x' ∧
    (tc_isNetConnected x = true → tc_isCongested x = false →
     send_allowance x - (tc_lastByteSent x' - tc_lastByteSent x) < MAX_PAYLOAD)) w.
Proof using up.
  intros Hok Hsd Hwin Hcw Hcm. pose proof Hsd as [_ _ Hwi].
  destruct (send_allowance_bounds x S (sn_wr _ _ _ _ Hok) Hwi) as (_ & Hc & Hw & _). specialize (Hw Hwin).
  rewrite i32_small in Hc by (unfold is_i32; lia). eapply wp_mono; [by apply DTPWriteAvail_spec|].
  intros _ w' (x' & ds & n & Hok' & Hwa & _ & _ & Hn & Hstop & _). exists x'. split; [apply Hok'|].
  assert (E : tc_lastByteSent x' = tc_lastByteSent x + n ∧ tc_lastByteAcked x' = tc_lastByteAcked x ∧
    tc_rcvWindow x' = tc_rcvWindow x ∧ tc_segSent x' = tc_segSent x + n ∧ tc_cwnd x' = tc_cwnd x)
    by (by rewrite Hwa). destruct E as (E1 & E2 & E3 & E4 & E5).
  split_and!; [lia|lia|]. intros Hnc Hcg. specialize (Hstop Hnc Hcg). unfold may_send in Hstop.
  apply orb_false_iff in Hstop as [Hstop _]. apply Z.leb_gt in Hstop. lia.
Qed.

(** The window of the peer is not enforced once it shrinks below what is in
    flight: the subtraction wraps around, and only the congestion window limits
    what is sent. *)
Lemma shrunk_window_ignored x S :
  wr_ok x S → is_u32 (tc_rcvWindow x) → tc_rcvWindow x < tc_lastByteSent x - tc_lastByteAcked x →
  send_allowance x = c__min (tc_lastByteWritten x - tc_lastByteSent x) (i32 (tc_cwnd x - tc_segSent x)).
Proof using.
  intros Hwr Hwi Hlt. by destruct (send_allowance_bounds x S Hwr Hwi) as (_ & _ & _ & H); apply H.
Qed.
End transmit.

(** The connection of the scenario with 3000 bytes to send. *)
Definition conn_data : dtp_context := conn <| tc_lastByteWritten := 3000 |>.

Lemma zget_zeros n i : zget (zeros n) i = 0.
Proof.
  unfold zget, zeros. rewrite nth_lookup. destruct (replicate _ 0 !! _) as [z|] eqn:E; [|done].
  by apply lookup_replicate in E as [-> _].
Qed.

Lemma conn_data_wr : wr_ok conn_data (λ _, 0).
Proof.
  constructor; [|eval_facts..]. exists (zeros DEF_WRITE_BUFLEN). split_and!; [reflexivity|eval_facts|].
  intros p _. apply zget_zeros.
Qed.

Lemma conn_data_sending : snd_ok (host conn_data) 5 conn_data (λ _, 0) ∧ sending conn_data.
Proof.
  split; [|constructor; eval_facts].
  constructor; [reflexivity|apply conn_data_wr|reflexivity|constructor|by intros ? ?%elem_of_nil
    |apply host_pools|eval_facts|reflexivity].
Qed.

Example write_avail_sends_stream_witness :
  wp (DTPWriteAvail 5 5) (λ _ w', ∃ x' ds,
    snd_ok w' 5 x' (λ _, 0) ∧ w_sent w' = w_sent (host conn_data) ++ ds ∧
    segments (λ _, 0) conn_data ds (tc_lastByteSent conn_data) (tc_lastByteSent x') ∧
    tc_lastByteSent conn_data ≤ tc_lastByteSent x' ≤ tc_lastByteWritten conn_data) (host conn_data).
Proof. apply write_avail_sends_stream; apply conn_data_sending. Defined.

Example write_avail_respects_windows_witness :
  wp (DTPWriteAvail 5 5) (λ _ w', ∃ x', ctx_at w' 5 = Some x' ∧
    tc_lastByteSent x' - tc_lastByteAcked x' ≤ tc_rcvWindow x' ∧ tc_segSent x' ≤ tc_cwnd x' ∧
    (tc_isNetConnected conn_data = true → tc_isCongested conn_data = false →
     send_allowance conn_data - (tc_lastByteSent x' - tc_lastByteSent conn_data) < MAX_PAYLOAD)) (host conn_data).
Proof.
  apply (write_avail_respects_windows 5 _ _ _ (λ _, 0)); [apply conn_data_sending..|eval_facts|eval_facts|eval_facts].
Defined.

(** 2000 of the 3000 bytes are in flight, the peer has room for 1000. *)
Example shrunk_window_ignored_witness :
  let x := conn_data <| tc_lastByteSent := 2000 |> <| tc_rcvWindow := 1000 |> <| tc_cwnd := 9000 |> in
  send_allowance x = c__min (tc_lastByteWritten x - tc_lastByteSent x) (i32 (tc_cwnd x - tc_segSent x)).
Proof.
  intros x. apply (shrunk_window_ignored x (λ _, 0)); [|eval_facts|eval_facts].
  constructor; [|eval_facts..]. exists (zeros DEF_WRITE_BUFLEN). split_and!; [reflexivity|eval_facts|].
  intros p _. apply zget_zeros.
Defined.
