(* ===== verification/Ack.v ===== *)
(** * Acknowledgements (dtp_transport.c)

    [HandleACKPacket]: the write buffer slides, acknowledged packets are
    retired, the congestion window moves, a third duplicate triggers a fast
    retransmit, and more data is sent. *)

From S2P Require Import Prelude Double Header Context World ContextTable Pools RetransQueue.
From S2P Require Import Select Congestion Lifecycle Send.

Section env.
Context {env : Env}.

(** [seq + len - headerLen]: the position after the data of a packet. *)
Definition pkt_end (p : dtp_pkt) : Z := u32 (tp_seqNum p + tp_len p - tp_headerLen p).

(** The [if (pdone)] block: the packet is acknowledged. *)
Definition retire_packet (ctx : Z) (pdone : ptr) : M unit :=
  p ← getpkt pdone;
  mwhen (negb (tp_isRetrans p))
    (rto ← CalculateRTO pdone;
     ctx ->> tc_RTO := (if d_lt rto RTO_MIN then RTO_MIN else rto));;
  modctx ctx (λ x, x <| tc_segSent := tc_segSent x - (tp_len p - tp_headerLen p) |>);;
  packetQ_remove ctx pdone;;
  AddToFreePacketList pdone;;
  modctx ctx (λ x, x <| tc_isCongested := false |> <| tc_numACKRcvd := 1 |>).

Definition retire_pending (ctx : Z) (pdone : option ptr) : M unit :=
  match pdone with Some p => retire_packet ctx p | None => mret tt end.

(** A packet that is acknowledged in part: its first bytes are dropped. *)
Definition trim_packet (ctx : Z) (packet : ptr) (ack_num : Z) : M unit :=
  p ← getpkt packet;
  let move_len := i32 (ack_num -u tp_seqNum p) in
  let seq := tp_seqNum p +u move_len in
  modpkt packet (λ p, p <| tp_seqNum := seq |>
                        <| tp_header ::= zsplice OFF_seq (be32 seq) |>
                        <| tp_len := tp_len p - move_len |>);;
  modctx ctx (λ x, x <| tc_segSent := tc_segSent x - move_len |>).

(** [TAILQ_FOREACH]: a packet is retired when the next one is visited; the
    result is the packet still to be retired after the loop. *)
Fixpoint remove_loop (ctx ack_num : Z) (l : list ptr) (pdone : option ptr) : M (option ptr) :=
  match l with
  | [] => mret pdone
  | packet :: l =>
    retire_pending ctx pdone;;
    p ← getpkt packet;
    if pkt_end p <? ack_num then remove_loop ctx ack_num l (Some packet)
    else if pkt_end p =? ack_num then
      mret (if negb (IsFINPacket (tp_header p)) then Some packet else None)
    else (trim_packet ctx packet ack_num;; mret None)
  end.

Definition RemovePacket (ctx ack_num : Z) : M unit :=
  x ← getctx ctx;
  pdone ← remove_loop ctx ack_num (tc_packetQ x) None;
  retire_pending ctx pdone.

Definition HandleDuplicateACK (ctx : Z) : M unit :=
  x ← getctx ctx;
  match tc_packetQ x with
  | [] => mret tt
  | packet :: _ =>
    DTPRetransmit (tc_sock x) packet;;
    modctx ctx CongestionAvoidance
  end.

(** [DTPWriteAvail], the select event and the signal to a blocked writer. *)
Definition resume_writer (ctx : Z) : M unit :=
  x ← getctx ctx;
  DTPWriteAvail (tc_sock x) ctx;;
  DTPSelectEventSet (tc_sock x) DTP_FD_WRITE;;
  x ← getctx ctx;
  mwhen (tc_isWriteBlocked x) (cond_signal ctx writeBufCond).

(** The window update; [true] when the window reopened and the function
    returns. *)
Definition update_window (ctx window_size : Z) : M bool :=
  modctx ctx (λ x, x <| tc_rcvWindow := u32 (Z.shiftl window_size (tc_sendWindowScale x)) |>);;
  x ← getctx ctx;
  mwhen (tc_rcvWindow x =? 0)
    (tv ← gettimeofday;
     modctx ctx (λ x, x <| tc_isHerWindowZero := true |> <| tc_persistTimer := tv |>
                        <| tc_persistIntvl := DTP_PERSIST_MIN |>));;
  x ← getctx ctx;
  if tc_isHerWindowZero x && (0 <? tc_rcvWindow x) then
    ctx ->> tc_isHerWindowZero := false;;
    resume_writer ctx;;
    mret true
  else mret false.

(** The accounting of [acked] bytes. *)
Definition slide_write_buf (ctx ack_num acked : Z) : M unit :=
  ctx ->> tc_lastByteAcked := ack_num;;
  modctx ctx (λ x, if tc_lastByteSent x <? tc_lastByteAcked x
                   then x <| tc_lastByteSent := tc_lastByteAcked x |> else x);;
  x ← getctx ctx;
  mwhen (0 <? GetWriteBufOff x)
    (d ← block_read (tc_writeBuf x) acked (GetWriteBufOff x);
     wb ← block_write (tc_writeBuf x) 0 d;
     ctx ->> tc_writeBuf := wb).

Definition count_acked (ctx acked : Z) : M unit :=
  modctx ctx (λ x, x <| tc_upByte := tc_upByte x +u acked |>);;
  x ← getctx ctx;
  mwhen (is_state (tc_state x) SOCK_SYN_RCVD)
    (ctx ->> tc_state := SOCK_ESTABLISHED;;
     DTPSelectEventClr (tc_sock x) DTP_FD_READ;;
     DTPSelectEventSet (tc_sock x) DTP_FD_WRITE);;
  x ← getctx ctx;
  x' ← lift_res (MoveCongestionWindow x acked);
  putctx ctx x';;
  DTPSelectEventSet (tc_sock x) DTP_FD_WRITE.

(** The state changes of a closing connection. *)
Definition ack_of_fin (ctx ack_num : Z) : M unit :=
  x ← getctx ctx;
  if is_state (tc_state x) SOCK_FIN_WAIT_1 && (tc_lastByteWritten x =? ack_num) then
    ctx ->> tc_state := SOCK_FIN_WAIT_2
  else if is_state (tc_state x) SOCK_LAST_ACK then
    ctx ->> tc_state := SOCK_CLOSED;;
    DTPReadBufWakeup ctx;;
    RemoveFromRetransQueue ctx;;
    DTPCloseContext ctx
  else mret tt.

(** From [acked = ack_num - ctx->tc_lastByteAcked] on. *)
Definition accept_ack (ctx ack_num : Z) : M unit :=
  x ← getctx ctx;
  let acked := i32 (ack_num -u tc_lastByteAcked x) in
  slide_write_buf ctx ack_num acked;;
  RemovePacket ctx ack_num;;
  mwhen (negb (acked =? 0)) (count_acked ctx acked);;
  resume_writer ctx;;
  ack_of_fin ctx ack_num.

Definition HandleACKPacket (ctx ack_num window_size : Z) : M unit :=
  x ← getctx ctx;
  if negb (tc_isNetConnected x) then mret tt
  else
    (* check tcp wrap-around *)
    go ← (if ack_num <? tc_lastByteAcked x then
            if tc_lastByteAcked x +u DTP_MTU <? tc_lastByteAcked x then
              modctx ctx (λ x, x <| tc_nextByteExpected := tc_nextByteExpected x +u 1 |>);;
              mret true
            else mret false
          else mret true);
    if negb go then mret tt
    else
      reopened ← update_window ctx window_size;
      if (reopened : bool) then mret tt
      else
        x ← getctx ctx;
        if ack_num =? tc_lastByteAcked x then
          (* 3 duplicate ACK (which means 4 identical ACKs) *)
          let n := tc_numACKRcvd x + 1 in
          ctx ->> tc_numACKRcvd := n;;
          if n =? 4 then HandleDuplicateACK ctx else accept_ack ctx ack_num
        else accept_ack ctx ack_num.
End env.
