(* ===== verification/Acknowledge.v ===== *)
(** * Acknowledgements keep the send side consistent

    [HandleACKPacket] on a connection whose send side satisfies [snd_ok]: the
    write buffer slides to the acknowledged position, the packets up to it are
    retired, and whatever is sent (again) is a segment of the stream. *)

From S2P Require Import Prelude Double Header Context World ContextTable Pools RetransQueue.
From S2P Require Import Select Congestion Lifecycle Send Scenario Intervals Reassembly Receiver.
From S2P Require Import Transmit Ack.

Section slide.
Context {env : Env}.

Lemma write_off_exact x S :
  wr_ok x S → GetWriteBufOff x = tc_lastByteWritten x - tc_lastByteAcked x.
Proof using.
  intros [_ ? ? ? ?]. unfold GetWriteBufOff. apply i32_sub_u32. unfold is_i32. lia.
Qed.

(** The context after the bytes up to [ack] were dropped from the buffer. *)
Definition slid (x x' : dtp_context) (ack : Z) : Prop :=
  x' = x <| tc_lastByteAcked := ack |> <| tc_lastByteSent := tc_lastByteSent x `max` ack |>
         <| tc_writeBuf := tc_writeBuf x' |>.

Lemma slide_write_buf_spec w c x S ack (Q : unit → world → Prop) :
  ctx_at w c = Some x → wr_ok x S → tc_lastByteAcked x ≤ ack ≤ tc_lastByteWritten x →
  (∀ w' x', ctx_at w' c = Some x' → wr_ok x' S → slid x x' ack → (∀ p, local_to c p w w') →
     w_pkts w' = w_pkts w → Q tt w') →
  wp (slide_write_buf c ack (ack - tc_lastByteAcked x)) Q w.
Proof using.
  intros Hx Hwr Hack HQ. pose proof Hwr as [(wb & Hwb & Hwl & Hd) Ha Hs Hr Hw]. unfold slide_write_buf.
  apply wp_bind. eapply wp_modctx; [done|]. apply wp_bind. eapply wp_modctx; [by eapply ctx_at_put|].
  match goal with |- wp _ _ (set w_ctxs (<[c := ?y]>) ?w1) => set (x2 := y); set (w2 := set w_ctxs (<[c := x2]>) w1) end.
  assert (E2 : x2 = x <| tc_lastByteAcked := ack |> <| tc_lastByteSent := tc_lastByteSent x `max` ack |>).
  { unfold x2. cbn. destruct (Z.ltb_spec (tc_lastByteSent x) ack).
    - by rewrite Z.max_r by lia.
    - rewrite Z.max_l by lia. by destruct x. }
  assert (Hx2 : ctx_at w2 c = Some x2) by (eapply ctx_at_put; by eapply ctx_at_put).
  assert (L2 : ∀ p, local_to c p w w2) by (intros; etrans; apply local_ctx).
  apply wp_bind. eapply wp_getctx; [done|].
  assert (Hoff : GetWriteBufOff x2 = tc_lastByteWritten x - ack).
  { rewrite E2. unfold GetWriteBufOff. cbn. apply i32_sub_u32. unfold is_i32. lia. }
  rewrite Hoff. apply wp_when; intros Hz.
  - apply Z.ltb_lt in Hz. assert (Hwb2 : tc_writeBuf x2 = Some wb) by (rewrite E2; exact Hwb).
    rewrite Hwb2. apply wp_bind, wp_block_read; [lia..|].
    pose proof (zlen_slice (ack - tc_lastByteAcked x) (tc_lastByteWritten x - ack) wb
                  ltac:(lia) ltac:(lia) ltac:(lia)) as Hsl.
    apply wp_bind, wp_block_write; [lia..|]. eapply wp_modctx; [done|].
    eapply HQ; [by eapply ctx_at_put| | |intros; etrans; [apply L2|apply local_ctx]|done].
    + rewrite E2. constructor; cbn; try lia. eexists. split_and!; [done|rewrite zlen_splice; lia|].
      intros p Hp. rewrite zget_splice_in by lia. rewrite zget_slice by lia. rewrite <- Hd by lia. f_equal. lia.
    + unfold slid. rewrite E2. by destruct x.
  - apply Z.ltb_ge in Hz. apply (HQ w2 x2); [done| | |done|done].
    + rewrite E2. constructor; cbn; try lia. exists wb. split_and!; [done|lia|]. intros p Hp. lia.
    + unfold slid. rewrite E2. by destruct x.
Qed.
End slide.

(** ** Retiring packets *)

(** The context after packets with [m] bytes in all were retired: the timeout
    stays at least [RTO_MIN]. *)
Record retired (x x' : dtp_context) (m : Z) : Prop := {
  re_eq : x' = x <| tc_RTO := tc_RTO x' |> <| tc_estRTT := tc_estRTT x' |> <| tc_devRTT := tc_devRTT x' |>
                 <| tc_segSent := tc_segSent x - m |> <| tc_packetQ := tc_packetQ x' |>
                 <| tc_isCongested := tc_isCongested x' |> <| tc_numACKRcvd := tc_numACKRcvd x' |>;
  re_rto : d_lt (tc_RTO x) RTO_MIN = false → d_lt (tc_RTO x') RTO_MIN = false;
  re_cong : tc_isCongested x' = true → tc_isCongested x = true }.

Lemma retired_refl x : retired x x 0.
Proof. constructor; [|done|done]. rewrite Z.sub_0_r. by destruct x. Qed.

Lemma retired_trans x1 x2 x3 m n : retired x1 x2 m → retired x2 x3 n → retired x1 x3 (m + n).
Proof.
  intros [E1 R1 C1] [E2 R2 C2]. constructor; [|auto|auto].
  rewrite E2, E1. cbn. rewrite Z.sub_add_distr. by destruct x1.
Qed.

(** The first packet is cut, or sent again. *)
Lemma fresh_insert m p k' l : p ∉ l → Forall (fresh_pkt m) l → Forall (fresh_pkt (<[p := k']> m)) l.
Proof.
  intros Hp Hl. rewrite Forall_forall in Hl |- *. intros q Hq. destruct (Hl q Hq) as (kq & ? & ?). exists kq.
  rewrite lookup_insert_ne by (intros ->; done). done.
Qed.

Lemma retrans_trim m p k k' l b :
  m !! p = Some k → tp_isRetrans k' = tp_isRetrans k → p ∉ l →
  retrans_ok m (p :: l) b → retrans_ok (<[p := k']> m) (p :: l) b.
Proof.
  intros Hk Hr Hp [Hb Hl]. split; [|by apply fresh_insert].
  intros (k0 & Hk0 & ?)%Hb. exists k'. rewrite lookup_insert_eq. split; [done|congruence].
Qed.

Lemma retrans_again m p k' l b b' :
  tp_isRetrans k' = true → p ∉ l → retrans_ok m (p :: l) b → retrans_ok (<[p := k']> m) (p :: l) b'.
Proof.
  intros Hr Hp [_ Hl]. split; [|by apply fresh_insert]. intros _. exists k'. by rewrite lookup_insert_eq.
Qed.

Section retire.
Context {env : Env}.

(** The round-trip estimate of a packet that was not retransmitted. *)
Lemma note_rtt_spec w c x p k (Q : unit → world → Prop) :
  ctx_at w c = Some x → w_pkts w !! p = Some k → tp_ctx k = c →
  (∀ w' x', ctx_at w' c = Some x' → (∀ q, local_to c q w w') → w_pkts w' = w_pkts w →
     x' = x <| tc_RTO := tc_RTO x' |> <| tc_estRTT := tc_estRTT x' |> <| tc_devRTT := tc_devRTT x' |> →
     (d_lt (tc_RTO x) RTO_MIN = false → d_lt (tc_RTO x') RTO_MIN = false) → Q tt w') →
  wp (mwhen (negb (tp_isRetrans k))
       (rto ← CalculateRTO p; c ->> tc_RTO := (if d_lt rto RTO_MIN then RTO_MIN else rto))) Q w.
Proof using.
  intros Hx Hk Hc HQ. apply wp_when; intros _.
  - apply wp_bind. unfold CalculateRTO. apply wp_bind. eapply wp_getpkt; [done|].
    apply wp_bind. unfold wp at 1, gettimeofday. rewrite Hc. apply wp_bind. eapply wp_getctx; [exact Hx|].
    apply wp_bind. eapply wp_modctx; [exact Hx|]. apply wp_ret. eapply wp_modctx; [by eapply ctx_at_put|].
    eapply HQ; [eapply ctx_at_put; by eapply ctx_at_put| |done|by destruct x|].
    + intros q. constructor; [by destruct w| |done]. intros c' Hc'. by rewrite !ctx_at_put_ne.
    + intros _. apply d_clamp_ge.
  - apply (HQ w x); [done|by intros|done|by destruct x|done].
Qed.

Lemma retire_packet_spec w c x p l k a n (Q : unit → world → Prop) :
  ctx_at w c = Some x → tc_packetQ x = p :: l → w_pkts w !! p = Some k → data_pkt c k a n →
  pkt_pool_ok w → p ∉ w_freePacketList w →
  (∀ w' x', ctx_at w' c = Some x' → retired x x' n → tc_packetQ x' = l → w_pkts w' = w_pkts w →
     w_freePacketList w' = p :: w_freePacketList w → pkt_pool_ok w' → tx_frame c w w' →
     w_sent w' = w_sent w → tc_isCongested x' = false → Q tt w') →
  wp (retire_packet c p) Q w.
Proof using.
  intros Hx Hq Hk [Hc _ Hl _ _ _ _ _] Hpo Hpf HQ. unfold retire_packet.
  apply wp_bind. eapply wp_getpkt; [done|].
  apply wp_bind. eapply note_rtt_spec; [done..|]. intros w1 x1 Hx1 L1 Hp1 E1 Hrto.
  assert (Hq1 : tc_packetQ x1 = p :: l) by (by rewrite E1).
  apply wp_bind. eapply wp_modctx; [exact Hx1|]. apply wp_bind, wp_bind. eapply wp_getctx; [by eapply ctx_at_put|].
  apply wp_bind. eapply wp_tailq_remove; [cbn; rewrite Hq1; apply list_remove_head|].
  eapply wp_modctx; [by eapply ctx_at_put|]. set (w2 := set w_ctxs _ _). set (x2 := set tc_packetQ _ _) in w2.
  assert (L2 : local_to c p w w2).
  { etrans; [apply L1|]. etrans; apply local_ctx. }
  destruct (local_same _ _ _ _ L2) as [F2 S2]. apply wp_bind.
  assert (Hx2 : ctx_at w2 c = Some x2) by (eapply ctx_at_put; by eapply ctx_at_put).
  assert (Hpo2 : pkt_pool_ok w2).
  { eapply pool_local; [exact L2|exact Hk|cbn; rewrite Hp1; exact Hk|by eapply (pp_hdr _ Hpo)|done]. }
  eapply wp_mono; [apply AddToFreePacketList_spec; [done|cbn; rewrite Hp1, Hk; by eexists|by rewrite F2]|].
  intros _ w3 (Hpo3 & F3 & P3 & Hf3).
  assert (Hx3 : ctx_at w3 c = Some x2).
  { destruct Hf3 as [-> _ _]. exact Hx2. }
  eapply wp_modctx; [exact Hx3|]. eapply HQ; [by eapply ctx_at_put| |done| | | | | |done].
  - constructor; [|intros ?; by apply Hrto|done]. unfold x2. cbn.
    replace (tp_len k - tp_headerLen k) with n by lia. rewrite E1. by destruct x.
  - cbn. rewrite P3. cbn. by rewrite Hp1.
  - cbn. by rewrite F3, F2.
  - by destruct Hpo3; constructor.
  - etrans; [by eapply tx_local|]. etrans; [by apply tx_pool|]. apply (tx_local _ p), local_ctx.
  - cbn. destruct Hf3 as [-> _ _]. by rewrite <- S2.
Qed.

(** The packets [q] are in use. *)
Record queue_ok (w : world) (q : list ptr) : Prop := {
  qu_nodup : NoDup q; qu_free : ∀ p, p ∈ q → p ∉ w_freePacketList w; qu_pool : pkt_pool_ok w }.

(** [pd] is the packet the loop has still to retire, with [n] bytes. *)
Definition pending_ok (w : world) (c : Z) (pd : option ptr) (n : Z) : Prop :=
  match pd with
  | None => n = 0
  | Some p => ∃ k a, w_pkts w !! p = Some k ∧ data_pkt c k a n
  end.

Lemma retire_pending_spec w c x pd l n (Q : unit → world → Prop) :
  ctx_at w c = Some x → tc_packetQ x = option_list pd ++ l → pending_ok w c pd n →
  queue_ok w (tc_packetQ x) →
  (∀ w' x', ctx_at w' c = Some x' → retired x x' n → tc_packetQ x' = l → w_pkts w' = w_pkts w →
     queue_ok w' l → tx_frame c w w' → w_sent w' = w_sent w →
     (retrans_ok (w_pkts w) (tc_packetQ x) (tc_isCongested x) → retrans_ok (w_pkts w') l (tc_isCongested x')) →
     Q tt w') →
  wp (retire_pending c pd) Q w.
Proof using.
  intros Hx Hq Hpd [Hnd Hfr Hpo] HQ. rewrite Hq in *. destruct pd as [p|]; simpl in *.
  - destruct Hpd as (k & a & Hk & Hd). apply NoDup_cons in Hnd as [Hpl Hnd].
    eapply retire_packet_spec; [done|done|done|done|done|apply Hfr; left|].
    intros w' x' Hx' Hre Hq' Hp' Hf' Hpo' Ht' Hs' Hc'.
    eapply HQ; try done; [|intros Hrt; rewrite Hp', Hc'; by eapply retrans_tail]. constructor; [done| |done].
    intros q Hin. rewrite Hf'. intros [->|?]%elem_of_cons; [done|]. eapply Hfr; [by right|done].
  - subst n. apply wp_ret, (HQ w x); try done; apply retired_refl.
Qed.

Lemma trim_packet_spec w c x p k a n ack (Q : unit → world → Prop) :
  ctx_at w c = Some x → w_pkts w !! p = Some k → data_pkt c k a n → zlen (tp_header k) = TP_HEADER_SIZE →
  0 ≤ a → a ≤ ack < a + n → a + n < 2 ^ 32 →
  (∀ w' k', ctx_at w' c = Some (x <| tc_segSent := tc_segSent x - (ack - a) |>) → local_to c p w w' →
     w_pkts w' = <[p := k']> (w_pkts w) → data_pkt c k' ack (a + n - ack) →
     zlen (tp_header k') = TP_HEADER_SIZE → tp_isRetrans k' = tp_isRetrans k → Q tt w') →
  wp (trim_packet c p ack) Q w.
Proof using.
  intros Hx Hk [Hc Hs Hl Hn Hm Hh [Hsq Hhl] [Hsyn Hfin]] Hz Ha Hack Hb HQ. unfold trim_packet.
  apply wp_bind. eapply wp_getpkt; [done|]. rewrite Hs.
  rewrite i32_sub_u32 by (unfold DTPHDRSIZE, DTP_MTU, is_i32 in *; lia).
  replace (a +u (ack - a)) with ack by (rewrite u32_small; unfold is_u32; lia).
  apply wp_bind. eapply wp_modpkt; [done|]. eapply wp_modctx; [exact Hx|].
  assert (Hbe : zlen (be32 ack) = 4) by done.
  eapply HQ; [by eapply ctx_at_put|etrans; [apply local_pkt|apply local_ctx]|done| | |done].
  - unfold TP_HEADER_SIZE in Hz. constructor; try done; try (cbn; lia);
      cbn [tp_header set set_with set_tp_header set_tp_seqNum set_tp_len tp_headerLen];
      unfold GetSeqNum, GetHeaderLen, IsSYNPacket, IsFINPacket, OFF_seq in *.
    + rewrite zslice_splice_same_4, of_be32 by (unfold is_u32; lia).
      rewrite get_doff_splice by lia. done.
    + rewrite !get_bit_splice by lia. done.
  - cbn. rewrite zlen_splice; [done|unfold OFF_seq; lia|]. rewrite Hz, Hbe. done.
Qed.

Lemma remove_loop_spec c ack l b : ∀ w x pd n a,
  ctx_at w c = Some x → tc_packetQ x = option_list pd ++ l → pending_ok w c pd n →
  queue_ok w (tc_packetQ x) →
  chain (w_pkts w) c l a b → 0 ≤ a → a ≤ ack → b < 2 ^ 32 →
  wp (pdone ← remove_loop c ack l pd; retire_pending c pdone) (λ _ w', ∃ x',
    ctx_at w' c = Some x' ∧ retired x x' (n + (ack `min` b - a)) ∧
    chain (w_pkts w') c (tc_packetQ x') ack (b `max` ack) ∧ queue_ok w' (tc_packetQ x') ∧
    tx_frame c w w' ∧ w_sent w' = w_sent w ∧
    (retrans_ok (w_pkts w) (tc_packetQ x) (tc_isCongested x) →
     retrans_ok (w_pkts w') (tc_packetQ x') (tc_isCongested x'))) w.
Proof using.
  induction l as [|p l IH]; intros w x pd n a Hx Hq Hpd Hqu Hch Ha Hack Hb; simpl.
  - simpl in Hch. subst b. apply wp_bind, wp_ret. eapply retire_pending_spec; [done..|].
    intros w' x' Hx' Hre Hq' _ Hqu' Ht' Hs' Hrt'. exists x'. rewrite Hq'.
    replace (n + (ack `min` a - a)) with n by lia. rewrite Z.max_r by lia. done.
  - destruct Hch as (k & m & Hk & Hd & Hch). apply wp_bind, wp_bind.
    eapply retire_pending_spec; [done..|]. intros w1 x1 Hx1 Hre1 Hq1 Hp1 Hqu1 Ht1 Hs1 Hrt1.
    rewrite <- Hp1 in Hk, Hch. apply wp_bind. eapply wp_getpkt; [done|].
    pose proof (chain_le _ _ _ _ _ Hch) as Hle. pose proof Hd as [_ Hsq Hl Hm _ Hh _ [_ Hfin]].
    assert (He : pkt_end k = a + m).
    { unfold pkt_end. rewrite Hsq, Hl. rewrite u32_small; unfold is_u32; lia. }
    rewrite He. destruct (Z.ltb_spec (a + m) ack) as [Hlt|Hge]; [|destruct (Z.eqb_spec (a + m) ack) as [Heq|Hne]].
    + (* acknowledged: retire it later *)
      rewrite <- Hq1 in Hqu1.
      pose proof (IH w1 x1 (Some p) m (a + m) Hx1 Hq1 ltac:(by exists k, a) Hqu1 Hch ltac:(lia) ltac:(lia) Hb) as Hrec.
      revert Hrec. unfold wp, mbind, M_bind.
      destruct (remove_loop c ack l (Some p) w1) as [[pdone w2]|]; [|done].
      destruct (retire_pending c pdone w2) as [[[] w3]|]; [|done].
      intros (x' & Hx' & Hre & Hch' & Hqu' & Ht' & Hs' & Hrt'). exists x'.
      split_and!; [done| |done|done|by etrans|by rewrite Hs'|rewrite Hq1 in Hrt'; auto].
      replace (n + (ack `min` b - a)) with (n + (m + (ack `min` b - (a + m)))) by lia. by eapply retired_trans.
    + (* the last one that is acknowledged *)
      rewrite Hfin. apply wp_ret. eapply (retire_pending_spec _ _ _ (Some p) l m); [done|done|by exists k, a|by rewrite Hq1|].
      intros w' x' Hx' Hre Hq' Hp' Hqu' Ht' Hs' Hrt'. exists x'. rewrite Hq', Hp', <- Heq.
      split_and!; [done| |by rewrite Z.max_l by lia|done|by etrans|by rewrite Hs'|].
      2:{ intros Hrt. rewrite <- Hp'. apply Hrt'. rewrite Hq1. auto. }
      replace (n + ((a + m) `min` b - a)) with (n + m) by lia. by eapply retired_trans.
    + (* acknowledged in part *)
      apply wp_bind. eapply trim_packet_spec; [done|done|done|by eapply (pp_hdr _ (qu_pool _ _ Hqu1))|done|lia|lia|].
      intros w2 k' Hx2 L2 Hp2 Hd' Hz' Hr'. apply wp_ret, wp_ret. eexists. split; [exact Hx2|].
      destruct Hqu1 as [Hnd1 Hfr1 Hpo1]. destruct (local_same _ _ _ _ L2) as [F2 S2].
      split_and!; cbn; rewrite ?Hq1.
      * replace (n + (ack `min` b - a)) with (n + (ack - a)) by lia. eapply retired_trans; [done|].
        constructor; [by destruct x1|done|done].
      * simpl. rewrite Z.max_l by lia. exists k', (a + m - ack). rewrite Hp2, lookup_insert_eq.
        split_and!; [done|done|]. replace (ack + (a + m - ack)) with (a + m) by lia.
        eapply chain_ext; [|exact Hch]. intros q kq Hin Hkq.
        apply NoDup_cons in Hnd1 as [? _]. rewrite lookup_insert_ne; [done|]. intros ->. done.
      * constructor; [done|by rewrite F2|]. eapply pool_local; [exact L2|exact Hk| |exact Hz'|done].
        rewrite Hp2. apply lookup_insert_eq.
      * etrans; [done|]. by eapply tx_local.
      * by rewrite S2.
      * intros Hrt. rewrite Hp2. apply NoDup_cons in Hnd1 as [? _]. eapply retrans_trim; [done..|by apply Hrt1].
Qed.
End retire.

(** ** [HandleACKPacket] *)

(** A connection in the middle of a transfer. *)
Record snd_live (w : world) (c : Z) (x : dtp_context) (S : stream) : Prop := {
  lv_snd : snd_ok w c x S;
  lv_sending : sending x;
  lv_cc : cc_ok x;
  lv_sock : 0 ≤ tc_sock x < FD_SETSIZE_S }.

(** Every datagram of [ds] is a segment of the stream for the peer. *)
Definition stream_segments (S : stream) (x : dtp_context) (ds : list datagram) : Prop :=
  Forall (λ d, ∃ a n, is_segment S x d a n ∧ a + n ≤ tc_lastByteWritten x) ds.

Lemma segments_le S x ds a b : segments S x ds a b → a ≤ b.
Proof.
  revert a. induction ds as [|d ds IH]; intros a; simpl; [lia|].
  intros (n & [] & H). specialize (IH _ H). lia.
Qed.

Lemma segments_stream S x ds a b :
  segments S x ds a b → b ≤ tc_lastByteWritten x → stream_segments S x ds.
Proof.
  revert a. induction ds as [|d ds IH]; intros a; simpl; [by constructor|].
  intros (n & Hd & H) Hb. pose proof (segments_le _ _ _ _ _ H).
  constructor; [exists a, n; split; [done|lia]|by eapply IH].
Qed.

(** The fields of the context the send side does not touch. *)
Definition same_conn (x x' : dtp_context) : Prop :=
  tc_sock x' = tc_sock x ∧ tc_state x' = tc_state x ∧ tc_closeCalled x' = tc_closeCalled x ∧
  tc_peerAddr x' = tc_peerAddr x ∧ tc_writeBufLen x' = tc_writeBufLen x ∧
  tc_readBufLen x' = tc_readBufLen x ∧ tc_nextByteExpected x' = tc_nextByteExpected x ∧
  tc_lastByteWritten x' = tc_lastByteWritten x ∧ tc_isNetConnected x' = tc_isNetConnected x ∧
  tc_flowID x' = tc_flowID x ∧ tc_isActive x' = tc_isActive x ∧ tc_connReset x' = tc_connReset x ∧
  tc_fstatus x' = tc_fstatus x ∧ tc_isFINSent x' = tc_isFINSent x ∧
  tc_isKeepAliveEnabled x' = tc_isKeepAliveEnabled x ∧ tc_rcvLoBufHB x' = tc_rcvLoBufHB x ∧
  tc_key x' = tc_key x ∧ tc_hostID x' = tc_hostID x.

#[export] Instance same_conn_preorder : PreOrder same_conn.
Proof. unfold same_conn. split; [done|]. intros x y z. intuition congruence. Qed.

Lemma stream_segments_dest S x x' ds :
  same_conn x x' → stream_segments S x' ds → stream_segments S x ds.
Proof.
  intros (Es & _ & _ & Ea & _ & _ & _ & Ew & _) H. eapply Forall_impl; [exact H|]. intros d (a & n & [] & ?).
  exists a, n. rewrite Ea, Es, Ew in *. done.
Qed.

(** The step of a handler: the send side stays consistent, what is sent belongs to
    the stream. *)
Record ack_step (S : stream) (c : Z) (w : world) (x : dtp_context) (w' : world) (x' : dtp_context)
    (ds : list datagram) : Prop := {
  as_live : snd_live w' c x' S;
  as_conn : same_conn x x';
  as_sent : w_sent w' = w_sent w ++ ds;
  as_segs : stream_segments S x ds;
  as_frame : tx_frame c w w' }.

Lemma ack_step_trans S c w1 x1 w2 x2 w3 x3 ds1 ds2 :
  ack_step S c w1 x1 w2 x2 ds1 → ack_step S c w2 x2 w3 x3 ds2 →
  ack_step S c w1 x1 w3 x3 (ds1 ++ ds2).
Proof.
  intros [L1 C1 S1 G1 F1] [L2 C2 S2 G2 F2]. constructor; [done|by etrans| | |by etrans].
  - by rewrite S2, S1, app_assoc.
  - apply Forall_app. split; [done|]. by eapply stream_segments_dest.
Qed.

(** [x1] differs from [x] in fields that the stream does not depend on. *)
Record mild (x x1 : dtp_context) : Prop := {
  ml_conn : same_conn x x1;
  ml_pos : tc_writeBuf x1 = tc_writeBuf x ∧ tc_packetQ x1 = tc_packetQ x ∧
           tc_lastByteAcked x1 = tc_lastByteAcked x ∧ tc_lastByteSent x1 = tc_lastByteSent x ∧
           (tc_isCongested x1 = true → tc_isCongested x = true);
  ml_window : is_u32 (tc_rcvWindow x) → is_u32 (tc_rcvWindow x1);
  ml_cc : cc_ok x → cc_ok x1 }.

Lemma mild_live w c x x1 S :
  snd_live w c x S → mild x x1 → snd_live (w <| w_ctxs ::= <[c := x1]> |>) c x1 S.
Proof.
  intros [Hsn [H1 H2 H3] Hcc Hso] [(E1 & E2 & E3 & E4 & E5 & E6 & E7 & E8 & E9 & E10 & _) (P1 & P2 & P3 & P4 & P5) Hw Hc].
  constructor; [|constructor; [congruence..|auto]|auto|by rewrite E1].
  eapply snd_ok_ctx; [done| |done..|rewrite E7; apply Hsn|rewrite E10; apply Hsn].
  destruct Hsn as [_ [] _ _ _ _ _]. constructor; rewrite ?P1, ?P3, ?P4, ?E5, ?E8; done.
Qed.

(** A step that only changes such fields. *)
Lemma modctx_step S c w x f (Q : unit → world → Prop) :
  snd_live w c x S → mild x (f x) →
  (∀ w', ack_step S c w x w' (f x) [] → Q tt w') → wp (modctx c f) Q w.
Proof.
  intros Hl Hm HQ. eapply wp_modctx; [apply Hl|]. apply HQ.
  constructor; [by eapply mild_live|apply Hm|cbn; by rewrite app_nil_r|by constructor|].
  apply (tx_local _ 0), local_ctx.
Qed.

Lemma ack_step_io S c w x w1 :
  snd_live w c x S → io_frame w w1 → w_sent w1 = w_sent w → ack_step S c w x w1 x [].
Proof.
  intros [[? ? ? ? ? ? ? ?] H1 H2 H3] Hio Hs. destruct Hio as [Eio].
  constructor; [|reflexivity|by rewrite app_nil_r|by constructor|apply tx_io; by constructor].
  rewrite Eio. constructor; try done. constructor; try done. by destruct sn_pool; constructor.
Qed.

Lemma ack_step_refl S c w x : snd_live w c x S → ack_step S c w x w x [].
Proof. intros. apply ack_step_io; [done|reflexivity|done]. Qed.

(** What is known of the window of the peer is what it was. *)
Record flow_kept (x x' : dtp_context) : Prop := {
  fk_window : tc_rcvWindow x' = tc_rcvWindow x; fk_zero : tc_isHerWindowZero x' = tc_isHerWindowZero x;
  fk_cong : tc_isCongested x' = true → tc_isCongested x = true }.

#[export] Instance flow_kept_preorder : PreOrder flow_kept.
Proof. split; [by constructor|]. intros x y z [] []. constructor; try congruence. auto. Qed.

(** One of the datagrams [ds] has the byte at position [p]. *)
Definition carried (S : stream) (x : dtp_context) (ds : list datagram) (p : Z) : Prop :=
  ∃ d a n, d ∈ ds ∧ is_segment S x d a n ∧ a ≤ p < a + n.

(** The count of the bytes in flight changed by as much as those, and what is newly in flight
    is in [ds]. *)
Record moves (S : stream) (x x' : dtp_context) (ds : list datagram) : Prop := {
  mv_scale : tc_sendWindowScale x' = tc_sendWindowScale x;
  mv_count : tc_segSent x' - (tc_lastByteSent x' - tc_lastByteAcked x') = tc_segSent x - (tc_lastByteSent x - tc_lastByteAcked x);
  mv_cover p : tc_lastByteAcked x' ≤ p < tc_lastByteSent x' → tc_lastByteAcked x ≤ p < tc_lastByteSent x ∨ carried S x ds p }.

Lemma moves_still S x x' ds :
  tc_sendWindowScale x' = tc_sendWindowScale x → tc_segSent x' = tc_segSent x → tc_lastByteSent x' = tc_lastByteSent x →
  tc_lastByteAcked x' = tc_lastByteAcked x → moves S x x' ds.
Proof. intros ? Es E1 E2. constructor; rewrite ?E1, ?E2, ?Es; [done|done|by left]. Qed.

Lemma carried_conn S x x' ds p : same_conn x x' → carried S x' ds p → carried S x ds p.
Proof.
  intros (Es & _ & _ & Ea & _) (d & a & n & Hd & [] & Hp). exists d, a, n. split; [done|]. split; [|done].
  constructor; try done. by rewrite <- Ea, <- Es.
Qed.

Lemma moves_trans S x1 x2 x3 ds1 ds2 : same_conn x1 x2 → moves S x1 x2 ds1 → moves S x2 x3 ds2 → moves S x1 x3 (ds1 ++ ds2).
Proof.
  intros Hc [M1 M2 M3] [N1 N2 N3]. constructor; [congruence|lia|]. intros p Hp.
  destruct (N3 p Hp) as [Hp2|(d & a & n & Hd & Hr)%(carried_conn S x1 x2 _ _ Hc)].
  - destruct (M3 p Hp2) as [|(d & a & n & Hd & Hr)]; [by left|]. right. exists d, a, n. set_solver.
  - right. exists d, a, n. set_solver.
Qed.

Lemma segments_carried S x ds p : ∀ a b, segments S x ds a b → a ≤ p < b → carried S x ds p.
Proof.
  induction ds as [|d ds IH]; intros a b; simpl; [lia|]. intros (n & Hd & H) Hp.
  destruct (decide (p < a + n)); [exists d, a, n; split; [left|by split; [|lia]]|].
  destruct (IH (a + n) b H) as (d' & a' & n' & ? & ?); [lia|]. exists d', a', n'. split; [by right|done].
Qed.

(** Nothing waits to be sent when nothing is in flight and the windows admit a segment. *)
Definition unstalled (x : dtp_context) : Prop :=
  tc_isNetConnected x = true → MAX_PAYLOAD ≤ tc_rcvWindow x → tc_segSent x = 0 →
  tc_lastByteSent x = tc_lastByteAcked x → tc_lastByteWritten x = tc_lastByteSent x.

(** The loop condition of [DTPWriteAvail] in such a case. *)
Lemma allowance_open S x y : wr_ok x S → cc_ok x → is_u32 (tc_rcvWindow x) →
  tc_lastByteWritten y = tc_lastByteWritten x → tc_lastByteSent y = tc_lastByteSent x →
  tc_lastByteAcked x = tc_lastByteSent x → tc_segSent x = 0 → MAX_PAYLOAD ≤ tc_rcvWindow x →
  tc_lastByteSent x < tc_lastByteWritten x → may_send y (send_allowance x) = true.
Proof.
  intros [_ ? ? ? ?] [] [_ Hu] Ew Es Ea Eg Hr Hlt. unfold send_allowance, may_send, c__min. rewrite Ew, Es, Ea, Eg.
  set (m := tc_lastByteWritten x - tc_lastByteSent x). assert (HM : 0 < MAX_PAYLOAD) by done.
  rewrite Z.sub_diag. change (u32 0) with 0. rewrite !Z.sub_0_r.
  rewrite (u32_small m), (i32_small m), (u32_small m) by (unfold is_u32, is_i32; lia).
  rewrite (u32_small (tc_rcvWindow x)), (i32_small (tc_cwnd x)) by (unfold is_u32, is_i32; lia).
  destruct (Z.leb_spec MAX_PAYLOAD (tc_cwnd x)); [|lia].
  destruct (Z.ltb_spec (tc_rcvWindow x) m) as [Hr1|Hr1].
  - destruct (Z.ltb_spec (tc_cwnd x) (i32 (tc_rcvWindow x))); [by rewrite (proj2 (Z.leb_le _ _))|].
    rewrite i32_small in * by (unfold is_i32; lia). by rewrite (proj2 (Z.leb_le _ _)).
  - rewrite i32_small by (unfold is_i32; lia). destruct (Z.ltb_spec (tc_cwnd x) m); [by rewrite (proj2 (Z.leb_le _ _))|].
    destruct (Z.leb_spec MAX_PAYLOAD m); [done|]. rewrite (proj2 (Z.ltb_lt 0 m)), (proj2 (Z.ltb_lt m MAX_PAYLOAD)) by lia. done.
Qed.

(** The step of [DTPWriteAvail]: it sends the next bytes of the stream, and on a connected,
    uncongested network as many as the windows allow. *)
Record avail_step (S : stream) (c : Z) (w : world) (x : dtp_context) (w' : world) (x' : dtp_context)
    (ds : list datagram) : Prop := {
  av_step : ack_step S c w x w' x' ds; av_acked : tc_lastByteAcked x' = tc_lastByteAcked x; av_flow : flow_kept x x';
  av_segs : segments S x ds (tc_lastByteSent x) (tc_lastByteSent x');
  av_stop : tc_isNetConnected x = true → tc_isCongested x = false →
            may_send x' (send_allowance x - (tc_lastByteSent x' - tc_lastByteSent x)) = false;
  av_moves : moves S x x' ds; av_unstalled : unstalled x' }.

Section handle.
Context {env : Env} {up : NetUp env}.

Lemma write_avail_step sock w c x S :
  snd_live w c x S →
  wp (DTPWriteAvail sock c) (λ _ w', ∃ x' ds, avail_step S c w x w' x' ds) w.
Proof using up.
  intros [Hsn Hsd Hcc Hso]. eapply wp_mono; [by apply DTPWriteAvail_spec|].
  intros _ w' (x' & ds & n & Hsn' & Hwa & Hs & Hseg & _ & Hstop & Ht & _). exists x', ds.
  assert (Hsc : same_conn x x') by (by rewrite Hwa).
  assert (tc_lastByteSent x + n ≤ tc_lastByteWritten x).
  { destruct (sn_wr _ _ _ _ Hsn') as [_ _ Hle _ _]. rewrite Hwa in Hle. exact Hle. }
  assert (Hse : tc_lastByteSent x' = tc_lastByteSent x + n) by (by rewrite Hwa).
  assert (Hse0 : tc_lastByteAcked x' = tc_lastByteAcked x ∧ tc_segSent x' = tc_segSent x + n ∧ tc_rcvWindow x' = tc_rcvWindow x ∧
    tc_lastByteWritten x' = tc_lastByteWritten x ∧ tc_isNetConnected x' = tc_isNetConnected x) by (by rewrite Hwa).
  destruct Hse0 as (Ea & Eg & Er & Ew & En). pose proof (segments_le _ _ _ _ _ Hseg).
  constructor; [|done|by constructor; rewrite Hwa|by rewrite Hse|by rewrite Hse, Z.add_simpl_l| |].
  2: { constructor; [by rewrite Hwa|lia|]. intros p Hp. destruct (decide (p < tc_lastByteSent x)); [left; lia|].
       right. eapply segments_carried; [exact Hseg|lia]. }
  2: { pose proof (sn_wr _ _ _ _ Hsn) as Hwr. pose proof Hwr as [_ ? ? _ _]. intros Hnc Hr Hg He.
       assert (n = 0) as -> by lia. destruct (decide (tc_lastByteWritten x' = tc_lastByteSent x')) as [|Hne]; [done|].
       assert (Hcg : tc_isCongested x = false).
       { pose proof (sn_chain _ _ _ _ Hsn) as Hch. pose proof (sn_retrans _ _ _ _ Hsn) as Hrt.
         destruct (tc_packetQ x) as [|p l]; [done|]. destruct Hch as (k & m & _ & Hd & Hch). pose proof (chain_le _ _ _ _ _ Hch).
         pose proof (dp_pos _ _ _ _ Hd). lia. }
       specialize (Hstop ltac:(congruence) Hcg). rewrite Z.sub_0_r, (allowance_open S x x') in Hstop; (done || lia || apply Hsd || congruence). }
  constructor; [|done|done|by eapply segments_stream|done].
  constructor; [done| | |by rewrite Hwa].
  - destruct Hsd. constructor; by rewrite Hwa.
  - destruct Hcc. constructor; by rewrite Hwa.
Qed.

Lemma resume_writer_step w c x S :
  snd_live w c x S →
  wp (resume_writer c) (λ _ w', ∃ x' ds, ack_step S c w x w' x' ds ∧
    tc_lastByteAcked x' = tc_lastByteAcked x ∧ flow_kept x x' ∧ moves S x x' ds ∧ unstalled x') w.
Proof using up.
  intros Hl. unfold resume_writer. apply wp_bind. eapply wp_getctx; [apply Hl|].
  apply wp_bind. eapply wp_mono; [by apply write_avail_step|].
  intros _ w1 (x1 & ds & [H1 Ha1 Hf1 _ _ Hm1 Hu1]). apply wp_bind, io_select_set; [apply Hl|]. intros w2 Hio2 Hs2.
  pose proof (ack_step_io S c w1 x1 w2 (as_live _ _ _ _ _ _ _ H1) Hio2 Hs2) as H2.
  apply wp_bind. eapply wp_getctx; [apply H2|].
  pose proof (ack_step_trans _ _ _ _ _ _ _ _ _ _ H1 H2) as H12. rewrite app_nil_r in H12. apply wp_when; intros _.
  - apply io_cond_signal. intros w3 Hio3 Hs3. exists x1, ds. split; [|done].
    rewrite <- (app_nil_r ds). eapply ack_step_trans; [exact H12|]. apply ack_step_io; [apply H2|done|done].
  - by exists x1, ds.
Qed.

Lemma count_acked_step w c x S acked :
  snd_live w c x S → 0 < acked ≤ tc_writeBufLen x →
  wp (count_acked c acked) (λ _ w', ∃ x', ack_step S c w x w' x' [] ∧
    tc_lastByteAcked x' = tc_lastByteAcked x ∧ flow_kept x x' ∧ moves S x x' []) w.
Proof using.
  intros Hl Ha. pose proof Hl as [_ [Hst _ _] Hcc Hso]. unfold count_acked.
  apply wp_bind. eapply modctx_step; [done|by constructor; try done; intros []|]. intros w1 H1.
  apply wp_bind. eapply wp_getctx; [apply H1|]. set (x1 := set tc_upByte _ x) in *.
  change (tc_state x1) with (tc_state x). rewrite Hst. simpl is_state.
  apply wp_bind. simpl mwhen. apply wp_ret. apply wp_bind. eapply wp_getctx; [apply H1|].
  destruct (MoveCongestionWindow_spec x1 acked) as (cw & Hmc & Hcw & _); [by destruct Hcc|cbn; lia|].
  apply wp_bind. eapply wp_lift; [exact Hmc|]. apply wp_bind. eapply wp_putctx; [apply H1|].
  assert (Hm : mild x1 (x1 <| tc_cwnd := cw |>)).
  { constructor; try done. intros [? ? ? ?]. cbn in Hcw. constructor; cbn; try done. seg_lia. }
  pose proof (mild_live _ _ _ _ _ (as_live _ _ _ _ _ _ _ H1) Hm) as Hl2.
  apply io_select_set; [exact Hso|]. intros w3 Hio Hs. exists (x1 <| tc_cwnd := cw |>). split; [|by split_and!; [|constructor|apply moves_still]].
  eapply (ack_step_trans _ _ _ _ w1 x1 _ _ [] []); [exact H1|].
  eapply (ack_step_trans _ _ _ _ (w1 <| w_ctxs ::= <[c := x1 <| tc_cwnd := cw |>]> |>) _ _ _ [] []);
    [|by apply ack_step_io].
  constructor; [done|apply Hm|cbn; by rewrite app_nil_r|by constructor|]. apply (tx_local _ 0), local_ctx.
Qed.

(** The window the peer announces, in bytes. *)
Definition peer_window (x : dtp_context) (win : Z) : Z := u32 (Z.shiftl win (tc_sendWindowScale x)).

(** The window that [x] announces, as a peer with scale [s] reads it. *)
Definition heard_window (x : dtp_context) (s : Z) : Z := u32 (Z.shiftl (Z.min (AdvertisedWindow x) 0x7FFF) s).

(** The window is taken over; [true]: it reopened, and data was sent. *)
Lemma update_window_step w c x S win :
  snd_live w c x S → is_u16 win →
  wp (update_window c win) (λ r w', ∃ x' ds, ack_step S c w x w' x' ds ∧
    tc_lastByteAcked x' = tc_lastByteAcked x ∧ moves S x x' ds ∧ (r = true → tc_isHerWindowZero x = true) ∧
    (0 < peer_window x win → tc_rcvWindow x' = peer_window x win ∧ tc_isHerWindowZero x' = false ∧
     if r then unstalled x' else x' = x <| tc_rcvWindow := peer_window x win |>)) w.
Proof using up.
  intros Hl Hw. unfold update_window.
  apply wp_bind. eapply modctx_step; [done|constructor; try done; [intros; apply u32_range|by intros []]|].
  intros w1 H1. set (x1 := set tc_rcvWindow _ x) in *. apply wp_bind. eapply wp_getctx; [apply H1|].
  apply wp_bind. eapply wp_mono with (Q := λ _ w2, ∃ x2, ack_step S c w x w2 x2 [] ∧
    tc_lastByteAcked x2 = tc_lastByteAcked x ∧ moves S x x2 [] ∧
    (tc_isHerWindowZero x2 && (0 <? tc_rcvWindow x2) = true → tc_isHerWindowZero x = true) ∧
    (0 < peer_window x win → x2 = x1)).
  - apply wp_when; intros Hz; [|by exists x1; split_and!; [| |apply moves_still|intros [? _]%andb_prop|]].
    apply wp_bind, io_gettimeofday. intros w2 Hio Hs.
    pose proof (ack_step_io S c w1 x1 w2 (as_live _ _ _ _ _ _ _ H1) Hio Hs) as H2.
    eapply modctx_step; [apply H2|by constructor; try done; intros []|]. intros w3 H3. eexists. split;
      [exact (ack_step_trans _ _ _ _ _ _ _ _ [] [] H1 (ack_step_trans _ _ _ _ _ _ _ _ [] [] H2 H3))|].
    apply Z.eqb_eq in Hz. change (peer_window x win = 0) in Hz. split; [done|]. split; [by apply moves_still|]. split; [|lia].
    change (true && (0 <? peer_window x win) = true → tc_isHerWindowZero x = true). by rewrite Hz.
  - intros _ w2 (x2 & H2 & Ha2 & Hm2 & Hz2 & Hw2). apply wp_bind. eapply wp_getctx; [apply H2|].
    destruct (tc_isHerWindowZero x2 && (0 <? tc_rcvWindow x2)) eqn:Hr.
    2: { apply wp_ret. exists x2, []. split_and!; [done|done|done|done|]. intros Hp. rewrite (Hw2 Hp) in Hr |- *.
         change (tc_isHerWindowZero x && (0 <? peer_window x win) = false) in Hr. rewrite (proj2 (Z.ltb_lt _ _)), andb_true_r in Hr by done. done. }
    specialize (Hz2 eq_refl).
    apply wp_bind. eapply modctx_step; [apply H2|by constructor; try done; intros []|]. intros w3 H3.
    apply wp_bind. eapply wp_mono; [apply resume_writer_step, H3|].
    intros _ w4 (x4 & ds & H4 & Ha4 & [Fw Fz _] & Hm4 & Hu4). apply wp_ret. exists x4, ds.
    pose proof (ack_step_trans _ _ _ _ _ _ _ _ [] ds H3 H4) as H34. split_and!; [|by rewrite Ha4| |done|].
    + exact (ack_step_trans _ _ _ _ _ _ _ _ [] ds H2 H34).
    + apply (moves_trans S x x2 x4 [] ds); [apply H2|done|]. by apply (moves_trans S x2 _ x4 [] ds (as_conn _ _ _ _ _ _ _ H3)); [apply moves_still|].
    + intros Hp. split_and!; [|by rewrite Fz|done]. rewrite Fw. rewrite (Hw2 Hp). done.
Qed.

(** A packet at the acknowledged position is sent again. *)
Lemma retransmit_packet w c x S p k n (Q : unit → world → Prop) :
  ctx_at w c = Some x → wr_ok x S → w_pkts w !! p = Some k → data_pkt c k (tc_lastByteAcked x) n →
  zlen (tp_header k) = TP_HEADER_SIZE → tc_lastByteAcked x + n ≤ tc_lastByteWritten x →
  tc_isNetConnected x = true →
  (∀ w1 d, io_frame w w1 → w_sent w1 = w_sent w ++ [d] → is_segment S x d (tc_lastByteAcked x) n →
     Q tt (w1 <| w_pkts ::= <[p := k <| tp_isRetrans := true |>]> |>)) →
  wp (DTPRetransmit (tc_sock x) p) Q w.
Proof using up.
  intros Hx Hwr Hk Hd Hz Hn Hnc HQ. pose proof Hd as [Hc Hsq Hlen ? _ Hh _ _].
  unfold DTPRetransmit. apply wp_bind. eapply wp_getpkt; [done|]. rewrite Hc.
  apply wp_bind. eapply wp_getctx; [done|].
  assert (Hoff : GetWriteBufPacketSentOff x k = tc_lastByteAcked x - tc_lastByteAcked x).
  { unfold GetWriteBufPacketSentOff. rewrite Hsq, Z.sub_diag. done. }
  destruct (packet_bytes w c x S p k (tc_lastByteAcked x) n) as (d & Hdata & Hdl & Hseg); [done..|lia|lia|].
  apply wp_bind. rewrite Hoff. eapply io_send; [exact Hdata|exact Hdl|]. intros w1 Hio Hs1.
  apply wp_bind, wp_gets. rewrite (proj2 (Z.eqb_neq (tp_len k) (-1))) by (unfold DTPHDRSIZE in *; lia).
  cbn [andb]. apply wp_bind. eapply wp_getctx; [by rewrite (io_ctx _ _ c Hio)|]. rewrite Hnc. cbn [negb].
  eapply wp_modpkt; [by destruct Hio as [->]|]. by eapply HQ.
Qed.

(** The first packet of the queue is sent again. *)
Lemma retransmit_step w c x S p l :
  snd_live w c x S → tc_packetQ x = p :: l → tc_isNetConnected x = true →
  wp (DTPRetransmit (tc_sock x) p) (λ _ w', ∃ ds, ack_step S c w x w' x ds) w.
Proof using up.
  intros Hl Hq Hnc. pose proof Hl as [[Hx Hwr Hch Hnd Hfr Hpo Hhd Hrt] Hsd Hcc Hso]. rewrite Hq in *.
  destruct Hch as (k & n & Hk & Hd & Hch). pose proof (chain_le _ _ _ _ _ Hch) as Hle.
  apply NoDup_cons in Hnd as [Hpl Hnd]. pose proof (pp_hdr _ Hpo _ _ Hk) as Hz.
  eapply retransmit_packet; [done..|destruct Hwr; lia|done|]. intros w1 d Hio Hs1 Hseg.
  set (k' := set tp_isRetrans _ k). set (w2 := set w_pkts _ w1). exists [d].
  assert (Hk1 : w_pkts w1 !! p = Some k) by (destruct Hio as [->]; exact Hk).
  assert (Hd' : data_pkt c k' (tc_lastByteAcked x) n) by (by destruct Hd).
  assert (Hpk : w_pkts w1 = w_pkts w) by (by destruct Hio as [->]).
  assert (L : local_to c p w1 w2) by apply local_pkt.
  destruct (local_same _ _ _ _ L) as [F2 S2].
  constructor; [|reflexivity|by rewrite S2| |].
  - constructor; try done. constructor; rewrite ?Hq; try done.
    + change (ctx_at w2 c) with (ctx_at w1 c). by rewrite (io_ctx _ _ c Hio).
    + exists k', n. cbn. rewrite lookup_insert_eq. split_and!; [done|done|]. rewrite Hpk.
      eapply chain_ext; [|exact Hch]. intros q kq Hin Hkq. rewrite lookup_insert_ne; [done|]. by intros ->.
    + by constructor.
    + intros q Hin. rewrite F2. destruct Hio as [->]. by apply Hfr.
    + eapply pool_local; [exact L|exact Hk1|cbn; apply lookup_insert_eq|exact Hz|].
      destruct Hpo, Hio as [->]. by constructor.
    + cbn. rewrite Hpk. by eapply retrans_again.
  - repeat constructor. exists (tc_lastByteAcked x), n. split; [done|destruct Hwr; lia].
  - etrans; [by apply tx_io|]. by eapply tx_local.
Qed.

Lemma duplicate_step w c x S :
  snd_live w c x S → tc_isNetConnected x = true →
  wp (HandleDuplicateACK c) (λ _ w', ∃ x' ds, ack_step S c w x w' x' ds ∧
    tc_lastByteAcked x' = tc_lastByteAcked x ∧ moves S x x' ds ∧ flow_kept x x' ∧ tc_numACKRcvd x' = tc_numACKRcvd x) w.
Proof using up.
  intros Hl Hnc. unfold HandleDuplicateACK. apply wp_bind. eapply wp_getctx; [apply Hl|].
  destruct (tc_packetQ x) as [|p l] eqn:Hq; [apply wp_ret; exists x, []; split_and!; [by apply ack_step_refl|done|by apply moves_still|reflexivity|done]|].
  apply wp_bind. eapply wp_mono; [by eapply retransmit_step|]. intros _ w1 (ds & H1).
  eapply modctx_step; [apply H1| |].
  - constructor; try done; [unfold CongestionAvoidance, same_conn; by case_match
      |unfold CongestionAvoidance; by case_match|unfold CongestionAvoidance; by case_match|].
    intros Hcc. by apply loss_spec.
  - intros w2 H2. exists (CongestionAvoidance x), (ds ++ []). split; [by eapply ack_step_trans|].
    unfold CongestionAvoidance. case_match; by split_and!; [|apply moves_still|constructor|].
Qed.

(** The buffer slides and the packets up to [ack] are retired. *)
Lemma slide_remove_step w c x S ack (Q : unit → world → Prop) :
  snd_live w c x S → tc_lastByteAcked x ≤ ack ≤ tc_lastByteWritten x →
  (∀ w' x', ack_step S c w x w' x' [] → tc_lastByteAcked x' = ack → flow_kept x x' → moves S x x' [] → Q tt w') →
  wp (slide_write_buf c ack (ack - tc_lastByteAcked x);; RemovePacket c ack) Q w.
Proof using.
  intros Hl Hack HQ. pose proof Hl as [[Hx Hwr Hch Hnd Hfr Hpo Hhd Hrt] Hsd Hcc Hso].
  apply wp_bind. eapply slide_write_buf_spec; [done..|]. intros w1 x1 Hx1 Hwr1 Hsl L1 Hp1.
  unfold RemovePacket. apply wp_bind. eapply wp_getctx; [done|].
  assert (Hq1 : tc_packetQ x1 = tc_packetQ x) by (by rewrite Hsl).
  destruct (local_same _ _ _ _ (L1 0)) as [F1 S1].
  assert (Hpo1 : pkt_pool_ok w1).
  { destruct (L1 0) as [E _ _]. destruct Hpo as [P1 P2 P3 P4 P5 P6].
    assert (EB : w_brk w1 = w_brk w) by (by rewrite E).
    assert (EC : w_freePktCount w1 = w_freePktCount w) by (by rewrite E).
    constructor; rewrite ?F1, ?Hp1, ?EB, ?EC; done. }
  eapply wp_mono.
  { eapply (remove_loop_spec c ack (tc_packetQ x1) (tc_lastByteSent x) w1 x1 None 0 (tc_lastByteAcked x));
      [done|done|done| | |destruct Hwr; lia|lia|destruct Hwr; lia].
    - rewrite Hq1. constructor; [done|by rewrite F1|done].
    - by rewrite Hq1, Hp1. }
  intros [] w2 (x2 & Hx2 & [Ere _ Hcg] & Hch2 & [Hnd2 Hfr2 Hpo2] & Ht2 & Hs2 & Hrt2).
  assert (Hrt' : retrans_ok (w_pkts w2) (tc_packetQ x2) (tc_isCongested x2)) by (apply Hrt2; rewrite Hp1, Hsl; exact Hrt).
  assert (Ha2 : tc_lastByteAcked x2 = ack) by (by rewrite Ere, Hsl).
  assert (Hse2 : tc_lastByteSent x2 = tc_lastByteSent x `max` ack) by (by rewrite Ere, Hsl).
  assert (Hfl : flow_kept x x2).
  { constructor; [by rewrite Ere, Hsl..|]. intros Hc2. apply Hcg in Hc2. rewrite Hsl in Hc2. exact Hc2. }
  assert (Hmv : moves S x x2 []).
  { pose proof (wr_acked _ _ Hwr). assert (tc_segSent x1 = tc_segSent x) by (by rewrite Hsl).
    constructor; [by rewrite Ere, Hsl|rewrite Ha2, Hse2, Ere; cbn; lia|intros q Hq; left; lia]. }
  apply (HQ w2 x2); [|done|done|done]. constructor; [|by rewrite Ere, Hsl|by rewrite Hs2, S1, app_nil_r|by constructor|].
  - constructor; [|destruct Hsd; constructor; by rewrite Ere, Hsl
      |destruct Hcc; constructor; by rewrite Ere, Hsl|by rewrite Ere, Hsl].
    constructor; try done; [|by rewrite Ha2, Hse2|by rewrite Ere, Hsl].
    destruct Hwr1. constructor; by rewrite Ere.
  - etrans; [exact (tx_local _ 0 _ _ (L1 0))|exact Ht2].
Qed.

Lemma accept_ack_step w c x S ack :
  snd_live w c x S → tc_lastByteAcked x ≤ ack ≤ tc_lastByteWritten x →
  wp (accept_ack c ack) (λ _ w', ∃ x' ds, ack_step S c w x w' x' ds ∧ tc_lastByteAcked x' = ack ∧ flow_kept x x' ∧
    moves S x x' ds ∧ unstalled x') w.
Proof using up.
  intros Hl Hack. pose proof Hl as [[Hx Hwr _ _ _ _ _] [Hst _ _] _ _]. pose proof Hwr as [_ ? ? ? ?].
  unfold accept_ack. apply wp_bind. eapply wp_getctx; [done|].
  rewrite i32_sub_u32 by (unfold is_i32; lia).
  apply wp_assoc. eapply slide_remove_step; [done..|]. intros w1 x1 H1 Ha1 Hf1 Hm1.
  apply wp_bind. eapply wp_mono with (Q := λ _ w2, ∃ x2, ack_step S c w x w2 x2 [] ∧ tc_lastByteAcked x2 = ack ∧ flow_kept x x2 ∧
    moves S x x2 []).
  - apply wp_when; intros Hz; [|by exists x1]. apply negb_true_iff, Z.eqb_neq in Hz.
    assert (tc_writeBufLen x1 = tc_writeBufLen x) by apply (as_conn _ _ _ _ _ _ _ H1).
    eapply wp_mono; [apply count_acked_step; [apply H1|lia]|]. intros _ w2 (x2 & H2 & Ha2 & Hf2 & Hm2).
    exists x2. split; [exact (ack_step_trans _ _ _ _ _ _ _ _ [] [] H1 H2)|]. split_and!; [congruence|by etrans|].
    by apply (moves_trans S x x1 x2 [] []); [apply H1|..].
  - intros _ w2 (x2 & H2 & Ha2 & Hf2 & Hm2). apply wp_bind. eapply wp_mono; [apply resume_writer_step, H2|].
    intros _ w3 (x3 & ds & H3 & Ha3 & Hf3 & Hm3 & Hu3). unfold ack_of_fin. apply wp_bind. eapply wp_getctx; [apply H3|].
    pose proof (ack_step_trans _ _ _ _ _ _ _ _ [] ds H2 H3) as H23.
    assert (Hst3 : tc_state x3 = SOCK_ESTABLISHED) by apply H3.
    rewrite Hst3. apply wp_ret. exists x3, ds. split; [exact H23|]. split_and!; [congruence|by etrans| |done].
    by apply (moves_trans S x x2 x3 [] ds); [apply H2|..].
Qed.

(** The acknowledged position moves to [ack], unless the packet reopened the
    window of the peer (the rest of it is then not looked at). *)
Definition acked_to (x x' : dtp_context) (ack : Z) : Prop :=
  tc_lastByteAcked x' = ack ∨ (tc_lastByteAcked x' = tc_lastByteAcked x ∧ tc_isHerWindowZero x = true).

(** What is known after an acknowledgement with an open window [pw]: the window, and nothing
    waits, unless the packet counted as the third duplicate. *)
Record heard (x x' : dtp_context) (pw : Z) : Prop := {
  he_window : tc_rcvWindow x' = pw ∧ tc_isHerWindowZero x' = false;
  he_unstalled : unstalled x' ∨ tc_numACKRcvd x' = 4; he_again : tc_numACKRcvd x = 4 → unstalled x' }.

(** An acknowledgement of written data, on a connected network. *)
Lemma HandleACKPacket_step w c x S ack win :
  snd_live w c x S → tc_isNetConnected x = true → is_u16 win →
  tc_lastByteAcked x ≤ ack ≤ tc_lastByteWritten x →
  wp (HandleACKPacket c ack win) (λ _ w', ∃ x' ds, ack_step S c w x w' x' ds ∧ acked_to x x' ack ∧ moves S x x' ds ∧
    (0 < peer_window x win → heard x x' (peer_window x win))) w.
Proof using up.
  intros Hl Hnc Hw Hack. unfold HandleACKPacket. apply wp_bind. eapply wp_getctx; [apply Hl|].
  rewrite Hnc. cbn [negb]. rewrite (proj2 (Z.ltb_ge _ _)) by lia. apply wp_bind, wp_ret. cbn [negb].
  apply wp_bind. eapply wp_mono; [by apply update_window_step|].
  intros reopened w1 (x1 & ds1 & H1 & Ha1 & Hm1 & Hz1 & Hw1). set (pw := peer_window x win) in *.
  destruct reopened; [apply wp_ret; exists x1, ds1; split_and!; [done|right; auto|done|]|].
  { intros Hp. destruct (Hw1 Hp) as (E1 & E2 & Hu). constructor; [done|by left|done]. }
  apply wp_bind. eapply wp_getctx; [apply H1|]. pose proof (as_conn _ _ _ _ _ _ _ H1) as Hc1.
  assert (Hacc : ∀ w2 x2, ack_step S c w x w2 x2 ds1 → tc_lastByteAcked x2 = tc_lastByteAcked x → moves S x x2 ds1 → flow_kept x1 x2 →
    wp (accept_ack c ack) (λ _ w', ∃ x' ds, ack_step S c w x w' x' ds ∧ acked_to x x' ack ∧ moves S x x' ds ∧
      (0 < pw → heard x x' pw)) w2).
  { intros w2 x2 H2 Ha2 Hm2 [Fw Fz _]. assert (tc_lastByteWritten x2 = tc_lastByteWritten x) by apply H2.
    eapply wp_mono; [apply accept_ack_step; [apply H2|lia]|]. intros _ w3 (x3 & ds3 & H3 & Ha3 & [Gw Gz _] & Hm3 & Hu3).
    exists x3, (ds1 ++ ds3). split_and!; [by eapply ack_step_trans|by left|by eapply moves_trans; [apply H2|..]|].
    intros Hp. destruct (Hw1 Hp) as (E1 & E2 & _). constructor; [split; congruence|by left|done]. }
  destruct (Z.eqb_spec ack (tc_lastByteAcked x1)) as [Heq|]; [|by eapply Hacc].
  apply wp_bind. eapply modctx_step; [apply H1|by constructor; try done; intros []|]. intros w2 H2.
  pose proof (ack_step_trans _ _ _ _ _ _ _ _ ds1 [] H1 H2) as H12. rewrite app_nil_r in H12. set (x2 := set tc_numACKRcvd _ x1) in *.
  assert (Hm12 : moves S x x2 ds1) by (rewrite <- (app_nil_r ds1); by eapply moves_trans; [apply H1| |apply moves_still]).
  destruct (Z.eqb_spec (tc_numACKRcvd x1 + 1) 4) as [H4|H4]; [|eapply Hacc; [exact H12|done|done|done]].
  assert (Hnc2 : tc_isNetConnected x2 = true) by (rewrite <- Hnc; apply Hc1).
  eapply wp_mono; [apply duplicate_step; [apply H12|exact Hnc2]|]. intros _ w3 (x3 & ds3 & H3 & Ha3 & Hm3 & [Fw Fz _] & Hn3).
  exists x3, (ds1 ++ ds3). split_and!; [by eapply ack_step_trans|left; cbn in Ha3; congruence|by eapply moves_trans; [apply H12|..]|].
  intros Hp. destruct (Hw1 Hp) as (E1 & E2 & E3). constructor; [split; [rewrite Fw|rewrite Fz]; done|right; rewrite Hn3; exact H4|].
  rewrite E3 in H4. cbn in H4. lia.
Qed.

(** An acknowledgement older than the last one does nothing. *)
Lemma HandleACKPacket_stale c x ack win (Q : unit → world → Prop) w :
  ctx_at w c = Some x → ack < tc_lastByteAcked x → 0 ≤ tc_lastByteAcked x < 2 ^ 32 - DTP_MTU →
  Q tt w → wp (HandleACKPacket c ack win) Q w.
Proof using.
  intros Hx Hlt Ha HQ. unfold HandleACKPacket. apply wp_bind. eapply wp_getctx; [done|].
  destruct (tc_isNetConnected x); [|by apply wp_ret]. rewrite (proj2 (Z.ltb_lt _ _)) by done.
  unfold DTP_MTU in *. rewrite u32_small by (unfold is_u32; lia).
  rewrite (proj2 (Z.ltb_ge _ _)) by lia. apply wp_bind, wp_ret, wp_ret, HQ.
Qed.
End handle.

(** The connection of the scenario. *)
Lemma conn_sending S : snd_live (host conn) 5 conn S.
Proof.
  constructor; [|constructor; eval_facts|apply conn_cc|eval_facts].
  constructor; [reflexivity| |reflexivity|constructor|by intros ? ?%elem_of_nil|apply host_pools|eval_facts
    |reflexivity].
  constructor; try eval_facts. exists (zeros DEF_WRITE_BUFLEN).
  split_and!; [reflexivity|eval_facts|]. intros. pose proof conn_positions. lia.
Qed.

Section claims.
Context {env : Env} {up : NetUp env}.

(** C13: An acknowledgement keeps the sender consistent.  For every
    acknowledgement of written data, new or repeated, and every window,
    [HandleACKPacket] returns; the write buffer still holds the unacknowledged
    part of the stream and the packet queue its segments; whatever is sent or sent
    again is a segment of the stream; the position moves to the acknowledged one,
    unless the packet reopened the window of the peer. *)
Theorem ack_keeps_sender w c x S ack win :
  snd_live w c x S → tc_isNetConnected x = true → is_u16 win →
  tc_lastByteAcked x ≤ ack ≤ tc_lastByteWritten x →
  wp (HandleACKPacket c ack win) (λ _ w', ∃ x' ds,
    snd_live w' c x' S ∧ w_sent w' = w_sent w ++ ds ∧ stream_segments S x ds ∧
    tc_lastByteWritten x' = tc_lastByteWritten x ∧ acked_to x x' ack) w.
Proof using up.
  intros Hl Hnc Hw Ha. eapply wp_mono; [by apply HandleACKPacket_step|].
  intros _ w' (x' & ds & [H1 H2 H3 H4 _] & H5 & _). exists x', ds. split_and!; try done. apply H2.
Qed.

(** C14: A cumulative acknowledgement retires exactly what it covers.  Of a queue
    that carries the positions from [a] to [b], the packets up to [ack] leave
    it, one that straddles [ack] is cut to its rest, and the queue carries
    the positions from [ack] on; the count of bytes in flight drops by the bytes
    retired; the retransmission timeout stays at or above its minimum. *)
Theorem cumulative_ack w c x ack a b :
  ctx_at w c = Some x → queue_ok w (tc_packetQ x) → chain (w_pkts w) c (tc_packetQ x) a b →
  0 ≤ a ≤ ack → b < 2 ^ 32 →
  wp (RemovePacket c ack) (λ _ w', ∃ x', ctx_at w' c = Some x' ∧
    queue_ok w' (tc_packetQ x') ∧ chain (w_pkts w') c (tc_packetQ x') ack (b `max` ack) ∧
    tc_segSent x' = tc_segSent x - (ack `min` b - a) ∧ w_sent w' = w_sent w ∧
    (d_lt (tc_RTO x) RTO_MIN = false → d_lt (tc_RTO x') RTO_MIN = false)) w.
Proof using.
  intros Hx Hq Hch Ha Hb. unfold RemovePacket. apply wp_bind. eapply wp_getctx; [done|].
  eapply wp_mono; [eapply (remove_loop_spec c ack (tc_packetQ x) b w x None 0 a); done || lia|].
  intros _ w' (x' & Hx' & [Ere Hrto _] & Hch' & Hq' & _ & Hs & _). exists x'. split_and!; try done.
  rewrite Ere. cbn. lia.
Qed.

(** An old acknowledgement is ignored: one below the acknowledged position
    changes nothing, whatever window it announces. *)
Lemma stale_ack_ignored w c x ack win :
  ctx_at w c = Some x → ack < tc_lastByteAcked x → 0 ≤ tc_lastByteAcked x < 2 ^ 32 - DTP_MTU →
  HandleACKPacket c ack win w = Ok (tt, w).
Proof using.
  intros Hx Hlt Ha.
  assert (H : wp (HandleACKPacket c ack win) (λ _ w', w' = w) w) by (by eapply HandleACKPacket_stale).
  apply wp_run in H as ([] & w' & E & ->). done.
Qed.
End claims.

(** ** The scenario with a segment in flight: packet 3 carries positions 0 to 99. *)
Definition flight_pkt : dtp_pkt := zero_pkt
  <| tp_ctx := 5 |> <| tp_seqNum := 0 |> <| tp_len := 120 |> <| tp_headerLen := 20 |>
  <| tp_header := (DTPGenerateHeader (zeros TP_HEADER_SIZE) 0 0 77 DTP_FLAG_ACK 4096).1 |>.

Definition conn_flight : dtp_context :=
  conn_data <| tc_packetQ := [3] |> <| tc_lastByteSent := 100 |> <| tc_segSent := 100 |>.

Definition host_flight : world := (host conn_flight) <| w_pkts := {[3 := flight_pkt]} |> <| w_brk := 10 |>.

Lemma flight_pool : pkt_pool_ok host_flight.
Proof.
  constructor; cbn; [constructor|by intros ? ?%elem_of_nil|done| |done|].
  - intros p [k [<- _]%lookup_singleton_Some]. lia.
  - intros p k [<- <-]%lookup_singleton_Some. reflexivity.
Qed.

Lemma flight_queue : queue_ok host_flight (tc_packetQ conn_flight).
Proof.
  constructor; [|by intros p _ ?%elem_of_nil|apply flight_pool]. apply NoDup_singleton.
Qed.

Lemma flight_chain : chain (w_pkts host_flight) 5 (tc_packetQ conn_flight) 0 100.
Proof. exists flight_pkt, 100. split_and!; [reflexivity|constructor; eval_facts|reflexivity]. Qed.

Lemma flight_live : snd_live host_flight 5 conn_flight (λ _, 0).
Proof.
  constructor; [|constructor; eval_facts|constructor; eval_facts|eval_facts].
  constructor; [reflexivity| |apply flight_chain|apply NoDup_singleton|by intros ? _ ?%elem_of_nil
    |apply flight_pool|eval_facts|by split].
  constructor; [|eval_facts..]. exists (zeros DEF_WRITE_BUFLEN). split_and!; [reflexivity|eval_facts|].
  intros p _. apply zget_zeros.
Qed.

Example ack_keeps_sender_witness :
  wp (HandleACKPacket 5 60 4096) (λ _ w', ∃ x' ds,
    snd_live w' 5 x' (λ _, 0) ∧ w_sent w' = w_sent host_flight ++ ds ∧ stream_segments (λ _, 0) conn_flight ds ∧
    tc_lastByteWritten x' = tc_lastByteWritten conn_flight ∧
    acked_to conn_flight x' 60) host_flight.
Proof. apply ack_keeps_sender; [apply flight_live|eval_facts|eval_facts|eval_facts]. Defined.

Example cumulative_ack_witness :
  wp (RemovePacket 5 60) (λ _ w', ∃ x', ctx_at w' 5 = Some x' ∧
    queue_ok w' (tc_packetQ x') ∧ chain (w_pkts w') 5 (tc_packetQ x') 60 (100 `max` 60) ∧
    tc_segSent x' = tc_segSent conn_flight - (60 `min` 100 - 0) ∧ w_sent w' = w_sent host_flight ∧
    (d_lt (tc_RTO conn_flight) RTO_MIN = false → d_lt (tc_RTO x') RTO_MIN = false)) host_flight.
Proof. apply cumulative_ack; [reflexivity|apply flight_queue|apply flight_chain|lia|lia]. Defined.

Example stale_ack_ignored_witness :
  HandleACKPacket 5 59 0 (host (conn <| tc_lastByteAcked := 60 |>)) = Ok (tt, host (conn <| tc_lastByteAcked := 60 |>)).
Proof. eapply stale_ack_ignored; [reflexivity|eval_facts|eval_facts]. Defined.
