(* ===== verification/Challenge.v ===== *)
(** * Challenge and response on an address change (dtp_transport.c)

    When a packet of a connection comes from a new address, the host sends a
    nonce there (CHG); the peer answers with the HMAC of the nonce under the
    session key (RSP); the address is changed only if the HMAC is right, which the
    host confirms (AUTH). *)

From S2P Require Import Prelude Double Header Context World ContextTable Pools RetransQueue.
From S2P Require Import Select Congestion Lifecycle Send Ack.

Section env.
Context {env : Env}.

Definition HandleAddressChange (ctx : Z) (addr : sockaddr_in) : M unit :=
  ctx ->> tc_doingCHGRSP := true;;
  SendCHGPacket ctx addr.

(** [memcpy] from the packet: [buf] is the receive buffer from the packet on. *)
Definition payload (buf : bytes) (n : Z) : M bytes := block_read (Some buf) (GetHeaderLen buf) n.

Definition HandleCHGPacket (ctx : Z) (buf : bytes) (addr : sockaddr_in) : M unit :=
  x ← getctx ctx;
  mwhen (negb (addr_eqb (tc_peerAddr x) addr))
    (SendRSTPacket (tc_sock x) buf addr;;
     ctx ->> tc_connReset := true;;
     ctx ->> tc_state := SOCK_CLOSED;;
     DTPReadBufWakeup ctx;;
     DTPWriteBufWakeup ctx;;
     RemoveFromRetransQueue ctx);;
  d ← payload buf NONCE_SIZE;
  ctx ->> tc_nonce := i32 (of_le d);;
  SendRSPPacket ctx.

Definition msec (tv : timeval) : Z := tv_sec tv * 1000 + Z.quot (tv_usec tv) 1000.

(** The connection-time accounting of [HandleRSPPacket]. *)
Definition note_interface (ctx : Z) (buf : bytes) : M unit :=
  tv ← gettimeofday;
  modctx ctx (λ x,
    let d := msec tv - msec (tc_startTime x) in
    if tc_isClientMobile x then x <| tc_mobileTime := d |> <| tc_wifiTime := 0 |>
    else x <| tc_mobileTime := 0 |> <| tc_wifiTime := d |>);;
  tv ← gettimeofday;
  modctx ctx (λ x, x <| tc_startTime := tv |> <| tc_isClientMobile := IsMobilePacket buf |>).

(** Slow start and transmission after the exchange. *)
Definition resume_transfer (ctx : Z) : M unit :=
  modctx ctx DTPSlowStart;;
  resume_writer ctx.

Definition HandleRSPPacket (ctx : Z) (buf : bytes) (addr : sockaddr_in) : M unit :=
  x ← getctx ctx;
  hmac_recv ← payload buf SHA1_DIGEST_LENGTH;
  if negb (bool_decide (hmac_recv = zslice 0 SHA1_DIGEST_LENGTH (nonce_hmac x))) then
    mwhen (tc_doingCHGRSP x) (SendRSTPacket (tc_sock x) buf addr)
  else
    ctx ->> tc_doingCHGRSP := false;;
    ctx ->> tc_peerAddr := addr;;
    SendAUTHPacket ctx;;
    note_interface ctx buf;;
    resume_transfer ctx;;
    x ← getctx ctx;
    match tc_packetQ x with
    | [] => mret tt
    | packet :: _ => DTPRetransmit (tc_sock x) packet
    end.

(** [IsACKPacket((u_char * )packet)]: the bit is read in the packet structure
    itself, where byte 13 is the second byte of [tp_len] (little endian). *)
Definition IsACKPacket_struct (p : dtp_pkt) : bool :=
  Z.testbit (tp_len p) (8 * (bit_byte bit_ack - 12) + bit_pos bit_ack).

Definition HandleAUTHPacket (ctx : Z) (buf : bytes) (addr : sockaddr_in) : M unit :=
  x ← getctx ctx;
  if negb (addr_eqb (tc_peerAddr x) addr) then HandleAddressChange ctx addr
  else
    go ← match tc_packetQ x with
         | packet :: _ =>
           if tc_isACKInserted x then
             p ← getpkt packet;
             if negb (IsACKPacket_struct p) then mret false
             else
               packetQ_remove ctx packet;;
               AddToFreePacketList packet;;
               ctx ->> tc_isACKInserted := false;;
               mret true
           else mret true
         | [] => mret true
         end;
    if negb go then mret tt
    else (resume_transfer ctx;; DTPSendACKPacket ctx;; mret tt).

(** ** Disconnection *)

Definition drop_packet (ctx : Z) (pdone : option ptr) : M unit :=
  match pdone with
  | Some p => packetQ_remove ctx p;; AddToFreePacketList p
  | None => mret tt
  end.

(** [TAILQ_FOREACH] behind the first packet. *)
Fixpoint drop_loop (ctx : Z) (l : list ptr) (pdone : option ptr) : M (option ptr) :=
  match l with
  | [] => mret pdone
  | packet :: l => drop_packet ctx pdone;; drop_loop ctx l (Some packet)
  end.

(** Queue an ACK as the packet that probes the network. *)
Definition queue_ack (ctx : Z) : M unit :=
  ctx ->> tc_isACKInserted := true;;
  x ← getctx ctx;
  let '(hdr, hdr_size) := DTPGenerateHeader (malloc_bytes DTPHDRSIZE) (tc_lastByteSent x)
        (GetAckNumber x) (tc_flowID x) DTP_FLAG_ACK (AdvertisedWindow x) in
  let hdr_size := align4 hdr_size in
  packet ← DTPGetIdlePacket;
  modpkt packet (λ p, p <| tp_header ::= zsplice 0 (zslice 0 hdr_size hdr) |> <| tp_ctx := ctx |>);;
  DTPInsertPacket packet hdr_size hdr_size;;
  packetQ_insert ctx packet.

Definition HandleDisconnect (ctx : Z) : M unit :=
  ctx ->> tc_isNetConnected := false;;
  x ← getctx ctx;
  match tc_packetQ x with
  | packet :: l =>
    p ← getpkt packet;
    ctx ->> tc_lastByteSent := u32 (tp_seqNum p + tp_len p - tp_headerLen p);;
    pdone ← drop_loop ctx l None;
    drop_packet ctx pdone
  | [] => queue_ack ctx
  end;;
  ctx ->> tc_RTO := d_of_Z 1.
End env.
