(* ===== verification/Teardown.v ===== *)
(** * Closing and resetting a connection (dtp_transport.c)

    FIN and RST packets. *)

From S2P Require Import Prelude Double Header Context World ContextTable Pools RetransQueue.
From S2P Require Import Select Congestion Lifecycle Send Ack.

Section env.
Context {env : Env}.

(** The first packet of the queue is unlinked; the queue must not be empty. *)
Definition unlink_first (ctx : Z) : M ptr :=
  x ← getctx ctx;
  match tc_packetQ x with
  | [] => mfault NullDeref
  | packet :: l => ctx ->> tc_packetQ := l;; mret packet
  end.

(** The early returns of [HandleFINPacket]. *)
Definition fin_ignored (x : dtp_context) (seqnum ack_num : Z) : bool :=
  match tc_state x with
  | SOCK_CLOSED | SOCK_LISTEN | SOCK_SYN_RCVD | SOCK_SYN_SENT => true
  | SOCK_FIN_WAIT_1 | SOCK_FIN_WAIT_2 =>
    negb (tc_lastByteWritten x =? ack_num) &&
    negb (ack_num =? tc_lastByteWritten x +u 1) &&
    negb ((ack_num =? tc_lastByteWritten x -u 1) && tc_isFINSent x)
  | SOCK_ESTABLISHED => negb (seqnum =? tc_nextByteExpected x)
  | _ => false
  end.

Definition HandleFINPacket (ctx : Z) (buf : bytes) : M unit :=
  x ← getctx ctx;
  if fin_ignored x (GetSeqNum buf) (GetAckNum buf) then mret tt
  else
    DTPSendACKPacket ctx;;
    ctx ->> tc_isFINRcvd := true;;
    DTPSelectEventSet (tc_sock x) DTP_FD_READ;;
    modctx ctx (λ x, if is_state (tc_state x) SOCK_ESTABLISHED || is_state (tc_state x) SOCK_CLOSE_WAIT
                     then x <| tc_state := SOCK_CLOSE_WAIT |> else x);;
    x ← getctx ctx;
    if is_state (tc_state x) SOCK_CLOSE_WAIT then
      DTPReadBufWakeup ctx;;
      DTPWriteBufWakeup ctx
    else if is_state (tc_state x) SOCK_FIN_WAIT_1 || is_state (tc_state x) SOCK_FIN_WAIT_2 then
      mwhen (is_state (tc_state x) SOCK_FIN_WAIT_1)
        (packet ← unlink_first ctx; AddToFreePacketList packet);;
      ctx ->> tc_state := SOCK_TIME_WAIT;;
      tv ← gettimeofday;
      ctx ->> tc_waitTime := tv;;
      DTPCloseContext ctx
    else mret tt.

(** What each state does with a RST from the peer. *)
Definition reset_connection (ctx : Z) : M unit :=
  x ← getctx ctx;
  if is_state (tc_state x) SOCK_SYN_SENT then
    (* flow ID collision: try another one *)
    packet ← unlink_first ctx;
    fid ← DTPGenerateFlowID DTPGenerateHostID;
    ctx ->> tc_flowID := fid;;
    p ← getpkt packet;
    modctx ctx (λ x, x <| tc_lastByteSent := tc_lastByteSent x -u (tp_len p - tp_headerLen p) |>
                       <| tc_segSent := 0 |>);;
    AddToFreePacketList packet;;
    DTPWriteAvail (tc_sock x) ctx
  else if is_state (tc_state x) SOCK_ESTABLISHED then
    (* server failure *)
    ctx ->> tc_connReset := true;;
    DTPSelectEventSet (tc_sock x) DTP_FD_READ;;
    DTPSelectEventSet (tc_sock x) DTP_FD_WRITE;;
    ctx ->> tc_state := SOCK_CLOSED;;
    DTPReadBufWakeup ctx;;
    DTPWriteBufWakeup ctx;;
    RemoveFromRetransQueue ctx
  else if is_state (tc_state x) SOCK_LAST_ACK then
    (* client closed after SOCK_TIME_WAIT *)
    packet ← unlink_first ctx;
    p ← getpkt packet;
    tp_ctx p ->> tc_state := SOCK_CLOSED;;
    AddToFreePacketList packet
  else mret tt.

(** The deadline pointer passed to [DTPGetOption] is NULL. *)
Definition HandleRSTPacket (ctx : Z) (buf : bytes) : M unit :=
  '(ok, (hid, _)) ← lift_res (DTPGetOption buf (Some (malloc_bytes SHA1_DIGEST_LENGTH)) None);
  x ← getctx ctx;
  if negb ok || negb (bool_decide (Some (tc_hostID x) = hid)) then mret tt
  else reset_connection ctx.
End env.
