(* ===== verification/Migration.v ===== *)
(** * Moving a connection to a new address

    The challenge–response exchange of Challenge.v: a response with the wrong
    HMAC changes nothing, and between two hosts that share the session key the
    exchange moves the connection to the new address. *)

From S2P Require Import Prelude Double Header Context World ContextTable Pools RetransQueue.
From S2P Require Import Select Congestion Lifecycle Send Scenario Intervals Reassembly Receiver.
From S2P Require Import Transmit Ack Acknowledge Challenge Teardown.

(** What the exchange relies on: [rand()] is in its documented range, an
    HMAC-SHA1 has 20 bytes. *)
Class Oracles (env : Env) : Prop := {
  or_rand : ∀ k, 0 ≤ env_rand k < 2 ^ 31;
  or_hmac : ∀ key d, zlen (env_hmac_sha1 key d) = SHA1_DIGEST_LENGTH }.

(** ** Control packets with a payload *)

(** [d] is a control datagram with [flag] and [payload]. *)
Record control_dgram (d : datagram) (flag fid : Z) (payload : bytes) : Prop := {
  cd_len : zlen (dg_data d) = DTPHDRSIZE + zlen payload;
  cd_hlen : GetHeaderLen (dg_data d) = DTPHDRSIZE;
  cd_payload : zslice DTPHDRSIZE (zlen payload) (dg_data d) = payload;
  cd_fid : GetFlowID (dg_data d) = fid;
  cd_flags : IsCHGPacket (dg_data d) = flag_set flag DTP_FLAG_CHG ∧
             IsRSPPacket (dg_data d) = flag_set flag DTP_FLAG_RSP }.

(** A packet in use other than [p] stays as it is and stays in use. *)
Definition keeps_but (p : ptr) (w w' : world) : Prop :=
  ∀ q k, q ≠ p → w_pkts w !! q = Some k → q ∉ w_freePacketList w →
         w_pkts w' !! q = Some k ∧ q ∉ w_freePacketList w'.

Section packets.
Context {env : Env} {up : NetUp env}.

(** The packet [p] is sent with [payload] and returned to its pool. *)
Lemma temp_send w c x p k sock (payload : Z → M bytes) d n addr (Q : unit → world → Prop) :
  ctx_at w c = Some x → w_pkts w !! p = Some k → p ∉ w_freePacketList w → pkt_pool_ok w → zlen d = n →
  (∀ w', ctx_at w' c = Some x → payload n w' = Ok (d, w')) →
  (∀ w', tx_frame c w w' → ctx_at w' c = Some x → pkt_pool_ok w' → keeps_but p w w' →
     w_sent w' = w_sent w ++ [mk_datagram sock addr (zslice 0 DTPHDRSIZE (tp_header k) ++ d)] → Q tt w') →
  wp (modpkt p (set tp_ctx (λ _, c));; DTPInsertPacket p (DTPHDRSIZE + n) DTPHDRSIZE;;
      DTPSendPacket sock (DTPGeneratePacket p payload) (DTPHDRSIZE + n) addr (Some c);;
      AddToFreePacketList p) Q w.
Proof using up.
  intros Hx Hk Hf Hpo Hd Hpay HQ. pose proof (zlen_nonneg d). pose proof (pp_hdr _ Hpo _ _ Hk) as Hhl.
  apply wp_bind. eapply wp_modpkt; [done|]. set (w1 := set w_pkts _ w).
  apply wp_bind. eapply (DTPInsertPacket_wp w1 c x p); [exact Hx|cbn; apply lookup_insert_eq|done|].
  intros w2 tv L2 Hx2 Hk2. set (k2 := set tp_isRetrans _ _) in Hk2.
  assert (L : local_to c p w w2) by (etrans; [apply local_pkt|exact L2]).
  assert (Hsl : zlen (zslice 0 DTPHDRSIZE (tp_header k)) = DTPHDRSIZE)
    by (apply zlen_slice; unfold DTPHDRSIZE, TP_HEADER_SIZE in *; lia).
  assert (Hpo2 : pkt_pool_ok w2) by (by eapply (pool_local c p w w2 k k2)).
  apply wp_bind. eapply (io_send _ _ (zslice 0 DTPHDRSIZE (tp_header k) ++ d)); [|by rewrite zlen_app, Hsl, Hd|].
  - intros w3 Hio. unfold DTPGeneratePacket.
    assert (Hr : wp (DTPGeneratePacket p payload)
      (λ r w', r = zslice 0 DTPHDRSIZE (tp_header k) ++ d ∧ w' = w3) w3).
    { apply wp_bind. eapply wp_getpkt; [destruct Hio as [->]; exact Hk2|].
      apply wp_bind, wp_block_read; [cbn; unfold DTPHDRSIZE, TP_HEADER_SIZE in *; lia..|]. apply wp_bind.
      change (tp_len k2 - tp_headerLen k2) with (DTPHDRSIZE + n - DTPHDRSIZE).
      replace (DTPHDRSIZE + n - DTPHDRSIZE) with n by lia.
      eapply run_wp; [apply Hpay; by rewrite (io_ctx _ _ c Hio)|]. by apply wp_ret. }
    apply wp_run in Hr as (? & ? & E & -> & ->). exact E.
  - intros w3 Hio Hs. assert (Hpk : w_pkts w3 = w_pkts w2) by (by destruct Hio as [->]).
    assert (Hfr : w_freePacketList w3 = w_freePacketList w2) by (by destruct Hio as [->]).
    destruct (local_same _ _ _ _ L) as [F2 S2].
    eapply wp_mono; [apply AddToFreePacketList_spec|].
    + destruct Hpo2 as [P1 P2 P3 P4 P5 P6], Hio as [->]. by constructor.
    + rewrite Hpk, Hk2. by eexists.
    + by rewrite Hfr, F2.
    + intros [] w4 (Hpo4 & Hfl & Hpk4 & Hfr4). pose proof Hfr4 as [Hrest _ _].
      apply HQ; [|rewrite Hrest; etrans; [exact (io_ctx _ _ c Hio)|exact Hx2]|done| |by rewrite Hrest; cbn; rewrite Hs, S2].
      * etrans; [by eapply tx_local|]. etrans; [by apply tx_io|]. by apply tx_pool.
      * intros q kq Hne Hq Hqf. rewrite Hpk4, Hpk, Hfl, Hfr, F2, (lo_pkts _ _ _ _ L) by done.
        split; [done|]. by intros [->|?]%elem_of_cons.
Qed.

(** The header of a control packet and its payload. *)
Lemma control_dgram_of h0 fid flag win d sock addr :
  zlen h0 = TP_HEADER_SIZE → is_u32 fid → 0 ≤ win →
  control_dgram (mk_datagram sock addr
    (zslice 0 DTPHDRSIZE (DTPGenerateHeader h0 0 0 fid flag win).1 ++ d)) flag fid d.
Proof using.
  intros Hl Hf Hw. assert (H20 : DTPHDRSIZE ≤ zlen h0) by (rewrite Hl; done).
  pose proof (zlen_GenerateHeader h0 0 0 fid flag win H20) as Hlh.
  pose proof (header_roundtrip h0 0 0 fid flag win H20 ltac:(done) ltac:(done) Hf Hw) as E.
  set (h := (DTPGenerateHeader h0 0 0 fid flag win).1) in *. rewrite Hl in Hlh.
  assert (Hsl : zlen (zslice 0 DTPHDRSIZE h) = DTPHDRSIZE)
    by (apply zlen_slice; rewrite ?Hlh; unfold DTPHDRSIZE, TP_HEADER_SIZE in *; lia).
  assert (Er : read_header (zslice 0 DTPHDRSIZE h ++ d) = read_header h)
    by (apply read_header_prefix; rewrite Hlh; done).
  rewrite E in Er. clearbody h.
  constructor; cbn [dg_data]; [by rewrite zlen_app, Hsl|exact (f_equal hf_hlen Er)| |exact (f_equal hf_fid Er)
    |exact (conj (f_equal hf_chg Er) (f_equal hf_rsp Er))].
  rewrite zslice_app_r by lia. rewrite Hsl, Z.sub_diag. apply zslice_all.
Qed.

(** A new packet [p] with the header of a control packet. *)
Record fresh_packet (w : world) (c : Z) (x : dtp_context) (flag : Z) (p : ptr) (w' : world) : Prop := {
  fp_frame : tx_frame c w w';
  fp_ctx : ctx_at w' c = Some x;
  fp_pool : pkt_pool_ok w';
  fp_used : p ∉ w_freePacketList w';
  fp_pkt : ∃ k h0, w_pkts w' !! p = Some k ∧ zlen h0 = TP_HEADER_SIZE ∧
             tp_header k = (DTPGenerateHeader h0 0 0 (tc_flowID x) flag (AdvertisedWindow x)).1;
  fp_keeps : keeps_but p w w';
  fp_new : p ∈ w_freePacketList w ∨ w_pkts w !! p = None;
  fp_sent : w_sent w' = w_sent w }.

Lemma temp_packet w c x flag :
  ctx_at w c = Some x → pkt_pool_ok w →
  wp DTPGetIdlePacket (λ p w1, ctx_at w1 c = Some x ∧
    wp (generate_header p 0 0 (tc_flowID x) flag (AdvertisedWindow x))
       (λ n w2, n = DTPHDRSIZE ∧ fresh_packet w c x flag p w2) w1) w.
Proof using.
  intros Hx Hpo. eapply wp_mono; [by apply DTPGetIdlePacket_spec|].
  intros p w1 (Hpo1 & Hfr1 & [k Hk] & Hpf & Hpr & Hpl). pose proof (pp_hdr _ Hpo1 _ _ Hk) as Hl.
  pose proof Hfr1 as [E1 Hold _]. split; [by rewrite E1|].
  unfold generate_header. apply wp_bind. eapply wp_getpkt; [done|].
  pose proof (zlen_GenerateHeader (tp_header k) 0 0 (tc_flowID x) flag (AdvertisedWindow x)
    ltac:(rewrite Hl; done)) as Hlh.
  destruct (DTPGenerateHeader (tp_header k) 0 0 _ flag _) as [h sz] eqn:Eh. cbn [fst] in Hlh.
  assert (Esz : sz = DTPHDRSIZE) by (symmetry; exact (f_equal snd Eh)).
  apply wp_bind. eapply wp_modpkt; [done|]. apply wp_ret. split; [done|].
  set (k1 := set tp_header _ k). set (w2 := set w_pkts _ w1).
  assert (L : local_to c p w1 w2) by apply local_pkt. constructor; try done.
  - etrans; [by apply tx_pool|by eapply tx_local].
  - change (ctx_at w2 c) with (ctx_at w1 c). by rewrite E1.
  - eapply pool_local; [exact L|exact Hk|cbn; apply lookup_insert_eq| |done]. cbn. by rewrite Hlh.
  - exists k1, (tp_header k). split_and!; [cbn; apply lookup_insert_eq|done|symmetry; exact (f_equal fst Eh)].
  - intros q kq Hne Hq Hqf. split; [cbn; rewrite lookup_insert_ne by done; by eapply lookup_weaken|].
    intros Hin. destruct (Hpl q Hin) as [?|?]; [done|congruence].
  - change (w_sent w2) with (w_sent w1). by rewrite E1.
Qed.

Lemma keeps_new p w w1 w2 :
  p ∈ w_freePacketList w ∨ w_pkts w !! p = None → keeps_but p w w1 → keeps_but p w1 w2 → pkeep w w2.
Proof using.
  intros Hn H1 H2 q k Hk Hq. assert (q ≠ p) by (intros ->; destruct Hn; [done|congruence]).
  destruct (H1 q k) as [? ?]; [done..|]. by apply H2.
Qed.

(** The context after a challenge: with the nonce it is for. *)
Definition challenged (x x' : dtp_context) : Prop :=
  x' = x <| tc_nonce := tc_nonce x' |> ∧ (tc_nonce x ≠ 0 → tc_nonce x' = tc_nonce x).

Lemma SendCHGPacket_spec {or : Oracles env} w c x addr :
  ctx_at w c = Some x → pkt_pool_ok w → is_u32 (tc_flowID x) → is_i32 (tc_nonce x) →
  wp (SendCHGPacket c addr) (λ _ w', ∃ x' d, ctx_at w' c = Some x' ∧ challenged x x' ∧ is_i32 (tc_nonce x') ∧
    w_sent w' = w_sent w ++ [d] ∧ dg_addr d = addr ∧
    control_dgram d DTP_FLAG_CHG (tc_flowID x) (le32 (u32 (tc_nonce x'))) ∧
    pkt_pool_ok w' ∧ pkeep w w' ∧ tx_frame c w w') w.
Proof using up.
  intros Hx Hpo Hf Hn. apply wp_bind. eapply wp_mono; [by eapply (temp_packet w c x DTP_FLAG_CHG)|].
  intros p w1 [Hx1 Hg]. apply wp_bind. eapply wp_getctx; [done|]. apply wp_bind.
  eapply wp_mono; [exact Hg|]. intros sz w2 [-> [F2 Hx2 Hpo2 Hpf2 (k & h0 & Hk & Hl0 & Hh) Hke Hne Hs2]].
  change (align4 DTPHDRSIZE) with DTPHDRSIZE.
  apply wp_bind. eapply wp_mono with (Q := λ _ w3, ∃ x', ctx_at w3 c = Some x' ∧ challenged x x' ∧
    is_i32 (tc_nonce x') ∧ tx_frame c w2 w3 ∧ w_pkts w3 = w_pkts w2 ∧
    w_freePacketList w3 = w_freePacketList w2 ∧ w_sent w3 = w_sent w2 ∧ pkt_pool_ok w3).
  - apply wp_when; intros Hz.
    + apply Z.eqb_eq in Hz. apply wp_bind. unfold wp at 1, c_rand. set (w2' := set w_nrand _ w2).
      eapply wp_modctx; [exact Hx2|]. eexists. split_and!; [by eapply ctx_at_put| | | |done|done|done|by destruct Hpo2].
      * split; [by destruct x|done].
      * pose proof (or_rand (w_nrand w2)). cbn. unfold is_i32, MAX_INT.
        pose proof (Z.rem_bound_pos (env_rand (w_nrand w2)) 2147483647 ltac:(apply or_rand) ltac:(lia)). lia.
      * constructor; [by destruct w2| |done]. intros c' ?. change (ctx_at w2 c') with (ctx_at w2' c').
        by apply ctx_at_put_ne.
    + exists x. split_and!; [done|split; [by destruct x|done]|done|reflexivity|done..].
  - intros _ w3 (x' & Hx3 & Hch & Hn' & F3 & Epk & Efr & Es & Hpo3).
    eapply (temp_send w3 c x' p k _ _ (le32 (u32 (tc_nonce x'))) NONCE_SIZE); [done|by rewrite Epk|by rewrite Efr|done|done| |].
    + intros w' Hw'. unfold mbind at 1, M_bind. unfold getctx. rewrite Hw'. unfold from_local, block_read.
      rewrite (proj2 (in_block_spec _ _ _)); [done|done].
    + intros w4 F4 Hx4 Hpo4 Hk4 Hs4. eexists x', _. split_and!; [done|done|done|rewrite Hs4, Es, Hs2; reflexivity
        |done| |done| |etrans; [exact F2|etrans; [exact F3|exact F4]]].
      * rewrite Hh. by apply control_dgram_of; [..|apply window_nonneg].
      * eapply keeps_new; [exact Hne|exact Hke|]. intros q kq. rewrite <- Epk, <- Efr. apply Hk4.
Qed.

Lemma SendRSPPacket_spec {or : Oracles env} w c x :
  ctx_at w c = Some x → pkt_pool_ok w → is_u32 (tc_flowID x) →
  wp (SendRSPPacket c) (λ _ w', ∃ d, ctx_at w' c = Some x ∧ w_sent w' = w_sent w ++ [d] ∧
    dg_addr d = tc_peerAddr x ∧ control_dgram d DTP_FLAG_RSP (tc_flowID x) (nonce_hmac x) ∧
    pkt_pool_ok w' ∧ pkeep w w' ∧ tx_frame c w w') w.
Proof using up.
  intros Hx Hpo Hf. apply wp_bind. eapply wp_getctx; [done|].
  apply wp_bind. eapply wp_mono; [by eapply (temp_packet w c x DTP_FLAG_RSP)|].
  intros p w1 [Hx1 Hg]. apply wp_bind.
  eapply wp_mono; [exact Hg|]. intros sz w2 [-> [F2 Hx2 Hpo2 Hpf2 (k & h0 & Hk & Hl0 & Hh) Hke Hne Hs2]].
  change (align4 DTPHDRSIZE) with DTPHDRSIZE.
  assert (Hl : zlen (nonce_hmac x) = SHA1_DIGEST_LENGTH) by apply or_hmac.
  eapply (temp_send w2 c x p k _ _ (nonce_hmac x)); [done|done|done|done|done| |].
  - intros w' _. unfold from_local, block_read. rewrite (proj2 (in_block_spec _ _ _)) by (rewrite Hl; done).
    rewrite <- Hl, zslice_all. done.
  - intros w4 F4 Hx4 Hpo4 Hk4 Hs4. eexists _. split_and!; [done|rewrite Hs4, Hs2; reflexivity
      |done| |done|by eapply keeps_new|by etrans].
    rewrite Hh. by apply control_dgram_of; [..|apply window_nonneg].
Qed.
End packets.

Section response.
Context {env : Env} {up : NetUp env} {or : Oracles env}.

(** A RST for the flow of the packet in [buf]. *)
Lemma io_send_rst sock buf addr (Q : unit → world → Prop) w :
  zlen DTPGenerateHostID = SHA1_DIGEST_LENGTH → is_u32 (GetFlowID buf) →
  (∀ w' d, io_frame w w' → w_sent w' = w_sent w ++ [d] → dg_addr d = addr → dg_sock d = sock →
     IsRSTPacket (dg_data d) = true → GetFlowID (dg_data d) = GetFlowID buf →
     (∀ pad, hdr_with [(DTPOPT_HOST_ID, DTPGenerateHostID)] (dg_data d ++ pad) 42) → Q tt w') →
  wp (SendRSTPacket sock buf addr) Q w.
Proof using up.
  intros Hhid Hf HQ. unfold SendRSTPacket.
  set (h0 := zeros (DTPHDRSIZE + (DTPOLEN_HOST_ID + 4))). assert (Hl0 : zlen h0 = 46) by done.
  assert (H20 : DTPHDRSIZE ≤ zlen h0) by (rewrite Hl0; done).
  pose proof (header_roundtrip h0 0 0 (GetFlowID buf) DTP_FLAG_RST DEF_READ_BUFLEN H20 ltac:(done) ltac:(done)
    Hf ltac:(done)) as E.
  pose proof (hdr_with_generate h0 0 0 (GetFlowID buf) DTP_FLAG_RST DEF_READ_BUFLEN H20 ltac:(done) ltac:(done)
    Hf ltac:(done)) as Hw0.
  pose proof (zlen_GenerateHeader h0 0 0 (GetFlowID buf) DTP_FLAG_RST DEF_READ_BUFLEN H20) as Hl1.
  destruct (DTPGenerateHeader h0 0 0 (GetFlowID buf) DTP_FLAG_RST DEF_READ_BUFLEN) as [h sz] eqn:Eh.
  assert (sz = DTPHDRSIZE) as -> by (symmetry; exact (f_equal snd Eh)). cbn [fst] in *. clearbody h0.
  destruct (add_option_spec [] h DTPHDRSIZE DTPOPT_HOST_ID DTPOLEN_HOST_ID DTPGenerateHostID Hw0)
    as (h' & Eo & Hw' & Hsf); [done|by rewrite Hhid|rewrite Hl1, Hl0; done|done|].
  apply wp_bind. eapply wp_lift; [exact Eo|]. cbv beta iota zeta.
  change (align4 (DTPHDRSIZE + DTPOLEN_HOST_ID)) with 44.
  assert (Hl' : zlen h' = 46) by (rewrite (sf_len _ _ Hsf), Hl1; done).
  pose proof (read_header_options _ _ _ _ _ _ _ _ _ _ Hsf Hw' E) as E'.
  change (align4 (DTPHDRSIZE + DTPOLEN_HOST_ID)) with 44 in E'.
  assert (Er : read_header (zslice 0 44 h') = read_header h').
  { rewrite <- (app_nil_r (zslice 0 44 h')). apply read_header_prefix. rewrite Hl'. done. }
  rewrite E' in Er. apply wp_bind. eapply (io_send _ _ (zslice 0 44 h')).
  - intros w' _. unfold from_local, block_read. by rewrite (proj2 (in_block_spec _ _ _)) by lia.
  - apply zlen_slice; lia.
  - intros w' Hio Hs. apply wp_ret. eapply HQ; [done|done|done|done| | |].
    + exact (f_equal hf_rst Er).
    + exact (f_equal hf_fid Er).
    + intros pad. change (DTPOLEN_HOST_ID - 2) with SHA1_DIGEST_LENGTH in Hw'. rewrite <- Hhid, zslice_all in Hw'.
      exact (hdr_with_prefix _ _ _ pad Hw').
Qed.

Lemma payload_read buf n (Q : bytes → world → Prop) w :
  0 ≤ GetHeaderLen buf → 0 ≤ n → GetHeaderLen buf + n ≤ zlen buf →
  Q (zslice (GetHeaderLen buf) n buf) w → wp (payload buf n) Q w.
Proof using. intros. apply wp_block_read; [lia..|done]. Qed.

(** C17: A forged response is rejected.  When the digest in a RSP packet is not the
    HMAC of the current nonce under the session key, no connection changes, in
    particular not the peer address; at most a RST goes to the sender of the
    packet. *)
Theorem rsp_rejected w c x buf addr :
  zlen DTPGenerateHostID = SHA1_DIGEST_LENGTH → is_u32 (GetFlowID buf) →
  ctx_at w c = Some x → 0 ≤ GetHeaderLen buf → GetHeaderLen buf + SHA1_DIGEST_LENGTH ≤ zlen buf →
  zslice (GetHeaderLen buf) SHA1_DIGEST_LENGTH buf ≠ zslice 0 SHA1_DIGEST_LENGTH (nonce_hmac x) →
  wp (HandleRSPPacket c buf addr) (λ _ w', io_frame w w' ∧ ∃ ds, w_sent w' = w_sent w ++ ds ∧
    Forall (λ d, dg_addr d = addr ∧ IsRSTPacket (dg_data d) = true) ds) w.
Proof using up.
  intros Hhid Hf Hx H0 Hl Hne. apply wp_bind. eapply wp_getctx; [done|].
  apply wp_bind, payload_read; [done|done|done|]. rewrite bool_decide_eq_false_2 by done. cbn [negb].
  apply wp_when; intros _.
  - eapply io_send_rst; [done..|]. intros w' d Hio Hs Ha _ Hr _ _. split; [done|]. exists [d].
    split; [done|]. by apply Forall_singleton.
  - split; [reflexivity|]. exists []. by rewrite app_nil_r.
Qed.

Lemma SlowStart_mild x : cc_ok x → mild x (DTPSlowStart x).
Proof using.
  intros [? ? ? ?]. constructor; [done|done| |].
  - intros _. apply u32_range.
  - intros _. by apply cc_ok_slow_start.
Qed.

(** The accounting of the interface times. *)
Lemma note_interface_step w c x S buf (Q : unit → world → Prop) :
  snd_live w c x S →
  (∀ w' x', ack_step S c w x w' x' [] → tc_packetQ x' = tc_packetQ x → Q tt w') → wp (note_interface c buf) Q w.
Proof using.
  intros Hl HQ. unfold note_interface. apply wp_bind, io_gettimeofday. intros w1 Hio1 Hs1.
  pose proof (ack_step_io S c w x w1 Hl Hio1 Hs1) as H1.
  apply wp_bind. eapply modctx_step; [apply H1| |].
  { destruct (tc_isClientMobile x); constructor; try done; by intros []. }
  intros w2 H2. apply wp_bind, io_gettimeofday. intros w3 Hio3 Hs3.
  pose proof (ack_step_io S c w2 _ w3 (as_live _ _ _ _ _ _ _ H2) Hio3 Hs3) as H3.
  eapply modctx_step; [apply H3|constructor; try done; by intros []|]. intros w4 H4. eapply HQ.
  - pose proof (ack_step_trans _ _ _ _ _ _ _ _ [] [] H1 H2) as H12.
    pose proof (ack_step_trans _ _ _ _ _ _ _ _ [] [] H12 H3) as H13.
    exact (ack_step_trans _ _ _ _ _ _ _ _ [] [] H13 H4).
  - by destruct (tc_isClientMobile x).
Qed.

Lemma resume_transfer_step w c x S :
  snd_live w c x S →
  wp (resume_transfer c) (λ _ w', ∃ x' ds, ack_step S c w x w' x' ds) w.
Proof using up.
  intros Hl. unfold resume_transfer. apply wp_bind. eapply modctx_step; [done|apply SlowStart_mild, Hl|].
  intros w1 H1. eapply wp_mono; [apply resume_writer_step, H1|]. intros _ w2 (x2 & ds & H2 & _).
  exists x2, ds. exact (ack_step_trans _ _ _ _ _ _ _ _ [] ds H1 H2).
Qed.

(** The connection at its new address. *)
Lemma moved_live w c x S addr :
  snd_live w c x S →
  snd_live (w <| w_ctxs ::= <[c := x <| tc_peerAddr := addr |>]> |>) c (x <| tc_peerAddr := addr |>) S.
Proof using.
  intros [Hsn [? ? ?] [? ? ? ?] Hso]. constructor; [|by constructor|by constructor|done].
  eapply snd_ok_ctx; [done|by destruct (sn_wr _ _ _ _ Hsn)|done..|apply Hsn|apply Hsn].
Qed.

Lemma rsp_accepted_step w c x S buf addr :
  snd_live w c x S → tc_isNetConnected x = true →
  0 ≤ GetHeaderLen buf → GetHeaderLen buf + SHA1_DIGEST_LENGTH ≤ zlen buf →
  zslice (GetHeaderLen buf) SHA1_DIGEST_LENGTH buf = zslice 0 SHA1_DIGEST_LENGTH (nonce_hmac x) →
  wp (HandleRSPPacket c buf addr) (λ _ w', ∃ x' d ds, snd_live w' c x' S ∧ tc_peerAddr x' = addr ∧
    w_sent w' = w_sent w ++ d :: ds ∧ dg_addr d = addr ∧
    Forall (λ d, dg_addr d = addr) ds) w.
Proof using up.
  intros Hl Hnc H0 Hlen Heq. apply wp_bind. eapply wp_getctx; [apply Hl|].
  apply wp_bind, payload_read; [done|done|done|]. rewrite bool_decide_eq_true_2 by done. cbn [negb].
  apply wp_bind. eapply modctx_step; [exact Hl|constructor; try done; by intros []|]. intros w0 [Hl0 _ Hs0 _ _].
  apply wp_bind. eapply wp_modctx; [apply Hl0|]. rewrite app_nil_r in Hs0.
  pose proof (moved_live w0 c _ S addr Hl0) as Hl1.
  set (x1 := set tc_peerAddr _ _) in *. set (w1 := set w_ctxs _ w0) in *.
  apply wp_bind. unfold SendAUTHPacket. apply wp_bind. eapply io_send_header;
    [apply Hl1|unfold malloc_bytes, zlen; by rewrite length_resize|].
  intros w2 Hio2 Hs2. set (d := mk_datagram _ _ _) in Hs2.
  assert (Hl2 : snd_live w2 c x1 S).
  { destruct Hl1 as [[? ? ? ? ? ? ?] ? ? ?], Hio2 as [->]. constructor; try done.
    constructor; try done. by destruct sn_pool; constructor. }
  eapply modctx_step; [exact Hl2|constructor; try done; by intros []|]. intros w3 H3.
  apply wp_bind. eapply note_interface_step; [apply H3|]. intros w4 x4 H4 _.
  pose proof (ack_step_trans _ _ _ _ _ _ _ _ [] [] H3 H4) as H34.
  apply wp_bind. eapply wp_mono; [apply resume_transfer_step, H34|]. intros _ w5 (x5 & ds & H5).
  pose proof (ack_step_trans _ _ _ _ _ _ _ _ [] ds H34 H5) as H35.
  assert (Hfin : ∀ w6 x6 ds6, ack_step S c w2 x1 w6 x6 ds6 → ∃ x' d ds, snd_live w6 c x' S ∧ tc_peerAddr x' = addr ∧
    w_sent w6 = w_sent w ++ d :: ds ∧ dg_addr d = addr ∧ Forall (λ d, dg_addr d = addr) ds).
  { intros w6 x6 ds6 [Hl6 Hc6 Hs6 Hg6 _]. exists x6, d, ds6. split_and!; [done|apply Hc6| |done|].
    - rewrite Hs6, Hs2, <- app_assoc. change (w_sent w1) with (w_sent w0). by rewrite Hs0.
    - eapply Forall_impl; [exact Hg6|]. intros d' (a & n & Hsg & _). apply Hsg. }
  apply wp_bind. eapply wp_getctx; [apply H35|].
  destruct (tc_packetQ x5) as [|p l] eqn:Hq; [by apply wp_ret; eapply Hfin|].
  eapply wp_mono; [eapply retransmit_step; [apply H35|exact Hq|etrans; [apply H35|exact Hnc]]|].
  intros _ w6 (ds6 & H6). eapply Hfin. exact (ack_step_trans _ _ _ _ _ _ _ _ _ _ H35 H6).
Qed.

(** C18: A right response moves the connection.  When the digest is the HMAC of
    the current nonce, the peer address becomes the source of the packet, the
    host confirms there, and the transfer goes on to the new address with the send
    side intact. *)
Theorem rsp_accepted w c x S buf addr :
  snd_live w c x S → tc_isNetConnected x = true →
  0 ≤ GetHeaderLen buf → GetHeaderLen buf + SHA1_DIGEST_LENGTH ≤ zlen buf →
  zslice (GetHeaderLen buf) SHA1_DIGEST_LENGTH buf = zslice 0 SHA1_DIGEST_LENGTH (nonce_hmac x) →
  wp (HandleRSPPacket c buf addr) (λ _ w', ∃ x' d ds, snd_live w' c x' S ∧ tc_peerAddr x' = addr ∧
    w_sent w' = w_sent w ++ d :: ds ∧ Forall (λ d, dg_addr d = addr) (d :: ds)) w.
Proof using up.
  intros. eapply wp_mono; [by apply (rsp_accepted_step w c x S)|].
  intros _ w' (x' & d & ds & ? & ? & ? & ? & ?). exists x', d, ds. split_and!; [done..|]. by constructor.
Qed.

(** The peer answers a challenge from the address it knows. *)
Lemma HandleCHGPacket_spec w c x buf nonce :
  ctx_at w c = Some x → pkt_pool_ok w → is_u32 (tc_flowID x) → is_i32 nonce →
  0 ≤ GetHeaderLen buf → GetHeaderLen buf + NONCE_SIZE ≤ zlen buf →
  zslice (GetHeaderLen buf) NONCE_SIZE buf = le32 (u32 nonce) →
  wp (HandleCHGPacket c buf (tc_peerAddr x)) (λ _ w', ∃ d, w_sent w' = w_sent w ++ [d] ∧
    dg_addr d = tc_peerAddr x ∧
    control_dgram d DTP_FLAG_RSP (tc_flowID x) (nonce_hmac (x <| tc_nonce := nonce |>))) w.
Proof using up or.
  intros Hx Hpo Hf Hn H0 Hl Hd. apply wp_bind. eapply wp_getctx; [done|].
  unfold addr_eqb. rewrite bool_decide_eq_true_2 by done. cbn [negb]. apply wp_bind, wp_ret.
  apply wp_bind, payload_read; [done|done|done|]. rewrite Hd, of_le32 by apply u32_range.
  assert (E : i32 (u32 nonce) = nonce) by (unfold is_i32 in Hn; unfold i32, u32; Z.div_mod_to_equations; lia).
  apply wp_bind. eapply wp_modctx; [done|]. rewrite E.
  eapply wp_mono; [eapply (SendRSPPacket_spec _ c (x <| tc_nonce := nonce |>));
    [by eapply ctx_at_put|by destruct Hpo|done]|].
  intros _ w' (d & _ & Hs & Ha & Hc & _). exists d. done.
Qed.
End response.

Lemma live_keep w w' c x x' S :
  snd_live w c x S → ctx_at w' c = Some x' → mild x x' → pkt_pool_ok w' → pkeep w w' → snd_live w' c x' S.
Proof.
  intros Hl Hx' Hm Hpo Hk. pose proof (mild_live _ _ _ _ _ Hl Hm) as [[_ Hwr Hch Hnd Hfr _ Hh Hrt] Hs Hcc Hso].
  destruct Hm as [_ (_ & Eq & Ea & Es & _) _ _].
  constructor; [|done..]. constructor; [done|done| |done| |done|done|].
  - rewrite Eq in *. rewrite Ea, Es in *. eapply chain_ext; [|exact Hch].
    intros p k Hin Hp. by destruct (Hk p k Hp (Hfr p Hin)).
  - intros p Hin. destruct (chain_in _ _ _ _ _ p Hch Hin) as (k & _ & _ & Hp & _).
    by destruct (Hk p k Hp (Hfr p Hin)).
  - eapply retrans_ext; [|exact Hrt]. intros p k Hin Hp. by destruct (Hk p k Hp (Hfr p Hin)).
Qed.

(** A control datagram in the receive buffer of the other host. *)
Lemma control_received d flag fid pl pad :
  control_dgram d flag fid pl →
  GetHeaderLen (dg_data d ++ pad) = DTPHDRSIZE ∧
  GetHeaderLen (dg_data d ++ pad) + zlen pl ≤ zlen (dg_data d ++ pad) ∧
  zslice (GetHeaderLen (dg_data d ++ pad)) (zlen pl) (dg_data d ++ pad) = pl.
Proof.
  intros [Hl Hh Hp _ _]. pose proof (zlen_nonneg pl). pose proof (zlen_nonneg pad).
  assert (E : GetHeaderLen (dg_data d ++ pad) = DTPHDRSIZE).
  { rewrite <- Hh. apply (f_equal hf_hlen (read_header_app (dg_data d) pad ltac:(lia))). }
  rewrite E, zlen_app. split_and!; [done|lia|]. rewrite zslice_app_l; [done|done|lia].
Qed.

Section exchange.
Context {eh ep : Env} {uph : NetUp eh} {upp : NetUp ep} {orh : Oracles eh} {orp : Oracles ep}.

Lemma HandleAddressChange_spec w c x S addr :
  snd_live w c x S → is_i32 (tc_nonce x) →
  wp (HandleAddressChange (env := eh) c addr) (λ _ w', ∃ x' d, snd_live w' c x' S ∧
    tc_isNetConnected x' = tc_isNetConnected x ∧ tc_key x' = tc_key x ∧ is_i32 (tc_nonce x') ∧
    w_sent w' = w_sent w ++ [d] ∧ dg_addr d = addr ∧
    control_dgram d DTP_FLAG_CHG (tc_flowID x) (le32 (u32 (tc_nonce x')))) w.
Proof using uph orh.
  intros Hl Hn. unfold HandleAddressChange. apply wp_bind.
  eapply modctx_step; [exact Hl|constructor; try done; by intros []|]. intros w1 [Hl1 _ Hs1 _ _].
  eapply wp_mono; [eapply SendCHGPacket_spec; [apply Hl1|apply Hl1|apply Hl1|done]|].
  intros _ w2 (x2 & d & Hx2 & [Hc _] & Hn2 & Hs2 & Ha & Hd & Hpo & Hk & _). exists x2, d.
  split_and!; [|by rewrite Hc..|done|by rewrite Hs2, Hs1, app_nil_r|done|done].
  eapply live_keep; [exact Hl1|done| |done|done]. rewrite Hc. constructor; try done. by intros [].
Qed.

(** C16: The exchange moves a connection between two hosts that share its key.
    The host challenges the new address, the peer answers the challenge, and when
    the answer arrives the connection is at the new address; [pad1] and [pad2] are
    what the receive buffers hold behind the packets. *)
Theorem migration_succeeds wh ch xh S wp0 cp xp addr pad1 pad2 :
  snd_live wh ch xh S → tc_isNetConnected xh = true → is_i32 (tc_nonce xh) →
  ctx_at wp0 cp = Some xp → pkt_pool_ok wp0 → is_u32 (tc_flowID xp) → tc_key xp = tc_key xh →
  (∀ key d, env_hmac_sha1 (Env := ep) key d = env_hmac_sha1 (Env := eh) key d) →
  ∃ wh1 d1 wp1 d2 wh2 xh2,
    HandleAddressChange (env := eh) ch addr wh = Ok (tt, wh1) ∧
    w_sent wh1 = w_sent wh ++ [d1] ∧ dg_addr d1 = addr ∧
    HandleCHGPacket (env := ep) cp (dg_data d1 ++ pad1) (tc_peerAddr xp) wp0 = Ok (tt, wp1) ∧
    w_sent wp1 = w_sent wp0 ++ [d2] ∧ dg_addr d2 = tc_peerAddr xp ∧
    HandleRSPPacket (env := eh) ch (dg_data d2 ++ pad2) addr wh1 = Ok (tt, wh2) ∧
    ctx_at wh2 ch = Some xh2 ∧ tc_peerAddr xh2 = addr.
Proof using uph upp orh orp.
  intros Hl Hnc Hn Hxp Hpo Hf Hkey Hsame.
  destruct (wp_run _ _ _ (HandleAddressChange_spec wh ch xh S addr Hl Hn))
    as ([] & wh1 & E1 & x1 & d1 & Hl1 & Hnc1 & Hk1 & Hn1 & Hs1 & Ha1 & Hd1).
  destruct (control_received _ _ _ _ pad1 Hd1) as (Hh1 & Hb1 & Hp1).
  destruct (wp_run _ _ _ (HandleCHGPacket_spec (env := ep) wp0 cp xp (dg_data d1 ++ pad1) (tc_nonce x1) Hxp Hpo Hf Hn1
    ltac:(rewrite Hh1; done) Hb1 Hp1)) as ([] & wp1 & E2 & d2 & Hs2 & Ha2 & Hd2).
  destruct (control_received _ _ _ _ pad2 Hd2) as (Hh2 & Hb2 & Hp2).
  assert (Hmac : nonce_hmac (env := ep) (xp <| tc_nonce := tc_nonce x1 |>) = nonce_hmac (env := eh) x1).
  { unfold nonce_hmac. cbn. by rewrite Hsame, Hkey, Hk1. }
  rewrite Hmac in *. assert (Hz : zlen (nonce_hmac (env := eh) x1) = SHA1_DIGEST_LENGTH) by apply or_hmac.
  destruct (wp_run _ _ _ (rsp_accepted_step (env := eh) wh1 ch x1 S (dg_data d2 ++ pad2) addr Hl1 ltac:(congruence)
    ltac:(rewrite Hh2; done) ltac:(rewrite <- Hz; done) ltac:(rewrite <- Hz, zslice_all; done)))
    as ([] & wh2 & E3 & x3 & d3 & ds3 & Hl3 & Ha3 & _).
  exists wh1, d1, wp1, d2, wh2, x3. split_and!; try done. apply Hl3.
Qed.
End exchange.

(** ** The scenario *)

#[export] Instance quiet_oracles : Oracles quiet_env.
Proof.
  constructor; [intros k; by apply Z.mod_pos_bound|]. intros key d.
  change (env_hmac_sha1 key d) with (toy_digest (key ++ d)). unfold toy_digest.
  rewrite zlen_app, zlen_slice; [done|lia|lia|]. rewrite zlen_app. pose proof (zlen_nonneg (key ++ d)).
  change (zlen (zeros 16)) with 16. lia.
Qed.

(** A response with the given digest. *)
Definition rsp_packet (digest : bytes) : bytes :=
  (DTPGenerateHeader (zeros DTPHDRSIZE) 0 0 77 DTP_FLAG_RSP 4096).1 ++ digest.

Example rsp_rejected_witness :
  wp (HandleRSPPacket 5 (rsp_packet (zeros 20)) other_addr) (λ _ w', io_frame (host conn) w' ∧
    ∃ ds, w_sent w' = w_sent (host conn) ++ ds ∧
      Forall (λ d, dg_addr d = other_addr ∧ IsRSTPacket (dg_data d) = true) ds) (host conn).
Proof.
  apply (rsp_rejected (host conn) 5 conn (rsp_packet (zeros 20)) other_addr); [reflexivity|eval_facts|reflexivity
    |eval_facts|eval_facts|]. vm_compute. discriminate.
Defined.

Example rsp_accepted_witness :
  wp (HandleRSPPacket 5 (rsp_packet (nonce_hmac conn_flight)) other_addr) (λ _ w', ∃ x' d ds,
    snd_live w' 5 x' (λ _, 0) ∧ tc_peerAddr x' = other_addr ∧
    w_sent w' = w_sent host_flight ++ d :: ds ∧ Forall (λ d, dg_addr d = other_addr) (d :: ds)) host_flight.
Proof.
  apply (rsp_accepted host_flight 5 conn_flight (λ _, 0) (rsp_packet (nonce_hmac conn_flight)) other_addr);
    [apply flight_live|reflexivity|eval_facts|eval_facts|]. vm_compute. reflexivity.
Defined.

Example migration_succeeds_witness :
  ∃ wh1 d1 wp1 d2 wh2 xh2,
    HandleAddressChange 5 other_addr host_flight = Ok (tt, wh1) ∧
    w_sent wh1 = w_sent host_flight ++ [d1] ∧ dg_addr d1 = other_addr ∧
    HandleCHGPacket 5 (dg_data d1 ++ []) (tc_peerAddr conn) (host conn) = Ok (tt, wp1) ∧
    w_sent wp1 = w_sent (host conn) ++ [d2] ∧ dg_addr d2 = tc_peerAddr conn ∧
    HandleRSPPacket 5 (dg_data d2 ++ [0]) other_addr wh1 = Ok (tt, wh2) ∧
    ctx_at wh2 5 = Some xh2 ∧ tc_peerAddr xh2 = other_addr.
Proof.
  refine (migration_succeeds (eh := quiet_env) (ep := quiet_env) host_flight 5 conn_flight (λ _, 0) (host conn) 5
    conn other_addr [] [0] flight_live _ _ (host_ctx conn) _ _ _ (λ _ _, eq_refl)).
  - vm_compute. reflexivity.
  - eval_facts.
  - apply host_pools.
  - eval_facts.
  - vm_compute. reflexivity.
Defined.
