(* ===== verification/Closing.v ===== *)
(** * Closing a connection

    What FIN and RST packets, expiry and [DTPCloseContext] do to a connection: the
    state machine of the teardown, and the release of what the connection holds. *)

From Stdlib Require Import Sorting.Sorted.
From S2P Require Import Prelude Double Header Context World ContextTable Pools RetransQueue.
From S2P Require Import Select Congestion Lifecycle Send Scenario Services Intervals Reassembly.
From S2P Require Import Receiver Transmit Ack Acknowledge Challenge Teardown Migration.

(** Decide the comparisons of known states. *)
Ltac eval_states :=
  repeat match goal with
  | |- context [is_state ?a ?b] => let v := eval vm_compute in (is_state a b) in change (is_state a b) with v
  end; cbn [orb andb negb]; cbn iota.

(** ** Wake-ups *)

Section wake.
Context {env : Env}.

Lemma io_read_wakeup c x (Q : unit → world → Prop) w :
  ctx_at w c = Some x → 0 ≤ tc_sock x < FD_SETSIZE_S →
  (∀ w', io_frame w w' → w_sent w' = w_sent w → Q tt w') → wp (DTPReadBufWakeup c) Q w.
Proof using.
  intros Hx Hs HQ. apply wp_bind. eapply wp_getctx; [done|]. apply wp_bind, wp_when; intros _.
  - apply io_cond_signal. intros w1 H1 S1. apply io_select_set; [done|]. intros w2 H2 S2.
    apply HQ; [by etrans|congruence].
  - by apply io_select_set.
Qed.

Lemma io_write_wakeup c x (Q : unit → world → Prop) w :
  ctx_at w c = Some x → 0 ≤ tc_sock x < FD_SETSIZE_S →
  (∀ w', io_frame w w' → w_sent w' = w_sent w → Q tt w') → wp (DTPWriteBufWakeup c) Q w.
Proof using.
  intros Hx Hs HQ. apply wp_bind. eapply wp_getctx; [done|]. apply wp_bind, wp_when; intros _.
  - apply io_cond_signal. intros w1 H1 S1. apply io_select_set; [done|]. intros w2 H2 S2.
    apply HQ; [by etrans|congruence].
  - by apply io_select_set.
Qed.

(** Both sides of a connection. *)
Lemma io_wakeups c x (Q : unit → world → Prop) w :
  ctx_at w c = Some x → 0 ≤ tc_sock x < FD_SETSIZE_S →
  (∀ w', io_frame w w' → w_sent w' = w_sent w → Q tt w') →
  wp (DTPReadBufWakeup c;; DTPWriteBufWakeup c) Q w.
Proof using.
  intros Hx Hs HQ. apply wp_bind. eapply io_read_wakeup; [done..|]. intros w1 H1 S1.
  eapply io_write_wakeup; [by rewrite (io_ctx _ _ c H1)|done|]. intros w2 H2 S2.
  apply HQ; [by etrans|congruence].
Qed.
End wake.

(** ** FIN *)

(** The state after a FIN that is not ignored. *)
Definition fin_next (s : sock_state) : sock_state :=
  match s with
  | SOCK_ESTABLISHED | SOCK_CLOSE_WAIT => SOCK_CLOSE_WAIT
  | SOCK_FIN_WAIT_1 | SOCK_FIN_WAIT_2 => SOCK_TIME_WAIT
  | s => s
  end.

(** In FIN_WAIT_1 the FIN of this side is the first packet of the queue. *)
Definition fin_queued (w : world) (x : dtp_context) : Prop :=
  tc_state x = SOCK_FIN_WAIT_1 →
  ∃ p l, tc_packetQ x = p :: l ∧ is_Some (w_pkts w !! p) ∧ p ∉ w_freePacketList w.

(** In FIN_WAIT_1 the FIN of this side leaves the queue for the pool; in no other state does
    a packet move. *)
Definition fin_unlinked (w : world) (x : dtp_context) (w' : world) (x' : dtp_context) : Prop :=
  match tc_state x with
  | SOCK_FIN_WAIT_1 => ∃ p, tc_packetQ x = p :: tc_packetQ x' ∧ w_freePacketList w' = p :: w_freePacketList w
  | _ => tc_packetQ x' = tc_packetQ x ∧ w_freePacketList w' = w_freePacketList w
  end.

Lemma fin_unlinked_same w x w1 x1 w' x' :
  fin_unlinked w x w1 x1 → tc_packetQ x' = tc_packetQ x1 → w_freePacketList w' = w_freePacketList w1 → fin_unlinked w x w' x'.
Proof. unfold fin_unlinked. by intros H -> ->. Qed.

(** The FINs that count.  In ESTABLISHED the FIN is at the next position; while this side waits
    for the FIN of the peer, it acknowledges all that was written, with or without the FIN of
    this side; a later state takes every FIN again, an earlier one none. *)
Definition fin_accepted (x : dtp_context) (seqnum ack_num : Z) : Prop :=
  match tc_state x with
  | SOCK_ESTABLISHED => seqnum = tc_nextByteExpected x
  | SOCK_FIN_WAIT_1 | SOCK_FIN_WAIT_2 =>
    tc_lastByteWritten x = ack_num ∨ ack_num = tc_lastByteWritten x +u 1 ∨
    ack_num = tc_lastByteWritten x -u 1 ∧ tc_isFINSent x = true
  | SOCK_CLOSE_WAIT | SOCK_LAST_ACK | SOCK_TIME_WAIT => True
  | SOCK_CLOSED | SOCK_LISTEN | SOCK_SYN_RCVD | SOCK_SYN_SENT => False
  end.

(** The assertions of [HandleFINPacket]. *)
Definition fin_asserts (x : dtp_context) (seqnum ack_num : Z) : Prop :=
  tc_state x = SOCK_FIN_WAIT_1 ∨ tc_state x = SOCK_FIN_WAIT_2 →
  fin_accepted x seqnum ack_num → ack_num ≠ tc_lastByteWritten x →
  tc_closeCalled x = true ∧ seqnum = tc_nextByteExpected x.

Lemma fin_ignored_spec x seqnum ack_num : fin_ignored x seqnum ack_num = false ↔ fin_accepted x seqnum ack_num.
Proof.
  unfold fin_ignored, fin_accepted. destruct (tc_state x); try done.
  - rewrite negb_false_iff. apply Z.eqb_eq.
  - rewrite !andb_false_iff, !negb_false_iff, andb_true_iff, !Z.eqb_eq. tauto.
  - rewrite !andb_false_iff, !negb_false_iff, andb_true_iff, !Z.eqb_eq. tauto.
Qed.

Section fin.
Context {env : Env} {up : NetUp env}.

Lemma time_wait_not_closed c x (Q : unit → world → Prop) w :
  ctx_at w c = Some x → tc_state x = SOCK_TIME_WAIT →
  (∀ w', io_frame w w' → w_sent w' = w_sent w → Q tt w') → wp (DTPCloseContext c) Q w.
Proof using.
  intros Hx Hs HQ. apply wp_bind. eapply wp_getctx; [done|].
  assert (H0 : Q tt w) by (apply HQ; [reflexivity|done]).
  destruct (tc_isActive x); [|by apply wp_ret]. cbn [negb]. destruct (tc_waitACK x); [by apply io_cond_signal|].
  rewrite Hs. by apply wp_ret.
Qed.

(** The part behind the acknowledgement, on a connection in state [fin_next]. *)
Lemma fin_finish w c x (Q : unit → world → Prop) :
  ctx_at w c = Some x → 0 ≤ tc_sock x < FD_SETSIZE_S → pkt_pool_ok w → fin_queued w x →
  tc_state x ≠ SOCK_ESTABLISHED →
  (∀ w' x', ctx_at w' c = Some x' → tc_state x' = fin_next (tc_state x) → tc_isFINRcvd x' = tc_isFINRcvd x →
     tc_nextByteExpected x' = tc_nextByteExpected x → w_sent w' = w_sent w → pkt_pool_ok w' →
     fin_unlinked w x w' x' → Q tt w') →
  wp (x ← getctx c;
      if is_state (tc_state x) SOCK_CLOSE_WAIT then DTPReadBufWakeup c;; DTPWriteBufWakeup c
      else if is_state (tc_state x) SOCK_FIN_WAIT_1 || is_state (tc_state x) SOCK_FIN_WAIT_2 then
        mwhen (is_state (tc_state x) SOCK_FIN_WAIT_1) (packet ← unlink_first c; AddToFreePacketList packet);;
        c ->> tc_state := SOCK_TIME_WAIT;;
        tv ← gettimeofday;
        c ->> tc_waitTime := tv;;
        DTPCloseContext c
      else mret tt) Q w.
Proof using.
  intros Hx Hs Hpo Hq Hne HQ. apply wp_bind. eapply wp_getctx; [done|].
  assert (Htw : ∀ w1 x1, ctx_at w1 c = Some x1 → tc_isFINRcvd x1 = tc_isFINRcvd x →
    tc_nextByteExpected x1 = tc_nextByteExpected x → w_sent w1 = w_sent w → pkt_pool_ok w1 → fin_unlinked w x w1 x1 →
    fin_next (tc_state x) = SOCK_TIME_WAIT →
    wp (c ->> tc_state := SOCK_TIME_WAIT;; tv ← gettimeofday; c ->> tc_waitTime := tv;; DTPCloseContext c) Q w1).
  { intros w1 x1 Hx1 Hf1 Hn1 Hs1 Hpo1 Hun Hnext. apply wp_bind. eapply wp_modctx; [done|].
    apply wp_bind, io_gettimeofday. intros w2 Hio2 Hs2.
    apply wp_bind. eapply wp_modctx; [rewrite (io_ctx _ _ c Hio2); by eapply ctx_at_put|].
    eapply time_wait_not_closed; [eapply ctx_at_put; rewrite (io_ctx _ _ c Hio2); by eapply ctx_at_put|done|].
    intros w3 Hio3 Hs3. eapply HQ.
    - rewrite (io_ctx _ _ c Hio3). eapply ctx_at_put. rewrite (io_ctx _ _ c Hio2). by eapply ctx_at_put.
    - by rewrite Hnext.
    - exact Hf1.
    - exact Hn1.
    - rewrite Hs3. cbn. rewrite Hs2. exact Hs1.
    - destruct Hpo1 as [P1 P2 P3 P4 P5 P6], Hio3 as [->], Hio2 as [->]. by constructor.
    - eapply fin_unlinked_same; [exact Hun|done|]. destruct Hio3 as [->]. cbn. by destruct Hio2 as [->]. }
  assert (Hsame : fin_next (tc_state x) = tc_state x → tc_state x ≠ SOCK_FIN_WAIT_1 → Q tt w).
  { intros E Hn1. eapply HQ; try done. unfold fin_unlinked. by destruct (tc_state x). }
  destruct (tc_state x) eqn:Est; eval_states; try (apply wp_ret, Hsame; done); try done.
  - destruct (Hq Est) as (p & l & Hpq & [k Hk] & Hpf). apply wp_bind. simpl mwhen. unfold unlink_first.
    apply wp_bind, wp_bind. eapply wp_getctx; [done|]. rewrite Hpq. apply wp_bind. eapply wp_modctx; [done|].
    apply wp_ret. eapply wp_mono; [apply AddToFreePacketList_spec; [by destruct Hpo|by exists k|done]|].
    intros [] w1 (Hpo1 & Hfl & _ & [E1 _ _]).
    eapply Htw; [rewrite E1; exact (ctx_at_put w c x _ Hx)|done|done|by rewrite E1|done| |done].
    unfold fin_unlinked. rewrite Est. exists p. by split.
  - apply wp_bind. simpl mwhen. apply wp_ret. eapply Htw; try done. unfold fin_unlinked. by rewrite Est.
  - eapply io_wakeups; [done|done|]. intros w1 Hio Hs1. eapply HQ; [by rewrite (io_ctx _ _ c Hio)|done..| | |].
    + done.
    + destruct Hpo as [P1 P2 P3 P4 P5 P6], Hio as [->]. by constructor.
    + unfold fin_unlinked. rewrite Est. split; [done|]. by destruct Hio as [->].
Qed.

Lemma HandleFINPacket_spec w c x buf :
  ctx_at w c = Some x → 0 ≤ tc_sock x < FD_SETSIZE_S → pkt_pool_ok w → fin_queued w x →
  fin_ignored x (GetSeqNum buf) (GetAckNum buf) = false →
  wp (HandleFINPacket c buf) (λ _ w', ∃ x', ctx_at w' c = Some x' ∧ tc_state x' = fin_next (tc_state x) ∧
    tc_isFINRcvd x' = true ∧ tc_nextByteExpected x' = tc_nextByteExpected x ∧ pkt_pool_ok w' ∧ fin_unlinked w x w' x' ∧
    w_sent w' = w_sent w ++ [mk_datagram (tc_sock x) (tc_peerAddr x)
                               (control_header x (zeros DTPHDRSIZE) DTP_FLAG_ACK)]) w.
Proof using up.
  intros Hx Hs Hpo Hq Hig. apply wp_bind. eapply wp_getctx; [done|]. rewrite Hig.
  apply wp_bind. eapply io_send_ack; [done|]. intros w1 Hio1 Hs1.
  apply wp_bind. eapply wp_modctx; [by rewrite (io_ctx _ _ c Hio1)|]. set (w2 := set w_ctxs _ w1).
  assert (Hx2 : ctx_at w2 c = Some (x <| tc_isFINRcvd := true |>)).
  { eapply ctx_at_put. by rewrite (io_ctx _ _ c Hio1). }
  apply wp_bind, io_select_set; [done|]. intros w3 Hio3 Hs3.
  assert (Hx3 : ctx_at w3 c = Some (x <| tc_isFINRcvd := true |>)) by (by rewrite (io_ctx _ _ c Hio3)).
  apply wp_bind. eapply wp_modctx; [done|]. match goal with |- context [<[c := ?y]>] => set (x4 := y) end.
  set (w4 := set w_ctxs _ w3).
  assert (E4 : tc_state x4 = (if is_state (tc_state x) SOCK_ESTABLISHED then SOCK_CLOSE_WAIT else tc_state x) ∧
    tc_isFINRcvd x4 = true ∧ tc_nextByteExpected x4 = tc_nextByteExpected x ∧ tc_sock x4 = tc_sock x ∧
    tc_packetQ x4 = tc_packetQ x).
  { unfold x4. change (tc_state (set tc_isFINRcvd _ x)) with (tc_state x).
    destruct (tc_state x) eqn:Est; eval_states; by rewrite <- ?Est. }
  destruct E4 as (E1 & E2 & E3 & E4 & E5).
  assert (Hpk : w_pkts w4 = w_pkts w ∧ w_freePacketList w4 = w_freePacketList w).
  { unfold w4. cbn. destruct Hio3 as [->]. cbn. destruct Hio1 as [->]. done. }
  destruct Hpk as [Hpk Hfr].
  eapply (fin_finish w4 c x4); [by eapply ctx_at_put|by rewrite E4| | | |].
  - destruct Hpo as [P1 P2 P3 P4 P5 P6]. unfold w4. constructor; cbn; destruct Hio3 as [->]; cbn; by destruct Hio1 as [->].
  - intros Hf. rewrite E5, Hpk, Hfr. apply Hq. rewrite E1 in Hf. by destruct (tc_state x).
  - rewrite E1. by destruct (tc_state x).
  - intros w' x' Hx' Hst Hfi Hnx Hse Hpo' Hun. exists x'. rewrite Hst, Hfi, Hnx, E1, E2, E3. split_and!; try done.
    + by destruct (tc_state x).
    + unfold fin_unlinked in *. rewrite E1, E5, Hfr in Hun. by destruct (tc_state x).
    + rewrite Hse. change (w_sent w4) with (w_sent w3). rewrite Hs3. change (w_sent w2) with (w_sent w1). exact Hs1.
Qed.

(** C27: The teardown state machine.  For a FIN for which the assertions of the code hold: one
    that counts in its state ([fin_accepted]) moves the connection from ESTABLISHED to
    CLOSE_WAIT and from FIN_WAIT_1 and FIN_WAIT_2 to TIME_WAIT, leaves the other states alone,
    and records that the peer is done; in FIN_WAIT_1 the FIN of this side, first in the queue,
    goes back to the packet pool, in the other states no packet moves; and the peer is answered
    with one datagram, a bare acknowledgement of what has arrived.  A FIN that does not count is
    dropped without any effect. *)
Theorem fin_transition w c x buf :
  ctx_at w c = Some x → 0 ≤ tc_sock x < FD_SETSIZE_S → pkt_pool_ok w → fin_queued w x →
  is_u32 (tc_lastByteSent x) → is_u32 (tc_flowID x) → fin_asserts x (GetSeqNum buf) (GetAckNum buf) →
  wp (HandleFINPacket c buf) (λ _ w',
    (¬ fin_accepted x (GetSeqNum buf) (GetAckNum buf) → w' = w) ∧
    (fin_accepted x (GetSeqNum buf) (GetAckNum buf) →
     ∃ x' d, ctx_at w' c = Some x' ∧ tc_state x' = fin_next (tc_state x) ∧ tc_isFINRcvd x' = true ∧
       pkt_pool_ok w' ∧ fin_unlinked w x w' x' ∧
       w_sent w' = w_sent w ++ [d] ∧ dg_addr d = tc_peerAddr x ∧ dg_sock d = tc_sock x ∧ zlen (dg_data d) = DTPHDRSIZE ∧
       read_header (dg_data d) =
         sent_header (tc_lastByteSent x) (GetAckNumber x) (tc_flowID x) DTP_FLAG_ACK (AdvertisedWindow x) DTPHDRSIZE)) w.
Proof using up.
  intros Hx Hs Hpo Hq Hls Hfl _. pose proof (fin_ignored_spec x (GetSeqNum buf) (GetAckNum buf)) as Hig.
  destruct (fin_ignored _ _ _) eqn:E.
  - apply wp_bind. eapply wp_getctx; [done|]. rewrite E. apply wp_ret. split; [done|]. by intros ?%Hig.
  - eapply wp_mono; [by eapply HandleFINPacket_spec|]. intros _ w' (x' & ? & ? & ? & _ & ? & ? & Hse).
    split; [by intros []; apply Hig|]. intros _. destruct (control_header_read x DTP_FLAG_ACK Hls Hfl) as [Hl Hh].
    eexists x', _. by split_and!.
Qed.

(** The acknowledgement of a FIN does not cover it.  It is sent before the FIN is
    recorded, so it carries the next expected position, while the position that
    acknowledges the FIN is one more. *)
Lemma fin_ack_misses_fin w c x S L buf :
  rcv_ok w c x S L → is_u32 (tc_lastByteSent x) → is_u32 (tc_flowID x) → 0 ≤ tc_sock x < FD_SETSIZE_S →
  pkt_pool_ok w → tc_state x = SOCK_ESTABLISHED → GetSeqNum buf = tc_nextByteExpected x →
  tc_isFINRcvd x = false → tc_nextByteExpected x + 1 < 2 ^ 32 →
  wp (HandleFINPacket c buf) (λ _ w', ∃ x' d, ctx_at w' c = Some x' ∧ w_sent w' = w_sent w ++ [d] ∧
    GetAckNum (dg_data d) = tc_nextByteExpected x ∧ GetAckNumber x' = tc_nextByteExpected x + 1) w.
Proof using up.
  intros Hok Hse Hf Hs Hpo Hst Hseq Hfin Hw. pose proof (rcv_next_le _ _ _ _ _ Hok) as Hle.
  pose proof (rc_range _ _ _ _ _ Hok) as [? ? ?].
  eapply wp_mono; [eapply HandleFINPacket_spec; [by eapply rcv_ok_at|done|done|by intros ?; congruence|]|].
  { unfold fin_ignored. rewrite Hst, Hseq, Z.eqb_refl. done. }
  intros _ w' (x' & Hx' & _ & Hfi' & Hn' & _ & _ & Hs'). eexists x', _. split_and!; [done|exact Hs'| |].
  - destruct (control_header_ack x DTP_FLAG_ACK Hse Hf) as [E _].
    cbn [dg_data]. rewrite E. unfold GetAckNumber. rewrite Hfin, Z.add_0_r. apply u32_small. unfold is_u32. lia.
  - unfold GetAckNumber. rewrite Hfi', Hn'. apply u32_small. unfold is_u32. lia.
Qed.
End fin.

(** ** Releasing a context *)

Section close.
Context {env : Env}.

(** The nodes of the interval list go back to their pool. *)
Lemma free_buffers_spec fuel w h L :
  lseg (w_bufs w) h L NULL → NoDup (ptrs L) → (∀ p, p ∈ ptrs L → p ∉ w_freeBufferList w) → buf_pool_ok w →
  (length L < fuel)%nat →
  wp (free_buffers fuel h) (λ _ w', buf_pool_ok w' ∧ w_freeBufferList w' = rev (ptrs L) ++ w_freeBufferList w ∧
    w' = w <| w_bufs := w_bufs w' |> <| w_freeBufferList := w_freeBufferList w' |>
           <| w_freeBufferCount := w_freeBufferCount w' |>) w.
Proof using.
  revert w h L. induction fuel as [|fuel IH]; intros w h [|[n [s e]] L] Hseg Hnd Hfr Hpo Hf; simpl in Hf; try lia.
  - simpl in Hseg. subst h. change (free_buffers (S fuel) NULL) with (mret tt : M unit). apply wp_ret. split_and!; [done|done|by destruct w].
  - destruct Hseg as (-> & Hn0 & nx & Hm & Hseg). simpl. rewrite (proj2 (Z.eqb_neq n NULL)) by done.
    apply NoDup_cons in Hnd as [HnL Hnd]. apply wp_bind. eapply wp_getbuf; [done|]. cbn [b_next].
    apply wp_bind. eapply wp_mono; [apply AddToFreeBufferList_spec; [done|by eexists|apply Hfr; by left]|].
    intros _ w1 [Hpo1 ->]. eapply wp_mono; [eapply (IH _ nx L)|].
    + by apply lseg_insert.
    + done.
    + intros p Hp. cbn. intros [->|Hin]%elem_of_cons; [done|]. by apply (Hfr p); [right|].
    + done.
    + lia.
    + intros _ w2 (Hpo2 & Hl2 & E2). split_and!; [done| |].
      * rewrite Hl2. cbn. by rewrite <- app_assoc.
      * rewrite E2. by destruct w.
Qed.

(** A context that [DTPCloseContext] releases. *)
Record closable (w : world) (c : Z) (x : dtp_context) (L : list node) : Prop := {
  cl_list : rlist w c x L;
  cl_active : tc_isActive x = true;
  cl_wait : tc_waitACK x = false;
  cl_state : tc_state x ≠ SOCK_TIME_WAIT;
  cl_sock : 0 ≤ tc_sock x < FD_SETSIZE_S;
  cl_map : flowmap_ok w }.

(** A change of a context that keeps its registration. *)
Lemma flowmap_ok_ctx w c x x' :
  flowmap_ok w → ctx_at w c = Some x → tc_flowID x' = tc_flowID x → tc_onFlowIDMap x' = tc_onFlowIDMap x →
  let w' := w <| w_ctxs ::= <[c := x']> |> in
  flowmap_ok w' ∧ ∀ c' fid, on_map w' c' fid ↔ on_map w c' fid.
Proof using.
  intros [Hbin Hnd Hflag Hinj] Hx Ef Eo w'.
  assert (Hc : ctx_at w' c = Some x') by (by eapply ctx_at_put).
  assert (Hne : ∀ c', c' ≠ c → ctx_at w' c' = ctx_at w c') by (intros; by apply ctx_at_put_ne).
  assert (Hon : ∀ c' fid, on_map w' c' fid ↔ on_map w c' fid).
  { intros c' fid. unfold on_map. change (fid_bin w' (HASH_TO_FIDMAP_BIN fid)) with (fid_bin w (HASH_TO_FIDMAP_BIN fid)).
    destruct (decide (c' = c)) as [->|]; [|by rewrite Hne]. rewrite Hc, Hx. split.
    - intros (y & [= <-] & Hf & Hin). exists x. by rewrite <- Ef.
    - intros (y & [= <-] & Hf & Hin). exists x'. by rewrite Ef. }
  split; [|done]. constructor.
  - intros idx c' Hin. change (fid_bin w' idx) with (fid_bin w idx) in Hin.
    destruct (Hbin _ _ Hin) as (y & Hy & Hfl & Hh). destruct (decide (c' = c)) as [->|].
    + assert (y = x) as -> by congruence. exists x'. by rewrite Ef, Eo.
    + exists y. by rewrite Hne.
  - exact Hnd.
  - intros c' y Hy Hfl. change (c' ∈ fid_bin w (HASH_TO_FIDMAP_BIN (tc_flowID y))).
    destruct (decide (c' = c)) as [->|].
    + assert (y = x') as -> by congruence. rewrite Ef. apply (Hflag _ x); [done|by rewrite <- Eo].
    + apply Hflag; [by rewrite <- Hne|done].
  - intros c1 c2 f0 H1%Hon H2%Hon. by eapply Hinj.
Qed.

(** A list of distinct nodes is no longer than the heap. *)
Lemma lseg_length m p L q : lseg m p L q → NoDup (ptrs L) → (length L ≤ size m)%nat.
Proof using.
  intros Hs Hnd. rewrite <- (length_fmap fst). fold (ptrs L).
  rewrite <- size_dom, <- (size_list_to_set (C := gset Z) (ptrs L)) by done. apply subseteq_size.
  intros n Hn%elem_of_list_to_set. apply elem_of_dom. by eapply lseg_in.
Qed.

(** What is left of a released connection. *)
Record released (w : world) (c : Z) (x : dtp_context) (L : list node) (w' : world) : Prop := {
  rl_closed : ∃ x', ctx_at w' c = Some x' ∧ tc_isActive x' = false ∧ tc_state x' = tc_state x ∧
                    tc_readBuf x' = None ∧ tc_writeBuf x' = None ∧ tc_readBufHead x' = NULL;
  rl_others : ∀ c', c' ≠ c → ctx_at w' c' = ctx_at w c';
  rl_nodes : buf_pool_ok w' ∧ w_freeBufferList w' = rev (ptrs L) ++ w_freeBufferList w;
  rl_map : flowmap_ok w' ∧ ∀ c' fid, on_map w' c' fid ↔ on_map w c' fid ∧ c' ≠ c;
  rl_sets : w_rfds w' = w_rfds w ∖ {[tc_sock x]} ∧ w_wfds w' = w_wfds w ∖ {[tc_sock x]} ∧
            w_fds w' = w_fds w ∖ {[tc_sock x]};
  rl_udp : w_closed w' = w_closed w ++ [tc_sock x];
  rl_queues : w_retTimerQ w' = w_retTimerQ w ∧ w_sent w' = w_sent w ∧ w_timerLock w' = w_timerLock w }.

Lemma DTPCloseContext_spec w c x L :
  closable w c x L → wp (DTPCloseContext c) (λ _ w', released w c x L w') w.
Proof using.
  intros [[Hx Hseg Hnd Hfr Hpo] Ha Hwa Hst Hs Hmap]. apply wp_bind. eapply wp_getctx; [done|].
  rewrite Ha, Hwa. cbn [negb]. rewrite is_state_false by done. apply wp_bind, wp_gets. apply wp_bind.
  eapply wp_mono; [eapply (free_buffers_spec _ w (tc_readBufHead x) L); try done|].
  { pose proof (lseg_length _ _ _ _ Hseg Hnd). lia. }
  intros _ w1 (Hpo1 & Hl1 & E1).
  assert (Hx1 : ctx_at w1 c = Some x) by (by rewrite E1).
  assert (Hm1 : flowmap_ok w1 ∧ ∀ c' fid, on_map w1 c' fid ↔ on_map w c' fid).
  { rewrite E1. split; [by destruct Hmap|done]. }
  apply wp_bind. eapply wp_modctx; [done|]. set (x2 := set tc_closeCalled _ _). set (w2 := set w_ctxs _ w1).
  destruct (flowmap_ok_ctx w1 c x x2 (proj1 Hm1) Hx1 eq_refl eq_refl) as [Hm2 Hon2].
  apply wp_bind. eapply wp_mono; [eapply (DTPRemoveContextFromFlowIDMap_spec w2 c x2); [exact Hm2|by eapply ctx_at_put]|].
  intros _ w3 (Hm3 & Hon3 & [E3 Hx3 Ho3]). set (x3 := set tc_onFlowIDMap _ x2) in *.
  pose (x4 := set tc_readEvent (λ _ : bool, false) x3).
  unfold DTPSelectEventClr. cbn [Z.eqb]. change (DTP_FD_READ =? DTP_FD_READ) with true.
  change (DTP_FD_WRITE =? DTP_FD_READ) with false. cbn iota.
  unfold FD_CLR_S, DTPClearSockFromGlobalFdSet, FD_CLR_S. rewrite !fd_in_range_true by done.
  do 2 (apply wp_bind; apply wp_bind, wp_gets; apply wp_bind, wp_ret; apply wp_modify).
  apply wp_bind. eapply wp_modctx; [exact Hx3|].
  apply wp_bind; apply wp_bind, wp_gets; apply wp_bind, wp_ret; apply wp_modify. apply wp_modify.
  match goal with |- released _ _ _ _ ?w' => set (w4 := w') end.
  assert (Hx4 : ctx_at w4 c = Some x4) by exact (ctx_at_put w3 c x3 x4 Hx3).
  assert (Ho4 : ∀ c', c' ≠ c → ctx_at w4 c' = ctx_at w3 c') by (intros c' ?; exact (ctx_at_put_ne w3 c c' x4 ltac:(done))).
  destruct (flowmap_ok_ctx w3 c x3 x4 Hm3 Hx3 eq_refl eq_refl) as [Hm4 Hon4].
  assert (E31 : w_bufs w3 = w_bufs w1 ∧ w_freeBufferList w3 = w_freeBufferList w1 ∧
    w_freeBufferCount w3 = w_freeBufferCount w1 ∧ w_brk w3 = w_brk w1) by (by rewrite E3).
  destruct E31 as (B1 & B2 & B3 & B4). constructor.
  - eexists. split; [exact Hx4|done].
  - intros c' Hc. rewrite Ho4, Ho3 by done. unfold w2. rewrite ctx_at_put_ne by done. by rewrite E1.
  - split; [|unfold w4; cbn; by rewrite B2]. destruct Hpo1. unfold w4.
    constructor; cbn; rewrite ?B1, ?B2, ?B3, ?B4; done.
  - split; [destruct Hm4; by constructor|]. intros c' fid. change (on_map w4 c' fid) with (on_map (w3 <| w_ctxs ::= <[c := x4]> |>) c' fid).
    rewrite Hon4, Hon3. fold w2 in Hon2. rewrite Hon2. destruct Hm1 as [_ ->]. done.
  - unfold w4. cbn. rewrite E3. cbn. rewrite E1. done.
  - unfold w4. cbn. rewrite E3. cbn. rewrite E1. done.
  - unfold w4. cbn. rewrite E3. cbn. rewrite E1. done.
Qed.
End close.

(** ** RST *)

Lemma retq_ok_ctx w c x x' :
  retq_ok w → ctx_at w c = Some x → tc_deadlineTime x' = tc_deadlineTime x →
  retq_ok (w <| w_ctxs ::= <[c := x']> |>).
Proof.
  intros [Hl Hs Hv Hn] Hx E. set (w' := set w_ctxs _ w).
  assert (Hd : ∀ c', deadline_of w' c' = deadline_of w c').
  { intros c'. unfold deadline_of. destruct (decide (c' = c)) as [->|].
    - unfold w'. by rewrite (ctx_at_put w c x x' Hx), Hx, E.
    - unfold w'. by rewrite ctx_at_put_ne. }
  constructor; [done| | |done].
  - change (w_retTimerQ w') with (w_retTimerQ w). clear Hv Hn.
    induction Hs as [|a l Hs IH Ha]; constructor; [done|].
    eapply Forall_impl; [exact Ha|]. intros b. unfold earlier. by rewrite !Hd.
  - intros c' Hc. destruct (decide (c' = c)) as [->|]; [eexists; by eapply ctx_at_put|].
    unfold w'. rewrite ctx_at_put_ne by done. by apply Hv.
Qed.

Lemma retq_ok_io w w' : io_frame w w' → retq_ok w → retq_ok w'.
Proof. intros [->] [Hl Hs Hv Hn]. by constructor. Qed.

Section rst.
Context {env : Env} {up : NetUp env}.

(** What [HandleRSTPacket] compares with the host ID of the connection. *)
Lemma rst_host_id buf hid n :
  hdr_with [(DTPOPT_HOST_ID, hid)] buf n → zlen hid = SHA1_DIGEST_LENGTH →
  DTPGetOption buf (Some (malloc_bytes SHA1_DIGEST_LENGTH)) None = Ok (true, (Some hid, None)).
Proof using.
  intros Hw Hl. destruct (DTPGetOption_no_deadline buf _ n (malloc_bytes SHA1_DIGEST_LENGTH) Hw) as (h' & E & Hf).
  { by apply Forall_singleton. }
  rewrite E. do 3 f_equal. simpl in Hf. unfold get_option_upd in Hf. simpl in Hf.
  rewrite Hl in Hf. simpl in Hf. congruence.
Qed.

Lemma reset_established w c x :
  ctx_at w c = Some x → tc_state x = SOCK_ESTABLISHED → 0 ≤ tc_sock x < FD_SETSIZE_S →
  retq_ok w → c ∈ w_retTimerQ w →
  wp (reset_connection c) (λ _ w', ∃ x', ctx_at w' c = Some x' ∧ tc_state x' = SOCK_CLOSED ∧
    tc_connReset x' = true ∧ retq_ok w' ∧ c ∉ w_retTimerQ w' ∧ w_sent w' = w_sent w) w.
Proof using.
  intros Hx Hst Hs Hq Hin. apply wp_bind. eapply wp_getctx; [done|]. rewrite Hst. eval_states.
  apply wp_bind. eapply wp_modctx; [done|]. set (x1 := set tc_connReset _ x). set (w1 := set w_ctxs _ w).
  assert (Hx1 : ctx_at w1 c = Some x1) by (by eapply ctx_at_put).
  assert (Hq1 : retq_ok w1) by (by eapply retq_ok_ctx).
  apply wp_bind, io_select_set; [done|]. intros w2 Hio2 Hs2.
  apply wp_bind, io_select_set; [done|]. intros w3 Hio3 Hs3.
  assert (Hio13 : io_frame w1 w3) by (by etrans).
  apply wp_bind. eapply wp_modctx; [by rewrite (io_ctx _ _ c Hio13)|].
  set (x4 := set tc_state _ x1). set (w4 := set w_ctxs _ w3).
  assert (Hx4 : ctx_at w4 c = Some x4) by (eapply ctx_at_put; by rewrite (io_ctx _ _ c Hio13)).
  assert (Hq4 : retq_ok w4).
  { eapply retq_ok_ctx; [by eapply retq_ok_io|by rewrite (io_ctx _ _ c Hio13)|done]. }
  apply wp_assoc. eapply io_wakeups; [done|done|]. intros w5 Hio5 Hs5.
  pose proof (retq_ok_io _ _ Hio5 Hq4) as Hq5.
  assert (Hin5 : c ∈ w_retTimerQ w5).
  { destruct Hio5 as [->]. change (c ∈ w_retTimerQ w3). destruct Hio13 as [->]. exact Hin. }
  eapply wp_mono; [by apply RemoveFromRetransQueue_spec|].
  intros _ w6 (Hq6 & l1 & l2 & El & ->). exists x4. split_and!.
  - rewrite <- Hx4. exact (io_ctx _ _ c Hio5).
  - done.
  - done.
  - done.
  - cbn. pose proof (rq_nodup _ Hq5) as Hnd. rewrite El in Hnd. apply NoDup_app in Hnd as (_ & Hn1 & Hn2).
    apply NoDup_cons in Hn2 as [Hn2 _]. rewrite elem_of_app. intros [Hi|Hi]; [|done].
    apply (Hn1 _ Hi). apply elem_of_cons. by left.
  - cbn. rewrite Hs5. change (w_sent w4) with (w_sent w3). rewrite Hs3, Hs2. done.
Qed.

(** C28: A reset is honoured only from the peer.  A RST resets an established
    connection (CLOSED, marked as reset, off the retransmission queue) when the host
    ID it carries is the one of the connection, and has no effect at all when it is
    another one. *)
Theorem rst_checks_host w c x buf hid n :
  ctx_at w c = Some x → hdr_with [(DTPOPT_HOST_ID, hid)] buf n → zlen hid = SHA1_DIGEST_LENGTH →
  tc_state x = SOCK_ESTABLISHED → 0 ≤ tc_sock x < FD_SETSIZE_S → retq_ok w → c ∈ w_retTimerQ w →
  wp (HandleRSTPacket c buf) (λ _ w',
    if decide (hid = tc_hostID x) then
      ∃ x', ctx_at w' c = Some x' ∧ tc_state x' = SOCK_CLOSED ∧ tc_connReset x' = true ∧
            retq_ok w' ∧ c ∉ w_retTimerQ w'
    else w' = w) w.
Proof using.
  intros Hx Hw Hl Hst Hs Hq Hin. apply wp_bind. eapply wp_lift; [by eapply rst_host_id|].
  apply wp_bind. eapply wp_getctx; [done|]. cbn [negb orb]. case_decide as E.
  - rewrite bool_decide_eq_true_2 by congruence. eapply wp_mono; [by eapply reset_established|].
    intros _ w' (x' & ? & ? & ? & ? & ? & _). by exists x'.
  - rewrite bool_decide_eq_false_2 by congruence. by apply wp_ret.
Qed.

(** C32: The RST of an unknown flow reaches the connection it is meant for.  The
    packet [SendRSTPacket] answers with, delivered to the host that sent the
    rejected packet, resets the connection whose peer has this host ID. *)
Theorem rst_roundtrip w0 sock buf addr w c x pad :
  zlen DTPGenerateHostID = SHA1_DIGEST_LENGTH → is_u32 (GetFlowID buf) →
  ctx_at w c = Some x → tc_hostID x = DTPGenerateHostID → tc_state x = SOCK_ESTABLISHED →
  0 ≤ tc_sock x < FD_SETSIZE_S → retq_ok w → c ∈ w_retTimerQ w →
  wp (SendRSTPacket sock buf addr) (λ _ w1, ∃ d, w_sent w1 = w_sent w0 ++ [d] ∧ dg_addr d = addr ∧
    GetFlowID (dg_data d) = GetFlowID buf ∧ IsRSTPacket (dg_data d) = true ∧
    wp (HandleRSTPacket c (dg_data d ++ pad)) (λ _ w', ∃ x', ctx_at w' c = Some x' ∧
      tc_state x' = SOCK_CLOSED ∧ tc_connReset x' = true ∧ c ∉ w_retTimerQ w') w) w0.
Proof using up.
  intros Hh Hf Hx Hid Hst Hs Hq Hin. eapply io_send_rst; [done..|].
  intros w1 d _ Hse Ha _ Hr Hfid Hw. exists d. split_and!; [done..|].
  apply wp_bind. eapply wp_lift; [eapply rst_host_id; [apply Hw|done]|].
  apply wp_bind. eapply wp_getctx; [done|]. cbn [negb orb]. rewrite bool_decide_eq_true_2 by congruence.
  eapply wp_mono; [by eapply reset_established|]. intros _ w' (x' & ? & ? & ? & ? & ? & _). by exists x'.
Qed.

(** An AUTH packet does not resume a transfer that waits with an inserted ACK.
    The ACK flag is looked up in the packet structure instead of its header; for the
    20-byte ACK that [HandleDisconnect] queues the bit is never set, and the
    handler returns without doing anything. *)
Lemma auth_ignored_with_inserted_ack w c x p l k buf addr :
  ctx_at w c = Some x → tc_peerAddr x = addr → tc_packetQ x = p :: l → tc_isACKInserted x = true →
  w_pkts w !! p = Some k → tp_len k = DTPHDRSIZE →
  HandleAUTHPacket c buf addr w = Ok (tt, w).
Proof using.
  intros Hx Ha Hq Hi Hk Hl.
  assert (H : wp (HandleAUTHPacket c buf addr) (λ _ w', w' = w) w).
  { apply wp_bind. eapply wp_getctx; [done|]. unfold addr_eqb. rewrite bool_decide_eq_true_2 by done. cbn [negb].
    rewrite Hq, Hi. apply wp_bind, wp_bind. eapply wp_getpkt; [done|]. unfold IsACKPacket_struct. rewrite Hl.
    apply wp_ret. by apply wp_ret. }
  apply wp_run in H as ([] & w' & E & ->). done.
Qed.

(** C29: Closing a connection releases everything it holds.  On a connection with
    nothing left to wait for ([closable]: not in TIME_WAIT, no acknowledgement to
    wait for) [DTPCloseContext] makes the context inactive and its buffers go; the nodes of the interval list return
    to the pool; the flow ID is no longer found and no other one is affected; the
    socket is in no readiness set and its UDP socket is closed; the other
    connections are as before. *)
Theorem close_releases w c x L :
  closable w c x L →
  wp (DTPCloseContext c) (λ _ w',
    (∃ x', ctx_at w' c = Some x' ∧ tc_isActive x' = false ∧ tc_readBuf x' = None ∧ tc_writeBuf x' = None) ∧
    (∀ c', c' ≠ c → ctx_at w' c' = ctx_at w c') ∧
    buf_pool_ok w' ∧ w_freeBufferList w' = rev (ptrs L) ++ w_freeBufferList w ∧
    flowmap_ok w' ∧ (∀ c' fid, on_map w' c' fid ↔ on_map w c' fid ∧ c' ≠ c) ∧
    tc_sock x ∉ w_rfds w' ∪ w_wfds w' ∪ w_fds w' ∧ w_closed w' = w_closed w ++ [tc_sock x]) w.
Proof using up.
  intros Hc. eapply wp_mono; [by apply DTPCloseContext_spec|].
  intros _ w' [(x' & ? & ? & _ & ? & ? & _) Ho [? ?] [? ?] (-> & -> & ->) ? _].
  split_and!; try done; [by exists x'|set_solver].
Qed.
End rst.

(** ** The scenario host *)

Lemma conn_accepts_fin : fin_accepted conn (GetSeqNum (zeros DTPHDRSIZE)) (GetAckNum (zeros DTPHDRSIZE)).
Proof. vm_compute. reflexivity. Qed.

Example fin_transition_witness :
  wp (HandleFINPacket 5 (zeros DTPHDRSIZE)) (λ _ w', ∃ x' d, ctx_at w' 5 = Some x' ∧
    tc_state x' = SOCK_CLOSE_WAIT ∧ tc_isFINRcvd x' = true ∧ pkt_pool_ok w' ∧ fin_unlinked (host conn) conn w' x' ∧
    w_sent w' = w_sent (host conn) ++ [d] ∧ dg_addr d = peer_addr ∧ dg_sock d = 5 ∧ zlen (dg_data d) = DTPHDRSIZE ∧
    read_header (dg_data d) = sent_header 0 0 77 DTP_FLAG_ACK (AdvertisedWindow conn) DTPHDRSIZE) (host conn).
Proof.
  eapply wp_mono; [apply (fin_transition (host conn) 5 conn (zeros DTPHDRSIZE) (host_ctx conn) ltac:(eval_facts)
    (proj1 (host_pools conn)) ltac:(vm_compute; discriminate) ltac:(eval_facts) ltac:(eval_facts));
    intros [?|?]; discriminate|].
  intros r w' [_ H]. exact (H conn_accepts_fin).
Defined.

Example fin_ack_misses_fin_witness :
  wp (HandleFINPacket 5 (zeros DTPHDRSIZE)) (λ _ w', ∃ x' d, ctx_at w' 5 = Some x' ∧
    w_sent w' = w_sent (host conn) ++ [d] ∧ GetAckNum (dg_data d) = tc_nextByteExpected conn ∧
    GetAckNumber x' = tc_nextByteExpected conn + 1) (host conn).
Proof.
  apply (fin_ack_misses_fin (host conn) 5 conn (λ _, 0) [] (zeros DTPHDRSIZE));
    [apply conn_receiving|eval_facts|eval_facts|eval_facts|apply host_pools|eval_facts..].
Defined.

(** A RST of 44 bytes with the host ID of the peer of [conn]. *)
Definition rst_packet (hid : bytes) : bytes :=
  match DTPAddOptionToHeader (DTPGenerateHeader (zeros 46) 0 0 77 DTP_FLAG_RST DEF_READ_BUFLEN).1 DTPHDRSIZE
          DTPOPT_HOST_ID hid with
  | Ok (p, _) => p
  | Err _ => []
  end.

Lemma rst_packet_options hid :
  zlen hid = SHA1_DIGEST_LENGTH → hdr_with [(DTPOPT_HOST_ID, hid)] (rst_packet hid) 42.
Proof.
  intros Hl.
  pose proof (hdr_with_generate (zeros 46) 0 0 77 DTP_FLAG_RST DEF_READ_BUFLEN ltac:(done) ltac:(done) ltac:(done)
    ltac:(done) ltac:(done)) as Hw.
  destruct (add_option_spec [] _ DTPHDRSIZE DTPOPT_HOST_ID DTPOLEN_HOST_ID hid Hw)
    as (h' & Eo & Hw' & _); [done|by rewrite Hl|by rewrite zlen_GenerateHeader|done|].
  unfold rst_packet. rewrite Eo.
  change (DTPOLEN_HOST_ID - 2) with SHA1_DIGEST_LENGTH in Hw'. by rewrite <- Hl, zslice_all in Hw'.
Qed.

Lemma conn_in_queue : 5 ∈ w_retTimerQ (host conn).
Proof. apply elem_of_cons. by left. Qed.

Example rst_checks_host_witness :
  wp (HandleRSTPacket 5 (rst_packet (toy_digest [9]))) (λ _ w', ∃ x', ctx_at w' 5 = Some x' ∧
    tc_state x' = SOCK_CLOSED ∧ tc_connReset x' = true ∧ retq_ok w' ∧ 5 ∉ w_retTimerQ w') (host conn) ∧
  wp (HandleRSTPacket 5 (rst_packet (toy_digest [8]))) (λ _ w', w' = host conn) (host conn).
Proof.
  pose proof (rst_checks_host (host conn) 5 conn (rst_packet (toy_digest [9])) (toy_digest [9]) 42 (host_ctx conn)
    (rst_packet_options (toy_digest [9]) ltac:(eval_facts)) ltac:(eval_facts) ltac:(eval_facts) ltac:(eval_facts) (host_queue conn) conn_in_queue) as H1.
  pose proof (rst_checks_host (host conn) 5 conn (rst_packet (toy_digest [8])) (toy_digest [8]) 42 (host_ctx conn)
    (rst_packet_options (toy_digest [8]) ltac:(eval_facts)) ltac:(eval_facts) ltac:(eval_facts) ltac:(eval_facts) (host_queue conn) conn_in_queue) as H2.
  split.
  - eapply wp_mono; [exact H1|]. intros r w'. cbv beta.
    destruct (decide (toy_digest [9] = tc_hostID conn)) as [E|E]; [exact id|destruct E; vm_compute; reflexivity].
  - eapply wp_mono; [exact H2|]. intros r w'. cbv beta.
    destruct (decide (toy_digest [8] = tc_hostID conn)) as [E|E]; [|exact id].
    apply (f_equal (λ b, zget b 0)) in E. vm_compute in E. discriminate E.
Defined.

Example rst_roundtrip_witness :
  let x := conn <| tc_hostID := DTPGenerateHostID |> in
  let buf := (DTPGenerateHeader (zeros DTPHDRSIZE) 0 0 77 DTP_FLAG_ACK 0).1 in
  wp (SendRSTPacket 9 buf peer_addr) (λ _ w1, ∃ d, w_sent w1 = w_sent (host conn) ++ [d] ∧
    dg_addr d = peer_addr ∧ GetFlowID (dg_data d) = GetFlowID buf ∧ IsRSTPacket (dg_data d) = true ∧
    wp (HandleRSTPacket 5 (dg_data d ++ [1; 2])) (λ _ w', ∃ x', ctx_at w' 5 = Some x' ∧
      tc_state x' = SOCK_CLOSED ∧ tc_connReset x' = true ∧ 5 ∉ w_retTimerQ w') (host x)) (host conn).
Proof.
  intros x buf.
  apply (rst_roundtrip (host conn) 9 buf peer_addr (host x) 5 x [1; 2]);
    [eval_facts|eval_facts|apply host_ctx|reflexivity|reflexivity|eval_facts|apply host_queue|].
  apply elem_of_cons. by left.
Defined.

Example close_releases_witness :
  wp (DTPCloseContext 5) (λ _ w',
    (∃ x', ctx_at w' 5 = Some x' ∧ tc_isActive x' = false ∧ tc_readBuf x' = None ∧ tc_writeBuf x' = None) ∧
    (∀ c', c' ≠ 5 → ctx_at w' c' = ctx_at (host conn) c') ∧
    buf_pool_ok w' ∧ w_freeBufferList w' = rev (ptrs []) ++ w_freeBufferList (host conn) ∧
    flowmap_ok w' ∧ (∀ c' fid, on_map w' c' fid ↔ on_map (host conn) c' fid ∧ c' ≠ 5) ∧
    tc_sock conn ∉ w_rfds w' ∪ w_wfds w' ∪ w_fds w' ∧
    w_closed w' = w_closed (host conn) ++ [tc_sock conn]) (host conn).
Proof.
  apply (close_releases (host conn) 5 conn []). constructor; try eval_facts; [|apply host_flowmap].
  exact (rc_list _ _ _ _ _ (conn_receiving (λ _, 0))).
Defined.

(** The connection of [conn] when [HandleDisconnect] has queued its 20-byte ACK. *)
Definition conn_inserted : dtp_context := conn <| tc_packetQ := [0] |> <| tc_isACKInserted := true |>.
Definition host_inserted : world :=
  (host conn_inserted) <| w_pkts := {[0 := zero_pkt <| tp_len := DTPHDRSIZE |>]} |>.

Example auth_ignored_with_inserted_ack_witness :
  HandleAUTHPacket 5 (zeros DTPHDRSIZE) peer_addr host_inserted = Ok (tt, host_inserted).
Proof.
  apply (auth_ignored_with_inserted_ack host_inserted 5 conn_inserted 0 [] (zero_pkt <| tp_len := DTPHDRSIZE |>));
    reflexivity.
Defined.
