(* ===== verification/Handshake.v ===== *)
(** * Connection establishment (dtp_transport.c, dtp.c)

    SYN and SYN+ACK: the client sends its RSA public key, the server answers with
    the session key encrypted under it, the port of the new socket and its
    options. *)

From S2P Require Import Prelude Double Header Context World ContextTable Pools RetransQueue.
From S2P Require Import Select Congestion Lifecycle Send Ack Challenge Crypt.

(** ** Options of the handshake *)

(** The [switch] of [DTPParseOption]. *)
Definition parse_option_case (buf : bytes) (opcode opsize ptr : Z) (x : dtp_context)
  : res dtp_context :=
  if opcode =? DTPOPT_WIN_SCALE then
    if opsize =? DTPOLEN_WIN_SCALE then
      s ← read8 buf ptr;
      Ok (if s <=? DTP_MAX_WINSCALE_SHIFT then x <| tc_sendWindowScale := s |> else x)
    else Ok x
  else if opcode =? DTPOPT_PORT then
    if opsize =? DTPOLEN_PORT then
      if in_block ptr 2 buf
      then Ok (x <| tc_peerAddr ::= λ a, set_sin_port a (of_le (zslice ptr 2 buf)) |>)
      else Err OutOfBounds
    else Ok x
  else Ok x.

Definition DTPParseOption (buf : bytes) (ctx : Z) : M unit :=
  x ← getctx ctx;
  x' ← lift_res (opt_loop (parse_option_case buf) buf (options_fuel buf) DTPHDRSIZE
                   (options_len buf) x);
  putctx ctx x'.

Section env.
Context {env : Env}.

(** ** The session key *)

(** The random devices at this moment. *)
Definition rand_devices_now : M rand_devices := λ w, Ok (env_random (w_nrand w), w <| w_nrand ::= S |>).

(** A length-prefixed number of the public key: [memcpy] of the length, then
    of that many bytes into a buffer of [RSA_LEN]. *)
Definition read_number (buf : bytes) (off : Z) : M bytes :=
  l ← block_read (Some buf) off 4;
  let n := i32 (of_le l) in
  if (0 <=? n) && (n <=? RSA_LEN) then block_read (Some buf) (off + 4) n
  else mfault OutOfBounds.

(** The header of the SYN+ACK. *)
Definition synack_header (ctx : Z) (packet : ptr) : M Z :=
  x ← getctx ctx;
  hdr_size ← generate_header packet (tc_lastByteSent x) (tc_nextByteExpected x) (tc_flowID x)
               (Z.lor DTP_FLAG_SYN DTP_FLAG_ACK) (AdvertisedWindow x);
  hdr_size ← add_option packet hdr_size DTPOPT_HOST_ID DTPGenerateHostID;
  hdr_size ← (if 0 <? tc_deadline x
              then add_option packet hdr_size DTPOPT_DEADLINE (le32 (tc_deadline x))
              else mret hdr_size);
  hdr_size ←
    (if negb (tc_isFirstPacketSent x) then
       hdr_size ← (if 0 <? tc_recvWindowScale x
                   then add_option packet hdr_size DTPOPT_WIN_SCALE [tc_recvWindowScale x]
                   else mret hdr_size);
       ctx ->> tc_isFirstPacketSent := true;;
       mret hdr_size
     else mret hdr_size);
  port ← sock_port (tc_sock x);
  hdr_size ← add_option packet hdr_size DTPOPT_PORT (le16 port);
  mret (align4 hdr_size).

Definition DTPHandleKey (sock : Z) (ctx : Z) (buf : bytes) (isResend : bool) : M unit :=
  let hlen := GetHeaderLen buf in
  n ← read_number buf hlen;
  e ← read_number buf (hlen + 4 + zlen n);
  let key_len := 8 + zlen n + zlen e in
  mwhen (negb isResend)
    (modctx ctx (λ x, x <| tc_nextByteExpected := tc_nextByteExpected x +u key_len |>
                        <| tc_lastByteRcvd := tc_lastByteRcvd x +u key_len |>
                        <| tc_lastByteRead := tc_lastByteRead x +u key_len |>));;
  x ← getctx ctx;
  d ← rand_devices_now;
  '(key, _) ← lift_res (spc_keygen d spc_closed (tc_key x) 20);
  ctx ->> tc_key := key;;
  r ← gets w_nrand;
  modify (λ w, w <| w_nrand ::= S |>);;
  match env_rsa_public_encrypt n e (zslice 0 20 key) r with
  | None => mret tt
  | Some encrypt =>
    let res := zlen encrypt in
    packet ← DTPGetIdlePacket;
    mwhen isResend (modctx ctx (λ x, x <| tc_lastByteSent := tc_lastByteSent x -u res |>));;
    hdr_size ← synack_header ctx packet;
    modpkt packet (set tp_ctx (λ _, ctx));;
    DTPInsertPacket packet (res + hdr_size) hdr_size;;
    x ← getctx ctx;
    DTPSendPacket sock (DTPGeneratePacket packet (from_local encrypt)) (res + hdr_size)
      (tc_peerAddr x) (Some ctx);;
    modctx ctx (λ x, x <| tc_lastByteSent := tc_lastByteSent x +u res |>);;
    modctx ctx (λ x, x <| tc_lastByteWritten := tc_lastByteSent x |>)
  end.

(** ** SYN *)

(** [while (1)]: try the ports from 49153 on; [tries] is what [bind] answers. *)
Fixpoint bind_loop (tries : list bool) (ctx sock i : Z) : M unit :=
  match tries with
  | [] => mfault Spin
  | ok :: tries =>
    let i := if i + 1 =? 65535 then 49153 else i + 1 in
    if (ok : bool) then
      modify (λ w, w <| w_ports ::= <[sock := i]> |>);;
      ctx ->> tc_isBound := true
    else bind_loop tries ctx sock i
  end.

Definition listenQ_push (listen_ctx : Z) (sock : Z) : M unit :=
  x ← getctx listen_ctx;
  match tc_listenQ x with
  | None => mfault NullDeref
  | Some q =>
    if (0 <=? tc_qidx x) && (tc_qidx x <? zlen q) then
      modctx listen_ctx (λ x, x <| tc_listenQ := Some (<[Z.to_nat (tc_qidx x) := sock]> q) |>
                                <| tc_qidx := tc_qidx x + 1 |>)
    else mfault OutOfBounds
  end.

(** The fields of the new connection. *)
Definition init_passive (ctx : Z) (fid : Z) (addr : sockaddr_in) (hid : bytes) (deadline : Z)
    (buf : bytes) : M unit :=
  modctx ctx (λ x, x <| tc_flowID := fid |> <| tc_peerAddr := addr |>
                     <| tc_state := SOCK_SYN_RCVD |>);;
  DTPAddContextToFlowIDMap fid ctx;;
  let seqnum := GetSeqNum buf in
  modctx ctx (λ x, x <| tc_hostID := hid |> <| tc_lastByteSent := 0 |> <| tc_lastByteAcked := 0 |>
                     <| tc_nextByteExpected := seqnum |> <| tc_lastByteRcvd := seqnum |>
                     <| tc_lastByteRead := seqnum |>);;
  tv ← gettimeofday;
  modctx ctx (λ x, x <| tc_startTime := tv |> <| tc_isClientMobile := IsMobilePacket buf |>
                     <| tc_mobileTime := 0 |> <| tc_wifiTime := 0 |>
                     <| tc_deadline := i32 deadline |>);;
  tv ← gettimeofday;
  modctx ctx (λ x, if 0 <? tc_deadline x
                   then x <| tc_deadlineTime := mk_timeval (tv_sec tv + tc_deadline x) 0 |> else x);;
  ctx ->> tc_isDeadlineSet := true;;
  DTPParseOption buf ctx.

(** The hand-over to the listening socket and the binding of the new one. *)
Definition announce (listen_ctx ctx : Z) : M unit :=
  x ← getctx ctx;
  listenQ_push listen_ctx (tc_sock x);;
  DTPSelectEventSet (tc_sock x) DTP_FD_READ;;
  l ← getctx listen_ctx;
  mwhen (tc_isReadBlocked l)
    (listen_ctx ->> tc_isTransportWaiting := true;;
     cond_signal listen_ctx readBufCond;;
     cond_wait listen_ctx readBufCond;;
     listen_ctx ->> tc_isTransportWaiting := false);;
  bind_loop (env_bind (tc_sock x)) ctx (tc_sock x) 49152;;
  x ← getctx ctx;
  mwhen (negb (tc_beingMonitored x))
    (ctx ->> tc_beingMonitored := true;;
     l ← getctx listen_ctx;
     DTPSendEventToLibThread (tc_isock l) (mk_event (tc_sock x) DTP_ADD_LISTEN_EVENT)).

(** [Some ctx] for a new connection, [None] for NULL. *)
Definition HandleSYNPacket (sock : Z) (buf : bytes) (addr : sockaddr_in) : M (option Z) :=
  let fid := GetFlowID buf in
  '(ok, (hid, deadline)) ← lift_res (DTPGetOption buf (Some (malloc_bytes SHA1_DIGEST_LENGTH)) (Some 0));
  let hid := default [] hid in
  let deadline := default 0 deadline in
  if negb ok then (SendRSTPacket sock buf addr;; mret None)
  else
    old ← DTPGetContextByFlowID fid;
    match old with
    | Some ctx =>
      x ← getctx ctx;
      (if bool_decide (tc_hostID x = hid) then
         (* old connection is reconnected: resend SYN+ACK packet *)
         ctx ->> tc_peerAddr := addr;;
         DTPHandleKey sock ctx buf true
       else (* flow ID conflict *) SendRSTPacket sock buf addr);;
      mret None
    | None =>
      l ← DTPGetContextBySocket sock;
      full ← match l with
             | None => mret true
             | Some l => x ← getctx l; mret (tc_qidx x =? tc_backlog x)
             end;
      if (full : bool) then (SendRSTPacket sock buf addr;; mret None)
      else
        c ← DTPCreateContext;
        match c with
        | None => mret None
        | Some ctx =>
          init_passive ctx fid addr hid deadline buf;;
          announce sock ctx;;
          DTPHandleKey sock ctx buf false;;
          DTPSelectEventSet sock DTP_FD_READ;;
          mret (Some ctx)
        end
    end.

(** ** SYN+ACK *)

(** The branch for a socket in SYN_SENT; [false] when the function returns
    NULL. *)
Definition establish (ctx sock : Z) (buf : bytes) (addr : sockaddr_in) : M bool :=
  '(ok, (hid, _)) ← lift_res (DTPGetOption buf (Some (malloc_bytes SHA1_DIGEST_LENGTH)) (Some 0));
  if negb ok then (SendRSTPacket sock buf addr;; mret false)
  else
    ctx ->> tc_hostID := default [] hid;;
    encrypt ← payload buf RSA_LEN;
    match env_rsa_private_decrypt encrypt with
    | None => mret false
    | Some key =>
      let isn := GetSeqNum buf +u RSA_LEN in
      modctx ctx (λ x, x <| tc_key := zsplice 0 key (tc_key x) |>
                         <| tc_state := SOCK_ESTABLISHED |>
                         <| tc_nextByteExpected := isn |> <| tc_lastByteRcvd := isn |>
                         <| tc_lastByteRead := isn |> <| tc_peerAddr := addr |>);;
      DTPParseOption buf ctx;;
      x ← getctx ctx;
      DTPSelectEventClr (tc_sock x) DTP_FD_READ;;
      mret true
    end.

Definition HandleSYNACKPacket (sock : Z) (buf : bytes) (addr : sockaddr_in) : M (option Z) :=
  c ← DTPGetContextBySocket sock;
  match c with
  | None => mfault NullDeref
  | Some ctx =>
    x ← getctx ctx;
    go ← (if is_state (tc_state x) SOCK_SYN_SENT then establish ctx sock buf addr else mret true);
    if negb go then mret None
    else (DTPSendACKPacket ctx;; mret (Some ctx))
  end.
End env.
