(* ===== verification/Wire.v ===== *)
(** * Values read from the network have their types

    A datagram is any byte string.  Whatever it holds, the accessors of the header return
    values of the width of their C type, and the loops over the options stay within the receive
    buffer, change only the fields they are meant to change, and store only values of the
    field's type; they fail to return just for an option whose size byte is zero. *)

From S2P Require Import Prelude Double Header Context World ContextTable Pools Select Lifecycle Scenario Crypt Handshake.

Definition is_bytes (p : bytes) : Prop := Forall is_u8 p.

(** The longest header is 60 bytes; the loops read up to 22 bytes behind it. *)
Definition MAX_HDRSIZE : Z := 60.
Definition RCV_ROOM : Z := 82.

Lemma is_bytes_slice off n p : is_bytes p → is_bytes (zslice off n p).
Proof. intros H. by apply Forall_take, Forall_drop. Qed.

Lemma is_bytes_get p i : is_bytes p → is_u8 (zget p i).
Proof.
  intros H. unfold zget. destruct (nth_in_or_default (Z.to_nat i) p 0) as [Hi|E]; [|rewrite E; done].
  unfold is_bytes in H. rewrite Forall_forall in H. by apply H, list_elem_of_In.
Qed.

Lemma of_be_snoc l b : of_be (l ++ [b]) = of_be l * 2 ^ 8 + b.
Proof. unfold of_be. by rewrite fold_left_app. Qed.

Lemma of_be_range l : is_bytes l → 0 ≤ of_be l < 2 ^ (8 * zlen l).
Proof.
  induction l as [|b l IH] using rev_ind; intros H; [by vm_compute|].
  apply Forall_app in H as [Hl Hb]. apply Forall_cons in Hb as [Hb _]. specialize (IH Hl). rewrite of_be_snoc, zlen_app.
  change (zlen [b]) with 1. rewrite Z.mul_add_distr_l, Z.pow_add_r by (pose proof (zlen_nonneg l); lia).
  unfold is_u8 in Hb. change (2 ^ (8 * 1)) with 256. change (2 ^ 8) with 256 in *. lia.
Qed.

Lemma of_le_range l : is_bytes l → 0 ≤ of_le l < 2 ^ (8 * zlen l).
Proof.
  intros H. unfold of_le. replace (zlen l) with (zlen (rev l)) by (unfold zlen; by rewrite length_rev). apply of_be_range.
  by apply Forall_rev.
Qed.

(** ** The header *)

Record fields_typed (p : bytes) : Prop := {
  ft_fid : is_u32 (GetFlowID p); ft_seq : is_u32 (GetSeqNum p); ft_ack : is_u32 (GetAckNum p);
  ft_win : is_u16 (GetRcvdWindow p); ft_len : 0 ≤ GetHeaderLen p ≤ MAX_HDRSIZE }.

Lemma zlen_slice_le off n (p : bytes) : 0 ≤ n → zlen (zslice off n p) ≤ n.
Proof. intros. unfold zlen, zslice. rewrite length_take. lia. Qed.

Lemma slice_typed off n p : 0 ≤ n → is_bytes p → 0 ≤ of_be (zslice off n p) < 2 ^ (8 * n).
Proof.
  intros Hn H. pose proof (of_be_range _ (is_bytes_slice off n p H)) as [? ?]. pose proof (zlen_slice_le off n p Hn).
  split; [done|]. eapply Z.lt_le_trans; [done|]. apply Z.pow_le_mono_r; lia.
Qed.

Lemma header_typed p : is_bytes p → fields_typed p.
Proof.
  intros H. constructor; try by apply slice_typed.
  unfold GetHeaderLen, get_doff, MAX_HDRSIZE. rewrite (Z.land_ones _ 4), Z.shiftl_mul_pow2 by lia.
  pose proof (Z.mod_pos_bound (zget p 12) (2 ^ 4) ltac:(lia)). lia.
Qed.

(** ** The options *)

(** The positions a reader of the options comes to from [p], before the end of the header: it
    steps over a padding byte (NOP), stops at an end marker (EOL), and goes on behind any other
    option by its size, the byte behind its code. *)
Inductive reaches (buf : bytes) (stop : Z) : Z → Z → Prop :=
  | reach_here p : p < stop → reaches buf stop p p
  | reach_pad p q : p < stop → zget buf p = DTPOPT_NOP → reaches buf stop (p + 1) q → reaches buf stop p q
  | reach_next p q : p < stop → zget buf p ≠ DTPOPT_EOL → zget buf p ≠ DTPOPT_NOP →
      reaches buf stop (p + zget buf (p + 1)) q → reaches buf stop p q.

(** An option with a size, and the size is zero. *)
Definition zero_size (buf : bytes) (p : Z) : Prop :=
  zget buf p ≠ DTPOPT_EOL ∧ zget buf p ≠ DTPOPT_NOP ∧ zget buf (p + 1) = 0.

Definition finds_zero (buf : bytes) (stop p : Z) : Prop := ∃ q, reaches buf stop p q ∧ zero_size buf q.

Lemma zero_end buf stop p : stop ≤ p → ¬ finds_zero buf stop p.
Proof. intros Hp (q & H & _). destruct H; lia. Qed.

Lemma zero_eol buf stop p : zget buf p = DTPOPT_EOL → ¬ finds_zero buf stop p.
Proof. intros E (q & H & Hz & _). by destruct H as [p _|p q _ En|p q _ En]; rewrite E in *. Qed.

Lemma zero_pad buf stop p : zget buf p = DTPOPT_NOP → p < stop → finds_zero buf stop p ↔ finds_zero buf stop (p + 1).
Proof.
  intros E Hp. split; intros (q & H & Hz).
  - destruct H as [p _|p q _ _ H|p q _ _ En]; [by destruct Hz as (_ & ? & _)|by exists q|done].
  - exists q. split; [by apply reach_pad|done].
Qed.

Lemma zero_next buf stop p : zget buf p ≠ DTPOPT_EOL → zget buf p ≠ DTPOPT_NOP → p < stop →
  finds_zero buf stop p ↔ zget buf (p + 1) = 0 ∨ finds_zero buf stop (p + zget buf (p + 1)).
Proof.
  intros E1 E2 Hp. split.
  - intros (q & H & Hz). destruct H as [p _|p q _ En|p q _ _ _ H]; [left; apply Hz|done|right; by exists q].
  - intros [Hz|(q & H & Hz)]; [exists p; split; [by constructor|done]|exists q; split; [by apply reach_next|done]].
Qed.

(** The loop keeps what every option keeps; it spins just when it comes to an option of size 0. *)
Lemma opt_loop_safe {S : Type} (I : S → Prop) (case : Z → Z → Z → S → res S) buf :
  is_bytes buf → RCV_ROOM ≤ zlen buf →
  (∀ opcode opsize ptr s, I s → DTPHDRSIZE ≤ ptr → ptr + 20 ≤ zlen buf →
     match case opcode opsize ptr s with Ok s' => I s' | Err _ => False end) →
  ∀ fuel ptr len s, I s → DTPHDRSIZE ≤ ptr → ptr + len ≤ MAX_HDRSIZE →
  match opt_loop case buf fuel ptr len s with
  | Ok s' => I s' ∧ ¬ finds_zero buf (ptr + len) ptr
  | Err f => f = Spin ∧ ((Z.to_nat len < fuel)%nat → finds_zero buf (ptr + len) ptr)
  end.
Proof.
  intros Hb Hl Hc. induction fuel as [|fuel IH]; intros ptr len s Hs Hp He; cbn [opt_loop];
    (destruct (Z.leb_spec len 0) as [|Hlen]; [split; [done|apply zero_end; lia]|]).
  { split; [done|]. lia. }
  unfold MAX_HDRSIZE, RCV_ROOM, DTPHDRSIZE in *.
  assert (R : ∀ q, ptr ≤ q ≤ ptr + 1 → read8 buf q = Ok (zget buf q))
    by (intros; unfold read8; by rewrite (proj2 (in_block_spec _ _ _)) by lia).
  rewrite (R ptr) by lia. cbn [mbind res_bind]. destruct (Z.eqb_spec (zget buf ptr) DTPOPT_EOL) as [|H1]; [split; [done|by apply zero_eol]|].
  destruct (Z.eqb_spec (zget buf ptr) DTPOPT_NOP) as [H2|H2].
  - pose proof (zero_pad buf (ptr + len) ptr H2 ltac:(lia)) as HP.
    specialize (IH (ptr + 1) (len - 1) s Hs ltac:(lia) ltac:(lia)). replace (ptr + 1 + (len - 1)) with (ptr + len) in IH by lia.
    destruct (opt_loop _ _ _ _ _ _); [by rewrite HP|]. destruct IH as [-> IH]. split; [done|]. intros Hf. apply HP, IH. lia.
  - pose proof (zero_next buf (ptr + len) ptr H1 H2 ltac:(lia)) as HN.
    rewrite (R (ptr + 1)) by lia. cbn [mbind res_bind]. pose proof (is_bytes_get buf (ptr + 1) Hb) as Hz. set (z := zget buf (ptr + 1)) in *.
    specialize (Hc (zget buf ptr) z (ptr + 2) s Hs ltac:(lia) ltac:(lia)). destruct (case _ _ _ _) as [s1|]; [|done]. cbn [mbind res_bind].
    unfold is_u8 in Hz. specialize (IH (ptr + 2 + (z - 2)) (len - z) s1 Hc ltac:(lia) ltac:(lia)).
    replace (ptr + 2 + (z - 2) + (len - z)) with (ptr + len) in IH by lia. replace (ptr + 2 + (z - 2)) with (ptr + z) in * by lia.
    destruct (opt_loop _ _ _ _ _ _).
    + destruct IH as [IH1 IH2]. split; [done|]. rewrite HN. intros [E|]; [|done]. apply IH2. replace (ptr + z) with ptr by lia.
      exists ptr. split; [constructor; lia|by repeat split].
    + destruct IH as [-> IH]. split; [done|]. intros Hf. apply HN. destruct (decide (z = 0)) as [Hz0|]; [by left|]. right. apply IH. lia.
Qed.

(** The options of the header have one of size zero where a reader comes by. *)
Definition zero_option (buf : bytes) : Prop := finds_zero buf (GetHeaderLen buf) DTPHDRSIZE.

(** The out parameters of [DTPGetOption]: as they were, or a value of their type. *)
Definition options_typed (h0 : bytes) (d0 : Z) (s : option bytes * option Z) : Prop :=
  ∃ h d, s = (Some h, Some d) ∧ (h = h0 ∨ zlen h = SHA1_DIGEST_LENGTH ∧ is_bytes h) ∧ (d = d0 ∨ is_u32 d).

(** The connection after [DTPParseOption]: only the window scale and the port of the peer may
    differ, and a new value has its type. *)
Definition connection_typed (x x' : dtp_context) : Prop := ∃ ws port,
  x' = x <| tc_sendWindowScale := ws |> <| tc_peerAddr := set_sin_port (tc_peerAddr x) port |> ∧
  (ws = tc_sendWindowScale x ∨ 0 ≤ ws ≤ DTP_MAX_WINSCALE_SHIFT) ∧ (port = sin_port (tc_peerAddr x) ∨ is_u16 port).

Lemma connection_typed_refl x : connection_typed x x.
Proof. exists (tc_sendWindowScale x), (sin_port (tc_peerAddr x)). split; [|by split; left]. destruct x as []. cbn. by destruct tc_peerAddr. Qed.

Section typed.
Context (buf : bytes) (Hb : is_bytes buf) (Hl : RCV_ROOM ≤ zlen buf).

Lemma get_case_typed h0 d0 opcode opsize ptr s : options_typed h0 d0 s → DTPHDRSIZE ≤ ptr → ptr + 20 ≤ zlen buf →
  match get_option_case buf opcode opsize ptr s with Ok s' => options_typed h0 d0 s' | Err _ => False end.
Proof using Hb.
  intros (h & d & -> & Hh & Hd) Hp Hr. assert (Hs : options_typed h0 d0 (Some h, Some d)) by (by exists h, d).
  unfold get_option_case, DTPHDRSIZE in *.
  destruct (opcode =? DTPOPT_HOST_ID); [destruct (opsize =? DTPOLEN_HOST_ID); [|done]|
    destruct (opcode =? DTPOPT_DEADLINE); [destruct (opsize =? DTPOLEN_DEADLINE); [|done]|done]];
    rewrite (proj2 (in_block_spec _ _ _)) by (unfold SHA1_DIGEST_LENGTH; lia).
  - eexists _, d. split; [reflexivity|]. split; [|done]. right.
    split; [apply zlen_slice; unfold SHA1_DIGEST_LENGTH; lia|by apply is_bytes_slice].
  - eexists h, _. split; [reflexivity|]. split; [done|]. right.
    pose proof (of_le_range _ (is_bytes_slice ptr 4 buf Hb)) as H. by rewrite zlen_slice in H by lia.
Qed.

Lemma parse_case_typed x opcode opsize ptr y : connection_typed x y → DTPHDRSIZE ≤ ptr → ptr + 20 ≤ zlen buf →
  match parse_option_case buf opcode opsize ptr y with Ok y' => connection_typed x y' | Err _ => False end.
Proof using Hb.
  intros (ws & port & -> & Hw & Hp) Hptr Hr. set (y := set tc_peerAddr _ _).
  assert (Hy : connection_typed x y) by (by exists ws, port).
  unfold parse_option_case, DTPHDRSIZE in *.
  destruct (opcode =? DTPOPT_WIN_SCALE); [destruct (opsize =? DTPOLEN_WIN_SCALE); [|done]|
    destruct (opcode =? DTPOPT_PORT); [destruct (opsize =? DTPOLEN_PORT); [|done]|done]].
  - unfold read8. rewrite (proj2 (in_block_spec _ _ _)) by lia. cbn [mbind res_bind].
    destruct (Z.leb_spec (zget buf ptr) DTP_MAX_WINSCALE_SHIFT); [|done]. pose proof (is_bytes_get buf ptr Hb) as [? _].
    exists (zget buf ptr), port. split; [by destruct x|]. split; [right; lia|done].
  - rewrite (proj2 (in_block_spec _ _ _)) by lia. pose proof (of_le_range _ (is_bytes_slice ptr 2 buf Hb)) as H.
    rewrite zlen_slice in H by lia. eexists ws, _. split; [by destruct x|]. split; [done|by right].
Qed.

(** C21: for a receive buffer with any contents: the accessors return values of the width of
    their type; [DTPGetOption] and [DTPParseOption] commit no fault and store only values of
    the type of the field, in no other field; and they fail to return exactly when, stepping
    over padding and from option to option by their sizes, one comes to an option whose size
    byte is zero. *)
Theorem received_values_typed : fields_typed buf ∧
  (∀ h0 d0, match DTPGetOption buf (Some h0) (Some d0) with
            | Ok r => ¬ zero_option buf ∧ r.1 = true ∧ options_typed h0 d0 r.2
            | Err f => f = Spin ∧ zero_option buf
            end) ∧
  (∀ w c x, ctx_at w c = Some x →
     match DTPParseOption buf c w with
     | Ok (_, w') => ¬ zero_option buf ∧ ∃ x', w' = w <| w_ctxs ::= <[c := x']> |> ∧ connection_typed x x'
     | Err f => f = Spin ∧ zero_option buf
     end).
Proof using Hb Hl.
  pose proof (header_typed buf Hb) as Hf. split; [done|]. destruct Hf as [_ _ _ _ [Hh0 Hh]].
  assert (He : DTPHDRSIZE + options_len buf ≤ MAX_HDRSIZE) by (unfold options_len; lia).
  assert (Hfu : (Z.to_nat (options_len buf) < options_fuel buf)%nat) by (unfold options_fuel; lia).
  assert (Hz : zero_option buf = finds_zero buf (DTPHDRSIZE + options_len buf) DTPHDRSIZE)
    by (unfold zero_option, options_len; f_equal; lia). rewrite Hz.
  split.
  - intros h0 d0. pose proof (opt_loop_safe (options_typed h0 d0) (get_option_case buf) buf Hb Hl (get_case_typed h0 d0)
      (options_fuel buf) DTPHDRSIZE (options_len buf) (Some h0, Some d0) ltac:(exists h0, d0; auto) ltac:(lia) He) as H.
    unfold DTPGetOption. destruct (opt_loop _ _ _ _ _ _) as [s|f]; cbn [mbind res_bind]; [|destruct H; auto].
    destruct H as [(h & d & -> & H) Hn]. split; [done|]. split; [done|by exists h, d].
  - intros w c x Hx. pose proof (opt_loop_safe (connection_typed x) (parse_option_case buf) buf Hb Hl (parse_case_typed x)
      (options_fuel buf) DTPHDRSIZE (options_len buf) x (connection_typed_refl x) ltac:(lia) He) as H.
    unfold DTPParseOption, getctx, putctx, lift_res, mbind, M_bind. rewrite Hx.
    destruct (opt_loop _ _ _ _ _ _) as [x'|f]; [|destruct H; auto]. rewrite Hx. destruct H as [H Hn]. split; [done|by exists x'].
Qed.
End typed.

(** A SYN with an option of size 0 behind a window scale, in a receive buffer. *)
Definition odd_packet : bytes := zsplice 12 [8] (zsplice 20 [3; 3; 7; 9; 0] (zeros 1500)).

Example received_values_typed_witness : fields_typed odd_packet ∧
  match DTPGetOption odd_packet (Some []) (Some 0) with
  | Ok r => ¬ zero_option odd_packet ∧ r.1 = true ∧ options_typed [] 0 r.2
  | Err f => f = Spin ∧ zero_option odd_packet
  end.
Proof.
  assert (Hb : is_bytes odd_packet) by (apply (bool_decide_unpack _); vm_compute; exact I).
  assert (Hl : RCV_ROOM ≤ zlen odd_packet) by (vm_compute; discriminate).
  destruct (received_values_typed odd_packet Hb Hl) as (H1 & H2 & _). split; [exact H1|exact (H2 [] 0)].
Defined.
