(* ===== verification/Timeout.v ===== *)
(** * Timers (dtp_transport.c)

    [HandleTimeout] runs every 0.1 s over the connections of the retransmission
    queue: TIME_WAIT and LAST_ACK expiry, keep-alive, the choice of the interface,
    the persist timer and retransmission.  The walk over the queue ends when it takes
    the connection it is at off the queue ([still_queued]). *)

From S2P Require Import Prelude Double Header Context World ContextTable Pools RetransQueue.
From S2P Require Import Select Congestion Lifecycle Send Ack.

Section env.
Context {env : Env}.

(** The caller holds [g_timerLock]: the queue is accessed directly. *)
Definition retq_unlink (ctx : Z) : M unit :=
  l ← gets w_retTimerQ;
  l' ← tailq_remove ctx l;
  modify (λ w, w <| w_retTimerQ := l' |>).

(** Whether [TAILQ_FOREACH] goes on behind [ctx].  It follows the link of the element it has
    visited, which [TAILQ_REMOVE] sets to NULL: a body that takes its element off the queue
    ends the loop. *)
Definition still_queued (ctx : Z) : M bool := gets (λ w, bool_decide (ctx ∈ w_retTimerQ w)).

(** [TAILQ_FOREACH(ctx, GetRetransQueue(), tc_link)] for a body that changes the queue at most
    by taking [ctx] off; [l] is the queue when the loop starts. *)
Fixpoint queue_each (l : list Z) (f : Z → M unit) : M unit :=
  match l with
  | [] => mret tt
  | ctx :: l =>
    f ctx;;
    next ← still_queued ctx;
    if (next : bool) then queue_each l f else mret tt
  end.

Lemma wp_still_queued {B} (k : bool → M B) ctx (Q : B → world → Prop) w :
  ctx ∈ w_retTimerQ w → wp (k true) Q w → wp (next ← still_queued ctx; k next) Q w.
Proof using. intros Hin HQ. apply wp_bind, wp_gets. by rewrite bool_decide_eq_true_2. Qed.

Lemma wp_unqueued {B} (k : bool → M B) ctx (Q : B → world → Prop) w :
  ctx ∉ w_retTimerQ w → wp (k false) Q w → wp (next ← still_queued ctx; k next) Q w.
Proof using. intros Hin HQ. apply wp_bind, wp_gets. by rewrite bool_decide_eq_false_2. Qed.

Definition DTPCloseConnection (ctx : Z) : M unit :=
  ctx ->> tc_connTimedOut := true;;
  x ← getctx ctx;
  DTPSelectEventSet (tc_sock x) DTP_FD_READ;;
  DTPSelectEventSet (tc_sock x) DTP_FD_WRITE;;
  ctx ->> tc_state := SOCK_CLOSED;;
  DTPReadBufWakeup ctx;;
  DTPWriteBufWakeup ctx;;
  retq_unlink ctx.

(** [while ((pctx = TAILQ_FIRST(...)) != NULL)] over the queue. *)
Fixpoint delayed_acks (l : list Z) : M unit :=
  match l with
  | [] => mret tt
  | pctx :: l =>
    DTPSendACKPacket pctx;;
    pctx ->> tc_numPacketRcvd := 0;;
    modify (λ w, w <| w_delayedAckQ := l |>);;
    delayed_acks l
  end.

Definition HandleDelayedAckTimeout : M unit := l ← gets w_delayedAckQ; delayed_acks l.

(** ** One connection *)

(** Keep-alive; [false] when the connection was closed. *)
Definition keep_alive (now : double) (ctx : Z) : M bool :=
  x ← getctx ctx;
  if tc_isKeepAliveEnabled x && negb (tc_isDeadlineSet x && (0 <? tc_deadline x)) then
    let diff := d_since now (tc_keepAliveStart x) in
    if d_lt (d_of_Z (tc_keepAliveTime x + tc_sentProbes x * tc_keepAliveIntvl x)) diff then
      if tc_sentProbes x <? tc_keepAliveProbes x then
        DTPSendProbePacket ctx;;
        modctx ctx (λ x, x <| tc_sentProbes := tc_sentProbes x + 1 |>);;
        mret true
      else (DTPCloseConnection ctx;; mret false)
    else mret true
  else mret true.

(** DTP_SO_RCVLOBUF: [true] asks [dtp_setiface] for the mobile interface. *)
Definition choose_interface (ctx : Z) : M unit :=
  x ← getctx ctx;
  mwhen (is_state (tc_state x) SOCK_ESTABLISHED && (0 <? tc_rcvLoBufHB x))
    (if negb (tc_limitRcvBuf x) then
       mwhen (negb (tc_wifiAvailable x) || (u32 (GetReadBufDataSize x) <? tc_rcvLoBufLB x))
         (ok ← gets (λ w, env_setiface w true);
          mwhen ok (ctx ->> tc_limitRcvBuf := true;; DTPReconnect ctx))
     else
       mwhen (tc_wifiAvailable x && (tc_rcvLoBufHB x <? u32 (GetReadBufDataSize x)))
         (ok ← gets (λ w, env_setiface w false);
          mwhen ok (ctx ->> tc_limitRcvBuf := false;; DTPReconnect ctx))).

Definition persist (now : double) (ctx : Z) : M unit :=
  x ← getctx ctx;
  mwhen (tc_isHerWindowZero x && d_lt (d_of_Z (tc_persistIntvl x)) (d_since now (tc_persistTimer x)))
    (DTPSendProbePacket ctx;;
     tv ← gettimeofday;
     modctx ctx (λ x, x <| tc_persistTimer := tv |>
                        <| tc_persistIntvl := c__min (2 * tc_persistIntvl x) DTP_PERSIST_MAX |>)).

(** ** The packets of a connection *)

Definition discard_packet (ctx : Z) (pdone : option ptr) : M unit :=
  match pdone with
  | None => mret tt
  | Some q =>
    packetQ_remove ctx q;;
    p ← getpkt q;
    modctx ctx (λ x, x <| tc_segSent := tc_segSent x - (tp_len p - tp_headerLen p) |>);;
    AddToFreePacketList q
  end.

(** The timeout of a packet on a connected network: back off and start over. *)
Definition back_off (ctx : Z) (packet : ptr) : M unit :=
  modpkt packet (set tp_isRetrans (λ _, true));;
  modctx ctx (λ x, x <| tc_RTO := d__min (d_mul (d_of_Z 2) (tc_RTO x)) RTO_MAX |>);;
  tv ← gettimeofday;
  modpkt packet (set tp_time (λ _, tv));;
  p ← getpkt packet;
  modctx ctx (λ x,
    let x := x <| tc_isCongested := true |> <| tc_lastByteSent := pkt_end p |> in
    let x := if tc_isFINSent x && negb (IsFINPacket (tp_header p))
             then x <| tc_lastByteWritten := tc_lastByteWritten x -u 1 |> <| tc_isFINSent := false |>
             else x in
    TimeoutSlowStart x).

Definition retransmits (s : sock_state) : bool :=
  match s with
  | SOCK_SYN_SENT | SOCK_ESTABLISHED | SOCK_CLOSE_WAIT | SOCK_FIN_WAIT_1 | SOCK_LAST_ACK => true
  | _ => false
  end.

(** [TAILQ_FOREACH(packet, ...)]: the result is [pdone] and whether the
    connection is to be closed. *)
Fixpoint packet_loop (now : double) (ctx : Z) (l : list ptr) (pdone : option ptr)
  : M (option ptr * bool) :=
  match l with
  | [] => mret (pdone, false)
  | packet :: l =>
    discard_packet ctx pdone;;
    p ← getpkt packet;
    y ← getctx (tp_ctx p);
    if tc_isCongested y && negb (tp_isRetrans p) then packet_loop now ctx l (Some packet)
    else
      let diff := d_since now (tp_time p) in
      x ← getctx ctx;
      if is_state (tc_state x) SOCK_LAST_ACK && d_lt (d_of_Z LAST_TIMEOUT) diff then
        mret (Some packet, true)
      else if d_lt diff (tc_RTO x) then mret (None, false)
      else
        (if tc_isNetConnected x then back_off ctx packet
         else modctx ctx (λ x, x <| tc_RTO := d_add (tc_RTO x) (d_of_Z 1) |>));;
        mwhen (retransmits (tc_state x)) (DTPRetransmit (tc_sock x) packet);;
        packet_loop now ctx l None
  end.

(** One iteration of the outer loop; [true]: close the connection. *)
Definition timeout_ctx (now : double) (ctx : Z) : M bool :=
  x ← getctx ctx;
  if is_state (tc_state x) SOCK_TIME_WAIT then
    mret (d_lt (d_of_Z LAST_TIMEOUT) (d_since now (tc_waitTime x)))
  else
    alive ← keep_alive now ctx;
    if negb alive then mret false
    else
      choose_interface ctx;;
      persist now ctx;;
      x ← getctx ctx;
      match tc_packetQ x with
      | [] => mret false
      | l =>
        '(pdone, close) ← packet_loop now ctx l None;
        discard_packet ctx pdone;;
        mret close
      end.

(** The [if (pctx)] block. *)
Definition expire (pctx : option Z) : M unit :=
  match pctx with
  | None => mret tt
  | Some c =>
    retq_unlink c;;
    c ->> tc_state := SOCK_CLOSED;;
    DTPCloseContext c
  end.

(** [TAILQ_FOREACH] over the retransmission queue: a connection whose time is over is closed
    when the next one is visited.  One whose keep-alive failed is taken off the queue at once,
    which ends the loop. *)
Fixpoint timeout_loop (now : double) (l : list Z) (pctx : option Z) : M (option Z) :=
  match l with
  | [] => mret pctx
  | ctx :: l =>
    expire pctx;;
    close ← timeout_ctx now ctx;
    let pctx := if (close : bool) then Some ctx else None in
    next ← still_queued ctx;
    if (next : bool) then timeout_loop now l pctx else mret pctx
  end.

Definition HandleTimeout : M unit :=
  tv ← gettimeofday;
  let now := d_of_tv tv in
  timer_lock;;
  l ← gets w_retTimerQ;
  pctx ← timeout_loop now l None;
  expire pctx;;
  timer_unlock.
End env.
