(* ===== verification/Recovery.v ===== *)
(** * Recovery from loss (dtp_transport.c)

    [HandleTimeout] on a connection whose send side satisfies [snd_live]: when the
    timer of the first packet has expired the sender goes back to it.  The packet
    is sent again, the packets behind it are dropped, and the positions they
    carried count as not sent; otherwise nothing is sent but a probe. *)

From S2P Require Import Prelude Double Header Context World ContextTable Pools RetransQueue.
From S2P Require Import Select Congestion Lifecycle Send Scenario Services Intervals Reassembly.
From S2P Require Import Receiver Transmit Ack Acknowledge Challenge Teardown Migration Closing.
From S2P Require Import Timeout.

(** A probe of the persist timer: an empty packet that asks for an answer. *)
Record is_probe (x : dtp_context) (d : datagram) : Prop := {
  pr_len : zlen (dg_data d) = DTPHDRSIZE;
  pr_hlen : GetHeaderLen (dg_data d) = DTPHDRSIZE;
  pr_plain : IsACKPacket (dg_data d) = false;
  pr_dest : dg_addr d = tc_peerAddr x ∧ dg_sock d = tc_sock x }.

(** The connections the timer leaves alone: no keep-alive, no buffer limits, no FIN
    sent. *)
Record plain_timers (x : dtp_context) : Prop := {
  pt_keep : tc_isKeepAliveEnabled x = false;
  pt_lobuf : tc_rcvLoBufHB x = 0;
  pt_fin : tc_isFINSent x = false }.

(** ** Dropping the packets behind the first *)

Section drop.
Context {env : Env}.

Lemma list_remove_second (p q : Z) l : p ≠ q → list_remove q (p :: q :: l) = Some (p :: l).
Proof using. intros Hp. simpl. rewrite decide_False by congruence. by rewrite decide_True. Qed.

Lemma discard_packet_spec w c x p q l k a n (Q : unit → world → Prop) :
  ctx_at w c = Some x → tc_packetQ x = p :: q :: l → p ≠ q → w_pkts w !! q = Some k → data_pkt c k a n →
  pkt_pool_ok w → q ∉ w_freePacketList w →
  (∀ w', ctx_at w' c = Some (x <| tc_segSent := tc_segSent x - n |> <| tc_packetQ := p :: l |>) →
     w_pkts w' = w_pkts w → w_freePacketList w' = q :: w_freePacketList w → pkt_pool_ok w' →
     tx_frame c w w' → w_sent w' = w_sent w → Q tt w') →
  wp (discard_packet c (Some q)) Q w.
Proof using.
  intros Hx Hq Hpq Hk Hd Hpo Hf HQ. unfold discard_packet. apply wp_bind, wp_bind. eapply wp_getctx; [done|].
  apply wp_bind. eapply wp_tailq_remove; [rewrite Hq; by apply list_remove_second|].
  eapply wp_modctx; [done|]. apply wp_bind. eapply wp_getpkt; [done|].
  apply wp_bind. eapply wp_modctx; [by eapply ctx_at_put|]. set (w1 := set w_ctxs _ _).
  assert (L : local_to c q w w1) by (etrans; apply local_ctx).
  destruct (local_same _ _ _ _ L) as [F1 S1].
  assert (Hpo1 : pkt_pool_ok w1) by (eapply pool_local; [exact L|exact Hk|exact Hk|by eapply (pp_hdr _ Hpo)|done]).
  eapply wp_mono; [apply AddToFreePacketList_spec; [done|by exists k|by rewrite F1]|].
  intros [] w2 (Hpo2 & F2 & P2 & Hf2). apply HQ; [|done|by rewrite F2, F1|done| |].
  - destruct Hf2 as [-> _ _]. destruct Hd as [_ _ Hlen _ _ _ _ _].
    replace n with (tp_len k - tp_headerLen k) by lia.
    assert (E : ctx_at w1 c = Some (x <| tc_segSent := tc_segSent x - (tp_len k - tp_headerLen k) |>
                                      <| tc_packetQ := p :: l |>)); [|exact E].
    unfold w1. erewrite ctx_at_put by (by eapply ctx_at_put). by destruct x.
  - etrans; [by eapply tx_local|by apply tx_pool].
  - destruct Hf2 as [-> _ _]. exact S1.
Qed.

(** The packet waits to be dropped: it was not sent again. *)
Definition droppable (w : world) (c : Z) (q : ptr) : Prop :=
  ∃ k a n, w_pkts w !! q = Some k ∧ data_pkt c k a n ∧ tp_isRetrans k = false.

Lemma discard_pending_spec w c x p pd l a b (Q : unit → world → Prop) :
  ctx_at w c = Some x → tc_packetQ x = p :: option_list pd ++ l → chain (w_pkts w) c (option_list pd ++ l) a b →
  queue_ok w (tc_packetQ x) →
  (∀ w' a', ctx_at w' c = Some (x <| tc_segSent := tc_segSent x - (a' - a) |> <| tc_packetQ := p :: l |>) →
     chain (w_pkts w) c l a' b → w_pkts w' = w_pkts w → queue_ok w' (p :: l) → tx_frame c w w' → w_sent w' = w_sent w → Q tt w') →
  wp (discard_packet c pd) Q w.
Proof using.
  intros Hx Hq Hdr [Hnd Hfr Hpo] HQ. rewrite Hq in *. destruct pd as [q|]; simpl in *.
  - destruct Hdr as (k & n & Hk & Hd & Hch).
    assert (Hpq : p ≠ q) by (apply NoDup_cons in Hnd as [Hp _]; set_solver).
    eapply discard_packet_spec; [done..|apply Hfr; set_solver|]. intros w' Hx' Hp' Hf' Hpo' Ht' Hs'.
    eapply (HQ w' (a + n)); [by rewrite Hx', Z.add_simpl_l|done|done| |done|done]. constructor; [| |done].
    + apply NoDup_cons in Hnd as [Hp Hnd]. apply NoDup_cons in Hnd as [? ?]. constructor; [set_solver|done].
    + intros r Hr. rewrite Hf'. intros [->|Hin]%elem_of_cons.
      * apply NoDup_cons in Hnd as [_ Hnd]. apply NoDup_cons in Hnd as [? _]. set_solver.
      * eapply Hfr; [|exact Hin]. set_solver.
  - apply wp_ret. eapply (HQ w a); [|done|done|done|reflexivity|done]. rewrite Hx, Z.sub_diag, Z.sub_0_r. f_equal.
    destruct x. cbn in *. by subst.
Qed.

Lemma discard_loop_spec now c p l b : ∀ w x pd a,
  ctx_at w c = Some x → tc_isCongested x = true → tc_packetQ x = p :: option_list pd ++ l →
  Forall (droppable w c) (option_list pd ++ l) → chain (w_pkts w) c (option_list pd ++ l) a b → queue_ok w (tc_packetQ x) →
  wp (packet_loop now c l pd) (λ r, wp (discard_packet c r.1) (λ _ w', r.2 = false ∧
    ctx_at w' c = Some (x <| tc_segSent := tc_segSent x - (b - a) |> <| tc_packetQ := [p] |>) ∧ w_pkts w' = w_pkts w ∧
      queue_ok w' [p] ∧ tx_frame c w w' ∧ w_sent w' = w_sent w)) w.
Proof using.
  induction l as [|q l IH]; intros w x pd a0 Hx Hcg Hq Hdr Hch Hqu; simpl.
  - apply wp_ret. cbn [fst snd].
    eapply discard_pending_spec; [done..|]. intros w' a' Hx' Hch' Hp' Hqu' Ht' Hs'. simpl in Hch'. subst a'. by split.
  - apply Forall_app in Hdr as [Hd1 Hd2]. pose proof Hd2 as Hd3.
    apply Forall_cons in Hd2 as [(k & a & n & Hk & Hd & Hfresh) Hd2].
    apply wp_bind. eapply discard_pending_spec; [done..|]. intros w1 a1 Hx1 Hch1 Hp1 Hqu1 Ht1 Hs1.
    apply wp_bind. eapply wp_getpkt; [by rewrite Hp1|].
    apply wp_bind. rewrite (dp_ctx _ _ _ _ Hd). eapply wp_getctx; [done|].
    rewrite Hfresh. replace (tc_isCongested _) with true by (symmetry; exact Hcg). cbn [negb andb].
    eapply wp_mono; [eapply (IH w1 _ (Some q) a1 Hx1 Hcg eq_refl)|].
    + eapply Forall_impl; [exact Hd3|]. intros r. unfold droppable. by rewrite Hp1.
    + by rewrite Hp1.
    + done.
    + intros r w2 Hr. eapply wp_mono; [exact Hr|]. intros _ w3 (E & Hx3 & Hp3 & Hqu3 & Ht3 & Hs3).
      split; [done|]. split_and!; [|congruence|done|by etrans|congruence]. rewrite Hx3. cbn.
      replace (tc_segSent x - (a1 - a0) - (b - a1)) with (tc_segSent x - (b - a0)) by lia. by destruct x.
Qed.
End drop.

(** ** The timers of a connection *)

Section timers.
Context {env : Env} {up : NetUp env}.

Lemma probe_is_probe x :
  is_u32 (tc_lastByteSent x) → is_u32 (tc_flowID x) →
  is_probe x (mk_datagram (tc_sock x) (tc_peerAddr x) (control_header x (zeros DTPHDRSIZE) 0)).
Proof using.
  intros Hs Hf. destruct (control_header_read x 0 Hs Hf) as [Hl Eh].
  constructor; [done|exact (f_equal hf_hlen Eh)|exact (f_equal hf_ack Eh)|done].
Qed.

(** Nothing but the persist timer of the context and input and output change. *)
Definition persisted (x x' : dtp_context) : Prop :=
  x' = x <| tc_persistTimer := tc_persistTimer x' |> <| tc_persistIntvl := tc_persistIntvl x' |>.

Lemma persisted_mild x x' : persisted x x' → mild x x'.
Proof using. intros ->. constructor; try done. by intros []. Qed.

Lemma persist_step now w c x S (Q : unit → world → Prop) :
  snd_live w c x S →
  (∀ w' x' ds, snd_live w' c x' S → persisted x x' → w_pkts w' = w_pkts w → tx_frame c w w' →
     w_sent w' = w_sent w ++ ds → Forall (is_probe x) ds → Q tt w') →
  wp (persist now c) Q w.
Proof using up.
  intros Hl HQ. pose proof Hl as [[Hx [_ ? ? ? ?] _ _ _ _ [_ Hf] _] _ _ _].
  unfold persist. apply wp_bind. eapply wp_getctx; [done|].
  apply wp_when; intros _; [|apply (HQ w x []); [done|by destruct x|done|reflexivity|by rewrite app_nil_r|done]].
  apply wp_bind, wp_bind. eapply io_send_header; [done|done|]. intros w1 Hio1 Hs1. apply wp_ret.
  apply wp_bind, io_gettimeofday. intros w2 Hio2 Hs2. assert (Hio : io_frame w w2) by (by etrans).
  assert (Hl2 : snd_live w2 c x S).
  { destruct Hl as [[? ? ? ? ? ? ? ?] ? ? ?]. destruct Hio as [->]. constructor; try done. constructor; try done.
    by destruct sn_pool; constructor. }
  eapply wp_modctx; [apply Hl2|]. set (x' := set tc_persistIntvl _ _).
  eapply (HQ _ x'); [apply (mild_live _ _ _ _ _ Hl2), persisted_mild; by destruct x|by destruct x| | |cbn; by rewrite Hs2, Hs1|].
  - cbn. by destruct Hio as [->].
  - etrans; [by apply tx_io|]. apply (tx_local _ 0), local_ctx.
  - apply Forall_singleton, probe_is_probe; [unfold is_u32; lia|done].
Qed.

(** The context after the timer of its first packet expired, the packet having
    [n] bytes. *)
Definition backed_off (x : dtp_context) (n : Z) : dtp_context :=
  TimeoutSlowStart (x <| tc_RTO := d__min (d_mul (d_of_Z 2) (tc_RTO x)) RTO_MAX |> <| tc_isCongested := true |>
                      <| tc_lastByteSent := tc_lastByteAcked x + n |>).

Lemma back_off_spec w c x p k n (Q : unit → world → Prop) :
  ctx_at w c = Some x → w_pkts w !! p = Some k → data_pkt c k (tc_lastByteAcked x) n → tc_isFINSent x = false →
  0 ≤ tc_lastByteAcked x → tc_lastByteAcked x + n < 2 ^ 32 →
  (∀ w' k', ctx_at w' c = Some (backed_off x n) → w_pkts w' = <[p := k']> (w_pkts w) →
     data_pkt c k' (tc_lastByteAcked x) n → tp_isRetrans k' = true → tp_header k' = tp_header k →
     local_to c p w w' → Q tt w') →
  wp (back_off c p) Q w.
Proof using.
  intros Hx Hk Hd Hfin Ha Hn HQ. pose proof Hd as [_ Hsq Hlen Hpos _ _ _ _]. unfold back_off.
  apply wp_bind. eapply wp_modpkt; [done|]. apply wp_bind. eapply wp_modctx; [exact Hx|].
  apply wp_bind. unfold wp at 1, gettimeofday. cbv beta iota.
  apply wp_bind. eapply wp_modpkt; [cbn; apply lookup_insert_eq|].
  apply wp_bind. eapply wp_getpkt; [cbn; apply lookup_insert_eq|].
  set (k' := set tp_time _ _). assert (He : pkt_end k' = tc_lastByteAcked x + n).
  { unfold pkt_end, k'. cbn. rewrite Hsq, Hlen. rewrite u32_small; unfold is_u32; lia. }
  eapply wp_modctx; [by eapply ctx_at_put|]. eapply (HQ _ k').
  - rewrite He. erewrite ctx_at_put by (by eapply ctx_at_put). cbn. rewrite Hfin. done.
  - cbn. by rewrite insert_insert_eq.
  - by destruct Hd.
  - done.
  - done.
  - etrans; [apply local_pkt|]. etrans; [apply local_ctx|]. etrans; [|apply local_ctx].
    constructor; [by destruct w|done|]. intros q Hq. cbn. by rewrite lookup_insert_ne.
Qed.

Lemma backed_off_conn x n : same_conn x (backed_off x n).
Proof using. unfold backed_off, TimeoutSlowStart. case_match; done. Qed.

Lemma backed_off_fields x n :
  tc_isCongested (backed_off x n) = true ∧ tc_packetQ (backed_off x n) = tc_packetQ x ∧
  tc_lastByteAcked (backed_off x n) = tc_lastByteAcked x ∧
  tc_lastByteSent (backed_off x n) = tc_lastByteAcked x + n ∧
  tc_writeBuf (backed_off x n) = tc_writeBuf x ∧ tc_rcvWindow (backed_off x n) = tc_rcvWindow x ∧
  tc_isHerWindowZero (backed_off x n) = tc_isHerWindowZero x ∧ tc_cwnd (backed_off x n) = MAX_PAYLOAD ∧
  tc_RTO (backed_off x n) = d__min (d_mul (d_of_Z 2) (tc_RTO x)) RTO_MAX ∧
  tc_segSent (backed_off x n) = tc_segSent x ∧ tc_sendWindowScale (backed_off x n) = tc_sendWindowScale x.
Proof using. unfold backed_off, TimeoutSlowStart. case_match; done. Qed.

Lemma backed_off_wr x S n :
  wr_ok x S → 0 < n → tc_lastByteAcked x + n ≤ tc_lastByteWritten x → wr_ok (backed_off x n) S.
Proof using.
  intros [H1 H2 H3 H4 H5] Hn Hw. pose proof (backed_off_conn x n) as (_ & _ & _ & _ & E5 & _ & _ & E8 & _).
  destruct (backed_off_fields x n) as (_ & _ & Ea & Es & Ew & _).
  constructor; rewrite ?Ea, ?Es, ?Ew, ?E5, ?E8; [done|lia|lia|lia|lia].
Qed.

Lemma backed_off_cc x n : cc_ok x → cc_ok (backed_off x n).
Proof using. intros Hcc. apply loss_spec. by destruct Hcc. Qed.

(** The first packet is sent again and the ones behind it are dropped. *)
Lemma resend_and_drop now w c x S p l k n b :
  ctx_at w c = Some x → wr_ok x S → sending x → cc_ok x → 0 ≤ tc_sock x < FD_SETSIZE_S →
  tc_isNetConnected x = true → tc_isCongested x = true → tc_packetQ x = p :: l → queue_ok w (p :: l) →
  w_pkts w !! p = Some k → data_pkt c k (tc_lastByteAcked x) n → tc_lastByteSent x = tc_lastByteAcked x + n →
  Forall (droppable w c) l → chain (w_pkts w) c l (tc_lastByteAcked x + n) b → is_u32 (tc_nextByteExpected x) ∧ is_u32 (tc_flowID x) →
  wp (DTPRetransmit (tc_sock x) p) (λ _, wp (packet_loop now c l None) (λ r, wp (discard_packet c r.1) (λ _ w',
    r.2 = false ∧ ∃ d, snd_live w' c (x <| tc_segSent := tc_segSent x - (b - (tc_lastByteAcked x + n)) |> <| tc_packetQ := [p] |>) S ∧
      w_sent w' = w_sent w ++ [d] ∧ is_segment S x d (tc_lastByteAcked x) n ∧ tx_frame c w w'))) w.
Proof using up.
  intros Hx Hwr Hsd Hcc Hso Hnc Hcg Hq [Hnd Hfr Hpo] Hk Hd Hse Hdr Hch Hhd.
  apply NoDup_cons in Hnd as [Hpl Hnd]. pose proof (pp_hdr _ Hpo _ _ Hk) as Hz. pose proof Hwr as [_ ? ? ? ?].
  eapply retransmit_packet; [done..|lia|done|].
  intros w2 d Hio Hs2 Hseg. set (k2 := set tp_isRetrans _ k). set (w3 := set w_pkts _ w2).
  assert (Hp3 : w_pkts w3 = <[p := k2]> (w_pkts w)) by (cbn; by destruct Hio as [->]).
  assert (F3 : w_freePacketList w3 = w_freePacketList w) by (cbn; by destruct Hio as [->]).
  assert (Hx3 : ctx_at w3 c = Some x) by (change (ctx_at w3 c) with (ctx_at w2 c); by rewrite (io_ctx _ _ c Hio)).
  assert (Hd2 : data_pkt c k2 (tc_lastByteAcked x) n) by (by destruct Hd).
  assert (Ht3 : tx_frame c w w3) by (etrans; [by apply tx_io|]; apply (tx_local _ p), local_pkt).
  assert (Hpo3 : pkt_pool_ok w3).
  { eapply (pool_local c p w2 w3 k k2); [apply local_pkt|by destruct Hio as [->]|cbn; apply lookup_insert_eq|done|].
    destruct Hpo, Hio as [->]. by constructor. }
  eapply wp_mono; [eapply (discard_loop_spec now c p l b w3 x None); [done|done|done| |rewrite Hp3; eapply chain_ext; [|exact Hch]|]|].
  - simpl. rewrite Forall_forall in Hdr |- *. intros q Hin. destruct (Hdr q Hin) as (kq & aq & nq & Hkq & ? & ?). exists kq, aq, nq.
    rewrite Hp3, lookup_insert_ne by (intros ->; done). done.
  - intros q kq Hin Hkq. rewrite lookup_insert_ne; [done|]. by intros ->.
  - rewrite Hq. constructor; [by constructor|by rewrite F3|done].
  - intros r w4 Hr. eapply wp_mono; [exact Hr|]. intros _ w5 (E & Hx5 & Hp5 & [Hnd5 Hfr5 Hpo5] & Ht5 & Hs5).
    split; [done|]. exists d. split_and!; [|by rewrite Hs5|done|by etrans].
    constructor; [|by destruct Hsd|by destruct Hcc|done].
    constructor; [exact Hx5|by destruct Hwr| |done|done|done|done|].
    + cbn. exists k2, n. rewrite Hp5, Hp3, lookup_insert_eq. by split_and!.
    + cbn. split; [|done]. intros _. exists k2. by rewrite Hp5, Hp3, lookup_insert_eq.
Qed.

(** What the sender does when the timer of its first packet has expired. *)
Record went_back (S : stream) (c : Z) (w : world) (x : dtp_context) (w' : world) (x' : dtp_context)
    (p : ptr) (d : datagram) (n : Z) : Prop := {
  wb_live : snd_live w' c x' S;
  wb_conn : same_conn x x';
  wb_sent : w_sent w' = w_sent w ++ [d];
  wb_seg : is_segment S x d (tc_lastByteAcked x) n;
  wb_end : tc_lastByteAcked x + n ≤ tc_lastByteSent x;
  wb_frame : tx_frame c w w';
  wb_queue : tc_packetQ x' = [p];
  wb_pos : tc_lastByteAcked x' = tc_lastByteAcked x ∧ tc_lastByteSent x' = tc_lastByteAcked x + n;
  wb_moves : moves S x x' [d];
  wb_win : tc_isHerWindowZero x' = tc_isHerWindowZero x;
  wb_cwnd : tc_cwnd x' = MAX_PAYLOAD;
  wb_rto : tc_RTO x' = d__min (d_mul (d_of_Z 2) (tc_RTO x)) RTO_MAX }.

Lemma head_expired now w c x S p l k :
  snd_live w c x S → tc_isNetConnected x = true → tc_isFINSent x = false → tc_packetQ x = p :: l →
  w_pkts w !! p = Some k → d_lt (d_since now (tp_time k)) (tc_RTO x) = false →
  wp (packet_loop now c (p :: l) None) (λ r, wp (discard_packet c r.1) (λ _ w', r.2 = false ∧
    ∃ x' d n, went_back S c w x w' x' p d n)) w.
Proof using up.
  intros Hl Hnc Hfin Hq Hk Hexp. pose proof Hl as [[Hx Hwr Hch Hnd Hfr Hpo Hhd Hrt] [Hst Hop Hwi] Hcc Hso].
  rewrite Hq in *. destruct Hch as (k0 & n & Hk0 & Hd & Hch). assert (k0 = k) as -> by congruence.
  pose proof (chain_le _ _ _ _ _ Hch) as Hle. pose proof Hwr as [_ ? ? ? ?]. pose proof (dp_pos _ _ _ _ Hd) as Hn.
  destruct Hrt as [Hrt1 Hrt2]. apply NoDup_cons in Hnd as [Hpl Hnd].
  simpl. apply wp_bind, wp_ret. apply wp_bind. eapply wp_getpkt; [done|].
  apply wp_bind. rewrite (dp_ctx _ _ _ _ Hd). eapply wp_getctx; [done|].
  replace (tc_isCongested x && negb (tp_isRetrans k)) with false.
  2:{ destruct (tc_isCongested x); [|done]. destruct (Hrt1 eq_refl) as (k1 & Hk1 & Hr).
      rewrite Hk in Hk1. injection Hk1 as <-. by rewrite Hr. }
  apply wp_bind. eapply wp_getctx; [done|]. rewrite Hst. cbn [is_state andb]. rewrite Hexp, Hnc.
  apply wp_bind. eapply back_off_spec; [done|done|done|done|lia|lia|]. intros w1 k1 Hx1 Hp1 Hd1 Hr1 Hh1 L1.
  destruct (local_same _ _ _ _ L1) as [F1 S1]. pose proof (pp_hdr _ Hpo _ _ Hk) as Hz.
  assert (Hk1 : w_pkts w1 !! p = Some k1) by (rewrite Hp1; apply lookup_insert_eq).
  assert (Hpo1 : pkt_pool_ok w1) by (eapply pool_local; [exact L1|exact Hk|exact Hk1|by rewrite Hh1|done]).
  pose proof (backed_off_conn x n) as Hsc. pose proof (backed_off_cc x n Hcc) as Hcc1.
  assert (Hwr1 : wr_ok (backed_off x n) S) by (apply backed_off_wr; [done|done|lia]).
  destruct (backed_off_fields x n) as (Ec & Eq & Ea & Es & _ & Erw & Ehz & Ecw & Erto & Eg & Esc).
  revert Hx1 Hsc Hcc1 Hwr1 Ec Eq Ea Es Erw Ehz Ecw Erto Eg Esc. generalize (backed_off x n). intros x1.
  intros Hx1 Hsc Hcc1 Hwr1 Ec Eq Ea Es Erw Ehz Ecw Erto Eg Esc.
  pose proof Hsc as (E1 & E2 & E3 & E4 & _ & _ & E7 & E8 & E9 & E10 & _).
  apply wp_bind. cbn [retransmits]. unfold mwhen. rewrite <- E1.
  eapply wp_mono; [eapply (resend_and_drop now w1 c x1 S p l k1 n (tc_lastByteSent x)); try done|].
  - constructor; congruence.
  - by rewrite E1.
  - congruence.
  - congruence.
  - constructor; [by constructor|by rewrite F1|done].
  - by rewrite Ea.
  - by rewrite Es, Ea.
  - apply Forall_forall. intros q Hin. rewrite Forall_forall in Hrt2. destruct (Hrt2 q Hin) as (kq & Hkq & Hfq).
    destruct (chain_in _ _ _ _ _ _ Hch Hin) as (kq' & aq & nq & Hkq' & Hdq & _). rewrite Hkq in Hkq'. injection Hkq' as <-.
    exists kq, aq, nq. rewrite Hp1, lookup_insert_ne by (intros ->; done). done.
  - rewrite Ea, Hp1. eapply chain_ext; [|exact Hch]. intros q kq Hin Hkq. rewrite lookup_insert_ne; [done|]. by intros ->.
  - by rewrite E7, E10.
  - intros [] w2 H2. eapply wp_mono; [exact H2|]. intros r w3 H3. eapply wp_mono; [exact H3|].
    intros [] w4 (Hr & d & Hl4 & Hs4 & Hseg & Ht4). split; [done|]. eexists _, d, n.
    constructor; [exact Hl4|exact Hsc|by rewrite Hs4, S1| |lia|etrans; [by eapply tx_local|done]|done|done| |done|done|done].
    2: { constructor; cbn; [done|rewrite Ea, Es, Eg; lia|rewrite Ea, Es; intros q Hq'; left; lia]. }
    rewrite Ea in Hseg. destruct Hseg. constructor; try done. by rewrite <- E4, <- E1.
Qed.

Lemma head_waiting now w c x S p l k :
  snd_live w c x S → tc_packetQ x = p :: l → w_pkts w !! p = Some k →
  d_lt (d_since now (tp_time k)) (tc_RTO x) = true →
  wp (packet_loop now c (p :: l) None) (λ r w', r = (None, false) ∧ w' = w) w.
Proof using.
  intros [[Hx _ Hch _ _ _ _ Hrt] [Hst _ _] _ _] Hq Hk Hlt. rewrite Hq in *.
  destruct Hch as (k0 & n & Hk0 & Hd & _). assert (k0 = k) as -> by congruence. destruct Hrt as [Hrt _].
  simpl. apply wp_bind, wp_ret. apply wp_bind. eapply wp_getpkt; [done|].
  apply wp_bind. rewrite (dp_ctx _ _ _ _ Hd). eapply wp_getctx; [done|].
  replace (tc_isCongested x && negb (tp_isRetrans k)) with false.
  2:{ destruct (tc_isCongested x); [|done]. destruct (Hrt eq_refl) as (k1 & Hk1 & Hr).
      rewrite Hk in Hk1. injection Hk1 as <-. by rewrite Hr. }
  apply wp_bind. eapply wp_getctx; [done|]. rewrite Hst, Hlt. by apply wp_ret.
Qed.

(** What the packets of a connection call for. *)
Definition served (now : double) (S : stream) (c : Z) (w : world) (x : dtp_context) (w' : world) (x' : dtp_context)
    (ds : list datagram) : Prop :=
  match tc_packetQ x with
  | [] => w' = w ∧ x' = x ∧ ds = []
  | p :: _ => ∃ k, w_pkts w !! p = Some k ∧
      if d_lt (d_since now (tp_time k)) (tc_RTO x) then w' = w ∧ x' = x ∧ ds = []
      else ∃ d n, ds = [d] ∧ went_back S c w x w' x' p d n
  end.

Lemma timeout_ctx_spec now w c x S :
  snd_live w c x S → tc_isNetConnected x = true → plain_timers x →
  wp (timeout_ctx now c) (λ r w', r = false ∧ ∃ w1 x1 ds1 x' ds, snd_live w1 c x1 S ∧ persisted x x1 ∧
    w_pkts w1 = w_pkts w ∧ tx_frame c w w1 ∧ w_sent w1 = w_sent w ++ ds1 ∧ Forall (is_probe x) ds1 ∧
    served now S c w1 x1 w' x' ds) w.
Proof using up.
  intros Hl Hnc [Hka Hlo Hfin]. pose proof Hl as [[Hx _ _ _ _ _ _ _] [Hst _ _] _ _].
  unfold timeout_ctx. apply wp_bind. eapply wp_getctx; [done|]. rewrite Hst. cbn [is_state].
  apply wp_bind. unfold keep_alive. apply wp_bind. eapply wp_getctx; [done|]. rewrite Hka. cbn [andb]. apply wp_ret.
  cbn [negb]. apply wp_bind. unfold choose_interface. apply wp_bind. eapply wp_getctx; [done|].
  rewrite Hlo. change (0 <? 0) with false. rewrite andb_false_r. cbn [mwhen]. apply wp_ret.
  apply wp_bind. eapply persist_step; [done|]. intros w1 x1 ds1 Hl1 Hp1 Hpk1 Ht1 Hs1 Hpr1.
  apply wp_bind. eapply wp_getctx; [apply Hl1|].
  assert (E1 : tc_isNetConnected x1 = true ∧ tc_isFINSent x1 = false) by (by rewrite Hp1).
  destruct E1 as [Hnc1 Hfin1].
  destruct (tc_packetQ x1) as [|p l] eqn:Hq.
  - apply wp_ret. split; [done|]. exists w1, x1, ds1, x1, []. split_and!; try done. unfold served. by rewrite Hq.
  - pose proof (sn_chain _ _ _ _ (lv_snd _ _ _ _ Hl1)) as Hch. rewrite Hq in Hch.
    destruct Hch as (k & n & Hk & _). destruct (d_lt (d_since now (tp_time k)) (tc_RTO x1)) eqn:Hlt.
    + apply wp_bind. eapply wp_mono; [by eapply head_waiting|]. intros r w2 [-> ->].
      apply wp_bind, wp_ret, wp_ret. split; [done|]. exists w1, x1, ds1, x1, []. split_and!; try done.
      unfold served. rewrite Hq. exists k. by rewrite Hlt.
    + apply wp_bind. eapply wp_mono; [by eapply head_expired|]. intros [pd cl] w2 H2. apply wp_bind.
      eapply wp_mono; [exact H2|]. intros [] w3 (Hcl & x3 & d & m & H3). cbn [snd] in Hcl. subst cl.
      apply wp_ret. split; [done|]. exists w1, x1, ds1, x3, [d]. split_and!; try done.
      unfold served. rewrite Hq. exists k. rewrite Hlt. split; [done|]. by exists d, m.
Qed.

(** A change that leaves the connection, the packets and their pool alone. *)
Lemma snd_live_same w w' c x S :
  snd_live w c x S → ctx_at w' c = ctx_at w c → w_pkts w' = w_pkts w → w_freePacketList w' = w_freePacketList w →
  w_freePktCount w' = w_freePktCount w → w_brk w' = w_brk w → snd_live w' c x S.
Proof using.
  intros [[H1 H2 H3 H4 H5 [] H7 H8] Hs Hc Hso] E1 E2 E3 E4 E5. constructor; [|done..].
  constructor; [congruence|done|by rewrite E2|done|by rewrite E3| |done|by rewrite E2].
  constructor; rewrite ?E2, ?E3, ?E4, ?E5; done.
Qed.

(** The step of the timer: the send side stays consistent; what is sent is a
    segment of the stream or a probe. *)
Definition sent_by (S : stream) (x : dtp_context) (d : datagram) : Prop :=
  (∃ a n, is_segment S x d a n ∧ a + n ≤ tc_lastByteWritten x) ∨ is_probe x d.

Record timer_step (S : stream) (c : Z) (w : world) (x : dtp_context) (w' : world) (x' : dtp_context)
    (ds : list datagram) : Prop := {
  ts_live : snd_live w' c x' S;
  ts_conn : same_conn x x';
  ts_sent : w_sent w' = w_sent w ++ ds;
  ts_by : Forall (sent_by S x) ds;
  ts_frame : tx_frame c w w';
  ts_acked : tc_lastByteAcked x' = tc_lastByteAcked x;
  ts_moves : moves S x x' ds }.

(** Going back to the first packet: it is the last thing sent. *)
Record resent (S : stream) (x x' : dtp_context) (p : ptr) (ds : list datagram) (d : datagram) (n : Z) : Prop := {
  rs_last : ∃ ds1, ds = ds1 ++ [d] ∧ Forall (is_probe x) ds1;
  rs_seg : is_segment S x d (tc_lastByteAcked x) n;
  rs_queue : tc_packetQ x' = [p] ∧ tc_lastByteSent x' = tc_lastByteAcked x + n;
  rs_win : tc_isHerWindowZero x' = tc_isHerWindowZero x;
  rs_cwnd : tc_cwnd x' = MAX_PAYLOAD;
  rs_rto : tc_RTO x' = d__min (d_mul (d_of_Z 2) (tc_RTO x)) RTO_MAX }.

Lemma served_step now S c w x w1 x1 ds1 w2 x2 ds2 :
  persisted x x1 → snd_live w1 c x1 S → w_pkts w1 = w_pkts w → tx_frame c w w1 → w_sent w1 = w_sent w ++ ds1 →
  Forall (is_probe x) ds1 → served now S c w1 x1 w2 x2 ds2 →
  timer_step S c w x w2 x2 (ds1 ++ ds2) ∧
  (∀ p l k, tc_packetQ x = p :: l → w_pkts w !! p = Some k →
     if d_lt (d_since now (tp_time k)) (tc_RTO x) then x2 = x1 ∧ ds2 = []
     else ∃ d n, resent S x x2 p (ds1 ++ ds2) d n).
Proof using.
  intros Hp Hl1 Hpk Ht1 Hs1 Hpr Hse. pose proof (persisted_mild _ _ Hp) as [Hc1 (_ & Eq & Ea & Es & _) _ _].
  assert (Er : tc_RTO x1 = tc_RTO x) by (by rewrite Hp).
  assert (Hby : Forall (sent_by S x) ds1) by (eapply Forall_impl; [exact Hpr|]; intros d; by right).
  assert (Hid : w2 = w1 → x2 = x1 → ds2 = [] → timer_step S c w x w2 x2 (ds1 ++ ds2)).
  { intros -> -> ->. rewrite app_nil_r. constructor; try done. by apply moves_still; rewrite Hp. }
  unfold served in Hse. rewrite Eq in Hse. destruct (tc_packetQ x) as [|p l] eqn:Hq.
  { destruct Hse as (-> & -> & ->). split; [by apply Hid|]. intros ? ? ? [=]. }
  destruct Hse as (k & Hk & Hse). rewrite Hpk in Hk. rewrite Er in Hse.
  destruct (d_lt (d_since now (tp_time k)) (tc_RTO x)) eqn:Hlt.
  - destruct Hse as (-> & -> & ->). split; [by apply Hid|]. intros p' l' k' [= <- <-] Hk'.
    rewrite Hk in Hk'. injection Hk' as <-. by rewrite Hlt.
  - destruct Hse as (d & n & -> & [Hl2 Hc2 Hs2 Hseg Hend Ht2 Hq2 [Ha2 Hse2] Hmv Hwz Hcw Hrto]).
    pose proof Hc1 as (C1 & _ & _ & C4 & _ & _ & _ & C8 & _).
    assert (Hseg' : is_segment S x d (tc_lastByteAcked x) n).
    { rewrite Ea in Hseg. destruct Hseg. constructor; try done. by rewrite <- C4, <- C1. }
    assert (Hw : tc_lastByteSent x1 ≤ tc_lastByteWritten x).
    { rewrite <- C8. apply (sn_wr _ _ _ _ (lv_snd _ _ _ _ Hl1)). }
    split.
    + constructor; [done|by etrans|by rewrite Hs2, Hs1, app_assoc| |by etrans|congruence|].
      2: { eapply moves_trans; [exact Hc1|by apply moves_still; rewrite Hp|done]. }
      apply Forall_app. split; [done|]. apply Forall_singleton. left. exists (tc_lastByteAcked x), n.
      split; [done|lia].
    + intros p' l' k' [= <- <-] Hk'. rewrite Hk in Hk'. injection Hk' as <-. rewrite Hlt. exists d, n.
      constructor; [by exists ds1|done|split; [done|congruence]|by rewrite Hwz, Hp|done|by rewrite Hrto, Er].
Qed.

(** A connection the timer has nothing to do for. *)
Record at_rest (x : dtp_context) : Prop := {
  ar_state : tc_state x ≠ SOCK_TIME_WAIT; ar_keep : tc_isKeepAliveEnabled x = false; ar_lobuf : tc_rcvLoBufHB x = 0;
  ar_window : tc_isHerWindowZero x = false; ar_queue : tc_packetQ x = [] }.

(** The timer serves [c]; the other connections in its queue are at rest. *)
Definition others_rest (w : world) (c : Z) (l : list Z) : Prop := ∀ c', c' ∈ l → c' ≠ c ∧ ∃ y, ctx_at w c' = Some y ∧ at_rest y.
Definition timer_serves (w : world) (c : Z) : Prop :=
  w_timerLock w = false ∧ ∃ l1 l2, w_retTimerQ w = l1 ++ c :: l2 ∧ others_rest w c l1 ∧ others_rest w c l2.

Lemma others_rest_tx c w w' l : tx_frame c w w' → others_rest w c l → others_rest w' c l.
Proof using. intros F H c' Hc'. destruct (H c' Hc') as [Hne Hy]. split; [done|]. by rewrite (tx_other _ _ _ F). Qed.

Lemma timer_serves_tx c w w' : tx_frame c w w' → timer_serves w c → timer_serves w' c.
Proof using.
  intros F (Hlk & l1 & l2 & Hq & H1 & H2). pose proof (tx_rest _ _ _ F) as E.
  split; [by rewrite E|]. exists l1, l2. split_and!; [by rewrite E|by eapply others_rest_tx..].
Qed.

Lemma timeout_ctx_rest now w c y : ctx_at w c = Some y → at_rest y → timeout_ctx now c w = Ok (false, w).
Proof using.
  intros Hy [Hs Hk Hl Hw Hq].
  assert (H : wp (timeout_ctx now c) (λ r w', r = false ∧ w' = w) w).
  { unfold timeout_ctx. apply wp_bind. eapply wp_getctx; [exact Hy|]. unfold is_state at 1. rewrite bool_decide_eq_false_2 by done.
    apply wp_bind. unfold keep_alive. apply wp_bind. eapply wp_getctx; [exact Hy|]. rewrite Hk. apply wp_ret. cbn [negb].
    apply wp_bind. unfold choose_interface. apply wp_bind. eapply wp_getctx; [exact Hy|]. rewrite Hl, andb_false_r.
    apply wp_bind. unfold persist. apply wp_bind. eapply wp_getctx; [exact Hy|]. rewrite Hw.
    apply wp_bind. eapply wp_getctx; [exact Hy|]. rewrite Hq. by apply wp_ret. }
  by destruct (wp_run _ _ _ H) as (r & w' & E & -> & ->).
Qed.

(** The loop over connections with nothing to do does nothing. *)
Lemma timeout_loop_skip now l : ∀ w l' (Q : option Z → world → Prop),
  (∀ a, a ∈ l → timeout_ctx now a w = Ok (false, w) ∧ a ∈ w_retTimerQ w) →
  wp (timeout_loop now l' None) Q w → wp (timeout_loop now (l ++ l') None) Q w.
Proof using.
  induction l as [|a l IH]; intros w l' Q Hr HQ; [done|]. destruct (Hr a) as [E Hin]; [left|].
  cbn [timeout_loop app]. apply wp_bind, wp_ret, wp_bind. unfold wp at 1. rewrite E. cbv zeta.
  apply wp_still_queued; [done|]. apply IH; [|done]. intros b Hb. apply Hr. by right.
Qed.

Lemma timeout_loop_rest now c l w l' (Q : option Z → world → Prop) : others_rest w c l → l ⊆ w_retTimerQ w →
  wp (timeout_loop now l' None) Q w → wp (timeout_loop now (l ++ l') None) Q w.
Proof using.
  intros Hr Hin. apply timeout_loop_skip. intros a Ha. destruct (Hr a Ha) as (_ & y & Hy & Hre).
  split; [by eapply timeout_ctx_rest|by apply Hin].
Qed.

Lemma HandleTimeout_spec w c x S :
  snd_live w c x S → tc_isNetConnected x = true → plain_timers x → timer_serves w c →
  let now := d_of_tv (env_clock (w_nclock w)) in
  wp HandleTimeout (λ _ w', ∃ x' ds, timer_step S c w x w' x' ds ∧
    (∀ p l k, tc_packetQ x = p :: l → w_pkts w !! p = Some k →
       if d_lt (d_since now (tp_time k)) (tc_RTO x) then persisted x x' ∧ Forall (is_probe x) ds
       else ∃ d n, resent S x x' p ds d n)) w.
Proof using up.
  intros Hl Hnc Hpt (Hlk & l1 & l2 & Hq & Hr1 & Hr2) now. unfold HandleTimeout. apply wp_bind. unfold wp at 1, gettimeofday. cbv beta iota.
  fold now. set (w0 := set w_nclock _ w).
  apply wp_bind, wp_timer_lock; [done|]. set (w1 := set w_timerLock _ w0).
  apply wp_bind, wp_gets. change (w_retTimerQ w1) with (w_retTimerQ w). rewrite Hq.
  assert (Hl1 : snd_live w1 c x S) by (by eapply snd_live_same).
  apply wp_bind. apply (timeout_loop_rest now c l1); [exact Hr1|change (l1 ⊆ w_retTimerQ w); rewrite Hq; set_solver|].
  cbn [timeout_loop]. apply wp_bind, wp_ret. apply wp_bind.
  eapply wp_mono; [by eapply timeout_ctx_spec|].
  intros r w2 (-> & w1' & x1 & ds1 & x2 & ds2 & Hl1' & Hp & Hpk & Ht & Hs & Hpr & Hse).
  destruct (served_step now S c w1 x w1' x1 ds1 w2 x2 ds2 Hp Hl1' Hpk Ht Hs Hpr Hse) as [[H1 H2 H3 H4 H5 H6 H7] Hre].
  assert (Hq2 : w_retTimerQ w2 = l1 ++ c :: l2) by (rewrite (tx_rest _ _ _ H5); exact Hq).
  cbv zeta. apply wp_still_queued; [rewrite Hq2; set_solver|].
  rewrite <- (app_nil_r l2). apply (timeout_loop_rest now c l2); [by apply (others_rest_tx c w1 w2 l2 H5)|rewrite Hq2; set_solver|].
  apply wp_ret.
  apply wp_bind, wp_ret. apply wp_modify. set (w3 := set w_timerLock _ w2).
  exists x2, (ds1 ++ ds2). split.
  - constructor; [by eapply snd_live_same|done|done|done| |done|done].
    destruct H5 as [Hr Ho Hb]. constructor; [|exact Ho|exact Hb]. unfold w3. rewrite Hr. unfold w1, w0.
    destruct w; cbn in Hlk |- *. by subst.
  - intros p l k Hq' Hk. specialize (Hre p l k Hq' Hk). destruct (d_lt _ _); [|done].
    destruct Hre as [-> ->]. by rewrite app_nil_r.
Qed.

(** C15: A timeout goes back to the first missing byte.  When the timer of the first
    packet of a connection has expired, [HandleTimeout] sends the segment at the
    acknowledged position again (after at most a probe), drops the packets behind
    it and counts what they carried as not sent; the congestion window is one
    segment, the timeout is doubled and at most [RTO_MAX]; the send side stays
    consistent, and the queue of the timer, where other connections at rest may be, and its lock are as before. *)
Theorem timeout_goes_back w c x S p l k :
  snd_live w c x S → tc_isNetConnected x = true → plain_timers x → timer_serves w c →
  tc_packetQ x = p :: l → w_pkts w !! p = Some k →
  d_lt (d_since (d_of_tv (env_clock (w_nclock w))) (tp_time k)) (tc_RTO x) = false →
  wp HandleTimeout (λ _ w', ∃ x' ds d n, snd_live w' c x' S ∧ w_sent w' = w_sent w ++ ds ∧ resent S x x' p ds d n ∧
    d_lt RTO_MAX (tc_RTO x') = false ∧ tc_lastByteWritten x' = tc_lastByteWritten x ∧
    tc_lastByteAcked x' = tc_lastByteAcked x ∧ w_retTimerQ w' = w_retTimerQ w ∧ w_timerLock w' = false) w.
Proof using up.
  intros Hl Hnc Hpt Hq Hp Hk Hexp. pose proof (proj1 Hq) as Hlk. eapply wp_mono; [by eapply HandleTimeout_spec|].
  intros _ w' (x' & ds & [H1 H2 H3 H4 [H5 _ _] H6 _] & Hre). specialize (Hre p l k Hp Hk). rewrite Hexp in Hre.
  destruct Hre as (d & n & Hre). exists x', ds, d, n. split_and!; try done.
  - rewrite (rs_rto _ _ _ _ _ _ _ Hre). apply d__min_le.
  - apply H2.
  - by rewrite H5.
  - by rewrite H5.
Qed.

(** A connection in TIME_WAIT that holds what [DTPCloseContext] releases. *)
Record waiting (w : world) (c : Z) (x : dtp_context) (L : list node) : Prop := {
  tw_list : rlist w c x L;
  tw_active : tc_isActive x = true;
  tw_ack : tc_waitACK x = false;
  tw_state : tc_state x = SOCK_TIME_WAIT;
  tw_sock : 0 ≤ tc_sock x < FD_SETSIZE_S;
  tw_map : flowmap_ok w }.

Lemma expire_spec w c x L l1 l2 :
  waiting w c x L → w_retTimerQ w = l1 ++ c :: l2 → c ∉ l1 →
  wp (expire (Some c)) (λ _ w', ∃ w1 x1, released w1 c x1 L w' ∧ tc_state x1 = SOCK_CLOSED ∧
    w1 = w <| w_retTimerQ := l1 ++ l2 |> <| w_ctxs := w_ctxs w1 |> ∧ (∀ c', c' ≠ c → ctx_at w1 c' = ctx_at w c') ∧
    ∀ c' fid, on_map w1 c' fid ↔ on_map w c' fid) w.
Proof using.
  intros [Hli Ha Hwa Hst Hs Hm] Hq Hn. unfold expire, retq_unlink. apply wp_bind, wp_bind, wp_gets.
  rewrite Hq. apply wp_bind. eapply wp_tailq_remove; [by apply list_remove_split|]. apply wp_modify.
  set (w0 := set w_retTimerQ _ w). pose proof (rl_ctx _ _ _ _ Hli) as Hx.
  apply wp_bind. eapply wp_modctx; [exact Hx|]. set (x1 := set tc_state _ x). set (w1 := set w_ctxs _ w0).
  assert (Hm0 : flowmap_ok w0) by (by destruct Hm).
  destruct (flowmap_ok_ctx w0 c x x1 Hm0 Hx eq_refl eq_refl) as [Hm1 Hon].
  eapply wp_mono; [apply (DTPCloseContext_spec w1 c x1 L)|].
  - constructor; [|done|done|done|done|exact Hm1].
    destruct Hli as [_ H2 H3 H4 H5]. constructor; [by eapply ctx_at_put|done|done|done|by destruct H5].
  - intros [] w2 Hr. exists w1, x1. split_and!; [done|done|done|intros; by apply (ctx_at_put_ne w0)|]. intros c' fid. apply Hon.
Qed.

(** The connections the timer has nothing to do for now: those at rest, and those whose time in
    TIME_WAIT is not over. *)
Definition idle (now : double) (y : dtp_context) : Prop :=
  at_rest y ∨ tc_state y = SOCK_TIME_WAIT ∧ d_lt (d_of_Z LAST_TIMEOUT) (d_since now (tc_waitTime y)) = false.

Lemma timeout_ctx_idle now w c y : ctx_at w c = Some y → idle now y → timeout_ctx now c w = Ok (false, w).
Proof using.
  intros Hy [Hr|[Hs Ht]]; [by eapply timeout_ctx_rest|].
  assert (H : wp (timeout_ctx now c) (λ r w', r = false ∧ w' = w) w).
  { unfold timeout_ctx. apply wp_bind. eapply wp_getctx; [exact Hy|]. rewrite Hs. by apply wp_ret. }
  by destruct (wp_run _ _ _ H) as (r & w' & E & -> & ->).
Qed.

Definition others_idle (now : double) (w : world) (c : Z) (l : list Z) : Prop :=
  ∀ c', c' ∈ l → c' ≠ c ∧ ∃ y, ctx_at w c' = Some y ∧ idle now y.

Lemma timeout_loop_idle now c l w l' (Q : option Z → world → Prop) : others_idle now w c l → l ⊆ w_retTimerQ w →
  wp (timeout_loop now l' None) Q w → wp (timeout_loop now (l ++ l') None) Q w.
Proof using.
  intros Hr Hin. apply timeout_loop_skip. intros a Ha. destruct (Hr a Ha) as (_ & y & Hy & Hre).
  split; [by eapply timeout_ctx_idle|by apply Hin].
Qed.

(** The rest of the walk: [c] is closed when the next connection is visited, or at the end. *)
Lemma timeout_loop_expires now w c x L l1 l2 (Q : unit → world → Prop) :
  waiting w c x L → w_retTimerQ w = l1 ++ c :: l2 → c ∉ l1 → others_idle now w c l2 →
  (∀ w', (∃ w1 x1, released w1 c x1 L w' ∧ tc_state x1 = SOCK_CLOSED ∧
     w1 = w <| w_retTimerQ := l1 ++ l2 |> <| w_ctxs := w_ctxs w1 |> ∧ (∀ c', c' ≠ c → ctx_at w1 c' = ctx_at w c') ∧
     ∀ c' fid, on_map w1 c' fid ↔ on_map w c' fid) → Q tt (w' <| w_timerLock := false |>)) →
  wp (timeout_loop now l2 (Some c)) (λ pctx w', wp (expire pctx;; timer_unlock) Q w') w.
Proof using.
  clear up. intros Hwt Hq Hn Hi HQ. destruct l2 as [|a l2].
  - apply wp_ret, wp_bind. eapply wp_mono; [by eapply expire_spec|]. intros [] w2 H. apply wp_modify. by apply HQ.
  - cbn [timeout_loop]. apply wp_bind. eapply wp_mono; [by eapply expire_spec|]. intros [] w2 H.
    pose proof H as (w1 & x1 & [_ Ho _ _ _ _ (Q1 & _)] & _ & E & Hc & _).
    assert (Hq2 : w_retTimerQ w2 = l1 ++ a :: l2) by (rewrite Q1, E; done).
    assert (Hi2 : others_idle now w2 c (a :: l2)).
    { intros c' Hc'. destruct (Hi c' Hc') as (Hne & y & Hy & Hre). split; [done|]. exists y. by rewrite Ho, Hc. }
    destruct (Hi2 a) as (_ & y & Hy & Hre); [left|].
    apply wp_bind. unfold wp at 1. rewrite (timeout_ctx_idle now w2 a y Hy Hre). cbv zeta.
    apply wp_still_queued; [rewrite Hq2; set_solver|]. rewrite <- (app_nil_r l2).
    apply (timeout_loop_idle now c l2); [intros b Hb; apply Hi2; by right|rewrite Hq2; set_solver|].
    apply wp_ret, wp_bind, wp_ret, wp_modify. by apply HQ.
Qed.

(** C30: TIME_WAIT ends.  A connection that has been in TIME_WAIT for more than 30 seconds is
    closed by [HandleTimeout], wherever it stands in the queue of the timer: it leaves the
    queue, its buffers, interval nodes and flow ID are released, and the lock is free; before
    that the timer leaves it alone.  The other connections of the queue, for which the timer
    has nothing to do (they are at rest, or in TIME_WAIT themselves and not due), are visited
    as well and stay as they are. *)
Theorem time_wait_expires w c x L l1 l2 :
  let now := d_of_tv (env_clock (w_nclock w)) in
  waiting w c x L → w_retTimerQ w = l1 ++ c :: l2 → others_idle now w c (l1 ++ l2) → w_timerLock w = false →
  wp HandleTimeout (λ _ w',
    if d_lt (d_of_Z LAST_TIMEOUT) (d_since now (tc_waitTime x)) then
      (∃ x', ctx_at w' c = Some x' ∧ tc_state x' = SOCK_CLOSED ∧ tc_isActive x' = false ∧
             tc_readBuf x' = None ∧ tc_writeBuf x' = None) ∧
      (∀ c', c' ≠ c → ctx_at w' c' = ctx_at w c') ∧
      w_retTimerQ w' = l1 ++ l2 ∧ w_timerLock w' = false ∧ w_freeBufferList w' = rev (ptrs L) ++ w_freeBufferList w ∧
      (∀ c' fid, on_map w' c' fid ↔ on_map w c' fid ∧ c' ≠ c)
    else w' = w <| w_nclock ::= Datatypes.S |>) w.
Proof using.
  clear up. intros now Hwt Hq Hi Hlk. unfold HandleTimeout. apply wp_bind. unfold wp at 1, gettimeofday. cbv beta iota. fold now.
  set (w0 := set w_nclock _ w). apply wp_bind, wp_timer_lock; [done|]. set (w1 := set w_timerLock _ w0).
  apply wp_bind, wp_gets. change (w_retTimerQ w1) with (w_retTimerQ w). rewrite Hq.
  assert (Hwt1 : waiting w1 c x L).
  { destruct Hwt as [[? ? ? ? []] ? ? ? ? []]. constructor; try done; by constructor. }
  assert (Hn : c ∉ l1) by (intros Hin; destruct (Hi c) as [? _]; [set_solver|done]).
  apply wp_bind. apply (timeout_loop_idle now c l1); [intros a Ha; apply Hi; set_solver|change (l1 ⊆ w_retTimerQ w); rewrite Hq; set_solver|].
  cbn [timeout_loop]. apply wp_bind, wp_ret. apply wp_bind. unfold timeout_ctx.
  apply wp_bind. eapply wp_getctx; [apply (tw_list _ _ _ _ Hwt1)|]. rewrite (tw_state _ _ _ _ Hwt). apply wp_ret. cbv zeta.
  apply wp_still_queued; [change (c ∈ w_retTimerQ w); rewrite Hq; set_solver|].
  assert (Hi2 : others_idle now w1 c l2) by (intros a Ha; apply Hi; set_solver).
  destruct (d_lt _ _).
  - apply (timeout_loop_expires now w1 c x L l1 l2); [done..|].
    intros w2 (w1' & x1 & [(x' & Hx' & Ha' & Hst' & Hr' & Hw' & _) Ho [_ Hfb] [_ Hm] _ _ (Q1 & _ & _)] & Ec & E & Hoc & Hon).
    split_and!; [exists x'; by rewrite <- Ec|intros c' Hc'; transitivity (ctx_at w1' c'); [exact (Ho c' Hc')|exact (Hoc c' Hc')]|cbn; by rewrite Q1, E|done|cbn; by rewrite Hfb, E|].
    intros c' fid. etrans; [exact (Hm c' fid)|]. by rewrite Hon.
  - rewrite <- (app_nil_r l2). apply (timeout_loop_idle now c l2); [exact Hi2|change (l2 ⊆ w_retTimerQ w); rewrite Hq; set_solver|].
    apply wp_ret, wp_bind, wp_ret. apply wp_modify. unfold w1, w0. destruct w; cbn in Hlk |- *. by subst.
Qed.
End timers.

(** ** The scenario *)

Lemma flight_timers : plain_timers conn_flight.
Proof. constructor; eval_facts. Qed.

Lemma timer_serves_one w c : w_retTimerQ w = [c] → w_timerLock w = false → timer_serves w c.
Proof. intros Hq Hl. split; [done|]. exists [], []. split_and!; [done|by intros ? ?%elem_of_nil..]. Qed.

Example timeout_goes_back_witness :
  wp HandleTimeout (λ _ w', ∃ x' ds d n, snd_live w' 5 x' (λ _, 0) ∧ w_sent w' = w_sent host_flight ++ ds ∧
    resent (λ _, 0) conn_flight x' 3 ds d n ∧ d_lt RTO_MAX (tc_RTO x') = false ∧
    tc_lastByteWritten x' = tc_lastByteWritten conn_flight ∧ tc_lastByteAcked x' = tc_lastByteAcked conn_flight ∧
    w_retTimerQ w' = w_retTimerQ host_flight ∧ w_timerLock w' = false) host_flight.
Proof.
  apply (timeout_goes_back host_flight 5 conn_flight (λ _, 0) 3 [] flight_pkt);
    [apply flight_live|eval_facts|apply flight_timers|by apply timer_serves_one|reflexivity|reflexivity|].
  vm_compute. reflexivity.
Defined.

(** Since second 100 in TIME_WAIT. *)
Definition conn_waiting : dtp_context :=
  conn <| tc_state := SOCK_TIME_WAIT |> <| tc_waitTime := mk_timeval 100 0 |>.

(** It stands between two closed sockets in the queue of the timer. *)
Definition host_waiting : world := (host conn_waiting) <| w_retTimerQ := [6; 5; 7] |>.

Lemma waiting_flowmap : flowmap_ok host_waiting.
Proof.
  assert (H : flowmap_ok (host conn_waiting)) by (apply host_flowmap_of; vm_compute; reflexivity). by destruct H.
Qed.

Example time_wait_expires_witness :
  wp HandleTimeout (λ _ w',
    (∃ x', ctx_at w' 5 = Some x' ∧ tc_state x' = SOCK_CLOSED ∧ tc_isActive x' = false ∧
           tc_readBuf x' = None ∧ tc_writeBuf x' = None) ∧
    (∀ c', c' ≠ 5 → ctx_at w' c' = ctx_at host_waiting c') ∧
    w_retTimerQ w' = [6; 7] ∧ w_timerLock w' = false ∧
    w_freeBufferList w' = rev (ptrs []) ++ w_freeBufferList host_waiting ∧
    (∀ c' fid, on_map w' c' fid ↔ on_map host_waiting c' fid ∧ c' ≠ 5)) host_waiting.
Proof.
  pose proof (time_wait_expires host_waiting 5 conn_waiting [] [6] [7]) as H. cbv zeta in H.
  replace (d_lt (d_of_Z LAST_TIMEOUT) _) with true in H by (vm_compute; reflexivity).
  apply H; [|reflexivity| |reflexivity].
  - constructor; [|eval_facts|eval_facts|eval_facts|eval_facts|apply waiting_flowmap].
    constructor; [reflexivity|reflexivity|constructor|by intros ? ?%elem_of_nil|].
    destruct (host_pools conn_waiting) as [_ Hb]. by destruct Hb.
  - intros c' [->|[->|Hin]%elem_of_cons]%elem_of_cons; [| |by apply elem_of_nil in Hin];
      (split; [done|exists zero_ctx; split; [reflexivity|left; constructor; (discriminate || reflexivity)]]).
Defined.

(** A connection whose keep-alive failed and behind it one in TIME_WAIT whose time is over: only
    the first is closed, the walk ends with it. *)
Definition conn_dead : dtp_context :=
  conn <| tc_isKeepAliveEnabled := true |> <| tc_keepAliveStart := mk_timeval 10 0 |> <| tc_keepAliveTime := 1 |>
       <| tc_keepAliveProbes := 0 |> <| tc_sentProbes := 0 |>.
Definition host_dead : world := (host conn_dead)
  <| w_ctxs := {[5 := conn_dead; 6 := conn_waiting <| tc_sock := 6 |> <| tc_onFlowIDMap := false |>]} |> <| w_retTimerQ := [5; 6] |>.

Example failed_keep_alive_ends_walk :
  match HandleTimeout host_dead with
  | Ok (_, w') => w_retTimerQ w' = [6] ∧ (tc_state <$> ctx_at w' 5) = Some SOCK_CLOSED ∧ (tc_state <$> ctx_at w' 6) = Some SOCK_TIME_WAIT
  | Err _ => False
  end.
Proof. vm_compute. done. Qed.

(** The same host when the UDP socket of the connection was closed behind its
    back: every send fails with EBADF. *)
#[local] Instance dead_env : Env := {|
  env_clock := @env_clock quiet_env; env_send := λ _, [SendErr EBADF]; env_rand := @env_rand quiet_env;
  env_random := @env_random quiet_env; env_socket := @env_socket quiet_env; env_bind := @env_bind quiet_env;
  env_setiface := @env_setiface quiet_env; env_sha1 := toy_digest; env_hmac_sha1 := @env_hmac_sha1 quiet_env;
  env_rsa_public_encrypt := @env_rsa_public_encrypt quiet_env;
  env_rsa_private_decrypt := @env_rsa_private_decrypt quiet_env;
  env_rsa_n := @env_rsa_n quiet_env; env_rsa_e := @env_rsa_e quiet_env; env_mac := @env_mac quiet_env;
  env_pid := @env_pid quiet_env; env_junk := []; env_wait := λ _ _ w, w |}.

(** A timeout with a dead socket deadlocks the transport thread: [HandleTimeout]
    holds the lock of the queue, [DTPSendPacket] wipes out the context on EBADF and
    [RemoveFromRetransQueue] takes the lock again. *)
Example timeout_deadlocks : HandleTimeout (env := dead_env) host_flight = Err Spin.
Proof. vm_compute. reflexivity. Qed.
