(* ===== verification/EventLoop.v ===== *)
(** * The transport thread (dtp_transport.c)

    [OnReadEvent] reads up to eight datagrams, finds the connection of each and
    dispatches on the packet type; data and acknowledgements of consecutive
    packets of one connection are processed together
    ([ProcessAggregatePackets]).  [DTPMainThreadEvent] serves the requests of the
    socket calls. *)

From S2P Require Import Prelude Double Header Context World ContextTable Pools RetransQueue.
From S2P Require Import Select Congestion Lifecycle Send Intervals Reassembly Ack Challenge.
From S2P Require Import Teardown Handshake Timeout.

(** [AdjPktInfo]; [ai_pkts] are the packets with their lengths. *)
Record AdjPktInfo := mk_api {
  ai_ctx : option Z; ai_maxACK : Z; ai_windowSize : Z; ai_pkts : list (bytes * Z); ai_hasACK : bool }.

Definition api_zero : AdjPktInfo := mk_api None 0 0 [] false.
Definition api_for (ctx : Z) : AdjPktInfo := mk_api (Some ctx) 0 0 [] false.

(** The bookkeeping of one packet in [OnReadEvent]. *)
Definition api_add (api : AdjPktInfo) (pkt : bytes) (len : Z) : AdjPktInfo :=
  let ack := GetAckNum pkt in
  let newer := IsACKPacket pkt && (ai_maxACK api <=? ack) in
  mk_api (ai_ctx api) (if newer then ack else ai_maxACK api)
    (if newer then GetRcvdWindow pkt else ai_windowSize api)
    (ai_pkts api ++ [(pkt, len)]) (ai_hasACK api || IsACKPacket pkt).

Section env.
Context {env : Env}.

(** The [for] loop over the packets: [locked] (there was data) and
    [hasNewData]. *)
Fixpoint aggregate_loop (ctx : Z) (l : list (bytes * Z)) (locked hasNewData : bool)
  : M (bool * bool) :=
  match l with
  | [] => mret (locked, hasNewData)
  | (pkt, total) :: l =>
    let len := GetPayloadLen pkt total in
    if 0 <? len then
      res ← HandleNormalPacket ctx pkt (u32 len);
      aggregate_loop ctx l true (hasNewData || (0 <? res))
    else
      mwhen ((len =? 0) && negb (IsACKPacket pkt)) (DTPSendACKPacket ctx;; mret tt);;
      aggregate_loop ctx l locked hasNewData
  end.

(** The answer to the data packets of a batch. *)
Definition finish_data (ctx : Z) (hasNewData : bool) : M unit :=
  x ← getctx ctx;
  mwhen (negb (is_state (tc_state x) SOCK_CLOSE_WAIT) && negb (is_state (tc_state x) SOCK_SYN_RCVD)
         && negb (is_state (tc_state x) SOCK_SYN_SENT))
    (if tc_sendSYN x then ctx ->> tc_sendSYN := false else (DTPSendACKPacket ctx;; mret tt));;
  x ← getctx ctx;
  mwhen (0 <? GetReadBufDataSize x) (DTPSelectEventSet (tc_sock x) DTP_FD_READ);;
  x ← getctx ctx;
  mwhen (hasNewData && tc_isReadBlocked x)
    (ctx ->> tc_isTransportWaiting := true;;
     cond_signal ctx readBufCond;;
     cond_wait ctx readBufCond;;
     ctx ->> tc_isTransportWaiting := false).

Definition ProcessAggregatePackets (ctx : Z) (p : AdjPktInfo) : M unit :=
  x ← getctx ctx;
  mwhen (ai_hasACK p && negb (is_state (tc_state x) SOCK_TIME_WAIT))
    (HandleACKPacket ctx (ai_maxACK p) (ai_windowSize p));;
  '(locked, hasNewData) ← aggregate_loop ctx (ai_pkts p) false false;
  tv ← gettimeofday;
  modctx ctx (λ x, x <| tc_keepAliveStart := tv |> <| tc_sentProbes := 0 |>);;
  mwhen locked (finish_data ctx hasNewData).

Definition flush (api : AdjPktInfo) : M unit :=
  match ai_ctx api with Some c => ProcessAggregatePackets c api | None => mret tt end.

(** ** One packet *)

(** Find the connection; [None]: the packet is done with.  The state of the
    loop is the current context and the flow ID of the previous packet. *)
Definition find_context (sock : Z) (isListen : bool) (pkt : bytes) (addr : sockaddr_in)
    (ctx : option Z) (old_fid : Z) : M (option Z * Z * bool) :=
  if IsSYNPacket pkt then
    ctx ← (if isListen then HandleSYNPacket sock pkt addr else HandleSYNACKPacket sock pkt addr);
    match ctx with
    | None => mret (None, old_fid, false)
    | Some c => x ← getctx c; mret (Some c, tc_flowID x, true)
    end
  else
    let fid := GetFlowID pkt in
    ctx ← (if isListen then
             match ctx with
             | Some c => if old_fid =? fid then mret (Some c) else DTPGetContextByFlowID fid
             | None => DTPGetContextByFlowID fid
             end
           else match ctx with Some c => mret (Some c) | None => DTPGetContextBySocket sock end);
    let old_fid := if isListen then fid else old_fid in
    if IsRSTPacket pkt then
      match ctx with Some c => HandleRSTPacket c pkt | None => mret tt end;;
      mret (ctx, old_fid, false)
    else
      match ctx with
      | None => SendRSTPacket sock pkt addr;; mret (None, old_fid, false)
      | Some c =>
        x ← getctx c;
        if tc_flowID x =? fid then mret (Some c, old_fid, true)
        else (SendRSTPacket sock pkt addr;; mret (Some c, old_fid, false))
      end.

(** Whether the packet is ignored in the state of the connection. *)
Definition ignored (x : dtp_context) : bool :=
  tc_connTimedOut x || is_state (tc_state x) SOCK_CLOSED || is_state (tc_state x) SOCK_LISTEN
  || is_state (tc_state x) SOCK_SYN_SENT.

(** The check of the source address; [false]: the packet is done with. *)
Definition check_address (c : Z) (pkt : bytes) (addr : sockaddr_in) : M bool :=
  if IsSYNPacket pkt then mret true
  else
    x ← getctx c;
    if is_state (tc_state x) SOCK_SYN_RCVD then (c ->> tc_peerAddr := addr;; mret true)
    else if negb (is_state (tc_state x) SOCK_TIME_WAIT) then
      if negb (addr_eqb (tc_peerAddr x) addr) then (HandleAddressChange c addr;; mret false)
      else (c ->> tc_nonce := 0;; mret true)
    else mret true.

(** A FIN is handled at once, after what was collected; another packet is
    collected. *)
Definition collect (c : Z) (pkt : bytes) (len : Z) (api : AdjPktInfo) : M AdjPktInfo :=
  if IsFINPacket pkt then
    flush api;;
    HandleFINPacket c pkt;;
    mret (api_for c)
  else
    api ← (if bool_decide (ai_ctx api = Some c) then mret api
           else (flush api;; mret (api_for c)));
    mret (api_add api pkt len).

(** The handlers of a packet whose connection is known. *)
Definition dispatch (c : Z) (pkt : bytes) (len : Z) (addr : sockaddr_in) (api : AdjPktInfo)
  : M AdjPktInfo :=
  x ← getctx c;
  if ignored x then mret api
  else if IsCHGPacket pkt then (HandleCHGPacket c pkt addr;; mret api)
  else if IsRSPPacket pkt then (HandleRSPPacket c pkt addr;; mret api)
  else
    mwhen (IsAUTHPacket pkt) (HandleAUTHPacket c pkt addr);;
    go ← check_address c pkt addr;
    if (go : bool) then collect c pkt len api else mret api.

(** The receive buffer: packet [i] is at offset [i * DTP_MTU], what [recvfrom]
    does not overwrite stays as it was. *)
Fixpoint fill_buffer (i : Z) (arrivals : list (bytes * sockaddr_in)) (buf : bytes) : bytes :=
  match arrivals with
  | [] => buf
  | (d, _) :: arrivals =>
    fill_buffer (i + 1) arrivals (zsplice (i * DTP_MTU) (zslice 0 DTP_MTU d) buf)
  end.

Fixpoint read_loop (sock : Z) (isListen : bool) (buf : bytes) (i : Z)
    (arrivals : list (bytes * sockaddr_in)) (ctx : option Z) (old_fid : Z) (api : AdjPktInfo)
  : M AdjPktInfo :=
  match arrivals with
  | [] => mret api
  | (d, addr) :: arrivals =>
    let pkt := drop (Z.to_nat (i * DTP_MTU)) buf in
    let len := c_min (zlen d) DTP_MTU in
    '(ctx, old_fid, go) ← find_context sock isListen pkt addr ctx old_fid;
    api ← match ctx with
          | Some c => if (go : bool) then dispatch c pkt len addr api else mret api
          | None => mret api
          end;
    read_loop sock isListen buf (i + 1) arrivals ctx old_fid api
  end.

(** [arrivals] are the datagrams [recvfrom] can return; [failed]: a call after
    them fails with an error other than EAGAIN. *)
Definition OnReadEvent (sock : Z) (isListen : bool) (arrivals : list (bytes * sockaddr_in))
    (failed : bool) : M unit :=
  let batch := take (Z.to_nat MAX_BATCH) arrivals in
  if failed && (zlen arrivals <? MAX_BATCH) then mret tt
  else
    let buf := fill_buffer 0 batch (malloc_bytes (MAX_BATCH * DTP_MTU)) in
    api ← read_loop sock isListen buf 0 batch None 0 api_zero;
    flush api.

(** ** Requests of the socket calls *)

Definition DTPMainThreadEvent (ev : dtp_event) : M unit :=
  if (te_command ev =? DTP_ADD_READ_EVENT) || (te_command ev =? DTP_ADD_LISTEN_EVENT) then
    c ← DTPGetContextBySocket (te_fd ev);
    match c with
    | Some ctx => ctx ->> tc_readEvent := true
    | None => mret tt
    end
  else mret tt.

(** The initialisation of [DTPLibThreadMain]. *)
Definition DTPLibThreadMain (fd : Z) : M unit :=
  DTPInitializeIdlePacket;;
  InitializeFlowIDMap;;
  DTPSetInnerSock fd.
End env.
