(* ===== verification/Batch.v ===== *)
(** * Batches of packets

    [OnReadEvent] reads up to eight datagrams into one buffer, keeps the connection of the
    previous packet instead of looking it up again, and collects the packets to process them
    together.  For the packets of one connection this is the same as finding the connection
    once and handing all packets to [ProcessAggregatePackets]. *)

From S2P Require Import Prelude Double Header Context World ContextTable Pools RetransQueue.
From S2P Require Import Select Congestion Lifecycle Send Scenario Intervals Reassembly Ack Challenge.
From S2P Require Import Teardown Closing Handshake Timeout EventLoop Services.

(** ** The receive buffer *)

(** What the receive buffer holds of a datagram: its bytes, then what was there before. *)
Definition received (d : bytes * sockaddr_in) (p : bytes * Z) : Prop :=
  (∃ pad, p.1 = d.1 ++ pad) ∧ p.2 = zlen d.1.

Lemma fill_buffer_low arrivals : ∀ i buf off n,
  0 ≤ i → 0 ≤ off → 0 ≤ n → off + n ≤ i * DTP_MTU → (i + Z.of_nat (length arrivals)) * DTP_MTU ≤ zlen buf →
  Forall (λ d : bytes * sockaddr_in, zlen d.1 ≤ DTP_MTU) arrivals →
  zslice off n (fill_buffer i arrivals buf) = zslice off n buf ∧ zlen (fill_buffer i arrivals buf) = zlen buf.
Proof.
  induction arrivals as [|[d a] l IH]; intros i buf off n Hi Ho Hn Hoff Hl Hf; cbn [fill_buffer length] in *; [done|].
  apply Forall_cons in Hf as [Hd Hf]. cbn in Hd. unfold DTP_MTU in *.
  assert (E : zslice 0 1472 d = d).
  { apply list_eq. intros k. rewrite lookup_zslice by lia. case_decide; [done|]. symmetry. apply lookup_ge_None. unfold zlen in *. lia. }
  rewrite E. pose proof (zlen_nonneg d). assert (El : zlen (zsplice (i * 1472) d buf) = zlen buf) by (apply zlen_splice; lia).
  destruct (IH (i + 1) (zsplice (i * 1472) d buf) off n) as [E1 E2]; [lia..|done|]. rewrite E1, E2, El. split; [|done].
  apply zslice_splice_disjoint; lia.
Qed.

Lemma drop_slice off n (l : bytes) : 0 ≤ off → 0 ≤ n → off + n ≤ zlen l →
  drop (Z.to_nat off) l = zslice off n l ++ drop (Z.to_nat (off + n)) l.
Proof.
  intros. rewrite <- (take_drop (Z.to_nat n) (drop (Z.to_nat off) l)). f_equal.
  rewrite drop_drop. f_equal. lia.
Qed.

Definition packets_at (i : Z) (arrivals : list (bytes * sockaddr_in)) (buf : bytes) : list (bytes * Z) :=
  imap (λ k d, (drop (Z.to_nat ((i + Z.of_nat k) * DTP_MTU)) buf, c_min (zlen d.1) DTP_MTU)) arrivals.

Lemma packets_cons i d a l buf :
  packets_at i ((d, a) :: l) buf = (drop (Z.to_nat (i * DTP_MTU)) buf, c_min (zlen d) DTP_MTU) :: packets_at (i + 1) l buf.
Proof.
  unfold packets_at. cbn [imap]. rewrite Z.add_0_r. f_equal. apply imap_ext. intros k x _. unfold compose.
  by replace (i + Z.of_nat (S k)) with (i + 1 + Z.of_nat k) by lia.
Qed.

Lemma packets_received arrivals : ∀ i buf,
  0 ≤ i → (i + Z.of_nat (length arrivals)) * DTP_MTU ≤ zlen buf →
  Forall (λ d : bytes * sockaddr_in, zlen d.1 ≤ DTP_MTU) arrivals →
  Forall2 received arrivals (packets_at i arrivals (fill_buffer i arrivals buf)).
Proof.
  induction arrivals as [|[d a] l IH]; intros i buf Hi Hl Hf; [constructor|]. rewrite packets_cons.
  pose proof Hf as [Hd Hf']%Forall_cons. cbn [fst] in Hd. pose proof (zlen_nonneg d). cbn [length] in Hl. unfold DTP_MTU in *.
  assert (E : zslice 0 1472 d = d).
  { apply list_eq. intros k. rewrite lookup_zslice by lia. case_decide; [done|]. symmetry. apply lookup_ge_None. unfold zlen in *. lia. }
  cbn [fill_buffer]. unfold DTP_MTU. rewrite E. set (b1 := zsplice (i * 1472) d buf).
  assert (El : zlen b1 = zlen buf) by (apply zlen_splice; lia). constructor; [|apply IH; [lia|rewrite El; lia|done]].
  destruct (fill_buffer_low l (i + 1) b1 (i * 1472) (zlen d)) as [E1 E2]; [unfold DTP_MTU; lia..|done|].
  split; cbn [fst snd].
  - eexists. rewrite (drop_slice (i * 1472) (zlen d)) by (rewrite ?E2; lia). f_equal. rewrite E1. apply zslice_splice_same; lia.
  - unfold c_min. destruct (Z.ltb_spec (zlen d) 1472); lia.
Qed.

(** ** Plain packets *)

(** Data or an acknowledgement of the flow [fid], no control packet. *)
Record plain (fid : Z) (p : bytes) : Prop := {
  pl_fid : GetFlowID p = fid; pl_syn : IsSYNPacket p = false; pl_rst : IsRSTPacket p = false; pl_fin : IsFINPacket p = false;
  pl_chg : IsCHGPacket p = false; pl_rsp : IsRSPPacket p = false; pl_auth : IsAUTHPacket p = false }.

Lemma plain_app fid d pad : DTPHDRSIZE ≤ zlen d → plain fid d → plain fid (d ++ pad).
Proof.
  intros Hl []. pose proof (read_header_app d pad Hl) as E. unfold read_header in E.
  injection E as E1 E2 E3 E4 E5 E6 E7 E8 E9 E10 E11 E12. by constructor; congruence.
Qed.

(** Data and acknowledgements of the connection are processed: it is synchronised. *)
Definition synchronised (x : dtp_context) : Prop :=
  ignored x = false ∧ tc_state x ≠ SOCK_SYN_RCVD ∧ tc_state x ≠ SOCK_TIME_WAIT.

Lemma bind_ok {A B} (m : M A) (k : A → M B) a w w' : m w = Ok (a, w') → (m ≫= k) w = k a w'.
Proof. unfold mbind, M_bind. by intros ->. Qed.

Lemma getctx_ok {B} c x (k : dtp_context → M B) w : ctx_at w c = Some x → (getctx c ≫= k) w = k x w.
Proof. intros Hx. apply bind_ok. unfold getctx. by rewrite Hx. Qed.

Lemma modctx_ok {B} c x f (k : unit → M B) w :
  ctx_at w c = Some x → (modctx c f ≫= k) w = k tt (w <| w_ctxs ::= <[c := f x]> |>).
Proof. intros Hx. apply bind_ok. unfold modctx. rewrite (getctx_ok c x) by done. unfold putctx. by rewrite Hx. Qed.

Lemma put_same w c x : w_ctxs w !! c = Some x → w <| w_ctxs ::= <[c := x]> |> = w.
Proof.
  intros Hx. change (w <| w_ctxs := <[c := x]> (w_ctxs w) |> = w). rewrite insert_id by done. by destruct w.
Qed.

Section batch.
Context {env : Env} (sock : Z) (isListen : bool) (c : Z).

(** The connection [c] is where the packets of its flow on this socket go. *)
Definition owns (w : world) (x : dtp_context) : Prop :=
  if isListen then flowmap_ok w ∧ on_map w c (tc_flowID x) else DTPGetContextBySocket sock w = Ok (Some c, w).

(** What the loop remembers of the previous packet of the connection. *)
Definition remembers (fid : Z) (cache : option Z) (old : Z) : Prop :=
  cache = None ∨ (cache = Some c ∧ (isListen = true → old = fid)).

(** The connection is found, with or without the memory. *)
Lemma find_plain pkt addr cache old w x :
  ctx_at w c = Some x → owns w x → plain (tc_flowID x) pkt → remembers (tc_flowID x) cache old →
  ∃ old', find_context sock isListen pkt addr cache old w = Ok ((Some c, old', true), w) ∧
          remembers (tc_flowID x) (Some c) old'.
Proof.
  intros Hx Ho [Hf Hs Hr _ _ _ _] Hc. unfold find_context. rewrite Hs, Hr, Hf. exists (if isListen then tc_flowID x else old).
  split; [|by right; split; [|intros ->]].
  assert (Hlook : isListen = true → DTPGetContextByFlowID (tc_flowID x) w = Ok (Some c, w)).
  { intros E. unfold owns in Ho. rewrite E in Ho. destruct Ho as [Hm Hon].
    destruct (wp_run _ _ _ (DTPGetContextByFlowID_spec w (tc_flowID x) Hm)) as (r & w' & E' & -> & Hr').
    rewrite E'. by rewrite (proj2 (Hr' c) Hon). }
  rewrite (bind_ok _ _ (Some c) w w).
  - cbv zeta beta iota. rewrite (getctx_ok c x) by done. by rewrite Z.eqb_refl.
  - unfold owns, remembers in *. destruct isListen.
    + destruct Hc as [->|[-> Ho']]; [by apply Hlook|]. rewrite Ho', Z.eqb_refl by done. done.
    + by destruct Hc as [->|[-> _]].
Qed.

(** What is collected so far: nothing, or packets of this connection. *)
Definition collecting (api : AdjPktInfo) : AdjPktInfo := if bool_decide (ai_ctx api = Some c) then api else api_for c.

Lemma dispatch_plain pkt len api w x :
  ctx_at w c = Some x → synchronised x → plain (tc_flowID x) pkt → ai_ctx api = None ∨ ai_ctx api = Some c →
  dispatch c pkt len (tc_peerAddr x) api w
  = Ok (api_add (collecting api) pkt len, w <| w_ctxs ::= <[c := x <| tc_nonce := 0 |>]> |>).
Proof.
  intros Hx (Hi & H1 & H2) [_ Hs _ Hfi Hc Hr Ha] Hapi. unfold dispatch. rewrite (getctx_ok c x) by done.
  rewrite Hi, Hc, Hr, Ha. cbn [mwhen].
  erewrite bind_ok; [|reflexivity]. unfold check_address. rewrite Hs.
  erewrite (bind_ok _ _ true w (w <| w_ctxs ::= <[c := x <| tc_nonce := 0 |>]> |>)).
  - unfold collect, collecting. rewrite Hfi. destruct Hapi as [E|E]; rewrite E.
    + rewrite bool_decide_eq_false_2 by done. unfold flush. rewrite E. done.
    + rewrite bool_decide_eq_true_2 by done. done.
  - rewrite (getctx_ok c x) by done. unfold is_state. rewrite !bool_decide_eq_false_2 by done. cbn [negb].
    unfold addr_eqb. rewrite bool_decide_eq_true_2 by done. cbn [negb].
    by rewrite (modctx_ok c x).
Qed.

(** The same, once the nonce is cleared, leaves the world as it is. *)
Lemma dispatch_again pkt len api w x :
  w_ctxs w !! c = Some x → ctx_at w c = Some x → tc_nonce x = 0 → synchronised x → plain (tc_flowID x) pkt →
  ai_ctx api = Some c →
  dispatch c pkt len (tc_peerAddr x) api w = Ok (api_add api pkt len, w).
Proof.
  intros Hm Hx Hn Hs Hp Ha. rewrite (dispatch_plain pkt len api w x) by auto. unfold collecting.
  rewrite bool_decide_eq_true_2 by done. do 2 f_equal.
  replace (x <| tc_nonce := 0 |>) with x by (rewrite <- Hn; by destruct x).
  by apply put_same.
Qed.

Definition collected (api : AdjPktInfo) (pkts : list (bytes * Z)) : AdjPktInfo :=
  foldl (λ a p, api_add a p.1 p.2) api pkts.

(** The loop over the packets behind the first. *)
Lemma read_loop_again buf arrivals : ∀ i cache old api w x,
  w_ctxs w !! c = Some x → ctx_at w c = Some x → tc_nonce x = 0 → synchronised x → owns w x → ai_ctx api = Some c →
  remembers (tc_flowID x) cache old →
  Forall (λ p, plain (tc_flowID x) p.1) (packets_at i arrivals buf) →
  Forall (λ d : bytes * sockaddr_in, d.2 = tc_peerAddr x) arrivals →
  read_loop sock isListen buf i arrivals cache old api w = Ok (collected api (packets_at i arrivals buf), w).
Proof.
  induction arrivals as [|[d a] l IH]; intros i cache old api w x Hm Hx Hn Hs Ho Ha Hc Hp Hd; [done|].
  rewrite packets_cons in Hp |- *. apply Forall_cons in Hp as [Hp1 Hp], Hd as [Hd1 Hd]. cbn in Hp1, Hd1. subst a.
  cbn [read_loop]. destruct (find_plain _ (tc_peerAddr x) cache old w x Hx Ho Hp1 Hc) as (old' & E & Hc').
  rewrite (bind_ok _ _ _ w w E). cbv beta iota zeta.
  rewrite (bind_ok _ _ _ w w (dispatch_again _ _ api w x Hm Hx Hn Hs Hp1 Ha)).
  by rewrite (IH (i + 1) (Some c) old' _ w x).
Qed.

Lemma read_loop_first buf d a l i w x :
  ctx_at w c = Some x → synchronised x → owns w x → (∀ w', w' = w <| w_ctxs ::= <[c := x <| tc_nonce := 0 |>]> |> → owns w' x) →
  Forall (λ p, plain (tc_flowID x) p.1) (packets_at i ((d, a) :: l) buf) →
  Forall (λ d : bytes * sockaddr_in, d.2 = tc_peerAddr x) ((d, a) :: l) →
  read_loop sock isListen buf i ((d, a) :: l) None 0 api_zero w
  = Ok (collected (api_for c) (packets_at i ((d, a) :: l) buf), w <| w_ctxs ::= <[c := x <| tc_nonce := 0 |>]> |>).
Proof.
  intros Hx Hs Ho Ho' Hp Hd. rewrite packets_cons in Hp |- *. apply Forall_cons in Hp as [Hp1 Hp], Hd as [Hd1 Hd].
  cbn in Hp1, Hd1. subst a. cbn [read_loop].
  destruct (find_plain _ (tc_peerAddr x) None 0 w x Hx Ho Hp1 ltac:(by left)) as (old' & E & Hc').
  rewrite (bind_ok _ _ _ w w E). cbv beta iota zeta.
  rewrite (bind_ok _ _ _ w _ (dispatch_plain _ _ api_zero w x Hx Hs Hp1 ltac:(by left))).
  set (w1 := set w_ctxs _ w). rewrite (read_loop_again buf l (i + 1) (Some c) old' _ w1 (x <| tc_nonce := 0 |>)); try done.
  - unfold w1. cbn. apply lookup_insert_eq.
  - by eapply ctx_at_put.
  - by apply Ho'.
Qed.
End batch.

(** ** What is collected *)

(** The acknowledgement numbers in a list of packets. *)
Definition acks (pkts : list (bytes * Z)) : list Z := GetAckNum ∘ fst <$> filter (λ p, IsACKPacket p.1 = true) pkts.

Lemma collected_facts pkts : ∀ api,
  ai_ctx (collected api pkts) = ai_ctx api ∧ ai_pkts (collected api pkts) = ai_pkts api ++ pkts ∧
  (ai_hasACK (collected api pkts) = true ↔ ai_hasACK api = true ∨ acks pkts ≠ []) ∧
  ai_maxACK (collected api pkts) = foldl Z.max (ai_maxACK api) (acks pkts).
Proof.
  induction pkts as [|[p n] pkts IH]; intros api.
  { cbn. rewrite app_nil_r. split_and!; [done|done| |done]. split; [by left|]. by intros [?|[]]. }
  change (collected api ((p, n) :: pkts)) with (collected (api_add api p n) pkts).
  destruct (IH (api_add api p n)) as (E1 & E2 & E3 & E4). rewrite E1, E2, E4.
  unfold acks in *. rewrite filter_cons. cbn [fst]. unfold api_add in *. cbn [ai_ctx ai_pkts ai_maxACK ai_hasACK] in *.
  split_and!; [done|by rewrite <- app_assoc|rewrite E3|]; destruct (IsACKPacket p) eqn:Ep; cbn [andb].
  - rewrite decide_True by done. rewrite orb_true_r, fmap_cons. split; intros _; [by right|by left].
  - rewrite decide_False by done. by rewrite orb_false_r.
  - rewrite decide_True by done. cbn [fmap list_fmap foldl compose fst]. f_equal.
    unfold compose. cbn [fst]. destruct (Z.leb_spec (ai_maxACK api) (GetAckNum p)); lia.
  - by rewrite decide_False.
Qed.

Section theorem.
Context {env : Env}.

(** The loop finds the connection once and collects the packets of the buffer. *)
Lemma read_event_plain sock isListen c x arrivals w :
  ctx_at w c = Some x → synchronised x → owns sock isListen c w x → (0 < length arrivals ≤ 8)%nat →
  Forall (λ d, plain (tc_flowID x) d.1 ∧ DTPHDRSIZE ≤ zlen d.1 ≤ DTP_MTU ∧ d.2 = tc_peerAddr x) arrivals →
  ∃ pkts, Forall2 received arrivals pkts ∧
    OnReadEvent sock isListen arrivals false w = (c ->> tc_nonce := 0;; ProcessAggregatePackets c (collected (api_for c) pkts)) w.
Proof using.
  intros Hx Hs Ho Hlen Hf. unfold OnReadEvent. cbn [andb]. change (Z.to_nat MAX_BATCH) with 8%nat. rewrite take_ge by lia.
  set (buf0 := malloc_bytes _). set (buf := fill_buffer 0 arrivals buf0).
  assert (Hb : zlen buf0 = MAX_BATCH * DTP_MTU) by (unfold buf0, malloc_bytes, zlen; rewrite length_resize, Z2Nat.id by (unfold MAX_BATCH, DTP_MTU; lia); reflexivity).
  clearbody buf0. pose proof (packets_received arrivals 0 buf0 ltac:(lia)) as Hr. rewrite Hb in Hr.
  specialize (Hr ltac:(unfold MAX_BATCH, DTP_MTU; lia)). fold buf in Hr.
  assert (Hr' : Forall2 received arrivals (packets_at 0 arrivals buf)).
  { apply Hr. eapply Forall_impl; [exact Hf|]. intros d (_ & ? & _). lia. } clear Hr.
  destruct (collected_facts (packets_at 0 arrivals buf) (api_for c)) as (E1 & _).
  exists (packets_at 0 arrivals buf). split; [done|].
  destruct arrivals as [|[d a] l]; [cbn in Hlen; lia|].
  erewrite bind_ok; [|apply (read_loop_first sock isListen c buf d a l 0 w x Hx Hs Ho)].
  - unfold flush. rewrite E1. by rewrite (modctx_ok c x).
  - intros w' ->. unfold owns in *. destruct isListen.
    2: { unfold DTPGetContextBySocket in *. destruct (_ || _); [done|]. by injection Ho as ->. }
    destruct Ho as [Hm Hon]. set (x' := x <| tc_nonce := 0 |>).
    destruct (flowmap_ok_ctx w c x x' Hm Hx) as [Hm' Hon']; [reflexivity..|].
    split; [exact Hm'|by apply Hon'].
  - apply Forall_forall. intros p [k Hp]%list_elem_of_lookup.
    destruct (Forall2_lookup_r _ _ _ _ _ Hr' Hp) as (e & He%list_elem_of_lookup_2 & ([pad E] & _)).
    rewrite Forall_forall in Hf. destruct (Hf e He) as (Hpl & Hl & _). rewrite E. apply plain_app; [lia|done].
  - eapply Forall_impl; [exact Hf|]. intros e (_ & _ & ?). done.
Qed.

(** C10: Batching does not change the result.  Up to eight plain packets (data and
    acknowledgements) of a synchronised connection from the address of its peer, at the
    listening socket or at its own, are processed exactly as if the connection were looked up
    once, its nonce cleared, and [ProcessAggregatePackets] called with all of them in their
    order and with the greatest acknowledgement number: neither the shared receive buffer nor
    the memory of the last connection mixes anything up. *)
Theorem batch_processed_together sock isListen c x arrivals w :
  ctx_at w c = Some x → synchronised x → owns sock isListen c w x → (0 < length arrivals ≤ 8)%nat →
  Forall (λ d, plain (tc_flowID x) d.1 ∧ DTPHDRSIZE ≤ zlen d.1 ≤ DTP_MTU ∧ d.2 = tc_peerAddr x) arrivals →
  ∃ pkts api, Forall2 received arrivals pkts ∧ ai_ctx api = Some c ∧ ai_pkts api = pkts ∧
    (ai_hasACK api = true ↔ acks pkts ≠ []) ∧ ai_maxACK api = foldl Z.max 0 (acks pkts) ∧
    OnReadEvent sock isListen arrivals false w = (c ->> tc_nonce := 0;; ProcessAggregatePackets c api) w.
Proof using.
  intros Hx Hs Ho Hlen Hf. destruct (read_event_plain sock isListen c x arrivals w Hx Hs Ho Hlen Hf) as (pkts & Hr & E).
  destruct (collected_facts pkts (api_for c)) as (E1 & E2 & E3 & E4).
  exists pkts, (collected (api_for c) pkts). split_and!; [done..| |done|done]. rewrite E3. naive_solver.
Qed.
End theorem.

(** ** A batch of two packets *)

Definition demo_batch : list (bytes * sockaddr_in) :=
  [((DTPGenerateHeader (zeros DTPHDRSIZE) 0 0 77 DTP_FLAG_ACK 100).1 ++ [1; 2; 3], peer_addr);
   ((DTPGenerateHeader (zeros DTPHDRSIZE) 3 0 77 0 100).1 ++ [4], peer_addr)].

Example batch_processed_together_witness :
  ∃ pkts api, Forall2 received demo_batch pkts ∧ ai_ctx api = Some 5 ∧ ai_pkts api = pkts ∧ (ai_hasACK api = true ↔ acks pkts ≠ []) ∧
    ai_maxACK api = foldl Z.max 0 (acks pkts) ∧
    OnReadEvent 4 true demo_batch false (host conn) = (5 ->> tc_nonce := 0;; ProcessAggregatePackets 5 api) (host conn).
Proof.
  apply (batch_processed_together 4 true 5 conn demo_batch (host conn)); [apply host_ctx|by split_and!| |cbn; lia|].
  - split; [apply host_flowmap|]. exists conn. split_and!; [apply host_ctx|done|by left].
  - repeat constructor; by vm_compute.
Defined.
