(* ===== verification/Socket.v ===== *)
(** * The socket calls (dtp_socket.c)

    Opening, connecting and listening, [dtp_send], [dtp_recv], [dtp_close] and
    their relatives.  A call that blocks waits on a condition variable; [wakes] is
    how often it may wake up before the model gives up on it ([Spin]: the call
    blocks for ever). *)

From S2P Require Import Prelude Double Header Context World ContextTable Pools RetransQueue.
From S2P Require Import Select Congestion Lifecycle Send Intervals Reassembly Ack Challenge.
From S2P Require Import Teardown Handshake.

Definition O_NONBLOCK : Z := 2048.
Definition MSG_PEEK : Z := 2.

Section env.
Context {env : Env}.

(** ** Opening *)

(** The two ends of the socket pair are descriptors of the library and of the
    application. *)
Definition RunTransportThread : M unit :=
  a ← udp_socket;
  b ← udp_socket;
  modify (λ w, w <| w_inner_sock := a |> <| w_isLibThreadRunning := true |>).

Definition ensure_thread : M unit :=
  running ← gets w_isLibThreadRunning;
  mwhen (negb running) RunTransportThread.

Definition dtp_isdtpsocket (socket : Z) : M bool := DTPIsDTPSocket socket.

Definition dtp_getsockname (socket : Z) : M (option Z) :=
  c ← DTPGetContextBySocket socket;
  match c with
  | Some ctx => x ← getctx ctx; port ← sock_port (tc_sock x); mret (Some port)
  | None => mret None
  end.

(** [len] is the size of the caller's address object. *)
Definition SIZEOF_SOCKADDR_IN : Z := 16.
Definition dtp_getpeername (socket len : Z) : M (option sockaddr_in) :=
  if len =? SIZEOF_SOCKADDR_IN then
    c ← DTPGetContextBySocket socket;
    match c with
    | Some ctx => x ← getctx ctx; mret (Some (tc_peerAddr x))
    | None => set_errno EBADF;; mret None
    end
  else (set_errno EINVAL;; mret None).

Definition dtp_socket : M Z :=
  c ← DTPCreateContext;
  match c with
  | Some ctx => x ← getctx ctx; mret (tc_sock x)
  | None => mret (-1)
  end.

(** The guard most calls begin with: the context of an active socket. *)
Definition active_ctx (socket : Z) : M (option Z) :=
  c ← DTPGetContextBySocket socket;
  match c with
  | Some ctx => x ← getctx ctx;
                if tc_isActive x then mret (Some ctx) else (set_errno EBADF;; mret None)
  | None => set_errno EBADF;; mret None
  end.

(** [ok]: the kernel's [bind] succeeds (with the port of the address). *)
Definition dtp_bind (socket : Z) (address : sockaddr_in) (ok : bool) : M Z :=
  c ← active_ctx socket;
  match c with
  | None => mret (-1)
  | Some ctx =>
    x ← getctx ctx;
    if tc_isBound x then (set_errno EINVAL;; mret (-1))
    else if ok then
      modify (λ w, w <| w_ports ::= <[tc_sock x := sin_port address]> |>);;
      ctx ->> tc_isBound := true;;
      mret 0
    else mret (-1)
  end.

(** [while ((ctx->tc_flowID = DTPGenerateFlowID(hid)) == 0xFFFFFFFF)] *)
Fixpoint pick_flow_id (tries : nat) (ctx : Z) : M unit :=
  match tries with
  | O => mfault Spin
  | S tries =>
    fid ← DTPGenerateFlowID DTPGenerateHostID;
    ctx ->> tc_flowID := fid;;
    mwhen (fid =? 0xFFFFFFFF) (pick_flow_id tries ctx)
  end.

(** The public key as the SYN carries it: lengths and numbers. *)
Definition public_key : bytes :=
  le32 (zlen env_rsa_n) ++ env_rsa_n ++ le32 (zlen env_rsa_e) ++ env_rsa_e.

Definition dtp_connect (tries : nat) (socket : Z) (address : sockaddr_in) (address_len : Z) : M Z :=
  if negb (address_len =? SIZEOF_SOCKADDR_IN) then mret (-1)
  else
    c ← DTPGetContextBySocket socket;
    match c with
    | None => mret (-1)
    | Some ctx =>
      ensure_thread;;
      inner_sock ← gets w_inner_sock;
      modctx ctx (λ x, x <| tc_isock := inner_sock |> <| tc_peerAddr := address |>
                         <| tc_state := SOCK_SYN_SENT |> <| tc_sendSYN := true |>
                         <| tc_seqNum := 0 |> <| tc_lastByteAcked := 0 |>
                         <| tc_lastByteWritten := 0 |> <| tc_lastByteSent := 0 |>);;
      pick_flow_id tries ctx;;
      let off := zlen public_key in
      x ← getctx ctx;
      wb ← block_write (tc_writeBuf x) 0 public_key;
      modctx ctx (λ x, x <| tc_keyLen := off |>
                         <| tc_lastByteWritten := tc_lastByteWritten x +u off |>
                         <| tc_writeBuf := wb |>);;
      DTPWriteAvail socket ctx;;
      x ← getctx ctx;
      mwhen (negb (tc_beingMonitored x))
        (ctx ->> tc_beingMonitored := true;;
         DTPSendEventToLibThread inner_sock (mk_event (tc_sock x) DTP_ADD_READ_EVENT));;
      mret 0
    end.

Definition dtp_listen (socket backlog : Z) : M Z :=
  c ← DTPGetContextBySocket socket;
  match c with
  | None => set_errno ENOTSOCK;; mret (-1)
  | Some ctx =>
    x ← getctx ctx;
    if negb (tc_isBound x) then (set_errno EINVAL;; mret (-1))
    else if negb (is_state (tc_state x) SOCK_CLOSED) then
      if is_state (tc_state x) SOCK_LISTEN && (tc_qidx x =? 0) then
        modctx ctx (λ x, x <| tc_listenQ := Some (zeros backlog) |> <| tc_backlog := backlog |>);;
        mret 0
      else (set_errno EINVAL;; mret (-1))
    else
      modctx ctx (λ x, x <| tc_state := SOCK_LISTEN |> <| tc_listenQ := Some (zeros backlog) |>
                         <| tc_qidx := 0 |> <| tc_backlog := backlog |>);;
      mret 0
  end.

(** [while (ctx->tc_qidx == 0)]; [false]: EAGAIN. *)
Fixpoint accept_wait (wakes : nat) (ctx : Z) : M bool :=
  x ← getctx ctx;
  if negb (tc_qidx x =? 0) then mret true
  else if flag_set (tc_fstatus x) O_NONBLOCK then (set_errno EAGAIN;; mret false)
  else match wakes with
  | O => mfault Spin
  | S wakes =>
    ctx ->> tc_isReadBlocked := true;;
    cond_wait ctx readBufCond;;
    ctx ->> tc_isReadBlocked := false;;
    x ← getctx ctx;
    mwhen (tc_isTransportWaiting x) (cond_signal ctx readBufCond);;
    accept_wait wakes ctx
  end.

(** Take the oldest connection off the queue. *)
Definition listenQ_pop (ctx : Z) : M Z :=
  x ← getctx ctx;
  match tc_listenQ x with
  | None => mfault NullDeref
  | Some q =>
    match q with
    | [] => mfault OutOfBounds
    | new_fd :: rest =>
      let n := tc_qidx x - 1 in
      mwhen (n =? 0) (DTPSelectEventClr (tc_sock x) DTP_FD_READ);;
      (* memmove(&q[0], &q[1], n) *)
      q' ← (if n =? 0 then mret q
            else if in_block 1 n q then mret (zsplice 0 (zslice 1 n q) q) else mfault OutOfBounds);
      modctx ctx (λ x, x <| tc_qidx := n |> <| tc_listenQ := Some q' |>);;
      mret new_fd
    end
  end.

(** [address]: [None] when the caller passes no address object, else the value
    [address_len] points to ([None] for a NULL pointer). *)
Definition dtp_accept (wakes : nat) (socket : Z) (address : option (option Z)) : M Z :=
  c ← active_ctx socket;
  match c with
  | None => mret (-1)
  | Some ctx =>
    x ← getctx ctx;
    if negb (is_state (tc_state x) SOCK_LISTEN) then (set_errno EINVAL;; mret (-1))
    else
      ensure_thread;;
      inner_sock ← gets w_inner_sock;
      ctx ->> tc_isock := inner_sock;;
      mwhen (negb (tc_beingMonitored x))
        (ctx ->> tc_beingMonitored := true;;
         DTPSendEventToLibThread inner_sock (mk_event (tc_sock x) DTP_ADD_LISTEN_EVENT));;
      ok ← accept_wait wakes ctx;
      if negb ok then mret (-1)
      else
        new_fd ← listenQ_pop ctx;
        match address with
        | None => mret new_fd
        | Some None => set_errno EINVAL;; mret (-1)
        | Some (Some n) => r ← dtp_getpeername new_fd n;
                    mret (match r with Some _ => new_fd | None => -1 end)
        end
  end.

(** ** Receiving *)

(** An [int] compared with a [size_t]. *)
Definition size_t (n : Z) : Z := if n <? 0 then n + 2 ^ 64 else n.

(** [len = __min(length, GetReadBufDataSize(ctx))] *)
Definition readable (x : dtp_context) (length : Z) : Z :=
  i32 (c__min length (size_t (GetReadBufDataSize x))).

(** The connection is closed for reading (or closed altogether). *)
Definition read_closed (s : sock_state) : bool := is_state s SOCK_CLOSED || closing_state s.

(** [while (len == 0)] *)
Fixpoint recv_wait (wakes : nat) (ctx : Z) (length len : Z) : M Z :=
  if negb (len =? 0) then mret len
  else
    x ← getctx ctx;
    if read_closed (tc_state x) then mret 0
    else if flag_set (tc_fstatus x) O_NONBLOCK then (set_errno EAGAIN;; mret (-1))
    else match wakes with
    | O => mfault Spin
    | S wakes =>
      ctx ->> tc_isReadBlocked := true;;
      cond_wait ctx readBufCond;;
      ctx ->> tc_isReadBlocked := false;;
      x ← getctx ctx;
      if tc_connTimedOut x then (set_errno ETIMEDOUT;; mret (-1))
      else if tc_connReset x then (set_errno ECONNRESET;; mret (-1))
      else
        mwhen (tc_isTransportWaiting x) (cond_signal ctx readBufCond);;
        recv_wait wakes ctx length (readable x length)
    end.

(** Slide the head of the interval list by [len] bytes. *)
Definition drain_head (ctx : Z) (len : Z) : M unit :=
  x ← getctx ctx;
  let head := tc_readBufHead x in
  modbuf head (λ b, mk_buffer (b_seq b +u len) (b_len b -u len) (b_next b));;
  h ← getbuf head;
  mwhen (b_len h =? 0)
    (ctx ->> tc_readBufHead := b_next h;;
     AddToFreeBufferList head;;
     x ← getctx ctx;
     (* if (GetReadBufDataSize(ctx) > 0 && ctx->tc_lastByteRead != ctx->tc_readBufHead->seq) *)
     mwhen (0 <? GetReadBufDataSize x) (getbuf (tc_readBufHead x);; mret tt)).

(** The readiness of the socket after a read. *)
Definition update_readable (ctx : Z) : M unit :=
  x ← getctx ctx;
  mwhen (GetReadBufDataSize x =? 0)
    (if tc_isFINRcvd x then DTPSelectEventSet (tc_sock x) DTP_FD_READ
     else mwhen (negb (closing_state (tc_state x))) (DTPSelectEventClr (tc_sock x) DTP_FD_READ)).

(** Move the bytes behind the ones that were read to the front. *)
Definition slide_read_buf (ctx : Z) (len : Z) : M unit :=
  x ← getctx ctx;
  let moveLen := i32 (tc_lastByteRcvd x -u tc_lastByteRead x) in
  mwhen (0 <? moveLen)
    (d ← block_read (tc_readBuf x) len moveLen;
     rb ← block_write (tc_readBuf x) 0 d;
     ctx ->> tc_readBuf := rb).

(** Tell the peer when a closed window opens. *)
Definition reopen_window (ctx : Z) : M unit :=
  x ← getctx ctx;
  mwhen (tc_isMyWindowZero x && (0 <? AdvertisedWindow x))
    (ctx ->> tc_isMyWindowZero := false;; DTPSendACKPacket ctx;; mret tt).

(** The block for a read that is not a peek. *)
Definition consume (ctx : Z) (len : Z) : M unit :=
  modctx ctx (λ x, x <| tc_lastByteRead := tc_lastByteRead x +u len |>);;
  drain_head ctx len;;
  slide_read_buf ctx len;;
  update_readable ctx;;
  reopen_window ctx;;
  modctx ctx (λ x, x <| tc_blockRemain := tc_blockRemain x -u len |>).

(** The result is the return value and the bytes copied to the caller. *)
Definition dtp_recv (wakes : nat) (socket length flags : Z) : M (Z * bytes) :=
  c ← active_ctx socket;
  match c with
  | None => mret (-1, [])
  | Some ctx =>
    x ← getctx ctx;
    if tc_connTimedOut x then (set_errno ETIMEDOUT;; mret (-1, []))
    else if tc_connReset x then (set_errno ECONNRESET;; mret (-1, []))
    else if length =? 0 then mret (0, [])
    else
      len ← recv_wait wakes ctx length (readable x length);
      if 0 <? len then
        x ← getctx ctx;
        getbuf (tc_readBufHead x);;
        d ← block_read (tc_readBuf x) 0 len;
        mwhen (negb (flag_set flags MSG_PEEK)) (consume ctx len);;
        mret (len, d)
      else mret (len, [])
  end.

Definition dtp_read (wakes : nat) (socket length : Z) : M (Z * bytes) := dtp_recv wakes socket length 0.

(** ** Sending *)

(** The connection is closed for writing. *)
Definition write_closed (s : sock_state) : bool := is_state s SOCK_CLOSED || closing_state s.

(** [__min(length, avail)]: the comparison is unsigned, as [length] is. *)
Definition writable (x : dtp_context) (length : Z) : Z :=
  i32 (c__min length (size_t (GetAvailWriteBufSize x))).

(** [while (len == 0)] *)
Fixpoint send_wait (wakes : nat) (ctx : Z) (length len : Z) : M Z :=
  if negb (len =? 0) then mret len
  else
    x ← getctx ctx;
    if write_closed (tc_state x) then (set_errno EPIPE;; mret (-1))
    else if tc_connTimedOut x then (set_errno ETIMEDOUT;; mret (-1))
    else if tc_connReset x then (set_errno ECONNRESET;; mret (-1))
    else if flag_set (tc_fstatus x) O_NONBLOCK then (set_errno EAGAIN;; mret (-1))
    else match wakes with
    | O => mfault Spin
    | S wakes =>
      ctx ->> tc_isWriteBlocked := true;;
      cond_wait ctx writeBufCond;;
      ctx ->> tc_isWriteBlocked := false;;
      x ← getctx ctx;
      send_wait wakes ctx length (writable x length)
    end.

(** The guards [dtp_send] and [dtp_sendfile] share, up to the wait; [None]: the
    call returned -1 or 0. *)
Definition send_guard (wakes : nat) (socket length : Z) : M (Z + Z * Z) :=
  c ← active_ctx socket;
  match c with
  | None => mret (inl (-1))
  | Some ctx =>
    x ← getctx ctx;
    if length =? 0 then mret (inl 0)
    else if write_closed (tc_state x) then (set_errno EPIPE;; mret (inl (-1)))
    else if tc_connReset x then (set_errno ECONNRESET;; mret (inl (-1)))
    else
      len ← send_wait wakes ctx length (writable x length);
      mret (inr (ctx, len))
  end.

(** Append [d] to the write buffer and try to send it. *)
Definition append_data (ctx : Z) (d : bytes) : M unit :=
  x ← getctx ctx;
  wb ← block_write (tc_writeBuf x) (GetWriteBufOff x) d;
  modctx ctx (λ x, x <| tc_writeBuf := wb |>
                     <| tc_lastByteWritten := tc_lastByteWritten x +u zlen d |>);;
  x ← getctx ctx;
  mwhen ((GetAvailWriteBufSize x =? 0) && negb (closing_state (tc_state x)))
    (DTPSelectEventClr (tc_sock x) DTP_FD_WRITE);;
  DTPWriteAvail (tc_sock x) ctx.

(** [buf] is the caller's data; its length is the argument [length]. *)
Definition dtp_send (wakes : nat) (socket : Z) (buf : bytes) : M Z :=
  r ← send_guard wakes socket (zlen buf);
  match r with
  | inl v => mret v
  | inr (ctx, len) =>
    mwhen (0 <? len) (append_data ctx (zslice 0 len buf));;
    mret len
  end.

Definition dtp_write (wakes : nat) (socket : Z) (buf : bytes) : M Z := dtp_send wakes socket buf.

(** [file]: the bytes [read(in_fd, ...)] finds at the offset, [None] when a
    system call on the file fails. *)
Definition dtp_sendfile (wakes : nat) (out_fd in_fd : Z) (file : option bytes) (count : Z) : M Z :=
  a ← dtp_isdtpsocket out_fd;
  b ← dtp_isdtpsocket in_fd;
  if negb ((a : bool) && negb b) then (set_errno EBADF;; mret (-1))
  else
    r ← send_guard wakes out_fd count;
    match r with
    | inl v => mret v
    | inr (ctx, len) =>
      if 0 <? len then
        match file with
        | None => mret (-1)
        | Some d =>
          let d := zslice 0 len d in
          mwhen (0 <? zlen d) (append_data ctx d);;
          mret (zlen d)
        end
      else mret len
    end.

(** ** Closing *)

Definition dtp_close (socket : Z) : M Z :=
  c ← active_ctx socket;
  match c with
  | None => mret (-1)
  | Some ctx =>
    ctx ->> tc_closeCalled := true;;
    x ← getctx ctx;
    mwhen (negb (is_state (tc_state x) SOCK_CLOSED) && negb (tc_connReset x))
      (DTPWriteAvail (tc_sock x) ctx;;
       mwhen (tc_useLinger x)
         (ctx ->> tc_waitACK := true;;
          cond_wait ctx closeCond;;
          ctx ->> tc_waitACK := false));;
    x ← getctx ctx;
    mwhen (tc_useLinger x) (DTPCloseContext ctx);;
    mret 0
  end.
End env.
