(* ===== verification/Delivery.v ===== *)
(** * Reading the stream (dtp_socket.c)

    [dtp_recv] on a connection whose receive side satisfies [rcv_ok]: it hands the
    application the next bytes of the stream, in order, and keeps the
    invariant. *)

From S2P Require Import Prelude Double Header Context World ContextTable Pools RetransQueue.
From S2P Require Import Select Congestion Lifecycle Send Scenario Intervals Reassembly Receiver.
From S2P Require Import Transmit Ack Challenge Teardown Handshake Socket.

(** [n] bytes of the stream from position [p]. *)
Definition stream_bytes (S : stream) (p n : Z) : bytes := (λ i, S (p + Z.of_nat i)) <$> seq 0 (Z.to_nat n).

(** A socket of the application: its number indexes the context table and the
    bit sets. *)
Record sock_ok (c : Z) (x : dtp_context) : Prop := {
  so_sock : tc_sock x = c; so_range : 0 ≤ c < FD_SETSIZE_S }.

Lemma get_ctx_by_socket c x (Q : option Z → world → Prop) w :
  sock_ok c x → Q (Some c) w → wp (DTPGetContextBySocket c) Q w.
Proof.
  intros [_ Hr] HQ. unfold DTPGetContextBySocket, batch_of, FD_SETSIZE_S, FD_SETSIZE,
    NUM_BATCH, BATCH_SIZE_BITS in *.
  rewrite (proj2 (Z.ltb_ge c 0)) by lia. rewrite Z.shiftr_div_pow2 by lia.
  rewrite (proj2 (Z.leb_gt 1024 (c / 2 ^ 12))); [by apply wp_ret|]. apply Z.div_lt_upper_bound; lia.
Qed.

Lemma active_ctx_spec c x (Q : option Z → world → Prop) w :
  sock_ok c x → ctx_at w c = Some x → tc_isActive x = true → Q (Some c) w → wp (active_ctx c) Q w.
Proof.
  intros Hs Hx Ha HQ. apply wp_bind. eapply get_ctx_by_socket; [done|].
  apply wp_bind. eapply wp_getctx; [done|]. rewrite Ha. by apply wp_ret.
Qed.

Lemma zget_ext l l' : zlen l = zlen l' → (∀ i, 0 ≤ i < zlen l → zget l i = zget l' i) → l = l'.
Proof.
  intros Hl Hi. apply list_eq. intros i. destruct (decide (Z.of_nat i < zlen l)) as [Hlt|Hge].
  - specialize (Hi (Z.of_nat i)).
    rewrite <- (Nat2Z.id i), !zget_lookup, Hi; [done|lia..].
  - unfold zlen in *. rewrite !(proj2 (lookup_ge_None _ _)); [done|lia..].
Qed.

Lemma zlen_stream S p n : 0 ≤ n → zlen (stream_bytes S p n) = n.
Proof. intros. unfold stream_bytes, zlen. rewrite length_fmap, length_seq. lia. Qed.

Lemma zget_stream S p n i : 0 ≤ i < n → zget (stream_bytes S p n) i = S (p + i).
Proof.
  intros. unfold zget, stream_bytes. rewrite nth_lookup, list_lookup_fmap, lookup_seq_lt by lia.
  simpl. f_equal. lia.
Qed.

Lemma stream_bytes_app S p n m :
  0 ≤ n → 0 ≤ m → stream_bytes S p (n + m) = stream_bytes S p n ++ stream_bytes S (p + n) m.
Proof.
  intros. unfold stream_bytes. replace (Z.to_nat (n + m)) with (Z.to_nat n + Z.to_nat m)%nat by lia.
  rewrite seq_app, fmap_app. f_equal.
  replace (0 + Z.to_nat n)%nat with (Z.to_nat n + 0)%nat by lia. rewrite <- fmap_add_seq.
  rewrite <- list_fmap_compose. apply list_fmap_ext. intros i k _. simpl. f_equal. lia.
Qed.

(** ** Frames *)

Lemma rcv_ok_io w w' c x S L : io_frame w w' → rcv_ok w c x S L → rcv_ok w' c x S L.
Proof.
  intros [E] [Hb [R1 R2 R3 R4 R5] H1 H2 H3 H4 H5 H6]. constructor; try done.
  rewrite E. constructor; [done..|]. by eapply pool_ok_ext; [..|exact R5].
Qed.

(** Only connection [c], its nodes [L], the pool of nodes and input and output
    differ. *)
Record rcv_step (c : Z) (L : list node) (w w' : world) : Prop := {
  rs_rest : w' = w <| w_bufs := w_bufs w' |> <| w_freeBufferList := w_freeBufferList w' |>
         <| w_freeBufferCount := w_freeBufferCount w' |> <| w_brk := w_brk w' |> <| w_ctxs := w_ctxs w' |>
         <| w_rfds := w_rfds w' |> <| w_wfds := w_wfds w' |>
         <| w_isselectWaiting := w_isselectWaiting w' |> <| w_events := w_events w' |>
         <| w_sent := w_sent w' |> <| w_signals := w_signals w' |> <| w_errno := w_errno w' |>
         <| w_nclock := w_nclock w' |> <| w_nsend := w_nsend w' |> <| w_nrand := w_nrand w' |>;
  rs_heap : ∀ p b, w_bufs w !! p = Some b → p ∉ ptrs L → p ∉ w_freeBufferList w →
                   w_bufs w' !! p = Some b ∧ p ∉ w_freeBufferList w';
  rs_other : ∀ c', c' ≠ c → ctx_at w' c' = ctx_at w c' }.

Lemma rcv_step_keep c L w w' : rkeep c L w w' → rcv_step c L w w'.
Proof. intros [R H O]. constructor; [|done..]. rewrite R. by destruct w. Qed.

Lemma rkeep_sent c L w w' : rkeep c L w w' → w_sent w' = w_sent w.
Proof. intros [R _ _]. by rewrite R. Qed.

Lemma rcv_step_io c L w w' : io_frame w w' → rcv_step c L w w'.
Proof.
  intros [E]. constructor.
  - rewrite E. by destruct w.
  - rewrite E. done.
  - intros. by rewrite E.
Qed.

Lemma rcv_step_trans c L w1 w2 w3 : rcv_step c L w1 w2 → rcv_step c L w2 w3 → rcv_step c L w1 w3.
Proof.
  intros [R1 H1 O1] [R2 H2 O2]. constructor.
  - rewrite R2, R1. by destruct w1.
  - intros p b Hb HpL Hpf. destruct (H1 p b Hb HpL Hpf) as [E1 F1]. by apply H2.
  - intros c' ?. by rewrite O2, O1.
Qed.

(** ** Consuming bytes *)

Section consume.
Context {env : Env} {up : NetUp env}.

Lemma drain_head_spec w c x h R N L n :
  rlist w c x ((h, (R, N)) :: L) → 0 ≤ R → N < 2 ^ 32 → N - R < 2 ^ 31 → 0 < n ≤ N - R →
  tc_lastByteRead x = R + n → tc_nextByteExpected x = N →
  wp (drain_head c n) (λ _ w', ∃ h' L', rlist w' c (x <| tc_readBufHead := h' |>) L' ∧
    ivs L' = trim n ((R, N) :: ivs L) ∧ rkeep c ((h, (R, N)) :: L) w w') w.
Proof.
  intros Hr H0 HN Hd Hn HR HE. pose proof (rlist_alloc _ _ _ [] _ _ _ _ Hr) as (Hh0 & Hm & _ & HhL & Hhf).
  assert (Hhead : tc_readBufHead x = h) by (by destruct (rl_seg _ _ _ _ Hr)).
  unfold drain_head. apply wp_bind. eapply wp_getctx; [apply Hr|]. rewrite Hhead.
  apply wp_bind. eapply wp_modbuf; [done|]. cbn [b_seq b_len b_next]. rewrite !u32_small by (unfold is_u32; lia).
  replace (N - R - n) with (N - (R + n)) by lia.
  pose proof (rlist_update _ _ _ [] _ _ _ _ (R + n) N Hr) as Hr1. simpl in Hr1.
  set (w1 := set w_bufs _ _) in *.
  assert (Hk1 : rkeep c ((h, (R, N)) :: L) w w1).
  { constructor; cbn; [by destruct w| |done]. intros p b Hb Hp Hf.
    rewrite lookup_insert_ne by set_solver. done. }
  apply wp_bind. eapply wp_getbuf; [apply lookup_insert_eq|]. cbn [b_len b_next].
  apply wp_when; intros Hz.
  - apply Z.eqb_eq in Hz. apply wp_bind. eapply wp_modctx; [apply Hr1|].
    set (x1 := set tc_readBufHead _ x). set (w2 := set w_ctxs _ _).
    assert (Hr2 : rlist w2 c x1 L).
    { destruct Hr1 as [Q1 Q2 Q3 Q4 Q5]. simpl in Q2. destruct Q2 as (_ & _ & nx & Hnx & Q2). constructor.
      - by eapply ctx_at_put.
      - pose proof (lseg_head _ _ _ Q2) as ->. exact Q2.
      - by apply NoDup_cons in Q3 as [_ ?].
      - intros p Hp. apply Q4. by right.
      - by eapply pool_ok_ext; [..|exact Q5]. }
    apply wp_bind. eapply wp_mono; [apply (rlist_free _ _ _ _ h Hr2 HhL)|].
    { cbn. rewrite lookup_insert_eq. by eexists. }
    { done. }
    intros _ w3 [Hr3 Hf3]. apply wp_bind. eapply wp_getctx; [apply Hr3|].
    assert (Hds : GetReadBufDataSize x1 = 0).
    { unfold GetReadBufDataSize, x1. cbn. rewrite HR, HE. replace (N - (R + n)) with 0 by lia. done. }
    rewrite Hds. simpl mwhen. apply wp_ret. exists (head_ptr L), L. split_and!; [done| |].
    { simpl. by rewrite (proj2 (Z.eqb_eq _ _)) by lia. }
    eapply rkeep_trans; [done|]. eapply rkeep_trans; [apply rkeep_ctx, rkeep_refl|].
    destruct Hf3 as [F1 F2 F3]. constructor; [done| |done]. intros p b Hb Hp Hpf.
    destruct (F2 p) as [-> F2']; [set_solver|]. by rewrite F2'.
  - apply Z.eqb_neq in Hz. exists h, ((h, (R + n, N)) :: L). split_and!; [|
      simpl; by rewrite (proj2 (Z.eqb_neq _ _)) by lia|done].
    replace (x <| tc_readBufHead := h |>) with x by (subst h; symmetry; apply set_head_id). done.
Qed.

(** The bytes behind the consumed ones move to the front of the buffer. *)
Lemma slide_read_buf_spec w c x L rb n m :
  rlist w c x L → tc_readBuf x = Some rb → 0 ≤ n → 0 ≤ m < 2 ^ 31 → n + m ≤ zlen rb →
  tc_lastByteRcvd x - tc_lastByteRead x = m →
  wp (slide_read_buf c n) (λ _ w', ∃ rb', rlist w' c (x <| tc_readBuf := Some rb' |>) L ∧
    zlen rb' = zlen rb ∧ (∀ i, 0 ≤ i < m → zget rb' i = zget rb (n + i)) ∧
    ∀ L0, rkeep c L0 w w') w.
Proof using.
  intros Hr Hrb Hn Hm Hlen HM. apply wp_bind. eapply wp_getctx; [apply Hr|].
  rewrite i32_sub_u32, HM by (unfold is_i32; lia). apply wp_when; intros Hz.
  - apply Z.ltb_lt in Hz. rewrite Hrb. apply wp_bind, wp_block_read; [lia..|].
    pose proof (zlen_slice n m rb ltac:(lia) ltac:(lia) Hlen) as Hsl.
    apply wp_bind, wp_block_write; [lia..|]. eapply wp_modctx; [apply Hr|].
    eexists. split_and!; [by eapply rlist_ctx|apply zlen_splice; lia| |intros; apply rkeep_ctx, rkeep_refl].
    intros i Hi. rewrite zget_splice_in by lia. rewrite Z.sub_0_r. by apply zget_slice.
  - apply Z.ltb_ge in Hz. exists rb. split_and!; [|done|intros; lia|intros; apply rkeep_refl].
    replace (x <| tc_readBuf := Some rb |>) with x; [done|]. rewrite <- Hrb. by destruct x.
Qed.

Lemma update_readable_io c x (Q : unit → world → Prop) w :
  ctx_at w c = Some x → sock_ok c x →
  (∀ w', io_frame w w' → w_sent w' = w_sent w → Q tt w') → wp (update_readable c) Q w.
Proof using.
  intros Hx [Hs Hr] HQ. apply wp_bind. eapply wp_getctx; [done|]. rewrite Hs.
  assert (Q tt w) by (apply HQ; [reflexivity|done]).
  apply wp_when; intros _; [|done]. case_match; [apply io_select_set; auto|].
  apply wp_when; intros _; [|done]. apply io_select_clr; auto.
Qed.

(** The datagrams [ds] are acknowledgements of connection [x]. *)
Definition announces (x : dtp_context) (ds : list datagram) : Prop :=
  Forall (λ d, GetAckNum (dg_data d) = GetAckNumber x ∧ is_u16 (GetRcvdWindow (dg_data d))) ds.

Lemma reopen_window_spec c x S L (Q : unit → world → Prop) w :
  rcv_ok w c x S L → is_u32 (tc_lastByteSent x) → is_u32 (tc_flowID x) →
  (∀ w' z ds, rcv_ok w' c (x <| tc_isMyWindowZero := z |>) S L → (∀ L0, rcv_step c L0 w w') →
     w_sent w' = w_sent w ++ ds → announces x ds → Q tt w') →
  wp (reopen_window c) Q w.
Proof using up.
  intros Hok Hse Hf HQ. apply wp_bind. eapply wp_getctx; [by eapply rcv_ok_at|].
  apply wp_when; intros _.
  - apply wp_bind. eapply wp_mod_rcv; [done|done|]. intros w1 Hok1 Hx1 Hk1.
    apply wp_bind. eapply io_send_ack; [done|]. intros w2 Hio Hs2. apply wp_ret.
    eapply HQ; [by eapply rcv_ok_io|intros L0|by rewrite Hs2, (rkeep_sent _ _ _ _ (Hk1 []))|].
    + eapply rcv_step_trans; [by apply rcv_step_keep|by apply rcv_step_io].
    + apply Forall_singleton. set (x1 := set tc_isMyWindowZero _ x).
      exact (control_header_ack x1 DTP_FLAG_ACK Hse Hf).
  - eapply (HQ w (tc_isMyWindowZero x) []); [by destruct x|intros; apply rcv_step_io; reflexivity
      |by rewrite app_nil_r|by constructor].
Qed.

(** [x] after [n] bytes were read. *)
Definition after_read (x x' : dtp_context) (n : Z) : Prop :=
  x' = x <| tc_lastByteRead := tc_lastByteRead x + n |> <| tc_readBuf := tc_readBuf x' |>
         <| tc_readBufHead := tc_readBufHead x' |> <| tc_isMyWindowZero := tc_isMyWindowZero x' |>
         <| tc_blockRemain := tc_blockRemain x -u n |>.

Lemma rcv_last_bounds w c x S L :
  rcv_ok w c x S L → tc_lastByteRead x < tc_nextByteExpected x →
  ∃ l, ivs L = (tc_lastByteRead x, tc_nextByteExpected x) :: l ∧
    tc_nextByteExpected x ≤ tc_lastByteRcvd x ≤ tc_lastByteRead x + tc_readBufLen x.
Proof using.
  intros [_ _ _ _ Hg Hb Hnx Hl] Hlt. destruct (next_ok_head _ _ _ Hg Hnx Hlt) as [l El].
  exists l. split; [done|]. rewrite El in *.
  destruct (last_end_split _ (tc_nextByteExpected x) [] _ _ _ Hg) as [H1 H2].
  assert (Hne : (tc_lastByteRead x, tc_nextByteExpected x) :: l ≠ []) by done.
  destruct (last_end_in (tc_nextByteExpected x) _ Hne) as [s' Hs']. rewrite <- Hl in Hs'. destruct (Hb _ _ Hs') as (_ & _ & ?).
  simpl app in *. split; [|done]. destruct l as [|i l]; [by rewrite Hl|].
  rewrite Hl. specialize (H2 ltac:(done)). lia.
Qed.

Lemma consume_spec w c x S L n :
  rcv_ok w c x S L → sock_ok c x → is_u32 (tc_lastByteSent x) → is_u32 (tc_flowID x) →
  0 < n ≤ tc_nextByteExpected x - tc_lastByteRead x →
  tc_lastByteRead x + n + tc_readBufLen x < 2 ^ 32 →
  wp (consume c n) (λ _ w', ∃ x' L' ds, rcv_ok w' c x' S L' ∧ ivs L' = trim n (ivs L) ∧
    after_read x x' n ∧ w_sent w' = w_sent w ++ ds ∧ announces x ds ∧ rcv_step c L w w') w.
Proof using up.
  intros Hok Hso Hse Hf Hn Hw. destruct (rcv_last_bounds _ _ _ _ _ Hok ltac:(lia)) as (l & Hivs & Hlast).
  pose proof Hok as [(rb & Hrb & Hrl & Hdata) Hr Hrange Hpos Hg Hb Hnx Hl].
  pose proof Hrange as [? ? ?]. rewrite Hivs in *.
  destruct L as [|[h iv] L]; [done|]. injection Hivs as -> Hivs.
  unfold consume. apply wp_bind. eapply wp_modctx; [apply Hr|].
  rewrite u32_small by (unfold is_u32; lia). set (x1 := set tc_lastByteRead _ x). set (w1 := set w_ctxs _ w).
  assert (Hr1 : rlist w1 c x1 ((h, (tc_lastByteRead x, tc_nextByteExpected x)) :: L)) by (by eapply rlist_ctx).
  apply wp_bind. eapply wp_mono; [eapply drain_head_spec; [exact Hr1|lia|lia|lia|lia|done|done]|].
  intros _ w2 (h' & L' & Hr2 & HL' & Hk2). rewrite Hivs in HL'.
  apply wp_bind. eapply wp_mono.
  { eapply (slide_read_buf_spec _ _ _ _ rb n (tc_lastByteRcvd x - (tc_lastByteRead x + n)));
      [exact Hr2|done|lia|lia|lia|done]. }
  intros _ w3 (rb' & Hr3 & Hrl' & Hmv & Hk3). set (x3 := set tc_readBuf _ _) in *.
  assert (Hok3 : rcv_ok w3 c x3 S L').
  { constructor; rewrite ?HL'; unfold x3, x1; cbn.
    - exists rb'. split_and!; [done|lia|]. intros p Hp.
      eapply (trim_covered _ _ n _ Hg Hn) in Hp as [Hp Hge].
      pose proof (covered_last_end _ (tc_nextByteExpected x) _ _ Hg Hp) as Hlt. rewrite <- Hl in Hlt.
      rewrite Hmv by lia. rewrite <- (Hdata p Hp). f_equal. lia.
    - done.
    - constructor; lia.
    - done.
    - by apply trim_gapped.
    - intros s e Hin. destruct (trim_bounds _ _ n _ Hg Hn _ _ Hin) as (? & ? & s' & Hs').
      destruct (Hb _ _ Hs') as (_ & _ & ?). split_and!; [done|done|lia].
    - by apply trim_next.
    - etrans; [exact Hl|]. symmetry. apply (trim_last _ _ n). }
  apply wp_bind. eapply update_readable_io; [by eapply rcv_ok_at|by destruct Hso|].
  intros w4 Hio Hs4. eapply (rcv_ok_io _ w4) in Hok3; [|done].
  apply wp_bind. eapply reopen_window_spec; [done..|]. intros w5 z ds Hok5 Hs5 Hse5 Han.
  eapply wp_mod_rcv; [done|done|]. intros w6 Hok6 _ Hk6. eexists _, L', ds.
  split_and!; [exact Hok6|done| | |exact Han|].
  - unfold after_read, x3, x1. by destruct x.
  - rewrite (rkeep_sent _ _ _ _ (Hk6 [])), Hse5, Hs4, (rkeep_sent _ _ _ _ (Hk3 [])), (rkeep_sent _ _ _ _ Hk2). done.
  - eapply rcv_step_trans; [apply rcv_step_keep, rkeep_ctx, rkeep_refl|].
    eapply rcv_step_trans; [by apply rcv_step_keep|].
    eapply rcv_step_trans; [by apply rcv_step_keep|].
    eapply rcv_step_trans; [by apply rcv_step_io|].
    eapply rcv_step_trans; [apply Hs5|by apply rcv_step_keep].
Qed.

(** ** [dtp_recv] *)

(** An open connection the application reads from. *)
Record reading (c : Z) (x : dtp_context) : Prop := {
  rd_sock : sock_ok c x; rd_active : tc_isActive x = true;
  rd_hdr : is_u32 (tc_lastByteSent x) ∧ is_u32 (tc_flowID x);
  rd_time : tc_connTimedOut x = false; rd_reset : tc_connReset x = false }.

Lemma data_size_exact w c x S L :
  rcv_ok w c x S L → GetReadBufDataSize x = tc_nextByteExpected x - tc_lastByteRead x.
Proof using.
  intros Hok. pose proof (rcv_next_le _ _ _ _ _ Hok). destruct Hok as [_ _ [? ? ?] ? _ _ _ _].
  unfold GetReadBufDataSize. apply i32_sub_u32. unfold is_i32. lia.
Qed.

Lemma readable_exact w c x S L length :
  rcv_ok w c x S L → 0 ≤ length →
  readable x length = length `min` (tc_nextByteExpected x - tc_lastByteRead x).
Proof using.
  intros Hok Hlen. unfold readable. rewrite (data_size_exact _ _ _ _ _ Hok).
  pose proof (rcv_next_le _ _ _ _ _ Hok). destruct Hok as [_ _ [? ? ?] ? _ _ _ _].
  unfold size_t. rewrite (proj2 (Z.ltb_ge _ _)) by lia. unfold c__min.
  destruct (Z.ltb_spec (tc_nextByteExpected x - tc_lastByteRead x) length);
    rewrite i32_small; unfold is_i32; lia.
Qed.

Lemma recv_wait_done wakes c length len (Q : Z → world → Prop) w :
  len ≠ 0 → Q len w → wp (recv_wait wakes c length len) Q w.
Proof using. intros Hl HQ. destruct wakes; simpl; by rewrite (proj2 (Z.eqb_neq _ _)). Qed.

(** The bytes at the front of the read buffer are the next bytes of the stream. *)
Lemma front_bytes w c x S L rb n :
  rcv_ok w c x S L → tc_readBuf x = Some rb →
  0 < n ≤ tc_nextByteExpected x - tc_lastByteRead x →
  n ≤ zlen rb ∧ zslice 0 n rb = stream_bytes S (tc_lastByteRead x) n.
Proof using.
  intros Hok Hrb Hn. pose proof (rcv_next_le _ _ _ _ _ Hok).
  destruct Hok as [(rb' & Hrb' & Hrl & Hdata) _ _ _ _ _ (_ & Hc & _) _]. simplify_eq.
  split; [lia|]. apply zget_ext; rewrite ?zlen_stream, ?zlen_slice by lia; [done|].
  intros i Hi. rewrite zget_stream, zget_slice by lia.
  rewrite <- (Hdata (tc_lastByteRead x + i)) by (apply Hc; lia). f_equal. lia.
Qed.

Lemma recv_some w c x S L wakes length n :
  rcv_ok w c x S L → reading c x → 0 ≤ length →
  n = length `min` (tc_nextByteExpected x - tc_lastByteRead x) → 0 < n →
  tc_lastByteRead x + n + tc_readBufLen x < 2 ^ 32 →
  wp (dtp_recv wakes c length 0) (λ r w', ∃ x' L' ds,
    r = (n, stream_bytes S (tc_lastByteRead x) n) ∧ rcv_ok w' c x' S L' ∧
    ivs L' = trim n (ivs L) ∧ after_read x x' n ∧
    w_sent w' = w_sent w ++ ds ∧ announces x ds ∧ rcv_step c L w w') w.
Proof using up.
  intros Hok [Hso Ha [Hse Hf] Ht Hrs] Hlen Hn Hpos Hw.
  destruct (rcv_last_bounds _ _ _ _ _ Hok ltac:(lia)) as (l & Hivs & Hlast).
  pose proof (rc_buf _ _ _ _ _ Hok) as (rb & Hrb & _).
  destruct (front_bytes _ _ _ _ _ rb n Hok Hrb ltac:(lia)) as [Hle Hbytes].
  pose proof (rl_seg _ _ _ _ (rc_list _ _ _ _ _ Hok)) as Hseg.
  destruct L as [|[h iv] L]; [done|]. injection Hivs as -> Hivs. destruct Hseg as (Hh & _ & nx & Hm & _).
  unfold dtp_recv. apply wp_bind. eapply active_ctx_spec; [done|by eapply rcv_ok_at|done|].
  apply wp_bind. eapply wp_getctx; [by eapply rcv_ok_at|]. rewrite Ht, Hrs.
  rewrite (proj2 (Z.eqb_neq _ _)) by lia. apply wp_bind.
  rewrite (readable_exact _ _ _ _ _ length Hok Hlen), <- Hn. apply recv_wait_done; [lia|].
  rewrite (proj2 (Z.ltb_lt _ _)) by done. apply wp_bind. eapply wp_getctx; [by eapply rcv_ok_at|].
  apply wp_bind. rewrite Hh. eapply wp_getbuf; [done|]. rewrite Hrb. apply wp_bind, wp_block_read; [lia..|].
  rewrite Hbytes. apply wp_bind. simpl mwhen. eapply wp_mono; [eapply consume_spec; [done..|lia|done]|].
  intros _ w' (x' & L' & ds & Hok' & HL' & Hx' & Hs'). apply wp_ret. by exists x', L', ds.
Qed.

(** A non-blocking read with nothing to read. *)
Lemma recv_none w c x S L wakes length :
  rcv_ok w c x S L → reading c x → 0 < length → tc_lastByteRead x = tc_nextByteExpected x →
  flag_set (tc_fstatus x) O_NONBLOCK = true →
  wp (dtp_recv wakes c length 0) (λ r w',
    (if read_closed (tc_state x) then r = (0, []) else r = (-1, []) ∧ w_errno w' = EAGAIN) ∧
    rcv_ok w' c x S L ∧ w_sent w' = w_sent w ∧ io_frame w w') w.
Proof using.
  intros Hok [Hso Ha _ Ht Hrs] Hlen He Hnb.
  unfold dtp_recv. apply wp_bind. eapply active_ctx_spec; [done|by eapply rcv_ok_at|done|].
  apply wp_bind. eapply wp_getctx; [by eapply rcv_ok_at|]. rewrite Ht, Hrs.
  rewrite (proj2 (Z.eqb_neq _ _)) by lia. apply wp_bind.
  rewrite (readable_exact _ _ _ _ _ length Hok) by lia. rewrite He, Z.sub_diag, Z.min_r by lia.
  destruct wakes; simpl; apply wp_bind; (eapply wp_getctx; [by eapply rcv_ok_at|]);
    (destruct (read_closed (tc_state x)); [apply wp_ret, wp_ret; split_and!; [done|done|done|reflexivity]|]); rewrite Hnb;
    apply wp_bind, io_set_errno; intros w1 H1 Hs1 Hn1; apply wp_ret, wp_ret;
    (split; [by split|split_and!; [by eapply rcv_ok_io|done|done]]).
Qed.

(** ** A connection over time

    Segments arrive (in any order, any number of times, with gaps) and the
    application reads. *)

Inductive rcv_event := Arrive (buf : bytes) (bodyLen : Z) | Read (length : Z).

Fixpoint deliver (c : Z) (evs : list rcv_event) : M bytes :=
  match evs with
  | [] => mret []
  | Arrive buf bodyLen :: evs => HandleNormalPacket c buf bodyLen;; deliver c evs
  | Read length :: evs =>
    '(_, d) ← dtp_recv 0 c length 0;
    rest ← deliver c evs;
    mret (d ++ rest)
  end.

(** [T] is the length of the stream: no sequence number wraps around. *)
Definition event_ok (S : stream) (T : Z) (ev : rcv_event) : Prop :=
  match ev with
  | Arrive buf n => carries S buf n ∧ GetSeqNum buf + n ≤ T ∧ IsSYNPacket buf = false
  | Read length => 0 < length
  end.

(** An established, non-blocking connection. *)
Record session (T : Z) (w : world) (c : Z) (x : dtp_context) (S : stream) (L : list node) : Prop := {
  se_rcv : rcv_ok w c x S L;
  se_read : reading c x;
  se_nonblock : flag_set (tc_fstatus x) O_NONBLOCK = true;
  se_state : tc_state x ≠ SOCK_SYN_RCVD ∧ tc_state x ≠ SOCK_SYN_SENT;
  se_ack : tc_isACKInserted x = false;
  se_wrap : T + tc_readBufLen x < 2 ^ 31;
  se_pos : tc_lastByteRead x ≤ T;
  se_cov : ∀ p, covered (ivs L) p → p < T }.

Lemma session_next T w c x S L : session T w c x S L → tc_nextByteExpected x ≤ T.
Proof using.
  intros [[_ _ _ _ _ _ (? & Hc & _) _] _ _ _ _ _ ? Hcov].
  destruct (decide (tc_lastByteRead x < tc_nextByteExpected x)); [|lia].
  specialize (Hcov (tc_nextByteExpected x - 1)). assert (tc_nextByteExpected x - 1 < T); [|lia].
  apply Hcov, Hc. lia.
Qed.

(** The fields a session depends on besides the receive side. *)
Definition same_session (x x' : dtp_context) : Prop :=
  tc_sock x' = tc_sock x ∧ tc_isActive x' = tc_isActive x ∧ tc_connTimedOut x' = tc_connTimedOut x ∧
  tc_connReset x' = tc_connReset x ∧ tc_fstatus x' = tc_fstatus x ∧ tc_state x' = tc_state x ∧
  tc_isACKInserted x' = tc_isACKInserted x ∧ tc_readBufLen x' = tc_readBufLen x ∧
  tc_lastByteSent x' = tc_lastByteSent x ∧ tc_flowID x' = tc_flowID x ∧ tc_recvWindowScale x' = tc_recvWindowScale x.

Lemma session_step T w c x S L w' x' L' :
  session T w c x S L → rcv_ok w' c x' S L' → same_session x x' →
  tc_lastByteRead x' ≤ T → (∀ p, covered (ivs L') p → p < T) → session T w' c x' S L'.
Proof using.
  intros [_ [[? ?] ? ? ? ?] ? ? ? ? _ _] Hok (E1 & E2 & E3 & E4 & E5 & E6 & E7 & E8 & E9 & E10 & _) Hp Hc.
  constructor; rewrite ?E5, ?E6, ?E7, ?E8; try done.
  constructor; [constructor|..]; by rewrite ?E1, ?E2, ?E3, ?E4, ?E9, ?E10.
Qed.

Lemma arrive_step T w c x S L buf n :
  session T w c x S L → event_ok S T (Arrive buf n) →
  wp (HandleNormalPacket c buf n) (λ _ w', ∃ x' L', session T w' c x' S L' ∧
    tc_lastByteRead x' = tc_lastByteRead x ∧
    (∀ p, covered (ivs L') p ↔ covered (ivs L) p ∨
            (seg_start x buf ≤ p < seg_end x buf n)) ∧
    tc_nextByteExpected x ≤ tc_nextByteExpected x' ∧ tc_isFINRcvd x' = tc_isFINRcvd x ∧
    w_sent w' = w_sent w ∧ same_session x x' ∧
    (GetSeqNum buf ≤ tc_nextByteExpected x → seg_end x buf n ≤ tc_nextByteExpected x')) w.
Proof using.
  intros Hse (Hca & HT & Hsyn). pose proof Hse as [Hok _ _ [Hs1 Hs2] Hack Hwrap Hpos Hcov].
  pose proof (session_next _ _ _ _ _ _ Hse) as Hnx.
  pose proof (rcv_next_le _ _ _ _ _ Hok) as Hle. pose proof (rc_range _ _ _ _ _ Hok) as [? ? ?].
  assert (Hnear : near x buf n) by (destruct Hca; constructor; lia).
  eapply wp_mono; [eapply HandleNormalPacket_spec; [done|done|done|by unfold accepts_data]|].
  intros r w' (x1 & L' & Hok' & HL' & Hfr & _ & _ & Hk).
  exists (x1 <| tc_numPacketRcvd := tc_numPacketRcvd x + 1 |>), L'.
  assert (Hcov' : ∀ p, covered (ivs L') p ↔ covered (ivs L) p ∨ (seg_start x buf ≤ p < seg_end x buf n)).
  { intros p. rewrite HL'. unfold accept. case_bool_decide as Hlt; [|intuition lia].
    erewrite ins_covered; [tauto|apply (rc_gapped _ _ _ _ _ Hok)|done]. }
  assert (Hrd : tc_lastByteRead x1 = tc_lastByteRead x).
  { rewrite Hfr. unfold note_header. by case_match. }
  pose proof (rc_next _ _ _ _ _ Hok') as Hnx'. cbn in Hnx'. rewrite Hrd in Hnx'.
  assert (Hmono : tc_nextByteExpected x ≤ tc_nextByteExpected x1).
  { eapply next_ok_mono; [apply (rc_next _ _ _ _ _ Hok)|exact Hnx'|]. intros p Hp. apply Hcov'. by left. }
  assert (Hss : same_session x (x1 <| tc_numPacketRcvd := tc_numPacketRcvd x + 1 |>))
    by (rewrite Hfr; unfold same_session, note_header; by case_match).
  split_and!; [|done|done|done|rewrite Hfr; unfold note_header; by case_match|by eapply rkeep_sent|done|].
  - eapply session_step; [done|done|done|by cbn; rewrite Hrd|].
    intros p [?|Hp]%Hcov'; [by apply Hcov|]. unfold seg_end in Hp. lia.
  - intros Hin. cbn. destruct Hnx' as (_ & _ & Hno). destruct (decide (seg_end x buf n ≤ tc_nextByteExpected x1)) as [|E]; [done|].
    exfalso. apply Hno, Hcov'. right. unfold seg_start. lia.
Qed.

Lemma read_step T w c x S L length :
  session T w c x S L → 0 < length →
  wp (dtp_recv 0 c length 0) (λ r w', ∃ x' L', session T w' c x' S L' ∧
    tc_lastByteRead x ≤ tc_lastByteRead x' ∧
    tc_lastByteRead x' = tc_lastByteRead x + length `min` (tc_nextByteExpected x - tc_lastByteRead x) ∧ same_session x x' ∧
    r.2 = stream_bytes S (tc_lastByteRead x) (tc_lastByteRead x' - tc_lastByteRead x) ∧
    (∀ p, covered (ivs L') p → covered (ivs L) p) ∧ tc_nextByteExpected x' = tc_nextByteExpected x ∧
    tc_isFINRcvd x' = tc_isFINRcvd x ∧ ∃ ds, w_sent w' = w_sent w ++ ds ∧ announces x ds) w.
Proof using up.
  intros Hse Hlen. pose proof Hse as [Hok Hrd Hnb _ _ Hwrap Hpos Hcov].
  pose proof (rcv_next_le _ _ _ _ _ Hok) as Hle. pose proof (session_next _ _ _ _ _ _ Hse) as Hnx.
  destruct (decide (tc_lastByteRead x = tc_nextByteExpected x)) as [He|Hne].
  - eapply wp_mono; [by eapply recv_none|]. intros r w' (Hr & Hok' & Hs' & _). exists x, L.
      assert (Hr2 : r.2 = []) by (destruct (read_closed _); [by subst|by destruct Hr; subst]).
    split_and!; [by eapply session_step|lia|lia|done|by rewrite Z.sub_diag, Hr2|done..|].
    exists []. rewrite app_nil_r. by split; [|constructor].
  - set (n := length `min` (tc_nextByteExpected x - tc_lastByteRead x)).
    eapply wp_mono; [eapply (recv_some _ _ _ _ _ _ _ n); [done|done|lia|done|lia|lia]|].
    intros r w' (x' & L' & ds & -> & Hok' & HL' & Hx' & Hs' & Han & _). exists x', L'.
    assert (Hr' : tc_lastByteRead x' = tc_lastByteRead x + n) by (by rewrite Hx').
    assert (Hcov' : ∀ p, covered (ivs L') p → covered (ivs L) p).
    { intros p Hp. destruct (rcv_last_bounds _ _ _ _ _ Hok ltac:(lia)) as (l & Hivs & _).
      pose proof (rc_gapped _ _ _ _ _ Hok) as Hg. rewrite HL', Hivs in Hp. rewrite Hivs in *.
      eapply trim_covered in Hp as [? _]; [done|done|lia]. }
    split_and!; [|lia|lia|by rewrite Hx'|by rewrite Hr'; replace (_ + n - _) with n by lia|done|by rewrite Hx'|by rewrite Hx'|by exists ds].
    eapply session_step; [done|done|by rewrite Hx'|lia|]. intros p Hp. by apply Hcov, Hcov'.
Qed.

(** C9: In-order, exactly-once delivery.  For any interleaving of arriving
    segments of the stream (reordered, repeated, overlapping, with gaps) and reads
    of any length, no step fails and the bytes read are the bytes of the stream
    from the first unread position on, each once and in order. *)
Theorem deliver_prefix T w c x S L evs :
  session T w c x S L → Forall (event_ok S T) evs →
  wp (deliver c evs) (λ d w', ∃ x' L', session T w' c x' S L' ∧
    tc_lastByteRead x ≤ tc_lastByteRead x' ∧
    d = stream_bytes S (tc_lastByteRead x) (tc_lastByteRead x' - tc_lastByteRead x)) w.
Proof using up.
  revert w x L. induction evs as [|[buf n|length] evs IH]; intros w x L Hse Hev; simpl.
  - apply wp_ret. exists x, L. split_and!; [done|done|by rewrite Z.sub_diag].
  - apply Forall_cons in Hev as [He Hev]. apply wp_bind.
    eapply wp_mono; [by eapply arrive_step|]. intros _ w1 (x1 & L1 & Hse1 & <- & _). by eapply IH.
  - apply Forall_cons in Hev as [He Hev]. apply wp_bind.
    eapply wp_mono; [by eapply read_step|]. intros [r d] w1 (x1 & L1 & Hse1 & Hle1 & _ & _ & Hd & _). simpl in Hd.
    apply wp_bind. eapply wp_mono; [by eapply IH|]. intros d2 w2 (x2 & L2 & Hse2 & Hle2 & ->).
    apply wp_ret. exists x2, L2. split_and!; [done|lia|]. rewrite Hd.
    replace (tc_lastByteRead x2 - tc_lastByteRead x) with
      (tc_lastByteRead x1 - tc_lastByteRead x + (tc_lastByteRead x2 - tc_lastByteRead x1)) by lia.
    rewrite stream_bytes_app by lia. do 2 f_equal. lia.
Qed.

(** C23: A read returns what is there.  [dtp_recv] on a connection with contiguous
    unread data returns [n] bytes, the smaller of the length asked for and the data
    available; they are the next bytes of the stream; afterwards the receive side
    is consistent at the new position. *)
Theorem recv_next_bytes w c x S L wakes length n :
  rcv_ok w c x S L → reading c x → 0 ≤ length →
  n = length `min` (tc_nextByteExpected x - tc_lastByteRead x) → 0 < n →
  tc_lastByteRead x + n + tc_readBufLen x < 2 ^ 32 →
  wp (dtp_recv wakes c length 0) (λ r w', ∃ x' L',
    r = (n, stream_bytes S (tc_lastByteRead x) n) ∧ rcv_ok w' c x' S L' ∧
    tc_lastByteRead x' = tc_lastByteRead x + n ∧ tc_nextByteExpected x' = tc_nextByteExpected x) w.
Proof using up.
  intros Hok Hrd Hl Hn Hp Hw. eapply wp_mono; [by eapply recv_some|].
  intros r w' (x' & L' & ds & -> & Hok' & _ & Hx' & _). exists x', L'. split_and!; [done|done|by rewrite Hx'..].
Qed.

(** C25: A non-blocking read with nothing to read takes nothing: it reports the end
    of the stream (0) when the connection is closed for reading, EAGAIN (-1)
    otherwise, and leaves the receive side as it was. *)
Theorem recv_nothing w c x S L wakes length :
  rcv_ok w c x S L → reading c x → 0 < length → tc_lastByteRead x = tc_nextByteExpected x →
  flag_set (tc_fstatus x) O_NONBLOCK = true →
  wp (dtp_recv wakes c length 0) (λ r w',
    (if read_closed (tc_state x) then r = (0, []) else r = (-1, []) ∧ w_errno w' = EAGAIN) ∧
    rcv_ok w' c x S L ∧ w_sent w' = w_sent w) w.
Proof using.
  intros Hok Hrd Hl He Hnb. eapply wp_mono; [by eapply recv_none|].
  intros r w' (? & ? & ? & _). done.
Qed.
End consume.

(** The connection of the scenario. *)
Lemma conn_session S T : 0 ≤ T < 2 ^ 30 → session T (host conn) 5 conn S [].
Proof.
  intros HT. pose proof conn_positions.
  constructor; [apply conn_receiving| |eval_facts|eval_facts|eval_facts|lia|lia|by intros p ?%covered_nil].
  constructor; [constructor|..]; eval_facts.
Qed.

(** The segment of 8 bytes at position 100, and the 100 bytes before it. *)
Definition demo_first : bytes :=
  (DTPGenerateHeader (zeros DTPHDRSIZE) 0 0 77 0 4096).1 ++ ((λ i, Z.of_nat i - 99) <$> seq 0 100).

Lemma demo_events : Forall (event_ok demo_stream 1000)
  [Arrive demo_segment 8; Read 10; Arrive demo_first 100; Arrive demo_segment 8; Read 50; Read 100].
Proof.
  assert (Hs : carries demo_stream demo_segment 8).
  { constructor; [eval_facts..|]. intros i Hi.
    assert (Hc : i = 0 ∨ i = 1 ∨ i = 2 ∨ i = 3 ∨ i = 4 ∨ i = 5 ∨ i = 6 ∨ i = 7) by lia.
    destruct_or! Hc; subst; reflexivity. }
  assert (Hf : carries demo_stream demo_first 100).
  { constructor; [eval_facts..|]. intros i Hi. change (GetHeaderLen demo_first) with 20.
    change (GetSeqNum demo_first) with 0. unfold demo_first, zget. rewrite app_nth2.
    - replace (Z.to_nat (20 + i) - _)%nat with (Z.to_nat i) by (vm_compute length; lia).
      rewrite nth_lookup, list_lookup_fmap, lookup_seq_lt by lia. simpl. unfold demo_stream. lia.
    - vm_compute length. lia. }
  repeat (apply Forall_cons; split); [..|apply Forall_nil; exact I];
    (exact Hs || exact Hf || idtac); try (split_and!; [exact Hs || exact Hf|eval_facts|reflexivity]); eval_facts.
Qed.

Example deliver_prefix_witness :
  wp (deliver 5 [Arrive demo_segment 8; Read 10; Arrive demo_first 100; Arrive demo_segment 8; Read 50; Read 100])
    (λ d w', ∃ x' L', session 1000 w' 5 x' demo_stream L' ∧ tc_lastByteRead conn ≤ tc_lastByteRead x' ∧
      d = stream_bytes demo_stream (tc_lastByteRead conn) (tc_lastByteRead x' - tc_lastByteRead conn)) (host conn).
Proof. eapply deliver_prefix; [apply conn_session; lia|apply demo_events]. Defined.

(** What that run reads: all 108 bytes. *)
Example deliver_demo :
  match deliver 5 [Arrive demo_segment 8; Read 10; Arrive demo_first 100; Arrive demo_segment 8; Read 50; Read 100]
    (host conn) with
  | Ok (d, _) => d = stream_bytes demo_stream 0 108
  | Err _ => False
  end.
Proof. vm_compute. reflexivity. Qed.

(** The connection of the scenario with 4 unread bytes of a stream of zeros. *)
Definition conn_unread : dtp_context :=
  conn <| tc_nextByteExpected := 4 |> <| tc_lastByteRcvd := 4 |> <| tc_readBufHead := 3 |>.
Definition host_unread : world :=
  (host conn_unread) <| w_bufs := {[3 := mk_buffer 0 4 NULL]} |> <| w_brk := 10 |>.

Lemma conn_unread_receiving : rcv_ok host_unread 5 conn_unread (λ _, 0) [(3, (0, 4))].
Proof.
  assert (Hc : ∀ p, covered [(0, 4)] p ↔ 0 ≤ p < 4).
  { intros p. rewrite covered_cons. pose proof (covered_nil p). tauto. }
  constructor; [| |constructor; eval_facts|eval_facts|repeat split; eval_facts| | |reflexivity].
  - exists (zeros DEF_READ_BUFLEN). split_and!; [reflexivity|eval_facts|]. intros. apply zget_zeros.
  - constructor; [reflexivity| |apply NoDup_singleton|by intros ? _ ?%elem_of_nil|].
    + split_and!; [reflexivity|done|]. exists NULL. split; reflexivity.
    + constructor; cbn; [constructor|by intros ? ?%elem_of_nil|done| |done].
      intros p [k [<- _]%lookup_singleton_Some]. lia.
  - intros s e [= -> ->]%list_elem_of_singleton. eval_facts.
  - split_and!; [eval_facts| |].
    + intros p Hp. apply Hc. change (tc_nextByteExpected conn_unread) with 4 in Hp.
      change (tc_lastByteRead conn_unread) with 0 in Hp. lia.
    + intros H%Hc. change (tc_nextByteExpected conn_unread) with 4 in H. lia.
Qed.

Example recv_next_bytes_witness :
  wp (dtp_recv 0 5 3 0) (λ r w', ∃ x' L',
    r = (3, stream_bytes (λ _, 0) (tc_lastByteRead conn_unread) 3) ∧ rcv_ok w' 5 x' (λ _, 0) L' ∧
    tc_lastByteRead x' = tc_lastByteRead conn_unread + 3 ∧
    tc_nextByteExpected x' = tc_nextByteExpected conn_unread) host_unread.
Proof.
  eapply (recv_next_bytes _ _ _ _ _ _ _ 3); [apply conn_unread_receiving| |eval_facts..].
  constructor; [constructor|..]; eval_facts.
Defined.

Example recv_nothing_witness :
  wp (dtp_recv 0 5 10 0) (λ r w',
    (if read_closed (tc_state conn) then r = (0, []) else r = (-1, []) ∧ w_errno w' = EAGAIN) ∧
    rcv_ok w' 5 conn (λ _, 0) [] ∧ w_sent w' = w_sent (host conn)) (host conn).
Proof.
  eapply recv_nothing; [apply conn_receiving| |eval_facts..]. constructor; [constructor|..]; eval_facts.
Defined.
