(* ===== verification/Opening.v ===== *)
(** * Opening a connection

    [dtp_connect], [HandleSYNPacket] and [HandleSYNACKPacket] together: the SYN that
    [dtp_connect] sends makes the server create a connection and answer with the
    session key, encrypted under the public key of the client; the answer makes the
    client take the key and the connection is established, with the same key, flow ID
    and positions on both sides. *)

From S2P Require Import Prelude Double Header Context World ContextTable Pools RetransQueue.
From S2P Require Import Select Congestion Lifecycle Send Scenario Services Transmit Ack Challenge Crypt.
From S2P Require Import Migration Closing Handshake Socket Delivery.
From Stdlib Require Import Sorting.Sorted.

(** ** The packets *)

(** The effect of an option on the context. *)
Definition parse_upd (op : Z) (d : bytes) (x : dtp_context) : dtp_context :=
  if op =? DTPOPT_WIN_SCALE then
    if zlen d =? 1 then
      if zget d 0 <=? DTP_MAX_WINSCALE_SHIFT then x <| tc_sendWindowScale := zget d 0 |> else x
    else x
  else if op =? DTPOPT_PORT then
    if zlen d =? 2 then x <| tc_peerAddr ::= λ a, set_sin_port a (of_le d) |> else x
  else x.

Lemma parse_option_case_upd buf op d p x :
  0 ≤ p → p + zlen d ≤ zlen buf → zslice p (zlen d) buf = d →
  parse_option_case buf op (zlen d + 2) p x = Ok (parse_upd op d x).
Proof.
  intros Hp Hb Hd. unfold parse_option_case, parse_upd, DTPOLEN_WIN_SCALE, DTPOLEN_PORT.
  destruct (op =? DTPOPT_WIN_SCALE).
  - destruct (Z.eqb_spec (zlen d + 2) 3), (Z.eqb_spec (zlen d) 1); try lia; [|done].
    unfold read8. rewrite (proj2 (in_block_spec _ _ _)) by lia. cbn.
    replace (zget d 0) with (zget buf p); [by case_match|].
    rewrite <- Hd. rewrite zget_slice by lia. by rewrite Z.add_0_r.
  - destruct (op =? DTPOPT_PORT); [|done].
    destruct (Z.eqb_spec (zlen d + 2) 4), (Z.eqb_spec (zlen d) 2) as [E|]; try lia; [|done].
    rewrite (proj2 (in_block_spec _ _ _)) by lia. rewrite <- E, Hd. done.
Qed.

Lemma DTPParseOption_spec w c x buf os n (Q : unit → world → Prop) :
  hdr_with os buf n → ctx_at w c = Some x →
  Q tt (w <| w_ctxs ::= <[c := fold_left (λ x o, parse_upd o.1 o.2 x) os x]> |>) →
  wp (DTPParseOption buf c) Q w.
Proof.
  intros Hw Hx HQ. apply wp_bind. eapply wp_getctx; [done|]. apply wp_bind. eapply wp_lift.
  - apply (opt_loop_hdr_with (parse_option_case buf) parse_upd (λ _, True) buf os n); [|done|done].
    intros op d p s _ Hp Hb Hs _. split; [|done]. by apply parse_option_case_upd.
  - by eapply wp_putctx.
Qed.

(** The options of a SYN or SYN+ACK: host ID, deadline if there is one, window scale
    if there is one, and on the SYN+ACK the port of the new socket. *)
Definition opening_opts (hid : bytes) (deadline ws : Z) (port : option Z) : list (Z * bytes) :=
  [(DTPOPT_HOST_ID, hid)] ++
  (if 0 <? deadline then [(DTPOPT_DEADLINE, le32 deadline)] else []) ++
  (if 0 <? ws then [(DTPOPT_WIN_SCALE, [ws])] else []) ++
  (match port with Some p => [(DTPOPT_PORT, le16 p)] | None => [] end).

(** A packet: a header with options, the data, and whatever the buffer holds behind. *)
Definition opening (os : list (Z * bytes)) (seq ack fid flag win : Z) (data buf : bytes) : Prop :=
  ∃ h n rest, buf = zslice 0 (align4 n) h ++ data ++ rest ∧ hdr_with os h n ∧
    read_header h = sent_header seq ack fid flag win (align4 n).

(** What a receiver reads. *)
Record opened (os : list (Z * bytes)) (seq ack fid : Z) (data buf : bytes) : Prop := {
  od_seq : GetSeqNum buf = seq; od_ack : GetAckNum buf = ack; od_fid : GetFlowID buf = fid;
  od_hlen : DTPHDRSIZE ≤ GetHeaderLen buf ∧ GetHeaderLen buf + zlen data ≤ zlen buf;
  od_data : zslice (GetHeaderLen buf) (zlen data) buf = data;
  od_opts : ∃ n, hdr_with os buf n }.

Lemma opening_opened os seq ack fid flag win data buf :
  opening os seq ack fid flag win data buf → opened os seq ack fid data buf.
Proof.
  intros (h & n & rest & -> & Hw & Hr). pose proof (hdr_with_weaken _ _ _ Hw) as Ha.
  pose proof (read_header_prefix (align4 n) h (data ++ rest) ltac:(unfold DTPHDRSIZE; lia)) as E.
  rewrite Hr in E. unfold read_header, sent_header in E. injection E as E1 E2 E3 _ E5 _ _ _ _ _ _ _.
  assert (Hl : zlen (zslice 0 (align4 n) h) = align4 n) by (apply zlen_slice; lia).
  pose proof (zlen_nonneg rest). constructor; [done|done|done| | |by exists n; apply hdr_with_prefix].
  - rewrite E5, !zlen_app, Hl. unfold DTPHDRSIZE. lia.
  - rewrite E5. rewrite zslice_app_r by (rewrite Hl; lia). rewrite Hl, Z.sub_diag.
    rewrite zslice_app_l by lia. apply zslice_all.
Qed.

Lemma GetHeaderLen_nonneg buf : 0 ≤ GetHeaderLen buf.
Proof. unfold GetHeaderLen. apply Z.shiftl_nonneg. unfold get_doff. apply Z.land_nonneg. right. lia. Qed.

(** The host ID and the deadline of a packet. *)
Lemma opening_options hid deadline ws port buf n h0 :
  hdr_with (opening_opts hid deadline ws port) buf n → zlen hid = SHA1_DIGEST_LENGTH → is_i32 deadline →
  DTPGetOption buf (Some h0) (Some 0) = Ok (true, (Some hid, Some (Z.max 0 deadline))).
Proof.
  intros Hw Hh Hd. rewrite (DTPGetOption_hdr_with _ _ _ _ _ Hw). unfold opening_opts.
  rewrite !fold_left_app. cbn [fold_left fst snd].
  assert (H1 : get_option_upd DTPOPT_HOST_ID hid (Some h0, Some 0) = (Some hid, Some 0))
    by (unfold get_option_upd; by rewrite Hh).
  rewrite H1. assert (Hskip : ∀ d, fold_left (λ s o, get_option_upd o.1 o.2 s)
      match port with Some p => [(DTPOPT_PORT, le16 p)] | None => [] end
      (fold_left (λ s o, get_option_upd o.1 o.2 s) (if 0 <? ws then [(DTPOPT_WIN_SCALE, [ws])] else [])
        (Some hid, Some d)) = (Some hid, Some d)) by (intros d; by destruct (0 <? ws), port).
  destruct (Z.ltb_spec 0 deadline).
  - cbn [fold_left fst snd]. unfold get_option_upd at 3. cbn [Z.eqb Pos.eqb DTPOPT_DEADLINE DTPOPT_HOST_ID].
    change (zlen (le32 deadline) =? 4) with true. cbn [fst]. rewrite of_le32 by (unfold is_u32, is_i32 in *; lia).
    rewrite Hskip, Z.max_r by lia. done.
  - cbn [fold_left]. rewrite Hskip, Z.max_l by lia. done.
Qed.

(** The scale of the peer that an option [ws] is taken for, [old] before. *)
Definition taken_scale (ws old : Z) : Z := if (0 <? ws) && (ws <=? DTP_MAX_WINSCALE_SHIFT) then ws else old.

(** The context after the options of a packet. *)
Definition with_options (ws : Z) (port : option Z) (x : dtp_context) : dtp_context :=
  let x := if (0 <? ws) && (ws <=? DTP_MAX_WINSCALE_SHIFT) then x <| tc_sendWindowScale := ws |> else x in
  match port with Some p => x <| tc_peerAddr ::= λ a, set_sin_port a p |> | None => x end.

Lemma opening_parsed hid deadline ws port x :
  (∀ p, port = Some p → is_u16 p) →
  fold_left (λ x o, parse_upd o.1 o.2 x) (opening_opts hid deadline ws port) x = with_options ws port x.
Proof.
  intros Hp. unfold opening_opts, with_options. rewrite !fold_left_app. cbn [fold_left fst snd].
  change (parse_upd DTPOPT_HOST_ID hid x) with x.
  assert (E : fold_left (λ x o, parse_upd o.1 o.2 x) (if 0 <? deadline then [(DTPOPT_DEADLINE, le32 deadline)] else []) x = x)
    by (by destruct (0 <? deadline)).
  rewrite E. assert (E2 : fold_left (λ x o, parse_upd o.1 o.2 x) (if 0 <? ws then [(DTPOPT_WIN_SCALE, [ws])] else []) x
    = if (0 <? ws) && (ws <=? DTP_MAX_WINSCALE_SHIFT) then x <| tc_sendWindowScale := ws |> else x)
    by (by destruct (0 <? ws)).
  rewrite E2. destruct port as [p|]; [|done]. cbn [fold_left fst snd].
  unfold parse_upd. cbn [Z.eqb Pos.eqb DTPOPT_PORT DTPOPT_WIN_SCALE]. change (zlen (le16 p) =? 2) with true.
  cbv beta iota. by rewrite of_le16 by auto.
Qed.

(** ** Frames *)

(** What the steps of the handshake before the answer leave alone: the packets, what
    was sent, the connections other than [c] and [l]; [c] may enter the queue of the timer. *)
Definition queue_grows (c : Z) (w w' : world) : Prop := w_timerLock w' = w_timerLock w ∧
  (w_retTimerQ w' = w_retTimerQ w ∨
   c ∉ w_retTimerQ w ∧ ∃ l1 l2, w_retTimerQ w = l1 ++ l2 ∧ w_retTimerQ w' = l1 ++ c :: l2).

Lemma queue_grows_trans c w1 w2 w3 : queue_grows c w1 w2 → queue_grows c w2 w3 → queue_grows c w1 w3.
Proof.
  intros [L1 H1] [L2 H2]. split; [congruence|]. destruct H1 as [E1|(N1 & l1 & l2 & E1 & E1')].
  - rewrite <- E1. destruct H2 as [H2|(N2 & l1 & l2 & E2 & E2')]; [by left|right]. split; [done|]. exists l1, l2. by split.
  - right. split; [done|]. exists l1, l2. split; [done|]. destruct H2 as [->|(N2 & _)]; [done|]. exfalso. apply N2. rewrite E1'. set_solver.
Qed.

#[local] Hint Extern 0 (queue_grows _ _ _) => (split; [reflexivity|left; reflexivity]) : core.

Record open_frame (c l : Z) (w w' : world) : Prop := {
  of_queue : queue_grows c w w'; of_pkts : w_pkts w' = w_pkts w; of_free : w_freePacketList w' = w_freePacketList w;
  of_count : w_freePktCount w' = w_freePktCount w; of_brk : w_brk w' = w_brk w;
  of_sent : w_sent w' = w_sent w;
  of_other c' x : c' ≠ c → c' ≠ l → ctx_at w c' = Some x → ctx_at w' c' = Some x }.

#[export] Instance open_frame_pre c l : PreOrder (open_frame c l).
Proof.
  split; [by constructor|]. intros w1 w2 w3 [] []. constructor; try (etrans; eauto). by eapply queue_grows_trans.
Qed.

Lemma open_io c l w w' : io_frame w w' → w_sent w' = w_sent w → open_frame c l w w'.
Proof. intros [E] Hs. rewrite E in *. by constructor. Qed.

Lemma open_ctx c l d x w : d = c ∨ d = l → open_frame c l w (w <| w_ctxs ::= <[d := x]> |>).
Proof. intros Hd. constructor; try done. intros c' y ? ? Hy. rewrite ctx_at_put_ne by naive_solver. done. Qed.

Lemma open_pool c l w w' : open_frame c l w w' → pkt_pool_ok w → pkt_pool_ok w'.
Proof. intros [_ E1 E2 E3 E4 _ _] []. constructor; rewrite ?E1, ?E2, ?E3, ?E4; done. Qed.

(** Slots of batches that are not allocated are not used. *)
Definition slots_ok (w : world) : Prop := ∀ c x, w_ctxs w !! c = Some x → batch_of c ∈ w_batches w.

(** The flow-ID map does not depend on a connection that is not on it. *)
Lemma flowmap_change w w' c :
  flowmap_ok w → (∀ idx, fid_bin w' idx = fid_bin w idx) →
  (∀ x, ctx_at w c = Some x → tc_onFlowIDMap x = false) → (∀ x, ctx_at w' c = Some x → tc_onFlowIDMap x = false) →
  (∀ c' x, c' ≠ c → ctx_at w c' = Some x → ctx_at w' c' = Some x) →
  (∀ c' x, c' ≠ c → ctx_at w' c' = Some x → ctx_at w c' = Some x ∨ tc_onFlowIDMap x = false) →
  flowmap_ok w' ∧ ∀ c' fid, on_map w' c' fid ↔ on_map w c' fid.
Proof.
  intros [Hbin Hnd Hflag Hinj] Eb Hc Hc' Hk Hk'.
  assert (Hne : ∀ idx c', c' ∈ fid_bin w idx → c' ≠ c).
  { intros idx c' Hin ->. destruct (Hbin idx c Hin) as (x & Hx & Ho & _). by rewrite (Hc x Hx) in Ho. }
  assert (Hon : ∀ c' fid, on_map w' c' fid ↔ on_map w c' fid).
  { intros c' fid. unfold on_map. rewrite Eb. split; intros (x & Hx & Hf & Hin); exists x; (split_and!; [|done|done]).
    - destruct (Hbin _ _ Hin) as (y & Hy & _). pose proof (Hk c' y (Hne _ _ Hin) Hy). congruence.
    - apply Hk; [by eapply Hne|done]. }
  split; [|done]. constructor.
  - intros idx c' Hin. rewrite Eb in Hin. destruct (Hbin idx c' Hin) as (x & Hx & ? & ?). exists x.
    split_and!; [|done|done]. apply Hk; [by eapply Hne|done].
  - intros idx. rewrite Eb. done.
  - intros c' x Hx Ho. rewrite Eb. destruct (decide (c' = c)) as [->|Hcc]; [by rewrite (Hc' x Hx) in Ho|].
    destruct (Hk' c' x Hcc Hx) as [?|?]; [by apply Hflag|congruence].
  - intros c1 c2 fid. rewrite !Hon. apply Hinj.
Qed.

Lemma sorted_ctx w w' l :
  (∀ c, c ∈ l → ctx_at w' c = ctx_at w c) → StronglySorted (earlier w) l → StronglySorted (earlier w') l.
Proof.
  intros Hc Hs. induction Hs as [|c q Hs IH Hf]; [constructor|].
  constructor; [apply IH; intros; apply Hc; by right|].
  rewrite Forall_forall in *. intros c' Hin. specialize (Hf c' Hin). unfold earlier, deadline_of in *.
  rewrite (Hc c), (Hc c') by (by left || by right). done.
Qed.

Lemma retq_other w w' :
  retq_ok w → w_timerLock w' = w_timerLock w → w_retTimerQ w' = w_retTimerQ w →
  (∀ c, c ∈ w_retTimerQ w → ctx_at w' c = ctx_at w c) → retq_ok w'.
Proof.
  intros [Hl Hs Hv Hn] El Eq Hc. constructor; rewrite ?El, ?Eq; try done; [by eapply sorted_ctx|].
  intros c Hin. rewrite Hc by done. by apply Hv.
Qed.

Section create.
Context {env : Env}.

(** A new connection. *)
Definition new_ctx (c : Z) (tv1 tv2 : timeval) : dtp_context :=
  DTPSlowStart ((init_ctx c tv1 tv2)
    <| tc_readBufLen := DEF_READ_BUFLEN |> <| tc_readBuf := Some (malloc_bytes DEF_READ_BUFLEN) |>
    <| tc_writeBufLen := DEF_WRITE_BUFLEN |> <| tc_writeBuf := Some (malloc_bytes DEF_WRITE_BUFLEN) |>).

(** The descriptor the system gives next is free. *)
Record free_slot (w : world) (c : Z) : Prop := {
  fs_next : env_socket (w_nsock w) = c; fs_range : 0 ≤ c < FD_SETSIZE_S;
  fs_queue : c ∉ w_retTimerQ w; fs_map x : ctx_at w c = Some x → tc_onFlowIDMap x = false }.

Lemma batch_range c : 0 ≤ c < FD_SETSIZE_S → (NUM_BATCH <=? batch_of c) = false.
Proof.
  unfold FD_SETSIZE_S, FD_SETSIZE, NUM_BATCH, batch_of, BATCH_SIZE_BITS. intros Hc. apply Z.leb_gt.
  rewrite Z.shiftr_div_pow2 by lia. apply Z.div_lt_upper_bound; lia.
Qed.

Lemma create_spec w c :
  slots_ok w → retq_ok w → flowmap_ok w → free_slot w c →
  wp DTPCreateContext (λ r w', r = Some c ∧ open_frame c c w w' ∧
    (∃ l1 l2, w_retTimerQ w = l1 ++ l2 ∧ w_retTimerQ w' = l1 ++ c :: l2) ∧
    (∃ tv1 tv2, ctx_at w' c = Some (new_ctx c tv1 tv2)) ∧
    flowmap_ok w' ∧ ∀ c' fid, on_map w' c' fid ↔ on_map w c' fid) w.
Proof.
  intros Hsl Hq Hfm [En Hr Hnq Hm]. unfold DTPCreateContext, udp_socket. apply wp_bind. unfold wp at 1. rewrite En.
  rewrite (proj2 (Z.ltb_ge c 0)) by lia. unfold DTPAllocateContext. rewrite batch_range by done.
  apply wp_bind, wp_bind, wp_modify, wp_ret.
  set (w1 := if bool_decide _ then _ else _).
  assert (Hb1 : w_batches w1 = {[batch_of c]} ∪ w_batches w).
  { unfold w1. case_bool_decide; cbn in *; [set_solver|done]. }
  assert (Hc1 : w_ctxs w1 = w_ctxs w ∧ w_timerLock w1 = w_timerLock w ∧ w_retTimerQ w1 = w_retTimerQ w ∧
                w_FlowIDMapBins w1 = w_FlowIDMapBins w ∧ open_frame c c w w1).
  { unfold w1. case_bool_decide; cbn in *; split_and!; try done; constructor; try done.
    intros c' x _ _ Hx. unfold ctx_at in *. cbn. case_bool_decide; [|done]. by rewrite bool_decide_eq_true_2 by set_solver. }
  clearbody w1. destruct Hc1 as (Ec1 & El1 & Eq1 & Ef1 & F1).
  assert (Hx0 : ∃ x0, ctx_at w1 c = Some x0).
  { unfold ctx_at. rewrite Hb1, bool_decide_eq_true_2 by set_solver. eauto. }
  assert (Hback : ∀ c' x, ctx_at w1 c' = Some x → ctx_at w c' = Some x ∨ tc_onFlowIDMap x = false).
  { intros c' x. unfold ctx_at. rewrite Ec1. case_bool_decide; [|done]. intros [= <-].
    case_bool_decide as Hin; [by left|]. right. destruct (w_ctxs w !! c') eqn:E; [|done]. by apply Hsl in E. }
  destruct Hx0 as [x0 Hx0]. apply wp_bind. eapply wp_putctx; [exact Hx0|].
  set (w2 := set w_ctxs _ w1). assert (Hx2 : ctx_at w2 c = Some (zero_ctx <| tc_sock := c |>)) by (by eapply ctx_at_put).
  unfold DTPRegisterSockToGlobalFdSet, FD_SET_S. rewrite fd_in_range_true by done.
  apply wp_bind, wp_bind, wp_gets, wp_bind, wp_ret, wp_modify. set (w3 := set w_fds _ w2).
  apply wp_bind. unfold gettimeofday at 1. unfold wp at 1. apply wp_bind. unfold gettimeofday at 1. unfold wp at 1.
  set (tv1 := env_clock _). set (tv2 := env_clock _). set (w4 := set w_nclock _ _).
  apply wp_bind. eapply wp_putctx; [exact Hx2|]. set (w5 := set w_ctxs _ w4).
  assert (Hx5 : ctx_at w5 c = Some (init_ctx c tv1 tv2)) by (by eapply ctx_at_put).
  assert (Hne5 : ∀ c', c' ≠ c → ctx_at w5 c' = ctx_at w1 c').
  { intros c' Hc'. unfold w5. rewrite ctx_at_put_ne by done. change (ctx_at w4 c') with (ctx_at w2 c'). by apply ctx_at_put_ne. }
  assert (Hq5 : retq_ok w5).
  { eapply (retq_other w); [done|exact El1|exact Eq1|]. intros c' Hc'. destruct (rq_live _ Hq c' Hc') as [x Hx].
    rewrite Hne5 by (intros ->; done). rewrite Hx. by apply (of_other _ _ _ _ F1); [intros ->..|]. }
  apply wp_bind. eapply wp_mono; [apply (InsertToRetransQueue_spec w5 c _ Hq5 Hx5); change (w_retTimerQ w5) with (w_retTimerQ w1); by rewrite Eq1|].
  intros _ w6 (_ & l1 & l2 & Eq6 & -> & _ & _). change (w_retTimerQ w5) with (w_retTimerQ w1) in Eq6. rewrite Eq1 in Eq6. apply wp_bind. eapply wp_modctx; [exact Hx5|].
  apply wp_bind. eapply wp_modctx; [by eapply ctx_at_put|]. apply wp_ret. set (w7 := set w_ctxs _ _).
  assert (Hx7 : ctx_at w7 c = Some (new_ctx c tv1 tv2)) by (eapply ctx_at_put; by eapply ctx_at_put).
  assert (Hne7 : ∀ c', c' ≠ c → ctx_at w7 c' = ctx_at w1 c').
  { intros c' Hc'. unfold w7. rewrite !ctx_at_put_ne by done. by apply Hne5. }
  split; [done|]. split; [|split; [by exists l1, l2|split; [by exists tv1, tv2|]]].
  - trans w1; [exact F1|]. constructor; try done; [|intros c' x Hc' _ Hx; by rewrite Hne7].
    split; [done|]. right. rewrite Eq1. split; [done|]. by exists l1, l2.
  - apply (flowmap_change w w7 c Hfm).
    + intros idx. unfold fid_bin. change (w_FlowIDMapBins w7) with (w_FlowIDMapBins w1). by rewrite Ef1.
    + done.
    + intros x. rewrite Hx7. by intros [= <-].
    + intros c' x Hc' Hx. rewrite Hne7 by done. by apply (of_other _ _ _ _ F1).
    + intros c' x Hc'. rewrite Hne7 by done. apply Hback.
Qed.
End create.

(** ** The new connection of the server

    [regd c l fid w0 w x y]: since [w0] only the new connection [c], which is [x] now and
    registered under the flow ID [fid], and the listening socket [l], which is [y], have
    changed. *)
Record regd (c l fid : Z) (w0 w : world) (x y : dtp_context) : Prop := {
  rg_ctx : ctx_at w c = Some x; rg_listen : ctx_at w l = Some y; rg_ne : l ≠ c;
  rg_map : flowmap_ok w; rg_on : on_map w c fid; rg_frame : open_frame c l w0 w }.

(** A change that the flow-ID map does not see. *)
Definition same_flow (x x' : dtp_context) : Prop :=
  tc_flowID x' = tc_flowID x ∧ tc_onFlowIDMap x' = tc_onFlowIDMap x.

Lemma same_flow_if (b : bool) x y z : same_flow x y → same_flow x z → same_flow x (if b then y else z).
Proof. by destruct b. Qed.

Section regd.
Context (c l fid : Z) (w0 : world).

Lemma regd_mod (P : dtp_context → Prop) f (Q : unit → world → Prop) w x y :
  regd c l fid w0 w x y → same_flow x (f x) → P (f x) →
  (∀ w' x', regd c l fid w0 w' x' y → P x' → Q tt w') → wp (modctx c f) Q w.
Proof.
  intros [Hx Hy Hn Hm Ho Hf] [E1 E2] HP HQ. eapply wp_modctx; [exact Hx|]. apply (HQ _ (f x)); [|done].
  destruct (flowmap_ok_ctx w c x (f x) Hm Hx E1 E2) as [Hm' Ho']. constructor; [by eapply ctx_at_put| |done|done|by apply Ho'|].
  - by rewrite ctx_at_put_ne.
  - etrans; [exact Hf|]. apply open_ctx. by left.
Qed.

Lemma regd_mod_listen (P : dtp_context → Prop) f (Q : unit → world → Prop) w x y :
  regd c l fid w0 w x y → same_flow y (f y) → P (f y) →
  (∀ w' y', regd c l fid w0 w' x y' → P y' → Q tt w') → wp (modctx l f) Q w.
Proof.
  intros [Hx Hy Hn Hm Ho Hf] [E1 E2] HP HQ. eapply wp_modctx; [exact Hy|]. apply (HQ _ (f y)); [|done].
  destruct (flowmap_ok_ctx w l y (f y) Hm Hy E1 E2) as [Hm' Ho']. constructor; [|by eapply ctx_at_put|done|done|by apply Ho'|].
  - by rewrite ctx_at_put_ne.
  - etrans; [exact Hf|]. apply open_ctx. by right.
Qed.

Lemma regd_io w w' x y : io_frame w w' → w_sent w' = w_sent w → regd c l fid w0 w x y → regd c l fid w0 w' x y.
Proof.
  intros Hio Hs [Hx Hy Hn Hm Ho Hf]. constructor; [by rewrite (io_ctx _ _ c Hio)|by rewrite (io_ctx _ _ l Hio)|done| | |].
  - destruct Hio as [->]. by destruct Hm.
  - destruct Hio as [->]. done.
  - etrans; [exact Hf|]. by apply open_io.
Qed.

Lemma regd_time {env : Env} (Q : timeval → world → Prop) w x y :
  regd c l fid w0 w x y → (∀ tv w', regd c l fid w0 w' x y → Q tv w') → wp gettimeofday Q w.
Proof. intros Hr HQ. apply io_gettimeofday. intros w' Hio Hs. eapply HQ, regd_io; done. Qed.
End regd.

Lemma wp_conj {A} (m : M A) P Q w : wp m P w → wp m Q w → wp m (λ a w', P a w' ∧ Q a w') w.
Proof. unfold wp. by destruct (m w) as [[]|]. Qed.

Lemma regd_add c l fid w0 w x y (Q : unit → world → Prop) :
  ctx_at w c = Some x → ctx_at w l = Some y → l ≠ c → flowmap_ok w → open_frame c l w0 w →
  tc_flowID x = fid → tc_onFlowIDMap x = false → (∀ c', ¬ on_map w c' fid) →
  (∀ w', regd c l fid w0 w' (x <| tc_onFlowIDMap := true |>) y → Q tt w') →
  wp (DTPAddContextToFlowIDMap fid c) Q w.
Proof.
  intros Hx Hy Hn Hm Hf Hfid Ho Hfree HQ.
  eapply wp_mono; [apply (wp_conj _ _ (λ _ w', ctx_at w' c = Some (x <| tc_onFlowIDMap := true |>) ∧
    ctx_at w' l = Some y ∧ open_frame c l w w') w (DTPAddContextToFlowIDMap_spec w fid c x Hm Hx Hfid Ho Hfree))|].
  - unfold DTPAddContextToFlowIDMap. apply wp_bind, wp_modify. eapply wp_modctx; [exact Hx|]. split_and!.
    + by eapply ctx_at_put.
    + by rewrite ctx_at_put_ne.
    + etrans; [|apply open_ctx; by left]. by constructor.
  - intros [] w' [[Hm' Hon] (Hx' & Hy' & Hf')]. apply HQ. constructor; try done.
    + apply Hon. by right.
    + by etrans.
Qed.

(** The fields of a connection in the handshake: the address and host ID of the peer,
    the position of the peer and the own one. *)
Record shaking (x : dtp_context) (addr : sockaddr_in) (hid : bytes) (next sent : Z) : Prop := {
  sh_addr : tc_peerAddr x = addr; sh_hid : tc_hostID x = hid;
  sh_next : tc_nextByteExpected x = next; sh_rcvd : tc_lastByteRcvd x = next; sh_read : tc_lastByteRead x = next;
  sh_sent : tc_lastByteSent x = sent; sh_acked : tc_lastByteAcked x = 0 }.

(** The flags of a connection on which nothing has happened yet. *)
Definition steady (x : dtp_context) : bool * bool * bool * bool * bool * bool * Z * bool :=
  (tc_isActive x, tc_connReset x, tc_connTimedOut x, tc_isFINSent x, tc_isFINRcvd x, tc_isKeepAliveEnabled x,
   tc_rcvLoBufHB x, tc_isACKInserted x).
Definition steady_new : bool * bool * bool * bool * bool * bool * Z * bool := (true, false, false, false, false, false, 0, false).

(** What the handshake does not change. *)
Record same_base (x x' : dtp_context) : Prop := {
  sb_steady : steady x' = steady x; sb_sock : tc_sock x' = tc_sock x; sb_key : tc_key x' = tc_key x; sb_active : tc_isActive x' = tc_isActive x;
  sb_first : tc_isFirstPacketSent x' = tc_isFirstPacketSent x; sb_rws : tc_recvWindowScale x' = tc_recvWindowScale x;
  sb_rbuf : tc_readBuf x' = tc_readBuf x; sb_rlen : tc_readBufLen x' = tc_readBufLen x;
  sb_head : tc_readBufHead x' = tc_readBufHead x;
  sb_queue : tc_packetQ x' = tc_packetQ x; sb_net : tc_isNetConnected x' = tc_isNetConnected x;
  sb_cong : tc_isCongested x' = tc_isCongested x; sb_zero : tc_isHerWindowZero x' = tc_isHerWindowZero x;
  sb_seg : tc_segSent x' = tc_segSent x; sb_cwnd : tc_cwnd x' = tc_cwnd x; sb_ssth : tc_ssthresh x' = tc_ssthresh x; sb_wlen : tc_writeBufLen x' = tc_writeBufLen x;
  sb_wbuf : tc_writeBuf x' = tc_writeBuf x; sb_close : tc_closeCalled x' = tc_closeCalled x; sb_rwin : tc_rcvWindow x' = tc_rcvWindow x }.

#[export] Instance same_base_pre : PreOrder same_base.
Proof. split; [by constructor|]. intros x1 x2 x3 [] []. constructor; etrans; eauto. Qed.

(** A change of fields that are not looked at. *)
Record minor (x x' : dtp_context) : Prop := {
  mi_base : same_base x x'; mi_fid : tc_flowID x' = tc_flowID x; mi_map : tc_onFlowIDMap x' = tc_onFlowIDMap x;
  mi_state : tc_state x' = tc_state x;
  mi_shake : ∀ addr hid next sent, shaking x addr hid next sent → shaking x' addr hid next sent;
  mi_ws : tc_sendWindowScale x' = tc_sendWindowScale x; mi_dl : tc_deadline x' = tc_deadline x }.

#[export] Instance minor_pre : PreOrder minor.
Proof.
  split; [by constructor|]. intros x1 x2 x3 [] []. constructor; try (etrans; eauto). eauto.
Qed.

Ltac solve_minor := constructor; [by constructor|done|done|done|by intros ? ? ? ? []|done|done].

Lemma regd_minor c l fid w0 f (Q : unit → world → Prop) w x y :
  regd c l fid w0 w x y → minor x (f x) → (∀ w' x', regd c l fid w0 w' x' y → minor x x' → Q tt w') → wp (modctx c f) Q w.
Proof. intros Hr Hm HQ. eapply (regd_mod c l fid w0 (minor x)); [exact Hr|by destruct Hm|done|done]. Qed.

Lemma with_options_same ws x :
  let x' := with_options ws None x in
  same_base x x' ∧ tc_flowID x' = tc_flowID x ∧ tc_state x' = tc_state x ∧
  (∀ addr hid next sent, shaking x addr hid next sent → shaking x' addr hid next sent) ∧ tc_deadline x' = tc_deadline x ∧
  tc_sendWindowScale x' = taken_scale ws (tc_sendWindowScale x).
Proof.
  unfold with_options, taken_scale. destruct (_ && _); cbv zeta.
  - split_and!; [by constructor|done|done|by intros ? ? ? ? []|done|done].
  - split_and!; [reflexivity|done|done|auto|done|done].
Qed.

Lemma regd_parse c l fid w0 w x y buf hid deadline ws port n (Q : unit → world → Prop) :
  regd c l fid w0 w x y → hdr_with (opening_opts hid deadline ws port) buf n →
  (∀ p, port = Some p → is_u16 p) →
  (∀ w', regd c l fid w0 w' (with_options ws port x) y → Q tt w') → wp (DTPParseOption buf c) Q w.
Proof.
  intros [Hx Hy Hn Hm Ho Hf] Hw Hp HQ. eapply DTPParseOption_spec; [exact Hw|exact Hx|]. rewrite opening_parsed by done.
  apply HQ. destruct (flowmap_ok_ctx w c x (with_options ws port x) Hm Hx) as [Hm' Ho'].
  - unfold with_options. by destruct (_ && _), port.
  - unfold with_options. by destruct (_ && _), port.
  - constructor; [by eapply ctx_at_put|by rewrite ctx_at_put_ne|done|done|by apply Ho'|].
    etrans; [exact Hf|]. apply open_ctx. by left.
Qed.

Lemma init_passive_spec {env : Env} c l fid w0 w x y addr hid dl buf ws deadline n (Q : unit → world → Prop) :
  ctx_at w c = Some x → ctx_at w l = Some y → l ≠ c → flowmap_ok w → open_frame c l w0 w →
  tc_onFlowIDMap x = false → (∀ c', ¬ on_map w c' fid) → hdr_with (opening_opts hid deadline ws None) buf n →
  (∀ w' x', regd c l fid w0 w' x' y → shaking x' addr hid (GetSeqNum buf) 0 → same_base x x' →
     tc_flowID x' = fid → tc_state x' = SOCK_SYN_RCVD → tc_deadline x' = i32 dl →
     tc_sendWindowScale x' = taken_scale ws (tc_sendWindowScale x) → Q tt w') →
  wp (init_passive c fid addr hid dl buf) Q w.
Proof.
  intros Hx Hy Hn Hm Hf Ho Hfree Hw HQ. unfold init_passive. apply wp_bind. eapply wp_modctx; [exact Hx|].
  set (w1 := set w_ctxs _ w). set (x1 := set tc_state _ _) in w1.
  assert (Hx1 : ctx_at w1 c = Some x1) by (by eapply ctx_at_put).
  destruct (flowmap_change w w1 c Hm) as [Hm1 Hon1].
  { done. } { intros z. rewrite Hx. by intros [= <-]. } { intros z. rewrite Hx1. by intros [= <-]. }
  { intros c' z Hc' Hz. unfold w1. by rewrite ctx_at_put_ne. }
  { intros c' z Hc'. unfold w1. rewrite ctx_at_put_ne by done. by left. }
  assert (Hb1 : same_base x x1) by by constructor.
  assert (Hf1 : tc_flowID x1 = fid ∧ tc_peerAddr x1 = addr ∧ tc_state x1 = SOCK_SYN_RCVD ∧ tc_onFlowIDMap x1 = false ∧
    tc_sendWindowScale x1 = tc_sendWindowScale x) by done.
  clearbody x1. destruct Hf1 as (Hf1 & Ha1 & Hs1 & Ho1 & Hw1).
  apply wp_bind. eapply (regd_add c l fid w0 w1 x1 y); [exact Hx1| |done|done| |done|done| |].
  { unfold w1. by rewrite ctx_at_put_ne. } { etrans; [exact Hf|]. apply open_ctx. by left. }
  { intros c'. rewrite Hon1. apply Hfree. }
  intros w2 R2. apply wp_bind.
  eapply (regd_mod c l fid w0 (λ z, shaking z addr hid (GetSeqNum buf) 0 ∧ same_base x z ∧ tc_flowID z = fid ∧ tc_state z = SOCK_SYN_RCVD
    ∧ tc_sendWindowScale z = tc_sendWindowScale x));
    [exact R2|done| |].
  { split_and!; [by constructor|by destruct Hb1|done|done|done]. }
  intros w3 x3 R3 (Hsh3 & Hb3 & Hf3 & Hs3 & Hw3).
  apply wp_bind. eapply regd_time; [exact R3|]. intros tv1 w4 R4.
  apply wp_bind. eapply (regd_mod c l fid w0 (λ z, shaking z addr hid (GetSeqNum buf) 0 ∧ same_base x z ∧ tc_flowID z = fid
    ∧ tc_state z = SOCK_SYN_RCVD ∧ tc_deadline z = i32 dl ∧ tc_sendWindowScale z = tc_sendWindowScale x)); [exact R4|done| |].
  { split_and!; [by destruct Hsh3|by destruct Hb3|done|done|done|done]. }
  intros w5 x5 R5 (Hsh5 & Hb5 & Hf5 & Hs5 & Hd5 & Hw5).
  apply wp_bind. eapply regd_time; [exact R5|]. intros tv2 w6 R6.
  apply wp_bind. eapply regd_minor; [exact R6|destruct (0 <? tc_deadline x5); [solve_minor|reflexivity]|]. intros w7 x7 R7 M7.
  apply wp_bind. eapply regd_minor; [exact R7|solve_minor|]. intros w8 x8 R8 M8.
  assert (M : minor x5 x8) by by trans x7.
  eapply regd_parse; [exact R8|exact Hw|done|]. intros w9 R9.
  destruct M as [Mb Mf _ Ms Msh Mw Md]. destruct (with_options_same ws x8) as (Eb & Ef & Es & Esh & Ed & Ew).
  eapply HQ; [exact R9|by apply Esh, Msh|trans x5; [done|by trans x8]|congruence..].
Qed.

(** ** Headers with options *)

(** The header of packet [p], [k0] before, has the fields [sh] and the options [os], [n]
    bytes in all; of the rest only connection [c], now [x], may differ from [w0]. *)
Record building (c : Z) (p : ptr) (w0 : world) (k0 : dtp_pkt) (sh : Z → hdr_fields)
    (os : list (Z * bytes)) (x : dtp_context) (w : world) (n : Z) : Prop := {
  bd_local : local_to c p w0 w; bd_ctx : ctx_at w c = Some x;
  bd_pkt : ∃ h, w_pkts w !! p = Some (k0 <| tp_header := h |>) ∧ zlen h = TP_HEADER_SIZE ∧
             hdr_with os h n ∧ read_header h = sh (align4 n) }.

Section building.
Context (c : Z) (p : ptr) (w0 : world) (k0 : dtp_pkt).

Lemma building_start x seq ack fid flags win (Q : Z → world → Prop) :
  ctx_at w0 c = Some x → w_pkts w0 !! p = Some k0 → zlen (tp_header k0) = TP_HEADER_SIZE →
  is_u32 seq → is_u32 ack → is_u32 fid → 0 ≤ win →
  (∀ w', building c p w0 k0 (sent_header seq ack fid flags win) [] x w' DTPHDRSIZE → Q DTPHDRSIZE w') →
  wp (generate_header p seq ack fid flags win) Q w0.
Proof.
  intros Hx Hk Hl Hs Ha Hf Hw HQ. assert (H20 : DTPHDRSIZE ≤ zlen (tp_header k0)) by (rewrite Hl; done).
  pose proof (header_roundtrip _ _ _ _ flags _ H20 Hs Ha Hf Hw) as Hrt.
  pose proof (hdr_with_generate _ _ _ _ flags _ H20 Hs Ha Hf Hw) as Hw0.
  pose proof (zlen_GenerateHeader _ seq ack fid flags win H20) as Hl0.
  unfold generate_header. apply wp_bind. eapply wp_getpkt; [done|].
  destruct (DTPGenerateHeader _ _ _ _ _ _) as [h sz] eqn:Eh. cbn [fst] in *.
  assert (sz = DTPHDRSIZE) as -> by (by injection Eh). rewrite Hl in Hl0.
  apply wp_bind. eapply wp_modpkt; [done|]. apply wp_ret, HQ. constructor; [apply local_pkt|done|].
  exists h. split_and!; [cbn; apply lookup_insert_eq|done..].
Qed.

Lemma building_option (b : bool) sh seq ack fid flags win os x w n op size data (Q : Z → world → Prop) :
  sh = sent_header seq ack fid flags win →
  building c p w0 k0 sh os x w n → option_size op = Some size → zlen data = size - 2 → n + size ≤ 60 →
  (∀ w' n', building c p w0 k0 sh (os ++ if b then [(op, data)] else []) x w' n' → n ≤ n' ≤ n + size → Q n' w') →
  wp (if b then add_option p n op data else mret n) Q w.
Proof.
  intros -> [L Hx (h & Hk & Hl & Hw & Hr)] Hs Hd H60 HQ. pose proof (option_size_range _ _ Hs) as [_ Hsz]. destruct b.
  - eapply add_option_wp; [exact Hk|done|exact Hw|done|lia|done|]. intros h' Hw' Hsf.
    rewrite <- Hd, zslice_all in Hw'. apply HQ; [|lia]. constructor; [etrans; [exact L|apply local_pkt]|done|].
    exists h'. split_and!; [cbn; apply lookup_insert_eq|by rewrite (sf_len _ _ Hsf)|done|].
    by eapply read_header_options.
  - apply wp_ret, HQ; [|lia]. rewrite app_nil_r. constructor; eauto.
Qed.

Lemma building_mod f sh os x w n (Q : unit → world → Prop) :
  building c p w0 k0 sh os x w n → (∀ w', building c p w0 k0 sh os (f x) w' n → Q tt w') → wp (modctx c f) Q w.
Proof.
  intros [L Hx (h & Hk & Hh)] HQ. eapply wp_modctx; [exact Hx|]. apply HQ.
  constructor; [etrans; [exact L|apply local_ctx]|by eapply ctx_at_put|by exists h].
Qed.
End building.

(** The window scale that the first packet of a connection announces. *)
Definition announced_ws (x : dtp_context) : Z := if tc_isFirstPacketSent x then 0 else tc_recvWindowScale x.

Section headers.
Context {env : Env}.

Lemma host_id_option c p w0 k0 seq ack fid flags win os x w n (Q : Z → world → Prop) :
  zlen DTPGenerateHostID = SHA1_DIGEST_LENGTH →
  building c p w0 k0 (sent_header seq ack fid flags win) os x w n → n + DTPOLEN_HOST_ID ≤ 60 →
  (∀ w' n', building c p w0 k0 (sent_header seq ack fid flags win) (os ++ [(DTPOPT_HOST_ID, DTPGenerateHostID)]) x w' n' →
     n' ≤ n + DTPOLEN_HOST_ID → Q n' w') →
  wp (add_option p n DTPOPT_HOST_ID DTPGenerateHostID) Q w.
Proof.
  intros Hh Hb H60 HQ. eapply (building_option c p w0 k0 true _ seq ack fid flags win); [done|exact Hb|done|by rewrite Hh|done|].
  intros w' n' Hb' Hn. eapply HQ; [exact Hb'|apply Hn].
Qed.

Lemma scale_option c p w0 k0 seq ack fid flags win os x x1 w n (Q : Z → world → Prop) :
  building c p w0 k0 (sent_header seq ack fid flags win) os x1 w n → tc_isFirstPacketSent x1 = tc_isFirstPacketSent x → n + DTPOLEN_WIN_SCALE ≤ 60 →
  (∀ w' n', building c p w0 k0 (sent_header seq ack fid flags win)
     (os ++ if 0 <? announced_ws x then [(DTPOPT_WIN_SCALE, [announced_ws x])] else [])
     (x1 <| tc_isFirstPacketSent := true |>) w' n' → n' ≤ n + DTPOLEN_WIN_SCALE → Q n' w') →
  wp (if negb (tc_isFirstPacketSent x) then
       hdr_size ← (if 0 <? tc_recvWindowScale x
                   then add_option p n DTPOPT_WIN_SCALE [tc_recvWindowScale x]
                   else mret n);
       c ->> tc_isFirstPacketSent := true;;
       mret hdr_size
     else mret n) Q w.
Proof.
  intros Hb H1 H60 HQ. unfold announced_ws in HQ. destruct (tc_isFirstPacketSent x) eqn:Hf; cbn [negb].
  - apply wp_ret, HQ; [|unfold DTPOLEN_WIN_SCALE; lia]. cbn [Z.ltb Z.compare]. rewrite app_nil_r.
    replace (x1 <| tc_isFirstPacketSent := true |>) with x1; [done|]. rewrite <- H1. by destruct x1.
  - apply wp_bind. eapply (building_option c p w0 k0 _ _ seq ack fid flags win); [done|exact Hb|done|done|done|].
    intros w' n' Hb' Hn. apply wp_bind. eapply building_mod; [exact Hb'|]. intros w'' Hb''. apply wp_ret, HQ; [exact Hb''|apply Hn].
Qed.

Lemma synack_header_spec w c x p k port (Q : Z → world → Prop) :
  ctx_at w c = Some x → w_pkts w !! p = Some k → zlen (tp_header k) = TP_HEADER_SIZE →
  is_u32 (tc_lastByteSent x) → is_u32 (tc_nextByteExpected x) → is_u32 (tc_flowID x) →
  zlen DTPGenerateHostID = SHA1_DIGEST_LENGTH → w_ports w !! tc_sock x = Some port →
  (∀ w' n, building c p w k (sent_header (tc_lastByteSent x) (tc_nextByteExpected x) (tc_flowID x)
       (Z.lor DTP_FLAG_SYN DTP_FLAG_ACK) (AdvertisedWindow x))
     (opening_opts DTPGenerateHostID (tc_deadline x) (announced_ws x) (Some port))
     (x <| tc_isFirstPacketSent := true |>) w' n → Q (align4 n) w') →
  wp (synack_header c p) Q w.
Proof.
  intros Hx Hk Hl Hs Hn Hf Hh Hp HQ. unfold synack_header. apply wp_bind. eapply wp_getctx; [exact Hx|].
  apply wp_bind. eapply (building_start c p w k); [exact Hx|done..|apply window_nonneg|]. intros w1 B1.
  apply wp_bind. eapply host_id_option; [done|exact B1|done|]. intros w2 n2 B2 Hn2.
  unfold DTPHDRSIZE, DTPOLEN_HOST_ID in Hn2. apply wp_bind.
  eapply (building_option c p _ k _ _ _ _ _ _ _ _ _ _ _ _ 6); [done|exact B2|done|done|lia|]. intros w3 n3 B3 Hn3.
  apply wp_bind. eapply (scale_option c p w k _ _ _ _ _ _ x x); [exact B3|done|unfold DTPOLEN_WIN_SCALE; lia|]. intros w4 n4 B4 Hn4.
  unfold DTPOLEN_WIN_SCALE in Hn4. apply wp_bind. unfold sock_port. apply wp_gets.
  assert (Ep : w_ports w4 = w_ports w) by (destruct (bd_local _ _ _ _ _ _ _ _ _ B4) as [-> _ _]; done).
  rewrite Ep, Hp. cbn [default]. apply wp_bind.
  eapply (building_option c p w k true _ _ _ _ _ _ _ _ _ _ _ 4); [done|exact B4|done|done|lia|]. intros w5 n5 B5 _. apply wp_ret, HQ.
  unfold opening_opts. rewrite <- !app_assoc in B5. exact B5.
Qed.

Lemma syn_options_spec w0 c x p k seq ack fid flags win w1 (Q : Z → world → Prop) :
  building c p w0 k (sent_header seq ack fid flags win) [] x w1 DTPHDRSIZE → flag_set flags DTP_FLAG_SYN = true →
  zlen DTPGenerateHostID = SHA1_DIGEST_LENGTH →
  (∀ w' n, building c p w0 k (sent_header seq ack fid flags win)
     (opening_opts DTPGenerateHostID (tc_deadline x) (announced_ws x) None)
     (x <| tc_isSYNSent := true |> <| tc_isFirstPacketSent := true |>) w' n → Q (align4 n) w') →
  wp (segment_options c p flags DTPHDRSIZE) Q w1.
Proof.
  intros B1 Hsyn Hh HQ. unfold segment_options. apply wp_bind. eapply wp_getctx; [by destruct B1|]. rewrite Hsyn.
  apply wp_bind, wp_bind. eapply host_id_option; [done|exact B1|done|]. intros w2 n2 B2 Hn2.
  unfold DTPHDRSIZE, DTPOLEN_HOST_ID in Hn2. apply wp_bind.
  eapply (building_option c p _ k _ _ _ _ _ _ _ _ _ _ _ _ 6); [done|exact B2|done|done|lia|]. intros w3 n3 B3 Hn3.
  apply wp_bind. eapply building_mod; [exact B3|]. intros w4 B4. apply wp_ret.
  apply wp_bind. eapply (scale_option c p w0 k seq ack fid flags win _ x (x <| tc_isSYNSent := true |>));
    [exact B4|done|unfold DTPOLEN_WIN_SCALE; lia|]. intros w5 n5 B5 _. apply wp_ret, HQ.
  unfold opening_opts. rewrite <- !app_assoc in B5. rewrite app_nil_r. exact B5.
Qed.
End headers.

(** ** The session key *)

(** The public key as a SYN carries it. *)
Definition key_bytes (n e : bytes) : bytes := le32 (zlen n) ++ n ++ le32 (zlen e) ++ e.

Lemma zlen_key n e : zlen (key_bytes n e) = 8 + zlen n + zlen e.
Proof. unfold key_bytes. rewrite !zlen_app. change (zlen (le32 (zlen n))) with 4. change (zlen (le32 (zlen e))) with 4. lia. Qed.

Lemma zslice_at (buf : bytes) off a d b :
  0 ≤ off → zslice off (zlen (a ++ d ++ b)) buf = a ++ d ++ b →
  zslice (off + zlen a) (zlen d) buf = d.
Proof.
  intros Ho E. pose proof (zlen_nonneg a). pose proof (zlen_nonneg d). pose proof (zlen_nonneg b).
  transitivity (zslice (zlen a) (zlen d) (zslice off (zlen (a ++ d ++ b)) buf)).
  - symmetry. rewrite !zlen_app. rewrite zslice_slice by lia. done.
  - rewrite E. rewrite zslice_app_r by lia. rewrite Z.sub_diag, zslice_app_l by lia. apply zslice_all.
Qed.

Lemma read_number_spec buf off a d b (Q : bytes → world → Prop) w :
  0 ≤ off → off + zlen (a ++ (le32 (zlen d) ++ d) ++ b) ≤ zlen buf →
  zslice off (zlen (a ++ (le32 (zlen d) ++ d) ++ b)) buf = a ++ (le32 (zlen d) ++ d) ++ b → zlen d ≤ RSA_LEN →
  Q d w → wp (read_number buf (off + zlen a)) Q w.
Proof.
  intros Ho Hl E Hd HQ. pose proof (zlen_nonneg a). pose proof (zlen_nonneg d). pose proof (zlen_nonneg b).
  assert (E0 : zlen (le32 (zlen d)) = 4) by done.
  pose proof (zslice_at buf off a (le32 (zlen d)) (d ++ b) Ho) as H4. rewrite <- app_assoc in Hl, E. specialize (H4 E).
  pose proof (zslice_at buf off (a ++ le32 (zlen d)) d b Ho) as Hdd. rewrite <- app_assoc in Hdd. specialize (Hdd E).
  rewrite zlen_app in Hdd. rewrite E0 in H4, Hdd. rewrite !zlen_app, E0 in Hl.
  unfold read_number. apply wp_bind, wp_block_read; [lia..|]. rewrite H4, of_le32 by (unfold is_u32, RSA_LEN in *; lia).
  rewrite (i32_small (zlen d)) by (unfold is_i32, RSA_LEN in *; lia).
  rewrite (proj2 (Z.leb_le 0 (zlen d))), (proj2 (Z.leb_le (zlen d) RSA_LEN)) by lia. cbn [andb].
  apply wp_block_read; [lia..|]. replace (off + zlen a + 4) with (off + (zlen a + 4)) by lia. by rewrite Hdd.
Qed.

(** The connection of the server after it has read the public key, drawn the session key
    [k], and sent it. *)
Definition skip (len : Z) (x : dtp_context) : dtp_context :=
  x <| tc_nextByteExpected := tc_nextByteExpected x +u len |> <| tc_lastByteRcvd := tc_lastByteRcvd x +u len |>
    <| tc_lastByteRead := tc_lastByteRead x +u len |>.

Definition with_key (k : bytes) (x : dtp_context) : dtp_context := x <| tc_key := zsplice 0 k (tc_key x) |>.

Definition first_sent (n : Z) (x : dtp_context) : dtp_context :=
  x <| tc_isFirstPacketSent := true |> <| tc_lastByteSent := tc_lastByteSent x +u n |>
    <| tc_lastByteWritten := tc_lastByteSent x +u n |>.

Definition keyed (len : Z) (k : bytes) (x : dtp_context) : dtp_context := first_sent RSA_LEN (with_key k (skip len x)).

(** Encryption under the key (n, e) yields one block. *)
Definition encrypts {env : Env} (n e : bytes) : Prop :=
  ∀ k r, zlen k = 20 → ∃ ct, env_rsa_public_encrypt n e k r = Some ct ∧ zlen ct = RSA_LEN.

Section key.
Context {env : Env} {up : NetUp env}.

(** The packet [p] has the header [h], [n] bytes of it, and [len] bytes of payload. *)
Record filled (w : world) (p : ptr) (h : bytes) (n len : Z) : Prop := {
  fi_pkt : ∃ k, w_pkts w !! p = Some k ∧ tp_header k = h ∧ tp_len k = n + len ∧ tp_headerLen k = n;
  fi_len : 0 ≤ n ≤ zlen h }.

Lemma insert_built {A} c p w0 k0 sh os x w n len total (K : M A) (Q : A → world → Prop) :
  building c p w0 k0 sh os x w n → w_pkts w0 !! p = Some k0 → pkt_pool_ok w0 → total = align4 n + len →
  (∀ w1 h, local_to c p w0 w1 → ctx_at w1 c = Some x → pkt_pool_ok w1 → filled w1 p h (align4 n) len →
     hdr_with os h n → read_header h = sh (align4 n) → wp K Q w1) →
  wp (modpkt p (set tp_ctx (λ _, c));; DTPInsertPacket p total (align4 n);; K) Q w.
Proof using.
  intros [L Hx (h & Hk & Hl & Hw & Hr)] Hk0 Hpo -> HQ. pose proof (hdr_with_weaken _ _ _ Hw) as Ha.
  apply wp_bind. eapply wp_modpkt; [exact Hk|]. set (w1 := set w_pkts _ w).
  apply wp_bind. eapply (DTPInsertPacket_wp w1 c x p); [exact Hx|cbn; apply lookup_insert_eq|done|].
  intros w2 tv L2 Hx2 Hk2. set (k2 := set tp_isRetrans _ _) in Hk2.
  assert (L' : local_to c p w0 w2) by (etrans; [exact L|etrans; [apply local_pkt|exact L2]]).
  apply (HQ w2 h); [done|done|by eapply (pool_local c p w0 w2 k0 k2)| |done|done].
  constructor; [|lia]. by exists k2.
Qed.

Lemma send_filled w p h n len (pay : Z → M bytes) d sock addr ctx (Q : Z → world → Prop) :
  filled w p h n len → zlen d = len → (∀ w', io_frame w w' → pay len w' = Ok (d, w')) →
  (∀ w', io_frame w w' → w_sent w' = w_sent w ++ [mk_datagram sock addr (zslice 0 n h ++ d)] → Q (n + len) w') →
  wp (DTPSendPacket sock (DTPGeneratePacket p pay) (n + len) addr ctx) Q w.
Proof using up.
  intros [(k & Hk & Eh & El & En) Hn] Hd Hpay HQ.
  eapply (io_send _ _ (zslice 0 n h ++ d)); [|rewrite zlen_app, zlen_slice by lia; lia|exact HQ].
  intros w3 Hio.
  assert (Hrun : wp (DTPGeneratePacket p pay) (λ r w', r = zslice 0 n h ++ d ∧ w' = w3) w3).
  { apply wp_bind. eapply wp_getpkt; [destruct Hio as [->]; exact Hk|]. rewrite Eh, El, En.
    apply wp_bind, wp_block_read; [lia..|]. apply wp_bind. replace (n + len - n) with len by lia.
    eapply run_wp; [by apply Hpay|]. by apply wp_ret. }
  apply wp_run in Hrun as (? & ? & E & -> & ->). exact E.
Qed.

Lemma pool_io w w' : io_frame w w' → pkt_pool_ok w → pkt_pool_ok w'.
Proof using. intros [->] []. by constructor. Qed.

(** The answer with the encrypted key [ct]. *)
Lemma send_key_spec w c x sock ct port :
  ctx_at w c = Some x → pkt_pool_ok w → zlen ct = RSA_LEN →
  is_u32 (tc_lastByteSent x) → is_u32 (tc_nextByteExpected x) → is_u32 (tc_flowID x) →
  zlen DTPGenerateHostID = SHA1_DIGEST_LENGTH → w_ports w !! tc_sock x = Some port →
  wp (packet ← DTPGetIdlePacket;
      mwhen false (modctx c (λ x, x <| tc_lastByteSent := tc_lastByteSent x -u zlen ct |>));;
      hdr_size ← synack_header c packet;
      modpkt packet (set tp_ctx (λ _, c));;
      DTPInsertPacket packet (zlen ct + hdr_size) hdr_size;;
      x ← getctx c;
      DTPSendPacket sock (DTPGeneratePacket packet (from_local ct)) (zlen ct + hdr_size) (tc_peerAddr x) (Some c);;
      modctx c (λ x, x <| tc_lastByteSent := tc_lastByteSent x +u zlen ct |>);;
      modctx c (λ x, x <| tc_lastByteWritten := tc_lastByteSent x |>)) (λ _ w', ∃ bts win,
    ctx_at w' c = Some (first_sent RSA_LEN x) ∧ w_sent w' = w_sent w ++ [mk_datagram sock (tc_peerAddr x) bts] ∧
    (∀ pad, opening (opening_opts DTPGenerateHostID (tc_deadline x) (announced_ws x) (Some port)) (tc_lastByteSent x)
       (tc_nextByteExpected x) (tc_flowID x) (Z.lor DTP_FLAG_SYN DTP_FLAG_ACK) win ct (bts ++ pad)) ∧
    pkt_pool_ok w' ∧ tx_frame c w w') w.
Proof using up.
  intros Hx Hpo Hct Hs Hn Hf Hid Hport. apply wp_bind. eapply wp_mono; [by apply DTPGetIdlePacket_spec|].
  intros p w1 (Hpo1 & Hfr1 & [k Hk] & _ & _ & _). pose proof (pp_hdr _ Hpo1 _ _ Hk) as Hl. pose proof Hfr1 as [E1 _ _].
  apply wp_bind, wp_ret, wp_bind. eapply (synack_header_spec w1 c x p k port); try done.
  { by rewrite E1. } { by rewrite E1. }
  intros w2 n B2. eapply (insert_built c p w1 k _ _ _ _ _ (zlen ct)); [exact B2|done|done|lia|].
  intros w3 h L3 Hx3 Hpo3 Hfi Hw3 Hr3. apply wp_bind. eapply wp_getctx; [exact Hx3|]. apply wp_bind.
  rewrite (Z.add_comm (zlen ct)). eapply (send_filled w3 p h _ _ _ ct); [exact Hfi|done| |].
  { intros w' _. pose proof (zlen_nonneg ct). unfold from_local, block_read. rewrite (proj2 (in_block_spec _ _ _)) by lia. by rewrite zslice_all. }
  intros w4 Hio Hs4. assert (Hx4 : ctx_at w4 c = Some (x <| tc_isFirstPacketSent := true |>)) by (by rewrite (io_ctx _ _ c Hio)).
  apply wp_bind. eapply wp_modctx; [exact Hx4|].
  set (x5 := set tc_lastByteSent _ _). eapply wp_modctx; [by eapply ctx_at_put|].
  eexists (zslice 0 (align4 n) h ++ ct), _. split_and!; [rewrite <- Hct; eapply ctx_at_put; by eapply ctx_at_put| | | |].
  - cbn. rewrite Hs4, (proj2 (local_same _ _ _ _ L3)). replace (w_sent w1) with (w_sent w) by (by rewrite E1). done.
  - intros pad. exists h, n, pad. split_and!; [by rewrite <- app_assoc|done|exact Hr3].
  - pose proof (pool_io _ _ Hio Hpo3) as []. by constructor.
  - etrans; [by apply tx_pool|]. etrans; [by eapply tx_local|]. etrans; [by apply tx_io|].
    etrans; eapply tx_local, (local_ctx c 0).
Qed.

(** [DTPHandleKey] for a new connection: the reply to a SYN with the public key (n, e)
    carries a fresh session key, encrypted, which is the key of the connection. *)
Lemma DTPHandleKey_spec `{!RandUp env} w c x sock buf n e port :
  ctx_at w c = Some x → pkt_pool_ok w → encrypts n e →
  DTPHDRSIZE ≤ GetHeaderLen buf → GetHeaderLen buf + zlen (key_bytes n e) ≤ zlen buf →
  zslice (GetHeaderLen buf) (zlen (key_bytes n e)) buf = key_bytes n e → zlen n ≤ RSA_LEN → zlen e ≤ RSA_LEN →
  is_u32 (tc_lastByteSent x) → is_u32 (tc_flowID x) → 20 ≤ zlen (tc_key x) →
  zlen DTPGenerateHostID = SHA1_DIGEST_LENGTH → w_ports w !! tc_sock x = Some port →
  wp (DTPHandleKey sock c buf false) (λ _ w', ∃ k r ct bts win, zlen k = 20 ∧ env_rsa_public_encrypt n e k r = Some ct ∧
    zlen ct = RSA_LEN ∧ ctx_at w' c = Some (keyed (zlen (key_bytes n e)) k x) ∧
    w_sent w' = w_sent w ++ [mk_datagram sock (tc_peerAddr x) bts] ∧
    (∀ pad, opening (opening_opts DTPGenerateHostID (tc_deadline x) (announced_ws x) (Some port)) (tc_lastByteSent x)
       (tc_nextByteExpected x +u zlen (key_bytes n e)) (tc_flowID x) (Z.lor DTP_FLAG_SYN DTP_FLAG_ACK) win ct (bts ++ pad)) ∧
    pkt_pool_ok w' ∧ tx_frame c w w') w.
Proof using up.
  intros Hx Hpo Henc Hh Hl Hd Hn He Hs Hf Hkl Hid Hport. unfold DTPHandleKey. cbv zeta.
  pose proof (zlen_nonneg n). pose proof (zlen_nonneg e).
  assert (E1 : key_bytes n e = [] ++ (le32 (zlen n) ++ n) ++ (le32 (zlen e) ++ e)) by (unfold key_bytes; by rewrite <- app_assoc).
  assert (E2 : key_bytes n e = (le32 (zlen n) ++ n) ++ (le32 (zlen e) ++ e) ++ [])
    by (unfold key_bytes; by rewrite app_nil_r, <- app_assoc).
  apply wp_bind. replace (GetHeaderLen buf) with (GetHeaderLen buf + zlen (@nil Z)) at 1 by (change (zlen (@nil Z)) with 0; lia).
  eapply (read_number_spec _ _ [] n (le32 (zlen e) ++ e)); [unfold DTPHDRSIZE in *; lia|by rewrite <- E1..|done|].
  apply wp_bind. replace (GetHeaderLen buf + 4 + zlen n) with (GetHeaderLen buf + zlen (le32 (zlen n) ++ n))
    by (rewrite zlen_app; change (zlen (le32 (zlen n))) with 4; lia).
  eapply (read_number_spec _ _ _ e []); [unfold DTPHDRSIZE in *; lia|by rewrite <- E2..|done|]. clear E1 E2.
  rewrite <- zlen_key. set (len := zlen (key_bytes n e)). cbn [negb mwhen].
  apply wp_bind. eapply wp_modctx; [exact Hx|]. change (set tc_lastByteRead _ _) with (skip len x).
  set (x1 := skip len x). set (w1 := set w_ctxs _ w).
  assert (Hx1 : ctx_at w1 c = Some x1) by (by eapply ctx_at_put).
  apply wp_bind. eapply wp_getctx; [exact Hx1|].
  apply wp_bind. unfold rand_devices_now. unfold wp at 1. set (d := env_random _). set (w2 := set w_nrand _ w1).
  assert (Hd20 : good_devices 20 d) by apply rand_up.
  change (tc_key x1) with (tc_key x). apply wp_bind. eapply wp_lift; [by apply spc_keygen_Ok|]. cbn beta iota.
  assert (Hk : zlen (key_of 20 d) = 20) by (by apply zlen_key_of).
  assert (Ek : zslice 0 20 (zsplice 0 (key_of 20 d) (tc_key x)) = key_of 20 d) by (rewrite <- Hk at 1; apply zslice_splice_same; lia).
  rewrite Ek. clear Ek.
  set (k := key_of 20 d) in *.
  apply wp_bind. eapply wp_modctx; [exact Hx1|]. change (set tc_key _ x1) with (with_key k x1).
  set (x3 := with_key k x1). set (w3 := set w_ctxs _ w2).
  assert (Hx3 : ctx_at w3 c = Some x3) by (by eapply ctx_at_put).
  apply wp_bind, wp_gets, wp_bind, wp_modify. set (w4 := set w_nrand _ w3).
  assert (F4 : tx_frame c w w4).
  { constructor; [by destruct w| |done]. intros c' Hc'. change (ctx_at w4 c') with (ctx_at w3 c').
    unfold w3. rewrite ctx_at_put_ne by done. change (ctx_at w2 c') with (ctx_at w1 c'). by apply ctx_at_put_ne. }
  assert (Hpo4 : pkt_pool_ok w4) by (by destruct Hpo).
  assert (Hx4 : ctx_at w4 c = Some x3) by exact Hx3.
  assert (Hf3 : tc_lastByteSent x3 = tc_lastByteSent x ∧ tc_flowID x3 = tc_flowID x ∧ tc_sock x3 = tc_sock x ∧
    tc_deadline x3 = tc_deadline x ∧ announced_ws x3 = announced_ws x ∧ tc_peerAddr x3 = tc_peerAddr x ∧
    tc_nextByteExpected x3 = tc_nextByteExpected x +u len) by done.
  assert (Hp4 : w_ports w4 = w_ports w ∧ w_sent w4 = w_sent w) by done. 
  assert (E3 : keyed len k x = first_sent RSA_LEN x3) by reflexivity.
  clearbody w4 x3 k.
  destruct Hf3 as (Es & Ef & Eso & Edl & Ews & Epa & Enx). destruct Hp4 as [Ep4 Es4].
  destruct (Henc k (w_nrand w3) Hk) as (ct & Ec & Hct). rewrite Ec.
  eapply wp_mono; [eapply (send_key_spec w4 c x3 sock ct port); try done|].
  - by rewrite Es.
  - rewrite Enx. apply u32_range.
  - by rewrite Ef.
  - by rewrite Ep4, Eso.
  - intros _ w' (bts & win & Hx' & Hs' & Ho & Hpo' & F'). exists k, (w_nrand w3), ct, bts, win.
    rewrite E3, <- Es4, <- Epa, <- Edl, <- Ews, <- Es, <- Enx, <- Ef. split_and!; try done. by etrans.
Qed.
End key.

(** ** The listening socket *)

Lemma flowmap_same w w' :
  (∀ c, ctx_at w' c = ctx_at w c) → w_FlowIDMapBins w' = w_FlowIDMapBins w → flowmap_ok w →
  flowmap_ok w' ∧ ∀ c fid, on_map w' c fid ↔ on_map w c fid.
Proof.
  intros Hc Hb [Hbin Hnd Hflag Hinj]. assert (Eb : ∀ i, fid_bin w' i = fid_bin w i) by (intros i; unfold fid_bin; by rewrite Hb).
  assert (Hon : ∀ c fid, on_map w' c fid ↔ on_map w c fid) by (intros c fid; unfold on_map; by rewrite Hc, Eb).
  split; [|done]. constructor; intros *; rewrite ?Eb, ?Hc, ?Hon; eauto.
Qed.

(** What the new connection offers to [dtp_accept]. *)
Definition offered (c : Z) (q : list Z) (y : dtp_context) : dtp_context :=
  y <| tc_listenQ := Some (<[Z.to_nat (tc_qidx y) := c]> q) |> <| tc_qidx := tc_qidx y + 1 |>.

Section announce.
Context {env : Env} (c l fid : Z) (w0 : world).

(** The same with the port of the new socket. *)
Definition bound_to (port : Z) (w : world) (x y : dtp_context) : Prop :=
  regd c l fid w0 w x y ∧ w_ports w !! c = Some port.

Lemma bound_minor port f (Q : unit → world → Prop) w x y :
  bound_to port w x y → minor x (f x) → (∀ w' x', bound_to port w' x' y → minor x x' → Q tt w') → wp (modctx c f) Q w.
Proof using.
  intros [Hr Hp] Hm HQ. eapply wp_mono; [apply (wp_conj _ (λ _ w', ∃ x', regd c l fid w0 w' x' y ∧ minor x x')
    (λ _ w', w_ports w' !! c = Some port))|].
  - eapply (regd_mod c l fid w0 (minor x)); [exact Hr|by destruct Hm|done|]. eauto.
  - eapply wp_modctx; [by destruct Hr|done].
  - intros [] w' [(x' & Hr' & Hm') Hp']. eapply HQ; [by split|done].
Qed.

Lemma bind_loop_spec n tries i w x y (Q : unit → world → Prop) :
  regd c l fid w0 w x y → 49152 ≤ i < 65535 →
  (∀ w' x' port, bound_to port w' x' y → minor x x' → 49152 < port < 65535 → Q tt w') →
  wp (bind_loop (replicate n false ++ true :: tries) c c i) Q w.
Proof using.
  intros Hr. revert i. induction n as [|n IH]; intros i Hi HQ; cbn [replicate app bind_loop]; set (j := if i + 1 =? 65535 then _ else _);
    assert (Hj : 49152 < j < 65535) by (unfold j; destruct (Z.eqb_spec (i + 1) 65535); lia); clearbody j.
  - apply wp_bind, wp_modify. eapply (bound_minor j); [|solve_minor|eauto].
    destruct Hr as [Hx Hy Hn Hm Ho Hf]. destruct (flowmap_same w (w <| w_ports ::= <[c := j]> |>)) as [Hm' Ho']; [done..|].
    split; [|cbn; apply lookup_insert_eq]. constructor; [done|done|done|done|by apply Ho'|]. etrans; [exact Hf|by constructor].
  - apply IH; [lia|done].
Qed.

Lemma listenQ_push_spec q w x y (Q : unit → world → Prop) :
  regd c l fid w0 w x y → tc_listenQ y = Some q → 0 ≤ tc_qidx y < zlen q →
  (∀ w', regd c l fid w0 w' x (offered c q y) → Q tt w') → wp (listenQ_push l c) Q w.
Proof using.
  intros Hr Hq Hi HQ. unfold listenQ_push. apply wp_bind. eapply wp_getctx; [by destruct Hr|]. rewrite Hq.
  rewrite (proj2 (Z.leb_le 0 (tc_qidx y))), (proj2 (Z.ltb_lt (tc_qidx y) (zlen q))) by lia. cbn [andb].
  eapply (regd_mod_listen c l fid w0 (λ y', y' = offered c q y)); [exact Hr|done|done|].
  intros w' y' Hr' ->. by apply HQ.
Qed.

Lemma announce_spec n tries q w x y (Q : unit → world → Prop) :
  regd c l fid w0 w x y → tc_sock x = c → 0 ≤ c < FD_SETSIZE_S → tc_listenQ y = Some q → 0 ≤ tc_qidx y < zlen q →
  tc_isReadBlocked y = false → env_bind c = replicate n false ++ true :: tries →
  (∀ w' x' port, bound_to port w' x' (offered c q y) → minor x x' → 49152 < port < 65535 → Q tt w') →
  wp (announce l c) Q w.
Proof using.
  intros Hr Hsock Hc Hq Hi Hb Hbind HQ. unfold announce. apply wp_bind. eapply wp_getctx; [by destruct Hr|]. rewrite Hsock.
  apply wp_bind. eapply listenQ_push_spec; [exact Hr|done|done|]. intros w1 R1.
  assert (Hb1 : tc_isReadBlocked (offered c q y) = false) by done. set (y1 := offered c q y) in *. clearbody y1.
  apply wp_bind, io_select_set; [done|]. intros w2 Hio Hs2. pose proof (regd_io c l fid w0 w1 w2 x y1 Hio Hs2 R1) as R2.
  apply wp_bind. eapply wp_getctx; [by destruct R2|]. rewrite Hb1. apply wp_bind, wp_ret.
  rewrite Hbind. apply wp_bind. eapply bind_loop_spec; [exact R2|lia|]. intros w3 x3 port B3 M3 Hp.
  apply wp_bind. eapply wp_getctx; [by destruct B3 as [[] _]|]. apply wp_when; intros _; [|by eapply HQ].
  apply wp_bind. eapply bound_minor; [exact B3|solve_minor|]. intros w4 x4 B4 M4.
  apply wp_bind. eapply wp_getctx; [by destruct B4 as [[] _]|]. apply wp_modify.
  eapply (HQ _ x4 port); [|by etrans|done]. destruct B4 as [R4 P4]. split; [|done].
  apply (regd_io c l fid w0 w4); [solve_io|done|exact R4].
Qed.
End announce.

(** ** SYN *)

(** What a host must have for a new connection: the invariants of its tables and pools and
    a free descriptor [c]. *)
Record can_create {env : Env} (w : world) (c : Z) : Prop := {
  cc_slots : slots_ok w; cc_queue : retq_ok w; cc_map : flowmap_ok w; cc_pool : pkt_pool_ok w; cc_free : free_slot w c }.

(** The listening socket [l], [y], has room in its queue [q]; its application is not
    waiting in [dtp_accept]. *)
Record listening (w : world) (l : Z) (y : dtp_context) (q : list Z) : Prop := {
  li_ctx : ctx_at w l = Some y; li_sock : sock_ok l y; li_queue : tc_listenQ y = Some q;
  li_room : 0 ≤ tc_qidx y < zlen q; li_backlog : tc_backlog y = zlen q; li_idle : tc_isReadBlocked y = false }.

(** Nothing was sent that would have to be sent again, nothing is in the buffers. *)
Record idle (x : dtp_context) : Prop := {
  id_steady : steady x = steady_new; id_queue : tc_packetQ x = []; id_net : tc_isNetConnected x = true; id_cong : tc_isCongested x = false;
  id_seg : tc_segSent x = 0; id_close : tc_closeCalled x = false; id_zero : tc_isHerWindowZero x = false; id_win : is_u32 (tc_rcvWindow x); id_cc : cc_ok x;
  id_wbuf : ∃ wb, tc_writeBuf x = Some wb ∧ zlen wb = tc_writeBufLen x }.

Lemma zlen_malloc {env : Env} n : 0 ≤ n → zlen (malloc_bytes n) = n.
Proof. intros Hn. unfold malloc_bytes, zlen. rewrite length_resize. lia. Qed.

Lemma idle_new {env : Env} c tv1 tv2 : idle (new_ctx c tv1 tv2).
Proof.
  constructor; [done..|apply u32_range| |].
  - unfold new_ctx. apply cc_ok_slow_start; split; done.
  - exists (malloc_bytes DEF_WRITE_BUFLEN). split; [done|by apply zlen_malloc].
Qed.

Lemma new_ctx_facts {env : Env} w c tv1 tv2 :
  ctx_at w c = Some (new_ctx c tv1 tv2) →
  ∃ x, ctx_at w c = Some x ∧ tc_key x = zeros RSA_LEN ∧ tc_sock x = c ∧ tc_onFlowIDMap x = false ∧ idle x ∧
    tc_sendWindowScale x = 0.
Proof. intros Hx. exists (new_ctx c tv1 tv2). split; [exact Hx|]. split_and!; [reflexivity..|apply idle_new|reflexivity]. Qed.

Lemma idle_base x x' : same_base x x' → idle x → idle x'.
Proof.
  intros [] [? ? ? ? ? ? ? ? [] (wb & ? & ?)]. constructor; try congruence; [|exists wb; split; congruence].
  constructor; congruence.
Qed.

(** A new connection of the server that has sent its key [k] to [addr]. *)
Record half_open (x : dtp_context) (c fid : Z) (addr : sockaddr_in) (hid : bytes) (next : Z) (k : bytes) : Prop := {
  ho_state : tc_state x = SOCK_SYN_RCVD; ho_sock : tc_sock x = c; ho_fid : tc_flowID x = fid;
  ho_shake : shaking x addr hid next RSA_LEN; ho_written : tc_lastByteWritten x = RSA_LEN;
  ho_key : tc_key x = zsplice 0 k (zeros RSA_LEN); ho_idle : idle x }.

Lemma flowmap_tx c w w' x x' :
  flowmap_ok w → tx_frame c w w' → ctx_at w c = Some x → ctx_at w' c = Some x' → same_flow x x' →
  flowmap_ok w' ∧ ∀ c' fid, on_map w' c' fid ↔ on_map w c' fid.
Proof.
  intros Hm [R O _] Hx Hx' [E1 E2]. destruct (flowmap_ok_ctx w c x x' Hm Hx E1 E2) as [Hm1 Hon1].
  destruct (flowmap_same (w <| w_ctxs ::= <[c := x']> |>) w') as [Hm2 Hon2]; [|by rewrite R|done|].
  - intros c'. destruct (decide (c' = c)) as [->|Hc]; [by rewrite Hx', (ctx_at_put w c x)|].
    by rewrite O, ctx_at_put_ne.
  - split; [done|]. intros. by rewrite Hon2, Hon1.
Qed.

Lemma open_weaken c l w w' : open_frame c c w w' → open_frame c l w w'.
Proof. intros []. constructor; eauto. Qed.

Lemma half_open_of x c fid addr hid seq len k :
  tc_state x = SOCK_SYN_RCVD → tc_sock x = c → tc_flowID x = fid → shaking x addr hid seq 0 → tc_key x = zeros RSA_LEN → idle x →
  half_open (keyed len k x) c fid addr hid (seq +u len) k.
Proof.
  intros Hs Hc Hf [] Hk Hi. constructor; [done|done|done| |change (tc_lastByteSent x +u RSA_LEN = RSA_LEN); by rewrite sh_sent0|
    change (zsplice 0 k (tc_key x) = zsplice 0 k (zeros RSA_LEN)); by rewrite Hk|].
  2: { destruct Hi as [? ? ? ? ? ? ? ? [] ?]. by constructor; [..|constructor|]. }
  constructor; [done|done|change (tc_nextByteExpected x +u len = seq +u len); by rewrite sh_next0
    |change (tc_lastByteRcvd x +u len = seq +u len); by rewrite sh_rcvd0
    |change (tc_lastByteRead x +u len = seq +u len); by rewrite sh_read0
    |change (tc_lastByteSent x +u RSA_LEN = RSA_LEN); by rewrite sh_sent0|done].
Qed.

Section syn.
Context {env : Env} {up : NetUp env} {rnd : RandUp env}.

Lemma HandleSYNPacket_new w c l y q buf addr hid deadline ws seq fid n e nb tries :
  can_create w c → listening w l y q → l ≠ c → (∀ c', ¬ on_map w c' fid) →
  zlen DTPGenerateHostID = SHA1_DIGEST_LENGTH → env_bind c = replicate nb false ++ true :: tries → encrypts n e →
  opened (opening_opts hid deadline ws None) seq 0 fid (key_bytes n e) buf →
  zlen hid = SHA1_DIGEST_LENGTH → is_i32 deadline → is_u32 seq → is_u32 fid → zlen n ≤ RSA_LEN → zlen e ≤ RSA_LEN →
  wp (HandleSYNPacket l buf addr) (λ r w', r = Some c ∧ ∃ x k rd ct bts win port ws',
    ctx_at w' c = Some x ∧ half_open x c fid addr hid (seq +u zlen (key_bytes n e)) k ∧
    tc_deadline x = Z.max 0 deadline ∧ ctx_at w' l = Some (offered c q y) ∧ on_map w' c fid ∧ flowmap_ok w' ∧
    zlen k = 20 ∧ env_rsa_public_encrypt n e k rd = Some ct ∧ zlen ct = RSA_LEN ∧ 49152 < port < 65535 ∧ w_ports w' !! c = Some port ∧
    w_sent w' = w_sent w ++ [mk_datagram l addr bts] ∧
    (∀ pad, opening (opening_opts DTPGenerateHostID (Z.max 0 deadline) ws' (Some port)) 0
       (seq +u zlen (key_bytes n e)) fid (Z.lor DTP_FLAG_SYN DTP_FLAG_ACK) win ct (bts ++ pad)) ∧
    (∀ c' z, c' ≠ c → c' ≠ l → ctx_at w c' = Some z → ctx_at w' c' = Some z) ∧ pkt_pool_ok w' ∧
    tc_sendWindowScale x = taken_scale ws 0 ∧ w_timerLock w' = false ∧ ∃ l1 l2, w_retTimerQ w = l1 ++ l2 ∧ w_retTimerQ w' = l1 ++ c :: l2) w.
Proof using up rnd.
  intros [Hsl Hq Hm Hpo Hfs] [Hy Hso Hlq Hroom Hbl Hidle] Hne Hfree Hid Hbind Henc Ho Hh Hdl Hseq Hfid Hn He.
  destruct Ho as [Os Oa Of Oh Od [m Om]]. unfold HandleSYNPacket. rewrite Of.
  apply wp_bind. eapply wp_lift; [by eapply opening_options|]. cbn [negb default].
  apply wp_bind. eapply wp_mono; [by apply DTPGetContextByFlowID_spec|]. intros r w0 [-> Hr].
  assert (r = None) as -> by (destruct r as [c'|]; [exfalso; eapply Hfree, Hr; done|done]).
  apply wp_bind. eapply get_ctx_by_socket; [exact Hso|].
  apply wp_bind, wp_bind. eapply wp_getctx; [exact Hy|]. apply wp_ret.
  rewrite (proj2 (Z.eqb_neq (tc_qidx y) (tc_backlog y))) by lia.
  apply wp_bind. eapply wp_mono; [by eapply create_spec|].
  intros r w1 (-> & F1 & (l1 & l2 & Eq & Eq1) & (tv1 & tv2 & Hx1) & Hm1 & Hon1).
  destruct (new_ctx_facts w1 c tv1 tv2 Hx1) as (x1 & Hx & Hk1 & Hs1 & Ho1 & Hi1 & Hw1). clear Hx1. rename Hx into Hx1.
  apply wp_bind. eapply (init_passive_spec c l fid w1 w1 x1 y addr hid); [exact Hx1|by apply (of_other _ _ _ _ F1)|done|done
    |reflexivity|done|intros c'; rewrite Hon1; apply Hfree|exact Om|].
  intros w2 x2 R2 Hsh2 Hb2 Hf2 Hst2 Hd2 Hw2.
  assert (Hdl2 : tc_deadline x2 = Z.max 0 deadline)
    by (rewrite Hd2; apply (i32_small (Z.max 0 deadline)); unfold is_i32 in *; lia). clear Hd2.
  assert (Hs2 : tc_sock x2 = c) by (destruct Hb2; congruence).
  apply wp_bind. eapply announce_spec; [exact R2|done|by destruct Hfs|done|done|done|done|].
  intros w3 x3 port [R3 Hp3] M3 Hp. destruct M3 as [Mb Mf _ Ms Msh Mw Md]. destruct R3 as [Hx3 Hy3 _ Hm3 Hon3 F13].
  assert (Hq3 : w_timerLock w3 = false ∧ w_retTimerQ w3 = l1 ++ c :: l2).
  { destruct (of_queue _ _ _ _ F13) as [L3 [Q3|(N3 & _)]]; [|exfalso; apply N3; rewrite Eq1; set_solver].
    destruct (of_queue _ _ _ _ F1) as [L1 _]. split; [by rewrite L3, L1; destruct Hq|congruence]. }
  assert (F3 : open_frame c l w w3) by (etrans; [by apply open_weaken|exact F13]). clear F13.
  assert (Hs3 : tc_sock x3 = c) by (destruct Mb; congruence).
  assert (Hk3 : tc_key x3 = zeros RSA_LEN) by (destruct Mb, Hb2; congruence).
  apply Msh in Hsh2. rewrite Os in Hsh2. 
  assert (Hf3 : tc_flowID x3 = fid) by congruence.
  apply wp_bind. eapply wp_mono; [eapply (DTPHandleKey_spec w3 c x3 l buf n e port); try done; try apply Oh|].
  { eapply open_pool; [exact F3|done]. } { by rewrite (sh_sent _ _ _ _ _ Hsh2). } { by rewrite Hf3. } { by rewrite Hk3. } { by rewrite Hs3. }
  intros _ w4 (k & rd & ct & bts & win & Hk & Ect & Hct & Hx4 & Hs4 & Hop & Hpo4 & F4).
  apply wp_bind, io_select_set; [by destruct Hso|]. intros w5 Hio Hs5. apply wp_ret. split; [done|].
  rewrite Hf3, Md, Hdl2, (sh_next _ _ _ _ _ Hsh2), (sh_sent _ _ _ _ _ Hsh2) in Hop.
  destruct (flowmap_tx c w3 w4 x3 _ Hm3 F4 Hx3 Hx4) as [Hm4 Hon4]; [done|].
  destruct (flowmap_same w4 w5) as [Hm5 Hon5]; [intros; by apply io_ctx|by destruct Hio as [->]|done|].
  exists (keyed (zlen (key_bytes n e)) k x3), k, rd, ct, bts, win, port, (announced_ws x3). split_and!; try done; try lia.
  - rewrite (io_ctx _ _ c Hio). exact Hx4.
  - apply half_open_of; try (congruence || done). by apply (idle_base x2), (idle_base x1).
  - change (tc_deadline x3 = Z.max 0 deadline). congruence.
  - by rewrite (io_ctx _ _ l Hio), (tx_other _ _ _ F4).
  - by apply Hon5, Hon4.
  - destruct Hio as [->]. cbn. destruct F4 as [-> _ _]. exact Hp3.
  - rewrite Hs5, Hs4, (of_sent _ _ _ _ F3), (sh_addr _ _ _ _ _ Hsh2). done.
  - intros c' z Hc Hl Hz. rewrite (io_ctx _ _ c' Hio), (tx_other _ _ _ F4) by done. by apply (of_other _ _ _ _ F3).
  - by eapply pool_io.
  - change (tc_sendWindowScale x3 = taken_scale ws 0). by rewrite Mw, Hw2, Hw1.
  - destruct Hio as [->]. cbn. rewrite (tx_rest _ _ _ F4). cbn. apply Hq3.
  - exists l1, l2. split; [done|]. destruct Hio as [->]. cbn. rewrite (tx_rest _ _ _ F4). cbn. apply Hq3.
Qed.
End syn.

(** ** SYN+ACK *)

(** The connection of the client before and after: [hid] and [k] are the host ID and the key
    of the server, [next] the position behind its key. *)
Definition takes_key (hid k : bytes) (next : Z) (addr : sockaddr_in) (ws port : Z) (x : dtp_context) : dtp_context :=
  let x := x <| tc_hostID := hid |> in
  with_options ws (Some port)
    (x <| tc_key := zsplice 0 k (tc_key x) |> <| tc_state := SOCK_ESTABLISHED |>
       <| tc_nextByteExpected := next |> <| tc_lastByteRcvd := next |> <| tc_lastByteRead := next |>
       <| tc_peerAddr := addr |>).

Section synack.
Context {env : Env} {up : NetUp env}.

Lemma HandleSYNACKPacket_spec w c x buf addr hid deadline ws port seq ack fid ct k :
  ctx_at w c = Some x → sock_ok c x → tc_state x = SOCK_SYN_SENT →
  opened (opening_opts hid deadline ws (Some port)) seq ack fid ct buf → zlen ct = RSA_LEN →
  env_rsa_private_decrypt ct = Some k → zlen hid = SHA1_DIGEST_LENGTH → is_i32 deadline → is_u16 port →
  wp (HandleSYNACKPacket c buf addr) (λ r w', let x' := takes_key hid k (seq +u RSA_LEN) addr ws port x in
    r = Some c ∧ ctx_at w' c = Some x' ∧ (∀ c', c' ≠ c → ctx_at w' c' = ctx_at w c') ∧
    w_sent w' = w_sent w ++ [mk_datagram c (set_sin_port addr port)
                               (control_header x' (zeros DTPHDRSIZE) DTP_FLAG_ACK)] ∧ (buf_pool_ok w → buf_pool_ok w')) w.
Proof using up.
  intros Hx Hso Hst [Os Oa Of Oh Od [m Om]] Hct Hdec Hh Hdl Hp. unfold HandleSYNACKPacket.
  apply wp_bind. eapply get_ctx_by_socket; [exact Hso|]. apply wp_bind. eapply wp_getctx; [exact Hx|].
  unfold is_state at 1. rewrite bool_decide_eq_true_2 by done. apply wp_bind. unfold establish.
  apply wp_bind. eapply wp_lift; [by eapply opening_options|]. cbn [negb default].
  apply wp_bind. eapply wp_modctx; [exact Hx|]. set (x1 := set tc_hostID _ x). set (w1 := set w_ctxs _ w).
  assert (Hx1 : ctx_at w1 c = Some x1) by (by eapply ctx_at_put).
  apply wp_bind. apply payload_read; [unfold DTPHDRSIZE, RSA_LEN in *; lia..|]. rewrite <- Hct, Od, Hdec.
  apply wp_bind. eapply wp_modctx; [exact Hx1|]. rewrite Os, Hct.
  set (x2 := set tc_peerAddr _ _). set (w2 := set w_ctxs _ w1).
  assert (Hx2 : ctx_at w2 c = Some x2) by (by eapply ctx_at_put).
  apply wp_bind. eapply DTPParseOption_spec; [exact Om|exact Hx2|]. rewrite opening_parsed by (by intros ? [= <-]).
  set (x3 := with_options ws (Some port) x2). set (w3 := set w_ctxs _ w2).
  assert (Hx3 : ctx_at w3 c = Some x3) by (by eapply ctx_at_put).
  assert (Hs3 : tc_sock x3 = c ∧ tc_peerAddr x3 = set_sin_port addr port).
  { split; [|unfold x3, with_options; by destruct (_ && _)]. transitivity (tc_sock x); [|by destruct Hso].
    unfold x3, with_options. by destruct (_ && _). }
  assert (E3 : takes_key hid k (seq +u RSA_LEN) addr ws port x = x3) by reflexivity. rewrite E3.
  assert (Hne : ∀ c', c' ≠ c → ctx_at w3 c' = ctx_at w c').
  { intros c' Hc. unfold w3. rewrite ctx_at_put_ne by done. unfold w2. rewrite ctx_at_put_ne by done. by apply ctx_at_put_ne. }
  assert (Hsent : w_sent w3 = w_sent w) by done.
  assert (Hbp : buf_pool_ok w → buf_pool_ok w3) by (by intros []). clearbody x3 w3. destruct Hs3 as [Hs3 Hp3].
  apply wp_bind. eapply wp_getctx; [exact Hx3|]. apply wp_bind, io_select_clr; [rewrite Hs3; by destruct Hso|].
  intros w4 Hio Hs4. apply wp_ret. cbn [negb]. apply wp_bind.
  apply (io_send_ack c x3); [by rewrite (io_ctx _ _ c Hio)|]. intros w5 Hio5 Hs5. apply wp_ret. cbv zeta.
  split_and!; [done|by rewrite (io_ctx _ _ c Hio5), (io_ctx _ _ c Hio)| | |].
  - intros c' Hc. by rewrite (io_ctx _ _ c' Hio5), (io_ctx _ _ c' Hio), Hne.
  - by rewrite Hs5, Hs4, Hsent, Hs3, Hp3.
  - intros [? ? ? ? ?]%Hbp. destruct Hio5 as [->], Hio as [->]. by constructor.
Qed.
End synack.

(** ** Connecting *)

(** A read buffer, and an empty one. *)
Definition rcv_view (x : dtp_context) : option bytes * Z * ptr * Z :=
  (tc_readBuf x, tc_readBufLen x, tc_readBufHead x, tc_recvWindowScale x).
Definition rcv_empty (v : option bytes * Z * ptr * Z) : Prop :=
  ∃ rb n s, v = (Some rb, n, NULL, s) ∧ zlen rb = n ∧ 0 < n < 2 ^ 20.

(** A socket that has not been used. *)
Record fresh_sock (c : Z) (x : dtp_context) : Prop := {
  fr_sock : sock_ok c x; fr_net : tc_isNetConnected x = true; fr_cong : tc_isCongested x = false;
  fr_syn : tc_isSYNSent x = false; fr_any : tc_recvAnyData x = false; fr_auth : tc_isAUTHSent x = false;
  fr_close : tc_closeCalled x = false; fr_fin : tc_isFINRcvd x = false; fr_next : tc_nextByteExpected x = 0;
  fr_win : MAX_PAYLOAD ≤ tc_rcvWindow x < 2 ^ 31; fr_cwnd : MAX_PAYLOAD ≤ tc_cwnd x - tc_segSent x < 2 ^ 31;
  fr_key : tc_key x = zeros RSA_LEN; fr_steady : steady x = steady_new; fr_rcv : rcv_empty (rcv_view x) }.

Lemma fresh_new {env : Env} c tv1 tv2 : 0 ≤ c < FD_SETSIZE_S → fresh_sock c (new_ctx c tv1 tv2).
Proof. intros Hc. constructor; [by constructor|done..|split; [by vm_compute|done]|split; [by vm_compute|done]|done|done|].
  exists (malloc_bytes DEF_READ_BUFLEN), DEF_READ_BUFLEN, 4. split_and!; [done|by apply zlen_malloc|done|done].
Qed.

(** A socket that [dtp_connect] is about to send a SYN on. *)
Record connecting (c : Z) (addr : sockaddr_in) (x : dtp_context) : Prop := {
  cn_fresh : fresh_sock c x; cn_state : tc_state x = SOCK_SYN_SENT; cn_send : tc_sendSYN x = true;
  cn_addr : tc_peerAddr x = addr; cn_acked : tc_lastByteAcked x = 0; cn_sent : tc_lastByteSent x = 0 }.

(** After the SYN, which carries the [len] bytes of the public key. *)
Record syn_sent (c fid : Z) (addr : sockaddr_in) (len : Z) (x : dtp_context) : Prop := {
  ss_sock : sock_ok c x; ss_state : tc_state x = SOCK_SYN_SENT; ss_fid : tc_flowID x = fid;
  ss_addr : tc_peerAddr x = addr; ss_sent : tc_lastByteSent x = len; ss_written : tc_lastByteWritten x = len;
  ss_acked : tc_lastByteAcked x = 0; ss_key : tc_key x = zeros RSA_LEN; ss_fin : tc_isFINRcvd x = false;
  ss_steady : steady x = steady_new; ss_rcv : rcv_empty (rcv_view x) }.

Section connect.
Context {env : Env} {up : NetUp env}.

Lemma first_flags_syn c addr x (Q : option Z → world → Prop) w :
  ctx_at w c = Some x → connecting c addr x → Q (Some DTP_FLAG_SYN) w → wp (first_flags c) Q w.
Proof using.
  intros Hx [[_ Hn Hc Hs Ha Hu _ _ _ _ _ _ _ _] Hst Hse _ _ _] HQ. unfold first_flags. apply wp_bind. eapply wp_getctx; [exact Hx|].
  rewrite Hn, Hc, Hse, Hst, Hs. cbn [negb orb andb]. change (is_state SOCK_SYN_SENT SOCK_ESTABLISHED) with false.
  cbn [negb]. apply wp_bind, wp_ret. rewrite Ha, Hu. by apply wp_ret.
Qed.

Lemma syn_allowance c addr x len :
  connecting c addr x → tc_lastByteWritten x = len → 0 < len < MAX_PAYLOAD →
  send_allowance x = len ∧ may_send x len = true.
Proof using.
  intros [[_ _ _ _ _ _ _ _ _ Hw Hc _ _ _] _ _ _ Ha Hs] Hl Hr. unfold send_allowance, may_send, c__min. rewrite Ha, Hs, Hl.
  assert (MAX_PAYLOAD < 2 ^ 31) by lia. rewrite !Z.sub_0_r. change (u32 0) with 0. rewrite ?Z.sub_0_r.
  rewrite (u32_small len), (i32_small len), (u32_small len) by (unfold is_u32, is_i32; lia).
  rewrite (u32_small (tc_rcvWindow x)), (i32_small (tc_cwnd x - _)) by (unfold is_u32, is_i32; lia).
  rewrite (proj2 (Z.leb_gt MAX_PAYLOAD len)) by lia. rewrite (proj2 (Z.ltb_lt 0 len)) by lia.
  rewrite (proj2 (Z.ltb_lt len MAX_PAYLOAD)) by lia. split; [|done].
  rewrite (proj2 (Z.ltb_ge (tc_rcvWindow x) len)) by lia. rewrite i32_small by (unfold is_i32; lia).
  by rewrite (proj2 (Z.ltb_ge (tc_cwnd x - _) len)) by lia.
Qed.

(** The context after the SYN of [len] bytes in packet [p]. *)
Definition after_syn (p : ptr) (len : Z) (x : dtp_context) : dtp_context :=
  let x := x <| tc_isSYNSent := true |> <| tc_isFirstPacketSent := true |> in
  let x := x <| tc_packetQ ::= λ q, q ++ [p] |> in
  x <| tc_recvAnyData := false |> <| tc_segSent := tc_segSent x + len |> <| tc_lastByteSent := tc_lastByteSent x +u len |>.

Lemma after_syn_sent c addr x p len :
  connecting c addr x → tc_lastByteWritten x = len → 0 ≤ len < 2 ^ 32 →
  syn_sent c (tc_flowID x) addr len (after_syn p len x) ∧ tc_closeCalled (after_syn p len x) = false ∧
  tc_state (after_syn p len x) = SOCK_SYN_SENT ∧ rcv_view (after_syn p len x) = rcv_view x.
Proof using.
  intros [[Hso _ _ _ _ _ Hcl Hfin _ _ _ Hk Hsd Hrv] Hst _ Ha Hac Hs] Hw Hl. split; [|by split_and!].
  constructor; try done; [by destruct Hso|].
  change (tc_lastByteSent x +u len = len). rewrite Hs. by apply u32_small.
Qed.

Lemma send_syn_segment w c x addr wb len :
  ctx_at w c = Some x → connecting c addr x → pkt_pool_ok w → is_u32 (tc_flowID x) →
  zlen DTPGenerateHostID = SHA1_DIGEST_LENGTH → tc_keyLen x = len → 0 ≤ len ≤ zlen wb → tc_writeBuf x = Some wb →
  wp (send_segment c DTP_FLAG_SYN len) (λ r w', r = Some len ∧ ∃ p bts win,
    ctx_at w' c = Some (after_syn p len x) ∧ w_sent w' = w_sent w ++ [mk_datagram c addr bts] ∧
    (∀ pad, opening (opening_opts DTPGenerateHostID (tc_deadline x) (announced_ws x) None) 0 0 (tc_flowID x)
       DTP_FLAG_SYN win (zslice 0 len wb) (bts ++ pad)) ∧
    pkt_pool_ok w' ∧ tx_frame c w w') w.
Proof using up.
  intros Hx [Hfr Hst Hse Had Hac Hs] Hpo Hf Hid Hkl Hlen Hwb. unfold send_segment.
  apply wp_bind. eapply wp_mono; [by apply DTPGetIdlePacket_spec|].
  intros p w1 (Hpo1 & Hfr1 & [k Hk] & _ & _ & _). pose proof (pp_hdr _ Hpo1 _ _ Hk) as Hl. pose proof Hfr1 as [E1 _ _].
  assert (Hx1 : ctx_at w1 c = Some x) by (by rewrite E1).
  apply wp_bind. eapply wp_getctx; [exact Hx1|]. rewrite Hs, (fr_next _ _ Hfr), Hst.
  apply wp_bind. eapply (building_start c p w1 k x); [done..|apply window_nonneg|]. intros w2 B2.
  apply wp_bind. eapply syn_options_spec; [exact B2|done|done|]. intros w3 n B3. change (is_state SOCK_SYN_SENT SOCK_SYN_SENT) with true.
  cbv zeta iota. rewrite Hkl.
  set (x3 := set tc_isFirstPacketSent _ _) in B3.
  assert (Hx3 : tc_writeBuf x3 = Some wb) by done.
  eapply (insert_built c p w1 k _ _ _ _ _ len); [exact B3|done|done|lia|].
  intros w4 h L4 Hx4 Hpo4 Hfi Hw4 Hr4. unfold packetQ_insert. apply wp_bind. eapply wp_modctx; [exact Hx4|].
  set (x5 := set tc_packetQ _ x3). set (w5 := set w_ctxs _ w4).
  assert (Hx5 : ctx_at w5 c = Some x5) by (by eapply ctx_at_put).
  assert (Hw5 : tc_writeBuf x5 = Some wb) by done.
  apply wp_bind. eapply (send_filled w5 p h _ _ _ (zslice 0 len wb)); [by destruct Hfi|apply zlen_slice; lia| |].
  { intros w' Hio. unfold from_write_buf, mbind, M_bind, getctx. rewrite (io_ctx _ _ c Hio), Hx5, Hw5.
    unfold GetWriteBufLastByteSentOff. rewrite Hs, Hac. change (0 -u 0) with 0. unfold block_read.
    by rewrite (proj2 (in_block_spec _ _ _)) by lia. }
  intros w6 Hio Hs6. apply wp_bind, wp_gets. pose proof (hdr_with_weaken _ _ _ Hw4).
  rewrite (proj2 (Z.eqb_neq (align4 n + len) (-1))) by lia. cbn [andb].
  replace (align4 n + len - align4 n) with len by lia.
  apply wp_bind. eapply wp_modctx; [rewrite (io_ctx _ _ c Hio); exact Hx5|]. apply wp_ret. split; [done|].
  eexists p, (zslice 0 (align4 n) h ++ zslice 0 len wb), _. split_and!; [by eapply ctx_at_put; rewrite (io_ctx _ _ c Hio)| | | |].
  - cbn. rewrite Hs6. change (w_sent w5) with (w_sent w4). rewrite (proj2 (local_same _ _ _ _ L4)), Had, (so_sock _ _ (fr_sock _ _ Hfr)).
    replace (w_sent w1) with (w_sent w) by (by rewrite E1). done.
  - intros pad. exists h, n, pad. split_and!; [by rewrite <- app_assoc|done|exact Hr4].
  - assert (Hpo5 : pkt_pool_ok w5) by (by destruct Hpo4). pose proof (pool_io _ _ Hio Hpo5) as []. by constructor.
  - etrans; [by apply tx_pool|]. etrans; [by eapply tx_local|]. etrans; [eapply tx_local, (local_ctx c 0)|].
    etrans; [by apply tx_io|]. eapply tx_local, (local_ctx c 0).
Qed.

Lemma DTPWriteAvail_syn sock w c x addr wb len :
  ctx_at w c = Some x → connecting c addr x → pkt_pool_ok w → is_u32 (tc_flowID x) →
  zlen DTPGenerateHostID = SHA1_DIGEST_LENGTH → tc_keyLen x = len → tc_lastByteWritten x = len → 0 < len < MAX_PAYLOAD →
  len ≤ zlen wb → tc_writeBuf x = Some wb →
  wp (DTPWriteAvail sock c) (λ _ w', ∃ x' bts win,
    ctx_at w' c = Some x' ∧ syn_sent c (tc_flowID x) addr len x' ∧ rcv_view x' = rcv_view x ∧ w_sent w' = w_sent w ++ [mk_datagram c addr bts] ∧
    (∀ pad, opening (opening_opts DTPGenerateHostID (tc_deadline x) (announced_ws x) None) 0 0 (tc_flowID x)
       DTP_FLAG_SYN win (zslice 0 len wb) (bts ++ pad)) ∧
    pkt_pool_ok w' ∧ tx_frame c w w') w.
Proof using up.
  intros Hx Hc Hpo Hf Hid Hkl Hw Hlen Hwl Hwb. destruct (syn_allowance c addr x len Hc Hw Hlen) as [Ea Em].
  unfold DTPWriteAvail. apply wp_bind. eapply first_flags_syn; [exact Hx|exact Hc|].
  apply wp_bind. eapply wp_getctx; [exact Hx|]. rewrite Ea. unfold send_fuel. cbn [send_segments].
  apply wp_bind, wp_bind. eapply wp_getctx; [exact Hx|]. rewrite Em.
  apply wp_bind. eapply wp_mono; [by eapply (send_syn_segment w c x addr wb len); try done; lia|].
  intros r w1 (-> & p & bts & win & Hx1 & Hs1 & Ho1 & Hpo1 & F1).
  destruct (after_syn_sent c addr x p len Hc Hw ltac:(unfold MAX_PAYLOAD, DTP_MTU, DTPHDRSIZE in *; lia)) as (Hss & Hcl & Hst & Hrv).
  set (x1 := after_syn p len x) in *. clearbody x1.
  apply wp_bind. eapply wp_getctx; [exact Hx1|]. rewrite Hst. change (is_state SOCK_SYN_SENT SOCK_SYN_SENT) with true.
  apply wp_ret. apply wp_bind. eapply wp_getctx; [exact Hx1|]. rewrite Hcl. apply wp_ret. by exists x1, bts, win.
Qed.

(** The flow ID drawn at the [k]-th reading of the clock. *)
Definition flow_id (k : nat) : Z :=
  of_le (zslice (SHA1_DIGEST_LENGTH - 4) 4 (env_sha1 (le32 env_pid ++ zslice 0 SHA1_DIGEST_LENGTH DTPGenerateHostID
                          ++ le64 (tv_sec (env_clock k)) ++ le64 (tv_usec (env_clock k))))).

(** The loop ends at the first flow ID other than 0xFFFFFFFF. *)
Lemma pick_flow_id_spec j : ∀ tries w c x (Q : unit → world → Prop),
  ctx_at w c = Some x → (j < tries)%nat → (∀ i, (i < j)%nat → flow_id (w_nclock w + i) = 0xFFFFFFFF) →
  flow_id (w_nclock w + j) ≠ 0xFFFFFFFF →
  (∀ w', tx_frame c w w' → ctx_at w' c = Some (x <| tc_flowID := flow_id (w_nclock w + j) |>) →
     w_sent w' = w_sent w → w_pkts w' = w_pkts w → (pkt_pool_ok w → pkt_pool_ok w') → Q tt w') →
  wp (pick_flow_id tries c) Q w.
Proof using.
  induction j as [|j IH]; intros [|tries] w c x Q Hx Hj Hi Hne HQ; try lia; cbn [pick_flow_id];
    apply wp_bind; unfold DTPGenerateFlowID; apply wp_bind; unfold wp at 1, gettimeofday; apply wp_ret;
    change (of_le _) with (flow_id (w_nclock w)); apply wp_bind; (eapply wp_modctx; [exact Hx|]);
    set (w1 := set w_ctxs _ _); assert (F1 : tx_frame c w w1)
      by (constructor; [by destruct w|intros; unfold w1; by rewrite ctx_at_put_ne|done]);
    assert (Hx1 : ctx_at w1 c = Some (x <| tc_flowID := flow_id (w_nclock w) |>)) by (by eapply ctx_at_put).
  - rewrite Nat.add_0_r in *. rewrite (proj2 (Z.eqb_neq _ _)) by done. apply wp_ret, HQ; try done. by intros [].
  - rewrite (proj2 (Z.eqb_eq _ _)) by (rewrite <- (Nat.add_0_r (w_nclock w)); apply Hi; lia). cbn [mwhen].
    assert (En : ∀ i, (w_nclock w1 + i)%nat = (w_nclock w + S i)%nat) by (intros i; change (w_nclock w1) with (S (w_nclock w)); lia).
    eapply (IH tries w1 c _ Q Hx1); [lia| | |].
    + intros i Hij. rewrite En. apply Hi. lia.
    + by rewrite En.
    + intros w' F' Hx' Hs' Hp' Hpo'. rewrite En in Hx'. apply HQ; [by etrans|done|done|done|].
      intros []. apply Hpo'. by constructor.
Qed.

Lemma buf_pool_tx c w w' : tx_frame c w w' → buf_pool_ok w → buf_pool_ok w'.
Proof using.
  intros [E _ Hb] [H1 H2 H3 H4 H5]. rewrite E. constructor; cbn; [done..| |lia]. intros p Hp. specialize (H4 p Hp). lia.
Qed.

Lemma ensure_thread_spec w (Q : unit → world → Prop) :
  (∀ w', (∀ c, ctx_at w' c = ctx_at w c) → (pkt_pool_ok w → pkt_pool_ok w') → (buf_pool_ok w → buf_pool_ok w') → w_sent w' = w_sent w →
     w_nclock w' = w_nclock w → Q tt w') → wp ensure_thread Q w.
Proof using.
  intros HQ. apply wp_bind, wp_gets. apply wp_when; intros _; [|by apply HQ].
  unfold RunTransportThread, udp_socket. apply wp_bind. unfold wp at 1. apply wp_bind. unfold wp at 1. apply wp_modify.
  apply HQ; try done; by intros [].
Qed.

Lemma connecting_start c addr isock x :
  fresh_sock c x →
  connecting c addr (x <| tc_isock := isock |> <| tc_peerAddr := addr |> <| tc_state := SOCK_SYN_SENT |> <| tc_sendSYN := true |>
    <| tc_seqNum := 0 |> <| tc_lastByteAcked := 0 |> <| tc_lastByteWritten := 0 |> <| tc_lastByteSent := 0 |>).
Proof using. intros [[]]. constructor; [|done..]. by constructor. Qed.

Lemma connecting_mod c addr x x' :
  connecting c addr x → tc_sock x' = tc_sock x → tc_isNetConnected x' = tc_isNetConnected x →
  tc_isCongested x' = tc_isCongested x → tc_isSYNSent x' = tc_isSYNSent x → tc_recvAnyData x' = tc_recvAnyData x →
  tc_isAUTHSent x' = tc_isAUTHSent x → tc_closeCalled x' = tc_closeCalled x → tc_isFINRcvd x' = tc_isFINRcvd x → tc_nextByteExpected x' = tc_nextByteExpected x →
  tc_rcvWindow x' = tc_rcvWindow x → tc_cwnd x' = tc_cwnd x → tc_segSent x' = tc_segSent x → tc_key x' = tc_key x →
  tc_state x' = tc_state x → tc_sendSYN x' = tc_sendSYN x → tc_peerAddr x' = tc_peerAddr x →
  tc_lastByteAcked x' = tc_lastByteAcked x → tc_lastByteSent x' = tc_lastByteSent x →
  steady x' = steady x → rcv_view x' = rcv_view x → connecting c addr x'.
Proof using.
  intros [[[]]] * *. constructor; try congruence. constructor; try congruence. constructor; congruence.
Qed.

(** What [dtp_connect] needs to know of its context on the way: positions and buffers. *)
Record preparing (c : Z) (addr : sockaddr_in) (x0 : dtp_context) (wb : bytes) (written : Z) (x : dtp_context) : Prop := {
  pr_conn : connecting c addr x; pr_wbuf : tc_writeBuf x = Some wb; pr_written : tc_lastByteWritten x = written;
  pr_rcv : rcv_view x = rcv_view x0; pr_deadline : tc_deadline x = tc_deadline x0; pr_ws : announced_ws x = announced_ws x0 }.

Lemma preparing_start c addr isock x wb :
  fresh_sock c x → tc_writeBuf x = Some wb →
  preparing c addr x wb 0 (x <| tc_isock := isock |> <| tc_peerAddr := addr |> <| tc_state := SOCK_SYN_SENT |> <| tc_sendSYN := true |>
    <| tc_seqNum := 0 |> <| tc_lastByteAcked := 0 |> <| tc_lastByteWritten := 0 |> <| tc_lastByteSent := 0 |>).
Proof using. intros Hf Hw. constructor; [by apply connecting_start|done..]. Qed.

Lemma preparing_flow c addr x0 wb n x fid :
  preparing c addr x0 wb n x → preparing c addr x0 wb n (x <| tc_flowID := fid |>).
Proof using. intros [Hc]. constructor; [by apply (connecting_mod c addr x)|done..]. Qed.

Lemma preparing_key c addr x0 wb wb' x len :
  preparing c addr x0 wb 0 x → is_u32 len →
  preparing c addr x0 wb' len (x <| tc_keyLen := len |> <| tc_lastByteWritten := tc_lastByteWritten x +u len |> <| tc_writeBuf := Some wb' |>).
Proof using.
  intros [Hc _ Hw] Hl. constructor; [by apply (connecting_mod c addr x)|done| |done..].
  change (tc_lastByteWritten x +u len = len). rewrite Hw. by apply u32_small.
Qed.

Lemma wp_modctx_P (P : dtp_context → Prop) c f x (Q : unit → world → Prop) w :
  ctx_at w c = Some x → P (f x) →
  (∀ x', ctx_at (w <| w_ctxs ::= <[c := x']> |>) c = Some x' → P x' → Q tt (w <| w_ctxs ::= <[c := x']> |>)) →
  wp (modctx c f) Q w.
Proof using. intros Hx HP HQ. eapply wp_modctx; [exact Hx|]. apply HQ; [by eapply ctx_at_put|done]. Qed.

Lemma syn_sent_monitored c fid addr len x :
  syn_sent c fid addr len x → syn_sent c fid addr len (x <| tc_beingMonitored := true |>).
Proof using. intros [[]]. by constructor. Qed.

(** [dtp_connect] sends one SYN, with the public key of the host. *)
Lemma dtp_connect_spec tries w c x addr wb j :
  ctx_at w c = Some x → fresh_sock c x → pkt_pool_ok w → tc_writeBuf x = Some wb →
  zlen DTPGenerateHostID = SHA1_DIGEST_LENGTH → 0 < zlen public_key < MAX_PAYLOAD → zlen public_key ≤ zlen wb →
  (j < tries)%nat → (∀ i, (i < j)%nat → flow_id (w_nclock w + i) = 0xFFFFFFFF) → flow_id (w_nclock w + j) ≠ 0xFFFFFFFF →
  is_u32 (flow_id (w_nclock w + j)) →
  wp (dtp_connect tries c addr SIZEOF_SOCKADDR_IN) (λ r w', r = 0 ∧ ∃ x' bts win fid,
    fid = flow_id (w_nclock w + j) ∧ ctx_at w' c = Some x' ∧ syn_sent c fid addr (zlen public_key) x' ∧
    rcv_view x' = rcv_view x ∧ w_sent w' = w_sent w ++ [mk_datagram c addr bts] ∧
    (∀ pad, opening (opening_opts DTPGenerateHostID (tc_deadline x) (announced_ws x) None) 0 0 fid
       DTP_FLAG_SYN win public_key (bts ++ pad)) ∧
    pkt_pool_ok w' ∧ (buf_pool_ok w → buf_pool_ok w') ∧ ∀ c', c' ≠ c → ctx_at w' c' = ctx_at w c') w.
Proof using up.
  intros Hx Hfr Hpo Hwb Hid Hlen Hwl Hj Hi Hne Hu. unfold dtp_connect. rewrite Z.eqb_refl. cbn [negb].
  apply wp_bind. eapply get_ctx_by_socket; [exact (fr_sock _ _ Hfr)|].
  apply wp_bind, ensure_thread_spec. intros w1 Hc1 Hpo1 Hbp1 Hs1 Hn1. specialize (Hpo1 Hpo).
  apply wp_bind, wp_gets. apply wp_bind.
  eapply (wp_modctx_P (preparing c addr x wb 0)); [by rewrite Hc1|by apply preparing_start|]. intros x2 Hx2 P2.
  set (w2 := set w_ctxs _ w1) in *. assert (Hpo2 : pkt_pool_ok w2) by (by destruct Hpo1).
  apply wp_bind. rewrite <- Hn1 in Hi, Hne, Hu |- *. eapply (pick_flow_id_spec j tries w2 c x2); [exact Hx2|done|done|done|].
  change (w_nclock w2) with (w_nclock w1). intros w3 F3 Hx3 Hs3 _ Hpo3. specialize (Hpo3 Hpo2).
  set (fid := flow_id _) in *. apply (preparing_flow _ _ _ _ _ _ fid) in P2. assert (Hf3 : tc_flowID (x2 <| tc_flowID := fid |>) = fid) by done.
  set (x3 := set tc_flowID _ x2) in *. clearbody x3.
  apply wp_bind. eapply wp_getctx; [exact Hx3|]. rewrite (pr_wbuf _ _ _ _ _ _ P2). apply wp_bind, wp_block_write; [lia|lia|].
  set (pk := public_key) in *. set (wb' := zsplice 0 pk wb).
  assert (Hu32 : is_u32 (zlen pk)) by (unfold is_u32, MAX_PAYLOAD, DTP_MTU, DTPHDRSIZE in *; lia).
  apply wp_bind. eapply (wp_modctx_P (λ z, preparing c addr x wb' (zlen pk) z ∧ tc_keyLen z = zlen pk ∧ tc_flowID z = fid)); [exact Hx3| |].
  { split_and!; [by eapply preparing_key|done|done]. }
  intros x4 Hx4 ([Hcn4 Hwb4 Hw4 Hr4 Hd4 Ha4] & Hkl4 & Hf4). set (w4 := set w_ctxs _ w3) in *.
  assert (Hpo4 : pkt_pool_ok w4) by (by destruct Hpo3).
  assert (Hl' : zlen wb' = zlen wb) by (apply zlen_splice; lia).
  assert (Hd' : zslice 0 (zlen pk) wb' = pk) by (apply zslice_splice_same; lia).
  apply wp_bind. eapply wp_mono; [eapply (DTPWriteAvail_syn c w4 c x4 addr wb' (zlen pk)); try done; [by rewrite Hf4|lia]|].
  intros _ w5 (x5 & bts & win & Hx5 & Hss & Hr5 & Hs5 & Ho5 & Hpo5 & F5).
  rewrite Hf4 in Hss. rewrite Hr4 in Hr5. rewrite Hd4, Ha4, Hf4, Hd' in Ho5.
  assert (Hne5 : ∀ c', c' ≠ c → ctx_at w5 c' = ctx_at w c').
  { intros c' Hc'. rewrite (tx_other _ _ _ F5) by done. unfold w4. rewrite ctx_at_put_ne by done.
    rewrite (tx_other _ _ _ F3) by done. unfold w2. rewrite ctx_at_put_ne by done. apply Hc1. }
  assert (Hbp5 : buf_pool_ok w → buf_pool_ok w5).
  { intros Hb. apply (buf_pool_tx c w4 w5 F5). assert (Hb2 : buf_pool_ok w2) by (by destruct (Hbp1 Hb)).
    pose proof (buf_pool_tx c w2 w3 F3 Hb2) as []. by constructor. }
  assert (Hsent : w_sent w5 = w_sent w ++ [mk_datagram c addr bts])
    by (rewrite Hs5; change (w_sent w4) with (w_sent w3); rewrite Hs3; change (w_sent w2) with (w_sent w1); by rewrite Hs1).
  apply wp_bind. eapply wp_getctx; [exact Hx5|]. apply wp_bind, wp_when; intros _.
  - apply wp_bind. eapply wp_modctx; [exact Hx5|]. apply wp_modify, wp_ret. split; [done|].
    exists (x5 <| tc_beingMonitored := true |>), bts, win, fid. split_and!; [done|by eapply ctx_at_put|by apply syn_sent_monitored|done|done|done
      |by destruct Hpo5|by intros Hb; destruct (Hbp5 Hb)|]. intros c' Hc'. rewrite <- Hne5 by done. by apply (ctx_at_put_ne w5).
  - apply wp_ret. split; [done|]. by exists x5, bts, win, fid.
Qed.
End connect.
