(* ===== verification/Establish.v ===== *)
(** * Agreement on a connection

    The three packets of the handshake composed: [dtp_connect] of the client, [HandleSYNPacket]
    of the server, [HandleSYNACKPacket] of the client; then the first acknowledgement at the
    server.  Opening.v describes the steps; here is what both ends have agreed on. *)

From S2P Require Import Prelude Double Header Context World ContextTable Pools RetransQueue.
From S2P Require Import Select Congestion Lifecycle Send Scenario Services Intervals Reassembly Receiver Transmit Ack.
From S2P Require Import Acknowledge Challenge Crypt Migration Closing Handshake Socket Delivery Opening.

(** ** The first acknowledgement *)

(** A connection of the server whose key is on its way: in state [st], acknowledged up to
    [acked], [v] is what it knows of the window of the peer; the key [k], flow ID and addresses
    stay what they are. *)
Record keyed_conn (x0 : dtp_context) (c : Z) (st : sock_state) (acked : Z) (v : bool * Z) (x : dtp_context) : Prop := {
  kc_state : tc_state x = st; kc_sock : tc_sock x = c; kc_acked : tc_lastByteAcked x = acked;
  kc_sent : tc_lastByteSent x = RSA_LEN; kc_written : tc_lastByteWritten x = RSA_LEN; kc_queue : tc_packetQ x = [];
  kc_net : tc_isNetConnected x = true; kc_cong : tc_isCongested x = false; kc_close : tc_closeCalled x = false;
  kc_cc : cc_ok x; kc_wbuf : ∃ wb, tc_writeBuf x = Some wb ∧ zlen wb = tc_writeBufLen x;
  kc_hdr : is_u32 (tc_nextByteExpected x) ∧ is_u32 (tc_flowID x); kc_win : is_u32 (tc_rcvWindow x);
  kc_same : tc_key x = tc_key x0 ∧ tc_flowID x = tc_flowID x0 ∧ tc_peerAddr x = tc_peerAddr x0 ∧
            tc_hostID x = tc_hostID x0 ∧ tc_nextByteExpected x = tc_nextByteExpected x0 ∧ steady x = steady x0 ∧
            tc_sendWindowScale x = tc_sendWindowScale x0;
  kc_seg : tc_segSent x = 0; kc_view : (tc_isHerWindowZero x, tc_rcvWindow x) = v }.

(** A change of fields that [keyed_conn] does not look at. *)
Ltac keep_keyed := let H := fresh in intros H; destruct H as [? ? ? ? ? ? ? ? ? [] ? ? ? ? ? ?]; constructor; (done || by constructor).

Section final_ack.
Context {env : Env} {up : NetUp env} (x0 : dtp_context) (c : Z).

Lemma update_window_keyed w x v win (Q : bool → world → Prop) :
  ctx_at w c = Some x → keyed_conn x0 c SOCK_SYN_RCVD 0 v x → v.1 = false →
  (∀ w' x' v', ctx_at w' c = Some x' → keyed_conn x0 c SOCK_SYN_RCVD 0 v' x' →
     (0 < peer_window x win → v' = (false, peer_window x win)) → tx_frame c w w' →
     (pkt_pool_ok w → pkt_pool_ok w') → Q false w') →
  wp (update_window c win) Q w.
Proof using.
  intros Hx Hk Hz HQ. unfold update_window. apply wp_bind. set (pw := peer_window x win) in *.
  assert (Hz' : tc_isHerWindowZero x = false) by (by destruct Hk as [? ? ? ? ? ? ? ? ? ? ? ? ? ? ? <-]).
  eapply (wp_modctx_P (λ z, keyed_conn x0 c SOCK_SYN_RCVD 0 (false, pw) z)); [exact Hx| |].
  { destruct Hk as [? ? ? ? ? ? ? ? ? [] ? ? ? ? ? ?]. constructor; try done; try by constructor.
    - apply u32_range.
    - change ((tc_isHerWindowZero x, pw) = (false, pw)). by rewrite Hz'. }
  intros x1 Hx1 Hk1. set (w1 := set w_ctxs _ w) in *.
  assert (F1 : tx_frame c w w1) by (eapply tx_local, (local_ctx c 0)).
  assert (P1 : pkt_pool_ok w → pkt_pool_ok w1) by (by intros []). clearbody w1.
  pose proof (kc_view _ _ _ _ _ _ Hk1) as Hv1. injection Hv1 as Hz1 Hw1.
  apply wp_bind. eapply wp_getctx; [exact Hx1|]. apply wp_bind, wp_when; intros Hw.
  - apply wp_bind, io_gettimeofday. intros w2 Hio Hs. apply Z.eqb_eq in Hw.
    eapply (wp_modctx_P (keyed_conn x0 c SOCK_SYN_RCVD 0 (true, 0)));
      [by rewrite (io_ctx _ _ c Hio)| |].
    { destruct Hk1 as [? ? ? ? ? ? ? ? ? [] ? ? ? ? ? ?]. constructor; try done; try by constructor.
      change ((true, tc_rcvWindow x1) = (true, 0)). by rewrite Hw. }
    intros x3 Hx3 Hk3. pose proof (kc_view _ _ _ _ _ _ Hk3) as Hv3. injection Hv3 as Hz3 Hw3.
    apply wp_bind. eapply wp_getctx; [exact Hx3|]. rewrite Hw3. cbn [Z.ltb Z.compare].
    rewrite andb_false_r. apply wp_ret. eapply HQ; [exact Hx3|done|lia| |].
    + etrans; [exact F1|]. etrans; [by apply tx_io|]. eapply tx_local, (local_ctx c 0).
    + intros Hp. pose proof (pool_io _ _ Hio (P1 Hp)) as []. by constructor.
  - apply wp_bind. eapply wp_getctx; [exact Hx1|]. rewrite Hz1. cbn [andb]. apply wp_ret. by eapply HQ.
Qed.

Lemma slide_keyed w x v (Q : unit → world → Prop) :
  ctx_at w c = Some x → keyed_conn x0 c SOCK_SYN_RCVD 0 v x →
  (∀ w' x', ctx_at w' c = Some x' → keyed_conn x0 c SOCK_SYN_RCVD RSA_LEN v x' → tx_frame c w w' →
     (pkt_pool_ok w → pkt_pool_ok w') → Q tt w') →
  wp (slide_write_buf c RSA_LEN RSA_LEN;; RemovePacket c RSA_LEN) Q w.
Proof using.
  intros Hx Hk HQ. unfold slide_write_buf. apply wp_bind, wp_bind.
  eapply (wp_modctx_P (keyed_conn x0 c SOCK_SYN_RCVD RSA_LEN v)); [exact Hx|by revert Hk; keep_keyed|]. intros x1 Hx1 Hk1.
  set (w1 := set w_ctxs _ w) in *. assert (F1 : tx_frame c w w1) by (eapply tx_local, (local_ctx c 0)).
  assert (P1 : pkt_pool_ok w → pkt_pool_ok w1) by (by intros []). clearbody w1.
  apply wp_bind. eapply (wp_modctx_P (keyed_conn x0 c SOCK_SYN_RCVD RSA_LEN v)); [exact Hx1| |].
  { by rewrite (kc_sent _ _ _ _ _ _ Hk1), (kc_acked _ _ _ _ _ _ Hk1), Z.ltb_irrefl. }
  intros x2 Hx2 Hk2. set (w2 := set w_ctxs _ w1) in *. apply wp_bind. eapply wp_getctx; [exact Hx2|].
  replace (GetWriteBufOff x2) with 0; [|unfold GetWriteBufOff; by rewrite (kc_written _ _ _ _ _ _ Hk2), (kc_acked _ _ _ _ _ _ Hk2)].
  apply wp_ret. unfold RemovePacket. apply wp_bind. eapply wp_getctx; [exact Hx2|]. rewrite (kc_queue _ _ _ _ _ _ Hk2).
  apply wp_bind, wp_ret, wp_ret. eapply HQ; [exact Hx2|done| |].
  - etrans; [exact F1|]. eapply tx_local, (local_ctx c 0).
  - intros Hp. pose proof (P1 Hp) as []. by constructor.
Qed.

Lemma count_acked_keyed w x v (Q : unit → world → Prop) :
  ctx_at w c = Some x → keyed_conn x0 c SOCK_SYN_RCVD RSA_LEN v x → 0 ≤ c < FD_SETSIZE_S → pkt_pool_ok w →
  (∀ w' x', ctx_at w' c = Some x' → keyed_conn x0 c SOCK_ESTABLISHED RSA_LEN v x' → tx_frame c w w' →
     pkt_pool_ok w' → Q tt w') →
  wp (count_acked c RSA_LEN) Q w.
Proof using.
  intros Hx Hk Hc Hpo HQ. unfold count_acked. apply wp_bind.
  eapply (wp_modctx_P (keyed_conn x0 c SOCK_SYN_RCVD RSA_LEN v)); [exact Hx|by revert Hk; keep_keyed|]. intros x1 Hx1 Hk1.
  set (w1 := set w_ctxs _ w) in *. assert (F1 : tx_frame c w w1) by (eapply tx_local, (local_ctx c 0)).
  assert (P1 : pkt_pool_ok w1) by (by destruct Hpo). clearbody w1.
  apply wp_bind. eapply wp_getctx; [exact Hx1|]. rewrite (kc_state _ _ _ _ _ _ Hk1), (kc_sock _ _ _ _ _ _ Hk1).
  change (is_state SOCK_SYN_RCVD SOCK_SYN_RCVD) with true. cbn [mwhen]. apply wp_bind, wp_bind.
  eapply (wp_modctx_P (keyed_conn x0 c SOCK_ESTABLISHED RSA_LEN v)); [exact Hx1|by revert Hk1; keep_keyed|]. intros x2 Hx2 Hk2.
  set (w2 := set w_ctxs _ w1) in *. assert (F2 : tx_frame c w1 w2) by (eapply tx_local, (local_ctx c 0)).
  assert (P2 : pkt_pool_ok w2) by (by destruct P1). clearbody w2.
  apply wp_bind, io_select_clr; [done|]. intros w3 Hio3 Hs3. apply io_select_set; [done|]. intros w4 Hio4 Hs4.
  assert (Hx4 : ctx_at w4 c = Some x2) by (by rewrite (io_ctx _ _ c Hio4), (io_ctx _ _ c Hio3)).
  apply wp_bind. eapply wp_getctx; [exact Hx4|].
  destruct (MoveCongestionWindow_spec x2 RSA_LEN (kc_cc _ _ _ _ _ _ Hk2)) as (cw & E & Hcw & _).
  { destruct (kc_cc _ _ _ _ _ _ Hk2) as [? _ _ _]. unfold RSA_LEN, MAX_PAYLOAD, DTP_MTU, DTPHDRSIZE in *. lia. }
  apply wp_bind. eapply wp_lift; [exact E|]. rewrite (kc_sock _ _ _ _ _ _ Hk2). apply wp_bind. eapply wp_putctx; [exact Hx4|].
  apply io_select_set; [done|]. intros w6 Hio6 Hs6. eapply (HQ w6 (x2 <| tc_cwnd := cw |>)).
  - rewrite (io_ctx _ _ c Hio6). by eapply ctx_at_put.
  - destruct Hk2 as [? ? ? ? ? ? ? ? ? [Hw ? ? ?] ? ? ? ? ? ?]. constructor; try done. constructor; try done.
    cbn. unfold MAX_PAYLOAD, DTP_MTU, DTPHDRSIZE in *. lia.
  - etrans; [exact F1|]. etrans; [exact F2|]. etrans; [by apply tx_io|]. etrans; [by apply tx_io|].
    etrans; [|by apply tx_io]. eapply tx_local, (local_ctx c 0).
  - eapply pool_io; [exact Hio6|]. pose proof (pool_io _ _ Hio4 (pool_io _ _ Hio3 P2)) as []. by constructor.
Qed.

(** All that was sent is acknowledged: the invariant of the send side. *)
Lemma keyed_live S w x v :
  ctx_at w c = Some x → keyed_conn x0 c SOCK_ESTABLISHED RSA_LEN v x → 0 ≤ c < FD_SETSIZE_S → pkt_pool_ok w →
  snd_live w c x S.
Proof using.
  intros Hx [Hst Hso Ha Hs Hw Hq Hn Hcg Hcl Hcc (wb & Hwb & Hl) Hh Hwin _ _ _] Hc Hpo. pose proof Hcc as [Hlen _ _ _].
  constructor; [|by constructor|done|by rewrite Hso]. constructor; try done.
  - constructor; rewrite ?Ha, ?Hs, ?Hw; unfold RSA_LEN, MAX_PAYLOAD, DTP_MTU, DTPHDRSIZE in *; try lia.
    exists wb. split_and!; [done|done|]. intros p Hp. lia.
  - rewrite Hq, Ha, Hs. done.
  - rewrite Hq. apply NoDup_nil_2.
  - rewrite Hq. by intros p ?%elem_of_nil.
  - rewrite Hq. done.
Qed.

Lemma final_ack_spec S w x v win :
  ctx_at w c = Some x → keyed_conn x0 c SOCK_SYN_RCVD 0 v x → v.1 = false → 0 ≤ c < FD_SETSIZE_S → pkt_pool_ok w →
  wp (HandleACKPacket c RSA_LEN win) (λ _ w', ∃ x' x1 v1, snd_live w' c x' S ∧ tc_lastByteAcked x' = RSA_LEN ∧
    same_conn x1 x' ∧ keyed_conn x0 c SOCK_ESTABLISHED RSA_LEN v1 x1 ∧ flow_kept x1 x' ∧ (∃ ds, moves S x1 x' ds) ∧
    (0 < peer_window x win → v1 = (false, peer_window x win)) ∧ tx_frame c w w') w.
Proof using up.
  intros Hx Hk Hz Hc Hpo. unfold HandleACKPacket. apply wp_bind. eapply wp_getctx; [exact Hx|].
  rewrite (kc_net _ _ _ _ _ _ Hk), (kc_acked _ _ _ _ _ _ Hk). cbn [negb]. change (RSA_LEN <? 0) with false.
  apply wp_bind, wp_ret. cbn [negb]. apply wp_bind. eapply update_window_keyed; [exact Hx|exact Hk|done|].
  intros w1 x1 v1 Hx1 Hk1 Hv1 F1 Hpo1. apply wp_bind. eapply wp_getctx; [exact Hx1|]. rewrite (kc_acked _ _ _ _ _ _ Hk1).
  change (RSA_LEN =? 0) with false. unfold accept_ack. apply wp_bind. eapply wp_getctx; [exact Hx1|].
  rewrite (kc_acked _ _ _ _ _ _ Hk1). change (i32 (RSA_LEN -u 0)) with RSA_LEN.
  apply wp_assoc. eapply slide_keyed; [exact Hx1|exact Hk1|]. intros w2 x2 Hx2 Hk2 F2 Hpo2.
  change (negb (RSA_LEN =? 0)) with true. cbn [mwhen]. apply wp_bind.
  eapply count_acked_keyed; [exact Hx2|exact Hk2|done|by auto|]. intros w3 x3 Hx3 Hk3 F3 Hpo3.
  pose proof (keyed_live S w3 x3 v1 Hx3 Hk3 Hc Hpo3) as Hl3.
  apply wp_bind. eapply wp_mono; [apply resume_writer_step, Hl3|]. intros _ w4 (x4 & ds & H4 & Ha4 & Hf4 & Hm4 & _).
  unfold ack_of_fin. apply wp_bind. eapply wp_getctx; [apply H4|].
  assert (Hst : tc_state x4 = SOCK_ESTABLISHED) by apply H4. rewrite Hst. apply wp_ret.
  exists x4, x3, v1. split_and!; [apply H4|rewrite Ha4; apply Hk3|apply H4|done|done|by exists ds|done|].
  etrans; [exact F1|]. etrans; [exact F2|]. etrans; [exact F3|apply H4].
Qed.
End final_ack.

Lemma half_open_keyed x c fid addr hid next k :
  half_open x c fid addr hid next k → is_u32 next → is_u32 fid →
  keyed_conn x c SOCK_SYN_RCVD 0 (false, tc_rcvWindow x) x.
Proof.
  intros [Hst Hso Hf [] Hw Hk []] Hn Hfi. constructor; try done; [by split; congruence|]. by f_equal.
Qed.

(** ** Two hosts *)

(** The RSA key of the client [cl] works for the server [sv]: a session key of 20 bytes
    encrypts to one block, which the client decrypts.  Host IDs are SHA-1 digests. *)
Class KeyPair (cl sv : Env) : Prop := {
  kp_len : zlen (env_rsa_n (Env := cl)) ≤ RSA_LEN ∧ zlen (env_rsa_e (Env := cl)) ≤ RSA_LEN;
  kp_id : zlen (DTPGenerateHostID (env := cl)) = SHA1_DIGEST_LENGTH ∧ zlen (DTPGenerateHostID (env := sv)) = SHA1_DIGEST_LENGTH;
  kp_inv : ∀ k r, zlen k = 20 → ∃ ct,
    env_rsa_public_encrypt (Env := sv) (env_rsa_n (Env := cl)) (env_rsa_e (Env := cl)) k r = Some ct ∧
    zlen ct = RSA_LEN ∧ env_rsa_private_decrypt (Env := cl) ct = Some k }.

(** What the ends [x] of the client and [y] of the server, at [caddr] and [saddr], agree on. *)
Record agreed {cl sv : Env} (caddr saddr : sockaddr_in) (port : Z) (x y : dtp_context) : Prop := {
  ag_key : tc_key x = tc_key y ∧ ∃ k, zlen k = 20 ∧ tc_key x = zsplice 0 k (zeros RSA_LEN);
  ag_fid : tc_flowID x = tc_flowID y;
  ag_ids : tc_hostID x = DTPGenerateHostID (env := sv) ∧ tc_hostID y = DTPGenerateHostID (env := cl);
  ag_down : tc_nextByteExpected x = tc_lastByteWritten y;
  ag_up : tc_nextByteExpected y = tc_lastByteWritten x;
  ag_addr : tc_peerAddr x = set_sin_port saddr port ∧ tc_peerAddr y = caddr }.

Lemma takes_key_facts hid k next addr ws port x :
  let x' := takes_key hid k next addr ws port x in
  tc_key x' = zsplice 0 k (tc_key x) ∧ tc_flowID x' = tc_flowID x ∧ tc_hostID x' = hid ∧ tc_nextByteExpected x' = next ∧
  tc_lastByteWritten x' = tc_lastByteWritten x ∧ tc_lastByteSent x' = tc_lastByteSent x ∧
  tc_peerAddr x' = set_sin_port addr port ∧ tc_state x' = SOCK_ESTABLISHED ∧ tc_isFINRcvd x' = tc_isFINRcvd x ∧
  steady x' = steady x ∧ rcv_view x' = rcv_view x ∧ tc_sock x' = tc_sock x ∧ tc_lastByteRcvd x' = next ∧ tc_lastByteRead x' = next.
Proof. unfold takes_key, with_options. destruct (_ && _); cbv zeta; split_and!; reflexivity. Qed.

(** The connection of the client after the handshake: everything before [RSA_LEN], the key of
    the server, is read, and nothing else has arrived. *)
Record client_open (w : world) (c : Z) (x : dtp_context) : Prop := {
  co_ctx : ctx_at w c = Some x; co_sock : sock_ok c x; co_state : tc_state x = SOCK_ESTABLISHED;
  co_steady : steady x = steady_new; co_rcv : rcv_empty (rcv_view x); co_next : tc_nextByteExpected x = RSA_LEN;
  co_rcvd : tc_lastByteRcvd x = RSA_LEN; co_read : tc_lastByteRead x = RSA_LEN;
  co_hdr : is_u32 (tc_lastByteSent x) ∧ is_u32 (tc_flowID x); co_pool : buf_pool_ok w }.

(** That of the server: its key is acknowledged, and it can send whatever stream. *)
Record server_open (S : stream) (w : world) (d : Z) (y : dtp_context) : Prop := {
  so_live : snd_live w d y S; so_sock : tc_sock y = d; so_net : tc_isNetConnected y = true;
  so_acked : tc_lastByteAcked y = tc_lastByteWritten y; so_written : tc_lastByteWritten y = RSA_LEN;
  so_active : tc_isActive y = true; so_reset : tc_connReset y = false; so_fin : tc_isFINSent y = false;
  so_seg : tc_segSent y = 0; so_cong : tc_isCongested y = false; so_keep : tc_isKeepAliveEnabled y = false; so_lobuf : tc_rcvLoBufHB y = 0 }.

(** The server [y] knows the window of the client [x] with scale [s], if it is not closed. *)
Definition knows_window (x y : dtp_context) (s : Z) : Prop := tc_sendWindowScale y = s ∧
  (0 < heard_window x s → tc_isHerWindowZero y = false ∧ tc_rcvWindow y = heard_window x s).

Section hosts.
Context {cl sv : Env} {upc : NetUp cl} {ups : NetUp sv} {rnd : RandUp sv} {kp : KeyPair cl sv}.

Lemma agreed_of x y c d fid caddr saddr port k ws len :
  syn_sent c fid saddr len x → half_open y d fid caddr (DTPGenerateHostID (env := cl)) len k → zlen k = 20 → is_u32 len →
  let x' := takes_key (DTPGenerateHostID (env := sv)) k RSA_LEN saddr ws port x in
  agreed (cl := cl) (sv := sv) caddr saddr port x' y ∧ tc_state x' = SOCK_ESTABLISHED ∧
  GetAckNumber x' = RSA_LEN ∧ is_u32 (tc_lastByteSent x') ∧ tc_flowID x' = fid ∧
  ∀ w, ctx_at w c = Some x' → is_u32 fid → buf_pool_ok w → client_open w c x'.
Proof using.
  intros [[Hso Hsr] _ Hf _ Hs Hw _ Hk Hfin Hsd Hrv] [_ _ Hfy [] Hwy Hky _] Hl Hlen.
  destruct (takes_key_facts (DTPGenerateHostID (env := sv)) k RSA_LEN saddr ws port x)
    as (E1 & E2 & E3 & E4 & E5 & E6 & E7 & E8 & E9 & E10 & E11 & E12 & E13 & E14).
  cbv zeta. set (x' := takes_key _ _ _ _ _ _ _) in *. clearbody x'. split_and!; try congruence.
  - constructor; try congruence; split; try congruence. exists k. split; congruence.
  - unfold GetAckNumber. by rewrite E4, E9, Hfin.
  - intros w Hx' Hfi Hb. constructor; try congruence; [constructor; [congruence|done]|split; congruence].
Qed.

(** A client about to connect: its socket [c], [x], is unused, and of the flow IDs it draws
    the [j]-th is the first that is not reserved. *)
Record client_ready (w : world) (c : Z) (x : dtp_context) (j : nat) : Prop := {
  cr_ctx : ctx_at w c = Some x; cr_fresh : fresh_sock c x; cr_pool : pkt_pool_ok w; cr_bufs : buf_pool_ok w; cr_deadline : is_i32 (tc_deadline x);
  cr_wbuf : ∃ wb, tc_writeBuf x = Some wb ∧ MAX_PAYLOAD ≤ zlen wb;
  cr_skip : ∀ i, (i < j)%nat → flow_id (env := cl) (w_nclock w + i) = 0xFFFFFFFF;
  cr_flow : flow_id (env := cl) (w_nclock w + j) ≠ 0xFFFFFFFF ∧ is_u32 (flow_id (env := cl) (w_nclock w + j)) }.

(** A server that listens at [l] and for which the system opens the descriptor [d] next, where
    some port is free. *)
Record server_ready (w : world) (d l : Z) (y : dtp_context) (q : list Z) : Prop := {
  sr_create : can_create (env := sv) w d; sr_listen : listening w l y q; sr_ne : l ≠ d;
  sr_bind : ∃ n tries, env_bind (Env := sv) d = replicate n false ++ true :: tries }.

Lemma key_len : 8 ≤ zlen (public_key (env := cl)) ≤ 8 + RSA_LEN + RSA_LEN.
Proof using kp.
  change (public_key (env := cl)) with (key_bytes (env_rsa_n (Env := cl)) (env_rsa_e (Env := cl))). rewrite zlen_key.
  pose proof kp_len as [? ?]. pose proof (zlen_nonneg (env_rsa_n (Env := cl))). pose proof (zlen_nonneg (env_rsa_e (Env := cl))). lia.
Qed.

(** The answer of the client reaches the server. *)
Lemma ack_completes S w d x y fid caddr saddr port k ws len :
  syn_sent ws fid saddr len x → half_open y d fid caddr (DTPGenerateHostID (env := cl)) len k → zlen k = 20 → is_u32 len → is_u32 fid →
  ctx_at w d = Some y → 0 ≤ d < FD_SETSIZE_S → pkt_pool_ok w → ∀ sc,
  let x' := takes_key (DTPGenerateHostID (env := sv)) k RSA_LEN saddr sc port x in
  let ack := control_header x' (zeros DTPHDRSIZE) DTP_FLAG_ACK in
  wp (HandleACKPacket (env := sv) d (GetAckNum ack) (GetRcvdWindow ack)) (λ _ w', ∃ y', server_open S w' d y' ∧
    agreed (cl := cl) (sv := sv) caddr saddr port x' y' ∧ knows_window x' y' (tc_sendWindowScale y) ∧ tx_frame d w w') w.
Proof using ups.
  intros Hss Hho Hk Hlen Hfid Hy Hd Hpo sc x' ack.
  destruct (agreed_of x y ws d fid caddr saddr port k sc len Hss Hho Hk Hlen) as ([Gk Gf Gi Gd Gu Ga] & _ & Hack & Hls & Hfx & _).
  fold x' in Gk, Gf, Gi, Gd, Gu, Ga, Hack, Hls, Hfx. clearbody x'.
  destruct (control_header_read x' DTP_FLAG_ACK Hls ltac:(by rewrite Hfx)) as [_ E]. fold ack in E.
  unfold read_header, sent_header in E. injection E as _ _ E Ew. rewrite E, Ew, Hack.
  pose proof (half_open_keyed y d fid caddr _ len k Hho Hlen Hfid) as Hkc.
  eapply wp_mono; [by eapply (final_ack_spec y d S w y)|]. intros _ w' (y' & y1 & v1 & Hl & Ha & Hc & Hk1 & Hfl & (ds & [F2 F5 _]) & Hv & F).
  exists y'.
  destruct Hc as (C1 & _ & _ & C4 & _ & _ & C7 & C8 & C9 & C10 & C11 & C12 & _ & C14 & C15 & C16 & C17 & C18).
  destruct Hk1 as [_ K0 Ka Ks K5 _ K8 Kg _ _ _ _ _ (K1 & K2 & K3 & K4 & K6 & K7 & K9) Kq Kv].
  destruct Hfl as [F1 F3 F4]. pose proof (ho_written _ _ _ _ _ _ _ Hho).
  pose proof (id_steady _ (ho_idle _ _ _ _ _ _ _ Hho)) as Hsd. rewrite <- K7 in Hsd. injection Hsd as D1 D2 _ D4 _ D6 D7 _.
  pose proof (sn_wr _ _ _ _ (lv_snd _ _ _ _ Hl)) as [_ ? ? _ _].
  assert (Hcg : tc_isCongested y' = false) by (destruct (tc_isCongested y'); [by rewrite F4 in Kg|done]).
  split_and!; [constructor; try congruence; lia| | |done].
  2: { split; [congruence|]. intros Hpos. assert (v1 = (false, heard_window x' (tc_sendWindowScale y))) as -> by by apply Hv.
    injection Kv as Kz Kw. split; congruence. }
  destruct Gk as [? ?], Gi as [? ?], Ga as [? ?]. constructor; try congruence; (split; congruence || done).
Qed.

(** The three packets, with everything that follows for the hosts. *)
Lemma handshake_spec S wc ws c d l x y q caddr saddr tries j :
  client_ready wc c x j → server_ready ws d l y q → (j < tries)%nat →
  (∀ c', ¬ on_map ws c' (flow_id (env := cl) (w_nclock wc + j))) →
  wp (dtp_connect (env := cl) tries c saddr SIZEOF_SOCKADDR_IN) (λ r wc1, r = 0 ∧
    ∃ syn, w_sent wc1 = w_sent wc ++ [mk_datagram c saddr syn] ∧ ∀ pad,
  wp (HandleSYNPacket (env := sv) l (syn ++ pad) caddr) (λ r ws1, r = Some d ∧
    ∃ synack y' port, w_sent ws1 = w_sent ws ++ [mk_datagram l caddr synack] ∧ ctx_at ws1 d = Some y' ∧
      on_map ws1 d (tc_flowID y') ∧ ctx_at ws1 l = Some (offered d q y) ∧ w_ports ws1 !! d = Some port ∧
      (∀ c' z, c' ≠ d → c' ≠ l → ctx_at ws c' = Some z → ctx_at ws1 c' = Some z) ∧
      (w_timerLock ws1 = false ∧ ∃ l1 l2, w_retTimerQ ws = l1 ++ l2 ∧ w_retTimerQ ws1 = l1 ++ d :: l2) ∧ ∀ pad',
  wp (HandleSYNACKPacket (env := cl) c (synack ++ pad') saddr) (λ r wc2, r = Some c ∧
    ∃ ack x', w_sent wc2 = w_sent wc1 ++ [mk_datagram c (set_sin_port saddr port) ack] ∧
      client_open wc2 c x' ∧ rcv_view x' = rcv_view x ∧ agreed (cl := cl) (sv := sv) caddr saddr port x' y' ∧
  wp (HandleACKPacket (env := sv) d (GetAckNum ack) (GetRcvdWindow ack)) (λ _ ws2, ∃ y'', server_open S ws2 d y'' ∧
      agreed (cl := cl) (sv := sv) caddr saddr port x' y'' ∧ knows_window x' y'' (taken_scale (announced_ws x) 0) ∧
      tx_frame d ws1 ws2) ws1) wc1) ws) wc.
Proof using upc ups rnd kp.
  intros [Hx Hfr Hpo Hbp Hdl (wb & Hwb & Hwl) Hskip [Hfl Hfu]] [Hcr Hli Hne (nb & bt & Hbind)] Hj Hfree.
  pose proof kp_id as [Hic His]. pose proof kp_len as [Hln Hle]. pose proof key_len as Hkl.
  assert (Hpk : 0 < zlen (public_key (env := cl)) < MAX_PAYLOAD) by (unfold MAX_PAYLOAD, DTP_MTU, DTPHDRSIZE, RSA_LEN in *; lia).
  eapply wp_mono; [by eapply (dtp_connect_spec tries wc c x saddr wb j); try done; lia|].
  intros r wc1 (-> & x1 & syn & win & fid & Ef & Hx1 & Hss & Hrv & Hs1 & Hsyn & _ & Hbp1 & _). split; [done|]. exists syn. split; [done|]. intros pad.
  rewrite <- Ef in Hfree, Hfu. clear Ef. specialize (Hbp1 Hbp).
  eapply wp_mono.
  { eapply (HandleSYNPacket_new ws d l y q (syn ++ pad) caddr _ _ _ 0 fid _ _ nb bt Hcr Hli Hne Hfree His Hbind);
      [|eapply opening_opened, Hsyn|done..]. intros k r Hk. destruct (kp_inv k r Hk) as (ct & E & Hc & _). eauto. }
  intros r ws1 (-> & y1 & k & rd & ct & synack & win' & port & sc & Hy1 & Hho & _ & Hyl & Hon & _ & Hk & Ect & Hct & Hp & Hpo1 & Hs2 & Hsa & Hoth & Hpool & Hsc & Htq).
  change (key_bytes _ _) with (public_key (env := cl)) in *. set (len := zlen (public_key (env := cl))) in *.
  assert (Hlen : is_u32 len) by (unfold is_u32, MAX_PAYLOAD, DTP_MTU, DTPHDRSIZE in *; lia).
  rewrite Z.add_0_l, u32_small in Hho by done. pose proof (ho_fid _ _ _ _ _ _ _ Hho) as Hf1.
  split; [done|]. exists synack, y1, port. rewrite Hf1. split_and!; [done..|apply Htq|apply Htq|]. intros pad'.
  destruct (kp_inv k rd Hk) as (ct' & E' & _ & Hdec). assert (ct' = ct) as -> by congruence.
  eapply wp_mono; [eapply (HandleSYNACKPacket_spec wc1 c x1); [exact Hx1|by destruct Hss|by destruct Hss|eapply opening_opened, Hsa|done|exact Hdec
    |done|unfold is_i32 in *; lia|unfold is_u16; lia]|].
  intros r wc2 (-> & Hx2 & _ & Hs3 & Hbp2). split; [done|]. change (0 +u RSA_LEN) with RSA_LEN in *.
  destruct (agreed_of x1 y1 c d fid caddr saddr port k sc len Hss Hho Hk Hlen) as (Hag & _ & _ & _ & _ & Hco).
  eexists _, _. split; [exact Hs3|]. split; [by apply Hco; auto|].
  split; [rewrite <- Hrv; apply (takes_key_facts (DTPGenerateHostID (env := sv)) k RSA_LEN saddr sc port x1)|]. split; [exact Hag|].
  rewrite <- Hsc. by eapply (ack_completes S ws1 d x1 y1 fid caddr saddr port k c len); try done; destruct Hcr as [_ _ _ _ []].
Qed.

(** C6: The handshake agrees on a connection.  When a client connects to a listening server
    whose random devices deliver, and the network delivers the three packets (in buffers with whatever behind them), the
    server has a new connection on its flow-ID map and in the queue of the listening socket,
    both ends have the same session key of 20 random bytes, the same flow ID, the host ID of
    each other and each other's position in the streams, the client sends to the port of the
    new socket, and the acknowledgement makes the server established with nothing
    outstanding, in the invariant of the send side for whatever it sends next. *)
Theorem handshake_agrees S wc ws c d l x y q caddr saddr tries j :
  client_ready wc c x j → server_ready ws d l y q → (j < tries)%nat →
  (∀ c', ¬ on_map ws c' (flow_id (env := cl) (w_nclock wc + j))) →
  wp (dtp_connect (env := cl) tries c saddr SIZEOF_SOCKADDR_IN) (λ r wc1, r = 0 ∧
    ∃ syn, w_sent wc1 = w_sent wc ++ [mk_datagram c saddr syn] ∧ ∀ pad,
  wp (HandleSYNPacket (env := sv) l (syn ++ pad) caddr) (λ r ws1, r = Some d ∧
    ∃ synack y' port, w_sent ws1 = w_sent ws ++ [mk_datagram l caddr synack] ∧ ctx_at ws1 d = Some y' ∧
      on_map ws1 d (tc_flowID y') ∧ ctx_at ws1 l = Some (offered d q y) ∧ w_ports ws1 !! d = Some port ∧ ∀ pad',
  wp (HandleSYNACKPacket (env := cl) c (synack ++ pad') saddr) (λ r wc2, r = Some c ∧
    ∃ ack x', w_sent wc2 = w_sent wc1 ++ [mk_datagram c (set_sin_port saddr port) ack] ∧
      ctx_at wc2 c = Some x' ∧ tc_state x' = SOCK_ESTABLISHED ∧ agreed (cl := cl) (sv := sv) caddr saddr port x' y' ∧
  wp (HandleACKPacket (env := sv) d (GetAckNum ack) (GetRcvdWindow ack)) (λ _ ws2, ∃ y'', snd_live ws2 d y'' S ∧
      tc_lastByteAcked y'' = tc_lastByteWritten y'' ∧ agreed (cl := cl) (sv := sv) caddr saddr port x' y'') ws1) wc1) ws) wc.
Proof using upc ups rnd kp.
  intros Hc Hs Hj Hfree. eapply wp_mono; [by eapply (handshake_spec S wc ws c d l x y q)|].
  intros r wc1 (-> & syn & E1 & H1). split; [done|]. exists syn. split; [done|]. intros pad.
  eapply wp_mono; [apply H1|]. intros r ws1 (-> & synack & y' & port & E2 & Hy & Hon & Hl & Hp & _ & _ & H2). split; [done|].
  exists synack, y', port. split_and!; [done..|]. intros pad'.
  eapply wp_mono; [apply H2|]. intros r wc2 (-> & ack & x' & E3 & Hco & _ & Hag & H3). split; [done|].
  exists ack, x'. split_and!; [done|apply Hco|apply Hco|done|].
  eapply wp_mono; [exact H3|]. intros _ ws2 (y'' & [] & Hag' & _). by exists y''.
Qed.
End hosts.

(** ** A handshake on two concrete hosts *)

(** RSA by padding to a block. *)
Definition toy_env : Env := {|
  env_clock := env_clock (Env := quiet_env); env_send := env_send (Env := quiet_env); env_rand := env_rand (Env := quiet_env);
  env_random := λ k, mk_rand (20, 21, 22) [RdErr 11] [RdData (replicate 256 (Z.of_nat k + 7))]; env_socket := env_socket (Env := quiet_env);
  env_bind := λ _, [false; true]; env_setiface := env_setiface (Env := quiet_env);
  env_sha1 := env_sha1 (Env := quiet_env); env_hmac_sha1 := env_hmac_sha1 (Env := quiet_env);
  env_rsa_public_encrypt := λ _ _ d _, Some (d ++ zeros (RSA_LEN - 20));
  env_rsa_private_decrypt := λ d, Some (zslice 0 20 d);
  env_rsa_n := zeros 256; env_rsa_e := [1; 0; 1];
  env_mac := env_mac (Env := quiet_env); env_pid := 4242; env_junk := []; env_wait := λ _ _ w, w |}.

Lemma toy_up : NetUp toy_env.
Proof. intros k. by exists 0%nat, []. Qed.

Lemma toy_rand : RandUp toy_env.
Proof.
  intros k. constructor; [by split_and!|by repeat constructor; right|by repeat constructor|left; left|].
  change (20 ≤ zlen (replicate 256 (Z.of_nat k + 7) ++ [])). unfold zlen. rewrite length_app, length_replicate. cbn. lia.
Qed.

Lemma toy_pair : KeyPair toy_env toy_env.
Proof.
  constructor; [by vm_compute|by vm_compute|]. intros k r Hk. exists (k ++ zeros (RSA_LEN - 20)). split; [done|].
  split; [rewrite zlen_app, Hk; by vm_compute|].
  change (Some (zslice 0 20 (k ++ zeros (RSA_LEN - 20))) = Some k).
  rewrite zslice_app_l by lia. rewrite <- Hk. by rewrite zslice_all.
Qed.

Definition opening_ctx (c : Z) : dtp_context := new_ctx (env := toy_env) c (mk_timeval 990 0) (mk_timeval 991 0).

Definition opening_listener : dtp_context :=
  (opening_ctx 4) <| tc_state := SOCK_LISTEN |> <| tc_listenQ := Some (zeros 8) |> <| tc_backlog := 8 |> <| tc_qidx := 0 |>.

Definition opening_client : world := zero_world <| w_batches := {[0]} |> <| w_ctxs := {[5 := opening_ctx 5]} |>.
Definition opening_server : world := zero_world <| w_batches := {[0]} |> <| w_ctxs := {[4 := opening_listener]} |>
  <| w_retTimerQ := [4] |>.

Lemma pools_empty w : w_pkts w = ∅ → w_freePacketList w = [] → w_freePktCount w = 0 → w_brk w = w_brk zero_world → pkt_pool_ok w.
Proof.
  intros E1 E2 E3 E4. constructor; rewrite ?E1, ?E2, ?E3, ?E4; cbn; try done; try set_solver; try apply NoDup_nil_2;
    intros p; rewrite lookup_empty; by intros [? ?].
Qed.

Lemma buffers_empty w : w_bufs w = ∅ → w_freeBufferList w = [] → w_freeBufferCount w = 0 → w_brk w = w_brk zero_world → buf_pool_ok w.
Proof.
  intros E1 E2 E3 E4. constructor; rewrite ?E1, ?E2, ?E3, ?E4; cbn; try done; try set_solver; try apply NoDup_nil_2;
    intros p; rewrite lookup_empty; by intros [? ?].
Qed.

Lemma opening_client_ready : client_ready (cl := toy_env) opening_client 5 (opening_ctx 5) 0.
Proof.
  unfold opening_ctx. constructor; [reflexivity|apply (fresh_new (env := toy_env) 5); split; by vm_compute|by apply pools_empty
    |by apply buffers_empty|done| |lia|split; by vm_compute].
  exists (malloc_bytes (env := toy_env) DEF_WRITE_BUFLEN). split; [reflexivity|]. rewrite (zlen_malloc (env := toy_env)) by done. by vm_compute.
Qed.

Lemma opening_server_map : flowmap_ok opening_server ∧ ∀ c fid, ¬ on_map opening_server c fid.
Proof.
  assert (Hbin : ∀ idx, fid_bin opening_server idx = []) by done.
  assert (Hon : ∀ c fid, ¬ on_map opening_server c fid) by (intros c fid (z & _ & _ & Hin); by apply elem_of_nil in Hin).
  split; [|done]. constructor.
  - intros idx c. rewrite Hbin. by intros ?%elem_of_nil.
  - intros idx. rewrite Hbin. apply NoDup_nil_2.
  - intros c z. unfold ctx_at, opening_server. cbn. case_bool_decide; [|done].
    destruct (decide (c = 4)) as [->|Hc]; [rewrite lookup_singleton_eq|rewrite lookup_singleton_ne by done]; by intros [= <-].
  - intros c c' fid H. by apply Hon in H.
Qed.

Lemma opening_server_ready : server_ready (sv := toy_env) opening_server 5 4 opening_listener (zeros 8).
Proof.
  constructor; [|by constructor|done|by exists 1%nat, []]. constructor; [| |apply opening_server_map|by apply pools_empty|].
  - intros c z. cbn. destruct (decide (c = 4)) as [->|Hc]; [by rewrite lookup_singleton_eq|by rewrite lookup_singleton_ne].
  - constructor; [done|by repeat constructor|intros c ->%list_elem_of_singleton; by exists opening_listener|apply NoDup_singleton].
  - constructor; [done|done|by intros ?%list_elem_of_singleton|]. intros z. unfold ctx_at, opening_server. cbn. case_bool_decide; [|done].
    rewrite lookup_singleton_ne by done. by intros [= <-].
Qed.

Example handshake_agrees_witness :
  wp (dtp_connect (env := toy_env) 1 5 peer_addr SIZEOF_SOCKADDR_IN) (λ r wc1, r = 0 ∧
    ∃ syn, w_sent wc1 = [mk_datagram 5 peer_addr syn] ∧ wp (HandleSYNPacket (env := toy_env) 4 syn other_addr)
      (λ r ws1, r = Some 5 ∧ ∃ synack y, w_sent ws1 = [mk_datagram 4 other_addr synack] ∧ ctx_at ws1 5 = Some y ∧
         wp (HandleSYNACKPacket (env := toy_env) 5 synack peer_addr)
           (λ _ wc2, ∃ x, ctx_at wc2 5 = Some x ∧ tc_key x = tc_key y) wc1) opening_server) opening_client.
Proof.
  eapply wp_mono.
  { apply (handshake_agrees (upc := toy_up) (ups := toy_up) (rnd := toy_rand) (kp := toy_pair) (λ _, 0) _ opening_server 5 5 4 (opening_ctx 5) opening_listener (zeros 8)
      other_addr peer_addr 1 0); [apply opening_client_ready|apply opening_server_ready|lia|intros c'; apply opening_server_map]. }
  intros r wc1 (-> & syn & E & H). split; [done|]. exists syn. split; [done|]. specialize (H []). rewrite app_nil_r in H.
  eapply wp_mono; [exact H|]. intros r ws1 (-> & synack & y & port & E1 & Hy & _ & _ & _ & H1). split; [done|].
  exists synack, y. split; [done|]. split; [done|]. specialize (H1 []). rewrite app_nil_r in H1.
  eapply wp_mono; [exact H1|]. intros r wc2 (_ & ack & x & _ & Hx & _ & Hag & _). exists x. split; [done|apply Hag].
Defined.

(** The SYN of [opening_client] at the server, once or twice. *)
Definition opening_syn : bytes :=
  match dtp_connect (env := toy_env) 1 5 peer_addr SIZEOF_SOCKADDR_IN opening_client with
  | Ok (_, w) => default [] (dg_data <$> head (w_sent w))
  | Err _ => []
  end.

Definition server_state (syns : nat) : res (bytes * Z * nat * nat) :=
  match mfor (replicate syns tt) (λ _, HandleSYNPacket (env := toy_env) 4 opening_syn other_addr;; mret tt) opening_server with
  | Ok (_, w) => match ctx_at w 5 with
                 | Some y => Ok (zslice 0 2 (tc_key y), tc_lastByteSent y, length (w_sent w),
                                 (length (map_to_list (w_pkts w)) - length (w_freePacketList w) - length (tc_packetQ y))%nat)
                 | None => Err NullDeref
                 end
  | Err f => Err f
  end.

(** A copy of the SYN makes the server draw another session key, so that it no longer shares
    one with a client that has the first answer; and a packet of the pool is lost with every
    answer. *)
Example duplicate_syn_rekeys : server_state 1 = Ok ([7; 7], RSA_LEN, 1%nat, 1%nat) ∧ server_state 2 = Ok ([9; 9], RSA_LEN, 2%nat, 2%nat).
Proof. split; vm_compute; reflexivity. Qed.
