(* ===== verification/Arrival.v ===== *)
(** * Data at the event loop

    A batch of data segments that [OnReadEvent] reads: all of them enter the receive buffer, and
    one acknowledgement, with the position up to which everything has arrived, answers the
    batch. *)

From S2P Require Import Prelude Double Header Context World ContextTable Pools RetransQueue.
From S2P Require Import Select Congestion Lifecycle Send Scenario Services Intervals Reassembly Receiver Transmit Ack.
From S2P Require Import Acknowledge Challenge Closing Handshake EventLoop Socket Delivery Batch Opening.

(** What the arrival of data leaves alone. *)
Definition same_flags (x x' : dtp_context) : Prop :=
  tc_sock x' = tc_sock x ∧ tc_state x' = tc_state x ∧ tc_sendSYN x' = tc_sendSYN x ∧ tc_isReadBlocked x' = tc_isReadBlocked x ∧
  tc_peerAddr x' = tc_peerAddr x ∧ tc_isFINRcvd x' = tc_isFINRcvd x ∧ tc_flowID x' = tc_flowID x ∧
  tc_lastByteSent x' = tc_lastByteSent x ∧ tc_readBufLen x' = tc_readBufLen x.

#[export] Instance same_flags_pre : PreOrder same_flags.
Proof. unfold same_flags. split; [done|]. intros x y z. intuition congruence. Qed.

(** A packet of [p.2] bytes in the buffer [p.1] with bytes of the stream [S] before [T]. *)
Record is_data (S : stream) (T : Z) (p : bytes * Z) : Prop := {
  da_carries : carries S p.1 (GetPayloadLen p.1 p.2);
  da_end : GetSeqNum p.1 + GetPayloadLen p.1 p.2 ≤ T; da_syn : IsSYNPacket p.1 = false }.

(** It has the byte at position [q]. *)
Definition has_byte (q : Z) (p : bytes * Z) : Prop := GetSeqNum p.1 ≤ q < GetSeqNum p.1 + GetPayloadLen p.1 p.2.

Section arrival.
Context {env : Env} {up : NetUp env} (S : stream) (T c : Z).

Lemma arrive_keeps w x L buf n :
  session T w c x S L → event_ok S T (Arrive buf n) →
  wp (HandleNormalPacket c buf n) (λ _ w', ∃ x', ctx_at w' c = Some x' ∧ same_flags x x') w.
Proof using.
  intros Hse (Hca & HT & Hsyn). pose proof Hse as [Hok _ _ [Hs1 Hs2] Hack Hwrap Hpos Hcov].
  pose proof (session_next _ _ _ _ _ _ Hse) as Hnx.
  pose proof (rcv_next_le _ _ _ _ _ Hok) as Hle. pose proof (rc_range _ _ _ _ _ Hok) as [? ? ?].
  assert (Hnear : near x buf n) by (destruct Hca; constructor; lia).
  eapply wp_mono; [eapply HandleNormalPacket_spec; [done|done|done|by unfold accepts_data]|].
  intros r w' (x1 & L' & Hok' & _ & Hfr & _). eexists. split; [by eapply rcv_ok_at|].
  rewrite Hfr. unfold same_flags, note_header. by case_match.
Qed.

Definition extends (x : dtp_context) (pkts : list (bytes * Z)) (L L' : list node) : Prop :=
  ∀ q, tc_lastByteRead x ≤ q < tc_lastByteRead x + tc_readBufLen x →
       (covered (ivs L') q ↔ covered (ivs L) q ∨ Exists (has_byte q) pkts).

Lemma aggregate_data pkts : ∀ w x L lk nd,
  session T w c x S L → Forall (is_data S T) pkts →
  wp (aggregate_loop c pkts lk nd) (λ r w', ∃ x' L', session T w' c x' S L' ∧ same_flags x x' ∧
    tc_lastByteRead x' = tc_lastByteRead x ∧ extends x pkts L L' ∧ w_sent w' = w_sent w ∧
    (lk = true ∨ pkts ≠ [] → r.1 = true)) w.
Proof using.
  induction pkts as [|[p n] pkts IH]; intros w x L lk nd Hse Hp.
  { apply wp_ret. exists x, L. split_and!; [done|reflexivity|done| |done|by intros [?|[]]]. intros q _. rewrite Exists_nil. tauto. }
  apply Forall_cons in Hp as [[Hca He Hsyn] Hp]. cbn [fst snd] in Hca, He, Hsyn. cbn [aggregate_loop].
  set (len := GetPayloadLen p n) in *. pose proof (ca_len _ _ _ Hca). rewrite (proj2 (Z.ltb_lt 0 len)) by lia.
  rewrite u32_small by (unfold is_u32; lia). assert (Hev : event_ok S T (Arrive p len)) by done.
  apply wp_bind. eapply wp_mono; [apply (wp_conj _ _ _ w (arrive_step T w c x S L p len Hse Hev) (arrive_keeps w x L p len Hse Hev))|].
  intros r w1 [(x1 & L1 & Hse1 & Hr1 & Hc1 & _ & _ & Hs1 & _) (y & Hy & Hk1)].
  assert (y = x1) as -> by (pose proof (rcv_ok_at _ _ _ _ _ (se_rcv _ _ _ _ _ _ Hse1)); congruence).
  eapply wp_mono; [by apply IH|]. intros [lk' nd'] w2 (x2 & L2 & Hse2 & Hk2 & Hr2 & Hc2 & Hs2 & Hlk).
  exists x2, L2. split_and!; [done|by etrans|congruence| |congruence|].
  - intros q Hq. assert (Eb : tc_readBufLen x1 = tc_readBufLen x) by apply Hk1.
    rewrite (Hc2 q) by lia. rewrite (Hc1 q), Exists_cons. unfold has_byte at 2. cbn [fst snd]. fold len.
    pose proof (rc_next _ _ _ _ _ (se_rcv _ _ _ _ _ _ Hse)) as (_ & Hcn & _).
    destruct (decide (q < tc_nextByteExpected x)); [pose proof (Hcn q ltac:(lia)); tauto|].
    unfold seg_start, seg_end. assert (tc_nextByteExpected x `max` GetSeqNum p ≤ q < (tc_lastByteRead x + tc_readBufLen x) `min` (GetSeqNum p + len) ↔
      GetSeqNum p ≤ q < GetSeqNum p + len) by lia. tauto.
  - intros _. apply Hlk. by left.
Qed.

Lemma session_io w w' x L : io_frame w w' → session T w c x S L → session T w' c x S L.
Proof using. intros Hio [Hok]. constructor; try done. by eapply rcv_ok_io. Qed.

(** The batch is answered by one acknowledgement. *)
Lemma finish_data_spec w x L nd :
  session T w c x S L → tc_state x = SOCK_ESTABLISHED → tc_sendSYN x = false → tc_isReadBlocked x = false →
  wp (finish_data c nd) (λ _ w', session T w' c x S L ∧
    w_sent w' = w_sent w ++ [mk_datagram (tc_sock x) (tc_peerAddr x) (control_header x (zeros DTPHDRSIZE) DTP_FLAG_ACK)]) w.
Proof using up.
  intros Hse Hst Hsy Hb. pose proof (rcv_ok_at _ _ _ _ _ (se_rcv _ _ _ _ _ _ Hse)) as Hx.
  pose proof (so_range _ _ (rd_sock _ _ (se_read _ _ _ _ _ _ Hse))) as Hr.
  pose proof (so_sock _ _ (rd_sock _ _ (se_read _ _ _ _ _ _ Hse))) as Es.
  unfold finish_data. apply wp_bind. eapply wp_getctx; [exact Hx|]. rewrite Hst, Hsy.
  change (negb (is_state SOCK_ESTABLISHED SOCK_CLOSE_WAIT) && negb (is_state SOCK_ESTABLISHED SOCK_SYN_RCVD)
    && negb (is_state SOCK_ESTABLISHED SOCK_SYN_SENT)) with true. cbn [mwhen].
  apply wp_bind, wp_bind. apply (io_send_ack c x); [exact Hx|]. intros w1 Hio1 Hs1. apply wp_ret.
  pose proof (session_io w w1 x L Hio1 Hse) as Hse1. pose proof (rcv_ok_at _ _ _ _ _ (se_rcv _ _ _ _ _ _ Hse1)) as Hx1.
  apply wp_bind. eapply wp_getctx; [exact Hx1|]. apply wp_bind.
  eapply wp_mono with (Q := λ _ w2, io_frame w1 w2 ∧ w_sent w2 = w_sent w1).
  - apply wp_when; intros _; [|by split; [reflexivity|]]. apply io_select_set; [by rewrite Es|]. auto.
  - intros _ w2 [Hio2 Hs2]. pose proof (session_io w1 w2 x L Hio2 Hse1) as Hse2.
    apply wp_bind. eapply wp_getctx; [apply (rcv_ok_at _ _ _ _ _ (se_rcv _ _ _ _ _ _ Hse2))|]. rewrite Hb, andb_false_r.
    apply wp_ret. split; [done|congruence].
Qed.

Lemma process_data w x L api :
  session T w c x S L → tc_state x = SOCK_ESTABLISHED → tc_sendSYN x = false → tc_isReadBlocked x = false →
  ai_hasACK api = false → Forall (is_data S T) (ai_pkts api) → ai_pkts api ≠ [] →
  wp (ProcessAggregatePackets c api) (λ _ w', ∃ x' L', session T w' c x' S L' ∧ same_flags x x' ∧
    tc_lastByteRead x' = tc_lastByteRead x ∧ extends x (ai_pkts api) L L' ∧
    w_sent w' = w_sent w ++ [mk_datagram (tc_sock x) (tc_peerAddr x) (control_header x' (zeros DTPHDRSIZE) DTP_FLAG_ACK)]) w.
Proof using up.
  intros Hse Hst Hsy Hb Hna Hd Hne. unfold ProcessAggregatePackets. apply wp_bind.
  eapply wp_getctx; [apply (rcv_ok_at _ _ _ _ _ (se_rcv _ _ _ _ _ _ Hse))|]. rewrite Hna. apply wp_bind, wp_ret.
  apply wp_bind. eapply wp_mono; [by apply (aggregate_data (ai_pkts api) w x L)|].
  intros [lk nd] w1 (x1 & L1 & Hse1 & Hk1 & Hr1 & Hc1 & Hs1 & Hlk). cbn [fst] in Hlk. rewrite Hlk by auto.
  apply wp_bind, io_gettimeofday. intros w2 Hio2 Hs2. pose proof (session_io w1 w2 x1 L1 Hio2 Hse1) as Hse2.
  set (tv := env_clock _). apply wp_bind. eapply (wp_mod_rcv w2 c x1); [apply Hse2|done|]. intros w3 Hok3 Hx3 Hkp3.
  set (x3 := set tc_sentProbes _ _) in *. assert (Hk3 : same_flags x1 x3) by done.
  assert (Hse3 : session T w3 c x3 S L1) by (eapply session_step; [exact Hse2|exact Hok3|done|apply Hse2|apply Hse2]).
  assert (Hr3 : tc_lastByteRead x3 = tc_lastByteRead x1) by done. clearbody x3.
  pose proof (transitivity Hk1 Hk3) as Hk. pose proof Hk as (E1 & E2 & E3 & E4 & E5 & _).
  eapply wp_mono; [apply (finish_data_spec w3 x3 L1 nd); congruence|]. intros _ w4 [Hse4 Hs4].
  exists x3, L1. split_and!; [done|done|congruence|done|]. rewrite Hs4, (rkeep_sent _ _ _ _ (Hkp3 [])), Hs2, Hs1. congruence.
Qed.

Lemma received_data d p :
  received d p → DTPHDRSIZE ≤ GetHeaderLen d.1 → is_data S T (d.1, zlen d.1) →
  is_data S T p ∧ IsACKPacket p.1 = IsACKPacket d.1 ∧ ∀ q, has_byte q p ↔ has_byte q (d.1, zlen d.1).
Proof using.
  destruct d as [d a], p as [p n]. intros [[pad Ep] En] Hh [Hca He Hsy]. cbn [fst snd] in *. subst p n.
  pose proof (ca_block _ _ _ Hca) as Hb. pose proof (ca_len _ _ _ Hca) as Hl. unfold GetPayloadLen in Hb, Hl.
  pose proof (read_header_app d pad ltac:(lia)) as E. unfold read_header in E.
  injection E as _ E2 _ _ E5 _ _ _ E9 _ E11 _. unfold has_byte, GetPayloadLen in *. cbn [fst snd]. rewrite E2, E5, E9.
  split_and!; [|done|done]. constructor; cbn [fst snd]; unfold GetPayloadLen; rewrite ?E2, ?E5, ?E11; try done.
  destruct Hca. constructor; rewrite ?E2, ?E5; try done; [pose proof (zlen_nonneg pad); rewrite zlen_app; lia|].
  intros i Hi. rewrite <- ca_bytes by done. unfold zget. apply app_nth1. unfold zlen in *. lia.
Qed.

Lemma received_batch arrivals pkts :
  Forall2 received arrivals pkts →
  Forall (λ d, IsACKPacket d.1 = false ∧ DTPHDRSIZE ≤ GetHeaderLen d.1 ∧ is_data S T (d.1, zlen d.1)) arrivals →
  Forall (is_data S T) pkts ∧ acks pkts = [] ∧
  ∀ q, Exists (has_byte q) pkts ↔ Exists (λ d, has_byte q (d.1, zlen d.1)) arrivals.
Proof using.
  induction 1 as [|d p ds ps Hr _ IH]; intros Hf; [split_and!; [done|done|intros q; by rewrite !Exists_nil]|].
  apply Forall_cons in Hf as [(Ha & Hh & Hd) Hf]. destruct (IH Hf) as (I1 & I2 & I3).
  destruct (received_data d p Hr Hh Hd) as (D1 & D2 & D3). split_and!; [by constructor| |].
  - unfold acks. rewrite filter_cons, D2, Ha, decide_False by done. exact I2.
  - intros q. by rewrite !Exists_cons, D3, I3.
Qed.

(** C7: A batch of data is delivered and acknowledged once.  When the event loop reads up to
    eight data segments of the stream of a connection, in any order, with gaps and overlaps,
    from the address of its peer, then what it has received of the window grows by exactly the
    bytes of these segments, the receive side stays consistent with the stream, and one
    acknowledgement goes to the peer, with the first position that is still missing. *)
Theorem batch_delivered sock isListen w x L arrivals :
  session T w c x S L → tc_state x = SOCK_ESTABLISHED → tc_sendSYN x = false → tc_isReadBlocked x = false → tc_isFINRcvd x = false →
  owns sock isListen c w x → (0 < length arrivals ≤ 8)%nat →
  Forall (λ d, plain (tc_flowID x) d.1 ∧ IsACKPacket d.1 = false ∧ DTPHDRSIZE ≤ GetHeaderLen d.1 ∧ zlen d.1 ≤ DTP_MTU ∧
               d.2 = tc_peerAddr x ∧ is_data S T (d.1, zlen d.1)) arrivals →
  wp (OnReadEvent sock isListen arrivals false) (λ _ w', ∃ x' L' ack, session T w' c x' S L' ∧ tc_lastByteRead x' = tc_lastByteRead x ∧
    (∀ q, tc_lastByteRead x ≤ q < tc_lastByteRead x + tc_readBufLen x →
       (covered (ivs L') q ↔ covered (ivs L) q ∨ Exists (λ d, has_byte q (d.1, zlen d.1)) arrivals)) ∧
    w_sent w' = w_sent w ++ [mk_datagram (tc_sock x) (tc_peerAddr x) ack] ∧ GetAckNum ack = tc_nextByteExpected x') w.
Proof using up.
  intros Hse Hst Hsy Hb Hfin Ho Hlen Hf. pose proof (rcv_ok_at _ _ _ _ _ (se_rcv _ _ _ _ _ _ Hse)) as Hx.
  destruct (read_event_plain sock isListen c x arrivals w Hx) as (pkts & Hr & E); [|done|done| |].
  { split; [|by rewrite Hst]. unfold ignored. rewrite Hst, (rd_time _ _ (se_read _ _ _ _ _ _ Hse)). done. }
  { eapply Forall_impl; [exact Hf|]. intros d (? & _ & ? & ? & ? & [Hca _ _]). cbn in Hca. split_and!; try done.
    pose proof (ca_len _ _ _ Hca). unfold GetPayloadLen in *. lia. }
  destruct (collected_facts pkts (api_for c)) as (_ & Ep & Ea & _). cbn [ai_pkts api_for app] in Ep.
  destruct (received_batch arrivals pkts Hr) as (Hd & Hna & Hex).
  { eapply Forall_impl; [exact Hf|]. intros d (_ & ? & ? & _ & _ & ?). done. }
  eapply wp_eq; [exact E|]. apply wp_bind. eapply (wp_mod_rcv w c x); [apply Hse|done|]. intros w1 Hok1 Hx1 Hk1.
  set (x1 := set tc_nonce _ x) in *. assert (Hk : same_flags x x1) by done.
  assert (Hse1 : session T w1 c x1 S L) by (eapply session_step; [exact Hse|exact Hok1|done|apply Hse|apply Hse]).
  assert (Hr1 : tc_lastByteRead x1 = tc_lastByteRead x) by done. clearbody x1.
  pose proof Hk as (F1 & F2 & F3 & F4 & F5 & F6 & F7 & F8 & F9).
  assert (A1 : ai_hasACK (collected (api_for c) pkts) = false)
    by (apply not_true_is_false; intros [?|Hn]%Ea; [done|by rewrite Hna in Hn]).
  assert (A2 : pkts ≠ []) by (intros ->; apply Forall2_nil_inv_r in Hr as ->; cbn in Hlen; lia).
  eapply wp_mono; [apply (process_data w1 x1 L (collected (api_for c) pkts)); congruence|].
  rewrite Ep. intros _ w' (x' & L' & Hse' & Hk' & Hr' & Hext & Hs'). eexists x', L', _. split_and!; [done|congruence| | |].
  - intros q Hq. rewrite <- Hex. apply Hext. by rewrite Hr1, F9.
  - rewrite Hs', (rkeep_sent _ _ _ _ (Hk1 [])), F1, F5. done.
  - pose proof (transitivity Hk Hk') as (_ & _ & _ & _ & _ & G6 & G7 & G8 & _).
      pose proof (rd_hdr _ _ (se_read _ _ _ _ _ _ Hse')) as [Hu1 Hu2].
      rewrite (proj1 (control_header_ack x' DTP_FLAG_ACK Hu1 Hu2)).
      unfold GetAckNumber. rewrite G6, Hfin, Z.add_0_r. apply u32_small.
      pose proof (rcv_next_le _ _ _ _ _ (se_rcv _ _ _ _ _ _ Hse')). pose proof (rc_range _ _ _ _ _ (se_rcv _ _ _ _ _ _ Hse')) as [? ? ?].
      unfold is_u32. lia.
Qed.
End arrival.

(** ** A batch of two segments *)

(** Two segments of [demo_stream], the second first. *)
Definition demo_low : bytes := (DTPGenerateHeader (zeros DTPHDRSIZE) 0 0 77 0 100).1 ++ [-99; -98; -97; -96].
Definition demo_high : bytes := (DTPGenerateHeader (zeros DTPHDRSIZE) 4 0 77 0 100).1 ++ [-95; -94].
Definition demo_segments : list (bytes * sockaddr_in) := [(demo_high, peer_addr); (demo_low, peer_addr)].

Lemma demo_data : Forall (λ d, plain 77 d.1 ∧ IsACKPacket d.1 = false ∧ DTPHDRSIZE ≤ GetHeaderLen d.1 ∧
  zlen d.1 ≤ DTP_MTU ∧ d.2 = peer_addr ∧ is_data demo_stream 1000 (d.1, zlen d.1)) demo_segments.
Proof.
  assert (Hh : carries demo_stream demo_high 2).
  { constructor; [eval_facts..|]. intros i Hi. assert (Hc : i = 0 ∨ i = 1) by lia. destruct_or! Hc; subst; reflexivity. }
  assert (Hl : carries demo_stream demo_low 4).
  { constructor; [eval_facts..|]. intros i Hi. assert (Hc : i = 0 ∨ i = 1 ∨ i = 2 ∨ i = 3) by lia. destruct_or! Hc; subst; reflexivity. }
  repeat (apply Forall_cons; split); [..|apply Forall_nil; exact I]; cbn [fst snd];
    (split_and!; [by constructor|done|by vm_compute|by vm_compute|done|constructor; [exact Hh || exact Hl|by vm_compute|done]]).
Qed.

Example batch_delivered_witness :
  wp (OnReadEvent 4 true demo_segments false) (λ _ w', ∃ x' L' ack, session 1000 w' 5 x' demo_stream L' ∧
    tc_lastByteRead x' = tc_lastByteRead conn ∧
    (∀ q, tc_lastByteRead conn ≤ q < tc_lastByteRead conn + tc_readBufLen conn →
       (covered (ivs L') q ↔ covered (ivs []) q ∨ Exists (λ d, has_byte q (d.1, zlen d.1)) demo_segments)) ∧
    w_sent w' = w_sent (host conn) ++ [mk_datagram (tc_sock conn) (tc_peerAddr conn) ack] ∧
    GetAckNum ack = tc_nextByteExpected x') (host conn).
Proof.
  apply (batch_delivered demo_stream 1000 5 4 true (host conn) conn [] demo_segments);
    [apply conn_session; lia|done..| |cbn; lia|apply demo_data].
  split; [apply host_flowmap|]. exists conn. split_and!; [apply host_ctx|done|by left].
Defined.
