(* ===== verification/Options.v ===== *)
(** * Socket options (dtp_socket.c)

    [dtp_fcntl], [dtp_getsockopt], [dtp_setsockopt] and [dtp_ioctl].  [optval] is the
    caller's memory; an [int] is its first four bytes, little endian. *)

From S2P Require Import Prelude Double Header Context World ContextTable Pools RetransQueue.
From S2P Require Import Select Congestion Lifecycle Send Scenario Services Intervals Reassembly.
From S2P Require Import Receiver Transmit Ack Challenge Teardown Handshake Socket Delivery.
From Stdlib Require Import Sorting.Sorted.

Definition DTP_F_GETFL : Z := 0.
Definition DTP_F_SETFL : Z := 1.
Definition FIONREAD : Z := 0x541B.

(** The option names (dtp_socket.h). *)
Inductive sockopt :=
  | DTP_SO_ACCEPTCONN | DTP_SO_RCVBUF | DTP_SO_SNDBUF | DTP_SO_KEEPALIVE | DTP_KEEPIDLE | DTP_KEEPINTVL
  | DTP_KEEPCNT | DTP_SO_LINGER | DTP_SO_BLOCKSIZE | DTP_SO_DEADLINE | DTP_SO_WIFIONLY | DTP_UPBYTE
  | DTP_DOWNBYTE | DTP_MOBILETIME | DTP_WIFITIME | DTP_SO_FLOWID | DTP_SO_TIME | DTP_SO_UPCOUNT
  | DTP_SO_DOWNCOUNT | DTP_SO_LINK | DTP_NODELAY | DTP_SO_RCVLOBUF | DTP_SO_BINDTODEVICE | DTP_SO_RCVLOWAT
  | DTP_SO_SNDLOWAT | DTP_SO_RCVTIMEO | DTP_SO_SNDTIMEO.

#[export] Instance sockopt_eq_dec : EqDecision sockopt.
Proof. solve_decision. Defined.

Definition SIZEOF_INT : Z := 4.
Definition SIZEOF_RCVLOBUF : Z := 8.  (* struct dtp_rcvlobuf *)

Section env.
Context {env : Env}.

Definition fail_with (e : Z) : M Z := set_errno e;; mret (-1).

Definition dtp_fcntl (socket cmd arg : Z) : M Z :=
  c ← active_ctx socket;
  match c with
  | None => mret (-1)
  | Some ctx =>
    if cmd =? DTP_F_GETFL then x ← getctx ctx; mret (tc_fstatus x)
    else if cmd =? DTP_F_SETFL then (ctx ->> tc_fstatus := arg;; mret 0)
    else mret (-1)
  end.

(** [FIONREAD] is the only request. *)
Definition dtp_ioctl (socket request : Z) : M Z :=
  c ← active_ctx socket;
  match c with
  | None => mret (-1)
  | Some ctx =>
    if request =? FIONREAD then
      x ← getctx ctx;
      if tc_connTimedOut x then fail_with ETIMEDOUT
      else if tc_connReset x then fail_with ECONNRESET
      else mret (GetReadBufDataSize x)
    else mret (-1)
  end.

(** ** Reading an option *)

(** The value [memcpy] takes from the context; [None]: not an option that is read
    this way. *)
Definition option_value (x : dtp_context) (optname : sockopt) : option Z :=
  match optname with
  | DTP_SO_RCVBUF => Some (tc_readBufLen x)
  | DTP_SO_SNDBUF => Some (tc_writeBufLen x)
  | DTP_SO_KEEPALIVE => Some (if tc_isKeepAliveEnabled x then 1 else 0)
  | DTP_KEEPIDLE => Some (tc_keepAliveTime x)
  | DTP_KEEPINTVL => Some (tc_keepAliveIntvl x)
  | DTP_KEEPCNT => Some (tc_keepAliveProbes x)
  | DTP_SO_DEADLINE => Some (tc_deadline x)
  | DTP_SO_BLOCKSIZE => Some (tc_blockSize x)
  | DTP_SO_FLOWID => Some (tc_flowID x)
  | _ => None
  end.

(** The result and what [optval] and [*optlen] hold afterwards. *)
Definition dtp_getsockopt (socket : Z) (optname : sockopt) (optval : bytes) (optlen : Z) : M (Z * (bytes * Z)) :=
  c ← active_ctx socket;
  match c with
  | None => mret (-1, (optval, optlen))
  | Some ctx =>
    x ← getctx ctx;
    if bool_decide (optname = DTP_SO_ACCEPTCONN) then
      mret ((if is_state (tc_state x) SOCK_LISTEN then 1 else 0), (optval, optlen))
    else match option_value x optname with
    | Some v =>
      d ← block_write (Some optval) 0 (le32 v);
      mret (0, (default [] d, SIZEOF_INT))
    | None => r ← fail_with ENOPROTOOPT; mret (r, (optval, optlen))
    end
  end.

(** ** Setting an option *)

Definition int_at (optval : bytes) (off : Z) : M Z :=
  d ← block_read (Some optval) off SIZEOF_INT; mret (i32 (of_le d)).

(** The check of [optlen] most options begin with. *)
Definition with_int (optval : bytes) (optlen : Z) (k : Z → M Z) : M Z :=
  if negb (optlen =? SIZEOF_INT) then fail_with EINVAL else v ← int_at optval 0; k v.

(** [realloc]: a size that is negative as an [int] cannot be allocated; size 0 frees
    the block. *)
Definition c_realloc (old : option bytes) (len : Z) : option bytes :=
  if len <? 0 then None
  else match old with
  | None => Some (malloc_bytes len)
  | Some b => if len =? 0 then None
              else Some (take (Z.to_nat len) (b ++ drop (length b) (malloc_bytes len)))
  end.

(** [FREE_MEM] after a failed [realloc]: a block that [realloc] freed is freed
    again. *)
Definition free_mem (old : option bytes) (len : Z) : M unit :=
  match old with
  | Some _ => if len =? 0 then mfault Undefined else mret tt
  | None => mret tt
  end.

Definition set_rcvbuf (ctx v : Z) : M Z :=
  x ← getctx ctx;
  if u32 v <? tc_rcvLoBufHB x then fail_with EINVAL
  else
    ctx ->> tc_readBufLen := v;;
    match c_realloc (tc_readBuf x) v with
    | None => free_mem (tc_readBuf x) v;; ctx ->> tc_readBuf := None;; fail_with ENOMEM
    | Some ptr => ctx ->> tc_readBuf := Some ptr;; mret 0
    end.

Definition set_sndbuf (ctx v : Z) : M Z :=
  x ← getctx ctx;
  let len := i32 (v * 2) in
  ctx ->> tc_writeBufLen := len;;
  match c_realloc (tc_writeBuf x) len with
  | None => free_mem (tc_writeBuf x) len;; ctx ->> tc_writeBuf := None;; fail_with ENOMEM
  | Some ptr => ctx ->> tc_writeBuf := Some ptr;; mret 0
  end.

(** [if (ctx->tc_deadline > 0 && ctx->tc_blockSize > 0)]: the deadline starts; the
    result is whether it did. *)
Definition start_deadline (ctx : Z) : M bool :=
  x ← getctx ctx;
  if (0 <? tc_deadline x) && (0 <? tc_blockSize x) then
    ctx ->> tc_isDeadlineSet := true;;
    tv ← gettimeofday;
    ctx ->> tc_deadlineTime := mk_timeval (tv_sec tv + tc_deadline x) (tv_usec tv);;
    mret true
  else mret false.

Definition requeue (ctx : Z) : M unit := RemoveFromRetransQueue ctx;; InsertToRetransQueue ctx.

Definition set_blocksize (ctx v : Z) : M Z :=
  ctx ->> tc_blockSize := u32 v;;
  modctx ctx (λ x, let x := x <| tc_blockRemain := tc_blockRemain x +u tc_blockSize x |> in
                   x <| tc_lastBlockRemain := tc_blockRemain x |>);;
  start_deadline ctx;;
  tv ← gettimeofday;
  modctx ctx (λ x, x <| tc_schedAllowTime := 0 |> <| tc_networkTimeLast := d_of_tv tv |>
                     <| tc_blockRemainLast := tc_blockRemain x |>);;
  requeue ctx;;
  mret 0.

Definition set_deadline (ctx v : Z) : M Z :=
  ctx ->> tc_deadline := v;;
  started ← start_deadline ctx;
  if (started : bool) then requeue ctx;; mret 0
  else if v =? 0 then ctx ->> tc_useMobile := true;; requeue ctx;; mret 0
  else fail_with EINVAL.

Definition set_rcvlobuf (ctx : Z) (optval : bytes) (optlen : Z) : M Z :=
  if negb (optlen =? SIZEOF_RCVLOBUF) then fail_with EINVAL
  else
    h ← int_at optval 0; l ← int_at optval 4;
    let highBound := u32 h in
    let lowBound := u32 l in
    x ← getctx ctx;
    if (u32 (tc_readBufLen x) <? highBound) || (highBound <=? lowBound) then fail_with EINVAL
    else (modctx ctx (λ x, x <| tc_rcvLoBufHB := highBound |> <| tc_rcvLoBufLB := lowBound |>);; mret 0).

(** [kernel]: what the [setsockopt] of the system returns for DTP_SO_BINDTODEVICE. *)
Definition dtp_setsockopt (kernel : Z) (socket : Z) (optname : sockopt) (optval : bytes) (optlen : Z) : M Z :=
  c ← active_ctx socket;
  match c with
  | None => mret (-1)
  | Some ctx =>
    match optname with
    | DTP_SO_ACCEPTCONN => fail_with EINVAL
    | DTP_SO_RCVBUF => with_int optval optlen (set_rcvbuf ctx)
    | DTP_SO_SNDBUF => with_int optval optlen (set_sndbuf ctx)
    | DTP_SO_KEEPALIVE => with_int optval optlen (λ v, ctx ->> tc_isKeepAliveEnabled := negb (v =? 0);; mret 0)
    | DTP_KEEPIDLE => with_int optval optlen (λ v, ctx ->> tc_keepAliveTime := v;; mret 0)
    | DTP_KEEPINTVL => with_int optval optlen (λ v, ctx ->> tc_keepAliveIntvl := v;; mret 0)
    | DTP_KEEPCNT => with_int optval optlen (λ v, ctx ->> tc_keepAliveProbes := v;; mret 0)
    | DTP_SO_LINGER => with_int optval optlen (λ v, ctx ->> tc_useLinger := negb (v =? 0);; mret 0)
    | DTP_SO_BINDTODEVICE => mret kernel
    | DTP_SO_BLOCKSIZE => with_int optval optlen (set_blocksize ctx)
    | DTP_SO_DEADLINE => with_int optval optlen (set_deadline ctx)
    | DTP_SO_WIFIONLY =>
      with_int optval optlen (λ v,
        modctx ctx (λ x, x <| tc_isWifiOnly := negb (v =? 0) |> <| tc_useMobile := v =? 0 |>);; mret 0)
    | DTP_SO_RCVLOBUF => set_rcvlobuf ctx optval optlen
    | DTP_NODELAY => mret 0
    | _ => fail_with ENOPROTOOPT
    end
  end.
End env.

(** ** The queue of the timer when a deadline changes *)

(** The queue is sorted but for the place of [c], whose deadline may have changed. *)
Record retq_but (w : world) (c : Z) : Prop := {
  rb_lock : w_timerLock w = false;
  rb_split : ∃ l1 l2, w_retTimerQ w = l1 ++ c :: l2 ∧ StronglySorted (earlier w) (l1 ++ l2);
  rb_live : ∀ c', c' ∈ w_retTimerQ w → is_Some (ctx_at w c');
  rb_nodup : NoDup (w_retTimerQ w) }.

Lemma NoDup_middle_ne {A} (c c' : A) l1 l2 : NoDup (l1 ++ c :: l2) → c' ∈ l1 ++ l2 → c' ≠ c.
Proof.
  intros (_ & H1 & H2)%NoDup_app Hc' E. subst c'. apply NoDup_cons in H2 as [H2 _].
  apply elem_of_app in Hc' as [?|?]; [|done]. eapply H1; [done|left].
Qed.

Lemma sorted_drop (w w' : world) c l1 l2 :
  (∀ c', c' ≠ c → deadline_of w' c' = deadline_of w c') → NoDup (l1 ++ c :: l2) →
  StronglySorted (earlier w) (l1 ++ c :: l2) → StronglySorted (earlier w') (l1 ++ l2).
Proof.
  intros Hd. induction l1 as [|a l1 IH]; simpl; intros Hn Hs; inversion_clear Hs as [|? ? Hs' Ha].
  - apply NoDup_cons in Hn as [Hc Hn]. induction l2 as [|b l2 IHl]; [constructor|].
    inversion_clear Hs' as [|? ? Hs2 Hb]. inversion_clear Ha as [|? ? _ Ha2].
    constructor; [apply IHl; [set_solver|by apply NoDup_cons in Hn as [_ ?]|done|done]|].
    rewrite Forall_forall in Hb |- *. intros c' Hc'. unfold earlier. rewrite !Hd by set_solver. by apply Hb.
  - apply NoDup_cons in Hn as [Hna Hn]. constructor; [by apply IH|].
    rewrite Forall_forall in Ha |- *. intros c' Hc'. unfold earlier.
    pose proof (NoDup_middle_ne _ _ _ _ Hn Hc').
    assert (a ≠ c) by set_solver. rewrite !Hd by done. apply Ha. set_solver.
Qed.

(** The connection was changed, its deadline included. *)
Lemma retq_but_local w w' c p x :
  retq_ok w → c ∈ w_retTimerQ w → local_to c p w w' → ctx_at w' c = Some x → retq_but w' c.
Proof.
  intros [Hl Hs Hv Hn] Hin [E Ho _] Hx. assert (Eq : w_retTimerQ w' = w_retTimerQ w) by (by rewrite E).
  apply list_elem_of_split in Hin as (l1 & l2 & El). constructor; rewrite ?Eq; [by rewrite E| | |done].
  - exists l1, l2. split; [done|]. rewrite El in Hs, Hn. eapply sorted_drop; [|done|done].
    intros c' Hc'. unfold deadline_of. by rewrite Ho.
  - intros c' Hc'. destruct (decide (c' = c)) as [->|]; [by eexists|]. rewrite Ho by done. by apply Hv.
Qed.

Section requeue.
Context {env : Env}.

Lemma list_remove_middle (c : Z) l1 l2 : NoDup (l1 ++ c :: l2) → list_remove c (l1 ++ c :: l2) = Some (l1 ++ l2).
Proof using. intros (_ & Hd & _)%NoDup_app. apply list_remove_split. intros Hin. apply (Hd c Hin). by left. Qed.

Lemma requeue_spec w c x :
  retq_but w c → ctx_at w c = Some x →
  wp (requeue c) (λ _ w', retq_ok w' ∧ (∀ c', c' ∈ w_retTimerQ w' ↔ c' ∈ w_retTimerQ w) ∧
    w' = w <| w_retTimerQ := w_retTimerQ w' |>) w.
Proof using.
  intros [Hl (l1 & l2 & E & Hs) Hv Hn] Hx. unfold requeue, RemoveFromRetransQueue. apply wp_bind.
  apply wp_bind, wp_timer_lock; [done|]. apply wp_bind, wp_gets. change (w_retTimerQ _) with (w_retTimerQ w) at 1.
  rewrite E in *. apply wp_bind. eapply wp_tailq_remove; [by apply list_remove_middle|].
  apply wp_bind, wp_modify, wp_modify. rewrite lock_round by done. set (w1 := set w_retTimerQ _ w).
  assert (Hc : c ∉ l1 ++ l2) by (intros Hin; by apply (NoDup_middle_ne c c l1 l2 Hn Hin)).
  assert (Hq1 : retq_ok w1).
  { constructor; [done|exact Hs| |]; cbn.
    - intros c' Hc'. apply Hv. set_solver.
    - apply NoDup_app in Hn as (? & H1 & H2). apply NoDup_cons in H2 as [? ?]. apply NoDup_app.
      split_and!; [done| |done]. intros y Hy Hy2. apply (H1 y Hy). by right. }
  eapply wp_mono; [by apply (InsertToRetransQueue_spec w1 c x)|].
  intros _ w2 (Hq2 & m1 & m2 & Em & -> & _ & _). cbn in Em. split_and!; [done| |by destruct w].
  intros c'. cbn. assert (c' ∈ l1 ++ l2 ↔ c' ∈ m1 ++ m2) by (by rewrite Em). set_solver.
Qed.
End requeue.

(** ** What the calls do *)

Lemma le32_u32 v : le32 (u32 v) = le32 v.
Proof.
  unfold le32, u32, u8. change (2 ^ 32) with 4294967296. change (2 ^ 8) with 256.
  change (2 ^ 16) with 65536. change (2 ^ 24) with 16777216.
  assert (H1 : v mod 4294967296 mod 256 = v mod 256) by (Z.div_mod_to_equations; lia).
  assert (H2 : v mod 4294967296 / 256 mod 256 = v / 256 mod 256) by (Z.div_mod_to_equations; lia).
  assert (H3 : v mod 4294967296 / 65536 mod 256 = v / 65536 mod 256) by (Z.div_mod_to_equations; lia).
  assert (H4 : v mod 4294967296 / 16777216 mod 256 = v / 16777216 mod 256) by (Z.div_mod_to_equations; lia).
  by rewrite H1, H2, H3, H4.
Qed.

Lemma int_of_le32 v : is_i32 v → i32 (of_le (le32 v)) = v.
Proof.
  intros Hv. rewrite <- le32_u32, of_le32 by apply u32_range. unfold is_i32 in Hv.
  unfold i32, u32. Z.div_mod_to_equations. lia.
Qed.

Section calls.
Context {env : Env}.

Lemma with_int_spec v k (Q : Z → world → Prop) w :
  is_i32 v → wp (k v) Q w → wp (with_int (le32 v) SIZEOF_INT k) Q w.
Proof using.
  intros Hv Hk. unfold with_int. rewrite Z.eqb_refl. cbn [negb]. apply wp_bind. unfold int_at.
  apply wp_bind, wp_block_read; [done..|]. apply wp_ret.
  change (zslice 0 SIZEOF_INT (le32 v)) with (le32 v). by rewrite int_of_le32.
Qed.

(** The deadline starts now. *)
Definition deadline_started (w : world) (x : dtp_context) : dtp_context :=
  let tv := env_clock (w_nclock w) in
  x <| tc_isDeadlineSet := true |> <| tc_deadlineTime := mk_timeval (tv_sec tv + tc_deadline x) (tv_usec tv) |>.

Lemma start_deadline_spec w c x (Q : bool → world → Prop) :
  ctx_at w c = Some x →
  (∀ w', let go := (0 <? tc_deadline x) && (0 <? tc_blockSize x) in
     local_to c 0 w w' → ctx_at w' c = Some (if go then deadline_started w x else x) → Q go w') →
  wp (start_deadline c) Q w.
Proof using.
  intros Hx HQ. unfold start_deadline. apply wp_bind. eapply wp_getctx; [done|].
  destruct (_ && _); cbn zeta in HQ; [|apply wp_ret, HQ; [reflexivity|done]].
  apply wp_bind. eapply wp_modctx; [done|]. apply wp_bind. unfold wp at 1, gettimeofday. cbv beta iota.
  apply wp_bind. eapply wp_modctx; [by eapply ctx_at_put|]. apply wp_ret, HQ.
  - constructor; [by destruct w| |done]. intros c' Hc'. rewrite ctx_at_put_ne by done.
    change (ctx_at (w <| w_ctxs ::= <[c := x <| tc_isDeadlineSet := true |>]> |>) c' = ctx_at w c').
    by apply ctx_at_put_ne.
  - by erewrite ctx_at_put by (by eapply ctx_at_put).
Qed.

(** C35: Setting a deadline keeps the earliest-deadline-first order.  On a connection
    with a block size, [dtp_setsockopt] (DTP_SO_DEADLINE) stores the deadline, starts
    it now and moves the connection to its place in the queue of the timer, which
    is sorted by deadline again and holds the same connections; deadline 0 allows
    the mobile network.  Without a block size, and for a negative value, the call
    fails with EINVAL although it has stored the value. *)
Theorem deadline_keeps_order kernel w c x v :
  sock_ok c x → ctx_at w c = Some x → tc_isActive x = true → is_i32 v → retq_ok w → c ∈ w_retTimerQ w →
  wp (dtp_setsockopt kernel c DTP_SO_DEADLINE (le32 v) SIZEOF_INT) (λ r w', ∃ x', ctx_at w' c = Some x' ∧
    tc_deadline x' = v ∧ (∀ c', c' ∈ w_retTimerQ w' ↔ c' ∈ w_retTimerQ w) ∧
    if (0 <? v) && (0 <? tc_blockSize x) then
      r = 0 ∧ retq_ok w' ∧ tc_isDeadlineSet x' = true ∧
      tv_sec (tc_deadlineTime x') = tv_sec (env_clock (w_nclock w)) + v
    else if v =? 0 then r = 0 ∧ retq_ok w' ∧ tc_useMobile x' = true
    else r = -1 ∧ w_errno w' = EINVAL) w.
Proof using.
  intros Hso Hx Ha Hv Hq Hin. unfold dtp_setsockopt. apply wp_bind. eapply active_ctx_spec; [done..|].
  apply with_int_spec; [done|]. unfold set_deadline. apply wp_bind. eapply wp_modctx; [done|].
  set (x1 := set tc_deadline _ x). set (w1 := set w_ctxs _ w).
  assert (Hx1 : ctx_at w1 c = Some x1) by (by eapply ctx_at_put).
  apply wp_bind. eapply start_deadline_spec; [done|]. cbn zeta. intros w2 L2 Hx2.
  change (tc_deadline x1) with v in Hx2 |- *. change (tc_blockSize x1) with (tc_blockSize x) in Hx2 |- *.
  assert (L12 : local_to c 0 w w2) by (etrans; [apply local_ctx|exact L2]).
  destruct ((0 <? v) && (0 <? tc_blockSize x)) eqn:Hgo.
  - apply wp_bind. eapply wp_mono; [eapply requeue_spec; [by eapply retq_but_local|done]|].
    intros _ w3 (Hq3 & He & E3). apply wp_ret. exists (deadline_started w1 x1).
    split_and!; [rewrite E3; exact Hx2|done| |done|done|done|done].
    intros c'. rewrite He. destruct L12 as [-> _ _]. done.
  - destruct (Z.eqb_spec v 0) as [->|Hne].
    + apply wp_bind. eapply wp_modctx; [done|]. set (x3 := set tc_useMobile _ x1). set (w3 := set w_ctxs _ w2).
      assert (Hx3 : ctx_at w3 c = Some x3) by (by eapply ctx_at_put).
      assert (L3 : local_to c 0 w w3) by (etrans; [exact L12|apply local_ctx]).
      apply wp_bind. eapply wp_mono; [eapply requeue_spec; [by eapply retq_but_local|done]|].
      intros _ w4 (Hq4 & He & E4). apply wp_ret. exists x3.
      split_and!; [rewrite E4; exact Hx3|done| |done|done|done].
      intros c'. rewrite He. destruct L3 as [-> _ _]. done.
    + apply wp_bind, io_set_errno. intros w3 Hio Hs He. apply wp_ret. exists x1.
      split_and!; [by rewrite (io_ctx _ _ c Hio)|done| |done|done].
      intros c'. destruct Hio as [->], L12 as [-> _ _]. done.
Qed.

(** What [dtp_getsockopt] is to read after [dtp_setsockopt] with [v], for the options
    that keep it in a field; the write buffer gets twice the size. *)
Definition stored (optname : sockopt) (v : Z) : option Z :=
  match optname with
  | DTP_SO_SNDBUF => Some (v * 2)
  | DTP_SO_KEEPALIVE => Some (if v =? 0 then 0 else 1)
  | DTP_SO_RCVBUF | DTP_KEEPIDLE | DTP_KEEPINTVL | DTP_KEEPCNT => Some v
  | _ => None
  end.

(** The sizes a buffer can be given. *)
Definition size_fits (x : dtp_context) (optname : sockopt) (v : Z) : Prop :=
  match optname with
  | DTP_SO_RCVBUF => 0 < v ∧ tc_rcvLoBufHB x ≤ v
  | DTP_SO_SNDBUF => 0 < v < 2 ^ 30
  | _ => True
  end.

Lemma c_realloc_some old len : 0 < len → is_Some (c_realloc old len).
Proof using.
  intros Hl. unfold c_realloc. rewrite (proj2 (Z.ltb_ge _ _)), (proj2 (Z.eqb_neq _ _)) by lia.
  destruct old; by eexists.
Qed.

Lemma setsockopt_stored kernel w c x opt v s :
  sock_ok c x → ctx_at w c = Some x → tc_isActive x = true → is_i32 v → stored opt v = Some s → size_fits x opt v →
  wp (dtp_setsockopt kernel c opt (le32 v) SIZEOF_INT) (λ r w', r = 0 ∧ ∃ x', ctx_at w' c = Some x' ∧
    sock_ok c x' ∧ tc_isActive x' = true ∧ option_value x' opt = Some s ∧ opt ≠ DTP_SO_ACCEPTCONN) w.
Proof using.
  intros Hso Hx Ha Hv Hst Hfit. unfold dtp_setsockopt. apply wp_bind. eapply active_ctx_spec; [done..|].
  destruct Hso as [Hso1 Hso2].
  destruct opt; simpl in Hst; try discriminate; injection Hst as <-; (apply with_int_spec; [done|]).
  - destruct Hfit as [Hpos Hhb]. unfold set_rcvbuf. apply wp_bind. eapply wp_getctx; [done|].
    rewrite u32_small by (unfold is_u32, is_i32 in *; lia). rewrite (proj2 (Z.ltb_ge _ _)) by done.
    apply wp_bind. eapply wp_modctx; [done|]. destruct (c_realloc_some (tc_readBuf x) v Hpos) as [b ->].
    apply wp_bind. eapply wp_modctx; [by eapply ctx_at_put|]. apply wp_ret. split; [done|].
    eexists. split; [by eapply ctx_at_put, ctx_at_put|]. done.
  - simpl in Hfit. unfold set_sndbuf. apply wp_bind. eapply wp_getctx; [done|].
    rewrite i32_small by (unfold is_i32; lia).
    apply wp_bind. eapply wp_modctx; [done|]. destruct (c_realloc_some (tc_writeBuf x) (v * 2) ltac:(lia)) as [b ->].
    apply wp_bind. eapply wp_modctx; [by eapply ctx_at_put|]. apply wp_ret. split; [done|].
    eexists. split; [by eapply ctx_at_put, ctx_at_put|]. done.
  - apply wp_bind. eapply wp_modctx; [done|]. apply wp_ret. split; [done|]. eexists. split; [by eapply ctx_at_put|].
    split_and!; [done|done|cbn; by destruct (v =? 0)|done].
  - apply wp_bind. eapply wp_modctx; [done|]. apply wp_ret. split; [done|]. eexists. by split; [eapply ctx_at_put|].
  - apply wp_bind. eapply wp_modctx; [done|]. apply wp_ret. split; [done|]. eexists. by split; [eapply ctx_at_put|].
  - apply wp_bind. eapply wp_modctx; [done|]. apply wp_ret. split; [done|]. eexists. by split; [eapply ctx_at_put|].
Qed.

(** An option is read back as it was set.  For the buffer sizes and the keep-alive
    options, [dtp_getsockopt] after [dtp_setsockopt] succeeds and writes the stored
    value to the memory of the caller: the value itself, the truth value for
    DTP_SO_KEEPALIVE, and twice the size for DTP_SO_SNDBUF. *)
Lemma sockopt_read_back kernel w c x opt v s buf len :
  sock_ok c x → ctx_at w c = Some x → tc_isActive x = true → is_i32 v → stored opt v = Some s → size_fits x opt v →
  SIZEOF_INT ≤ zlen buf →
  wp (r ← dtp_setsockopt kernel c opt (le32 v) SIZEOF_INT; g ← dtp_getsockopt c opt buf len; mret (r, g))
    (λ res _, res = (0, (0, (zsplice 0 (le32 s) buf, SIZEOF_INT)))) w.
Proof using.
  intros Hso Hx Ha Hv Hst Hfit Hl. apply wp_bind. eapply wp_mono; [by eapply setsockopt_stored|].
  intros r w1 (-> & x1 & Hx1 & Hso1 & Ha1 & Hov & Hne). unfold dtp_getsockopt. apply wp_bind, wp_bind.
  eapply active_ctx_spec; [done..|]. apply wp_bind. eapply wp_getctx; [done|].
  rewrite bool_decide_eq_false_2 by done. rewrite Hov.
  apply wp_bind, wp_block_write; [done|exact Hl|]. apply wp_ret. by apply wp_ret.
Qed.
End calls.

(** ** The scenario *)

Lemma conn_sock : sock_ok 5 conn.
Proof. constructor; eval_facts. Qed.

Example sockopt_read_back_witness :
  wp (r ← dtp_setsockopt 0 5 DTP_SO_SNDBUF (le32 20000) SIZEOF_INT; g ← dtp_getsockopt 5 DTP_SO_SNDBUF (zeros 4) 0; mret (r, g))
    (λ res _, res = (0, (0, (zsplice 0 (le32 40000) (zeros 4), SIZEOF_INT)))) (host conn).
Proof.
  apply (sockopt_read_back 0 (host conn) 5 conn DTP_SO_SNDBUF 20000 40000 (zeros 4) 0);
    [apply conn_sock|apply host_ctx|eval_facts|eval_facts|reflexivity|simpl; lia|eval_facts].
Defined.

(** A connection with a block of 1 MB and no deadline yet. *)
Definition conn_block : dtp_context := conn <| tc_blockSize := 1048576 |>.

Example deadline_keeps_order_witness :
  wp (dtp_setsockopt 0 5 DTP_SO_DEADLINE (le32 600) SIZEOF_INT) (λ r w', ∃ x', ctx_at w' 5 = Some x' ∧
    tc_deadline x' = 600 ∧ (∀ c', c' ∈ w_retTimerQ w' ↔ c' ∈ w_retTimerQ (host conn_block)) ∧
    r = 0 ∧ retq_ok w' ∧ tc_isDeadlineSet x' = true ∧
    tv_sec (tc_deadlineTime x') = tv_sec (env_clock (w_nclock (host conn_block))) + 600) (host conn_block).
Proof.
  apply (deadline_keeps_order 0 (host conn_block) 5 conn_block 600);
    [constructor; eval_facts|apply host_ctx|eval_facts|eval_facts|apply host_queue|]. apply elem_of_cons. by left.
Defined.

(** A negative receive buffer frees the buffer of an open connection; the next
    segment is copied through a NULL pointer. *)
Example negative_rcvbuf_crashes :
  (dtp_setsockopt 0 5 DTP_SO_RCVBUF (le32 (-1)) SIZEOF_INT;;
   HandleNormalPacket 5 (put_doff 5 (zeros DTPHDRSIZE) ++ [1; 2; 3]) 3) (host conn) = Err NullDeref.
Proof. vm_compute. reflexivity. Qed.

(** A receive buffer of size 0 frees the buffer twice. *)
Example zero_rcvbuf_double_free :
  dtp_setsockopt 0 5 DTP_SO_RCVBUF (le32 0) SIZEOF_INT (host conn) = Err Undefined.
Proof. vm_compute. reflexivity. Qed.
