(* ===== verification/Log.v ===== *)
(** * Statistics of a connection (dtp_log.c)

    The application stores how long a transfer has taken on which network and how many bytes
    went each way, and reads the figures back.  The locks around the single assignments are
    never held elsewhere. *)

From S2P Require Import Prelude Double Header Context World ContextTable Select Lifecycle Scenario Socket Delivery Options.

(** Milliseconds; [/] truncates. *)
Definition ms_of (tv : timeval) : Z := tv_sec tv * 1000 + Z.quot (tv_usec tv) 1000.

(** [if (ctx) { ...; return 0; } return -1;] *)
Definition log_set (socket : Z) (f : dtp_context → dtp_context) : M Z :=
  c ← DTPGetContextBySocket socket;
  match c with
  | Some ctx => modctx ctx f;; mret 0
  | None => mret (-1)
  end.

Definition SetTime (socket : Z) (tv : timeval) : M Z :=
  log_set socket (λ x, let t := ms_of tv - ms_of (tc_startTime x) in
    if tc_isClientMobile x then x <| tc_mobileTime := t |> <| tc_wifiTime := 0 |>
    else x <| tc_mobileTime := 0 |> <| tc_wifiTime := t |>).

(** An [int] is stored in a [uint32_t]. *)
Definition SetUpByteCount (socket byte : Z) : M Z := log_set socket (λ x, x <| tc_upByte := u32 byte |>).
Definition SetDownByteCount (socket byte : Z) : M Z := log_set socket (λ x, x <| tc_downByte := u32 byte |>).

Definition dtp_getflowid (socket : Z) : M Z :=
  c ← DTPGetContextBySocket socket;
  match c with Some ctx => x ← getctx ctx; mret (tc_flowID x) | None => mret (u32 (-1)) end.

Definition dtp_gethostid (socket : Z) : M (option bytes) :=
  c ← DTPGetContextBySocket socket;
  match c with Some ctx => x ← getctx ctx; mret (Some (tc_hostID x)) | None => mret None end.

Definition le64 (v : Z) : bytes := le32 v ++ le32 (Z.shiftr v 32).

(** The value of the [switch] and its bytes. *)
Definition log_value (x : dtp_context) (optname : sockopt) : option bytes :=
  match optname with
  | DTP_UPBYTE => Some (le32 (tc_upByte x))
  | DTP_DOWNBYTE => Some (le32 (tc_downByte x))
  | DTP_MOBILETIME => Some (le64 (tc_mobileTime x))
  | DTP_WIFITIME => Some (le64 (tc_wifiTime x))
  | _ => None
  end.

(** The context is used without a check for NULL. *)
Definition dtp_getsocklog (socket : Z) (optname : sockopt) (optval : bytes) (optlen : Z) : M (Z * (bytes * Z)) :=
  c ← DTPGetContextBySocket socket;
  match c with
  | None => mfault NullDeref
  | Some ctx =>
    x ← getctx ctx;
    if negb (tc_isActive x) then r ← fail_with EBADF; mret (r, (optval, optlen))
    else match log_value x optname with
    | Some v => d ← block_write (Some optval) 0 v; mret (0, (default [] d, zlen v))
    | None => r ← fail_with ENOPROTOOPT; mret (r, (optval, optlen))
    end
  end.

(** ** What is stored is what is read *)

Lemma log_set_spec c x f w : sock_ok c x → ctx_at w c = Some x →
  wp (log_set c f) (λ r w', r = 0 ∧ w' = w <| w_ctxs ::= <[c := f x]> |>) w.
Proof.
  intros Hs Hx. apply wp_bind. eapply get_ctx_by_socket; [exact Hs|]. apply wp_bind. eapply wp_modctx; [exact Hx|]. by apply wp_ret.
Qed.

Lemma getsocklog_spec c x optname v buf len w : sock_ok c x → ctx_at w c = Some x → tc_isActive x = true →
  log_value x optname = Some v → zlen v ≤ zlen buf →
  dtp_getsocklog c optname buf len w = Ok ((0, (zsplice 0 v buf, zlen v)), w).
Proof.
  intros Hs Hx Ha Hv Hl.
  assert (H : wp (dtp_getsocklog c optname buf len) (λ r w', (r, w') = ((0, (zsplice 0 v buf, zlen v)), w)) w).
  { apply wp_bind. eapply get_ctx_by_socket; [exact Hs|]. apply wp_bind. eapply wp_getctx; [exact Hx|].
    rewrite Ha, Hv. cbn [negb]. apply wp_bind, wp_block_write; [lia|lia|]. by apply wp_ret. }
  destruct (wp_run _ _ _ H) as (r & w' & -> & E). by rewrite E.
Qed.

(** The time of a transfer is stored for the network it used, and zero for the other one. *)
Lemma time_roundtrip c x tv buf len w : sock_ok c x → ctx_at w c = Some x → tc_isActive x = true → 8 ≤ zlen buf →
  let t := ms_of tv - ms_of (tc_startTime x) in
  wp (SetTime c tv;; m ← dtp_getsocklog c DTP_MOBILETIME buf len; n ← dtp_getsocklog c DTP_WIFITIME buf len; mret (m.2.1, n.2.1))
     (λ r _, r = (zsplice 0 (le64 (if tc_isClientMobile x then t else 0)) buf,
                  zsplice 0 (le64 (if tc_isClientMobile x then 0 else t)) buf)) w.
Proof.
  intros Hs Hx Ha Hl t. apply wp_bind. eapply wp_mono; [by eapply log_set_spec|]. cbv beta zeta. set (x1 := if tc_isClientMobile x then _ else _ : dtp_context).
  intros r w1 [-> ->]. set (w1 := set w_ctxs _ w).
  assert (Hx1 : ctx_at w1 c = Some x1) by (by eapply ctx_at_put).
  assert (Hs1 : sock_ok c x1) by (destruct Hs; unfold x1; destruct (tc_isClientMobile x); by split).
  assert (Ha1 : tc_isActive x1 = true) by (unfold x1; destruct (tc_isClientMobile x); done).
  apply wp_bind. unfold wp at 1. rewrite (getsocklog_spec c x1 DTP_MOBILETIME _ buf len w1 Hs1 Hx1 Ha1 eq_refl Hl).
  apply wp_bind. unfold wp at 1. rewrite (getsocklog_spec c x1 DTP_WIFITIME _ buf len w1 Hs1 Hx1 Ha1 eq_refl Hl).
  apply wp_ret. unfold x1. by destruct (tc_isClientMobile x).
Qed.

(** A socket number outside the table: the setters refuse it, [dtp_getsocklog] follows the
    NULL pointer. *)
Example getsocklog_null : SetUpByteCount (-1) 10 (host conn) = Ok (-1, host conn) ∧
  dtp_getsocklog (-1) DTP_UPBYTE (zeros 4) 4 (host conn) = Err NullDeref.
Proof. split; reflexivity. Qed.
