(* ===== verification/Poll.v ===== *)
(** * Waiting for descriptors (dtp_select and dtp_poll of dtp_socket.c)

    [dtp_select] waits for D2TP sockets, whose readiness the library records itself
    (dtp_select.c), and for other descriptors, which it leaves to the [select] of the
    system, at the same time: the library wakes it up over a socket pair whose
    application end [inner_sock] is added to the descriptors of the system.

    [sys_select] is the system call: from the number of descriptors, the sets and the
    timeout it makes the result, the sets, and the world the other threads leave when
    it returns.  A set is the set of the descriptors whose bit is on, [None] a null
    pointer; the object the caller passes has room for [FD_SETSIZE_S] bits. *)

From S2P Require Import Prelude Double Header Context World ContextTable Pools RetransQueue.
From S2P Require Import Select Congestion Lifecycle Send Scenario Services Socket Delivery.

Definition NFDBITS : Z := 64.

(** The [maxidx] words of a set that hold the descriptors below [nfds]. *)
Definition words_for (nfds : Z) : Z := (nfds + NFDBITS - 1) / NFDBITS.
Definition low_words (maxidx : Z) (s : gset Z) : gset Z := filter (λ fd, fd < NFDBITS * maxidx) s.
(** Assign the words below [maxidx]. *)
Definition store_words (maxidx : Z) (new old : gset Z) : gset Z :=
  low_words maxidx new ∪ filter (λ fd, NFDBITS * maxidx ≤ fd) old.

(** The sockets of D2TP among the words asked for, and the other descriptors. *)
Definition split_words (maxidx : Z) (dtp_filter s : gset Z) : gset Z * gset Z :=
  (low_words maxidx (s ∩ dtp_filter), low_words maxidx (s ∖ dtp_filter)).

Definition fd_sets : Type := option (gset Z) * option (gset Z).

(** How the wait of [dtp_select] ends: it returns [ret], after clearing the sets of
    the caller when [zero]; or it goes on to report the descriptors found. *)
Inductive waited :=
  | Stop (ret : Z) (zero : bool)
  | Found (count_dtp count_tcp : Z) (dtpHasAnyEvent : bool) (dtp : fd_sets) (rd_tcp wr_tcp : gset Z).

(** ** Sets of descriptors below a bound *)

Definition below (nfds : Z) (s : gset Z) : Prop := ∀ fd, fd ∈ s → 0 ≤ fd < nfds.

Lemma below_sub nfds s s' : below nfds s' → s ⊆ s' → below nfds s.
Proof. intros Hb Hs fd Hin. apply Hb. set_solver. Qed.

Lemma below_le n n' s : n ≤ n' → below n s → below n' s.
Proof. intros Hn Hb fd Hin. specialize (Hb fd Hin). lia. Qed.

Lemma words_cover nfds : nfds ≤ NFDBITS * words_for nfds.
Proof. unfold words_for, NFDBITS. pose proof (Z.div_mod (nfds + 64 - 1) 64). pose proof (Z.mod_pos_bound (nfds + 64 - 1) 64). lia. Qed.

Lemma low_words_below nfds s : below nfds s → low_words (words_for nfds) s = s.
Proof.
  intros Hb. apply set_eq. intros fd. unfold low_words. rewrite elem_of_filter.
  pose proof (words_cover nfds). split; [tauto|]. intros Hin. specialize (Hb fd Hin). split; [lia|done].
Qed.

Lemma store_words_below nfds new old :
  below nfds new → below nfds old → store_words (words_for nfds) new old = new.
Proof.
  intros Hn Ho. unfold store_words. rewrite low_words_below by done. apply set_eq. intros fd.
  rewrite elem_of_union, elem_of_filter. pose proof (words_cover nfds).
  split; [|auto]. intros [?|[? Hin]]; [done|]. specialize (Ho fd Hin). lia.
Qed.

Lemma kept_below nfds p s : below nfds s → kept 0 nfds p s = s ∩ p.
Proof.
  intros Hb. apply set_eq. intros fd. unfold kept. rewrite elem_of_filter, elem_of_intersection.
  specialize (Hb fd). tauto.
Qed.

Lemma ready_below nfds p s : below nfds s → ready 0 nfds p s = s ∩ p.
Proof.
  intros Hb. apply set_eq. intros fd. unfold ready. rewrite elem_of_filter, elem_of_intersection.
  specialize (Hb fd). tauto.
Qed.

Lemma split_below nfds dtp_filter s :
  below nfds s → split_words (words_for nfds) dtp_filter s = (s ∩ dtp_filter, s ∖ dtp_filter).
Proof. intros Hb. unfold split_words. rewrite !low_words_below by (eapply below_sub; [done|set_solver]). done. Qed.

(** ** Runs that may wait for ever

    [wlp m Q w]: [m] returns with [Q], or waits until the model gives up on it. *)

Definition wlp {A} (m : M A) (Q : A → world → Prop) (w : world) : Prop :=
  match m w with Ok (a, w') => Q a w' | Err f => f = Spin end.

Lemma wlp_wp {A} (m : M A) Q w : wp m Q w → wlp m Q w.
Proof. unfold wp, wlp. by destruct (m w) as [[]|]. Qed.

Lemma wlp_bind {A B} (m : M A) (k : A → M B) Q w : wlp m (λ a, wlp (k a) Q) w → wlp (m ≫= k) Q w.
Proof. unfold wlp, mbind, M_bind. by destruct (m w) as [[a w']|]. Qed.

Lemma wlp_step {A B} (m : M A) (k : A → M B) Q w : wp m (λ a, wlp (k a) Q) w → wlp (m ≫= k) Q w.
Proof. intros H. by apply wlp_bind, wlp_wp. Qed.

Lemma wlp_eq {A} (m m' : M A) Q w w' : m w = m' w' → wlp m' Q w' → wlp m Q w.
Proof. unfold wlp. by intros ->. Qed.

Lemma wlp_mono {A} (m : M A) (Q Q' : A → world → Prop) w :
  wlp m Q w → (∀ a w', Q a w' → Q' a w') → wlp m Q' w.
Proof. unfold wlp. destruct (m w) as [[a w']|]; [|done]. eauto. Qed.

Section select.
Context {env : Env}.
Context (sys_select : Z → option (gset Z) → option (gset Z) → option timeval → world →
                      Z * fd_sets * world).
(** What the local sets hold before they are assigned. *)
Context (junk : gset Z).

Definition select (nfds : Z) (rd wr : option (gset Z)) (timeout : option timeval) : M (Z * fd_sets) :=
  λ w, Ok (sys_select nfds rd wr timeout w).

(** [for (i = 0; i < nfds; i++)]: the sockets asked for get the end of the socket pair,
    and the library is told to watch them; [false]: [return -1]. *)
Fixpoint monitor (k : nat) (i : Z) (readfds : option (gset Z)) : M bool :=
  match k with
  | O => mret true
  | S k =>
    b ← dtp_isdtpsocket i;
    asked ← (if (b : bool) then
               match readfds with Some s => FD_ISSET_S i s | None => mfault NullDeref end
             else mret false);
    if (asked : bool) then
      c ← DTPGetContextBySocket i;
      match c with
      | None => mret false
      | Some ctx =>
        inner_sock ← gets w_inner_sock;
        ctx ->> tc_isock := inner_sock;;
        x ← getctx ctx;
        mwhen ((tc_sock x =? i) && negb (tc_beingMonitored x))
          (ctx ->> tc_beingMonitored := true;;
           DTPSendEventToLibThread inner_sock (mk_event (tc_sock x) DTP_ADD_LISTEN_EVENT));;
        monitor k (i + 1) readfds
      end
    else monitor k (i + 1) readfds
  end.

(** [read(inner_sock, &ev, sizeof(ev))], without blocking: the oldest event the library
    wrote to its end; whether there was one. *)
Definition read_event : M bool :=
  s ← gets w_select_sock;
  evs ← gets (λ w, events_at w s);
  match evs with
  | [] => set_errno EAGAIN;; mret false
  | _ :: evs => modify (λ w, w <| w_events ::= <[s := evs]> |>);; mret true
  end.

(** [while ((res = read(inner_sock, &ev, sizeof(ev))) > 0);] with [errno] saved and
    restored. *)
Definition flush_inner : M unit :=
  modify (λ w, w <| w_events ::= <[w_select_sock w := []]> |>).

(** The [while (1)] loop.  An iteration begins with the sets asked for (the copies
    [.._temp]); [wakes] is how often it may go round before the model gives up on it. *)
Fixpoint wait_loop (wakes : nat) (nfds count_dtp : Z) (dtp : fd_sets) (rd_tcp wr_tcp : option (gset Z))
    (timeout : option timeval) : M waited :=
  match wakes with
  | O => mfault Spin
  | S wakes =>
    inner_sock ← gets w_inner_sock;
    readfds_tcp ← FD_SET_S inner_sock (default ∅ rd_tcp);
    let nfds := if nfds <=? inner_sock then inner_sock + 1 else nfds in
    DTPSelectInit nfds (default junk dtp.1) (default junk dtp.2);;
    r ← select nfds (if rd_tcp then Some readfds_tcp else None) wr_tcp timeout;
    let '(count_tcp, (rd, wr)) := r in
    if (count_tcp =? 0) || (count_tcp =? -1) then
      flush_inner;; DTPSelectClear;; mret (Stop count_tcp true)
    else
      let readfds_tcp := default readfds_tcp rd in
      let writefds_tcp := default ∅ wr in
      b ← FD_ISSET_S inner_sock readfds_tcp;
      if (b : bool) then
        ok ← read_event;
        if negb ok then DTPSelectClear;; mret (Stop (-1) false)
        else
          let count_tcp := count_tcp - 1 in
          readfds_tcp ← FD_CLR_S inner_sock readfds_tcp;
          e ← DTPSelectCheckAnyPendingEvent nfds dtp.1 dtp.2;
          let '(count_dtp, rd_dtp, wr_dtp) := e in
          if (0 <? count_tcp) || (0 <? count_dtp) then
            DTPSelectClear;;
            mret (Found count_dtp count_tcp (0 <? count_dtp) (rd_dtp, wr_dtp) readfds_tcp writefds_tcp)
          else wait_loop wakes nfds count_dtp dtp rd_tcp wr_tcp timeout
      else if (0 <? count_tcp) || (0 <? count_dtp) then
        DTPSelectClear;;
        mret (Found count_dtp count_tcp false dtp readfds_tcp writefds_tcp)
      else wait_loop wakes nfds count_dtp dtp rd_tcp wr_tcp timeout
  end.

(** The words of a set of the caller at the end. *)
Definition merge_words (maxidx : Z) (dtpHasAnyEvent : bool) (user dtp : option (gset Z)) (tcp : gset Z)
  : option (gset Z) :=
  (λ s, store_words maxidx (if dtpHasAnyEvent then default ∅ dtp ∪ tcp else tcp) s) <$> user.

Definition finish_select (maxidx : Z) (readfds writefds : option (gset Z)) (r : waited) : Z * fd_sets :=
  match r with
  | Stop ret zero =>
    (ret, if (zero : bool) then ((λ _, ∅) <$> readfds, (λ _, ∅) <$> writefds) else (readfds, writefds))
  | Found count_dtp count_tcp has dtp rt wt =>
    (if has then count_dtp + count_tcp else count_tcp,
     (merge_words maxidx has readfds dtp.1 rt, merge_words maxidx has writefds dtp.2 wt))
  end.

(** The result, and what the sets of the caller hold afterwards; [exceptfds]: the
    pointer is not null. *)
Definition dtp_select (wakes : nat) (nfds : Z) (readfds writefds : option (gset Z)) (exceptfds : bool)
    (timeout : option timeval) : M (Z * fd_sets) :=
  if exceptfds then mret (-1, (readfds, writefds))
  else if nfds <? 0 then (set_errno EINVAL;; mret (-1, (readfds, writefds)))
  else
    ensure_thread;;
    ok ← monitor (Z.to_nat nfds) 0 readfds;
    if negb ok then mret (-1, (readfds, writefds))
    else
      let maxidx := words_for nfds in
      dtp_filter ← DTPGetFdSet;
      let rd := split_words maxidx dtp_filter <$> readfds in
      let wr := split_words maxidx dtp_filter <$> writefds in
      e ← DTPSelectCheckAnyPendingEvent nfds (fst <$> rd) (fst <$> wr);
      let '(count_dtp, rd_dtp, wr_dtp) := e in
      r ← (if 0 <? count_dtp then
             s ← select nfds (snd <$> rd) (snd <$> wr) (Some (mk_timeval 0 0));
             let '(count_tcp, (rt, wt)) := s in
             mret (Found count_dtp count_tcp true (rd_dtp, wr_dtp) (default ∅ rt) (default ∅ wt))
           else wait_loop wakes nfds count_dtp (fst <$> rd, fst <$> wr) (snd <$> rd) (snd <$> wr) timeout);
      mret (finish_select maxidx readfds writefds r).

(** ** Polling *)

Definition POLLIN : Z := 1.
Definition POLLOUT : Z := 4.

Record pollfd := mk_pollfd { pfd : Z; pfd_events : Z; pfd_revents : Z }.

(** The loop that makes the sets: [None] for [return -1] with EINVAL. *)
Fixpoint poll_sets (fds : list pollfd) (val : Z) (rdset wrset : gset Z) : M (option (Z * gset Z * gset Z)) :=
  match fds with
  | [] => mret (Some (val, rdset, wrset))
  | p :: fds =>
    let fd := pfd p in
    let val := if val <? fd then fd else val in
    if FD_SETSIZE_S <=? u32 fd then (set_errno EINVAL;; mret None)
    else
      rdset ← (if flag_set (pfd_events p) POLLIN then FD_SET_S fd rdset else mret rdset);
      wrset ← (if flag_set (pfd_events p) POLLOUT then FD_SET_S fd wrset else mret wrset);
      poll_sets fds val rdset wrset
  end.

(** The loop that stores the results. *)
Fixpoint poll_results (fds : list pollfd) (rdset wrset : gset Z) : M (list pollfd) :=
  match fds with
  | [] => mret []
  | p :: fds =>
    r ← FD_ISSET_S (pfd p) rdset;
    w ← FD_ISSET_S (pfd p) wrset;
    fds ← poll_results fds rdset wrset;
    mret (mk_pollfd (pfd p) (pfd_events p)
            (Z.lor (if (r : bool) then POLLIN else 0) (if (w : bool) then POLLOUT else 0)) :: fds)
  end.

(** [div (timeout, 1000)] *)
Definition poll_timeout (timeout : Z) : option timeval :=
  if 0 <=? timeout then Some (mk_timeval (Z.quot timeout 1000) (Z.rem timeout 1000 * 1000)) else None.

(** The result and the array. *)
Definition dtp_poll (wakes : nat) (fds : list pollfd) (timeout : Z) : M (Z * list pollfd) :=
  s ← poll_sets fds (-1) ∅ ∅;
  match s with
  | None => mret (-1, fds)
  | Some (val, rdset, wrset) =>
    r ← dtp_select wakes (val + 1) (Some rdset) (Some wrset) false (poll_timeout timeout);
    let '(val, (rd, wr)) := r in
    if val =? -1 then mret (-1, fds)
    else (fds ← poll_results fds (default ∅ rd) (default ∅ wr); mret (val, fds))
  end.

(** ** Correctness *)

(** The system call, as documented: it reports some of the descriptors asked for and
    returns how many, or it fails with -1 and leaves the sets as they are; a descriptor
    whose queue is empty is not readable.  The socket pair stays what it is.  It may fail at
    any time, also when it is told not to wait. *)
Definition some_of (s s' : option (gset Z)) : Prop :=
  match s, s' with Some s, Some s' => s ⊆ s' | None, None => True | _, _ => False end.
Definition osize (s : option (gset Z)) : Z := Z.of_nat (size (default ∅ s)).

Record select_ok : Prop := {
  ks_sets nfds rd wr t w : let '(n, (rd', wr'), _) := sys_select nfds rd wr t w in
    some_of rd' rd ∧ some_of wr' wr;
  ks_count nfds rd wr t w : let '(n, (rd', wr'), _) := sys_select nfds rd wr t w in
    n = -1 ∨ n = osize rd' + osize wr';
  ks_fails nfds rd wr t w : let '(n, sets, _) := sys_select nfds rd wr t w in n = -1 → sets = (rd, wr);
  ks_inner nfds rd wr t w : let '(n, (rd', wr'), w') := sys_select nfds rd wr t w in
    0 < n → w_inner_sock w ∈ default ∅ rd' → events_at w' (w_select_sock w') ≠ [];
  ks_pair nfds rd wr t w : w_inner_sock (sys_select nfds rd wr t w).2 = w_inner_sock w }.

(** What the first part of [dtp_select] leaves alone. *)
Record quiet (w w' : world) : Prop := {
  qu_fds : w_fds w' = w_fds w; qu_rfds : w_rfds w' = w_rfds w; qu_wfds : w_wfds w' = w_wfds w;
  qu_inner : w_inner_sock w' = w_inner_sock w; qu_sel : w_select_sock w' = w_select_sock w;
  qu_batches : w_batches w' = w_batches w }.

#[local] Instance quiet_pre : PreOrder quiet.
Proof.
  split; [by constructor|]. intros w1 w2 w3 [????? ?] [????? ?]. constructor; etrans; eauto.
Qed.

Lemma quiet_modctx c x f (Q : unit → world → Prop) w :
  ctx_at w c = Some x →
  (∀ w', quiet w w' → ctx_at w' c = Some (f x) → Q tt w') → wp (modctx c f) Q w.
Proof.
  intros Hx HQ. apply wp_bind. eapply wp_getctx; [done|]. unfold wp, putctx. rewrite Hx.
  apply HQ; [by constructor|by eapply ctx_at_put].
Qed.

Lemma batch_ctx w c : batch_of c ∈ w_batches w → ∃ x, ctx_at w c = Some x.
Proof. intros Hb. unfold ctx_at. rewrite bool_decide_eq_true_2 by done. eauto. Qed.

(** One socket of the monitoring loop. *)
Lemma monitor_spec rd k i w :
  0 ≤ i → i + Z.of_nat k ≤ FD_SETSIZE_S →
  (∀ fd, fd ∈ rd → fd ∈ w_fds w → batch_of fd ∈ w_batches w) →
  wp (monitor k i (Some rd)) (λ r w', r = true ∧ quiet w w') w.
Proof.
  revert i w. induction k as [|k IH]; intros i w Hi Hk Hb; [by apply wp_ret|].
  assert (Hnext : ∀ w1, quiet w w1 → wp (monitor k (i + 1) (Some rd)) (λ r w', r = true ∧ quiet w w') w1).
  { intros w1 Hq. eapply wp_mono; [apply IH; [lia|lia|]|].
    - intros fd. rewrite (qu_fds _ _ Hq), (qu_batches _ _ Hq). apply Hb.
    - intros r w' [? ?]. split; [done|by trans w1]. }
  simpl monitor. unfold dtp_isdtpsocket, DTPIsDTPSocket, FD_ISSET_S. rewrite fd_in_range_true by lia.
  apply wp_bind, wp_bind, wp_gets, wp_ret. apply wp_bind.
  case_bool_decide as Hd; apply wp_ret; [|by apply Hnext].
  case_bool_decide as Ha; [|by apply Hnext].
  destruct (batch_ctx w i) as [x Hx]; [by apply Hb|]. apply wp_bind.
  eapply (get_ctx_by_socket i (zero_ctx <| tc_sock := i |>)); [by split; [|lia]|].
  apply wp_bind, wp_gets, wp_bind. eapply quiet_modctx; [done|]. intros w1 Hq1 Hx1.
  apply wp_bind. eapply wp_getctx; [done|]. apply wp_bind, wp_when; intros _; [|by apply Hnext].
  apply wp_bind. eapply quiet_modctx; [done|]. intros w2 Hq2 _. apply wp_modify, Hnext.
  trans w1; [done|]. trans w2; [done|by constructor].
Qed.

Lemma check_below nfds rd wr w :
  0 ≤ nfds ≤ FD_SETSIZE_S → below nfds rd → below nfds wr →
  DTPSelectCheckAnyPendingEvent nfds (Some rd) (Some wr) w
    = Ok (Z.of_nat (size (rd ∩ w_rfds w)) + Z.of_nat (size (wr ∩ w_wfds w)),
          Some (rd ∩ w_rfds w), Some (wr ∩ w_wfds w), w).
Proof.
  intros Hn Hr Hw. destruct (wp_run _ _ _ (DTPSelectCheckAnyPendingEvent_spec w nfds rd wr Hn)) as (r & w' & -> & -> & ->).
  by rewrite !kept_below, !ready_below.
Qed.

(** What the wait reports: descriptors of the system it was asked for, with their
    number, and, when it has found any, the D2TP sockets that are pending now.  When the
    system call [failed] beside pending sockets, it counts as -1 and all its descriptors
    stay in the sets. *)
Definition reported (failed : Prop) (rd wr rt wt : gset Z) (r : waited) (w : world) : Prop :=
  match r with
  | Stop ret zero => (ret = 0 ∨ ret = -1) ∧ zero = true
  | Found cd ct has dtp rt' wt' =>
    rt' ⊆ rt ∧ wt' ⊆ wt ∧
    (ct = Z.of_nat (size rt') + Z.of_nat (size wt') ∨ failed ∧ has = true ∧ ct = -1 ∧ rt' = rt ∧ wt' = wt) ∧
    (has = true → dtp = (Some (rd ∩ w_rfds w), Some (wr ∩ w_wfds w)) ∧
                  cd = Z.of_nat (size (rd ∩ w_rfds w)) + Z.of_nat (size (wr ∩ w_wfds w)))
  end.

Lemma read_event_some w (Q : bool → world → Prop) :
  events_at w (w_select_sock w) ≠ [] →
  (∀ evs, Q true (w <| w_events ::= <[w_select_sock w := evs]> |>)) → wp read_event Q w.
Proof.
  intros He HQ. unfold read_event. apply wp_bind, wp_gets, wp_bind, wp_gets.
  destruct (events_at w _) as [|e evs]; [done|]. apply wp_bind, wp_modify, wp_ret, HQ.
Qed.

(** The sets of [dtp_select] hold only what was asked for ([rd], [wr]), and of the sockets of
    D2TP ([D]) only those that were pending when it looked. *)
Definition only_ready (D rd wr : gset Z) (pending : gset Z * gset Z) (rd' wr' : gset Z) : Prop :=
  rd' ⊆ rd ∧ wr' ⊆ wr ∧ rd' ∩ D ⊆ pending.1 ∧ wr' ∩ D ⊆ pending.2.

(** The result of [dtp_select]: such sets, and their number. *)
Definition select_result (D rd wr : gset Z) (pending : gset Z * gset Z) (r : Z * fd_sets) : Prop :=
  ∃ rd' wr', r.2 = (Some rd', Some wr') ∧ only_ready D rd wr pending rd' wr' ∧
    r.1 = Z.of_nat (size rd') + Z.of_nat (size wr').

(** The result when the system call fails beside pending sockets of D2TP: their number less
    one, and with them all other descriptors asked for. *)
Definition select_miscount (D rd wr : gset Z) (pending : gset Z * gset Z) (r : Z * fd_sets) : Prop :=
  r = (Z.of_nat (size (rd ∩ D ∩ pending.1)) + Z.of_nat (size (wr ∩ D ∩ pending.2)) - 1,
       (Some ((rd ∩ D ∩ pending.1) ∪ (rd ∖ D)), Some ((wr ∩ D ∩ pending.2) ∪ (wr ∖ D)))).

Lemma select_result_mono D rd wr p q p' q' r :
  select_result D rd wr (p, q) r → p ⊆ p' → q ⊆ q' → select_result D rd wr (p', q') r.
Proof.
  intros (rd' & wr' & ? & (? & ? & H1 & H2) & ?) Hp Hq'. cbn in H1, H2. exists rd', wr'. split_and!; [done| |done].
  split_and!; [done|done|cbn; by trans p|cbn; by trans q].
Qed.

Lemma joined_set (D s t p : gset Z) :
  t ⊆ s ∖ D → let r := (s ∩ D ∩ p) ∪ t in
  r ⊆ s ∧ size r = (size (s ∩ D ∩ p) + size t)%nat ∧ r ∩ D ⊆ p.
Proof. intros Ht r. split_and!; [set_solver|apply size_union; set_solver|set_solver]. Qed.

Lemma finish_reported failed nfds D rd wr r w :
  below nfds rd → below nfds wr → reported failed (rd ∩ D) (wr ∩ D) (rd ∖ D) (wr ∖ D) r w →
  let res := finish_select (words_for nfds) (Some rd) (Some wr) r in
  select_result D rd wr (w_rfds w, w_wfds w) res ∨ res = (-1, (Some ∅, Some ∅)) ∨
  failed ∧ select_miscount D rd wr (w_rfds w, w_wfds w) res.
Proof.
  intros Hr Hw Hrep. destruct r as [ret zero|cd ct has dtp rt wt]; cbn in Hrep |- *.
  { destruct Hrep as [[-> | ->] ->]; [left|by right; left]. exists ∅, ∅. unfold only_ready. set_solver. }
  destruct Hrep as (H1 & H2 & Hct & Hhas).
  assert (rt ⊆ rd ∧ wt ⊆ wr) as [Hrt Hwt] by (clear -H1 H2; set_solver).
  destruct Hct as [->|(Hf & -> & -> & -> & ->)].
  - left. destruct has.
    + destruct Hhas as [-> ->]; [done|]. cbn.
      destruct (joined_set D rd rt (w_rfds w) H1) as (Ha & Hb & Hc).
      destruct (joined_set D wr wt (w_wfds w) H2) as (Ha' & Hb' & Hc').
      rewrite !store_words_below by eauto using below_sub.
      eexists _, _. split; [done|]. rewrite Hb, Hb'. split; [by split_and!|cbn; lia].
    + cbn. rewrite !store_words_below by eauto using below_sub. eexists _, _. split; [done|].
      split; [|done]. split_and!; [done|done|clear -H1; set_solver|clear -H2; set_solver].
  - right; right. split; [done|]. destruct Hhas as [-> ->]; [done|]. unfold select_miscount. cbn.
    rewrite !store_words_below; [done|apply (below_sub _ _ wr Hw); set_solver|done|apply (below_sub _ _ rd Hr); set_solver|done].
Qed.

(** The calls considered: the library runs, and the sockets of D2TP asked for exist. *)
Record select_call (nfds : Z) (rd wr : gset Z) (w : world) : Prop := {
  sc_nfds : 0 ≤ nfds ≤ FD_SETSIZE_S; sc_running : w_isLibThreadRunning w = true;
  sc_inner : 0 ≤ w_inner_sock w < FD_SETSIZE_S; sc_rd : below nfds rd; sc_wr : below nfds wr;
  sc_open fd : fd ∈ rd → fd ∈ w_fds w → batch_of fd ∈ w_batches w }.

(** The two ways [dtp_select] goes after the scan. *)
Definition after_scan (wakes : nat) (nfds : Z) (rd wr : gset Z) (t : option timeval) (w : world) : M waited :=
  let D := w_fds w in
  let cd := Z.of_nat (size (rd ∩ D ∩ w_rfds w)) + Z.of_nat (size (wr ∩ D ∩ w_wfds w)) in
  if 0 <? cd then
    s ← select nfds (Some (rd ∖ D)) (Some (wr ∖ D)) (Some (mk_timeval 0 0));
    mret (Found cd s.1 true (Some (rd ∩ D ∩ w_rfds w), Some (wr ∩ D ∩ w_wfds w)) (default ∅ s.2.1) (default ∅ s.2.2))
  else wait_loop wakes nfds cd (Some (rd ∩ D), Some (wr ∩ D)) (Some (rd ∖ D)) (Some (wr ∖ D)) t.

Lemma run_bind {A B} (m : M A) (k : A → M B) a w w' r :
  m w = Ok (a, w') → k a w' = r → (m ≫= k) w = r.
Proof. unfold mbind, M_bind. by intros -> <-. Qed.

Lemma dtp_select_cases wakes nfds rd wr t w :
  select_call nfds rd wr w →
  ∃ w1, quiet w w1 ∧ dtp_select wakes nfds (Some rd) (Some wr) false t w
    = (r ← after_scan wakes nfds rd wr t w; mret (finish_select (words_for nfds) (Some rd) (Some wr) r)) w1.
Proof.
  intros [Hn Hrun Hi Hr Hw Ho].
  destruct (wp_run _ _ _ (monitor_spec rd (Z.to_nat nfds) 0 w ltac:(lia) ltac:(lia) Ho)) as (? & w1 & Em & -> & Hq).
  exists w1. split; [done|]. destruct Hq as [E1 E2 E3 _ _ _].
  assert (Hr' : below nfds (rd ∩ w_fds w)) by (eapply below_sub; [exact Hr|set_solver]).
  assert (Hw' : below nfds (wr ∩ w_fds w)) by (eapply below_sub; [exact Hw|set_solver]).
  unfold dtp_select. rewrite (proj2 (Z.ltb_ge nfds 0)) by lia.
  eapply run_bind. { unfold ensure_thread. eapply run_bind; [done|]. by rewrite Hrun. }
  eapply run_bind; [exact Em|]. cbn [negb]. eapply run_bind; [done|]. rewrite E1.
  cbn [fmap option_fmap option_map]. rewrite !split_below by done. cbn [fst snd].
  eapply run_bind; [by apply check_below|]. cbn beta iota. rewrite E2, E3. unfold after_scan. destruct (0 <? _); [|done].
  unfold mbind, M_bind, select. by destruct (sys_select _ _ _ _ _) as [[n [rt wt]] w2].
Qed.

Context (Hk : select_ok).

Lemma wait_loop_spec wakes nfds rd wr rt wt t w :
  0 ≤ nfds ≤ FD_SETSIZE_S → 0 ≤ w_inner_sock w < FD_SETSIZE_S → below nfds rd → below nfds wr →
  wlp (wait_loop wakes nfds 0 (Some rd, Some wr) (Some rt) (Some wt) t) (reported False rd wr rt wt) w.
Proof using Hk.
  revert nfds w. induction wakes as [|wakes IH]; intros nfds w Hn Hi Hr Hw; [done|].
  simpl wait_loop. apply wlp_step, wp_gets, wlp_step. unfold FD_SET_S, FD_ISSET_S, FD_CLR_S.
  rewrite fd_in_range_true by done. apply wp_ret, wlp_step, wp_modify.
  set (nf := if nfds <=? _ then _ else _). set (w1 := set w_isselectWaiting _ _).
  assert (Hnf : nfds ≤ nf ∧ 0 ≤ nf ≤ FD_SETSIZE_S) by (unfold nf; destruct (Z.leb_spec nfds (w_inner_sock w)); lia).
  clearbody nf. pose proof (ks_sets Hk nf (Some ({[w_inner_sock w]} ∪ rt)) (Some wt) t w1) as Hs.
  pose proof (ks_count Hk nf (Some ({[w_inner_sock w]} ∪ rt)) (Some wt) t w1) as Hc.
  pose proof (ks_inner Hk nf (Some ({[w_inner_sock w]} ∪ rt)) (Some wt) t w1) as He.
  pose proof (ks_pair Hk nf (Some ({[w_inner_sock w]} ∪ rt)) (Some wt) t w1) as Hp.
  apply wlp_step. unfold select, wp. cbn [default from_option id] in *.
  destruct (sys_select _ _ _ _ _) as [[n [rd' wr']] w2]. cbn in Hp, He.
  destruct rd' as [rt'|], wr' as [wt'|]; cbn in Hs; try tauto. destruct Hs as [Hs1 Hs2].
  cbn [default from_option id] in *. unfold osize in Hc. cbn in Hc.
  assert (Hstop : (n =? 0) || (n =? -1) = false → 0 < n ∧ n = Z.of_nat (size rt') + Z.of_nat (size wt'))
    by (rewrite orb_false_iff, !Z.eqb_neq; lia).
  destruct ((n =? 0) || (n =? -1)) eqn:E.
  - apply wlp_wp, wp_bind, wp_modify, wp_bind, wp_modify, wp_ret.
    rewrite orb_true_iff, !Z.eqb_eq in E. by split.
  - destruct Hstop as [Hpos Hcount]; [done|]. clear Hc. apply wlp_step, wp_ret. case_bool_decide as Hin.
    + apply wlp_step, read_event_some; [by apply He|]. intros evs. cbn [negb].
      apply wlp_step, wp_ret, wlp_step.
      eapply run_wp; [apply check_below; [lia|by apply (below_le nfds); [lia|]..]|].
      cbn beta iota.
      assert (Hsz : n - 1 = Z.of_nat (size (rt' ∖ {[w_inner_sock w]})) + Z.of_nat (size wt')).
      { rewrite size_difference, size_singleton by set_solver.
        assert (size rt' ≠ 0%nat); [|lia]. rewrite size_non_empty_iff. set_solver. }
      destruct ((0 <? n - 1) || _) eqn:Eg.
      * apply wlp_wp, wp_bind, wp_modify, wp_ret. cbn. split_and!; [set_solver|done|by left|done].
      * apply orb_false_iff in Eg as [_ Eg]. apply Z.ltb_ge in Eg.
        match goal with |- wlp (wait_loop _ _ ?c _ _ _ _) _ _ => replace c with 0 by lia end.
        apply IH; cbn; [lia|rewrite Hp; done|by apply (below_le nfds); [lia|]..].
    + rewrite (proj2 (Z.ltb_lt 0 n)) by done. cbn [orb].
      apply wlp_wp, wp_bind, wp_modify, wp_ret. cbn. split_and!; [set_solver|done|by left|done].
Qed.

(** The call of the system beside pending sockets. *)
Definition extra_call (nfds : Z) (rd wr : gset Z) (D : gset Z) (w : world) : Z * fd_sets * world :=
  sys_select nfds (Some (rd ∖ D)) (Some (wr ∖ D)) (Some (mk_timeval 0 0)) w.

(** With a socket pending, the system is asked without waiting. *)
Lemma after_scan_ready wakes nfds rd wr t w w1 :
  let D := w_fds w in
  let cd := Z.of_nat (size (rd ∩ D ∩ w_rfds w)) + Z.of_nat (size (wr ∩ D ∩ w_wfds w)) in
  0 < cd →
  wp (after_scan wakes nfds rd wr t w) (λ r _, ∃ rt wt,
    r = Found cd (extra_call nfds rd wr D w1).1.1 true (Some (rd ∩ D ∩ w_rfds w), Some (wr ∩ D ∩ w_wfds w)) rt wt ∧
    reported ((extra_call nfds rd wr D w1).1.1 = -1) (rd ∩ D) (wr ∩ D) (rd ∖ D) (wr ∖ D) r w) w1.
Proof using Hk.
  intros D cd Hcd. unfold after_scan. fold D cd. rewrite (proj2 (Z.ltb_lt 0 cd)) by done. apply wp_bind. unfold extra_call.
  pose proof (ks_sets Hk nfds (Some (rd ∖ D)) (Some (wr ∖ D)) (Some (mk_timeval 0 0)) w1) as Hs.
  pose proof (ks_count Hk nfds (Some (rd ∖ D)) (Some (wr ∖ D)) (Some (mk_timeval 0 0)) w1) as Hct.
  pose proof (ks_fails Hk nfds (Some (rd ∖ D)) (Some (wr ∖ D)) (Some (mk_timeval 0 0)) w1) as Hf.
  unfold wp at 1. unfold select. destruct (sys_select _ _ _ _ _) as [[n [rt wt]] w2]. cbn in Hf, Hct.
  destruct rt as [rt|], wt as [wt|]; cbn in Hs; try tauto. destruct Hs as [Hs1 Hs2]. apply wp_ret.
  exists rt, wt. split; [done|]. cbn. split_and!; [done|done| |done].
  destruct Hct as [->|Hct]; [right|by left]. specialize (Hf eq_refl). injection Hf as -> ->. done.
Qed.

(** C37: [dtp_select] reports only what is ready, and what it reports otherwise is known.
    Whatever the system call and the other threads do, [dtp_select] commits no fault, and when
    it returns, one of three things has happened.  It reports descriptors it was asked for and
    their number, and each D2TP socket it reports was pending when it looked (as it was called
    or as it returned).  Or the system call failed while nothing was pending, and it returns -1
    with empty sets.  Or a D2TP socket was pending and the system call for the other
    descriptors failed: then it returns the number of the pending sockets less one, and besides
    them it leaves every other descriptor it was asked for in the sets, ready or not. *)
Theorem select_sound wakes nfds rd wr t w :
  select_call nfds rd wr w →
  wlp (dtp_select wakes nfds (Some rd) (Some wr) false t) (λ r w',
    select_result (w_fds w) rd wr (w_rfds w ∪ w_rfds w', w_wfds w ∪ w_wfds w') r
    ∨ r = (-1, (Some ∅, Some ∅))
    ∨ (∃ w1, quiet w w1 ∧ (extra_call nfds rd wr (w_fds w) w1).1.1 = -1) ∧
      (rd ∩ w_fds w ∩ w_rfds w) ∪ (wr ∩ w_fds w ∩ w_wfds w) ≠ ∅ ∧
      select_miscount (w_fds w) rd wr (w_rfds w, w_wfds w) r) w.
Proof using Hk.
  intros Hc. pose proof Hc as [Hn _ Hi Hr Hw _].
  destruct (dtp_select_cases wakes nfds rd wr t w Hc) as (w1 & Hq & E). eapply wlp_eq; [exact E|].
  apply wlp_bind. destruct (decide (0 < Z.of_nat (size (rd ∩ w_fds w ∩ w_rfds w)) +
    Z.of_nat (size (wr ∩ w_fds w ∩ w_wfds w)))) as [Hcd|Hcd].
  - apply wlp_wp. eapply wp_mono; [by apply after_scan_ready|]. intros r w2 (rt & wt & _ & Hrep). apply wlp_wp, wp_ret.
    destruct (finish_reported _ nfds (w_fds w) rd wr r w Hr Hw Hrep) as [Hf|[Hf|[Hx Hf]]]; [left|by right; left|right; right].
    + eapply select_result_mono; [exact Hf|set_solver..].
    + split; [by exists w1|]. split; [|done]. intros [E1 E2]%empty_union_L. rewrite E1, E2, size_empty in Hcd. lia.
  - unfold after_scan. rewrite (proj2 (Z.ltb_ge 0 _)) by lia.
    match goal with |- wlp (wait_loop _ _ ?c _ _ _ _) _ _ => replace c with 0 by lia end. eapply wlp_mono.
    + apply wait_loop_spec; [done|rewrite (qu_inner _ _ Hq); done|apply (below_sub _ _ rd)|apply (below_sub _ _ wr)];
        [done|set_solver|done|set_solver].
    + intros r w2 Hrep. apply wlp_wp, wp_ret.
      destruct (finish_reported _ nfds (w_fds w) rd wr r w2 Hr Hw Hrep) as [Hf|[Hf|[[] _]]]; [left|by right; left].
      eapply select_result_mono; [exact Hf|set_solver..].
Qed.

(** A ready socket is reported at once.  When a D2TP socket asked for is pending,
    [dtp_select] returns without waiting, and if the system call for the others does not fail,
    its sets hold descriptors that were asked for, and among the D2TP sockets exactly those
    that are pending. *)
Lemma select_ready nfds rd wr t w :
  select_call nfds rd wr w →
  (rd ∩ w_fds w ∩ w_rfds w) ∪ (wr ∩ w_fds w ∩ w_wfds w) ≠ ∅ →
  (∀ w1, (extra_call nfds rd wr (w_fds w) w1).1.1 ≠ -1) →
  wp (dtp_select 0 nfds (Some rd) (Some wr) false t) (λ r _, ∃ rd' wr', r.2 = (Some rd', Some wr') ∧
    rd' ⊆ rd ∧ wr' ⊆ wr ∧ rd' ∩ w_fds w = rd ∩ w_fds w ∩ w_rfds w ∧ wr' ∩ w_fds w = wr ∩ w_fds w ∩ w_wfds w ∧
    r.1 = Z.of_nat (size rd') + Z.of_nat (size wr') ∧ 0 < r.1) w.
Proof using Hk.
  intros Hc Hne Hnf. pose proof Hc as [Hn _ Hi Hr Hw _].
  destruct (dtp_select_cases 0 nfds rd wr t w Hc) as (w1 & Hq & E). eapply wp_eq; [exact E|].
  set (a := rd ∩ w_fds w ∩ w_rfds w) in *. set (b := wr ∩ w_fds w ∩ w_wfds w) in *.
  assert (Hcd : 0 < Z.of_nat (size a) + Z.of_nat (size b)).
  { assert (size (a ∪ b) ≠ 0%nat) by (by rewrite size_non_empty_iff, leibniz_equiv_iff). rewrite size_union_alt in *.
    pose proof (subseteq_size (b ∖ a) b ltac:(set_solver)). lia. }
  apply wp_bind. eapply wp_mono; [by apply after_scan_ready|]. intros r w2 (rt & wt & -> & Hrep). apply wp_ret.
  destruct Hrep as (H1 & H2 & [Hct|(Hf & _)] & _); [|by apply Hnf in Hf]. rewrite Hct. cbn.
  destruct (joined_set (w_fds w) rd rt (w_rfds w) H1) as (Ha & Hb & Hc1).
  destruct (joined_set (w_fds w) wr wt (w_wfds w) H2) as (Ha' & Hb' & Hc').
  rewrite !store_words_below by eauto using below_sub. eexists _, _. split; [done|].
  rewrite Hb, Hb'. fold a b.
  split_and!; [done|done|clear -H1; set_solver|clear -H2; set_solver|lia|lia].
Qed.
End select.

(** ** Polling *)

(** The descriptors the entries ask for, in a direction. *)
Definition asked (bit : Z) (fds : list pollfd) : gset Z :=
  list_to_set (pfd <$> filter (λ p, flag_set (pfd_events p) bit = true) fds).

Lemma elem_of_asked fd bit fds :
  fd ∈ asked bit fds ↔ ∃ p, p ∈ fds ∧ pfd p = fd ∧ flag_set (pfd_events p) bit = true.
Proof.
  unfold asked. rewrite elem_of_list_to_set, list_elem_of_fmap. setoid_rewrite list_elem_of_filter. naive_solver.
Qed.

Lemma asked_cons bit p fds :
  asked bit (p :: fds) = (if flag_set (pfd_events p) bit then {[pfd p]} else ∅) ∪ asked bit fds.
Proof.
  unfold asked. rewrite filter_cons. case_decide as E; [rewrite E|destruct (flag_set _ _); [done|]]; cbn; set_solver.
Qed.

Definition pollable (p : pollfd) : Prop := 0 ≤ pfd p < FD_SETSIZE_S.

Lemma poll_sets_spec fds val rd wr w :
  Forall pollable fds →
  wp (poll_sets fds val rd wr) (λ r w', w' = w ∧ ∃ v,
    r = Some (v, rd ∪ asked POLLIN fds, wr ∪ asked POLLOUT fds) ∧ val ≤ v ∧
    (∀ p, p ∈ fds → pfd p ≤ v) ∧ (v = val ∨ v < FD_SETSIZE_S)) w.
Proof.
  intros Hf. revert val rd wr. induction Hf as [|p fds Hp Hf IH]; intros val rd wr.
  { apply wp_ret. split; [done|]. exists val.
    assert (∀ b, asked b [] = ∅) as E by done. rewrite !E, !union_empty_r_L. split_and!; [done|lia|by intros ? ?%not_elem_of_nil|auto]. }
  simpl poll_sets. unfold pollable, FD_SETSIZE_S, FD_SETSIZE in *.
  rewrite u32_small by (unfold is_u32; lia). rewrite (proj2 (Z.leb_gt _ _)) by lia. unfold FD_SET_S.
  rewrite fd_in_range_true by (unfold FD_SETSIZE_S, FD_SETSIZE; lia). rewrite !asked_cons.
  apply wp_bind. eapply (wp_mono _ (λ a w', w' = w ∧ a = rd ∪ (if flag_set (pfd_events p) POLLIN then {[pfd p]} else ∅))).
  { destruct (flag_set _ _); apply wp_ret; (split; [done|set_solver]). }
  intros ? ? [-> ->]. apply wp_bind.
  eapply (wp_mono _ (λ a w', w' = w ∧ a = wr ∪ (if flag_set (pfd_events p) POLLOUT then {[pfd p]} else ∅))).
  { destruct (flag_set _ POLLOUT); apply wp_ret; (split; [done|set_solver]). }
  intros ? ? [-> ->]. eapply wp_mono; [apply IH|]. intros r w' (-> & v & -> & Hv & Hall & Hb). split; [done|].
  exists v. rewrite <- !(assoc_L (∪)). destruct (Z.ltb_spec val (pfd p)).
  all: split_and!; [done|lia| |lia]; intros q [-> | ?]%elem_of_cons; [lia|by apply Hall].
Qed.

(** The entry with the readiness of its descriptor. *)
Definition answered (rd wr : gset Z) (p : pollfd) : pollfd :=
  mk_pollfd (pfd p) (pfd_events p)
    (Z.lor (if bool_decide (pfd p ∈ rd) then POLLIN else 0) (if bool_decide (pfd p ∈ wr) then POLLOUT else 0)).

Lemma poll_results_spec fds rd wr w :
  Forall pollable fds → poll_results fds rd wr w = Ok (answered rd wr <$> fds, w).
Proof.
  induction 1 as [|p fds Hp Hf IH]; [done|]. simpl poll_results. unfold FD_ISSET_S. rewrite fd_in_range_true by done.
  unfold mbind, M_bind. cbn. by rewrite IH.
Qed.

Lemma asked_pending bit fds D P s q :
  NoDup (pfd <$> fds) → s ∩ D = asked bit fds ∩ D ∩ P → q ∈ fds → pfd q ∈ D →
  bool_decide (pfd q ∈ s) = flag_set (pfd_events q) bit && bool_decide (pfd q ∈ P).
Proof.
  intros Hnd Hs Hq HD. assert (Hin : pfd q ∈ s ↔ pfd q ∈ asked bit fds ∧ pfd q ∈ P) by set_solver.
  assert (Ha : pfd q ∈ asked bit fds ↔ flag_set (pfd_events q) bit = true).
  { rewrite elem_of_asked. split; [|eauto]. intros (q' & Hq' & E & Hf). clear -Hnd Hq Hq' E Hf.
    apply list_elem_of_lookup in Hq as [i Hi], Hq' as [j Hj].
    assert (i = j) as <-; [|congruence].
    eapply (NoDup_lookup (pfd <$> fds)); [done|rewrite list_lookup_fmap, Hi; done|rewrite list_lookup_fmap, Hj; cbn; by rewrite E]. }
  rewrite Ha in Hin. apply eq_true_iff_eq. rewrite andb_true_iff, !bool_decide_eq_true. done.
Qed.

Section poll.
Context {env : Env} (sys_select : Z → option (gset Z) → option (gset Z) → option timeval → world → Z * fd_sets * world).
Context (junk : gset Z) (Hk : select_ok sys_select).

(** A call with a valid number of descriptors that asks for none and does not wait finds none. *)
Hypothesis Hnone : ∀ nfds w, 0 ≤ nfds ≤ FD_SETSIZE_S → (sys_select nfds (Some ∅) (Some ∅) (Some (mk_timeval 0 0)) w).1.1 = 0.

(** C39: [dtp_poll] answers for every entry.  When its entries are distinct D2TP sockets
    and one of them is ready for what it asks for, [dtp_poll] returns at once, and the
    [revents] of each entry say exactly which of the events it asks for are pending. *)
Theorem poll_reports_pending fds timeout w :
  w_isLibThreadRunning w = true → 0 ≤ w_inner_sock w < FD_SETSIZE_S →
  Forall (λ p, pollable p ∧ pfd p ∈ w_fds w ∧ batch_of (pfd p) ∈ w_batches w) fds → NoDup (pfd <$> fds) →
  (∃ p, p ∈ fds ∧ (flag_set (pfd_events p) POLLIN = true ∧ pfd p ∈ w_rfds w
                   ∨ flag_set (pfd_events p) POLLOUT = true ∧ pfd p ∈ w_wfds w)) →
  wp (dtp_poll sys_select junk 0 fds timeout) (λ r _, 0 < r.1 ∧
    r.2 = (λ p, mk_pollfd (pfd p) (pfd_events p)
      (Z.lor (if flag_set (pfd_events p) POLLIN && bool_decide (pfd p ∈ w_rfds w) then POLLIN else 0)
             (if flag_set (pfd_events p) POLLOUT && bool_decide (pfd p ∈ w_wfds w) then POLLOUT else 0))) <$> fds) w.
Proof using Hk Hnone.
  intros Hrun Hi Hfds Hnd (p & Hp & Hpend). rewrite Forall_forall in Hfds.
  assert (Hf : Forall pollable fds) by (apply Forall_forall; intros q Hq; by apply Hfds). unfold dtp_poll. apply wp_bind.
  eapply wp_mono; [by apply poll_sets_spec|]. intros s w' (-> & v & -> & Hv & Hall & Hb).
  rewrite !union_empty_l_L. apply wp_bind.
  assert (Hbelow : ∀ bit, below (v + 1) (asked bit fds)).
  { intros bit fd (q & Hq & <- & _)%elem_of_asked. specialize (Hall q Hq). destruct (Hfds q Hq) as [[? ?] _]. lia. }
  assert (HD : ∀ bit, asked bit fds ⊆ w_fds w).
  { intros bit fd (q & Hq & <- & _)%elem_of_asked. by apply Hfds. }
  eapply wp_mono; [apply (select_ready _ _ Hk (v + 1))|].
  - constructor; [|done|done|done|done|].
    + specialize (Hall p Hp). destruct (Hfds p Hp) as [[? ?] _]. unfold FD_SETSIZE_S, FD_SETSIZE in *. lia.
    + intros fd (q & Hq & <- & _)%elem_of_asked _. by apply Hfds.
  - destruct Hpend as [[He Hin]|[He Hin]]; apply (non_empty_inhabited_L (pfd p)); rewrite elem_of_union, !elem_of_intersection;
      [left|right]; (split_and!; [|by apply Hfds|done]); apply elem_of_asked; eauto.
  - intros w1. unfold extra_call.
    assert (Hd : ∀ bit, asked bit fds ∖ w_fds w = ∅) by (intros bit; specialize (HD bit); set_solver).
    rewrite !Hd, Hnone; [done|]. specialize (Hall p Hp). destruct (Hfds p Hp) as [[? ?] _]. unfold FD_SETSIZE_S, FD_SETSIZE in *. lia.
  - intros [n [rd wr]] w2 (rd' & wr' & [= -> ->] & H1 & H2 & H3 & H4 & H5 & H6). cbn in H6.
    cbn [default from_option id]. rewrite (proj2 (Z.eqb_neq n (-1))) by lia. apply wp_bind.
    eapply run_wp; [by apply poll_results_spec|]. apply wp_ret. split; [done|]. cbn.
    apply list_fmap_ext. intros i q Hq%list_elem_of_lookup_2. unfold answered. do 2 f_equal;
      (erewrite asked_pending; [done|done..|by apply Hfds]).
Qed.
End poll.

(** ** Waking up *)

(** The library thread marks a socket while the system call waits, and the call reports
    the application end of the socket pair when there is something to read from it;
    otherwise the time runs out. *)
Definition waking_select (rw sock : Z) (nfds : Z) (rd wr : option (gset Z)) (t : option timeval) (w : world)
  : Z * fd_sets * world :=
  match DTPSelectEventSet sock rw w with
  | Ok (_, w') =>
    match events_at w' (w_select_sock w') with
    | [] => (0, ((λ _, ∅) <$> rd, (λ _, ∅) <$> wr), w')
    | _ :: _ => (1, ((λ _, {[w_inner_sock w']}) <$> rd, (λ _, ∅) <$> wr), w')
    end
  | Err _ => (-1, (rd, wr), w)
  end.

Lemma event_set_run sock rw w :
  0 ≤ sock < FD_SETSIZE_S → rw = DTP_FD_READ ∨ rw = DTP_FD_WRITE → must_wake sock rw w = true →
  wp (DTPSelectEventSet sock rw) (λ _ w',
    w_rfds w' = (if rw =? DTP_FD_READ then {[sock]} else ∅) ∪ w_rfds w ∧
    w_wfds w' = (if rw =? DTP_FD_READ then ∅ else {[sock]}) ∪ w_wfds w ∧
    w_inner_sock w' = w_inner_sock w ∧ events_at w' (w_select_sock w') ≠ []) w.
Proof.
  intros Hs Hrw Hm.
  unfold DTPSelectEventSet, FD_SET_S, must_wake, watched_set in *. rewrite fd_in_range_true by done.
  destruct Hrw as [-> | ->]; cbn [Z.eqb DTP_FD_READ DTP_FD_WRITE] in *;
    apply wp_bind, wp_gets, wp_bind, wp_ret, wp_bind, wp_modify;
    (eapply wp_mono; [by apply notify_select_spec|]); intros _ w' ->; cbn; rewrite Hm; cbn;
    (split_and!; [by rewrite ?union_empty_l_L..|done|]);
    unfold events_at at 1; cbn; rewrite lookup_insert_eq; cbn; intros ?%(f_equal length); by rewrite length_app, Nat.add_comm in *.
Qed.

Section wake.
Context {env : Env} (junk : gset Z) (rw sock : Z).
Hypothesis Hrw : rw = DTP_FD_READ ∨ rw = DTP_FD_WRITE.

(** The set of a direction. *)
Definition marked (rw : Z) (s s' : gset Z) : gset Z := if rw =? DTP_FD_READ then s else s'.

Lemma marked_one r fd : Z.of_nat (size (marked r {[fd]} ∅)) + Z.of_nat (size (marked r ∅ {[fd]})) = 1.
Proof. unfold marked. destruct (r =? _); by rewrite size_singleton, size_empty. Qed.

Lemma wait_loop_woken wakes nfds rd wr rt wt t w :
  0 ≤ nfds ≤ FD_SETSIZE_S → 0 ≤ w_inner_sock w < FD_SETSIZE_S → below nfds rd → below nfds wr →
  rd ∩ w_rfds w = ∅ → wr ∩ w_wfds w = ∅ → sock ∈ marked rw rd wr →
  wp (wait_loop (waking_select rw sock) junk (S wakes) nfds 0 (Some rd, Some wr) (Some rt) (Some wt) t)
    (λ r w', r = Found 1 0 true (Some (marked rw {[sock]} ∅), Some (marked rw ∅ {[sock]})) ∅ ∅
             ∧ w_isselectWaiting w' = false) w.
Proof using Hrw.
  intros Hn Hi Hr Hw Hr0 Hw0 Hin. simpl wait_loop. apply wp_bind, wp_gets. unfold FD_SET_S, FD_ISSET_S, FD_CLR_S.
  rewrite fd_in_range_true by done. apply wp_bind, wp_ret, wp_bind, wp_modify.
  set (nf := if nfds <=? _ then _ else _). set (w1 := set w_isselectWaiting _ _).
  assert (Hnf : nfds ≤ nf ∧ 0 ≤ nf ≤ FD_SETSIZE_S) by (unfold nf; destruct (Z.leb_spec nfds (w_inner_sock w)); lia).
  assert (Hs : 0 ≤ sock < nfds) by (unfold marked in Hin; destruct (rw =? _); [by apply Hr|by apply Hw]).
  assert (Hwake : must_wake sock rw w1 = true).
  { unfold must_wake, watched_set, w1. cbn. rewrite (proj2 (Z.ltb_lt _ _)) by lia.
    unfold marked in Hin. by destruct (rw =? DTP_FD_READ); apply bool_decide_eq_true_2. }
  clearbody nf. destruct (wp_run _ _ _ (event_set_run sock rw w1 ltac:(lia) Hrw Hwake)) as ([] & w2 & E & H1 & H2 & H3 & H4).
  apply wp_bind. unfold select, waking_select. unfold wp at 1. rewrite E.
  assert (H4' := H4). destruct (events_at w2 (w_select_sock w2)) as [|e evs] eqn:Ee; [done|]. clear H4'.
  cbn [fmap option_fmap option_map default from_option id Z.eqb orb]. rewrite H3. change (w_inner_sock w1) with (w_inner_sock w).
  apply wp_bind, wp_ret. rewrite bool_decide_eq_true_2 by set_solver.
  apply wp_bind, read_event_some; [by rewrite Ee|]. intros evs'. cbn [negb]. apply wp_bind, wp_ret, wp_bind.
  eapply run_wp; [apply check_below; [lia|by apply (below_le nfds); [lia|]..]|]. cbn beta iota.
  set (w3 := set w_events _ w2).
  assert (Er : rd ∩ w_rfds w3 = marked rw {[sock]} ∅).
  { change (w_rfds w3) with (w_rfds w2). rewrite H1. change (w_rfds w1) with (w_rfds w). unfold marked in *.
    clear -Hr0 Hin. destruct (rw =? _); set_solver. }
  assert (Ew : wr ∩ w_wfds w3 = marked rw ∅ {[sock]}).
  { change (w_wfds w3) with (w_wfds w2). rewrite H2. change (w_wfds w1) with (w_wfds w). unfold marked in *.
    clear -Hw0 Hin. destruct (rw =? _); set_solver. }
  rewrite Er, Ew. rewrite marked_one. cbn. apply wp_bind, wp_modify, wp_ret. split; [|done]. f_equal. set_solver.
Qed.

(** C38: A sleeping [dtp_select] is woken.  It finds nothing pending and goes to sleep;
    then the library marks a D2TP socket it was asked for, which makes the system call
    return, and [dtp_select] reports exactly this socket. *)
Theorem select_wakes wakes nfds rd wr t w :
  select_call nfds rd wr w → rd ∩ w_fds w ∩ w_rfds w = ∅ → wr ∩ w_fds w ∩ w_wfds w = ∅ →
  sock ∈ marked rw rd wr → sock ∈ w_fds w →
  wp (dtp_select (waking_select rw sock) junk (S wakes) nfds (Some rd) (Some wr) false t) (λ r w',
    r = (1, (Some (marked rw {[sock]} ∅), Some (marked rw ∅ {[sock]}))) ∧ w_isselectWaiting w' = false) w.
Proof using Hrw.
  intros Hc Hr0 Hw0 Hin Hd. pose proof Hc as [Hn _ Hi Hr Hw _].
  destruct (dtp_select_cases (waking_select rw sock) junk (S wakes) nfds rd wr t w Hc) as (w1 & Hq & E).
  eapply wp_eq; [exact E|]. apply wp_bind. unfold after_scan. rewrite Hr0, Hw0, size_empty. cbn [Z.of_nat Z.add Z.ltb Z.compare].
  assert (Hs : marked rw {[sock]} ∅ ⊆ rd ∧ marked rw ∅ {[sock]} ⊆ wr)
    by (unfold marked in *; clear -Hin; destruct (rw =? _); set_solver).
  destruct Hq as [E1 E2 E3 E4 _ _]. eapply wp_mono.
  - apply wait_loop_woken; [done|by rewrite E4|apply (below_sub _ _ rd)|apply (below_sub _ _ wr)|by rewrite E2|by rewrite E3|];
      [done|set_solver|done|set_solver|]. unfold marked in *. clear -Hin Hd. destruct (rw =? _); set_solver.
  - intros r w2 [-> Hwait]. apply wp_ret. split; [|done]. cbn. rewrite !union_empty_r_L.
    destruct Hs. by rewrite !store_words_below by eauto using below_sub.
Qed.
End wake.

(** ** Instances *)

(** A system call that reports the descriptors of [s] it is asked for, at once. *)
Definition ready_select (s : gset Z) (nfds : Z) (rd wr : option (gset Z)) (t : option timeval) (w : world)
  : Z * fd_sets * world :=
  let f := fmap (λ x, x ∩ s ∖ {[w_inner_sock w]}) in (osize (f rd) + osize (f wr), (f rd, f wr), w).

Lemma ready_select_ok s : select_ok (ready_select s).
Proof.
  constructor; cbn; try done; intros.
  - split; [destruct rd|destruct wr]; cbn; (done || set_solver).
  - by right.
  - unfold osize in *. lia.
  - destruct rd; cbn in *; set_solver.
Qed.

Lemma ready_select_none s nfds w : (ready_select s nfds (Some ∅) (Some ∅) (Some (mk_timeval 0 0)) w).1.1 = 0.
Proof. unfold ready_select, osize. cbn. assert (∅ ∩ s ∖ {[w_inner_sock w]} = ∅) as -> by set_solver. by rewrite size_empty. Qed.

(** The host with its library thread; socket 5 has data to read. *)
Definition running (w : world) : world :=
  w <| w_isLibThreadRunning := true |> <| w_inner_sock := 900 |> <| w_select_sock := 901 |>.
Definition readable_host : world := running (host conn) <| w_rfds := {[5]} |>.

Lemma call_ok w rd wr :
  w = running (host conn) ∨ w = readable_host → below 10 rd → below 10 wr → select_call 10 rd wr w.
Proof.
  intros Hw ? ?. constructor; try done; destruct Hw as [-> | ->]; try done.
  all: intros fd _ Hd; apply (elem_of_singleton_1 fd 5) in Hd as ->; by vm_compute.
Qed.

Example select_sound_witness :
  wlp (dtp_select (ready_select {[3]}) ∅ 1 10 (Some {[3; 4; 5]}) (Some ∅) false None) (λ r w',
    select_result {[5]} {[3; 4; 5]} ∅ ({[5]} ∪ w_rfds w', ∅ ∪ w_wfds w') r ∨ r = (-1, (Some ∅, Some ∅)) ∨
    (∃ w1, quiet readable_host w1 ∧ (extra_call (ready_select {[3]}) 10 {[3; 4; 5]} ∅ {[5]} w1).1.1 = -1) ∧
    ({[3; 4; 5]} ∩ {[5]} ∩ {[5]}) ∪ (∅ ∩ {[5]} ∩ ∅) ≠ (∅ : gset Z) ∧
    select_miscount {[5]} {[3; 4; 5]} ∅ ({[5]}, ∅) r) readable_host.
Proof.
  apply (select_sound _ _ (ready_select_ok {[3]}) 1 10 {[3; 4; 5]} ∅ None readable_host).
  apply call_ok; [by right| |]; intros fd; rewrite ?elem_of_union, ?elem_of_singleton, ?elem_of_empty; lia.
Defined.

Example select_wakes_witness :
  wp (dtp_select (waking_select DTP_FD_READ 5) ∅ 1 10 (Some {[3; 5]}) (Some ∅) false None) (λ r w',
    r = (1, (Some {[5]}, Some ∅)) ∧ w_isselectWaiting w' = false) (running (host conn)).
Proof.
  apply (select_wakes ∅ DTP_FD_READ 5 (or_introl eq_refl) 0 10 {[3; 5]} ∅ None (running (host conn)));
    [|set_solver|set_solver|unfold marked; cbn; set_solver|apply (elem_of_singleton_2 5 5); reflexivity].
  apply call_ok; [by left| |]; intros fd; rewrite ?elem_of_union, ?elem_of_singleton, ?elem_of_empty; lia.
Defined.

Example poll_reports_pending_witness :
  wp (dtp_poll (ready_select ∅) ∅ 0 [mk_pollfd 5 (Z.lor POLLIN POLLOUT) 0] 100) (λ r _, 0 < r.1 ∧
    r.2 = [mk_pollfd 5 (Z.lor POLLIN POLLOUT) POLLIN]) readable_host.
Proof.
  apply (poll_reports_pending _ ∅ (ready_select_ok ∅) (λ nfds w _, ready_select_none ∅ nfds w) [mk_pollfd 5 (Z.lor POLLIN POLLOUT) 0] 100 readable_host);
    [reflexivity|by vm_compute| |apply NoDup_singleton|].
  - apply Forall_singleton. split_and!; [by vm_compute|apply (elem_of_singleton_2 5 5); reflexivity|apply (elem_of_singleton_2 0 0); reflexivity].
  - eexists. split; [by apply list_elem_of_singleton|]. left. split; [reflexivity|]. apply (elem_of_singleton_2 5 5). reflexivity.
Defined.

(** Without a set to read, [dtp_select] dereferences the null pointer as soon as there
    is a D2TP socket below [nfds]. *)
Example null_readfds_crashes :
  dtp_select (ready_select ∅) ∅ 1 10 None (Some {[5]}) false None readable_host = Err NullDeref.
Proof. vm_compute. reflexivity. Qed.

(** With descriptors of the system only, it waits without [inner_sock] but takes it for
    readable, and fails although descriptor 3 is ready to be written. *)
Example write_only_select_fails :
  match dtp_select (ready_select {[3]}) ∅ 1 4 None (Some {[3]}) false None readable_host with
  | Ok (r, w') => r = (-1, (None, Some {[3]})) ∧ w_errno w' = EAGAIN
  | Err _ => False
  end.
Proof. vm_compute. done. Qed.

(** An interrupted system call is counted as -1 descriptor: with socket 5 pending the
    result is 0, and descriptor 3 is reported although it is not ready. *)
Example interrupted_select_miscounts :
  match dtp_select (λ _ rd wr _ w, (-1, (rd, wr), w)) ∅ 1 10 (Some {[3; 5]}) (Some ∅) false None readable_host with
  | Ok (r, _) => r = (0, (Some {[3; 5]}, Some ∅))
  | Err _ => False
  end.
Proof. vm_compute. done. Qed.
