(* ===== verification/Route.v ===== *)
(** * Routes and the lock time (dtp_getifacename and dtp_getlocktime of dtp_socket.c)

    [dtp_getifacename] reads the routing table of the system, the text of
    /proc/net/route, and finds the interface of the longest prefix that matches an
    address; [dtp_getlocktime] computes from the deadlines of the connections how long
    the processor may sleep.  A text is a list of character codes.  An element of the
    array of routes that a line did not fill is [None] (the array is not initialised);
    using it is a fault. *)

From S2P Require Import Prelude Double Header Context World ContextTable Pools RetransQueue.
From S2P Require Import Select Congestion Lifecycle Send Scenario.
From Stdlib Require Import Floats.SpecFloat.
From Stdlib Require Strings.Ascii.
From Stdlib Require Import (notations) Strings.String.

(** ** Text *)

Fixpoint str (s : String.string) : bytes :=
  match s with String.EmptyString => [] | String.String c s => Z.of_nat (Ascii.nat_of_ascii c) :: str s end.

(** [" \t\n"] *)
Definition is_delim (b : Z) : bool := (b =? 32) || (b =? 9) || (b =? 10).

(** A C string ends at its first zero. *)
Fixpoint c_string (l : bytes) : bytes :=
  match l with [] => [] | b :: l => if b =? 0 then [] else b :: c_string l end.

(** The tokens successive [strtok] calls return; [cur] is the one being read. *)
Fixpoint tokens_from (cur : bytes) (l : bytes) : list bytes :=
  match l with
  | [] => match cur with [] => [] | _ => [cur] end
  | b :: l =>
    if is_delim b then match cur with [] => tokens_from [] l | _ => cur :: tokens_from [] l end
    else tokens_from (cur ++ [b]) l
  end.
Definition strtok_all (line : bytes) : list bytes := tokens_from [] (c_string line).

(** [fgets] with room for [n] characters: the line, and the rest of the file. *)
Fixpoint fgets (n : nat) (f : bytes) : bytes * bytes :=
  match n, f with
  | O, _ | _, [] => ([], f)
  | S n, b :: f => if b =? 10 then ([b], f) else let '(l, r) := fgets n f in (b :: l, r)
  end.

Definition LINE_LEN : nat := 254.

(** [sscanf(token, "%x", &v)]: [None] when no digit is found and [v] is not assigned. *)
Definition hex_digit (b : Z) : option Z :=
  if (48 <=? b) && (b <=? 57) then Some (b - 48)
  else if (65 <=? b) && (b <=? 70) then Some (b - 55)
  else if (97 <=? b) && (b <=? 102) then Some (b - 87)
  else None.

Fixpoint hex_value (acc : option Z) (l : bytes) : option Z :=
  match l with
  | [] => acc
  | b :: l => match hex_digit b with Some d => hex_value (Some (default 0 acc * 16 + d)) l | None => acc end
  end.

Definition scan_sign (l : bytes) : bool * bytes :=
  match l with
  | b :: l' => if b =? 45 then (true, l') else if b =? 43 then (false, l') else (false, l)
  | [] => (false, [])
  end.
Definition skip_0x (l : bytes) : bytes :=
  match l with
  | a :: b :: l' => if (a =? 48) && ((b =? 120) || (b =? 88)) then l' else l
  | _ => l
  end.

(** The number is read as an [unsigned long] and stored in 32 bits. *)
Definition sscanf_x (token : bytes) : option Z :=
  let '(neg, l) := scan_sign token in
  match hex_value None (skip_0x l) with
  | None => None
  | Some v => if 2 ^ 64 <=? v then Some (2 ^ 32 - 1) else Some (u32 (if (neg : bool) then - v else v))
  end.

(** ** The routing table *)

Record route := mk_route { r_name : option bytes; r_dest : option Z; r_mask : option Z }.

(** The columns of the first line that hold the interface, the destination and the
    mask (from 1; 0 when there is none). *)
Fixpoint columns (i : Z) (ts : list bytes) (cols : Z * Z * Z) : Z * Z * Z :=
  match ts with
  | [] => cols
  | t :: ts =>
    let '(iface, destination, mask) := cols in
    columns (i + 1) ts
      (if bool_decide (t = str "Iface"%string) then (i, destination, mask)
       else if bool_decide (t = str "Destination"%string) then (iface, i, mask)
       else if bool_decide (t = str "Mask"%string) then (iface, destination, i)
       else cols)
  end.

(** The fields of a line. *)
Definition store_field (cols : Z * Z * Z) (i : Z) (t : bytes) (r : route) : route :=
  let '(iface, destination, mask) := cols in
  if i =? iface then mk_route (Some t) (r_dest r) (r_mask r)
  else if i =? destination then
    match sscanf_x t with Some v => mk_route (r_name r) (Some v) (r_mask r) | None => r end
  else if i =? mask then
    match sscanf_x t with Some v => mk_route (r_name r) (r_dest r) (Some v) | None => r end
  else r.

Fixpoint parse_fields (cols : Z * Z * Z) (i : Z) (ts : list bytes) (r : route) : route :=
  match ts with [] => r | t :: ts => parse_fields cols (i + 1) ts (store_field cols i t r) end.

(** [while (fgets(line, 255, fp) != NULL)]: every round takes at least one character, so
    the length of the file is enough [fuel]. *)
Fixpoint read_routes (fuel : nat) (cols : Z * Z * Z) (f : bytes) : list route :=
  match fuel, f with
  | O, _ | _, [] => []
  | S fuel, _ =>
    let '(line, f) := fgets LINE_LEN f in
    parse_fields cols 1 (strtok_all line) (mk_route None None None) :: read_routes fuel cols f
  end.

Definition use {A} (v : option A) : res A := match v with Some a => Ok a | None => Err Undefined end.

(** The loop that keeps the matching route with the greatest mask. *)
Fixpoint best_route (dest : Z) (rs : list route) (top : option route) (top_mask : Z) : res (option route) :=
  match rs with
  | [] => mret top
  | r :: rs =>
    d ← use (r_dest r);
    m ← use (r_mask r);
    if (Z.land (Z.lxor d dest) m =? 0) && (top_mask <=? m) then best_route dest rs (Some r) m
    else best_route dest rs top top_mask
  end.

(** [file]: the contents of /proc/net/route, [None] when it cannot be opened; [buf] has
    room for [len] characters.  The result and what [buf] holds. *)
Definition dtp_getifacename (file : option bytes) (dest : Z) (buf : option bytes) (len : Z)
  : res (Z * option bytes) :=
  match file with
  | None | Some [] => mret (-1, buf)
  | Some f =>
    let '(line, f) := fgets LINE_LEN f in
    let '(iface, destination, mask) := columns 1 (strtok_all line) (0, 0, 0) in
    if iface * destination * mask =? 0 then mret (-1, buf)
    else
      let routes := read_routes (length f) (iface, destination, mask) f in
      top ← best_route dest routes None 0;
      match top with
      | None => mret (-1, buf)
      | Some r =>
        name ← use (r_name r);
        match buf with
        | None => mret (-1, buf)
        | Some b =>
          (* strncpy of at most strlen(name) characters: no terminator is written *)
          let n := if zlen name <? len then zlen name else len in
          if in_block 0 n b then mret (0, Some (zsplice 0 (zslice 0 n name) b)) else Err OutOfBounds
        end
      end
  end.

(** ** The table the system prints

    Linux prints /proc/net/route with [seq_printf]: the names of the columns, then a line for
    every route, the fields separated by tabs and the line filled with blanks to 127
    characters (fib_route_seq_show of net/ipv4/fib_trie.c).  The fields are the interface, the
    destination, five more columns (gateway, flags, counts, metric), the mask and three more
    (MTU, window, IRTT); destination and mask are eight hexadecimal digits, the address in the
    byte order of the network read as a little-endian word. *)

Definition hexc (d : Z) : Z := if d <? 10 then 48 + d else 55 + d.
Fixpoint hexn (k : nat) (v : Z) : bytes :=
  match k with O => [] | S k => hexn k (v / 16) ++ [hexc (v mod 16)] end.

(** The mask of a prefix of [p] bits. *)
Definition prefix_mask (p : Z) : Z := of_le (be32 (2 ^ 32 - 2 ^ (32 - p))).

Record entry := mk_entry {
  e_name : bytes; e_dest : Z; e_more : list bytes; e_prefix : Z; e_rest : list bytes }.

Fixpoint tabbed (fields : list bytes) : bytes :=
  match fields with
  | [] => []
  | [t] => t
  | t :: fields => t ++ 9 :: tabbed fields
  end.

(** ["%-127s\n"] *)
Definition LINE_WIDTH : nat := 127.
Definition padding (l : bytes) : bytes := replicate (LINE_WIDTH - length l) 32 ++ [10].
Definition line_of (fields : list bytes) : bytes := tabbed fields ++ padding (tabbed fields).
Definition fields_of (e : entry) : list bytes :=
  e_name e :: hexn 8 (e_dest e) :: e_more e ++ hexn 8 (prefix_mask (e_prefix e)) :: e_rest e.
Definition proc_header : bytes :=
  line_of (str <$> ["Iface"; "Destination"; "Gateway "; "Flags"; "RefCnt"; "Use"; "Metric"; "Mask"; "";
                    "MTU"; "Window"; "IRTT"]%string).
Definition route_file (es : list entry) : bytes := proc_header ++ concat (map (λ e, line_of (fields_of e)) es).

(** A field: not empty, no separator in it. *)
Definition word (t : bytes) : Prop := t ≠ [] ∧ Forall (λ b, is_delim b = false ∧ b ≠ 0) t.

Record entry_ok (e : entry) : Prop := {
  eo_name : word (e_name e); eo_dest : is_u32 (e_dest e);
  eo_more : length (e_more e) = 5%nat ∧ Forall word (e_more e);
  eo_prefix : 0 ≤ e_prefix e ≤ 32; eo_rest : length (e_rest e) = 3%nat ∧ Forall word (e_rest e);
  eo_line : (length (line_of (fields_of e)) ≤ LINE_LEN)%nat }.

(** *** Numbers *)

Lemma hexc_digit d : 0 ≤ d < 16 → hex_digit (hexc d) = Some d.
Proof.
  intros Hd. unfold hexc, hex_digit. destruct (Z.ltb_spec d 10).
  - rewrite (proj2 (Z.leb_le 48 _)), (proj2 (Z.leb_le _ 57)) by lia. cbn. f_equal. lia.
  - rewrite (proj2 (Z.leb_le 48 _)), (proj2 (Z.leb_gt _ 57)), (proj2 (Z.leb_le 65 _)), (proj2 (Z.leb_le _ 70)) by lia.
    cbn. f_equal. lia.
Qed.

Lemma hexc_char d : 0 ≤ d < 16 → 48 ≤ hexc d ≤ 70.
Proof. intros Hd. unfold hexc. destruct (Z.ltb_spec d 10); lia. Qed.

Lemma hex_value_digits k v a l :
  0 ≤ v < 16 ^ Z.of_nat k →
  hex_value (Some a) (hexn k v ++ l) = hex_value (Some (a * 16 ^ Z.of_nat k + v)) l.
Proof.
  revert v l. induction k as [|k IH]; intros v l Hv.
  - cbn in *. f_equal. f_equal. lia.
  - rewrite Nat2Z.inj_succ, Z.pow_succ_r in * by lia. simpl hexn. rewrite <- app_assoc.
    pose proof (Z.mod_pos_bound v 16 ltac:(lia)). pose proof (Z.div_mod v 16 ltac:(lia)).
    rewrite IH by (split; [apply Z.div_pos; lia|apply Z.div_lt_upper_bound; lia]). cbn.
    rewrite hexc_digit by lia. cbn. f_equal. f_equal. nia.
Qed.

Lemma hexn_cons k v :
  0 ≤ v < 16 ^ Z.of_nat (S k) → ∃ d l, hexn (S k) v = hexc d :: l ∧ 0 ≤ d < 16.
Proof.
  revert v. induction k as [|k IH]; intros v Hv.
  - exists (v mod 16), []. split; [done|]. apply Z.mod_pos_bound. lia.
  - destruct (IH (v / 16)) as (d & l & E & Hd).
    + rewrite Nat2Z.inj_succ, Z.pow_succ_r in Hv by lia. split; [apply Z.div_pos; lia|apply Z.div_lt_upper_bound; lia].
    + change (hexn (S (S k)) v) with (hexn (S k) (v / 16) ++ [hexc (v mod 16)]). rewrite E. by eexists _, _.
Qed.

Lemma hexn_chars k v : 0 ≤ v < 16 ^ Z.of_nat k → Forall (λ b, 48 ≤ b ≤ 70) (hexn k v).
Proof.
  revert v. induction k as [|k IH]; intros v Hv; [constructor|].
  rewrite Nat2Z.inj_succ, Z.pow_succ_r in Hv by lia. apply Forall_app. split.
  - apply IH. split; [apply Z.div_pos; lia|apply Z.div_lt_upper_bound; lia].
  - apply Forall_singleton, hexc_char, Z.mod_pos_bound. lia.
Qed.

(** The number printed is read back. *)
Lemma sscanf_hex v : is_u32 v → sscanf_x (hexn 8 v) = Some v.
Proof.
  intros Hv. assert (Hv' : 0 ≤ v < 16 ^ Z.of_nat 8) by exact Hv.
  pose proof (hexn_chars 8 v Hv') as Hch. pose proof (hex_value_digits 8 v 0 [] Hv') as Hval.
  rewrite app_nil_r in Hval. destruct (hexn_cons 7 v Hv') as (d & l & E & Hd). rewrite E in *.
  apply Forall_cons in Hch as [Hc Hl]. unfold sscanf_x, scan_sign.
  rewrite (proj2 (Z.eqb_neq _ 45)), (proj2 (Z.eqb_neq _ 43)) by lia.
  assert (Hs : skip_0x (hexc d :: l) = hexc d :: l).
  { destruct l as [|b l]; [done|]. apply Forall_cons in Hl as [Hb _]. cbn.
    rewrite (proj2 (Z.eqb_neq b 120)), (proj2 (Z.eqb_neq b 88)), andb_false_r by lia. done. }
  rewrite Hs. assert (E0 : hex_value None (hexc d :: l) = hex_value (Some 0) (hexc d :: l)) by (cbn; by rewrite hexc_digit).
  rewrite E0, Hval. cbn [hex_value]. unfold is_u32 in Hv. rewrite (proj2 (Z.leb_gt _ _)) by lia.
  rewrite u32_small by (unfold is_u32; lia). done.
Qed.

(** The masks are ordered like the lengths of the prefixes: all of them are compared. *)
Definition prefixes : list Z := Z.of_nat <$> seq 0 33.

Lemma elem_of_prefixes p : 0 ≤ p ≤ 32 → In p prefixes.
Proof.
  intros Hp. apply list_elem_of_In, list_elem_of_fmap. exists (Z.to_nat p). split; [lia|]. apply elem_of_seq. lia.
Qed.

Lemma prefix_masks_checked :
  forallb (λ p, (0 <=? prefix_mask p) && (prefix_mask p <? 2 ^ 32) &&
    forallb (λ q, Bool.eqb (prefix_mask p <=? prefix_mask q) (p <=? q)) prefixes) prefixes = true.
Proof. vm_compute. reflexivity. Qed.

Lemma prefix_mask_range p : 0 ≤ p ≤ 32 → is_u32 (prefix_mask p).
Proof.
  intros Hp. pose proof (proj1 (forallb_forall _ _) prefix_masks_checked p (elem_of_prefixes p Hp)) as H.
  rewrite !andb_true_iff, Z.leb_le, Z.ltb_lt in H. unfold is_u32. tauto.
Qed.

Lemma prefix_mask_le p q :
  0 ≤ p ≤ 32 → 0 ≤ q ≤ 32 → (prefix_mask p <=? prefix_mask q) = (p <=? q).
Proof.
  intros Hp Hq. pose proof (proj1 (forallb_forall _ _) prefix_masks_checked p (elem_of_prefixes p Hp)) as H.
  apply andb_true_iff in H as [_ H]. rewrite forallb_forall in H.
  by apply Bool.eqb_prop, H, elem_of_prefixes.
Qed.

(** *** Lines *)

Lemma tokens_word t cur d l :
  Forall (λ b, is_delim b = false ∧ b ≠ 0) t → cur ++ t ≠ [] → is_delim d = true →
  tokens_from cur (t ++ d :: l) = (cur ++ t) :: tokens_from [] l.
Proof.
  revert cur. induction t as [|b t IH]; intros cur Ht Hne Hd.
  - rewrite app_nil_r in *. cbn. rewrite Hd. by destruct cur.
  - apply Forall_cons in Ht as [[Hb _] Ht]. cbn. rewrite Hb. replace (cur ++ b :: t) with ((cur ++ [b]) ++ t) in *
      by by rewrite <- app_assoc. by apply IH.
Qed.

Lemma c_string_id l : Forall (λ b, b ≠ 0) l → c_string l = l.
Proof. induction 1 as [|b l Hb _ IH]; [done|]. cbn. rewrite (proj2 (Z.eqb_neq _ _)) by done. by rewrite IH. Qed.

Lemma tabbed_cons t t2 ts : tabbed (t :: t2 :: ts) = t ++ 9 :: tabbed (t2 :: ts).
Proof. done. Qed.

(** Neither the end of a string nor the end of a line is in the fields. *)
Lemma tabbed_chars ts : Forall word ts → Forall (λ b, b ≠ 0 ∧ b ≠ 10) (tabbed ts).
Proof.
  assert (Hw : ∀ t, word t → Forall (λ b, b ≠ 0 ∧ b ≠ 10) t).
  { intros t [_ Ht]. eapply Forall_impl; [exact Ht|]. intros b [Hd ?]. split; [done|]. by intros ->. }
  induction 1 as [|t [|t2 ts] Ht _ IH]; [constructor|by apply Hw|]. rewrite tabbed_cons. apply Forall_app.
  split; [by apply Hw|by constructor].
Qed.

Lemma blank_chars n : Forall (λ b, b ≠ 0 ∧ b ≠ 10) (replicate n 32).
Proof. by apply Forall_replicate. Qed.

(** The blanks behind the last field make no token. *)
Lemma blanks_ends n : ∃ d l, replicate n 32 ++ [10] = d :: l ∧ is_delim d = true ∧ tokens_from [] l = [].
Proof.
  induction n as [|n (d & l & E & Hd & Hl)]; [by exists 10, []|]. exists 32, (replicate n 32 ++ [10]).
  split; [done|]. split; [done|]. rewrite E. cbn. by rewrite Hd.
Qed.

Lemma tokens_tabbed ts n : Forall word ts → tokens_from [] (tabbed ts ++ replicate n 32 ++ [10]) = ts.
Proof.
  destruct (blanks_ends n) as (d & l & -> & Hd & Hl). induction 1 as [|t [|t2 ts] [Hne Ht] _ IH].
  - cbn. by rewrite Hd.
  - cbn [tabbed]. rewrite tokens_word by done. by rewrite Hl.
  - rewrite tabbed_cons, <- app_assoc. cbn [app]. rewrite tokens_word by done. by rewrite IH.
Qed.

Lemma tokens_line ts : Forall word ts → strtok_all (line_of ts) = ts.
Proof.
  intros H. unfold strtok_all. rewrite c_string_id; [by apply tokens_tabbed|]. unfold line_of, padding.
  rewrite !Forall_app. split_and!; [| |by apply Forall_singleton].
  - eapply Forall_impl; [by apply tabbed_chars|]. by intros b [? _].
  - eapply Forall_impl; [apply blank_chars|]. by intros b [? _].
Qed.

Lemma fgets_line n l r :
  Forall (λ b, b ≠ 10) l → (length l < n)%nat → fgets n (l ++ 10 :: r) = (l ++ [10], r).
Proof.
  intros Hl. revert n. induction Hl as [|b l Hb Hl IH]; intros [|n] Hn; cbn in *; try lia; [done|].
  rewrite (proj2 (Z.eqb_neq _ _)) by done. by rewrite IH by lia.
Qed.

Lemma fgets_fields ts r :
  Forall word ts → (length (line_of ts) ≤ LINE_LEN)%nat → fgets LINE_LEN (line_of ts ++ r) = (line_of ts, r).
Proof.
  intros Hts Hlen. unfold line_of, padding in *. rewrite app_assoc in Hlen |- *. rewrite length_app in Hlen. cbn [length] in Hlen.
  rewrite <- app_assoc. cbn [app]. apply fgets_line; [|lia]. apply Forall_app.
  split; (eapply Forall_impl; [by apply tabbed_chars || apply blank_chars|]); by intros b [_ ?].
Qed.

(** *** The table *)

Definition cols : Z * Z * Z := (1, 2, 8).

Lemma header_read f :
  fgets LINE_LEN (proc_header ++ f) = (proc_header, f) ∧ columns 1 (strtok_all proc_header) (0, 0, 0) = cols.
Proof. split; [|reflexivity]. rewrite <- (app_nil_l f) at 2. reflexivity. Qed.

(** Columns that are not looked at. *)
Lemma store_skip i t r : i ≠ 1 → i ≠ 2 → i ≠ 8 → store_field cols i t r = r.
Proof. intros ? ? ?. cbn. by rewrite !(proj2 (Z.eqb_neq _ _)). Qed.

Lemma parse_skip ts i r : 8 < i → parse_fields cols i ts r = r.
Proof.
  revert i r. induction ts as [|t ts IH]; intros i r Hi; [done|]. cbn [parse_fields].
  rewrite store_skip by lia. apply IH. lia.
Qed.

Definition route_of (e : entry) : route :=
  mk_route (Some (e_name e)) (Some (e_dest e)) (Some (prefix_mask (e_prefix e))).

Lemma parse_line n t1 t2 ms rs d m :
  length ms = 5%nat → sscanf_x t1 = Some d → sscanf_x t2 = Some m →
  parse_fields cols 1 (n :: t1 :: ms ++ t2 :: rs) (mk_route None None None) = mk_route (Some n) (Some d) (Some m).
Proof.
  intros Hm E1 E2. destruct ms as [|a [|b [|c [|d' [|f [|]]]]]]; try done.
  cbn [app parse_fields]. rewrite parse_skip by lia. rewrite !(store_skip (1 + 1 + _)) by lia.
  unfold store_field, cols. cbn -[sscanf_x]. by rewrite E1, E2.
Qed.

Lemma parse_entry e : entry_ok e → parse_fields cols 1 (fields_of e) (mk_route None None None) = route_of e.
Proof. intros [_ Hd [Hm _] Hp _ _]. apply parse_line; [done|by apply sscanf_hex|by apply sscanf_hex, prefix_mask_range]. Qed.

Lemma entry_words e : entry_ok e → Forall word (fields_of e).
Proof.
  assert (Hx : ∀ v, is_u32 v → word (hexn 8 v)).
  { intros v Hv. split; [by intros ?%(f_equal length)|]. eapply Forall_impl; [by apply hexn_chars|]. intros b Hb.
    cbn in Hb. unfold is_delim. rewrite !orb_false_iff, !Z.eqb_neq. lia. }
  intros [Hn Hd [_ Hm] Hp Hr _]. unfold fields_of. 
  constructor; [done|]. constructor; [by apply Hx|]. apply Forall_app_2; [done|].
  constructor; [by apply Hx, prefix_mask_range|apply Hr].
Qed.

Lemma read_entries es fuel :
  Forall entry_ok es → let f := concat (map (λ e, line_of (fields_of e)) es) in
  (length f ≤ fuel)%nat → read_routes fuel cols f = route_of <$> es.
Proof.
  intros Hes. revert fuel. induction Hes as [|e es He Hes IH]; intros fuel f Hf; [by destruct fuel|].
  unfold f in *. clear f. cbn [map concat] in *. rewrite length_app in Hf.
  assert (Hl : (0 < length (line_of (fields_of e)))%nat) by (unfold line_of, padding; rewrite !length_app; cbn [length]; lia).
  destruct fuel as [|fuel]; [lia|]. cbn [read_routes].
  destruct (line_of (fields_of e) ++ _) as [|b f'] eqn:E; [apply (f_equal length) in E; rewrite length_app in E; cbn [length] in E; lia|].
  rewrite <- E, fgets_fields by (by apply entry_words || apply He). rewrite tokens_line by by apply entry_words.
  rewrite parse_entry by done. cbn. f_equal. apply IH. lia.
Qed.

(** *** The longest prefix *)

Definition matches (dest : Z) (e : entry) : Prop :=
  Z.land (Z.lxor (e_dest e) dest) (prefix_mask (e_prefix e)) = 0.

(** [e] is a route of the table to [dest], and none has a longer prefix. *)
Definition longest (dest : Z) (es : list entry) (e : entry) : Prop :=
  e ∈ es ∧ matches dest e ∧ ∀ e', e' ∈ es → matches dest e' → e_prefix e' ≤ e_prefix e.

Definition mask_of (t : option entry) : Z := match t with Some e => prefix_mask (e_prefix e) | None => 0 end.

Lemma best_route_spec dest es t :
  Forall entry_ok es → (∀ e, t = Some e → 0 ≤ e_prefix e ≤ 32) →
  ∃ t', best_route dest (route_of <$> es) (route_of <$> t) (mask_of t) = Ok (route_of <$> t') ∧
    match t' with
    | None => t = None ∧ ∀ e, e ∈ es → ¬ matches dest e
    | Some e => (t = Some e ∨ e ∈ es ∧ matches dest e) ∧ (∀ e0, t = Some e0 → e_prefix e0 ≤ e_prefix e) ∧
                ∀ e', e' ∈ es → matches dest e' → e_prefix e' ≤ e_prefix e
    end.
Proof.
  intros Hes. revert t. induction Hes as [|e es He Hes IH]; intros t Ht.
  { exists t. split; [done|]. destruct t as [e|].
    - split_and!; [by left|by intros e0 [= ->]|by intros ? ?%not_elem_of_nil].
    - split; [done|]. by intros ? ?%not_elem_of_nil. }
  pose proof (eo_prefix _ He) as Hp. cbn -[mask_of Z.leb].
  assert (Hle : (mask_of t <=? prefix_mask (e_prefix e)) = true ↔ ∀ e0, t = Some e0 → e_prefix e0 ≤ e_prefix e).
  { destruct t as [e0|]; cbn [mask_of].
    - rewrite prefix_mask_le, Z.leb_le by (done || by apply Ht). split; [by intros ? ? [= <-]|auto].
    - rewrite Z.leb_le. destruct (prefix_mask_range _ Hp). split; [done|lia]. }
  destruct (Z.land _ _ =? 0) eqn:Em; [apply Z.eqb_eq in Em|apply Z.eqb_neq in Em]; cbn [andb].
  destruct (mask_of t <=? _) eqn:El.
  - destruct (IH (Some e)) as (t' & E & Hs); [by intros ? [= <-]|]. exists t'. split; [exact E|].
    destruct t' as [e1|]; [|by destruct Hs]. destruct Hs as (H1 & H2 & H3). specialize (H2 e eq_refl).
    pose proof (proj1 Hle eq_refl) as Ht'. split_and!.
    + right. destruct H1 as [[= <-]|[? ?]]; (split; [|done]); [by left|by right].
    + intros e0 He0. specialize (Ht' e0 He0). lia.
    + intros e' [-> | Hin]%elem_of_cons Hm; [done|by apply H3].
  - destruct (IH t Ht) as (t' & E & Hs). exists t'. split; [exact E|]. destruct t as [e0|].
    2: { destruct Hle as [_ Hle]. discriminate Hle. by intros. }
    destruct t' as [e1|]; [|by destruct Hs]. destruct Hs as (H1 & H2 & H3). split_and!; [|done|].
    + destruct H1 as [?|[? ?]]; [by left|right]. split; [by right|done].
    + intros e' [-> | Hin]%elem_of_cons Hm; [|by apply H3]. specialize (H2 e0 eq_refl).
      cbn [mask_of] in El. rewrite prefix_mask_le, Z.leb_gt in El by (done || by apply Ht). lia.
  - destruct (IH t Ht) as (t' & E & Hs). exists t'. split; [exact E|]. destruct t' as [e1|].
    + destruct Hs as (H1 & H2 & H3). split_and!; [|done|].
      * destruct H1 as [?|[? ?]]; [by left|right]. split; [by right|done].
      * by intros e' [-> | Hin]%elem_of_cons Hm; [|apply H3].
    + destruct Hs as [-> Hn]. split; [done|]. by intros e' [-> | Hin]%elem_of_cons; [|apply Hn].
Qed.

(** What [dtp_getifacename] finds in a table. *)
Lemma getifacename_spec es dest b :
  Forall entry_ok es →
  ∃ r, dtp_getifacename (Some (route_file es)) dest (Some b) (zlen b) = Ok r ∧
    ((∀ e, e ∈ es → ¬ matches dest e) ∧ r = (-1, Some b) ∨
     ∃ e, longest dest es e ∧
          r = (0, Some (zsplice 0 (zslice 0 (Z.min (zlen (e_name e)) (zlen b)) (e_name e)) b))).
Proof.
  intros Hes. unfold dtp_getifacename, route_file. set (f := concat _). destruct (header_read f) as [E1 E2].
  assert (Hne : proc_header ++ f ≠ []) by by intros [? _]%app_eq_nil.
  destruct (proc_header ++ f) as [|c0 f0]; [done|]. rewrite E1, E2. unfold cols at 1. cbn [Z.mul Pos.mul Z.eqb].
  unfold f. rewrite (read_entries es) by done.
  destruct (best_route_spec dest es None Hes ltac:(done)) as (t' & E & Hs). cbn [fmap option_fmap option_map mask_of] in E.
  rewrite E. cbn [mbind res_bind]. destruct t' as [e|]; cbn [fmap option_fmap option_map].
  - destruct Hs as ([?|[Hin Hm]] & _ & Hl); [done|]. cbn [r_name route_of use].
    assert (Hn : (if zlen (e_name e) <? zlen b then zlen (e_name e) else zlen b) = Z.min (zlen (e_name e)) (zlen b))
      by (destruct (Z.ltb_spec (zlen (e_name e)) (zlen b)); lia).
    unfold use, route_of. cbn beta iota zeta delta [r_name mbind res_bind]. rewrite Hn. pose proof (zlen_nonneg (e_name e)). pose proof (zlen_nonneg b).
    rewrite (proj2 (in_block_spec 0 _ b)) by lia. eexists. split; [done|]. right. by exists e.
  - destruct Hs as [_ Hn]. eexists. split; [done|]. left. by split.
Qed.

(** ** The lock time *)

Definition MAX_CPULOCK_INTERVAL : Z := 180.

(** The conversion of a [double] to [int]: towards zero; [None] when the value does not
    fit (the behaviour is undefined). *)
Definition d_to_int (x : double) : option Z :=
  match x with
  | S754_zero _ => Some 0
  | S754_finite s m e =>
    let v := if 0 <=? e then Zpos m * 2 ^ e else Zpos m / 2 ^ (- e) in
    let v := if s then - v else v in
    if (- 2 ^ 31 <=? v) && (v <? 2 ^ 31) then Some v else None
  | _ => None
  end.

(** [locktime_new]: how long the block of the connection can still wait (negative), or
    how long it is to the deadline. *)
Definition lock_value (now : double) (x : dtp_context) : option Z :=
  let req_time := d_div (d_of_Z (tc_blockRemain x)) (tc_mobileSpeed x) in
  let diff := d_sub (d_of_tv (tc_deadlineTime x)) now in
  d_to_int (if d_lt (d_sub req_time diff) (d_of_Z 0) then d_sub req_time diff else diff).

(** A connection that keeps the processor awake: it has no deadline, or the speed of the
    mobile network is not known. *)
Definition no_deadline (x : dtp_context) : bool :=
  negb (tc_isDeadlineSet x) || SFeqb (tc_mobileSpeed x) (d_of_Z 0).

Fixpoint lock_loop (now : double) (q : list Z) (locktime : Z) : M Z :=
  match q with
  | [] => mret locktime
  | ctx :: q =>
    x ← getctx ctx;
    if no_deadline x then mret MAX_CPULOCK_INTERVAL
    else
      locktime_new ← lift_res (use (lock_value now x));
      let locktime := c_max locktime locktime_new in
      if MAX_CPULOCK_INTERVAL <=? locktime then mret MAX_CPULOCK_INTERVAL else lock_loop now q locktime
  end.

Definition dtp_getlocktime {env : Env} (file : option bytes) : M Z :=
  r ← lift_res (dtp_getifacename file 0 (Some [0]) 1);
  if r.1 =? -1 then mret (- MAX_CPULOCK_INTERVAL)
  else
    tv ← gettimeofday;
    q ← gets w_retTimerQ;
    lock_loop (d_of_tv tv) q (- MAX_CPULOCK_INTERVAL).

(** The time of a connection, when it has one. *)
Definition time_of (now : double) (x : dtp_context) : Z :=
  if no_deadline x then MAX_CPULOCK_INTERVAL else default 0 (lock_value now x).

Lemma foldl_max_ge l a : a ≤ foldl Z.max a l.
Proof. revert a. induction l as [|b l IH]; intros a; cbn; [lia|]. specialize (IH (Z.max a b)). lia. Qed.

(** The loop computes the greatest of the times, cut at the interval. *)
Lemma lock_loop_spec now xs q t w :
  Forall2 (λ c x, ctx_at w c = Some x ∧ (no_deadline x = true ∨ is_Some (lock_value now x))) q xs →
  t < MAX_CPULOCK_INTERVAL →
  lock_loop now q t w = Ok (Z.min MAX_CPULOCK_INTERVAL (foldl Z.max t (time_of now <$> xs)), w).
Proof.
  intros H. revert t. induction H as [|c x q xs [Hx Hv] _ IH]; intros t Ht.
  { cbn [lock_loop fmap list_fmap foldl]. rewrite Z.min_r by lia. done. }
  cbn [lock_loop fmap list_fmap foldl]. unfold mbind at 1, M_bind, getctx. rewrite Hx. unfold time_of at 1.
  destruct (no_deadline x) eqn:En.
  { unfold mret, M_ret. f_equal. f_equal. pose proof (foldl_max_ge (time_of now <$> xs) (Z.max t MAX_CPULOCK_INTERVAL)). lia. }
  destruct Hv as [?|[v Hv]]; [done|]. rewrite Hv. cbn [default from_option id].
  unfold mbind, M_bind, lift_res, use. replace (c_max t v) with (Z.max t v) by (unfold c_max; destruct (Z.ltb_spec v t); lia).
  destruct (Z.leb_spec MAX_CPULOCK_INTERVAL (Z.max t v)).
  - unfold mret, M_ret. f_equal. f_equal. pose proof (foldl_max_ge (time_of now <$> xs) (Z.max t v)). lia.
  - by apply IH.
Qed.

(** The lock time is between the bounds of the interval: the greatest time of the
    connections with the timer, or the least value without a default route. *)
Lemma locktime_bounded {env : Env} es xs w :
  Forall entry_ok es →
  let now := d_of_tv (env_clock (w_nclock w)) in
  Forall2 (λ c x, ctx_at w c = Some x ∧ (no_deadline x = true ∨ is_Some (lock_value now x))) (w_retTimerQ w) xs →
  wp (dtp_getlocktime (Some (route_file es))) (λ r _,
    - MAX_CPULOCK_INTERVAL ≤ r ≤ MAX_CPULOCK_INTERVAL ∧
    ((∀ e, e ∈ es → ¬ matches 0 e) ∧ r = - MAX_CPULOCK_INTERVAL ∨
     r = Z.min MAX_CPULOCK_INTERVAL (foldl Z.max (- MAX_CPULOCK_INTERVAL) (time_of now <$> xs)))) w.
Proof.
  intros Hes now Hq. unfold dtp_getlocktime. apply wp_bind.
  destruct (getifacename_spec es 0 [0] Hes) as (r & E & Hr). change (zlen [0]) with 1 in E, Hr.
  eapply wp_lift; [exact E|]. destruct Hr as [[Hn ->]|(e & He & ->)]; cbn [fst Z.eqb Pos.eqb].
  { apply wp_ret. split; [done|]. by left. }
  apply wp_bind. unfold gettimeofday. unfold wp at 1. apply wp_bind, wp_gets.
  eapply run_wp; [apply (lock_loop_spec _ xs); [exact Hq|done]|]. split; [|by right].
  pose proof (foldl_max_ge (time_of (d_of_tv (env_clock (w_nclock w))) <$> xs) (- MAX_CPULOCK_INTERVAL)).
  assert (MAX_CPULOCK_INTERVAL = 180) by done. lia.
Qed.

(** C40: The interface of an address is the one of its longest prefix.  On a table as Linux
    prints it (fields separated by tabs, lines filled with blanks to 127 characters, masks that
    are prefixes), [dtp_getifacename] finds no route exactly when no entry matches the
    address; otherwise it copies the name of the interface of a matching entry none of
    which has a longer prefix, cut to the buffer and not terminated. *)
Theorem iface_longest_prefix es dest b :
  Forall entry_ok es →
  ∃ r, dtp_getifacename (Some (route_file es)) dest (Some b) (zlen b) = Ok r ∧
    ((∀ e, e ∈ es → ¬ matches dest e) ∧ r = (-1, Some b) ∨
     ∃ e, longest dest es e ∧
          r = (0, Some (zsplice 0 (zslice 0 (Z.min (zlen (e_name e)) (zlen b)) (e_name e)) b))).
Proof. apply getifacename_spec. Qed.

(** A host with a default route over the mobile network and a Wi-Fi network 10.0.0.0/8. *)
Definition demo_routes : list entry :=
  let zs := str <$> ["00000000"; "0001"; "0"; "0"; "0"]%string in
  let rest := str <$> ["0"; "0"; "0"]%string in
  [mk_entry (str "rmnet0") 0 zs 0 rest; mk_entry (str "wlan0") 10 zs 8 rest].

Lemma demo_routes_ok : Forall entry_ok demo_routes.
Proof.
  repeat constructor; try done; cbn; lia.
Qed.

Example iface_longest_prefix_witness :
  ∃ r, dtp_getifacename (Some (route_file demo_routes)) 167772170 (Some (zeros 16)) (zlen (zeros 16)) = Ok r ∧
    ((∀ e, e ∈ demo_routes → ¬ matches 167772170 e) ∧ r = (-1, Some (zeros 16)) ∨
     ∃ e, longest 167772170 demo_routes e ∧
       r = (0, Some (zsplice 0 (zslice 0 (Z.min (zlen (e_name e)) (zlen (zeros 16))) (e_name e)) (zeros 16)))).
Proof. apply (iface_longest_prefix demo_routes 167772170 (zeros 16)). apply demo_routes_ok. Defined.

(** 10.0.0.10 goes over the Wi-Fi network. *)
Example demo_route :
  dtp_getifacename (Some (route_file demo_routes)) 167772170 (Some (zeros 6)) 6 = Ok (0, Some (str "wlan0" ++ [0])).
Proof. vm_compute. reflexivity. Qed.

(** A line with too few columns leaves the route it stands for uninitialised. *)
Example short_line_undefined :
  dtp_getifacename (Some (route_file demo_routes ++ str "lo" ++ [10])) 167772170 (Some (zeros 6)) 6 = Err Undefined.
Proof. vm_compute. reflexivity. Qed.
