(* ===== verification/Mobile.v ===== *)
(** * Interfaces, deadlines and the upload scheduler of the mobile build (dtp_mobile.c, scheduler.c)

    In the build for a phone (IN_MOBILE) the library watches the Wi-Fi and the cellular
    interface, measures their speed, and every five seconds decides which connection may
    send: the one with the earliest deadline, and over the cellular network only when its
    deadline could not be met otherwise.  The static variables of dtp_mobile.h, as
    dtp_mobile.c has them, are the record [mobile].  HAVE_SCHEDULER is not defined. *)

From S2P Require Import Prelude Double Header Context World ContextTable Pools RetransQueue.
From S2P Require Import Select Congestion Lifecycle Send Scenario Services Timeout Route.
From Stdlib Require Import Sorting.Sorted.
From Stdlib Require Import (notations) Strings.String.

Record mobile := mk_mobile {
  g_mobileConnected : bool; g_wifiConnected : bool; g_wifiActivated : bool;
  g_mobileSpeed : double; g_wifiSpeed : double; g_useScheduler : bool;
  networkTypeLast : Z; ipaddrLast : Z }.

(** Their initial values. *)
Definition mobile_init : mobile := mk_mobile false false true (d_of_Z 1) (d_of_Z 1) false 0 0.

Definition IsMobileConnected (m : mobile) : bool := g_mobileConnected m.
Definition IsWiFiConnected (m : mobile) : bool := g_wifiConnected m.

Definition with_activated (b : bool) (m : mobile) : mobile :=
  mk_mobile (g_mobileConnected m) (g_wifiConnected m) b (g_mobileSpeed m) (g_wifiSpeed m) (g_useScheduler m)
    (networkTypeLast m) (ipaddrLast m).
Definition SetMobileToUse (m : mobile) : mobile := with_activated false m.
Definition SetWiFiToUse (m : mobile) : mobile := with_activated true m.

Definition GetCurrentNetworkType (m : mobile) : Z :=
  if IsWiFiConnected m then 1 else if IsMobileConnected m then 2 else 0.

(** Whether packets of a connection may be sent now. *)
Definition IsAvailConnection (m : mobile) (x : dtp_context) : bool :=
  if g_useScheduler m then
    if is_state (tc_state x) SOCK_ESTABLISHED then negb (tc_isDeadlineSet x) || tc_scheduleSend x else true
  else
    ((g_mobileConnected m && tc_useMobile x) || g_wifiConnected m) &&
    (if negb (is_state (tc_state x) SOCK_ESTABLISHED) || (tc_rcvLoBufHB x =? 0) then true
     else if tc_limitRcvBuf x then u32 (GetReadBufDataSize x) <? tc_rcvLoBufHB x else true).

(** ** Measuring the cellular network *)

Definition DTPStartMobileBWMeasuring (x : dtp_context) : dtp_context :=
  x <| tc_isMobileBWMeasuring := true |> <| tc_mobileCounter := 0 |> <| tc_lastBlockRemain := tc_blockRemain x |>.
Definition DTPStopMobileBWMeasuring (x : dtp_context) : dtp_context := x <| tc_isMobileBWMeasuring := false |>.
Definition DTPCalculateMobileBW (x : dtp_context) : dtp_context :=
  x <| tc_mobileSpeed := d_div (d_of_Z (tc_lastBlockRemain x -u tc_blockRemain x)) (d_of_Z 5) |>
    <| tc_mobileCounter := 0 |> <| tc_lastBlockRemain := tc_blockRemain x |>.

(** The choice of the network for a connection with [left] seconds, and the measurement: the
    same lines in [HandleDeadline] and [DTPHandleWifiEvent]. *)
Definition choose_network (m : mobile) (left : double) (x : dtp_context) : dtp_context :=
  let x :=
    if d_le (d_mul left (tc_mobileSpeed x)) (d_of_Z (tc_blockRemain x)) && negb (tc_isWifiOnly x)
    then x <| tc_useMobile := true |>
    else if (0 <? tc_deadline x) && negb (g_wifiConnected m) then x <| tc_useMobile := false |>
    else x in
  let x := if (tc_useMobile x && g_mobileConnected m) && negb (tc_isMobileBWMeasuring x)
           then DTPStartMobileBWMeasuring x else x in
  let x := if negb (tc_useMobile x && g_mobileConnected m) && tc_isMobileBWMeasuring x
           then DTPStopMobileBWMeasuring x else x in
  if tc_isMobileBWMeasuring x then
    let x := x <| tc_mobileCounter := tc_mobileCounter x + 1 |> in
    if tc_mobileCounter x =? 5 then DTPCalculateMobileBW x else x
  else x.

(** ** The scheduler *)

(** The time a connection needs on the cellular network; its deadline and one second. *)
Definition need (cSpeed : double) (x : dtp_context) : double :=
  d_div (d_mul (d_of_Z (tc_blockRemain x)) (d_of_Z 8)) (d_mul (d_mul cSpeed (d_of_Z 1000)) (d_of_Z 1000)).
Definition due (x : dtp_context) : double := d_add (d_of_tv (tc_deadlineTime x)) (d_of_Z 1).

(** [MIN(a, b)] *)
Definition d_MIN (a b : double) : double := if d_lt a b then a else b.
Definition d_is_zero (a : double) : bool := d_le a (d_of_Z 0) && d_le (d_of_Z 0) a.

(** One step of the loop from the last connection of the queue to the first. *)
Definition edf_step (cSpeed : double) (T_EDF : double) (x : dtp_context) : double :=
  if d_is_zero T_EDF then d_sub (due x) (need cSpeed x)
  else d_sub (d_MIN T_EDF (due x)) (need cSpeed x).

Fixpoint schedule_loop (cSpeed : double) (l : list Z) (T_EDF : double) : M double :=
  match l with
  | [] => mret T_EDF
  | ctx :: l =>
    x ← getctx ctx;
    let T_EDF := edf_step cSpeed T_EDF x in
    ctx ->> tc_scheduleSend := false;;
    schedule_loop cSpeed l T_EDF
  end.

Section env.
Context {env : Env}.

Definition Schedule (m : mobile) (wSpeed cSpeed : double) : M mobile :=
  tv ← gettimeofday;
  let now := d_of_tv tv in
  q ← gets w_retTimerQ;
  T_EDF ← schedule_loop cSpeed (rev q) (d_of_Z 0);
  let late := d_le (d_sub T_EDF now) (d_of_Z 0) in
  match q with
  | [] => mret m
  | ctx :: _ =>
    if IsMobileConnected m then (ctx ->> tc_scheduleSend := late;; mret m)
    else
      ctx ->> tc_scheduleSend := true;;
      mret (if d_lt wSpeed cSpeed && late then SetMobileToUse m else SetWiFiToUse m)
  end.

(** [DTPSendACKPacket] in this build. *)
Definition DTPSendACKPacket_mobile (m : mobile) (ctx : Z) : M Z :=
  x ← getctx ctx;
  let flags := if IsMobileConnected m then Z.lor DTP_FLAG_ACK DTP_FLAG_MOBILE else DTP_FLAG_ACK in
  if IsAvailConnection m x then send_header ctx (zeros DTPHDRSIZE) flags else mret 0.

(** ** The deadline timer *)

(** The bytes that all connections have transferred since the last time. *)
Fixpoint sum_transferred (l : list Z) (total : double) : M double :=
  match l with
  | [] => mret total
  | ctx :: l =>
    x ← getctx ctx;
    ctx ->> tc_lastBlockRemain := tc_blockRemain x;;
    sum_transferred l (d_add total (d_of_Z (tc_lastBlockRemain x -u tc_blockRemain x)))
  end.

Definition mbps (total : double) : double :=
  d_div (d_div (d_div (d_mul (d_of_Z 8) total) (d_of_Z 1000)) (d_of_Z 1000)) (d_of_Z 5).

Definition with_speeds (cell wifi : double) (m : mobile) : mobile :=
  mk_mobile (g_mobileConnected m) (g_wifiConnected m) (g_wifiActivated m) cell wifi (g_useScheduler m)
    (networkTypeLast m) (ipaddrLast m).

Definition measure_speed (m : mobile) (q : list Z) : M mobile :=
  match q with
  | [] => mret m
  | ctx :: _ =>
    x ← getctx ctx;
    if tc_scheduleSend x then
      total ← sum_transferred q (d_of_Z 0);
      let some := d_lt (d_of_Z 0) total in
      mret (if g_wifiConnected m && some then
              if g_wifiActivated m then with_speeds (g_mobileSpeed m) (mbps total) m
              else with_speeds (mbps total) (g_wifiSpeed m) m
            else if g_mobileConnected m && some then with_speeds (mbps total) (g_wifiSpeed m) m
            else m)
    else mret m
  end.

(** The body of the loop over the queue. *)
Definition check_deadline (m : mobile) (now : double) (ctx : Z) : M unit :=
  x ← getctx ctx;
  if tc_isDeadlineSet x && (0 <? tc_deadline x) then
    let diff := d_sub (d_of_tv (tc_deadlineTime x)) now in
    if d_le diff (d_of_Z 0) then DTPCloseConnection ctx
    else mwhen (negb (g_useScheduler m)) (modctx ctx (choose_network m (d_sub diff (d_of_Z 30))))
  else mret tt.

Definition announce_alive (m : mobile) (ctx : Z) : M unit :=
  x ← getctx ctx;
  mwhen (is_state (tc_state x) SOCK_ESTABLISHED)
    (modctx ctx (λ x, x <| tc_schedAllowTime := tc_schedAllowTime x + 1 |>);;
     DTPSendACKPacket_mobile m ctx;; mret tt).

(** Closing a connection takes it off the queue, which ends the first loop. *)
Definition HandleDeadline (m : mobile) : M mobile :=
  tv ← gettimeofday;
  let now := d_of_tv tv in
  timer_lock;;
  q ← gets w_retTimerQ;
  m ← measure_speed m q;
  queue_each q (check_deadline m now);;
  m ← (if g_useScheduler m then Schedule m (g_wifiSpeed m) (g_mobileSpeed m) else mret m);
  q ← gets w_retTimerQ;
  queue_each q (announce_alive m);;
  timer_unlock;;
  mret m.

(** ** Changes of the interfaces *)

(** A netlink message about an address: whether it was added or removed, and for every
    attribute IFA_LOCAL what the buffer [name] holds after [if_indextoname] and the address. *)
Record addr_msg := mk_addr_msg { am_new : bool; am_attrs : list (bytes * Z) }.

(** [!strncmp(name, s, n)] for a text [s] of [n] characters *)
Definition starts_with (s name : bytes) : bool := bool_decide (take (length s) name = s).

(** What the messages say: [Some true] (RTM_NEWADDR) or [Some false] (RTM_DELADDR) for each
    kind of interface, whether there was another one, and the last address added. *)
Record link_events := mk_links { wlan_event : option bool; rmnet_event : option bool; indextoname_err : bool; ipaddrNow : Z }.

Definition note_attr (added : bool) (ev : link_events) (attr : bytes * Z) : link_events :=
  let '(name, ip) := attr in
  let ev := if starts_with (str "wlan") name then mk_links (Some added) (rmnet_event ev) (indextoname_err ev) (ipaddrNow ev)
            else if starts_with (str "rmnet") name then mk_links (wlan_event ev) (Some added) (indextoname_err ev) (ipaddrNow ev)
            else mk_links (wlan_event ev) (rmnet_event ev) true (ipaddrNow ev) in
  if added then mk_links (wlan_event ev) (rmnet_event ev) (indextoname_err ev) ip else ev.

Definition note_msgs (msgs : list addr_msg) : link_events :=
  foldl (λ ev a, foldl (note_attr (am_new a)) ev (am_attrs a)) (mk_links None None false 0) msgs.

Definition with_links (cell wifi : bool) (m : mobile) : mobile :=
  mk_mobile cell wifi (g_wifiActivated m) (g_mobileSpeed m) (g_wifiSpeed m) (g_useScheduler m) (networkTypeLast m) (ipaddrLast m).

(** The interface of the default route decides; [route] is the routing table. *)
Definition links_by_route (route : option bytes) (m : mobile) : M mobile :=
  '(_, ifname) ← lift_res (dtp_getifacename route 0 (Some (malloc_bytes 100)) 100);
  let ifname := default [] ifname in
  mret (if starts_with (str "wlan") ifname then with_links false true m
        else if starts_with (str "rmnet") ifname then with_links true false m
        else with_links false false m).

Definition set_links (ev : link_events) (m : mobile) : mobile :=
  with_links (default (g_mobileConnected m) (rmnet_event ev)) (default (g_wifiConnected m) (wlan_event ev)) m.

(** What the loop over the connections does with one of them. *)
Definition wifi_event_one (m : mobile) (ev : link_events) (now : double) (route : option bytes) (ipLast : Z) (ctx : Z) : M Z :=
  modctx ctx (λ x, x <| tc_wifiAvailable := default (tc_wifiAvailable x) (wlan_event ev) |>
                     <| tc_mobileAvailable := default (tc_mobileAvailable x) (rmnet_event ev) |>);;
  mwhen (g_wifiConnected m || g_mobileConnected m)
    (x ← getctx ctx;
     mwhen (is_state (tc_state x) SOCK_ESTABLISHED)
       (DTPSendACKPacket_mobile m ctx;;
        ctx ->> tc_isNetConnected := true);;
     modctx ctx (λ x, choose_network m (d_sub (d_of_tv (tc_deadlineTime x)) now) x));;
  tvv ← gettimeofday;
  lift_res (dtp_getifacename route 0 (Some (zeros 100)) 100);;
  x ← getctx ctx;
  if negb (networkTypeLast m =? GetCurrentNetworkType m) && is_state (tc_state x) SOCK_ESTABLISHED then
    modctx ctx (λ x, x <| tc_networkTimeLast := now |> <| tc_blockRemainLast := tc_blockRemain x |> <| tc_schedAllowTime := 0 |>);;
    mret (ipaddrNow ev)
  else mret ipLast.

Fixpoint wifi_event_loop (m : mobile) (ev : link_events) (now : double) (route : option bytes) (q : list Z) (ipLast : Z) : M Z :=
  match q with
  | [] => mret ipLast
  | ctx :: q => ipLast ← wifi_event_one m ev now route ipLast ctx; wifi_event_loop m ev now route q ipLast
  end.

Definition DTPHandleWifiEvent (m : mobile) (msgs : list addr_msg) (route : option bytes) : M mobile :=
  tv ← gettimeofday;
  let now := d_of_tv tv in
  let ev := note_msgs msgs in
  let m := set_links ev m in
  m ← (if indextoname_err ev then links_by_route route m else mret m);
  q ← gets w_retTimerQ;
  ip ← wifi_event_loop m ev now route q (ipaddrLast m);
  mret (mk_mobile (g_mobileConnected m) (g_wifiConnected m) (g_wifiActivated m) (g_mobileSpeed m) (g_wifiSpeed m)
          (g_useScheduler m) (GetCurrentNetworkType m) ip).

(** ** Initialisation *)

(** [new_ctx->tc_limitRcvBuf == 1;] is a comparison and has no effect. *)
Definition DTPMobileContextInit (x : dtp_context) : dtp_context :=
  x <| tc_useMobile := true |> <| tc_mobileSpeed := d_of_Z 0 |> <| tc_wifiAvailable := false |> <| tc_mobileAvailable := true |>.

(** The variables after [DTPMobileEventInit], which registers the handlers; [ip] is the address
    of the interface of the default route. *)
Definition DTPMobileEventInit (route : option bytes) (ip : Z) (m : mobile) : M mobile :=
  '(_, ifname) ← lift_res (dtp_getifacename route 0 (Some (malloc_bytes 100)) 100);
  let ifname := default [] ifname in
  let m := if starts_with (str "wlan") ifname then with_links false true m
           else if starts_with (str "rmnet") ifname then with_links true false m else m in
  mret (mk_mobile (g_mobileConnected m) (g_wifiConnected m) (g_wifiActivated m) (g_mobileSpeed m) (g_wifiSpeed m)
          true (GetCurrentNetworkType m) ip).
End env.

(** ** Which connection may send *)

(** The contexts of a list of connections. *)
Definition contexts (w : world) (l : list Z) (xs : list dtp_context) : Prop := Forall2 (λ c x, ctx_at w c = Some x) l xs.

Lemma schedule_loop_spec cs l : ∀ xs T w (Q : double → world → Prop),
  contexts w l xs →
  (∀ w', (∀ c x, c ∈ l → ctx_at w c = Some x → ctx_at w' c = Some (x <| tc_scheduleSend := false |>)) →
     (∀ c, c ∉ l → ctx_at w' c = ctx_at w c) → w' = w <| w_ctxs := w_ctxs w' |> → Q (foldl (edf_step cs) T xs) w') →
  wp (schedule_loop cs l T) Q w.
Proof.
  induction l as [|c l IH]; intros xs T w Q Hl HQ.
  { apply Forall2_nil_inv_l in Hl as ->. apply wp_ret, HQ; [by intros c x ?%elem_of_nil|done|by destruct w]. }
  apply Forall2_cons_inv_l in Hl as (x & xs' & Hx & Hl & ->). cbn [schedule_loop]. apply wp_bind. eapply wp_getctx; [exact Hx|].
  apply wp_bind. eapply wp_modctx; [exact Hx|]. set (w1 := set w_ctxs _ w). set (x1 := set tc_scheduleSend _ x) in w1.
  assert (Hx1 : ctx_at w1 c = Some x1) by (by eapply ctx_at_put).
  assert (Hne : ∀ c', c' ≠ c → ctx_at w1 c' = ctx_at w c') by (intros; unfold w1; by apply ctx_at_put_ne).
  assert (Hl1 : ∃ ys, contexts w1 l ys ∧ ∀ T, foldl (edf_step cs) T ys = foldl (edf_step cs) T xs').
  { clear -Hl Hx Hx1 Hne x1. induction Hl as [|c' y l xs' Hy _ [ys [I1 I2]]]; [exists []; split; [constructor|done]|].
    destruct (decide (c' = c)) as [->|Hc].
    - exists (x1 :: ys). split; [by constructor|]. intros T. simpl. rewrite I2. assert (y = x) as -> by congruence. reflexivity.
    - exists (y :: ys). split; [constructor; [by rewrite Hne|done]|]. intros T. simpl. by rewrite I2. }
  destruct Hl1 as (ys & Hl1 & Ef). apply (IH ys); [done|].
  intros w' Hin Hout E. rewrite Ef. apply HQ.
  - intros c' y Hc' Hy. destruct (decide (c' = c)) as [->|Hcc].
    + simplify_eq. destruct (decide (c ∈ l)) as [Hi|Hi]; [|by rewrite Hout].
      rewrite (Hin c _ Hi Hx1). unfold x1. by destruct x.
    + apply elem_of_cons in Hc' as [->|Hc']; [done|]. apply (Hin c' y Hc'). by rewrite Hne.
  - intros c' [? ?]%not_elem_of_cons. rewrite Hout by done. by apply Hne.
  - rewrite E. unfold w1. by destruct w.
Qed.

(** The latest time at which the transfers must start, in the order of the queue. *)
Definition edf_time (cs : double) (xs : list dtp_context) : double := foldr (λ x T, edf_step cs T x) (d_of_Z 0) xs.

Lemma edf_time_rev cs xs : foldl (edf_step cs) (d_of_Z 0) (rev xs) = edf_time cs xs.
Proof. induction xs as [|x xs IH]; [done|]. cbn [rev]. rewrite foldl_app, IH. reflexivity. Qed.

Lemma contexts_of w l : (∀ c, c ∈ l → is_Some (ctx_at w c)) → ∃ xs, contexts w l xs.
Proof.
  induction l as [|c l IH]; intros H; [exists []; constructor|].
  destruct (H c) as [x Hx]; [left|]. destruct IH as [xs Hxs]; [intros; apply H; by right|].
  exists (x :: xs). by constructor.
Qed.

Lemma contexts_rev w l xs : contexts w l xs → contexts w (rev l) (rev xs).
Proof. induction 1; simpl; [constructor|]. apply Forall2_app; [done|]. by repeat constructor. Qed.

(** Whether the head of the queue may send: always over Wi-Fi, over the cellular network when
    waiting longer could miss a deadline. *)
Definition late (cSpeed now : double) (xs : list dtp_context) : bool := d_le (d_sub (edf_time cSpeed xs) now) (d_of_Z 0).
Definition allowed (m : mobile) (cSpeed now : double) (xs : list dtp_context) : bool :=
  negb (IsMobileConnected m) || late cSpeed now xs.

(** The right to send, as the scheduler leaves it. *)
Definition granted (q : list Z) (b : bool) (c : Z) (x : dtp_context) : dtp_context :=
  x <| tc_scheduleSend := bool_decide (head q = Some c) && b |>.

Section schedule.
Context {env : Env}.

(** Nothing but [tc_scheduleSend] changes: it is set for the head of the queue when it is
    allowed to send, and reset for all the others. *)
Lemma Schedule_spec m wSpeed cSpeed w xs (Q : mobile → world → Prop) :
  contexts w (w_retTimerQ w) xs →
  let now := d_of_tv (env_clock (w_nclock w)) in
  (∀ w', (∀ c x, c ∈ w_retTimerQ w → ctx_at w c = Some x →
        ctx_at w' c = Some (granted (w_retTimerQ w) (allowed m cSpeed now xs) c x)) →
     (∀ c, c ∉ w_retTimerQ w → ctx_at w' c = ctx_at w c) →
     w' = w <| w_ctxs := w_ctxs w' |> <| w_nclock := S (w_nclock w) |> →
     Q (if bool_decide (w_retTimerQ w = []) || IsMobileConnected m then m
        else with_activated (negb (d_lt wSpeed cSpeed && late cSpeed now xs)) m) w') →
  wp (Schedule m wSpeed cSpeed) Q w.
Proof.
  intros Hx now HQ. unfold Schedule. apply wp_bind. unfold wp at 1, gettimeofday. fold now. set (w1 := set w_nclock _ w).
  change (w_retTimerQ w) with (w_retTimerQ w1) in *. change (ctx_at w) with (ctx_at w1) in HQ.
  apply wp_bind, wp_gets, wp_bind. apply (schedule_loop_spec _ _ (rev xs)); [by apply contexts_rev|].
  intros w2 Hin Hout E2. rewrite edf_time_rev. fold (late cSpeed now xs).
  assert (Hq : ∀ c, c ∈ rev (w_retTimerQ w1) ↔ c ∈ w_retTimerQ w1) by (intros; by rewrite !list_elem_of_In, <- in_rev).
  assert (Ew : w2 = w <| w_ctxs := w_ctxs w2 |> <| w_nclock := S (w_nclock w) |>) by (rewrite E2; by destruct w).
  setoid_rewrite Hq in Hin. setoid_rewrite Hq in Hout. clear Hq E2.
  destruct (w_retTimerQ w1) as [|c q]; [apply wp_ret, (HQ w2); [by intros c x ?%elem_of_nil|done|done]|].
  apply Forall2_cons_inv_l in Hx as (x & xs' & Hx & _ & _).
  assert (Hg : ∀ b, b = allowed m cSpeed now xs → wp (c ->> tc_scheduleSend := b) (λ _, Q (if IsMobileConnected m then m
     else with_activated (negb (d_lt wSpeed cSpeed && late cSpeed now xs)) m)) w2).
  { intros b ->. eapply wp_modctx; [by apply Hin; [left|]|]. apply HQ.
    - intros c' y Hc Hy. unfold granted. destruct (decide (c' = c)) as [->|Hne].
      + rewrite bool_decide_eq_true_2 by done. cbn [andb]. rewrite (ctx_at_put _ _ (x <| tc_scheduleSend := false |>)) by (by apply Hin; [left|]).
        assert (y = x) as -> by (change (ctx_at w c = Some y) in Hy; congruence). reflexivity.
      + rewrite bool_decide_eq_false_2 by (simpl; congruence). rewrite ctx_at_put_ne by done. by apply Hin.
    - intros c' Hc. rewrite ctx_at_put_ne by (intros ->; apply Hc; left). by apply Hout.
    - rewrite Ew at 1. by destruct w. }
  unfold allowed in Hg. destruct (IsMobileConnected m); apply wp_bind; (eapply wp_mono; [by apply Hg|]); intros u3 w3 H3; apply wp_ret.
  - exact H3.
  - destruct (d_lt wSpeed cSpeed && late cSpeed now xs); exact H3.
Qed.
(** The head of an ordered queue has the earliest deadline. *)
Lemma head_earliest w q c : StronglySorted (earlier w) q → head q = Some c → ∀ c', c' ∈ q → deadline_of w c ≤ deadline_of w c'.
Proof.
  intros Hs Hh c' Hc'. destruct q as [|a l]; [done|]. simplify_eq/=.
  apply StronglySorted_inv in Hs as [_ Hs]. rewrite Forall_forall in Hs.
  apply elem_of_cons in Hc' as [->|Hc']; [done|]. by apply Hs.
Qed.

Lemma avail_scheduled m x : g_useScheduler m = true → tc_state x = SOCK_ESTABLISHED → tc_isDeadlineSet x = true →
  IsAvailConnection m x = tc_scheduleSend x.
Proof. unfold IsAvailConnection. by intros -> -> ->. Qed.

(** Whom the scheduler lets send: with the upload scheduler in use, a connection that is
    established and has a deadline may send only if no other connection has an earlier one. *)
Definition earliest_only (m : mobile) (w0 w : world) : Prop :=
  ∀ c x, c ∈ w_retTimerQ w → ctx_at w c = Some x → g_useScheduler m = true → IsAvailConnection m x = true →
    tc_state x = SOCK_ESTABLISHED → tc_isDeadlineSet x = true →
    ∀ c', c' ∈ w_retTimerQ w → deadline_of w0 c ≤ deadline_of w0 c'.

(** C20: for a queue ordered by deadline, [Schedule] returns, changes nothing of the
    connections but their right to send, and gives that right to the head of the queue at
    most: over Wi-Fi always, over the cellular network if and only if the latest time at which
    the remaining transfers can start, computed from the last deadline backwards, has come.
    Afterwards the only connections with a deadline that may send are those with the earliest. *)
Theorem schedule_earliest m wSpeed cSpeed w : retq_ok w →
  ∃ xs, contexts w (w_retTimerQ w) xs ∧
  wp (Schedule m wSpeed cSpeed) (λ m' w', w_retTimerQ w' = w_retTimerQ w ∧
    (∀ c x, c ∈ w_retTimerQ w → ctx_at w c = Some x → ∃ b, ctx_at w' c = Some (x <| tc_scheduleSend := b |>) ∧
       (b = true ↔ head (w_retTimerQ w) = Some c ∧
          (IsMobileConnected m = true → d_le (d_sub (edf_time cSpeed xs) (d_of_tv (env_clock (w_nclock w)))) (d_of_Z 0) = true))) ∧
    earliest_only m' w w') w.
Proof.
  intros Hq. destruct (contexts_of w (w_retTimerQ w)) as [xs Hxs]; [apply Hq|]. exists xs. split; [done|].
  apply (Schedule_spec _ _ _ _ xs); [done|]. intros w' Hin _ E.
  assert (Eq : w_retTimerQ w' = w_retTimerQ w) by (by rewrite E).
  split_and!; [done..| |].
  - intros c x Hc Hx. eexists. split; [by apply Hin|]. fold (late cSpeed (d_of_tv (env_clock (w_nclock w))) xs).
    unfold allowed. rewrite andb_true_iff, bool_decide_eq_true. destruct (IsMobileConnected m); simpl; naive_solver.
  - intros c x Hc Hx Hm Hav Hst Hd. rewrite Eq in *. apply (head_earliest w _ c (rq_sorted w Hq)).
    destruct (rq_live w Hq c Hc) as [x0 Hx0]. rewrite (Hin c x0 Hc Hx0) in Hx. apply (inj Some) in Hx as <-.
    rewrite avail_scheduled in Hav by done. apply andb_true_iff in Hav as [Hh _]. by apply bool_decide_eq_true in Hh.
Qed.
End schedule.

(** Socket 5 of the running example and socket 6 with a later deadline, both with data to send. *)
Definition conn_due (sec : Z) : dtp_context :=
  conn <| tc_isDeadlineSet := true |> <| tc_deadline := 10 |> <| tc_deadlineTime := mk_timeval sec 0 |> <| tc_blockRemain := 1000000 |>.
Definition host_due (s5 s6 : Z) : world := (host (conn_due s5))
  <| w_ctxs := {[5 := conn_due s5; 6 := conn_due s6]} |> <| w_retTimerQ := [5; 6] |> <| w_fds := {[5; 6]} |>.
