(* ===== verification/Deadline.v ===== *)
(** * The deadline timer of the mobile build (HandleDeadline of dtp_mobile.c)

    Every five seconds [HandleDeadline] measures the speed of the network, closes a
    connection whose deadline has passed, lets the scheduler choose among the others and
    announces the living ones to their peers.  Shown here: it returns, the first expired
    connection of the queue is closed and leaves it, the queue stays ordered, and the
    scheduler's choice, the earliest of the remaining deadlines, holds when it is done.  Only
    the first one: closing it takes it off the queue, and with its link the walk ends. *)

From S2P Require Import Prelude Double Header Context World ContextTable Pools RetransQueue.
From S2P Require Import Select Congestion Lifecycle Send Scenario Services Timeout Closing Options Route Mobile.
From Stdlib Require Import Sorting.Sorted.

(** The deadline of a connection and its socket are the same. *)
Record same_deadline (x x' : dtp_context) : Prop := {
  sd_time : tc_deadlineTime x' = tc_deadlineTime x; sd_set : tc_isDeadlineSet x' = tc_isDeadlineSet x;
  sd_secs : tc_deadline x' = tc_deadline x; sd_sock : tc_sock x' = tc_sock x }.

#[export] Instance same_deadline_preorder : PreOrder same_deadline.
Proof. split; [by constructor|]. intros x y z [? ? ? ?] [? ? ? ?]. constructor; congruence. Qed.

(** So are its state and its right to send. *)
Record kept (x x' : dtp_context) : Prop := {
  k_deadline : same_deadline x x'; k_state : tc_state x' = tc_state x;
  k_timeout : tc_connTimedOut x' = tc_connTimedOut x; k_send : tc_scheduleSend x' = tc_scheduleSend x }.

#[export] Instance kept_preorder : PreOrder kept.
Proof.
  split; [by constructor|]. intros x y z [? ? ? ?] [? ? ? ?]. constructor; [by etrans|congruence..].
Qed.

(** The deadline has passed at the time [now]. *)
Definition expired (now : double) (x : dtp_context) : bool :=
  tc_isDeadlineSet x && (0 <? tc_deadline x) && d_le (d_sub (d_of_tv (tc_deadlineTime x)) now) (d_of_Z 0).

Definition expired_at (now : double) (w : world) (c : Z) : bool :=
  match ctx_at w c with Some x => expired now x | None => false end.

Lemma expired_same now x x' : same_deadline x x' → expired now x' = expired now x.
Proof. intros [E1 E2 E3 _]. unfold expired. by rewrite E1, E2, E3. Qed.

(** What became of a connection when the loop has come by. *)
Definition closed (x : dtp_context) : Prop := tc_state x = SOCK_CLOSED ∧ tc_connTimedOut x = true.
Definition checked (e : bool) (x x' : dtp_context) : Prop :=
  same_deadline x x' ∧ if e then closed x' else tc_state x' = tc_state x ∧ tc_connTimedOut x' = tc_connTimedOut x.

(** Every context is still there, changed by [R]; queue and lock are the same. *)
Record q_frame (R : relation dtp_context) (w w' : world) : Prop := {
  qf_ctx : ∀ c x, ctx_at w c = Some x → ∃ x', ctx_at w' c = Some x' ∧ R x x';
  qf_none : ∀ c, ctx_at w c = None → ctx_at w' c = None;
  qf_queue : w_retTimerQ w' = w_retTimerQ w; qf_lock : w_timerLock w' = w_timerLock w }.

#[export] Instance q_frame_preorder R : PreOrder R → PreOrder (q_frame R).
Proof.
  intros HR. split; [constructor; [intros ? y ?; by exists y|done|done|done]|].
  intros w1 w2 w3 [H1 N1 Q1 L1] [H2 N2 Q2 L2]. constructor; [|by eauto|congruence..].
  intros c x Hx. destruct (H1 c x Hx) as (y & Hy & R1). destruct (H2 c y Hy) as (z & Hz & R2). exists z. split; [done|by etrans].
Qed.

Lemma q_frame_io R w w' : PreOrder R → io_frame w w' → q_frame R w w'.
Proof. intros HR H. constructor; [intros c x Hx; exists x; by rewrite (io_ctx _ _ c H)|intros c; by rewrite (io_ctx _ _ c H)|by destruct H as [->]..]. Qed.

Lemma q_frame_put R w c x x' : PreOrder R → ctx_at w c = Some x → R x x' → q_frame R w (w <| w_ctxs ::= <[c := x']> |>).
Proof.
  intros HR Hx Hr. constructor; [|intros d; destruct (decide (c = d)) as [->|]; [by rewrite Hx|by rewrite ctx_at_put_ne]|done|done].
  intros d y Hy. destruct (decide (c = d)) as [->|Hne].
  - exists x'. split; [by eapply ctx_at_put|]. by simplify_eq.
  - exists y. by rewrite ctx_at_put_ne.
Qed.

(** A loop of such steps. *)
Lemma q_frame_loop {env : Env} R (f : Z → M unit) l : PreOrder R → (∀ c x w, ctx_at w c = Some x → wp (f c) (λ _, q_frame R w) w) →
  ∀ w, (∀ c, c ∈ l → is_Some (ctx_at w c)) → wp (queue_each l f) (λ _, q_frame R w) w.
Proof.
  intros HR Hf. induction l as [|c l IH]; intros w Hl; [by apply wp_ret|].
  cbn [queue_each]. apply wp_bind. destruct (Hl c) as [x Hx]; [left|]. eapply wp_mono; [by eapply Hf|]. intros [] w1 H1.
  apply wp_bind, wp_gets. case_bool_decide; [|by apply wp_ret].
  eapply wp_mono; [apply IH|by intros; etrans].
  intros d Hd. destruct (Hl d) as [y Hy]; [by right|]. destruct (qf_ctx R _ _ H1 _ _ Hy) as (? & -> & _). eauto.
Qed.

Section timer.
Context {env : Env}.

(** *** Measuring *)

Lemma sum_transferred_spec l : ∀ total w, (∀ c, c ∈ l → is_Some (ctx_at w c)) →
  wp (sum_transferred l total) (λ _, q_frame kept w) w.
Proof using.
  induction l as [|c l IH]; intros total w Hl; [by apply wp_ret|].
  destruct (Hl c) as [x Hx]; [left|]. cbn [sum_transferred]. apply wp_bind. eapply wp_getctx; [exact Hx|].
  apply wp_bind. eapply wp_modctx; [exact Hx|].
  assert (H1 : q_frame kept w (w <| w_ctxs ::= <[c := x <| tc_lastBlockRemain := tc_blockRemain x |>]> |>))
    by (eapply q_frame_put; [apply _|exact Hx|by repeat constructor]).
  eapply wp_mono; [apply IH|by intros; etrans].
  intros d Hd. destruct (Hl d) as [y Hy]; [by right|]. destruct (qf_ctx kept _ _ H1 _ _ Hy) as (? & -> & _). eauto.
Qed.

(** The measurement leaves the interfaces and the use of the scheduler as they are. *)
Record same_links (m m' : mobile) : Prop := {
  sl_cell : g_mobileConnected m' = g_mobileConnected m; sl_wifi : g_wifiConnected m' = g_wifiConnected m;
  sl_sched : g_useScheduler m' = g_useScheduler m }.

Lemma measure_speed_spec m q w : (∀ c, c ∈ q → is_Some (ctx_at w c)) →
  wp (measure_speed m q) (λ m' w', same_links m m' ∧ q_frame kept w w') w.
Proof using.
  intros Hl. destruct q as [|c q]; [by apply wp_ret|]. destruct (Hl c) as [x Hx]; [left|].
  unfold measure_speed. apply wp_bind. eapply wp_getctx; [exact Hx|]. destruct (tc_scheduleSend x); [|by apply wp_ret].
  apply wp_bind. eapply wp_mono; [by apply sum_transferred_spec|]. intros total w' H. apply wp_ret. split; [|done].
  destruct (g_wifiConnected m && _); [destruct (g_wifiActivated m); by constructor|].
  destruct (g_mobileConnected m && _); by constructor.
Qed.

(** *** Closing *)

Lemma DTPCloseConnection_spec w c x l1 l2 (Q : unit → world → Prop) :
  ctx_at w c = Some x → 0 ≤ tc_sock x < FD_SETSIZE_S → w_retTimerQ w = l1 ++ c :: l2 → NoDup (l1 ++ c :: l2) →
  (∀ w' x', ctx_at w' c = Some x' → checked true x x' → (∀ c', c' ≠ c → ctx_at w' c' = ctx_at w c') →
     w_retTimerQ w' = l1 ++ l2 → w_timerLock w' = w_timerLock w → Q tt w') →
  wp (DTPCloseConnection c) Q w.
Proof using.
  intros Hx Hs Hq Hn HQ. unfold DTPCloseConnection.
  apply wp_bind. eapply wp_modctx; [exact Hx|]. set (x1 := set tc_connTimedOut _ x). set (w1 := set w_ctxs _ w).
  assert (Hx1 : ctx_at w1 c = Some x1) by (by eapply ctx_at_put).
  apply wp_bind. eapply wp_getctx; [exact Hx1|].
  apply wp_bind, io_select_set; [exact Hs|]. intros w2 I2 _. apply wp_bind, io_select_set; [exact Hs|]. intros w3 I3 _.
  assert (I13 : io_frame w1 w3) by (by etrans). assert (Hx3 : ctx_at w3 c = Some x1) by (by rewrite (io_ctx _ _ c I13)).
  apply wp_bind. eapply wp_modctx; [exact Hx3|]. set (x4 := set tc_state _ x1). set (w4 := set w_ctxs _ w3).
  assert (Hx4 : ctx_at w4 c = Some x4) by (by eapply ctx_at_put).
  apply wp_bind. eapply io_read_wakeup; [exact Hx4|exact Hs|]. intros w5 I5 _.
  assert (Hx5 : ctx_at w5 c = Some x4) by (by rewrite (io_ctx _ _ c I5)).
  apply wp_bind. eapply io_write_wakeup; [exact Hx5|exact Hs|]. intros w6 I6 _.
  assert (I46 : io_frame w4 w6) by (by etrans).
  assert (Eq : w_retTimerQ w6 = l1 ++ c :: l2) by (rewrite <- Hq; destruct I46 as [->], I13 as [E]; unfold w4; rewrite E; done).
  unfold retq_unlink. apply wp_bind, wp_gets. rewrite Eq. apply wp_bind. eapply wp_tailq_remove; [by apply list_remove_middle|].
  apply wp_modify. apply (HQ _ x4).
  - change (ctx_at w6 c = Some x4). by rewrite (io_ctx _ _ c I46).
  - by repeat constructor.
  - intros c' Hc'. change (ctx_at w6 c' = ctx_at w c'). rewrite (io_ctx _ _ c' I46). unfold w4. rewrite ctx_at_put_ne by done.
    rewrite (io_ctx _ _ c' I13). unfold w1. by rewrite ctx_at_put_ne.
  - done.
  - destruct I46 as [->], I13 as [E]. unfold w4. rewrite E. done.
Qed.
Lemma choose_network_kept m left x : kept x (choose_network m left x).
Proof using.
  unfold choose_network. set (x1 := if d_le _ _ && _ then _ else _).
  assert (H1 : kept x x1) by (unfold x1; repeat case_match; by repeat constructor). clearbody x1.
  cbv zeta. set (x2 := if _ && negb _ then DTPStartMobileBWMeasuring _ else _).
  assert (H2 : kept x1 x2) by (unfold x2; case_match; by repeat constructor). clearbody x2.
  set (x3 := if _ && _ then DTPStopMobileBWMeasuring _ else _).
  assert (H3 : kept x2 x3) by (unfold x3; case_match; by repeat constructor). clearbody x3.
  do 2 (etrans; [eassumption|]). etrans; [exact H3|]. repeat case_match; by repeat constructor.
Qed.

Lemma check_deadline_spec m now w c x l1 l2 (Q : unit → world → Prop) :
  ctx_at w c = Some x → 0 ≤ tc_sock x < FD_SETSIZE_S → w_retTimerQ w = l1 ++ c :: l2 → NoDup (l1 ++ c :: l2) →
  (∀ w' x', ctx_at w' c = Some x' → checked (expired now x) x x' → (∀ c', c' ≠ c → ctx_at w' c' = ctx_at w c') →
     w_retTimerQ w' = l1 ++ (if expired now x then [] else [c]) ++ l2 → w_timerLock w' = w_timerLock w → Q tt w') →
  wp (check_deadline m now c) Q w.
Proof using.
  intros Hx Hs Hq Hn HQ. unfold check_deadline. apply wp_bind. eapply wp_getctx; [exact Hx|].
  unfold expired in HQ. destruct (tc_isDeadlineSet x && (0 <? tc_deadline x)); cbn [andb] in HQ.
  2: { apply wp_ret, (HQ w x); [done|by repeat constructor|done..]. }
  destruct (d_le _ _). { eapply DTPCloseConnection_spec; [done..|]. intros w' x' H1 H2 H3 H4 H5. by apply (HQ w' x'). }
  apply wp_when; intros _; [|apply (HQ w x); [done|by repeat constructor|done..]].
  eapply wp_modctx; [exact Hx|]. eapply HQ; [by eapply ctx_at_put| | |exact Hq|done].
  - match goal with |- checked _ _ (choose_network ?m ?l ?y) => destruct (choose_network_kept m l y) as [K1 K2 K3 _] end. by split.
  - intros. by rewrite ctx_at_put_ne.
Qed.

(** The first expired connection of [l], and [l] without it. *)
Definition first_expired (now : double) (w : world) (l : list Z) : option Z :=
  head (filter (λ c, expired_at now w c = true) l).
Definition unexpired (now : double) (w : world) (l : list Z) : list Z := filter (λ c, first_expired now w l ≠ Some c) l.

Lemma first_expired_cons now w c l :
  first_expired now w (c :: l) = if expired_at now w c then Some c else first_expired now w l.
Proof using. unfold first_expired. rewrite filter_cons. by destruct (expired_at now w c). Qed.

Lemma first_expired_in now w l c : first_expired now w l = Some c → c ∈ l.
Proof using.
  intros H. unfold first_expired in H. assert (Hc : c ∈ filter (λ c, expired_at now w c = true) l).
  { destruct (filter _ l); [done|]. injection H as ->. left. }
  by apply list_elem_of_filter in Hc as [_ ?].
Qed.

Lemma first_expired_same now w w' l : (∀ c, c ∈ l → expired_at now w' c = expired_at now w c) →
  first_expired now w' l = first_expired now w l.
Proof using.
  induction l as [|c l IH]; intros E; [done|]. rewrite !first_expired_cons, E, IH by (left || (intros; apply E; by right)). done.
Qed.

Lemma filter_other (c : Z) (l : list Z) : c ∉ l → filter (λ d, Some c ≠ Some d) l = l.
Proof using.
  induction l as [|d l IH]; [done|]. intros [Hd Hl]%not_elem_of_cons. rewrite filter_cons, decide_True by congruence.
  by rewrite IH.
Qed.

Lemma unexpired_cons now w c l : NoDup (c :: l) →
  unexpired now w (c :: l) = if expired_at now w c then l else c :: unexpired now w l.
Proof using.
  intros [Hc Hn]%NoDup_cons. unfold unexpired. rewrite first_expired_cons, filter_cons. destruct (expired_at now w c) eqn:E.
  - rewrite decide_False by tauto. by apply filter_other.
  - rewrite decide_True; [done|]. by intros ?%first_expired_in.
Qed.

(** The loop closes the first expired connection of the list and removes it from the queue. *)
Lemma check_loop m now l : ∀ p w (Q : unit → world → Prop),
  w_retTimerQ w = p ++ l → NoDup (p ++ l) →
  (∀ c, c ∈ l → ∃ x, ctx_at w c = Some x ∧ 0 ≤ tc_sock x < FD_SETSIZE_S) →
  (∀ w', w_retTimerQ w' = p ++ unexpired now w l → w_timerLock w' = w_timerLock w →
     (∀ c x, ctx_at w c = Some x → ∃ x', ctx_at w' c = Some x' ∧ checked (bool_decide (first_expired now w l = Some c)) x x') → Q tt w') →
  wp (queue_each l (check_deadline m now)) Q w.
Proof using.
  induction l as [|c l IH]; intros p w Q Hq Hn Hl HQ.
  { apply wp_ret, HQ; [done|done|]. intros c x Hx. exists x. split; [done|]. by repeat constructor. }
  destruct (Hl c) as (x & Hx & Hs); [left|]. cbn [queue_each]. apply wp_bind. eapply check_deadline_spec; [exact Hx|exact Hs|exact Hq|exact Hn|].
  intros w1 x1 Hx1 Hc Ho Hq1 L1. pose proof (proj1 (NoDup_app p (c :: l)) Hn) as (Hnp & Hd & Hcl).
  assert (Hnc : c ∉ p ∧ c ∉ l) by (apply NoDup_cons in Hcl as [? ?]; set_solver).
  assert (E : expired_at now w c = expired now x) by (unfold expired_at; by rewrite Hx).
  rewrite (unexpired_cons now w c l Hcl) in HQ. rewrite (first_expired_cons now w c l), E in HQ.
  destruct (expired now x) eqn:Ex.
  - apply wp_unqueued; [rewrite Hq1; set_solver|]. apply wp_ret, HQ; [done|done|]. intros d y Hy. destruct (decide (d = c)) as [->|Hdc].
    + simplify_eq. exists x1. split; [done|]. by rewrite bool_decide_eq_true_2.
    + exists y. rewrite Ho by done. split; [done|]. rewrite bool_decide_eq_false_2 by congruence. by repeat constructor.
  - apply wp_still_queued; [rewrite Hq1; set_solver|].
    assert (Ee : first_expired now w1 l = first_expired now w l).
    { apply first_expired_same. intros d Hdl. unfold expired_at. rewrite Ho; [done|]. intros ->; tauto. }
    apply (IH (p ++ [c])).
    + by rewrite Hq1, <- (assoc_L (++)).
    + by rewrite <- (assoc_L (++)).
    + intros d Hdl. rewrite Ho by set_solver. apply Hl. by right.
    + intros w' Hq' L' Hc'. apply HQ; [|congruence|].
      * rewrite Hq', <- (assoc_L (++)). unfold unexpired. by rewrite Ee.
      * rewrite Ee in Hc'. intros d y Hy. destruct (decide (d = c)) as [->|Hdc].
        -- simplify_eq. destruct (Hc' _ _ Hx1) as (x2 & Hx2 & C2). exists x2. split; [done|].
           rewrite bool_decide_eq_false_2 in C2 |- * by (intros ?%first_expired_in; tauto).
           destruct Hc as [S1 [C1 C1']], C2 as [S2 [E1 E2]]. split; [by etrans|]. split; congruence.
        -- rewrite <- (Ho d Hdc) in Hy. by apply Hc'.
Qed.

(** *** Announcing, and the whole timer *)

Context {up : NetUp env}.

Lemma announce_alive_spec m c x w : ctx_at w c = Some x → wp (announce_alive m c) (λ _, q_frame kept w) w.
Proof using up.
  intros Hx. unfold announce_alive. apply wp_bind. eapply wp_getctx; [exact Hx|]. apply wp_when; intros _; [|done].
  apply wp_bind. eapply wp_modctx; [exact Hx|]. set (x1 := set tc_schedAllowTime _ x). set (w1 := set w_ctxs _ w).
  assert (Hx1 : ctx_at w1 c = Some x1) by (by eapply ctx_at_put).
  assert (F1 : q_frame kept w w1) by (eapply q_frame_put; [apply _|exact Hx|by repeat constructor]).
  apply wp_bind. unfold DTPSendACKPacket_mobile. apply wp_bind. eapply wp_getctx; [exact Hx1|].
  destruct (IsAvailConnection m x1); [|by apply wp_ret, wp_ret].
  eapply io_send_header; [exact Hx1|done|]. intros w2 I2 _. apply wp_ret. etrans; [exact F1|]. by apply q_frame_io; [apply _|].
Qed.

Lemma deadline_of_same w w' : (∀ c x, ctx_at w c = Some x → ∃ x', ctx_at w' c = Some x' ∧ same_deadline x x') →
  ∀ c, is_Some (ctx_at w c) → deadline_of w' c = deadline_of w c.
Proof using.
  intros H c [x Hx]. destruct (H c x Hx) as (x' & Hx' & [E _ _ _]). unfold deadline_of. by rewrite Hx, Hx', E.
Qed.

(** The sorted queue of a state whose deadlines are the same. *)
Lemma sorted_same w w' l :
  (∀ c, c ∈ l → deadline_of w' c = deadline_of w c) → StronglySorted (earlier w) l → StronglySorted (earlier w') l.
Proof using.
  intros E. induction 1 as [|c l Hs IH Hf]; [constructor|]. rewrite Forall_forall in Hf.
  constructor; [apply IH; intros; apply E; by right|]. apply Forall_forall. intros d Hd. unfold earlier.
  rewrite !E by (left || by right). by apply Hf.
Qed.

Lemma sorted_filter (w : world) (P : Z → Prop) `{!∀ c, Decision (P c)} l :
  StronglySorted (earlier w) l → StronglySorted (earlier w) (filter P l).
Proof using.
  induction 1 as [|c l Hs IH Hf]; [constructor|]. rewrite filter_cons. case_decide; [|done]. constructor; [done|].
  rewrite Forall_forall in *. intros d [_ Hd]%list_elem_of_filter. by apply Hf.
Qed.

#[local] Instance checked_preorder : PreOrder (checked false).
Proof using.
  split; [by repeat constructor|]. intros x y z [S1 [E1 E2]] [S2 [E3 E4]]. split; [by etrans|]. by rewrite E3, E4.
Qed.

Lemma kept_checked w w' : q_frame kept w w' → q_frame (checked false) w w'.
Proof using.
  intros [H ? Hq Hl]. constructor; [|done|done|done]. intros c x Hx. destruct (H c x Hx) as (x' & Hx' & [K1 K2 K3 _]). by exists x'.
Qed.

Definition live_queue (w : world) : Prop := ∀ c, c ∈ w_retTimerQ w → is_Some (ctx_at w c).

Lemma live_frame R w w' : live_queue w → q_frame R w w' → live_queue w'.
Proof using.
  intros Hl F c Hc. rewrite (qf_queue _ _ _ F) in Hc. destruct (Hl c Hc) as [x Hx]. destruct (qf_ctx _ _ _ F c x Hx) as (? & ? & _). eauto.
Qed.

(** The scheduler's turn. *)
Lemma schedule_turn m w : StronglySorted (earlier w) (w_retTimerQ w) → live_queue w →
  wp (if g_useScheduler m then Schedule m (g_wifiSpeed m) (g_mobileSpeed m) else mret m)
     (λ m' w', q_frame (checked false) w w' ∧ earliest_only m' w w') w.
Proof using.
  intros Hs Hl. destruct (g_useScheduler m) eqn:Em; [|by apply wp_ret; split; [|intros ? ? ? ? ?; congruence]].
  destruct (contexts_of w (w_retTimerQ w) Hl) as [xs Hxs]. apply (Schedule_spec _ _ _ _ xs); [done|]. intros w' Hin Hout E.
  assert (Eq : w_retTimerQ w' = w_retTimerQ w) by (by rewrite E). split.
  - constructor; [| |done|by rewrite E].
    2: { intros c Hc. rewrite Hout; [done|]. intros Hin'. destruct (Hl c Hin') as [? ?]. congruence. }
    intros c x Hx. destruct (decide (c ∈ w_retTimerQ w)) as [Hc|Hc].
    + eexists. split; [by apply Hin|]. by repeat constructor.
    + exists x. rewrite Hout by done. split; [done|]. by repeat constructor.
  - intros c x Hc Hx Hm Hav Hst Hd. rewrite Eq in *. apply (head_earliest w _ c Hs).
    destruct (Hl c Hc) as [x0 Hx0]. rewrite (Hin c x0 Hc Hx0) in Hx. apply (inj Some) in Hx as <-.
    rewrite avail_scheduled in Hav by done. apply andb_true_iff in Hav as [Hh _]. by apply bool_decide_eq_true in Hh.
Qed.

Lemma earliest_kept m w0 w w' : live_queue w → q_frame kept w w' → earliest_only m w0 w → earliest_only m w0 w'.
Proof using.
  intros Hl F He c x Hc Hx Hm Hav Hst Hd. rewrite (qf_queue _ _ _ F) in *. destruct (Hl c Hc) as [y Hy].
  destruct (qf_ctx _ _ _ F c y Hy) as (x' & Hx' & [[? K1 ? ?] K2 _ K3]). simplify_eq.
  apply (He c y Hc Hy Hm); [|congruence..]. rewrite avail_scheduled in Hav |- * by congruence. congruence.
Qed.

(** The loop over the queue after the measurement. *)
Lemma checks_after w w2 m now (Q : unit → world → Prop) :
  NoDup (w_retTimerQ w) → StronglySorted (earlier w) (w_retTimerQ w) → live_queue w →
  (∀ c x, c ∈ w_retTimerQ w → ctx_at w c = Some x → 0 ≤ tc_sock x < FD_SETSIZE_S) →
  q_frame (checked false) w w2 →
  (∀ w', w_retTimerQ w' = unexpired now w (w_retTimerQ w) → w_timerLock w' = w_timerLock w →
     (∀ c x, ctx_at w c = Some x → ∃ x', ctx_at w' c = Some x' ∧ checked (bool_decide (first_expired now w (w_retTimerQ w) = Some c)) x x') →
     StronglySorted (earlier w') (w_retTimerQ w') → live_queue w' → Q tt w') →
  wp (queue_each (w_retTimerQ w) (check_deadline m now)) Q w2.
Proof using.
  intros Hn Hs Hl Hk F HQ. apply (check_loop _ _ _ []); [apply F|done| |].
  - intros c Hc. destruct (Hl c Hc) as [x Hx]. destruct (qf_ctx _ _ _ F c x Hx) as (x' & Hx' & [[_ _ _ E] _]).
    exists x'. rewrite E. split; [done|]. by eapply Hk.
  - assert (Ee : first_expired now w2 (w_retTimerQ w) = first_expired now w (w_retTimerQ w)).
    { apply first_expired_same. intros c Hc. unfold expired_at. destruct (Hl c Hc) as [x Hx]. rewrite Hx.
      destruct (qf_ctx _ _ _ F c x Hx) as (y & -> & [S1 _]). by apply expired_same. }
    intros w' Hq' L' C'. rewrite Ee in C'.
    assert (C : ∀ c x, ctx_at w c = Some x → ∃ x', ctx_at w' c = Some x' ∧ checked (bool_decide (first_expired now w (w_retTimerQ w) = Some c)) x x').
    { intros c x Hx. destruct (qf_ctx _ _ _ F c x Hx) as (y & Hy & [S1 [E1 E2]]). destruct (C' c y Hy) as (z & Hz & [S2 C2]).
      exists z. split; [done|]. split; [by etrans|]. destruct (bool_decide _); [done|]. by rewrite <- E1, <- E2. }
    assert (Eq : w_retTimerQ w' = unexpired now w (w_retTimerQ w)) by (rewrite Hq'; unfold unexpired; by rewrite Ee).
    assert (Hl' : ∀ c, c ∈ w_retTimerQ w' → is_Some (ctx_at w c)) by (intros c; rewrite Eq; intros [_ Hc]%list_elem_of_filter; by apply Hl).
    apply HQ; [done|by rewrite L'; apply F|done| |].
    + apply (sorted_same w); [|rewrite Eq; by apply sorted_filter].
      intros c Hc. apply deadline_of_same; [|by apply Hl']. intros d x Hx. destruct (C d x Hx) as (x' & ? & [? _]). eauto.
    + intros c Hc. destruct (Hl' c Hc) as [x Hx]. destruct (C c x Hx) as (? & ? & _). eauto.
Qed.

(** C19: the deadline timer on a queue ordered by deadline, with live connections: it returns
    and releases the lock; the first connection of the queue whose deadline had passed when it
    started is SOCK_CLOSED with a pending ETIMEDOUT and off the queue, which is otherwise as it
    was and still ordered; no other connection changes its state, a second expired one
    included, which waits for a later round; and with the upload scheduler in use a connection
    with a deadline may send only if it has the earliest of the remaining ones. *)
Theorem deadlines_enforced m w :
  retq_ok w → (∀ c x, c ∈ w_retTimerQ w → ctx_at w c = Some x → 0 ≤ tc_sock x < FD_SETSIZE_S) →
  let now := d_of_tv (env_clock (w_nclock w)) in
  let first := first_expired now w (w_retTimerQ w) in
  wp (HandleDeadline m) (λ m' w', retq_ok w' ∧
    w_retTimerQ w' = filter (λ c, first ≠ Some c) (w_retTimerQ w) ∧
    (∀ c x, ctx_at w c = Some x → ∃ x', ctx_at w' c = Some x' ∧ checked (bool_decide (first = Some c)) x x') ∧
    earliest_only m' w w') w.
Proof using up.
  intros Hok Hsock now first. destruct Hok as [Hlock Hsort Hlive Hnd]. unfold HandleDeadline.
  apply wp_bind. unfold wp at 1, gettimeofday. fold now. set (w0 := set w_nclock _ w).
  apply wp_bind, wp_timer_lock; [done|]. set (w1 := set w_timerLock _ w0).
  assert (Hlive1 : live_queue w1) by exact Hlive.
  apply wp_bind, wp_gets, wp_bind. eapply wp_mono; [by apply measure_speed_spec|]. intros m2 w2 [_ F2%kept_checked].
  apply wp_bind. apply (checks_after w1 w2 m2 now); [done..|]. intros w3 Eq3 L3 C3 S3 Hl3.
  apply wp_bind. eapply wp_mono; [by apply schedule_turn|]. intros m4 w4 [F4 He4].
  pose proof (live_frame _ _ _ Hl3 F4) as Hl4.
  apply wp_bind, wp_gets, wp_bind. eapply wp_mono; [apply (q_frame_loop kept); [apply _|apply announce_alive_spec|exact Hl4]|].
  intros [] w5 F5. apply wp_bind, wp_modify, wp_ret.
  assert (F35 : q_frame (checked false) w3 w5) by (etrans; [exact F4|by apply kept_checked]).
  assert (C5 : ∀ c x, ctx_at w c = Some x → ∃ x', ctx_at w5 c = Some x' ∧ checked (bool_decide (first = Some c)) x x').
  { intros c x Hx. destruct (C3 c x Hx) as (y & Hy & [S1 D1]). destruct (qf_ctx _ _ _ F35 c y Hy) as (z & Hz & [S2 [E1 E2]]).
    exists z. split; [done|]. split; [by etrans|]. change (first_expired now w1 (w_retTimerQ w1)) with first in D1. unfold closed in *. by rewrite E1, E2. }
  assert (Hin : ∀ c, c ∈ w_retTimerQ w5 → c ∈ w_retTimerQ w)
    by (intros c; rewrite (qf_queue _ _ _ F35), Eq3; by intros [_ Hc]%list_elem_of_filter).
  assert (Hdl : ∀ c, c ∈ w_retTimerQ w5 → deadline_of w3 c = deadline_of w c).
  { intros c Hc. apply deadline_of_same; [|by apply Hlive, Hin]. intros d x Hx. destruct (C3 d x Hx) as (y & ? & [? _]). eauto. }
  split_and!; [|cbn; by rewrite (qf_queue _ _ _ F35), Eq3|exact C5|].
  - constructor; [done| |by apply (live_frame _ _ _ Hl3 F35)|cbn; rewrite (qf_queue _ _ _ F35), Eq3; by apply NoDup_filter].
    apply (sorted_same w3); [|cbn; by rewrite (qf_queue _ _ _ F35)]. intros c Hc. apply (deadline_of_same w3 w5).
    + intros d x Hx. destruct (qf_ctx _ _ _ F35 d x Hx) as (y & ? & [? _]). eauto.
    + apply Hl3. by rewrite <- (qf_queue _ _ _ F35).
  - pose proof (earliest_kept m4 w3 w4 w5 Hl4 F5 He4) as He5. intros c x Hc Hx Hm Hav Hst Hd c' Hc'.
    rewrite <- !Hdl by done. by eapply He5.
Qed.
End timer.

Lemma in_56 c : c ∈ [5; 6] → c = 5 ∨ c = 6.
Proof. set_solver. Qed.

Lemma host_due_queue s5 s6 : s5 ≤ s6 → retq_ok (host_due s5 s6).
Proof.
  intros Hle. constructor; [done| | |].
  - constructor; [constructor; constructor|]. constructor; [exact Hle|constructor].
  - intros c [->| ->]%in_56; [by exists (conn_due s5)|by exists (conn_due s6)].
  - by apply NoDup_cons; split; [intros ?%list_elem_of_singleton|apply NoDup_singleton].
Qed.

Definition phone : mobile := mk_mobile false true true (d_of_Z 1) (d_of_Z 1) true 0 0.

(** One connection expired 200 seconds ago, another has 200 seconds left. *)
Example deadlines_enforced_witness :
  let w := host_due 800 1200 in
  let now := d_of_tv (env_clock (w_nclock w)) in
  expired_at now w 5 = true ∧ expired_at now w 6 = false ∧
  wp (HandleDeadline phone) (λ m' w', retq_ok w' ∧
    w_retTimerQ w' = filter (λ c, first_expired now w [5; 6] ≠ Some c) [5; 6] ∧
    (∀ c x, ctx_at w c = Some x → ∃ x', ctx_at w' c = Some x' ∧ checked (bool_decide (first_expired now w [5; 6] = Some c)) x x') ∧
    earliest_only m' w w') w.
Proof.
  intros w now. split; [vm_compute; reflexivity|]. split; [vm_compute; reflexivity|].
  apply (deadlines_enforced phone w).
  - by apply host_due_queue.
  - intros c x [->| ->]%in_56; intros [= <-]; vm_compute; by split.
Defined.

(** Both expired: the second one stays on the queue and in its state. *)
Example second_expired_waits :
  match HandleDeadline phone (host_due 800 900) with
  | Ok (_, w') => w_retTimerQ w' = [6] ∧ (tc_state <$> ctx_at w' 5) = Some SOCK_CLOSED ∧ (tc_state <$> ctx_at w' 6) = Some SOCK_ESTABLISHED
  | Err _ => False
  end.
Proof. vm_compute. done. Qed.

Example schedule_earliest_witness : ∃ xs, contexts (host_due 1200 1300) [5; 6] xs ∧
  wp (Schedule phone (d_of_Z 1) (d_of_Z 1)) (λ m' w', w_retTimerQ w' = [5; 6] ∧
    (∀ c x, c ∈ [5; 6] → ctx_at (host_due 1200 1300) c = Some x → ∃ b, ctx_at w' c = Some (x <| tc_scheduleSend := b |>) ∧
       (b = true ↔ head [5; 6] = Some c ∧
          (IsMobileConnected phone = true →
             d_le (d_sub (edf_time (d_of_Z 1) xs) (d_of_tv (env_clock 0))) (d_of_Z 0) = true))) ∧
    earliest_only m' (host_due 1200 1300) w') (host_due 1200 1300).
Proof. apply (schedule_earliest phone (d_of_Z 1) (d_of_Z 1) (host_due 1200 1300)). by apply host_due_queue. Defined.
