(* ===== verification/Writing.v ===== *)
(** * Writing the stream (dtp_socket.c)

    [dtp_send] on a connection whose send side satisfies [snd_ok]: it takes as
    many bytes as the write buffer has room for and appends them to the stream. *)

From S2P Require Import Prelude Double Header Context World ContextTable Pools RetransQueue.
From S2P Require Import Select Congestion Lifecycle Send Scenario Intervals Reassembly Receiver.
From S2P Require Import Transmit Ack Acknowledge Challenge Teardown Handshake Socket Delivery.

Section writing.
Context {env : Env} {up : NetUp env}.

(** [d] continues the stream [S] at position [p]. *)
Definition continues (S : stream) (p : Z) (d : bytes) : Prop :=
  ∀ i, 0 ≤ i < zlen d → zget d i = S (p + i).

(** The context after [d] was appended. *)
Definition appended (x x' : dtp_context) (n : Z) : Prop :=
  x' = x <| tc_writeBuf := tc_writeBuf x' |> <| tc_lastByteWritten := tc_lastByteWritten x + n |>.

Lemma wr_ok_append x S wb d :
  wr_ok x S → tc_writeBuf x = Some wb → continues S (tc_lastByteWritten x) d →
  tc_lastByteWritten x + zlen d - tc_lastByteAcked x ≤ tc_writeBufLen x →
  tc_lastByteWritten x + zlen d < 2 ^ 32 →
  wr_ok (x <| tc_writeBuf := Some (zsplice (tc_lastByteWritten x - tc_lastByteAcked x) d wb) |>
           <| tc_lastByteWritten := tc_lastByteWritten x + zlen d |>) S.
Proof using.
  intros [(wb' & Hwb & Hwl & Hd) ? ? ? ?] Hwb' Hc Hroom Hwrap. simplify_eq.
  pose proof (zlen_nonneg d). constructor; cbn; try lia. eexists.
  split_and!; [done|rewrite zlen_splice; lia|]. intros p Hp.
  destruct (decide (p < tc_lastByteWritten x)).
  - rewrite zget_splice_out by lia. apply Hd. lia.
  - rewrite zget_splice_in by lia. rewrite Hc by lia. f_equal. lia.
Qed.

Lemma append_data_spec w c x S d :
  snd_live w c x S → continues S (tc_lastByteWritten x) d →
  tc_lastByteWritten x + zlen d - tc_lastByteAcked x ≤ tc_writeBufLen x →
  tc_lastByteWritten x + zlen d < 2 ^ 32 →
  wp (append_data c d) (λ _ w', ∃ x1 w1 x' ds, appended x x1 (zlen d) ∧ avail_step S c w1 x1 w' x' ds ∧
    w_sent w1 = w_sent w ∧ tx_frame c w w1) w.
Proof using up.
  intros Hl Hc Hroom Hwrap. pose proof Hl as [[Hx Hwr Hch Hnd Hfr Hpo Hhd] Hsd Hcc Hso].
  pose proof Hwr as [(wb & Hwb & Hwl & _) ? ? ? ?]. pose proof (zlen_nonneg d).
  unfold append_data. apply wp_bind. eapply wp_getctx; [done|]. rewrite Hwb, (write_off_exact _ _ Hwr).
  apply wp_bind, wp_block_write; [lia|lia|]. apply wp_bind. eapply wp_modctx; [done|].
  rewrite u32_small by (unfold is_u32; lia). set (x1 := set tc_lastByteWritten _ _). set (w1 := set w_ctxs _ w).
  assert (Hl1 : snd_live w1 c x1 S).
  { constructor; [|by destruct Hsd|by destruct Hcc|done].
    constructor; [by eapply ctx_at_put|by apply wr_ok_append|done..|by destruct Hpo|done|done]. }
  apply wp_bind. eapply wp_getctx; [apply Hl1|].
  apply wp_bind. eapply wp_mono with (Q := λ _ w2, ack_step S c w1 x1 w2 x1 []).
  - apply wp_when; intros _; [|by apply ack_step_refl]. apply io_select_clr; [done|]. intros w2 Hio Hs.
    by apply ack_step_io.
  - intros _ w2 H2. eapply wp_mono; [apply write_avail_step, H2|]. intros _ w3 (x3 & ds & [H3 H4 H5 H6 H7 H8 H9]).
    exists x1, w1, x3, ds. split_and!; [by destruct x| |done|apply (tx_local _ 0), local_ctx].
    constructor; try done. exact (ack_step_trans _ _ _ _ _ _ _ _ [] ds H2 H3).
Qed.

Lemma writable_exact x S length :
  wr_ok x S → 0 ≤ length →
  writable x length = length `min` (tc_writeBufLen x - (tc_lastByteWritten x - tc_lastByteAcked x)).
Proof using.
  intros Hwr Hlen. unfold writable, GetAvailWriteBufSize. rewrite (write_off_exact _ _ Hwr).
  destruct Hwr as [_ ? ? ? ?]. unfold size_t. rewrite (proj2 (Z.ltb_ge _ _)) by lia. unfold c__min.
  match goal with |- context [?a <? length] => destruct (Z.ltb_spec a length) end;
    rewrite i32_small; unfold is_i32; lia.
Qed.

(** An open, non-blocking connection the application writes to. *)
Record writing (c : Z) (x : dtp_context) : Prop := {
  wt_sock : sock_ok c x; wt_active : tc_isActive x = true; wt_reset : tc_connReset x = false;
  wt_nonblock : flag_set (tc_fstatus x) O_NONBLOCK = true }.

(** [dtp_send] takes what fits, [n] bytes, and reports it; with no room it
    reports an error and takes nothing. *)
Lemma dtp_send_spec w c x S buf n :
  snd_live w c x S → writing c x → continues S (tc_lastByteWritten x) buf → 0 < zlen buf →
  n = zlen buf `min` (tc_writeBufLen x - (tc_lastByteWritten x - tc_lastByteAcked x)) →
  tc_lastByteWritten x + n < 2 ^ 32 →
  wp (dtp_send 0 c buf) (λ r w', ∃ x1 w1 x' ds, appended x x1 n ∧ ack_step S c w1 x1 w' x' ds ∧
    w_sent w1 = w_sent w ∧ tx_frame c w w1 ∧ tc_lastByteAcked x' = tc_lastByteAcked x ∧
    (0 < n → avail_step S c w1 x1 w' x' ds) ∧ moves S x1 x' ds ∧ (if bool_decide (0 < n) then r = n else r = -1)) w.
Proof using up.
  intros Hl [Hso Ha Hrs Hnb] Hc Hlen Hn Hwrap. pose proof Hl as [[Hx Hwr _ _ _ _ _] [Hst _ _] _ _].
  pose proof Hwr as [_ ? ? ? ?]. unfold dtp_send. apply wp_bind. unfold send_guard.
  apply wp_bind. eapply active_ctx_spec; [done..|]. apply wp_bind. eapply wp_getctx; [done|].
  rewrite (proj2 (Z.eqb_neq _ _)) by lia. rewrite Hst, Hrs. simpl write_closed. cbn iota.
  rewrite (writable_exact x S) by (done || lia). rewrite <- Hn. apply wp_bind.
  destruct (decide (0 < n)) as [Hpos|Hz].
  - rewrite bool_decide_eq_true_2 by done. simpl send_wait. rewrite (proj2 (Z.eqb_neq _ _)) by lia. cbn [negb].
    apply wp_ret, wp_ret. rewrite (proj2 (Z.ltb_lt _ _)) by done. apply wp_bind. simpl mwhen.
    assert (Hsl : zlen (zslice 0 n buf) = n) by (apply zlen_slice; lia).
    eapply wp_mono; [apply (append_data_spec w c x S); [done| |lia|lia]|].
    + intros i Hi. rewrite Hsl in Hi. rewrite zget_slice by lia. apply Hc. lia.
    + intros _ w' (x1 & w1 & x' & ds & Hap & Hav & Hs1 & Ht1). apply wp_ret.
      rewrite Hsl in Hap. exists x1, w1, x', ds. pose proof Hav as [Hst' Ha' _ _ _ Hm' _].
      split_and!; [done|done|done|done|by rewrite Ha', Hap|done|done|done].
  - rewrite bool_decide_eq_false_2 by done. assert (n = 0) as -> by lia.
    simpl send_wait. apply wp_bind. eapply wp_getctx; [done|]. rewrite Hst, Hrs. simpl write_closed. cbn iota.
    destruct (tc_connTimedOut x); rewrite ?Hnb; apply wp_bind, io_set_errno; intros w1 Hio Hs _;
      apply wp_ret, wp_ret, wp_bind; simpl mwhen; apply wp_ret, wp_ret; exists x, w, x, [];
      (split_and!; [unfold appended; rewrite Z.add_0_r; by destruct x|by apply ack_step_io|done|reflexivity|done|lia|by apply moves_still|done]).
Qed.

(** C24: A write takes what fits.  [dtp_send] on an open, non-blocking connection
    appends the first [n] bytes to the stream, [n] the smaller of the length and
    the room in the write buffer, and reports [n]; with no room it reports an error
    and takes nothing.  The send side stays consistent, and what is sent meanwhile
    belongs to the stream. *)
Theorem send_takes_what_fits w c x S buf n :
  snd_live w c x S → writing c x → continues S (tc_lastByteWritten x) buf → 0 < zlen buf →
  n = zlen buf `min` (tc_writeBufLen x - (tc_lastByteWritten x - tc_lastByteAcked x)) →
  tc_lastByteWritten x + n < 2 ^ 32 →
  wp (dtp_send 0 c buf) (λ r w', ∃ x' ds, snd_live w' c x' S ∧
    tc_lastByteWritten x' = tc_lastByteWritten x + n ∧ tc_lastByteAcked x' = tc_lastByteAcked x ∧
    w_sent w' = w_sent w ++ ds ∧ stream_segments S x' ds ∧
    (if bool_decide (0 < n) then r = n else r = -1)) w.
Proof using up.
  intros Hl Hwt Hc Hlen Hn Hw. eapply wp_mono; [by eapply dtp_send_spec|].
  intros r w' (x1 & w1 & x' & ds & Hap & [Hl' Hco Hs Hsg _] & Hs1 & _ & Ha & _ & _ & Hr). exists x', ds.
  assert (Hw' : tc_lastByteWritten x' = tc_lastByteWritten x1) by apply Hco.
  split_and!; try done; [by rewrite Hw', Hap|by rewrite Hs, Hs1|].
  eapply stream_segments_dest; [|exact Hsg]. unfold same_conn in *. intuition congruence.
Qed.

(** A descriptor that is not an open D2TP socket is refused: [dtp_send] and
    [dtp_recv] return -1 and do not touch any connection. *)
Lemma closed_socket_refused w c x buf length flags :
  sock_ok c x → ctx_at w c = Some x → tc_isActive x = false →
  wp (dtp_send 0 c buf) (λ r w', r = -1 ∧ io_frame w w' ∧ w_errno w' = EBADF ∧ w_sent w' = w_sent w) w ∧
  wp (dtp_recv 0 c length flags) (λ r w', r = (-1, []) ∧ io_frame w w' ∧ w_errno w' = EBADF ∧ w_sent w' = w_sent w) w.
Proof using.
  intros Hs Hx Ha.
  assert (Hac : ∀ Q, (∀ w', io_frame w w' → w_sent w' = w_sent w → w_errno w' = EBADF → Q None w') →
    wp (active_ctx c) Q w).
  { intros Q HQ. apply wp_bind. eapply get_ctx_by_socket; [done|]. apply wp_bind. eapply wp_getctx; [done|].
    rewrite Ha. apply wp_bind, io_set_errno. intros w' ? ? ?. apply wp_ret. by apply HQ. }
  split; unfold dtp_send, send_guard, dtp_recv.
  - apply wp_bind, wp_bind, Hac. intros w' ? ? ?. apply wp_ret, wp_ret. done.
  - apply wp_bind, Hac. intros w' ? ? ?. by apply wp_ret.
Qed.
End writing.

Example send_takes_what_fits_witness :
  wp (dtp_send 0 5 (zeros 40)) (λ r w', ∃ x' ds, snd_live w' 5 x' (λ _, 0) ∧
    tc_lastByteWritten x' = tc_lastByteWritten conn_flight + 40 ∧
    tc_lastByteAcked x' = tc_lastByteAcked conn_flight ∧
    w_sent w' = w_sent host_flight ++ ds ∧ stream_segments (λ _, 0) x' ds ∧
    (if bool_decide (0 < 40) then r = 40 else r = -1)) host_flight.
Proof.
  eapply send_takes_what_fits; [apply flight_live|constructor; [constructor|..]; eval_facts| |eval_facts..].
  intros i _. apply zget_zeros.
Defined.

Example closed_socket_refused_witness :
  wp (dtp_send 0 5 [1; 2]) (λ r w', r = -1 ∧ io_frame (host (conn <| tc_isActive := false |>)) w' ∧
    w_errno w' = EBADF ∧ w_sent w' = []) (host (conn <| tc_isActive := false |>)).
Proof.
  eapply (closed_socket_refused (host (conn <| tc_isActive := false |>)) 5
    (conn <| tc_isActive := false |>) [1; 2] 0 0);
    [constructor; eval_facts|reflexivity|reflexivity].
Defined.
