(* ===== verification/EndToEnd.v ===== *)
(** * The byte stream, end to end

    A sender and a receiver, each with its own copy of the library state, over a
    network that may lose, duplicate, delay and reorder the datagrams of both
    directions, with the timer of the sender firing at any time.  Whatever happens,
    no handler fails, the application of the receiver reads a prefix of what the
    application of the sender wrote, the sender never drops a byte from its write
    buffer that has not arrived, and one timeout repairs a loss. *)

From S2P Require Import Prelude Double Header Context World ContextTable Pools RetransQueue.
From S2P Require Import Select Congestion Lifecycle Send Scenario Intervals Reassembly Receiver.
From S2P Require Import Transmit Ack Acknowledge Challenge Teardown Handshake Timeout Recovery.
From S2P Require Import EventLoop Socket Delivery Writing.

(** ** What keeps the stream flowing

    What must hold besides for the stream to go on: the sender counts what is in flight and has
    sent each such byte, and the window of an empty receiver admits a segment. *)

(** The window the receiver announces when all it has is read. *)
Definition full_window (x : dtp_context) (s : Z) : Z :=
  heard_window (x <| tc_nextByteExpected := tc_lastByteRead x |>) s.

Record flowing (S : stream) (w : world) (xs xr : dtp_context) : Prop := {
  fl_count : tc_segSent xs = tc_lastByteSent xs - tc_lastByteAcked xs;
  fl_cover p : tc_lastByteAcked xs ≤ p < tc_lastByteSent xs → carried S xs (w_sent w) p;
  fl_room : MAX_PAYLOAD ≤ tc_readBufLen xr;
  fl_window : MAX_PAYLOAD ≤ full_window xr (tc_sendWindowScale xs) }.

(** The sender sends [ds] to the same address. *)
Record sends (S : stream) (w : world) (x : dtp_context) (w' : world) (x' : dtp_context) (ds : list datagram) : Prop := {
  sd_dest : tc_peerAddr x' = tc_peerAddr x ∧ tc_sock x' = tc_sock x;
  sd_sent : w_sent w' = w_sent w ++ ds;
  sd_moves : moves S x x' ds }.

Lemma flowing_sends S w xs xr w' xs' ds : flowing S w xs xr → sends S w xs w' xs' ds → flowing S w' xs' xr.
Proof.
  intros [F1 F2 F3 F4] [[Ea Es] Hs [M1 M2 M3]]. constructor; [lia| |done|by rewrite M1].
  intros p Hp. rewrite Hs. assert (H : carried S xs (w_sent w ++ ds) p).
  { destruct (M3 p Hp) as [Hq|(d & a & n & Hd & Hr)]; [destruct (F2 p Hq) as (d & a & n & Hd & Hr)|]; exists d, a, n; set_solver. }
  destruct H as (d & a & n & Hd & [] & Hr). exists d, a, n. split; [done|]. split; [|done]. constructor; try done. by rewrite Ea, Es.
Qed.

(** The window of an empty receiver stays the same. *)
Lemma full_window_same xr xr' s : same_session xr xr' → full_window xr' s = full_window xr s.
Proof.
  intros (_ & _ & _ & _ & _ & _ & _ & E1 & _ & _ & E2).
  unfold full_window, heard_window, AdvertisedWindow, GetAvailReadBufSize, GetReadBufDataSize. cbn. by rewrite E1, E2, !Z.sub_diag.
Qed.

Lemma flowing_session S w xs xr xr' : flowing S w xs xr → same_session xr xr' → flowing S w xs xr'.
Proof.
  intros [F1 F2 F3 F4] Hss. constructor; [done|done|assert (tc_readBufLen xr' = tc_readBufLen xr) as -> by apply Hss; done|].
  by rewrite (full_window_same xr xr').
Qed.

Section network.
Context {es er : Env} {ups : NetUp es} {upr : NetUp er}.

(** What can happen.  The network delivers any datagram that was ever sent, any
    number of times and in any order; [pad] is what the receive buffer holds
    behind it. *)
Inductive net_event :=
  | NWrite (n : Z)                    (* the sender writes the next [n] bytes *)
  | NDeliver (i : nat) (pad : bytes)  (* the [i]-th datagram of the sender arrives *)
  | NSendAck                          (* the receiver acknowledges *)
  | NAck (i : nat)                    (* the [i]-th datagram of the receiver arrives *)
  | NRead (length : Z)                (* the receiver reads *)
  | NTimer.                           (* the timer of the sender fires *)

(** The two hosts. *)
Record hosts := mk_hosts { h_snd : world; h_rcv : world }.

Definition on_sender {A} (m : M A) (h : hosts) : res (A * hosts) :=
  '(a, w) ← m (h_snd h); Ok (a, mk_hosts w (h_rcv h)).
Definition on_receiver {A} (m : M A) (h : hosts) : res (A * hosts) :=
  '(a, w) ← m (h_rcv h); Ok (a, mk_hosts (h_snd h) w).

(** The application of the sender has [T] bytes to write and offers the next ones. *)
Definition write_next (S : stream) (T cs n : Z) : M unit :=
  x ← getctx cs;
  let m := n `min` (T - tc_lastByteWritten x) in
  mwhen (0 <? m) (dtp_send (env := es) 0 cs (stream_bytes S (tc_lastByteWritten x) m);; mret tt).

(** One event; the result are the bytes the receiving application reads.  A datagram
    of the sender is handled by the loop of [ProcessAggregatePackets]: data is
    stored, a probe is answered. *)
Definition net_step (S : stream) (T cs cr : Z) (ev : net_event) (h : hosts) : res (bytes * hosts) :=
  match ev with
  | NWrite n => on_sender (write_next S T cs n;; mret []) h
  | NDeliver i pad =>
    match w_sent (h_snd h) !! i with
    | None => Ok ([], h)
    | Some d =>
      let pkt := dg_data d ++ pad in
      on_receiver (aggregate_loop (env := er) cr [(pkt, zlen (dg_data d))] false false;; mret []) h
    end
  | NSendAck => on_receiver (DTPSendACKPacket (env := er) cr;; mret []) h
  | NAck i =>
    match w_sent (h_rcv h) !! i with
    | None => Ok ([], h)
    | Some d =>
      on_sender (HandleACKPacket (env := es) cs (GetAckNum (dg_data d)) (GetRcvdWindow (dg_data d));; mret []) h
    end
  | NRead length => on_receiver (r ← dtp_recv (env := er) 0 cr length 0; mret r.2) h
  | NTimer => on_sender (HandleTimeout (env := es);; mret []) h
  end.

Fixpoint net_run (S : stream) (T cs cr : Z) (evs : list net_event) (h : hosts) : res (bytes * hosts) :=
  match evs with
  | [] => Ok ([], h)
  | ev :: evs =>
    '(d, h) ← net_step S T cs cr ev h;
    '(rest, h) ← net_run S T cs cr evs h;
    Ok (d ++ rest, h)
  end.

Lemma net_run_cons S T cs cr ev evs h h1 d r h2 :
  net_step S T cs cr ev h = Ok (d, h1) → net_run S T cs cr evs h1 = Ok (r, h2) →
  net_run S T cs cr (ev :: evs) h = Ok (d ++ r, h2).
Proof using. intros E1 E2. simpl. rewrite E1. simpl. by rewrite E2. Qed.

(** ** The invariant of the two hosts *)

(** The sender: what it sent belongs to the stream, or is a probe; the timer serves
    it. *)
Record sender_ok (S : stream) (T cs : Z) (w : world) (x : dtp_context) : Prop := {
  sk_live : snd_live w cs x S;
  sk_writing : writing cs x;
  sk_net : tc_isNetConnected x = true;
  sk_total : tc_lastByteWritten x ≤ T;
  sk_sent : Forall (sent_by S x) (w_sent w);
  sk_timers : plain_timers x;
  sk_queue : timer_serves w cs }.

(** The receiver: it announced no more than it has. *)
Record receiver_ok (S : stream) (T cr : Z) (w : world) (x : dtp_context) (L : list node) : Prop := {
  rk_session : session T w cr x S L;
  rk_fin : tc_isFINRcvd x = false;
  rk_acks : Forall (λ d, GetAckNum (dg_data d) ≤ tc_nextByteExpected x ∧
                         is_u16 (GetRcvdWindow (dg_data d))) (w_sent w) }.

(** Together: the receiver has only written bytes, the sender has the rest. *)
Record net_ok (S : stream) (T cs cr : Z) (h : hosts) (xs xr : dtp_context) (L : list node) : Prop := {
  nk_snd : sender_ok S T cs (h_snd h) xs;
  nk_rcv : receiver_ok S T cr (h_rcv h) xr L;
  nk_read : tc_lastByteRead xr ≤ tc_lastByteWritten xs;
  nk_cov : ∀ p, covered (ivs L) p → p < tc_lastByteWritten xs;
  nk_acked : tc_lastByteAcked xs ≤ tc_nextByteExpected xr }.

Lemma net_next S T cs cr h xs xr L :
  net_ok S T cs cr h xs xr L → tc_nextByteExpected xr ≤ tc_lastByteWritten xs.
Proof using.
  intros [_ [Hse _ _] Hr Hc _]. pose proof (se_rcv _ _ _ _ _ _ Hse) as [_ _ _ _ _ _ (? & Hn & _) _].
  destruct (decide (tc_lastByteRead xr < tc_nextByteExpected xr)); [|lia].
  assert (tc_nextByteExpected xr - 1 < tc_lastByteWritten xs); [|lia]. apply Hc, Hn. lia.
Qed.

(** ** The sender *)

Lemma sent_by_grow S x x' ds :
  tc_peerAddr x' = tc_peerAddr x → tc_sock x' = tc_sock x → tc_lastByteWritten x ≤ tc_lastByteWritten x' →
  Forall (sent_by S x) ds → Forall (sent_by S x') ds.
Proof using.
  intros Ea Es Hle H. eapply Forall_impl; [exact H|]. intros d [(a & n & [] & ?)|[]]; [left|right].
  - exists a, n. split; [|lia]. constructor; try done. by rewrite Ea, Es.
  - constructor; try done. by rewrite Ea, Es.
Qed.

Lemma sent_by_stream S x ds : stream_segments S x ds → Forall (sent_by S x) ds.
Proof using. intros H. eapply Forall_impl; [exact H|]. intros d. by left. Qed.

(** A step of the sender after which it is the same connection. *)
Lemma sender_step S T cs w x w' x' ds :
  sender_ok S T cs w x → snd_live w' cs x' S → same_conn x x' → w_sent w' = w_sent w ++ ds →
  Forall (sent_by S x) ds → tx_frame cs w w' → sender_ok S T cs w' x'.
Proof using.
  intros [Hl [[? ?] ? ? ?] Hn Ht Hs [? ? ?] Hq] Hl' Hc Hse Hsg Ht'.
  pose proof Hc as (E1 & _ & _ & E4 & _ & _ & _ & E8 & E9 & _ & E11 & E12 & E13 & E14 & E15 & E16 & _).
  constructor; [done| |congruence|congruence| |constructor; congruence|by eapply timer_serves_tx].
  - constructor; [constructor|..]; congruence.
  - rewrite Hse. apply (sent_by_grow S x x'); [done|done|lia|]. by apply Forall_app.
Qed.

Lemma ack_sender S T cs w x w' x' ds :
  sender_ok S T cs w x → ack_step S cs w x w' x' ds → sender_ok S T cs w' x'.
Proof using.
  intros Hok [Hl Hc Hs Hsg Ht]. by eapply sender_step; [..|apply sent_by_stream|].
Qed.

Lemma ack_sends S cs w x w' x' ds : ack_step S cs w x w' x' ds → moves S x x' ds → sends S w x w' x' ds.
Proof using. intros [_ Hc Hs _ _] Hm. constructor; [split; apply Hc|done|done]. Qed.

Lemma continues_stream S p n : 0 ≤ n → continues S p (stream_bytes S p n).
Proof using. intros Hn i Hi. rewrite zlen_stream in Hi by done. by apply zget_stream. Qed.

Lemma write_next_spec S T cs w x n :
  sender_ok S T cs w x → T < 2 ^ 32 →
  wp (write_next S T cs n) (λ _ w', ∃ x', sender_ok S T cs w' x' ∧
    tc_lastByteWritten x ≤ tc_lastByteWritten x' ∧ tc_lastByteAcked x' = tc_lastByteAcked x ∧
    (∃ ds, sends S w x w' x' ds) ∧
    (let m := n `min` (T - tc_lastByteWritten x) in
     0 < m ≤ tc_writeBufLen x - (tc_lastByteWritten x - tc_lastByteAcked x) →
     ∃ x1 w1 ds, appended x x1 m ∧ avail_step S cs w1 x1 w' x' ds ∧ w_sent w1 = w_sent w)) w.
Proof using ups.
  intros Hsk HT. pose proof Hsk as [Hl Hwr Hn Ht Hs Htm Hqu]. pose proof (sn_wr _ _ _ _ (lv_snd _ _ _ _ Hl)) as [_ ? ? Hbuf ?].
  unfold write_next. apply wp_bind. eapply wp_getctx; [apply Hl|].
  set (m := n `min` (T - tc_lastByteWritten x)). apply wp_when; intros Hm;
    [|apply Z.ltb_ge in Hm; exists x; split_and!; [done..|exists []; constructor; [done|by rewrite app_nil_r|by apply moves_still]|lia]].
  apply Z.ltb_lt in Hm.
  set (k := m `min` (tc_writeBufLen x - (tc_lastByteWritten x - tc_lastByteAcked x))).
  apply wp_bind. eapply wp_mono.
  { eapply (dtp_send_spec w cs x S _ k); [done|done|apply continues_stream; lia|rewrite zlen_stream; lia
      |rewrite zlen_stream by lia; done|lia]. }
  intros r w' (x1 & w1 & x' & ds & Hap & [Hl' Hc Hse Hsg Ht'] & Hs1 & Ht1 & Ha & Hav & Hm' & _). apply wp_ret. exists x'.
  pose proof Hc as (E1 & _ & _ & E4 & _ & _ & _ & E8 & E9 & _ & E11 & E12 & E13 & E14 & E15 & E16 & _).
  rewrite Hap in E1, E4, E8, E9, E11, E12, E13, E14, E15, E16.
  cbn in E1, E4, E8, E9, E11, E12, E13, E14, E15, E16.
  assert (tc_lastByteWritten x ≤ tc_lastByteWritten x') by lia.
  split_and!; [|done|done| |].
  2: { exists ds. constructor; [split; congruence|congruence|]. destruct Hm' as [M1 M2 M3]. rewrite Hap in M1, M2, M3. constructor; [done|done|].
    intros p Hp. destruct (M3 p Hp) as [|(d & a & b & Hd & [] & Hr)]; [by left|]. right. exists d, a, b. split; [done|]. by split; [constructor|]. }
  2: { cbv zeta. intros Hroom. assert (k = m) as Hkm by lia. rewrite Hkm in Hap, Hav. exists x1, w1, ds. split_and!; [done|apply Hav; lia|done]. }
  destruct Hwr as [[? ?] ? ? ?], Htm as [? ? ?].
  constructor; [done|constructor; [constructor|..]; congruence|congruence|lia| |constructor; congruence|by eapply timer_serves_tx; [exact Ht'|eapply timer_serves_tx]].
  rewrite Hse, Hs1. apply Forall_app. split; [by eapply sent_by_grow; [..|exact Hs]|].
  eapply sent_by_grow; [..|apply sent_by_stream, Hsg]; rewrite Hap; cbn; [done..|lia].
Qed.

(** An acknowledgement that the receiver sent, however late. *)
Lemma ack_spec S T cs w x ack win :
  sender_ok S T cs w x → T < 2 ^ 31 → is_u16 win → ack ≤ tc_lastByteWritten x →
  wp (HandleACKPacket (env := es) cs ack win) (λ _ w', ∃ x', sender_ok S T cs w' x' ∧
    tc_lastByteWritten x' = tc_lastByteWritten x ∧
    (tc_lastByteAcked x' = tc_lastByteAcked x ∨ tc_lastByteAcked x' = ack) ∧
    (∃ ds, sends S w x w' x' ds) ∧
    (tc_lastByteAcked x ≤ ack → acked_to x x' ack ∧ (0 < peer_window x win → heard x x' (peer_window x win)))) w.
Proof using ups.
  intros Hsk HT Hw Hack. pose proof Hsk as [Hl Hwr Hn Ht Hs _ _].
  pose proof (sn_wr _ _ _ _ (lv_snd _ _ _ _ Hl)) as [_ ? ? Hbuf ?].
  destruct (decide (ack < tc_lastByteAcked x)) as [Hlt|Hge].
  - eapply HandleACKPacket_stale; [apply Hl|done|unfold DTP_MTU; lia|]. exists x.
    split_and!; [done|done|by left|exists []; constructor; [done|by rewrite app_nil_r|by apply moves_still]|lia].
  - eapply wp_mono; [apply (HandleACKPacket_step w cs x S); [done|done|done|lia]|].
    intros _ w' (x' & ds & Hst & Ha & Hm & Hh). exists x'.
    split_and!; [by eapply ack_sender|apply Hst|destruct Ha as [?|[? _]]; auto|exists ds; by eapply ack_sends|done].
Qed.

(** The timer. *)
Lemma timer_spec S T cs w x :
  sender_ok S T cs w x →
  wp (HandleTimeout (env := es)) (λ _ w', ∃ x' ds, sender_ok S T cs w' x' ∧ timer_step S cs w x w' x' ds ∧
    ∀ p l k, tc_packetQ x = p :: l → w_pkts w !! p = Some k →
      if d_lt (d_since (d_of_tv (env_clock (Env := es) (w_nclock w))) (tp_time k)) (tc_RTO x)
      then persisted x x' ∧ Forall (is_probe x) ds else ∃ d n, resent S x x' p ds d n) w.
Proof using ups.
  intros Hsk. pose proof Hsk as [Hl Hwr Hn Ht Hs Htm Hq].
  eapply wp_mono; [by eapply (HandleTimeout_spec w cs x S)|]. intros _ w' (x' & ds & Hst & Hre).
  exists x', ds. split_and!; [|exact Hst|exact Hre]. destruct Hst as [H1 H2 H3 H4 H5 H6 H7].
  by eapply (sender_step S T cs w x w' x' ds).
Qed.

(** ** The receiver *)

(** A datagram of the sender, in the receive buffer of the receiver. *)
Lemma segment_carries S x d a n pad :
  is_segment S x d a n → a + n < 2 ^ 32 → 0 ≤ a →
  let pkt := dg_data d ++ pad in
  u32 (GetPayloadLen pkt (zlen (dg_data d))) = n ∧ carries S pkt n ∧ GetSeqNum pkt = a ∧ IsSYNPacket pkt = false.
Proof using.
  intros [Hn Hseq Hca Hh Hl Hm [Hsyn _] _] Hw Ha pkt. pose proof (zlen_nonneg pad).
  assert (Hr : read_header pkt = read_header (dg_data d)) by (apply read_header_app; lia).
  unfold read_header in Hr. injection Hr as _ E2 _ _ E5 _ _ _ _ _ E11 _.
  assert (Hpl : GetPayloadLen pkt (zlen (dg_data d)) = n) by (unfold GetPayloadLen; lia).
  rewrite Hpl, E2, E11. split_and!; [apply u32_small; unfold is_u32; lia| |done|done].
  destruct Hca. constructor; rewrite ?E2, ?E5; try done; [unfold pkt; rewrite zlen_app; lia|].
  intros i Hi. rewrite <- ca_bytes by done. unfold pkt, zget. apply app_nth1. unfold zlen in *. lia.
Qed.

Lemma ack_number_next w c x S L T :
  session T w c x S L → tc_isFINRcvd x = false → GetAckNumber x = tc_nextByteExpected x.
Proof using.
  intros Hse Hf. unfold GetAckNumber. rewrite Hf, Z.add_0_r.
  pose proof (rcv_next_le _ _ _ _ _ (se_rcv _ _ _ _ _ _ Hse)).
  pose proof (rc_range _ _ _ _ _ (se_rcv _ _ _ _ _ _ Hse)) as [? ? ?].
  apply u32_small. unfold is_u32. lia.
Qed.

Lemma announces_next w c x S L T ds :
  session T w c x S L → tc_isFINRcvd x = false → announces x ds →
  Forall (λ d, GetAckNum (dg_data d) ≤ tc_nextByteExpected x ∧ is_u16 (GetRcvdWindow (dg_data d))) ds.
Proof using.
  intros Hse Hf H. eapply Forall_impl; [exact H|]. intros d [-> ?]. split; [|done].
  erewrite ack_number_next by done. done.
Qed.

Lemma read_spec S T cr w xr L length :
  receiver_ok S T cr w xr L → 0 < length →
  wp (dtp_recv (env := er) 0 cr length 0) (λ r w', ∃ xr' L', receiver_ok S T cr w' xr' L' ∧
    tc_lastByteRead xr ≤ tc_lastByteRead xr' ∧
    tc_lastByteRead xr' = tc_lastByteRead xr + length `min` (tc_nextByteExpected xr - tc_lastByteRead xr) ∧ same_session xr xr' ∧
    r.2 = stream_bytes S (tc_lastByteRead xr) (tc_lastByteRead xr' - tc_lastByteRead xr) ∧
    tc_nextByteExpected xr' = tc_nextByteExpected xr ∧
    (∀ p, covered (ivs L') p → covered (ivs L) p)) w.
Proof using upr.
  intros [Hse Hf Hacks] Hlen. eapply wp_mono; [by eapply (read_step T w cr xr S L length)|].
  intros r w' (xr' & L' & Hse' & Hle & Hrd & Hss & Hr & Hc & Hn & Hf' & ds & Hs & Han). exists xr', L'.
  split_and!; try done. constructor; [done|congruence|]. rewrite Hs, Hn. apply Forall_app.
  split; [done|]. by eapply announces_next.
Qed.

Lemma send_ack_spec S T cr w xr L :
  receiver_ok S T cr w xr L →
  wp (DTPSendACKPacket (env := er) cr) (λ _ w', receiver_ok S T cr w' xr L ∧
    ∃ d, w_sent w' = w_sent w ++ [d] ∧ GetAckNum (dg_data d) = tc_nextByteExpected xr ∧
      GetRcvdWindow (dg_data d) = Z.min (AdvertisedWindow xr) 0x7FFF) w.
Proof using upr.
  intros [Hse Hf Hacks]. pose proof Hse as [Hok [? ? [Hls Hfl] ? ?] ? ? ? ? ? ?].
  eapply io_send_ack; [by eapply rcv_ok_at|]. intros w' Hio Hs.
  destruct (control_header_read xr DTP_FLAG_ACK Hls Hfl) as [_ E]. unfold read_header, sent_header in E.
  injection E as _ _ Ha Hw.
  split; [|eexists; split; [exact Hs|]; cbn [dg_data]; split; [rewrite Ha; by eapply ack_number_next|exact Hw]].
  constructor; [by eapply session_step; [exact Hse|eapply rcv_ok_io; [exact Hio|exact Hok]|done..]|done|].
  rewrite Hs. apply Forall_app. split; [done|].
  eapply (announces_next w); [exact Hse|done|]. apply Forall_singleton.
  exact (control_header_ack xr DTP_FLAG_ACK Hls Hfl).
Qed.

Lemma arrival_spec S T cr w xr L buf n e :
  receiver_ok S T cr w xr L → carries S buf n → GetSeqNum buf + n ≤ e → e ≤ T →
  IsSYNPacket buf = false → (∀ p, covered (ivs L) p → p < e) →
  wp (HandleNormalPacket cr buf n) (λ _ w', ∃ xr' L', receiver_ok S T cr w' xr' L' ∧
    tc_lastByteRead xr' = tc_lastByteRead xr ∧ tc_nextByteExpected xr ≤ tc_nextByteExpected xr' ∧
    (∀ p, covered (ivs L') p → p < e) ∧
    same_session xr xr' ∧
    (GetSeqNum buf ≤ tc_nextByteExpected xr → seg_end xr buf n ≤ tc_nextByteExpected xr')) w.
Proof using.
  intros [Hse Hf Hacks] Hca He HT Hsyn Hcov.
  eapply wp_mono; [eapply (arrive_step T w cr xr S L buf n); [done|split_and!; [done|lia|done]]|].
  intros _ w' (xr' & L' & Hse' & Hr & Hc & Hnx & Hf' & Hs & Hss & Hpg). exists xr', L'. split_and!; [|done|done| |done|done].
  - constructor; [done|congruence|]. rewrite Hs. eapply Forall_impl; [exact Hacks|]. intros d [? ?]. split; [lia|done].
  - intros p [?|Hp]%Hc; [by apply Hcov|]. unfold seg_end in Hp. lia.
Qed.

(** The loop of [ProcessAggregatePackets] on a datagram of the sender. *)
Lemma datagram_spec S T cr w xr L xs d pad e :
  receiver_ok S T cr w xr L → sent_by S xs d → tc_lastByteWritten xs ≤ e → e ≤ T →
  (∀ p, covered (ivs L) p → p < e) →
  wp (aggregate_loop (env := er) cr [(dg_data d ++ pad, zlen (dg_data d))] false false) (λ _ w', ∃ xr' L',
    receiver_ok S T cr w' xr' L' ∧ tc_lastByteRead xr' = tc_lastByteRead xr ∧
    tc_nextByteExpected xr ≤ tc_nextByteExpected xr' ∧ (∀ p, covered (ivs L') p → p < e) ∧
    same_session xr xr' ∧
    (∀ a n, is_segment S xs d a n → a ≤ tc_nextByteExpected xr →
       (tc_lastByteRead xr + tc_readBufLen xr) `min` (a + n) ≤ tc_nextByteExpected xr')) w.
Proof using upr.
  intros Hr Hby He HT Hc. simpl. pose proof (se_wrap _ _ _ _ _ _ (rk_session _ _ _ _ _ _ Hr)) as HW.
  pose proof (rc_len _ _ _ _ _ (se_rcv _ _ _ _ _ _ (rk_session _ _ _ _ _ _ Hr))) as HL.
  destruct Hby as [(a & n & Hsg & Han)|Hpr].
  - destruct (segment_carries S xs d a n pad Hsg) as (El & Hca & Hsq & Hsyn);
      [lia|rewrite <- (sg_seq _ _ _ _ _ Hsg); apply Hsg|]. pose proof (sg_size _ _ _ _ _ Hsg) as Hn.
    set (len := GetPayloadLen _ _) in *. assert (Hlen : 0 < len).
    { unfold len, GetPayloadLen. destruct Hsg.
      rewrite (f_equal hf_hlen (read_header_app (dg_data d) pad ltac:(lia)) : GetHeaderLen _ = GetHeaderLen _). lia. }
    rewrite (proj2 (Z.ltb_lt _ _)) by done. rewrite El. apply wp_bind.
    eapply wp_mono; [eapply (arrival_spec S T cr w xr L _ n e); try done; lia|].
    intros r w' (xr' & L' & Hr' & Hrd & Hnx & Hc' & Hss & Hpg). apply wp_ret. exists xr', L'. split_and!; try done.
    intros a' n' Hsg' Ha.
    pose proof (sg_seq _ _ _ _ _ Hsg). pose proof (sg_seq _ _ _ _ _ Hsg').
    pose proof (sg_len _ _ _ _ _ Hsg). pose proof (sg_len _ _ _ _ _ Hsg'). unfold seg_end in Hpg. lia.
  - destruct Hpr as [Hl Hh Hna _]. unfold GetPayloadLen.
    pose proof (read_header_app (dg_data d) pad ltac:(rewrite Hl; done)) as Hra.
    rewrite (f_equal hf_hlen Hra : GetHeaderLen _ = GetHeaderLen _), Hh, Hl.
    rewrite (f_equal hf_ack Hra : IsACKPacket _ = IsACKPacket _), Hna. cbn [negb andb Z.sub Z.ltb].
    rewrite Z.sub_diag. change (0 <? 0) with false. change (0 =? 0) with true. cbn [andb mwhen].
    apply wp_bind, wp_bind. eapply wp_mono; [by apply send_ack_spec|]. intros r w' [Hr' _]. apply wp_ret, wp_ret.
    exists xr, L. split_and!; try done. intros a n Hsg. pose proof (sg_size _ _ _ _ _ Hsg).
    pose proof (sg_len _ _ _ _ _ Hsg). lia.
Qed.

(** ** Runs *)

Definition event_valid (ev : net_event) : Prop :=
  match ev with NRead length => 0 < length | _ => True end.

(** The hosts after some events, and what the receiving application read. *)
Record progress (S : stream) (T cs cr : Z) (h : hosts) (xs xr : dtp_context) (d : bytes) (h' : hosts)
    (xs' xr' : dtp_context) (L' : list node) : Prop := {
  pg_ok : net_ok S T cs cr h' xs' xr' L';
  pg_written : tc_lastByteWritten xs ≤ tc_lastByteWritten xs';
  pg_read : tc_lastByteRead xr ≤ tc_lastByteRead xr';
  pg_bytes : d = stream_bytes S (tc_lastByteRead xr) (tc_lastByteRead xr' - tc_lastByteRead xr);
  pg_flowing : flowing S (h_snd h) xs xr → flowing S (h_snd h') xs' xr' }.

Lemma wp_sender {A B} (m : M A) (f : A → B) h Q :
  wp m Q (h_snd h) →
  ∃ a w', on_sender (x ← m; mret (f x)) h = Ok (f a, mk_hosts w' (h_rcv h)) ∧ Q a w'.
Proof using.
  intros (a & w' & E & HQ)%wp_run. exists a, w'. split; [|done].
  unfold on_sender, mbind at 2, M_bind. by rewrite E.
Qed.

Lemma wp_receiver {A B} (m : M A) (f : A → B) h Q :
  wp m Q (h_rcv h) →
  ∃ a w', on_receiver (x ← m; mret (f x)) h = Ok (f a, mk_hosts (h_snd h) w') ∧ Q a w'.
Proof using.
  intros (a & w' & E & HQ)%wp_run. exists a, w'. split; [|done].
  unfold on_receiver, mbind at 2, M_bind. by rewrite E.
Qed.

(** A step of the sender. *)
Lemma progress_sender S T cs cr h xs xr L w' xs' ds :
  net_ok S T cs cr h xs xr L → sender_ok S T cs w' xs' →
  tc_lastByteWritten xs ≤ tc_lastByteWritten xs' → tc_lastByteAcked xs' ≤ tc_nextByteExpected xr →
  sends S (h_snd h) xs w' xs' ds → progress S T cs cr h xs xr [] (mk_hosts w' (h_rcv h)) xs' xr L.
Proof using.
  intros [_ Hr Hrd Hc _] Hs Hw Ha Hsd. constructor; [|done|done|by rewrite Z.sub_diag|intros Hf; by eapply flowing_sends].
  constructor; [done|done|lia| |done]. intros p Hp. specialize (Hc p Hp). lia.
Qed.

Lemma net_step_spec S T cs cr ev h xs xr L :
  net_ok S T cs cr h xs xr L → event_valid ev →
  ∃ d h' xs' xr' L', net_step S T cs cr ev h = Ok (d, h') ∧ progress S T cs cr h xs xr d h' xs' xr' L'.
Proof using ups upr.
  intros Hok Hev. pose proof Hok as [Hs Hr Hrd Hc Ha]. pose proof (net_next _ _ _ _ _ _ _ _ Hok) as Hn.
  pose proof (se_wrap _ _ _ _ _ _ (rk_session _ _ _ _ _ _ Hr)) as HT.
  pose proof (rc_len _ _ _ _ _ (se_rcv _ _ _ _ _ _ (rk_session _ _ _ _ _ _ Hr))) as Hl.
  assert (Hid : progress S T cs cr h xs xr [] h xs xr L) by (constructor; [done..|by rewrite Z.sub_diag|done]).
  destruct ev as [n|i pad| |i|length|]; unfold net_step.
  - destruct (wp_sender _ (λ _, [] : bytes) _ _ (write_next_spec S T cs _ xs n Hs ltac:(lia)))
      as (a & w' & -> & xs' & Hs' & Hw & Ha' & (ds & Hsd) & _). eexists _, _, xs', xr, L. split; [done|].
    eapply progress_sender; [done..|lia|done].
  - destruct (w_sent (h_snd h) !! i) as [d|] eqn:Hd; [|by eexists _, _, _, _, _].
    pose proof (proj1 (Forall_lookup _ _) (sk_sent _ _ _ _ _ Hs) i d Hd) as Hby.
    destruct (wp_receiver _ (λ _, [] : bytes) _ _ (datagram_spec S T cr _ xr L xs d pad (tc_lastByteWritten xs)
      Hr Hby ltac:(lia) (sk_total _ _ _ _ _ Hs) Hc)) as (b & w' & -> & xr' & L' & Hr' & Hrd' & Hn' & Hc' & Hss & _).
    eexists _, _, xs, xr', L'. split; [done|].
    constructor; [constructor; [done|done|lia|done|lia]|done|lia|by rewrite Hrd', Z.sub_diag|intros Hf; by eapply flowing_session].
  - destruct (wp_receiver _ (λ _, [] : bytes) _ _ (send_ack_spec S T cr _ xr L Hr)) as (b & w' & -> & Hr' & _).
    eexists _, _, xs, xr, L. split; [done|]. constructor; [by constructor|done|done|by rewrite Z.sub_diag|done].
  - destruct (w_sent (h_rcv h) !! i) as [d|] eqn:Hd; [|by eexists _, _, _, _, _].
    destruct (proj1 (Forall_lookup _ _) (rk_acks _ _ _ _ _ _ Hr) i d Hd) as [Hack Hwin].
    destruct (wp_sender _ (λ _, [] : bytes) _ _ (ack_spec S T cs _ xs _ _ Hs ltac:(lia) Hwin (Z.le_trans _ _ _ Hack Hn)))
      as (b & w' & -> & xs' & Hs' & Hw & Ha' & (ds & Hsd) & _). eexists _, _, xs', xr, L. split; [done|].
    eapply progress_sender; [done|done|lia|lia|done].
  - destruct (wp_receiver _ snd _ _ (read_spec S T cr _ xr L length Hr Hev))
      as (b & w' & -> & xr' & L' & Hr' & Hle & _ & Hss & Hb & Hn' & Hc'). eexists _, _, xs, xr', L'. split; [done|].
    pose proof (rcv_next_le _ _ _ _ _ (se_rcv _ _ _ _ _ _ (rk_session _ _ _ _ _ _ Hr'))).
    constructor; [constructor; [done|done|lia| |lia]|done|done|done|intros Hf; by eapply flowing_session]. intros p Hp. by apply Hc, Hc'.
  - destruct (wp_sender _ (λ _, [] : bytes) _ _ (timer_spec S T cs _ xs Hs))
      as (b & w' & -> & xs' & ds & Hs' & [_ Hco Hsn _ _ Ha' Hm'] & _). eexists _, _, xs', xr, L. split; [done|].
    pose proof Hco as (Es & _ & _ & Ed & _ & _ & _ & E8 & _). eapply (progress_sender _ _ _ _ _ _ _ _ _ _ ds); [done|done|lia|lia|by constructor].
Qed.

(** *** A loss is repaired *)

Lemma timer_resends S T cs cr h xs xr L p l k :
  net_ok S T cs cr h xs xr L → tc_packetQ xs = p :: l → w_pkts (h_snd h) !! p = Some k →
  d_lt (d_since (d_of_tv (env_clock (Env := es) (w_nclock (h_snd h)))) (tp_time k)) (tc_RTO xs) = false →
  ∃ h1 xs1 i d n, net_step S T cs cr NTimer h = Ok ([], h1) ∧ net_ok S T cs cr h1 xs1 xr L ∧
    w_sent (h_snd h1) !! i = Some d ∧ is_segment S xs d (tc_lastByteAcked xs) n ∧
    same_conn xs xs1 ∧ tc_lastByteAcked xs1 = tc_lastByteAcked xs ∧
    tc_isHerWindowZero xs1 = tc_isHerWindowZero xs ∧ h_rcv h1 = h_rcv h.
Proof using ups.
  intros Hok Hq Hk Hexp. pose proof Hok as [Hs Hr Hrd Hc Ha].
  destruct (wp_sender _ (λ _, [] : bytes) _ _ (timer_spec S T cs _ xs Hs))
    as (b & w' & E & xs' & ds & Hs' & [_ Hco Hse _ _ Ha' Hm'] & Hre). specialize (Hre p l k Hq Hk). rewrite Hexp in Hre.
  destruct Hre as (d & n & [(ds1 & Eds & _) Hsg _ Hwz _ _]).
  pose proof Hco as (Es & _ & _ & Ed & _ & _ & _ & E8 & _).
  eexists _, xs', (length (w_sent (h_snd h) ++ ds1)), d, n. split_and!; [exact E| |cbn|done..].
  - eapply (progress_sender _ _ _ _ _ _ _ _ _ _ ds); [done|done|lia|lia|by constructor].
  - rewrite Hse, Eds, app_assoc. by apply list_lookup_middle.
Qed.

(** A segment that starts where the receiver waits, or before, is taken as far as it fits. *)
Lemma segment_delivered S T cs cr h xs xr L i d a n pad :
  net_ok S T cs cr h xs xr L → w_sent (h_snd h) !! i = Some d → is_segment S xs d a n → a ≤ tc_nextByteExpected xr →
  ∃ h1 xr1 L1, net_step S T cs cr (NDeliver i pad) h = Ok ([], h1) ∧ net_ok S T cs cr h1 xs xr1 L1 ∧
    (tc_lastByteRead xr + tc_readBufLen xr) `min` (a + n) ≤ tc_nextByteExpected xr1 ∧
    tc_nextByteExpected xr ≤ tc_nextByteExpected xr1 ∧
    tc_lastByteRead xr1 = tc_lastByteRead xr ∧ same_session xr xr1 ∧ h_snd h1 = h_snd h.
Proof using upr.
  intros Hok Hd Hsg Hle. pose proof Hok as [Hs Hr Hrd Hc Ha]. unfold net_step. rewrite Hd.
  pose proof (proj1 (Forall_lookup _ _) (sk_sent _ _ _ _ _ Hs) i d Hd) as Hby.
  destruct (wp_receiver _ (λ _, [] : bytes) _ _ (datagram_spec S T cr _ xr L xs d pad (tc_lastByteWritten xs)
    Hr Hby ltac:(lia) (sk_total _ _ _ _ _ Hs) Hc)) as (b & w' & -> & xr' & L' & Hr' & Hrd' & Hn' & Hc' & Hss & Hpg).
  eexists _, xr', L'. split_and!; [done|constructor; [done|done|lia|done|lia]|by eapply Hpg|done..].
Qed.

Lemma ack_round S T cs cr h xs xr L :
  net_ok S T cs cr h xs xr L →
  ∃ h1 j, net_step S T cs cr NSendAck h = Ok ([], h1) ∧ h_snd h1 = h_snd h ∧ net_ok S T cs cr h1 xs xr L ∧
    ∃ d, w_sent (h_rcv h1) !! j = Some d ∧ GetAckNum (dg_data d) = tc_nextByteExpected xr ∧
      GetRcvdWindow (dg_data d) = Z.min (AdvertisedWindow xr) 0x7FFF.
Proof using upr.
  intros [Hs Hr Hrd Hc Ha].
  destruct (wp_receiver _ (λ _, [] : bytes) _ _ (send_ack_spec S T cr _ xr L Hr)) as (b & w' & E1 & Hr' & d & Hse & Hack & Hwd).
  eexists _, (length (w_sent (h_rcv h))). split_and!; [exact E1|done|by constructor|].
  exists d. split; [|done]. cbn [h_rcv]. rewrite Hse. by apply list_lookup_middle.
Qed.

(** An acknowledgement of all that the receiver has arrives at the sender. *)
Lemma ack_heard S T cs cr h xs xr L j d :
  net_ok S T cs cr h xs xr L → w_sent (h_rcv h) !! j = Some d → GetAckNum (dg_data d) = tc_nextByteExpected xr →
  GetRcvdWindow (dg_data d) = Z.min (AdvertisedWindow xr) 0x7FFF →
  ∃ h1 xs1, net_step S T cs cr (NAck j) h = Ok ([], h1) ∧ h_rcv h1 = h_rcv h ∧ net_ok S T cs cr h1 xs1 xr L ∧
    tc_lastByteWritten xs1 = tc_lastByteWritten xs ∧ acked_to xs xs1 (tc_nextByteExpected xr) ∧
    (∃ ds, sends S (h_snd h) xs (h_snd h1) xs1 ds) ∧
    (let win := heard_window xr (tc_sendWindowScale xs) in 0 < win → heard xs xs1 win).
Proof using ups.
  intros Hok Hd Hack Hwd. pose proof Hok as [Hs Hr Hrd Hc Ha]. pose proof (net_next _ _ _ _ _ _ _ _ Hok) as Hn.
  pose proof (se_wrap _ _ _ _ _ _ (rk_session _ _ _ _ _ _ Hr)) as HT.
  pose proof (rc_len _ _ _ _ _ (se_rcv _ _ _ _ _ _ (rk_session _ _ _ _ _ _ Hr))) as Hl.
  destruct (proj1 (Forall_lookup _ _) (rk_acks _ _ _ _ _ _ Hr) _ d Hd) as [_ Hwin].
  destruct (wp_sender _ (λ _, [] : bytes) h _ (ack_spec S T cs _ xs (GetAckNum (dg_data d)) _ Hs ltac:(lia) Hwin ltac:(lia)))
    as (b' & w2 & E2 & xs2 & Hs2 & Hw2 & Hor & Hsd & Hto). rewrite Hack in Hor, Hto. destruct (Hto Ha) as [Hacked Hh].
  eexists _, xs2. split_and!; [unfold net_step; rewrite Hd, Hack; rewrite Hack in E2; exact E2|done| |done|done|done|].
  - constructor; [done|done|lia|rewrite Hw2; done|lia].
  - cbv zeta. unfold heard_window. rewrite <- Hwd. exact Hh.
Qed.

(** Every run of valid events succeeds and delivers the next bytes of the
    stream. *)
Lemma net_run_spec S T cs cr evs h xs xr L :
  net_ok S T cs cr h xs xr L → Forall event_valid evs →
  ∃ d h' xs' xr' L', net_run S T cs cr evs h = Ok (d, h') ∧ progress S T cs cr h xs xr d h' xs' xr' L'.
Proof using ups upr.
  revert h xs xr L. induction evs as [|ev evs IH]; intros h xs xr L Hok Hev.
  - eexists [], h, xs, xr, L. split; [done|]. constructor; [done..|by rewrite Z.sub_diag|done].
  - apply Forall_cons in Hev as [He Hev].
    destruct (net_step_spec S T cs cr ev h xs xr L Hok He) as (d1 & h1 & xs1 & xr1 & L1 & E1 & [P1 P2 P3 P4 P5]).
    destruct (IH h1 xs1 xr1 L1 P1 Hev) as (d2 & h2 & xs2 & xr2 & L2 & E2 & [Q1 Q2 Q3 Q4 Q5]).
    exists (d1 ++ d2), h2, xs2, xr2, L2. split; [by eapply net_run_cons|].
    constructor; [done|lia|lia| |by intros ?%P5%Q5]. rewrite P4, Q4.
    replace (tc_lastByteRead xr2 - tc_lastByteRead xr) with
      (tc_lastByteRead xr1 - tc_lastByteRead xr + (tc_lastByteRead xr2 - tc_lastByteRead xr1)) by lia.
    rewrite stream_bytes_app by lia. do 2 f_equal. lia.
Qed.

(** C1: The stream is reliable end to end.  A sender and a receiver of the library
    run over a network that loses, duplicates, delays and reorders the datagrams of
    both directions; the applications write and read, and the retransmission timer
    of the sender fires, at any time.  No step fails,
    the invariant of both hosts holds again, and what the receiving application
    has read is exactly the bytes of the stream from where it was to where it now
    is, all of them written by the sending application before. *)
Theorem stream_delivered S T cs cr evs h xs xr L :
  net_ok S T cs cr h xs xr L → Forall event_valid evs →
  ∃ d h' xs' xr' L', net_run S T cs cr evs h = Ok (d, h') ∧ net_ok S T cs cr h' xs' xr' L' ∧
    tc_lastByteRead xr ≤ tc_lastByteRead xr' ≤ tc_lastByteWritten xs' ∧
    d = stream_bytes S (tc_lastByteRead xr) (tc_lastByteRead xr' - tc_lastByteRead xr).
Proof using ups upr.
  intros Hok Hev. destruct (net_run_spec S T cs cr evs h xs xr L Hok Hev)
    as (d & h' & xs' & xr' & L' & E & [P1 P2 P3 P4 P5]).
  exists d, h', xs', xr', L'. split_and!; [done..|apply P1|done].
Qed.

(** C4: The sender can always repair a loss.  After any run, every byte that was
    written and that the receiver does not have contiguously is still in the write
    buffer of the sender, at its place. *)
Theorem missing_bytes_kept S T cs cr evs h xs xr L :
  net_ok S T cs cr h xs xr L → Forall event_valid evs →
  ∃ d h' xs' xr' wb, net_run S T cs cr evs h = Ok (d, h') ∧
    ctx_at (h_snd h') cs = Some xs' ∧ ctx_at (h_rcv h') cr = Some xr' ∧ tc_writeBuf xs' = Some wb ∧
    ∀ p, tc_nextByteExpected xr' ≤ p < tc_lastByteWritten xs' → zget wb (p - tc_lastByteAcked xs') = S p.
Proof using ups upr.
  intros Hok Hev. destruct (net_run_spec S T cs cr evs h xs xr L Hok Hev)
    as (d & h' & xs' & xr' & L' & E & [[Hs Hr _ _ Ha] _ _ _ _]).
  pose proof (sn_wr _ _ _ _ (lv_snd _ _ _ _ (sk_live _ _ _ _ _ Hs))) as [(wb & Hwb & _ & Hd) _ _ _ _].
  exists d, h', xs', xr', wb. split_and!; [done|apply Hs|eapply rcv_ok_at, Hr|done|].
  intros p Hp. apply Hd. lia.
Qed.

(** C5: A timeout repairs a loss.  When segments are in flight and the timer of the
    first one has expired, the read buffer of the receiver has room behind the next
    expected position, and the sender does not hold the window of the peer for closed,
    the timer resends a segment such that, if the network delivers it and the
    acknowledgement of the receiver, the acknowledged position of the sender moves
    forward, whatever was lost before. *)
Theorem timeout_repairs_loss S T cs cr h xs xr L p l k pad :
  net_ok S T cs cr h xs xr L → tc_packetQ xs = p :: l → w_pkts (h_snd h) !! p = Some k →
  d_lt (d_since (d_of_tv (env_clock (Env := es) (w_nclock (h_snd h)))) (tp_time k)) (tc_RTO xs) = false →
  tc_nextByteExpected xr < tc_lastByteRead xr + tc_readBufLen xr → tc_isHerWindowZero xs = false →
  ∃ i j h' xs' xr' L', net_run S T cs cr [NTimer; NDeliver i pad; NSendAck; NAck j] h = Ok ([], h') ∧
    net_ok S T cs cr h' xs' xr' L' ∧ tc_lastByteAcked xs < tc_lastByteAcked xs'.
Proof using ups upr.
  intros Hok Hq Hk Hexp Hroom Hwz.
  destruct (timer_resends S T cs cr h xs xr L p l k Hok Hq Hk Hexp)
    as (h1 & xs1 & i & d & n & E1 & Hok1 & Hd & Hsg & Hco & Ha1 & Hwz1 & _).
  assert (Hsg1 : is_segment S xs1 d (tc_lastByteAcked xs1) n).
  { destruct Hco as (Es & _ & _ & Ea & _). rewrite Ha1. destruct Hsg. constructor; try done. by rewrite Ea, Es. }
  destruct (segment_delivered S T cs cr h1 xs1 xr L i d _ n pad Hok1 Hd Hsg1 (nk_acked _ _ _ _ _ _ _ _ Hok1))
    as (h2 & xr2 & L2 & E2 & Hok2 & Hmin & Hmono & _).
  assert (Hlt : tc_lastByteAcked xs1 < tc_nextByteExpected xr2).
  { pose proof (sg_size _ _ _ _ _ Hsg1). pose proof (nk_acked _ _ _ _ _ _ _ _ Hok1). lia. }
  destruct (ack_round S T cs cr h2 xs1 xr2 L2 Hok2) as (h3 & j & E3 & _ & Hok3 & dk & Hdk & Hak & Hwk).
  destruct (ack_heard S T cs cr h3 xs1 xr2 L2 j dk Hok3 Hdk Hak Hwk) as (h4 & xs4 & E4 & _ & Hok4 & _ & [Ha4|[_ Hz]] & _); [|congruence].
  exists i, j, h4, xs4, xr2, L2. split_and!; [|done|lia].
  apply (net_run_cons _ _ _ _ _ _ _ h1 [] [] h4 E1). apply (net_run_cons _ _ _ _ _ _ _ h2 [] [] h4 E2).
  apply (net_run_cons _ _ _ _ _ _ _ h3 [] [] h4 E3). by apply (net_run_cons _ _ _ _ _ _ _ h4 [] [] h4 E4).
Qed.
End network.

(** ** The two hosts of the scenario *)

Lemma conn_net S T : 0 ≤ T < 2 ^ 30 → net_ok S T 5 5 (mk_hosts (host conn) (host conn)) conn conn [].
Proof.
  intros HT. constructor; [| |eval_facts|by intros p ?%covered_nil|eval_facts].
  - constructor; [apply conn_sending|constructor; [constructor|..]; eval_facts|reflexivity| |constructor
      |constructor; eval_facts|by apply timer_serves_one]. pose proof conn_positions. lia.
  - constructor; [by apply conn_session|reflexivity|constructor].
Qed.

(** 3000 bytes are written; the segment with the first 100 was sent and lost. *)
Lemma lost_net : net_ok (λ _, 0) 10000 5 5 (mk_hosts host_flight (host conn)) conn_flight conn [].
Proof.
  constructor; [| |eval_facts|by intros p ?%covered_nil|eval_facts].
  - constructor; [apply flight_live|constructor; [constructor|..]; eval_facts|reflexivity|eval_facts|constructor
      |apply flight_timers|by apply timer_serves_one].
  - constructor; [apply conn_session; lia|reflexivity|constructor].
Qed.

(** Two segments arrive in the wrong order and one of them twice; the first
    acknowledgement is lost. *)
Definition demo : list net_event :=
  [NWrite 3000; NDeliver 0 []; NSendAck; NAck 0; NDeliver 2 []; NDeliver 2 [0; 0]; NSendAck; NRead 2000;
   NDeliver 1 []; NSendAck; NAck 2; NRead 100; NRead 5000].

Example stream_delivered_witness :
  ∃ d h' xs' xr' L', net_run (λ p, p mod 251) 10000 5 5 demo (mk_hosts (host conn) (host conn)) = Ok (d, h') ∧
    net_ok (λ p, p mod 251) 10000 5 5 h' xs' xr' L' ∧
    tc_lastByteRead conn ≤ tc_lastByteRead xr' ≤ tc_lastByteWritten xs' ∧
    d = stream_bytes (λ p, p mod 251) (tc_lastByteRead conn) (tc_lastByteRead xr' - tc_lastByteRead conn).
Proof.
  eapply stream_delivered; [apply conn_net; lia|]. unfold demo, event_valid. repeat constructor.
Defined.

Example missing_bytes_kept_witness :
  ∃ d h' xs' xr' wb, net_run (λ p, p mod 251) 10000 5 5 demo (mk_hosts (host conn) (host conn)) = Ok (d, h') ∧
    ctx_at (h_snd h') 5 = Some xs' ∧ ctx_at (h_rcv h') 5 = Some xr' ∧ tc_writeBuf xs' = Some wb ∧
    ∀ p, tc_nextByteExpected xr' ≤ p < tc_lastByteWritten xs' →
         zget wb (p - tc_lastByteAcked xs') = (λ p, p mod 251) p.
Proof.
  eapply missing_bytes_kept; [apply conn_net; lia|]. unfold demo, event_valid. repeat constructor.
Defined.

(** The run of the scenario delivers all 3000 bytes. *)
Example demo_complete :
  match net_run (λ p, p mod 251) 10000 5 5 demo (mk_hosts (host conn) (host conn)) with
  | Ok (d, h) => d = stream_bytes (λ p, p mod 251) 0 3000
  | Err _ => False
  end.
Proof. vm_compute. reflexivity. Qed.

Example timeout_repairs_loss_witness :
  ∃ i j h' xs' xr' L', net_run (λ _, 0) 10000 5 5 [NTimer; NDeliver i []; NSendAck; NAck j]
      (mk_hosts host_flight (host conn)) = Ok ([], h') ∧
    net_ok (λ _, 0) 10000 5 5 h' xs' xr' L' ∧ tc_lastByteAcked conn_flight < tc_lastByteAcked xs'.
Proof.
  apply (timeout_repairs_loss (λ _, 0) 10000 5 5 _ conn_flight conn [] 3 [] flight_pkt []);
    [apply lost_net|reflexivity|reflexivity|vm_compute; reflexivity|eval_facts|eval_facts].
Defined.
