(* ===== verification/Completion.v ===== *)
(** * The whole stream arrives

    EndToEnd.v shows that what is read is a prefix of what is written, whatever the network
    does.  Here is the other half: the two hosts never get stuck.  After any run (losses,
    duplicates, reordering, timeouts, a closed window), a run of events leads on in which the
    rest of the stream is delivered.  First the receiver reads what it has and its
    acknowledgement tells the sender so ([settled]); then either the next byte is in flight, and
    the network delivers the datagram with it, held back so far (the sender has sent each byte
    that counts as in flight), or nothing is in flight, and then nothing waits to be sent and the
    application writes more. *)

From S2P Require Import Prelude Double Header Context World ContextTable Pools RetransQueue.
From S2P Require Import Select Congestion Lifecycle Send Scenario Intervals Reassembly Receiver.
From S2P Require Import Transmit Ack Acknowledge Challenge Teardown Handshake Timeout Recovery.
From S2P Require Import EventLoop Socket Delivery Writing EndToEnd.

Section network.
Context {es er : Env} {ups : NetUp es} {upr : NetUp er} (S : stream) (T cs cr : Z).

Notation run := (net_run (es := es) (er := er) S T cs cr).
Notation step := (net_step (es := es) (er := er) S T cs cr).
Notation ok := (net_ok S T cs cr).

Lemma net_run_app evs1 evs2 h1 h2 h3 d1 d2 :
  run evs1 h1 = Ok (d1, h2) → run evs2 h2 = Ok (d2, h3) → run (evs1 ++ evs2) h1 = Ok (d1 ++ d2, h3).
Proof using.
  revert h1 d1. induction evs1 as [|ev evs IH]; intros h1 d1; simpl; [by intros [= <- <-]|].
  destruct (step ev h1) as [[d h]|]; [|done]. simpl. destruct (run evs h) as [[r h']|] eqn:E; [|done]. simpl.
  intros [= <- <-] E2. rewrite (IH h r E E2). simpl. by rewrite app_assoc.
Qed.

Lemma net_run_one ev h d h' : step ev h = Ok (d, h') → run [ev] h = Ok (d, h').
Proof using. intros E. simpl. rewrite E. simpl. by rewrite app_nil_r. Qed.

(** The receiver reads all it has. *)
Lemma round_read h xs xr L len :
  ok h xs xr L → 0 < len → tc_nextByteExpected xr - tc_lastByteRead xr ≤ len →
  ∃ h1 xr1 L1, step (NRead len) h = Ok (stream_bytes S (tc_lastByteRead xr) (tc_nextByteExpected xr - tc_lastByteRead xr), h1) ∧
    ok h1 xs xr1 L1 ∧ h_snd h1 = h_snd h ∧ tc_lastByteRead xr1 = tc_nextByteExpected xr ∧
    tc_nextByteExpected xr1 = tc_nextByteExpected xr ∧ same_session xr xr1.
Proof using upr.
  intros Hok Hl Hle. pose proof Hok as [Hs Hr Hrd Hc Ha]. pose proof (net_next _ _ _ _ _ _ _ _ Hok) as Hn.
  pose proof (rcv_next_le _ _ _ _ _ (se_rcv _ _ _ _ _ _ (rk_session _ _ _ _ _ _ Hr))).
  destruct (wp_receiver _ snd _ _ (read_spec (er := er) S T cr _ xr L len Hr Hl))
    as (b & w' & E & xr1 & L1 & Hr1 & Hge & Hrd1 & Hss & Hb & Hn1 & Hc1).
  assert (Hrd2 : tc_lastByteRead xr1 = tc_nextByteExpected xr) by lia. rewrite Hb, Hrd2 in E.
  eexists _, xr1, L1. split_and!; [exact E| |done..]. constructor; [done|done|lia|intros p Hp; by apply Hc, Hc1|lia].
Qed.

(** ** Settling *)

(** All that arrived is read and acknowledged, the window the sender knows admits a segment, and
    nothing waits to be sent. *)
Record settled (h : hosts) (xs xr : dtp_context) (L : list node) : Prop := {
  st_ok : ok h xs xr L;
  st_flowing : flowing S (h_snd h) xs xr;
  st_read : tc_lastByteRead xr = tc_nextByteExpected xr;
  st_acked : tc_lastByteAcked xs = tc_nextByteExpected xr;
  st_window : MAX_PAYLOAD ≤ tc_rcvWindow xs;
  st_unstalled : unstalled xs }.

(** The acknowledgement of a receiver that has read all it has arrives.  It is settled then, if
    the window was not closed, unless the packet counts as a third duplicate. *)
Lemma ack_settles h xs xr L j d :
  ok h xs xr L → flowing S (h_snd h) xs xr → tc_lastByteRead xr = tc_nextByteExpected xr →
  w_sent (h_rcv h) !! j = Some d → GetAckNum (dg_data d) = tc_nextByteExpected xr →
  GetRcvdWindow (dg_data d) = Z.min (AdvertisedWindow xr) 0x7FFF →
  ∃ h1 xs1, step (NAck j) h = Ok ([], h1) ∧ h_rcv h1 = h_rcv h ∧ ok h1 xs1 xr L ∧ flowing S (h_snd h1) xs1 xr ∧
    tc_lastByteWritten xs1 = tc_lastByteWritten xs ∧ tc_isHerWindowZero xs1 = false ∧
    (tc_isHerWindowZero xs = false → settled h1 xs1 xr L ∨ tc_numACKRcvd xs1 = 4) ∧
    (tc_isHerWindowZero xs = false → tc_numACKRcvd xs = 4 → settled h1 xs1 xr L).
Proof using ups.
  intros Hok Hfl Hrd Hd Ha Hw. destruct (ack_heard (es := es) (er := er) S T cs cr h xs xr L j d Hok Hd Ha Hw)
    as (h1 & xs1 & E & Hh & Hok1 & Hwr & Hto & (ds & Hsd) & Hhd). cbv zeta in Hhd.
  pose proof (flowing_sends _ _ _ _ _ _ _ Hfl Hsd) as Hfl1.
  assert (Hwin : heard_window xr (tc_sendWindowScale xs) = full_window xr (tc_sendWindowScale xs)).
  { unfold full_window. rewrite Hrd. by destruct xr. }
  pose proof (fl_window _ _ _ _ Hfl) as Hf. rewrite <- Hwin in Hf. assert (HM : 0 < MAX_PAYLOAD) by done.
  destruct Hhd as [[Hv Hz] Hu Hag]; [lia|]. exists h1, xs1.
  split_and!; [exact E|exact Hh|exact Hok1|exact Hfl1|exact Hwr|exact Hz| |].
  - intros Hz0. destruct Hto as [Hto|[_ Hz1]]; [|congruence]. destruct Hu as [Hu|]; [left|by right]. constructor; [exact Hok1|exact Hfl1|exact Hrd|exact Hto|lia|exact Hu].
  - intros Hz0 H4. destruct Hto as [Hto|[_ Hz1]]; [|congruence]. constructor; [exact Hok1|exact Hfl1|exact Hrd|exact Hto|lia|exact (Hag H4)].
Qed.

Lemma settle h xs xr L :
  ok h xs xr L → flowing S (h_snd h) xs xr →
  ∃ evs h' xs' xr' L', run evs h = Ok (stream_bytes S (tc_lastByteRead xr) (tc_nextByteExpected xr - tc_lastByteRead xr), h') ∧
    Forall event_valid evs ∧ settled h' xs' xr' L' ∧ tc_nextByteExpected xr' = tc_nextByteExpected xr.
Proof using ups upr.
  intros Hok Hfl. set (len := Z.max 1 (tc_nextByteExpected xr - tc_lastByteRead xr)).
  destruct (round_read h xs xr L len Hok) as (h1 & xr1 & L1 & E1 & Hok1 & Hh1 & Hr1 & Hn1 & Hss1); [lia|lia|].
  assert (Hfl1 : flowing S (h_snd h1) xs xr1) by (rewrite Hh1; by eapply flowing_session).
  destruct (ack_round (es := es) (er := er) S T cs cr h1 xs xr1 L1 Hok1) as (h2 & j & E2 & Hh2 & Hok2 & d & Hd & Ha & Hw).
  rewrite <- Hh2 in Hfl1. assert (Hrd : tc_lastByteRead xr1 = tc_nextByteExpected xr1) by congruence.
  destruct (ack_settles h2 xs xr1 L1 j d Hok2 Hfl1 Hrd Hd Ha Hw) as (h3 & xs3 & E3 & Hh3 & Hok3 & Hfl3 & _ & Hz3 & _ & _).
  rewrite <- Hh3 in Hd.
  destruct (ack_settles h3 xs3 xr1 L1 j d Hok3 Hfl3 Hrd Hd Ha Hw) as (h4 & xs4 & E4 & Hh4 & Hok4 & Hfl4 & _ & Hz4 & Hs4 & _).
  rewrite <- Hh4 in Hd. set (data := stream_bytes _ _ _) in *.
  assert (E : ∀ evs h', run evs h4 = Ok ([], h') → run ([NRead len; NSendAck; NAck j; NAck j] ++ evs) h = Ok (data, h')).
  { intros evs h' E. rewrite <- (app_nil_r data). eapply net_run_app; [|exact E]. rewrite <- (app_nil_r data).
    apply (net_run_cons _ _ _ _ _ _ _ h1); [done|]. apply (net_run_cons _ _ _ _ _ _ _ h2 [] []); [done|].
    apply (net_run_cons _ _ _ _ _ _ _ h3 [] []); [done|]. by apply net_run_one. }
  assert (Hv : Forall event_valid [NRead len; NSendAck; NAck j; NAck j]) by (repeat constructor; unfold event_valid; lia).
  destruct (Hs4 Hz3) as [Hs|H4].
  - eexists _, h4, xs4, xr1, L1. split; [by apply (E [])|]. by rewrite app_nil_r.
  - destruct (ack_settles h4 xs4 xr1 L1 j d Hok4 Hfl4 Hrd Hd Ha Hw) as (h5 & xs5 & E5 & _ & _ & _ & _ & _ & _ & Hs5).
    eexists _, h5, xs5, xr1, L1. split; [apply (E [NAck j]); by apply net_run_one|]. split; [apply Forall_app; split; [done|by repeat constructor]|].
    split; [by apply Hs5|done].
Qed.

(** ** The next byte *)

(** A datagram with the byte the receiver waits for arrives. *)
Lemma next_delivered h xs xr L :
  ok h xs xr L → flowing S (h_snd h) xs xr → tc_lastByteRead xr = tc_nextByteExpected xr →
  tc_lastByteAcked xs ≤ tc_nextByteExpected xr < tc_lastByteSent xs →
  ∃ i h1 xr1 L1, step (NDeliver i []) h = Ok ([], h1) ∧ ok h1 xs xr1 L1 ∧ flowing S (h_snd h1) xs xr1 ∧
    tc_nextByteExpected xr < tc_nextByteExpected xr1 ∧ tc_lastByteRead xr1 = tc_lastByteRead xr.
Proof using upr.
  intros Hok Hfl Hrd Hn. destruct (fl_cover _ _ _ _ Hfl _ Hn) as (d & a & n & [i Hd]%list_elem_of_lookup & Hsg & Han).
  destruct (segment_delivered (es := es) (er := er) S T cs cr h xs xr L i d a n [] Hok Hd Hsg)
    as (h1 & xr1 & L1 & E & Hok1 & Hmin & _ & Hr1 & Hss & Hh); [lia|].
  pose proof (fl_room _ _ _ _ Hfl) as Hroom. assert (HM : 0 < MAX_PAYLOAD) by done.
  exists i, h1, xr1, L1. split_and!; [done|done|rewrite Hh; by eapply flowing_session|lia|done].
Qed.

(** The application writes more: it is sent at once. *)
Lemma more_written h xs xr L :
  settled h xs xr L → tc_lastByteSent xs = tc_lastByteAcked xs → tc_nextByteExpected xr < T →
  ∃ h1 xs1, step (NWrite MAX_PAYLOAD) h = Ok ([], h1) ∧ ok h1 xs1 xr L ∧ flowing S (h_snd h1) xs1 xr ∧
    tc_lastByteAcked xs1 ≤ tc_nextByteExpected xr < tc_lastByteSent xs1.
Proof using ups.
  intros [Hok Hfl Hrd Hak Hwin Hun] Hse HT. pose proof Hok as [Hs Hrv Hle Hc Hak0].
  pose proof (sk_live _ _ _ _ _ Hs) as [[_ Hwr _ _ _ _ _ _] _ [Hl1 _ Hl3 _] _].
  pose proof Hwr as [_ ? ? ? ?]. assert (HM : 0 < MAX_PAYLOAD) by done. pose proof (sk_net _ _ _ _ _ Hs) as Hnc.
  pose proof (se_wrap _ _ _ _ _ _ (rk_session _ _ _ _ _ _ Hrv)) as HW.
  pose proof (rc_len _ _ _ _ _ (se_rcv _ _ _ _ _ _ (rk_session _ _ _ _ _ _ Hrv))) as HL.
  assert (Hw : tc_lastByteWritten xs = tc_lastByteSent xs).
  { apply Hun; [done|done|rewrite (fl_count _ _ _ _ Hfl); lia|done]. }
  destruct (wp_sender _ (λ _, [] : bytes) _ _ (write_next_spec (es := es) S T cs _ xs MAX_PAYLOAD Hs ltac:(lia)))
    as (b & w' & E & xs1 & Hs1 & Hw1 & Ha1 & (ds & Hsd) & Hav). cbv zeta in Hav. set (m := MAX_PAYLOAD `min` _) in *.
  destruct Hav as (x1 & w1 & ds1 & Hap & Hav & _); [lia|].
  destruct Hav as [Hst Hack [Fw _ _] _ _ _ Hun1]. pose proof (as_conn _ _ _ _ _ _ _ Hst) as (_ & _ & _ & _ & _ & _ & _ & C8 & C9 & _).
  rewrite Hap in Fw, C8, C9. cbn in Fw, C8, C9. eexists _, xs1. split_and!; [exact E| |by eapply flowing_sends|lia|].
  - constructor; [done|done|lia|intros p Hp; specialize (Hc p Hp); lia|lia].
  - pose proof (flowing_sends _ _ _ _ _ _ _ Hfl Hsd) as [Hcnt _ _ _].
    pose proof (sn_wr _ _ _ _ (lv_snd _ _ _ _ (sk_live _ _ _ _ _ Hs1))) as [_ ? ? _ _].
    destruct (decide (tc_lastByteSent xs1 = tc_lastByteAcked xs1)) as [He|]; [|lia].
    assert (tc_lastByteWritten xs1 = tc_lastByteSent xs1) by (apply Hun1; (congruence || lia)). lia.
Qed.

Lemma advance h xs xr L :
  settled h xs xr L → tc_nextByteExpected xr < T →
  ∃ evs h' xs' xr' L', run evs h = Ok ([], h') ∧ Forall event_valid evs ∧ ok h' xs' xr' L' ∧ flowing S (h_snd h') xs' xr' ∧
    tc_nextByteExpected xr < tc_nextByteExpected xr' ∧ tc_lastByteRead xr' = tc_lastByteRead xr.
Proof using ups upr.
  intros Hset HT. pose proof Hset as [Hok Hfl Hrd Hak _ _].
  pose proof (sn_wr _ _ _ _ (lv_snd _ _ _ _ (sk_live _ _ _ _ _ (nk_snd _ _ _ _ _ _ _ _ Hok)))) as [_ ? ? _ _].
  destruct (decide (tc_lastByteSent xs = tc_lastByteAcked xs)) as [He|Hne].
  - destruct (more_written h xs xr L Hset He HT) as (h1 & xs1 & E1 & Hok1 & Hfl1 & Hn1).
    destruct (next_delivered h1 xs1 xr L Hok1 Hfl1 Hrd Hn1) as (i & h2 & xr2 & L2 & E2 & Hok2 & Hfl2 & Hn2 & Hr2).
    exists [NWrite MAX_PAYLOAD; NDeliver i []], h2, xs1, xr2, L2. split_and!; try done; [|by repeat constructor].
    apply (net_run_cons _ _ _ _ _ _ _ h1 [] []); [done|]. by apply net_run_one.
  - destruct (next_delivered h xs xr L Hok Hfl Hrd) as (i & h1 & xr1 & L1 & E1 & Hok1 & Hfl1 & Hn1 & Hr1); [lia|].
    exists [NDeliver i []], h1, xs, xr1, L1. split_and!; try done; [by apply net_run_one|by repeat constructor].
Qed.

(** ** To the end *)

Lemma settled_le h xs xr L : settled h xs xr L → tc_nextByteExpected xr ≤ T.
Proof using.
  intros [Hok _ _ _ _ _]. etrans; [by eapply net_next|]. apply (sk_total _ _ _ _ _ (nk_snd _ _ _ _ _ _ _ _ Hok)).
Qed.

Lemma finish k : ∀ h xs xr L, settled h xs xr L → T - tc_nextByteExpected xr ≤ Z.of_nat k →
  ∃ evs h' xs' xr' L', run evs h = Ok (stream_bytes S (tc_nextByteExpected xr) (T - tc_nextByteExpected xr), h') ∧
    Forall event_valid evs ∧ settled h' xs' xr' L' ∧ tc_nextByteExpected xr' = T.
Proof using ups upr.
  induction k as [|k IH]; intros h xs xr L Hset Hk; pose proof (settled_le _ _ _ _ Hset);
    (destruct (decide (tc_nextByteExpected xr = T)) as [He|Hne];
     [exists [], h, xs, xr, L; split_and!; [by rewrite He, Z.sub_diag|constructor|done|done]|]); [lia|].
  destruct (advance h xs xr L Hset) as (evs1 & h1 & xs1 & xr1 & L1 & E1 & Hev1 & Hok1 & Hfl1 & Hn1 & Hr1); [lia|].
  destruct (settle h1 xs1 xr1 L1 Hok1 Hfl1) as (evs2 & h2 & xs2 & xr2 & L2 & E2 & Hev2 & Hset2 & Hn2).
  pose proof (settled_le _ _ _ _ Hset2) as Hle2.
  destruct (IH h2 xs2 xr2 L2 Hset2) as (evs3 & h3 & xs3 & xr3 & L3 & E3 & Hev3 & Hset3 & Hn3); [lia|].
  exists (evs1 ++ evs2 ++ evs3), h3, xs3, xr3, L3. split_and!; [|by repeat (apply Forall_app; split)|done|done].
  rewrite Hr1, (st_read _ _ _ _ Hset), Hn2 in *.
  replace (T - tc_nextByteExpected xr) with ((tc_nextByteExpected xr1 - tc_nextByteExpected xr) + (T - tc_nextByteExpected xr1)) by lia.
  rewrite stream_bytes_app by lia. change (stream_bytes S (tc_nextByteExpected xr) ?n) with ([] ++ stream_bytes S (tc_nextByteExpected xr) n).
  rewrite <- app_assoc. eapply net_run_app; [exact E1|]. eapply net_run_app; [exact E2|].
  replace (tc_nextByteExpected xr + _) with (tc_nextByteExpected xr1) by lia. exact E3.
Qed.

(** From any state that flows, a run delivers the rest. *)
Lemma rest_arrives h xs xr L :
  ok h xs xr L → flowing S (h_snd h) xs xr →
  ∃ evs h' xs' xr' L', run evs h = Ok (stream_bytes S (tc_lastByteRead xr) (T - tc_lastByteRead xr), h') ∧
    Forall event_valid evs ∧ ok h' xs' xr' L' ∧ tc_lastByteRead xr' = T ∧ tc_lastByteAcked xs' = T.
Proof using ups upr.
  intros Hok Hfl. destruct (settle h xs xr L Hok Hfl) as (evs1 & h1 & xs1 & xr1 & L1 & E1 & Hev1 & Hset1 & Hn1).
  pose proof (settled_le _ _ _ _ Hset1) as Hle.
  pose proof (rcv_next_le _ _ _ _ _ (se_rcv _ _ _ _ _ _ (rk_session _ _ _ _ _ _ (nk_rcv _ _ _ _ _ _ _ _ Hok)))).
  destruct (finish (Z.to_nat (T - tc_nextByteExpected xr1)) h1 xs1 xr1 L1 Hset1) as (evs2 & h2 & xs2 & xr2 & L2 & E2 & Hev2 & [] & Hn2); [lia|].
  exists (evs1 ++ evs2), h2, xs2, xr2, L2. split_and!; [|by apply Forall_app|done|congruence|congruence].
  replace (T - tc_lastByteRead xr) with ((tc_nextByteExpected xr - tc_lastByteRead xr) + (T - tc_nextByteExpected xr)) by lia.
  rewrite stream_bytes_app by lia. eapply net_run_app; [exact E1|]. rewrite Hn1 in E2.
  replace (tc_lastByteRead xr + _) with (tc_nextByteExpected xr) by lia. exact E2.
Qed.

(** C3: The two hosts never get stuck.  Take any run from a state in which the sender has sent
    what it counts as in flight and the receiver can announce a window for a segment: datagrams
    are lost, duplicated and reordered, the applications write and read when they like, the
    window closes, the timer fires and takes packets back.  Then a further run delivers the rest,
    in which the network delivers datagrams it has held back or gets now (that the timer makes
    up for one that never comes is [timeout_repairs_loss]): what the receiving application reads
    in both is the whole stream, however long, and at the end the sender knows that all of it
    arrived. *)
Theorem whole_stream_arrives h xs xr L evs :
  ok h xs xr L → flowing S (h_snd h) xs xr → Forall event_valid evs →
  ∃ d h1 evs' d' h2 xs2 xr2 L2, run evs h = Ok (d, h1) ∧ Forall event_valid evs' ∧ run evs' h1 = Ok (d', h2) ∧
    d ++ d' = stream_bytes S (tc_lastByteRead xr) (T - tc_lastByteRead xr) ∧
    ok h2 xs2 xr2 L2 ∧ tc_lastByteRead xr2 = T ∧ tc_lastByteAcked xs2 = T.
Proof using ups upr.
  intros Hok Hfl Hev. destruct (net_run_spec (es := es) (er := er) S T cs cr evs h xs xr L Hok Hev) as (d & h1 & xs1 & xr1 & L1 & E1 & [P1 P2 P3 P4 P5]).
  destruct (rest_arrives h1 xs1 xr1 L1 P1 (P5 Hfl)) as (evs2 & h2 & xs2 & xr2 & L2 & E2 & Hev2 & Hok2 & Hr2 & Ha2).
  exists d, h1, evs2. eexists. exists h2, xs2, xr2, L2. split_and!; [done|done|exact E2| |done|done|done].
  pose proof (nk_read _ _ _ _ _ _ _ _ P1). pose proof (sk_total _ _ _ _ _ (nk_snd _ _ _ _ _ _ _ _ P1)).
  replace (T - tc_lastByteRead xr) with ((tc_lastByteRead xr1 - tc_lastByteRead xr) + (T - tc_lastByteRead xr1)) by lia.
  rewrite stream_bytes_app by lia. rewrite P4. do 2 f_equal. lia.
Qed.
End network.

(** ** The two hosts of the scenario *)

Lemma conn_flowing S : flowing S (host conn) conn conn.
Proof. constructor; [reflexivity|intros p Hp; revert Hp; change (0 ≤ p < 0 → carried S conn (w_sent (host conn)) p); lia|eval_facts|eval_facts]. Qed.

(** After the run of EndToEnd.v, in which two segments were swapped and one was duplicated. *)
Example whole_stream_arrives_witness :
  ∃ d h1 evs' d' h2, net_run (λ p, p mod 251) 1000000 5 5 demo (mk_hosts (host conn) (host conn)) = Ok (d, h1) ∧
    net_run (λ p, p mod 251) 1000000 5 5 evs' h1 = Ok (d', h2) ∧ d ++ d' = stream_bytes (λ p, p mod 251) 0 1000000.
Proof.
  destruct (whole_stream_arrives (λ p, p mod 251) 1000000 5 5 (mk_hosts (host conn) (host conn)) conn conn [] demo)
    as (d & h1 & evs' & d' & h2 & _ & _ & _ & E1 & _ & E2 & Ed & _);
    [apply conn_net; lia|apply conn_flowing|unfold demo, event_valid; by repeat constructor|].
  exists d, h1, evs', d', h2. split; [exact E1|]. split; [exact E2|exact Ed].
Defined.
