(* ===== verification/Session.v ===== *)
(** * A connection, from its opening to its data

    The theorems of EndToEnd.v start from the invariant [net_ok] of two connected hosts.  Here
    it is established by the code: a client connects to a listening server, both applications
    choose non-blocking calls, and from there the stream of the server is delivered to the
    client whatever the network does, and the two never get stuck (Completion.v).  Other
    connections may be in the queue of the server's timer, the listening socket for one. *)

From S2P Require Import Prelude Double Header Context World ContextTable Pools RetransQueue.
From S2P Require Import Select Congestion Lifecycle Send Scenario Services Intervals Reassembly Receiver.
From S2P Require Import Transmit Ack Acknowledge Challenge Teardown Crypt Migration Closing Handshake Timeout Recovery.
From S2P Require Import EventLoop Socket Delivery Opening Establish Options Writing EndToEnd Completion.

(** The datagrams sent so far are no longer under way: the network keeps no copy of the
    packets of the handshake. *)
Definition forget (w : world) : world := w <| w_sent := [] |>.

Definition nonblocking (x : dtp_context) : dtp_context := x <| tc_fstatus := O_NONBLOCK |>.

Lemma fcntl_nonblock w c x :
  ctx_at w c = Some x → sock_ok c x → tc_isActive x = true →
  dtp_fcntl c DTP_F_SETFL O_NONBLOCK w = Ok (0, w <| w_ctxs ::= <[c := nonblocking x]> |>).
Proof.
  intros Hx Hs Ha. enough (H : wp (dtp_fcntl c DTP_F_SETFL O_NONBLOCK)
    (λ r w', r = 0 ∧ w' = w <| w_ctxs ::= <[c := nonblocking x]> |>) w).
  { by destruct (wp_run _ _ _ H) as (r & w' & -> & -> & ->). }
  unfold dtp_fcntl. apply wp_bind. eapply active_ctx_spec; [exact Hs|exact Hx|exact Ha|].
  change (DTP_F_SETFL =? DTP_F_GETFL) with false. change (DTP_F_SETFL =? DTP_F_SETFL) with true. cbv iota.
  apply wp_bind. eapply wp_modctx; [exact Hx|]. by apply wp_ret.
Qed.

(** ** The client is ready to receive *)

Lemma client_receives S T w c x : client_open w c x → RSA_LEN ≤ T < 2 ^ 30 →
  receiver_ok S T c (forget (w <| w_ctxs ::= <[c := nonblocking x]> |>)) (nonblocking x) [].
Proof.
  intros [Hx [Hso Hsr] Hst Hsd (rb & n & sc & Hv & Hrb & Hn) Hnx Hrd Hre Hh Hb] HT. injection Hsd as D1 D2 D3 D4 D5 D6 D7 D8. injection Hv as V1 V2 V3 V4.
  set (w' := forget _). assert (Hx' : ctx_at w' c = Some (nonblocking x)) by (by eapply ctx_at_put).
  constructor; [|done|constructor]. constructor.
  - constructor.
    + exists rb. split_and!; [done|change (zlen rb = tc_readBufLen x); lia|]. by intros p ?%covered_nil.
    + constructor; [exact Hx'|exact V3|constructor|by intros p ?%elem_of_nil|by destruct Hb].
    + change (in_range (tc_lastByteRead x) (tc_lastByteRead x + tc_readBufLen x)). rewrite Hre, V2. unfold RSA_LEN.
      constructor; lia.
    + change (0 < tc_readBufLen x). lia.
    + done.
    + by intros s e ?%elem_of_nil.
    + change (next_ok (tc_lastByteRead x) (tc_nextByteExpected x) []). rewrite Hre, Hnx. split_and!; [lia|lia|by intros ?%covered_nil].
    + change (tc_lastByteRcvd x = tc_nextByteExpected x). congruence.
  - by constructor; [constructor|..].
  - done.
  - change (tc_state x ≠ SOCK_SYN_RCVD ∧ tc_state x ≠ SOCK_SYN_SENT). by rewrite Hst.
  - done.
  - change (T + tc_readBufLen x < 2 ^ 31). lia.
  - change (tc_lastByteRead x ≤ T). lia.
  - by intros p ?%covered_nil.
Qed.

(** ** The server is ready to send *)

Lemma serves_put w c x : timer_serves w c → timer_serves (forget (w <| w_ctxs ::= <[c := x]> |>)) c.
Proof.
  intros (Hlk & l1 & l2 & Hq & H1 & H2). split; [done|]. exists l1, l2. split; [done|].
  assert (Hr : ∀ l, others_rest w c l → others_rest (forget (w <| w_ctxs ::= <[c := x]> |>)) c l).
  { intros l H c' Hc'. destruct (H c' Hc') as (Hne & y & Hy & Hre). split; [done|]. exists y. split; [|done].
    change (ctx_at (w <| w_ctxs ::= <[c := x]> |>) c' = Some y). by rewrite ctx_at_put_ne. }
  split; by apply Hr.
Qed.

Lemma server_sends S T w d y : server_open S w d y → timer_serves w d → 0 ≤ d < FD_SETSIZE_S → RSA_LEN ≤ T →
  sender_ok S T d (forget (w <| w_ctxs ::= <[d := nonblocking y]> |>)) (nonblocking y).
Proof.
  intros [[Hs [Hst Hop Hwi] [C1 C2 C3 C4] Hso] Hd Hn Ha Hw Hact Hre Hf _ _ Hk Hlb] Ht Hr HT. set (w' := forget _).
  assert (Hx' : ctx_at w' d = Some (nonblocking y)) by (eapply (ctx_at_put w d y), Hs).
  destruct Hs as [_ [Hb H1 H2 H3 H4] Hch Hnd Hfr Hpo Hhd Hrt]. constructor; [|constructor; [by constructor|done..]|done|change (tc_lastByteWritten y ≤ T); lia|constructor|by constructor|by apply serves_put].
  constructor; [|by constructor|by constructor|try done]. constructor; try done. destruct Hpo. by constructor.
Qed.

(** The new connection in the queue of the timer, the others still at rest. *)
Lemma server_timer w ws1 ws2 d l q y l1 l2 :
  d ∉ w_retTimerQ w → ctx_at w l = Some y → (∀ c, c ∈ w_retTimerQ w → ∃ z, ctx_at w c = Some z ∧ at_rest z) →
  w_retTimerQ w = l1 ++ l2 → w_retTimerQ ws1 = l1 ++ d :: l2 → w_timerLock ws1 = false →
  ctx_at ws1 l = Some (offered d q y) → (∀ c z, c ≠ d → c ≠ l → ctx_at w c = Some z → ctx_at ws1 c = Some z) →
  tx_frame d ws1 ws2 → timer_serves ws2 d.
Proof.
  intros Hd Hy Hrest Eq Eq1 Hlk Hl Ho F. apply (timer_serves_tx d ws1 ws2 F).
  assert (Hr : ∀ c, c ∈ w_retTimerQ w → c ≠ d ∧ ∃ z, ctx_at ws1 c = Some z ∧ at_rest z).
  { intros c Hc. assert (c ≠ d) by (by intros ->). split; [done|]. destruct (Hrest c Hc) as (z & Hz & Hre).
    destruct (decide (c = l)) as [->|]; [|by exists z; auto].
    exists (offered d q y). split; [done|]. rewrite Hy in Hz. injection Hz as <-. by destruct Hre. }
  split; [done|]. exists l1, l2. split; [done|]. split; intros c Hc; apply Hr; rewrite Eq; set_solver.
Qed.

(** ** Both hosts *)

Section connection.
Context {cl sv : Env} {upc : NetUp cl} {ups : NetUp sv} {rnd : RandUp sv} {kp : KeyPair cl sv}.

(** The packet a host has sent last. *)
Definition last_sent (w : world) : bytes := default [] (dg_data <$> last (w_sent w)).

Lemma last_sent_app w l d : w_sent w = l ++ [d] → last_sent w = dg_data d.
Proof using. intros E. unfold last_sent. by rewrite E, last_snoc. Qed.

(** The client, the receiver of the stream, connects from its socket [c] at [caddr] to the
    socket [l] at [saddr] of the server; the network delivers the packet each side has sent
    last.  Then both applications choose non-blocking calls.  The result is the socket of the
    server for the connection. *)
Definition connection (tries : nat) (c l : Z) (caddr saddr : sockaddr_in) (h : hosts) : res (option Z * hosts) :=
  '(_, h) ← on_receiver (dtp_connect (env := cl) tries c saddr SIZEOF_SOCKADDR_IN) h;
  '(r, h) ← on_sender (HandleSYNPacket (env := sv) l (last_sent (h_rcv h)) caddr) h;
  match r with
  | None => Ok (None, h)
  | Some d =>
    '(_, h) ← on_receiver (HandleSYNACKPacket (env := cl) c (last_sent (h_snd h)) saddr) h;
    let ack := last_sent (h_rcv h) in
    '(_, h) ← on_sender (HandleACKPacket (env := sv) d (GetAckNum ack) (GetRcvdWindow ack)) h;
    '(_, h) ← on_sender (dtp_fcntl d DTP_F_SETFL O_NONBLOCK) h;
    '(_, h) ← on_receiver (dtp_fcntl c DTP_F_SETFL O_NONBLOCK) h;
    Ok (Some d, mk_hosts (forget (h_snd h)) (forget (h_rcv h)))
  end.

(** The socket [x] of the client has sent nothing yet, and with its scale it can announce a
    read buffer that holds a segment; a new socket is such a one. *)
Record roomy (x : dtp_context) : Prop := {
  ro_first : tc_isFirstPacketSent x = false; ro_scale : 0 ≤ tc_recvWindowScale x ≤ DTP_MAX_WINSCALE_SHIFT;
  ro_len : MAX_PAYLOAD ≤ tc_readBufLen x < 2 ^ 20;
  ro_window : MAX_PAYLOAD ≤ u32 (Z.shiftl (Z.min (Z.shiftr (tc_readBufLen x) (tc_recvWindowScale x)) 0x7FFF) (tc_recvWindowScale x)) }.

Lemma roomy_heard x x' s : roomy x → rcv_view x' = rcv_view x → tc_nextByteExpected x' = tc_lastByteRead x' →
  s = taken_scale (announced_ws x) 0 →
  MAX_PAYLOAD ≤ tc_readBufLen x' ∧ heard_window x' s = u32 (Z.shiftl (Z.min (Z.shiftr (tc_readBufLen x) s) 0x7FFF) s) ∧
  s = tc_recvWindowScale x.
Proof using.
  intros [Hf Hs Hl _] Hv Hn ->. injection Hv as _ E1 _ E2.
  assert (E : taken_scale (announced_ws x) 0 = tc_recvWindowScale x).
  { unfold taken_scale, announced_ws. rewrite Hf. destruct (Z.ltb_spec 0 (tc_recvWindowScale x)); [|cbn; lia].
    by rewrite (proj2 (Z.leb_le _ _)) by lia. }
  rewrite E. split_and!; [lia| |done]. unfold heard_window, AdvertisedWindow, GetAvailReadBufSize, GetReadBufDataSize.
  rewrite E1, E2, Hn, Z.sub_diag. change (i32 (u32 0)) with 0. rewrite Z.sub_0_r. assert (HM : 0 < MAX_PAYLOAD) by done.
  by rewrite (u32_small (tc_readBufLen x)) by (unfold is_u32; lia).
Qed.

(** The connection is in the invariant of EndToEnd.v, at the position behind the key. *)
Lemma connection_spec S T wc ws c d l x y q caddr saddr tries j :
  client_ready (cl := cl) wc c x j → server_ready (sv := sv) ws d l y q → (j < tries)%nat →
  (∀ c', ¬ on_map ws c' (flow_id (env := cl) (w_nclock wc + j))) →
  (∀ c', c' ∈ w_retTimerQ ws → ∃ z, ctx_at ws c' = Some z ∧ at_rest z) → RSA_LEN ≤ T < 2 ^ 30 →
  ∃ h xs xr, connection tries c l caddr saddr (mk_hosts ws wc) = Ok (Some d, h) ∧ net_ok S T d c h xs xr [] ∧
    agreed (cl := cl) (sv := sv) caddr saddr (default 0 (w_ports (h_snd h) !! d)) xr xs ∧ tc_lastByteRead xr = RSA_LEN ∧
    (roomy x → flowing S (h_snd h) xs xr).
Proof using upc ups rnd kp.
  intros Hc Hs Hj Hfree Hrest HT. pose proof (cc_free _ _ (sr_create _ _ _ _ _ Hs)) as [_ Hd Hnq _].
  pose proof (li_ctx _ _ _ _ (sr_listen _ _ _ _ _ Hs)) as Hly.
  pose proof (handshake_spec S wc ws c d l x y q caddr saddr tries j Hc Hs Hj Hfree) as H.
  destruct (wp_run _ _ _ H) as (r & wc1 & E1 & -> & syn & Es1 & H1). specialize (H1 []).
  destruct (wp_run _ _ _ H1) as (r & ws1 & E2 & -> & synack & y' & port & Es2 & Hy' & _ & Hl & Hp & Hoth & (Hlk & l1 & l2 & Eq & Eq1) & H2).
  specialize (H2 []). destruct (wp_run _ _ _ H2) as (r & wc2 & E3 & -> & ack & x' & Es3 & Hco & Hrv & _ & H3).
  destruct (wp_run _ _ _ H3) as ([] & ws2 & E4 & y'' & Hso & Hag & (Hsc & Hkn) & F). rewrite app_nil_r in E2, E3.
  pose proof (server_timer ws ws1 ws2 d l q y l1 l2 Hnq Hly Hrest Eq Eq1 Hlk Hl Hoth F) as Ht.
  set (xs := nonblocking y''). set (xr := nonblocking x').
  assert (E5 : dtp_fcntl d DTP_F_SETFL O_NONBLOCK ws2 = Ok (0, ws2 <| w_ctxs ::= <[d := xs]> |>))
    by (apply fcntl_nonblock; [apply Hso|by split; [apply Hso|]|apply Hso]).
  pose proof Hco as [Hx' Hsk _ Hsd _ _ _ Hrd _ _]. injection Hsd as Hact _ _ _ _ _ _ _.
  assert (E6 : dtp_fcntl c DTP_F_SETFL O_NONBLOCK wc2 = Ok (0, wc2 <| w_ctxs ::= <[c := xr]> |>))
    by (apply fcntl_nonblock; done).
  assert (Hok : net_ok S T d c (mk_hosts (forget (ws2 <| w_ctxs ::= <[d := xs]> |>)) (forget (wc2 <| w_ctxs ::= <[c := xr]> |>))) xs xr []).
  { constructor; cbn [h_snd h_rcv].
    - apply server_sends; done || apply HT.
    - by apply client_receives.
    - change (tc_lastByteRead x' ≤ tc_lastByteWritten y''). rewrite Hrd, (so_written _ _ _ _ Hso). lia.
    - by intros p ?%covered_nil.
    - change (tc_lastByteAcked y'' ≤ tc_nextByteExpected x').
      rewrite (so_acked _ _ _ _ Hso), (so_written _ _ _ _ Hso), (co_next _ _ _ Hco). lia. }
  eexists _, xs, xr. split; [|split; [exact Hok|split; [|split]]].
  - unfold connection, on_sender, on_receiver. cbn [h_snd h_rcv]. rewrite E1. cbn [mbind res_bind h_snd h_rcv].
    rewrite (last_sent_app _ _ _ Es1). cbn [dg_data]. rewrite E2. cbn [mbind res_bind h_snd h_rcv].
    rewrite (last_sent_app _ _ _ Es2). cbn [dg_data]. rewrite E3. cbn [mbind res_bind h_snd h_rcv].
    rewrite (last_sent_app _ _ _ Es3). cbn [dg_data]. rewrite E4. cbn [mbind res_bind h_snd h_rcv].
    rewrite E5. cbn [mbind res_bind h_snd h_rcv]. rewrite E6. reflexivity.
  - cbn [h_snd]. replace (w_ports _ !! d) with (Some port); [by destruct Hag|].
    rewrite <- Hp. change (w_ports ws1 !! d = w_ports ws2 !! d). by rewrite (tx_rest _ _ _ F).
  - done.
  - intros Hroom. destruct (roomy_heard x x' (taken_scale (announced_ws x) 0) Hroom Hrv) as (R1 & R2 & R3);
      [by rewrite Hrd, (co_next _ _ _ Hco)|done|]. rewrite R3 in *. pose proof (ro_window _ Hroom) as R4. rewrite <- R2 in R4.
    pose proof (sn_wr _ _ _ _ (lv_snd _ _ _ _ (so_live _ _ _ _ Hso))) as [_ ? ? _ _]. pose proof (so_acked _ _ _ _ Hso).
    assert (Hse : tc_lastByteSent y'' = tc_lastByteAcked y'') by lia.
    constructor; [|intros p Hpp|exact R1|].
    + change (tc_segSent y'' = tc_lastByteSent y'' - tc_lastByteAcked y''). rewrite (so_seg _ _ _ _ Hso). lia.
    + exfalso. revert Hpp. change (¬ (tc_lastByteAcked y'' ≤ p < tc_lastByteSent y'')). lia.
    + change (MAX_PAYLOAD ≤ full_window x' (tc_sendWindowScale y'')). rewrite Hsc. unfold full_window.
      replace (x' <| tc_nextByteExpected := tc_lastByteRead x' |>) with x'; [done|]. rewrite Hrd, <- (co_next _ _ _ Hco). by destruct x'.
Qed.

(** C2: A connection delivers.  A client connects to a listening server, whose random devices
    deliver and whose other connections are at rest; the network delivers the three packets of
    the handshake, of which it keeps no copy, and both applications choose non-blocking calls.  No
    step fails, both ends agree on key, flow ID, host IDs and positions, and from then on,
    whatever the network does to the datagrams and whenever the applications write and read and
    the timer of the server fires, no step fails and what the client's application has read is
    exactly the stream of the server's application from the position behind the key, all of it
    written before.  If the read buffer of the client holds a segment, as that of a new socket
    does, they never get stuck: after each such run a further one delivers the rest of the
    stream. *)
Theorem connection_delivers S T wc ws c d l x y q caddr saddr tries j :
  client_ready (cl := cl) wc c x j → server_ready (sv := sv) ws d l y q → (j < tries)%nat →
  (∀ c', ¬ on_map ws c' (flow_id (env := cl) (w_nclock wc + j))) →
  (∀ c', c' ∈ w_retTimerQ ws → ∃ z, ctx_at ws c' = Some z ∧ at_rest z) → RSA_LEN ≤ T < 2 ^ 30 →
  ∃ h ys yr port, connection tries c l caddr saddr (mk_hosts ws wc) = Ok (Some d, h) ∧
    ctx_at (h_snd h) d = Some ys ∧ ctx_at (h_rcv h) c = Some yr ∧
    agreed (cl := cl) (sv := sv) caddr saddr port yr ys ∧
    (∀ evs, Forall event_valid evs →
     ∃ dat h' xs xr L, net_run (es := sv) (er := cl) S T d c evs h = Ok (dat, h') ∧ net_ok S T d c h' xs xr L ∧
       RSA_LEN ≤ tc_lastByteRead xr ≤ tc_lastByteWritten xs ∧
       dat = stream_bytes S RSA_LEN (tc_lastByteRead xr - RSA_LEN) ∧
       (roomy x → ∃ evs' dat' h'', Forall event_valid evs' ∧
          net_run (es := sv) (er := cl) S T d c evs' h' = Ok (dat', h'') ∧
          dat ++ dat' = stream_bytes S RSA_LEN (T - RSA_LEN))).
Proof using upc ups rnd kp.
  intros Hc Hs Hj Hfree Hrest HT.
  destruct (connection_spec S T wc ws c d l x y q caddr saddr tries j Hc Hs Hj Hfree Hrest HT) as (h & ys & yr & E & Hok & Hag & Hr & Hcl).
  exists h, ys, yr. eexists. split; [exact E|]. split; [apply Hok|]. split; [eapply rcv_ok_at, Hok|]. split; [exact Hag|].
  intros evs Hev.
  destruct (net_run_spec (es := sv) (er := cl) (ups := ups) (upr := upc) S T d c evs h ys yr [] Hok Hev) as (dat & h' & xs & xr & L & E' & [P1 P2 P3 P4 P5]).
  rewrite Hr in P3, P4. pose proof (nk_read _ _ _ _ _ _ _ _ P1) as Hle. pose proof (sk_total _ _ _ _ _ (nk_snd _ _ _ _ _ _ _ _ P1)) as Hto.
  exists dat, h', xs, xr, L. split; [exact E'|]. split; [exact P1|]. split; [split; [exact P3|exact Hle]|]. split; [exact P4|].
  intros Hroom. destruct (rest_arrives (es := sv) (er := cl) (ups := ups) (upr := upc) S T d c h' xs xr L P1 (P5 (Hcl Hroom)))
    as (evs2 & h2 & _ & _ & _ & E2 & Hev2 & _).
  exists evs2. eexists. exists h2. split; [exact Hev2|]. split; [exact E2|].
  replace (T - RSA_LEN) with ((tc_lastByteRead xr - RSA_LEN) + (T - tc_lastByteRead xr)) by lia.
  rewrite stream_bytes_app by lia. rewrite P4. do 2 f_equal. lia.
Qed.
End connection.

(** ** The two hosts of Establish.v *)

Lemma new_roomy {env : Env} c tv1 tv2 : roomy (new_ctx c tv1 tv2).
Proof.
  constructor; [reflexivity|change (0 ≤ 4 ≤ 14); lia|change (MAX_PAYLOAD ≤ DEF_READ_BUFLEN < 2 ^ 20); by split; vm_compute|].
  change (MAX_PAYLOAD ≤ u32 (Z.shiftl (Z.min (Z.shiftr DEF_READ_BUFLEN 4) 0x7FFF) 4)). by vm_compute.
Qed.

(** Data of the server crosses, the first segment twice; the acknowledgement is lost and sent again. *)
Definition session_events : list net_event :=
  [NWrite 3000; NDeliver 0 []; NDeliver 0 [7]; NSendAck; NRead 500; NSendAck; NAck 1; NDeliver 1 []; NTimer; NRead 5000].

Example connection_delivers_witness :
  ∃ h, connection (cl := toy_env) (sv := toy_env) 1 5 4 other_addr peer_addr (mk_hosts opening_server opening_client) = Ok (Some 5, h) ∧
    ∃ dat h' xs xr L, net_run (es := toy_env) (er := toy_env) (λ p, p mod 251) 5000 5 5 session_events h = Ok (dat, h') ∧
      net_ok (λ p, p mod 251) 5000 5 5 h' xs xr L ∧ RSA_LEN ≤ tc_lastByteRead xr ≤ tc_lastByteWritten xs ∧
      dat = stream_bytes (λ p, p mod 251) RSA_LEN (tc_lastByteRead xr - RSA_LEN) ∧
      ∃ evs' dat' h'', net_run (es := toy_env) (er := toy_env) (λ p, p mod 251) 5000 5 5 evs' h' = Ok (dat', h'') ∧
        dat ++ dat' = stream_bytes (λ p, p mod 251) RSA_LEN (5000 - RSA_LEN).
Proof.
  destruct (connection_delivers (upc := toy_up) (ups := toy_up) (rnd := toy_rand) (kp := toy_pair) (λ p, p mod 251) 5000
    opening_client opening_server 5 5 4 (opening_ctx 5) opening_listener (zeros 8) other_addr peer_addr 1 0)
    as (h & ys & yr & port & E & _ & _ & _ & H);
    [apply opening_client_ready|apply opening_server_ready|lia|intros c'; apply opening_server_map| |unfold RSA_LEN; lia|].
  - intros c ->%list_elem_of_singleton. exists opening_listener. split; [done|by constructor].
  - exists h. split; [exact E|].
    destruct (H session_events) as (dat & h' & xs & xr & L & E' & Hok & Hpp & Hb & Hall);
      [unfold session_events, event_valid; by repeat constructor|].
    destruct Hall as (evs' & dat' & h'' & _ & E2 & E3);
      [exact (new_roomy (env := toy_env) 5 (mk_timeval 990 0) (mk_timeval 991 0))|].
    exists dat, h', xs, xr, L. split; [exact E'|]. split; [exact Hok|]. split; [exact Hpp|]. split; [exact Hb|].
    exists evs', dat', h''. split; [exact E2|exact E3].
Defined.

(** The same run computed: bytes read, bytes written, bytes acknowledged. *)
Example session_run :
  ('(_, h) ← connection (cl := toy_env) (sv := toy_env) 1 5 4 other_addr peer_addr (mk_hosts opening_server opening_client);
   '(dat, h) ← net_run (es := toy_env) (er := toy_env) (λ p, p mod 251) 5000 5 5 session_events h;
   match ctx_at (h_snd h) 5 with
   | Some x => Ok (zlen dat, tc_lastByteWritten x, tc_lastByteAcked x)
   | None => Err NullDeref
   end) = Ok (2904, 3256, 1708).
Proof. vm_compute. reflexivity. Qed.
